(* ===== verification/_CoqProject ===== *)
-Q . S2P
Prelude.v
PyStr.v
Errors.v
Codecs.v
Time.v
Authorization.v
Url.v
UrlQuery.v
Ipaddress.v
Settings.v
Tables.v
Effects.v
UnitOfWork.v
Preserve.v
AuthRepository.v
AuthorizationRepository.v
AdminUserRepository.v
SampleItemRepository.v
Runs.v
Integrity.v
Lookups.v
RateLimiter.v
RateLimiterSpec.v
RedisRateLimiter.v
RedisRateLimiterSpec.v
Http.v
ErrorHandlers.v
ClientIp.v
Interfaces.v
OidcProviderClient.v
AuthUsecase.v
Guards.v
Demo.v
AccountDeletionUsecase.v
AuthorizationUsecase.v
AdminUserUsecase.v
Process.v
DatabaseConfig.v
Container.v
ContainerSpec.v
Manage.v
SampleItemUsecase.v
OAuthOidcUsecase.v
ComponentInterfaces.v
Interleaved.v
Concurrent.v
ConcurrentAlone.v
Interference.v
ConcurrentProtocol.v
ConcurrentFine.v
ConcurrentSpec.v
AuthController.v
AdminControllers.v
Application.v
Schemas.v
Routes.v
RoutesSpec.v
ResponseSchemas.v
AuthUsecaseSpec.v
Closure.v
SessionSpec.v
AccountSpec.v
AdminUserSpec.v
ManageSpec.v
Schema.v
Migration.v
Commands.v
SampleItemSpec.v
RedirectSpec.v
OidcSpec.v
OidcProviderClientSpec.v
WebSpec.v
RouteAnswers.v
Lifecycle.v
LifecycleSpec.v
AuthControllerSpec.v
OidcStartSpec.v
Histories.v
WebHistories.v
