(* ===== verification/Prelude.v ===== *)
(** * Verification of the python-react-template backend

    A model of the Python backend under src/backend (the package [app], the migration
    and manage.py) and the theorems that make it correct.  Paths below are relative to
    src/backend/app unless they start with src.

    ** How the program is modelled

    A coroutine that returns an [A] is a state transformer [M L A] over a [World]
    (Effects.v): the committed database, the open transaction or plain session, the
    counters of the outside sources (clock, [uuid4], [secrets]) and the state [L] of
    what lies outside the database (the rate limiter and the provider client).  An
    exception is the outcome [Raise e] and keeps the state reached.  What the program
    takes from outside is the class [Env]: streams and functions, of which a theorem
    assumes only what its hypotheses say.  HTTP handlers are computations [Web L A]
    over the same world that may also raise an HTTP error (Http.v).

    The database (Tables.v, UnitOfWork.v) is one finite map per table; INSERT and
    UPDATE check the constraints the tables declare, and a transaction works on a copy
    that is committed or dropped.

    ** Parts

    - Foundations: PyStr.v ([str]), Errors.v (models/*_errors.py), Time.v
      (libraries/sqlalchemy_types.py, models/time_serialization.py), Url.v, UrlQuery.v,
      Ipaddress.v and Codecs.v (what the code uses of [urllib.parse], [ipaddress],
      [base64] and [uuid]).
    - Configuration: Authorization.v (config/authorization.py), Settings.v
      (config/auth.py, config/oidc.py), DatabaseConfig.v (config/__init__.py,
      config/database.py, libraries/database_engine.py, the URL of
      src/backend/alembic/env.py).
    - Storage: Tables.v (models), Effects.v (libraries/clock.py, session_tokens.py,
      password_hasher.py), UnitOfWork.v (services/unit_of_work.py), and one file per
      repository: AuthRepository.v, AuthorizationRepository.v, AdminUserRepository.v,
      SampleItemRepository.v (services/..._repository.py).
    - Concurrent transactions: Interleaved.v (transactions as programs of single
      statements over a shared database at READ COMMITTED, with row, unique-index and
      advisory locks, as a step relation and a scheduler) and Concurrent.v (the methods
      and transactions of authentication written in it again: [request], [serve]).
    - Schema.v and Migration.v: data-definition statements, the version script
      under src/backend/alembic/versions, and the tables the models declare.
    - Rate limits: RateLimiter.v (libraries/auth_rate_limiter.py), RedisRateLimiter.v
      (libraries/redis_login_rate_limiter.py), behind the class [LoginRateLimiter]
      of Interfaces.v.
    - OpenID Connect: OidcProviderClient.v (services/oidc_provider_client.py),
      behind the class [OidcProviderClient] of Interfaces.v.
    - Use cases (usecases/..._usecase.py): AuthUsecase.v, AccountDeletionUsecase.v,
      AuthorizationUsecase.v, AdminUserUsecase.v, SampleItemUsecase.v,
      OAuthOidcUsecase.v.
    - ComponentInterfaces.v: the abstract classes of interfaces/services and
      interfaces/usecases as classes of operations, with their implementations.
    - Web: Http.v (libraries/auth_cookies.py), ErrorHandlers.v
      (bootstrap/error_handlers.py, models/problem_types.py), ClientIp.v
      (libraries/client_ip.py), Guards.v (bootstrap/csrf.py,
      controllers/auth_dependencies.py), AuthController.v, AdminControllers.v
      (controllers), Application.v (bootstrap/create_app.py, bootstrap/route.py),
      Schemas.v (the request schemas of models/*_schemas.py), Routes.v (every route:
      method, path, parameters, documented errors; how one is found),
      ResponseSchemas.v (the response schemas, models/error.py, the OpenAPI document).
    - The process: Process.v (the computations [Proc S A] of what starts, configures
      and ends the application), Container.v (bootstrap/modules.py, container.py and
      the constructors), Lifecycle.v (bootstrap/create_app.py, cli.py, [setup_routes],
      the lifespan).
    - Commands: Manage.v (the commands of src/backend/manage.py on the policy and the
      database) and Commands.v (those that call Alembic and uvicorn, and
      src/backend/alembic/env.py).
    - Histories.v: a [request] is one call of a use case or command; a history is any
      sequence of them.  WebHistories.v: an API request is a history.

    The files reason with shared libraries: Runs.v (what each repository method does
    from a world between two statements, as equations), Lookups.v (the same under the
    constraints), Preserve.v and Closure.v (invariants that every statement keeps,
    hence every method and use case: the classes [Steady] and [Closed], which differ in
    the statements that create and refresh sessions, the tactics [preserve] and
    [closed], the hint database [preserve]; and that what fails changes nothing),
    Integrity.v (the constraints as the invariant [db_ok]), Demo.v (a concrete
    environment on which hypotheses are shown to hold).  For requests that interleave,
    Interference.v is a rely-guarantee logic: a [Protocol] says what a transaction may
    write under which locks, [wp] and [fine] what a program does while others write
    within it, [pool_sound] that a pool of such programs is safe.
    ConcurrentProtocol.v is the backend's protocol, ConcurrentFine.v shows that every
    method keeps it, ConcurrentAlone.v that a program alone is the sequential use case.

    ** Theorems

    - Along histories (Histories.v, WebHistories.v): integrity; deletion of an account,
      logout and use of an authorization state are final, whatever follows; sessions
      expire at their idle and absolute limits however they are used.
    - While requests interleave (ConcurrentSpec.v): one callback at most consumes a
      state; live e-mails stay unique, a deletion is recorded once, the replays of a
      session are spaced; revocations, deletions and uses are never undone; and a
      request alone is the sequential use case.
    - Passwords and sessions (AuthUsecaseSpec.v, SessionSpec.v, AccountSpec.v):
      what login, registration, authentication, the CSRF token and deletion do on
      every branch (a login and a registration with the exact database they leave), that
      a session in use stays alive, that a correct login succeeds.
    - OpenID Connect (OidcStartSpec.v, OidcSpec.v, OidcProviderClientSpec.v,
      RedirectSpec.v): what authorizes a login or re-authentication, that failures
      change nothing, what validated claims mean, where a flow may redirect.
    - Rate limits (RateLimiterSpec.v, RedisRateLimiterSpec.v): the in-memory limiter
      refines a sliding-window contract, the Redis limiter gives the same answers
      while Redis serves, and the circuit breaker keeps a failing Redis alone.
    - Administration and items (AdminUserSpec.v, SampleItemSpec.v, SampleItemUsecase.v,
      ManageSpec.v): roles, sessions of changed users, search, ownership,
      pagination and its cursors.
    - Web (ClientIp.v, ErrorHandlers.v, WebSpec.v, AuthControllerSpec.v):
      client addresses, problem documents, CSRF, the administration gate, cookies and
      redirects.
    - Requests and responses (RoutesSpec.v, RouteAnswers.v, ResponseSchemas.v): the
      calls that reach an endpoint are exactly those within the declared types and
      limits; every answer, status and body, is one the route documents, but for the 400
      of FastAPI to a body that cannot be read; a route that writes is behind the CSRF
      token.
    - The process (ContainerSpec.v, LifecycleSpec.v, ComponentInterfaces.v,
      Commands.v): every component exists once, because every binding has the singleton
      scope, the application starts exactly with an acceptable configuration, hides its documentation in production, and releases
      what it used however it ends; no Alembic command runs without an explicit URL.
    - Configuration and schema (Authorization.v, Settings.v, Migration.v):
      accepted policies and settings are sound; the migration makes exactly the schema
      the models declare.

    ** Bounds of the model

    In histories requests run one after another: calls of use cases are interleaved as
    wholes, in any order.  Statement by statement only the requests of Concurrent.v
    interleave; there a statement of several rows (a bulk UPDATE or DELETE) is taken
    atomically, a transaction reads rows it has loaded anew (SQLAlchemy returns the object loaded
    before, which can differ from the row in what is returned, not in what is written), foreign keys take no
    locks, and the rate limiter is outside the shared state.  The sequential files do
    not show row locks.  Strings
    carry the code points below 256; where UTF-8 is decoded the decoder is a parameter.
    Times are integers of microseconds.  Integers of Python are [Z]; a column is given
    its width where it matters (Time.v).  The only fuel is that of the client loop of
    [pagination_complete], which is shown to be enough.

    ** Not modelled

    Third-party code is a parameter: Redis (the class [RedisClient]), the HTTP
    transport, Authlib and joserfc of the provider client, [make_url], the argon2
    library, Pydantic's conversions of texts, numbers and e-mail addresses (the class
    [Pydantic]), the injector (the class [Injector] with its documented rules
    [injector_laws]: only an interface bound with the singleton scope is made once), what is released at shutdown ([Resources]), Alembic, uvicorn and
    the terminal ([Tools]), FastAPI's documentation pages and [get_openapi], and
    Starlette's static files.  Left out are logging, the environment variables that
    pydantic-settings reads (a model is given what was read), the redirect URI that is
    handed to Authlib's client, the TypeScript frontend and the tests.  The texts
    [json] and [datetime] make of a cursor are the class [CursorCodec], of which the
    theorems assume that they are read back. *)

From Stdlib Require Export Ascii String ZArith Lia.
From stdpp Require Export base tactics option list gmap sets strings pretty sorting relations.

#[global] Open Scope Z_scope.
#[global] Open Scope list_scope.

Declare Scope backend_scope.
Delimit Scope backend_scope with backend.
#[global] Open Scope backend_scope.

Create HintDb backend.
Create HintDb integrity.
Create Rewrite HintDb backend.

(** ** Tactics of the development *)

(** Splits every conjunction, existential and equation of the context. *)
Ltac split_hyps :=
  repeat match goal with
  | H : _ /\ _ |- _ => destruct H
  | H : exists _, _ |- _ => destruct H
  | H : (_, _) = (_, _) |- _ => injection H; clear H; intros; subst
  | H : Some _ = Some _ |- _ => injection H; clear H; intros; subst
  end.

(** Turns boolean tests of the code into the propositions they decide. *)
Ltac bool_to_prop :=
  repeat match goal with
  | H : (_ && _)%bool = true |- _ => apply andb_true_iff in H; destruct H
  | H : (_ || _)%bool = false |- _ => apply orb_false_iff in H; destruct H
  | H : negb _ = true |- _ => apply negb_true_iff in H
  | H : negb _ = false |- _ => apply negb_false_iff in H
  | H : bool_decide _ = true |- _ => apply bool_decide_eq_true in H
  | H : bool_decide _ = false |- _ => apply bool_decide_eq_false in H
  | H : (_ <? _) = true |- _ => apply Z.ltb_lt in H
  | H : (_ <? _) = false |- _ => apply Z.ltb_ge in H
  | H : (_ <=? _) = true |- _ => apply Z.leb_le in H
  | H : (_ <=? _) = false |- _ => apply Z.leb_gt in H
  | H : (_ =? _)%string = true |- _ => apply String.eqb_eq in H
  | H : (_ =? _)%string = false |- _ => apply String.eqb_neq in H
  | H : (_ =? _) = true |- _ => apply Z.eqb_eq in H
  | H : (_ =? _) = false |- _ => apply Z.eqb_neq in H
  end.

(** Case analysis on the scrutinee of the first [match] or [if] of a hypothesis. *)
Ltac case_in H :=
  match type of H with
  | context [match ?x with _ => _ end] => destruct x eqn:?
  end.

(** ** Options *)

(** [x is None] and [x is not None] *)
Definition is_none {A} (o : option A) : bool := match o with None => true | Some _ => false end.
Definition is_some {A} (o : option A) : bool := negb (is_none o).

Lemma is_none_true {A} (o : option A) : is_none o = true -> o = None.
Proof. by destruct o. Qed.

(** ** Lists *)

Section Lists.
Context {A : Type}.
Implicit Types (l : list A) (p : A -> bool).

Fixpoint drop_while p l : list A :=
  match l with
  | [] => []
  | x :: l' => if p x then drop_while p l' else l
  end.

Lemma drop_while_suffix p l : exists k, l = k ++ drop_while p l /\ Forall (fun x => p x = true) k.
Proof.
  induction l as [|x l [k [E F]]]; simpl; [by exists []|].
  destruct (p x) eqn:Hx; [|by exists []].
  exists (x :: k); simpl; split; [by f_equal|by constructor].
Qed.

Lemma drop_while_idem p l : drop_while p (drop_while p l) = drop_while p l.
Proof.
  induction l as [|x l IH]; simpl; [done|].
  destruct (p x) eqn:E; [done|]. simpl. by rewrite E.
Qed.

Lemma drop_while_length p l : (length (drop_while p l) <= length l)%nat.
Proof. induction l as [|x l IH]; simpl; [done|]. destruct (p x); simpl; lia. Qed.

Lemma drop_while_none p l : Forall (fun x => p x = false) l -> drop_while p l = l.
Proof. destruct 1 as [|x l Hx _]; simpl; [done|by rewrite Hx]. Qed.

Lemma elem_of_drop_while p l x : x ∈ drop_while p l -> x ∈ l.
Proof.
  destruct (drop_while_suffix p l) as [k [E _]]. intros H. rewrite E.
  apply elem_of_app. by right.
Qed.

(** [dict.fromkeys]: the first occurrence of every element, in order. *)
Fixpoint dedup_from `{EqDecision A} (seen l : list A) : list A :=
  match l with
  | [] => []
  | x :: l' => if decide (x ∈ seen) then dedup_from seen l'
               else x :: dedup_from (x :: seen) l'
  end.
Definition dict_fromkeys `{EqDecision A} l : list A := dedup_from [] l.

Lemma elem_of_dedup_from `{EqDecision A} seen l x :
  x ∈ dedup_from seen l <-> x ∈ l /\ x ∉ seen.
Proof.
  revert seen. induction l as [|y l IH]; intros seen; simpl; [set_solver|].
  case_decide as Hy.
  - rewrite IH. set_solver.
  - rewrite elem_of_cons, IH, elem_of_cons. destruct (decide (x = y)); set_solver.
Qed.

Lemma NoDup_dedup_from `{EqDecision A} seen l : NoDup (dedup_from seen l).
Proof.
  revert seen. induction l as [|y l IH]; intros seen; simpl; [constructor|].
  case_decide; [done|]. constructor; [|done]. rewrite elem_of_dedup_from. set_solver.
Qed.

Lemma elem_of_dict_fromkeys `{EqDecision A} l x : x ∈ dict_fromkeys l <-> x ∈ l.
Proof. unfold dict_fromkeys. rewrite elem_of_dedup_from. set_solver. Qed.

Lemma NoDup_dict_fromkeys `{EqDecision A} l : NoDup (dict_fromkeys l).
Proof. apply NoDup_dedup_from. Qed.
End Lists.

#[export] Hint Rewrite @elem_of_dict_fromkeys : backend.
#[export] Hint Resolve @NoDup_dict_fromkeys : backend.

(** [sorted] of a set of strings: Python orders strings by code point, which is
    the order of [String.leb]. *)
Definition sorted (l : list string) : list string := merge_sort String.le l.

Lemma elem_of_sorted l x : x ∈ sorted l <-> x ∈ l.
Proof. unfold sorted. by rewrite merge_sort_Permutation. Qed.

Lemma NoDup_sorted l : NoDup l -> NoDup (sorted l).
Proof. unfold sorted. by rewrite merge_sort_Permutation. Qed.

Lemma Sorted_sorted l : Sorted String.le (sorted l).
Proof. apply Sorted_merge_sort, _. Qed.

#[export] Hint Rewrite elem_of_sorted : backend.
#[export] Hint Resolve NoDup_sorted Sorted_sorted : backend.

(** Iterating a partial update over a list keeps what every step keeps. *)
Lemma foldl_invariant {A S} (f : S -> A -> S) (I : S -> Prop) (l : list A) (s : S) :
  I s -> (forall s a, I s -> I (f s a)) -> I (foldl f s l).
Proof. intros Hs Hf. revert s Hs. induction l; simpl; auto. Qed.
