(* ===== verification/PyStr.v ===== *)
(** * Python strings

    The operations of Python's [str] that the backend calls ([strip], [lower],
    [rstrip], [startswith], [split], [replace], slicing, [in]).  A string is a
    sequence of code points; Rocq's 8-bit [ascii] carries the code points below
    256, so case mapping and white space are Python's on that range. *)

From S2P Require Import Prelude.

(** ** Characters *)

Definition code (c : ascii) : Z := Z.of_N (N_of_ascii c).

(** [str.isspace] on one code point below 256. *)
Definition is_space (c : ascii) : bool :=
  let n := code c in
  ((9 <=? n) && (n <=? 13)) || ((28 <=? n) && (n <=? 32)) || (n =? 133) || (n =? 160).

(** [str.lower] on one code point below 256: A-Z and the Latin-1 capitals. *)
Definition lower_char (c : ascii) : ascii :=
  let n := code c in
  if ((65 <=? n) && (n <=? 90)) || ((192 <=? n) && (n <=? 222) && negb (n =? 215))
  then ascii_of_N (Z.to_N (n + 32)) else c.

(** [str.upper] on a code point of the ASCII range. *)
Definition upper_char (c : ascii) : ascii :=
  let n := code c in
  if (97 <=? n) && (n <=? 122) then ascii_of_N (Z.to_N (n - 32)) else c.

Definition is_digit (c : ascii) : bool := let n := code c in (48 <=? n) && (n <=? 57).

(** Facts about single characters are decided by enumerating the 256 of them. *)
Definition all_chars : list ascii := map ascii_of_nat (seq 0 256).

Lemma all_chars_spec (P : ascii -> bool) :
  forallb P all_chars = true -> forall c, P c = true.
Proof.
  intros H c. rewrite forallb_forall in H. apply H.
  unfold all_chars. apply in_map_iff. exists (nat_of_ascii c).
  split; [apply ascii_nat_embedding|].
  apply in_seq. pose proof (nat_ascii_bounded c). lia.
Qed.

Lemma lower_char_idem c : lower_char (lower_char c) = lower_char c.
Proof.
  apply Ascii.eqb_eq.
  apply (all_chars_spec (fun c => Ascii.eqb (lower_char (lower_char c)) (lower_char c))).
  vm_compute; reflexivity.
Qed.

Lemma is_space_lower c : is_space (lower_char c) = is_space c.
Proof.
  apply eqb_prop.
  apply (all_chars_spec (fun c => Bool.eqb (is_space (lower_char c)) (is_space c))).
  vm_compute; reflexivity.
Qed.

(** ** Strings as lists of characters *)

Notation chars := list_ascii_of_string.
Notation of_chars := string_of_list_ascii.

Lemma of_chars_chars s : of_chars (chars s) = s.
Proof. apply string_of_list_ascii_of_string. Qed.
Lemma chars_of_chars l : chars (of_chars l) = l.
Proof. apply list_ascii_of_string_of_list_ascii. Qed.
#[export] Hint Rewrite of_chars_chars chars_of_chars : backend.

Lemma chars_inj s t : chars s = chars t -> s = t.
Proof. intros H. by rewrite <- (of_chars_chars s), <- (of_chars_chars t), H. Qed.

Lemma chars_app s t : chars (s ++ t)%string = chars s ++ chars t.
Proof. induction s as [|c s IH]; simpl; [done|]. by rewrite IH. Qed.

Lemma chars_length s : length (chars s) = String.length s.
Proof. induction s; simpl; congruence. Qed.

Lemma chars_nil s : chars s = [] <-> s = ""%string.
Proof. by destruct s. Qed.

(** [len(s)]. *)
Definition str_len (s : string) : Z := Z.of_nat (String.length s).

Definition lower (s : string) : string := of_chars (map lower_char (chars s)).
Definition upper (s : string) : string := of_chars (map upper_char (chars s)).

Definition lstrip_by (p : ascii -> bool) (l : list ascii) : list ascii := drop_while p l.
Definition rstrip_by (p : ascii -> bool) (l : list ascii) : list ascii :=
  rev (drop_while p (rev l)).
Definition strip_by (p : ascii -> bool) (l : list ascii) : list ascii :=
  rstrip_by p (lstrip_by p l).

(** [s.strip()] *)
Definition strip (s : string) : string := of_chars (strip_by is_space (chars s)).
(** [s.strip(c)], [s.rstrip(c)], [s.lstrip(c)] for a one-character argument *)
Definition strip_char (c : ascii) (s : string) : string :=
  of_chars (strip_by (Ascii.eqb c) (chars s)).
Definition rstrip_char (c : ascii) (s : string) : string :=
  of_chars (rstrip_by (Ascii.eqb c) (chars s)).
Definition lstrip_char (c : ascii) (s : string) : string :=
  of_chars (lstrip_by (Ascii.eqb c) (chars s)).

Definition startswith (s p : string) : bool := String.prefix p s.
Definition contains_char (c : ascii) (s : string) : bool := existsb (Ascii.eqb c) (chars s).

(** [s.endswith(p)] *)
Definition endswith (s p : string) : bool :=
  String.prefix (of_chars (rev (chars p))) (of_chars (rev (chars s))).

(** [p in s] for strings *)
Fixpoint contains (s p : string) : bool :=
  startswith s p || match s with EmptyString => false | String _ s' => contains s' p end.

(** [s[:n]] and [s[n:]] for 0 <= n *)
Definition take_str (n : nat) (s : string) : string := of_chars (take n (chars s)).
Definition drop_str (n : nat) (s : string) : string := of_chars (drop n (chars s)).

(** [s.split(c)] for a one-character separator: never empty. *)
Fixpoint split_chars (c : ascii) (l : list ascii) : list (list ascii) :=
  match l with
  | [] => [[]]
  | x :: l' =>
      let r := split_chars c l' in
      if Ascii.eqb c x then [] :: r
      else match r with [] => [[x]] | p :: ps => (x :: p) :: ps end
  end.
Definition split (c : ascii) (s : string) : list string := map of_chars (split_chars c (chars s)).

(** [s.split()]: the maximal runs of non-space characters. *)
Fixpoint words_chars (cur l : list ascii) : list (list ascii) :=
  match l with
  | [] => match cur with [] => [] | _ => [rev cur] end
  | x :: l' => if is_space x then match cur with [] => words_chars [] l'
                                  | _ => rev cur :: words_chars [] l' end
               else words_chars (x :: cur) l'
  end.
Definition split_ws (s : string) : list string := map of_chars (words_chars [] (chars s)).

(** [sep.join(parts)] *)
Definition join (sep : string) (parts : list string) : string := String.concat sep parts.

(** [s.replace(c, t)] for a one-character pattern *)
Fixpoint replace_char (c : ascii) (t : string) (s : string) : string :=
  match s with
  | EmptyString => EmptyString
  | String x s' => if Ascii.eqb c x then (t ++ replace_char c t s')%string
                   else String x (replace_char c t s')
  end.

(** Truthiness of a string and of an optional string. *)
Definition truthy (s : string) : bool := negb (s =? "")%string.
Definition truthy_opt (o : option string) : bool :=
  match o with Some s => truthy s | None => false end.
(** [value or default] on an optional string *)
Definition or_else (o : option string) (d : string) : string :=
  match o with Some s => if truthy s then s else d | None => d end.

(** ** Laws *)

Lemma lower_length s : String.length (lower s) = String.length s.
Proof. unfold lower. rewrite <- !chars_length, chars_of_chars. by rewrite length_map. Qed.

Lemma lower_idem s : lower (lower s) = lower s.
Proof.
  unfold lower. rewrite chars_of_chars, map_map. f_equal.
  apply map_ext. intros. apply lower_char_idem.
Qed.

Lemma drop_while_map {A B} (f : A -> B) (p : B -> bool) (q : A -> bool) l :
  (forall x, p (f x) = q x) -> drop_while p (map f l) = map f (drop_while q l).
Proof.
  intros H. induction l as [|x l IH]; simpl; [done|].
  rewrite H. by destruct (q x).
Qed.

Lemma strip_by_map (f : ascii -> ascii) p l :
  (forall x, p (f x) = p x) -> strip_by p (map f l) = map f (strip_by p l).
Proof.
  intros H. unfold strip_by, lstrip_by, rstrip_by.
  rewrite (drop_while_map f p p) by done.
  by rewrite <- map_rev, (drop_while_map f p p), map_rev by done.
Qed.

(** Stripping keeps a left-stripped prefix left-stripped. *)
Lemma lstrip_rstrip p l :
  drop_while p (rstrip_by p (drop_while p l)) = rstrip_by p (drop_while p l).
Proof.
  unfold rstrip_by. set (m := drop_while p l).
  destruct (drop_while_suffix p (rev m)) as [k [E F]].
  assert (Em : m = rev (drop_while p (rev m)) ++ rev k).
  { rewrite <- rev_app_distr, <- E. by rewrite rev_involutive. }
  destruct (rev (drop_while p (rev m))) as [|x r] eqn:Er; [done|]. simpl in *.
  destruct (p x) eqn:Hx; [|done].
  exfalso. subst m. assert (drop_while p (drop_while p l) = drop_while p l) as D
    by apply drop_while_idem. rewrite Em in D. simpl in D. rewrite Hx in D.
  pose proof (drop_while_length p (r ++ rev k)) as L. rewrite D in L. simpl in L. lia.
Qed.

Lemma strip_by_idem p l : strip_by p (strip_by p l) = strip_by p l.
Proof.
  unfold strip_by, lstrip_by. rewrite lstrip_rstrip.
  unfold rstrip_by. by rewrite rev_involutive, drop_while_idem.
Qed.

Lemma strip_idem s : strip (strip s) = strip s.
Proof. unfold strip. by rewrite chars_of_chars, strip_by_idem. Qed.

Lemma strip_lower s : strip (lower s) = lower (strip s).
Proof.
  unfold strip, lower. rewrite !chars_of_chars, strip_by_map by apply is_space_lower. done.
Qed.

(** [email.strip().lower()], the normalisation applied to every address. *)
Definition normalize_email (email : string) : string := lower (strip email).

Lemma normalize_email_idem e : normalize_email (normalize_email e) = normalize_email e.
Proof. unfold normalize_email. by rewrite strip_lower, strip_idem, lower_idem. Qed.

Lemma lower_normalize_email e : lower (normalize_email e) = normalize_email e.
Proof. apply lower_idem. Qed.
#[export] Hint Rewrite lower_idem strip_idem normalize_email_idem lower_normalize_email : backend.

(** [",".join(s.split(","))] is [s]: no character is lost by splitting. *)
Lemma split_chars_ne c l : split_chars c l <> [].
Proof.
  destruct l as [|x l]; simpl; [done|].
  destruct (Ascii.eqb c x); [done|]. by destruct (split_chars c l).
Qed.

Lemma elem_of_split_chars c l p : p ∈ split_chars c l -> c ∉ p.
Proof.
  revert p. induction l as [|x l IH]; simpl; intros p Hp.
  - apply list_elem_of_singleton in Hp as ->. apply not_elem_of_nil.
  - destruct (Ascii.eqb c x) eqn:E.
    + apply elem_of_cons in Hp as [->|Hp]; [apply not_elem_of_nil|auto].
    + apply Ascii.eqb_neq in E. destruct (split_chars c l) as [|q qs].
      * apply list_elem_of_singleton in Hp as ->.
        apply not_elem_of_cons; split; [done|apply not_elem_of_nil].
      * apply elem_of_cons in Hp as [->|Hp].
        -- apply not_elem_of_cons; split; [done|]. apply IH, elem_of_cons. by left.
        -- apply IH, elem_of_cons. by right.
Qed.

Lemma startswith_app s p : startswith s p = true <-> exists k, chars s = chars p ++ k.
Proof.
  unfold startswith. revert s. induction p as [|c p IH]; intros s; simpl.
  - split; [by exists (chars s)|]. by destruct s.
  - destruct s as [|d s]; simpl; [split; [done|by intros [k ?]]|].
    destruct (ascii_dec c d) as [->|Hne].
    + rewrite IH. split; intros [k Hk]; exists k; [by rewrite Hk|by injection Hk].
    + split; [done|]. intros [k [= -> _]]. done.
Qed.

Lemma truthy_spec s : truthy s = true <-> s <> "".
Proof. unfold truthy. rewrite negb_true_iff. apply String.eqb_neq. Qed.

Lemma truthy_opt_or_else o d : truthy_opt o = false -> or_else o d = d.
Proof. destruct o; simpl; [|done]. intros ->. done. Qed.

(** ** [str(uuid)] of a 128-bit UUID *)

Definition hex_digit (n : Z) : ascii :=
  ascii_of_N (Z.to_N (if n <? 10 then 48 + n else 87 + n)).
Fixpoint hex_digits (k : nat) (n : Z) : list ascii :=
  match k with
  | O => []
  | S k' => hex_digits k' (n / 16) ++ [hex_digit (n mod 16)]
  end.
Definition uuid_str (id : Z) : string :=
  let h := hex_digits 32 id in
  let part i n := of_chars (take n (drop i h)) in
  join "-" [part 0%nat 8%nat; part 8%nat 4%nat; part 12%nat 4%nat; part 16%nat 4%nat; part 20%nat 12%nat].

Example uuid_str_example :
  uuid_str 24197857161011715162171839636988778104 = "12345678-1234-5678-1234-567812345678"%string.
Proof. vm_compute. reflexivity. Qed.

(** ** [base64.urlsafe_b64encode] *)

Definition b64_char (n : Z) : ascii :=
  ascii_of_N (Z.to_N (if n <? 26 then 65 + n else if n <? 52 then 71 + n
                      else if n <? 62 then n - 4 else if n =? 62 then 45 else 95)).
Fixpoint b64_encode (bytes : list Z) : list ascii :=
  match bytes with
  | a :: b :: c :: rest =>
      [b64_char (a / 4); b64_char (a mod 4 * 16 + b / 16); b64_char (b mod 16 * 4 + c / 64);
       b64_char (c mod 64)] ++ b64_encode rest
  | [a; b] => [b64_char (a / 4); b64_char (a mod 4 * 16 + b / 16); b64_char (b mod 16 * 4);
               "="%char]
  | [a] => [b64_char (a / 4); b64_char (a mod 4 * 16); "="%char; "="%char]
  | [] => []
  end.
Definition urlsafe_b64encode (bytes : list Z) : string := of_chars (b64_encode bytes).

Example b64_example : urlsafe_b64encode [104; 105; 255; 254] = "aGn__g=="%string.
Proof. vm_compute. reflexivity. Qed.

(** The bytes of a hexadecimal digest. *)
Definition unhex_digit (c : ascii) : Z := if is_digit c then code c - 48 else code c - 87.
Fixpoint unhex (l : list ascii) : list Z :=
  match l with a :: b :: l' => unhex_digit a * 16 + unhex_digit b :: unhex l' | _ => [] end.

Lemma chars_replace c t s :
  chars (replace_char c t s) = flat_map (fun x => if Ascii.eqb c x then chars t else [x]) (chars s).
Proof.
  induction s as [|x s IH]; [done|]. cbn [replace_char list_ascii_of_string flat_map].
  destruct (Ascii.eqb c x); [by rewrite chars_app, IH|]. simpl. by rewrite IH.
Qed.
