(* ===== verification/Errors.v ===== *)
(** * Exceptions and results

    The exception classes of src/backend/app/models/*_errors.py, the Python and
    SQLAlchemy exceptions the code raises or catches, and the outcome of a call. *)

From S2P Require Import Prelude PyStr.

(** The purposes of an OIDC authorization ([OidcAuthorizationPurpose]). *)
(* src: backend/app/models/oidc.py:7-7 OidcAuthorizationPurpose *)
Inductive oidc_purpose := PurposeLogin | PurposeAccountDeletionReauth.

#[export] Instance oidc_purpose_eq_dec : EqDecision oidc_purpose.
Proof. solve_decision. Defined.

(* src: backend/app/models/oidc.py:7-7 OidcAuthorizationPurpose *)
Definition purpose_str (p : oidc_purpose) : string :=
  match p with
  | PurposeLogin => "login"
  | PurposeAccountDeletionReauth => "account_deletion_reauth"
  end.

(** OIDC exceptions without a payload that the code looks at. *)
(* src: backend/app/models/oidc_errors.py:1-79 Oidc*Error *)
Inductive oidc_error :=
| OidcProviderNotConfiguredError
| OidcProviderUnavailableError
| OidcProviderMetadataError
| OidcStateMismatchError
| OidcBrowserBindingMismatchError
| OidcTokenExchangeError
| OidcProviderAccessDeniedError
| OidcClaimsValidationError
| OidcEmailNotVerifiedError
| OidcProvisioningDisabledError
| OidcIdentityLinkRequiredError
| OidcIdentityLinkDisabledError
| OidcIdentityUnavailableError
| OidcAuthorizationRateLimitedError
| OidcReauthSubjectMismatchError
| OidcReauthAuthenticationRequiredError
| OidcReauthAuthTimeRequiredError
| OidcReauthStaleError.

#[export] Instance oidc_error_eq_dec : EqDecision oidc_error.
Proof. solve_decision. Defined.

(** Every exception the modelled code raises, catches or lets through. *)
(* src: backend/app/models/auth_errors.py:4-53 auth_errors *)
Inductive exn :=
| EmailAlreadyRegisteredError
| InvalidCredentialsError
| RateLimitExceededError (retry_after_seconds : option Z)
| AccountDeletionConfirmationMismatchError
| AccountDeletionReauthRequiredError
| AccountDeletionInvalidPasswordError
| AccountDeletionOidcReauthRequiredError (linked_providers : list (string * string))
| WeakPasswordError (message : string)
| UserNotFoundError (user_id : Z)
| AuthSessionNotFoundError (session_id : Z)
| RoleNotFoundError (role_codes : gset string)
| AuthorizationUserNotFoundError (user_id : Z)
| SampleItemNotFoundError
| InvalidSampleItemCursorError
| OidcError (e : oidc_error)
| OidcCallbackFlowError (error : exn) (purpose : oidc_purpose) (redirect_path : string)
| ValueError (message : string)
| KeyError (key : string)
| RuntimeError (message : string)
| IntegrityError
| StatementError
| InvalidRequestError
| StaleDataError
| MultipleResultsFound
| AttributeError (message : string)
| TypeError (message : string)
| TyperExit (code : Z).

(** [type(error).__name__] *)
(* src: backend/app/models/oidc_errors.py:1-79 Oidc*Error *)
Definition oidc_error_name (e : oidc_error) : string :=
  match e with
  | OidcProviderNotConfiguredError => "OidcProviderNotConfiguredError"
  | OidcProviderUnavailableError => "OidcProviderUnavailableError"
  | OidcProviderMetadataError => "OidcProviderMetadataError"
  | OidcStateMismatchError => "OidcStateMismatchError"
  | OidcBrowserBindingMismatchError => "OidcBrowserBindingMismatchError"
  | OidcTokenExchangeError => "OidcTokenExchangeError"
  | OidcProviderAccessDeniedError => "OidcProviderAccessDeniedError"
  | OidcClaimsValidationError => "OidcClaimsValidationError"
  | OidcEmailNotVerifiedError => "OidcEmailNotVerifiedError"
  | OidcProvisioningDisabledError => "OidcProvisioningDisabledError"
  | OidcIdentityLinkRequiredError => "OidcIdentityLinkRequiredError"
  | OidcIdentityLinkDisabledError => "OidcIdentityLinkDisabledError"
  | OidcIdentityUnavailableError => "OidcIdentityUnavailableError"
  | OidcAuthorizationRateLimitedError => "OidcAuthorizationRateLimitedError"
  | OidcReauthSubjectMismatchError => "OidcReauthSubjectMismatchError"
  | OidcReauthAuthenticationRequiredError => "OidcReauthAuthenticationRequiredError"
  | OidcReauthAuthTimeRequiredError => "OidcReauthAuthTimeRequiredError"
  | OidcReauthStaleError => "OidcReauthStaleError"
  end.

Definition exn_name (e : exn) : string :=
  match e with
  | EmailAlreadyRegisteredError => "EmailAlreadyRegisteredError"
  | InvalidCredentialsError => "InvalidCredentialsError"
  | RateLimitExceededError _ => "RateLimitExceededError"
  | AccountDeletionConfirmationMismatchError => "AccountDeletionConfirmationMismatchError"
  | AccountDeletionReauthRequiredError => "AccountDeletionReauthRequiredError"
  | AccountDeletionInvalidPasswordError => "AccountDeletionInvalidPasswordError"
  | AccountDeletionOidcReauthRequiredError _ => "AccountDeletionOidcReauthRequiredError"
  | WeakPasswordError _ => "WeakPasswordError"
  | UserNotFoundError _ => "UserNotFoundError"
  | AuthSessionNotFoundError _ => "AuthSessionNotFoundError"
  | RoleNotFoundError _ => "RoleNotFoundError"
  | AuthorizationUserNotFoundError _ => "AuthorizationUserNotFoundError"
  | SampleItemNotFoundError => "SampleItemNotFoundError"
  | InvalidSampleItemCursorError => "InvalidSampleItemCursorError"
  | OidcError e => oidc_error_name e
  | OidcCallbackFlowError _ _ _ => "OidcCallbackFlowError"
  | ValueError _ => "ValueError"
  | KeyError _ => "KeyError"
  | RuntimeError _ => "RuntimeError"
  | IntegrityError => "IntegrityError"
  | StatementError => "StatementError"
  | InvalidRequestError => "InvalidRequestError"
  | StaleDataError => "StaleDataError"
  | MultipleResultsFound => "MultipleResultsFound"
  | AttributeError _ => "AttributeError"
  | TypeError _ => "TypeError"
  | TyperExit _ => "Exit"
  end.

(** The outcome of a call: a value or an exception. *)
Inductive result (A : Type) := Ok (a : A) | Raise (e : exn).
Arguments Ok {A} a.
Arguments Raise {A} e.

Definition is_ok {A} (r : result A) : Prop := match r with Ok _ => True | Raise _ => False end.

#[export] Instance result_bind : MBind result :=
  fun A B f r => match r with Ok a => f a | Raise e => Raise e end.
#[export] Instance result_ret : MRet result := fun A a => Ok a.
