(* ===== verification/Codecs.v ===== *)
(** * Texts of bytes and identifiers

    Python's lenient [base64.urlsafe_b64decode] and the constructor [UUID(hex)], with
    the proofs that they read back what [urlsafe_b64encode] and [str(uuid)] write. *)

From S2P Require Import Prelude PyStr Errors.

(** ** [base64.urlsafe_b64decode] *)

(** The value of a character of the alphabet after [-] and [_] were translated. *)
Definition b64_value (c : ascii) : option Z :=
  let n := code c in
  if (65 <=? n) && (n <=? 90) then Some (n - 65)
  else if (97 <=? n) && (n <=? 122) then Some (n - 71)
  else if (48 <=? n) && (n <=? 57) then Some (n + 4)
  else if (n =? 45) || (n =? 43) then Some 62
  else if (n =? 95) || (n =? 47) then Some 63
  else None.

(** [binascii.a2b_base64] without strict mode: characters outside the alphabet are
    skipped, padding ends the input once it completes a quad.  [quad] counts the
    characters of the current quad, [left] holds its bits that are not yet out,
    [pads] the padding seen in it; [None] is [binascii.Error]. *)
Fixpoint a2b_base64 (l : list ascii) (quad left pads : Z) : option (list Z) :=
  match l with
  | [] => if quad =? 0 then Some [] else None
  | c :: rest =>
      if Ascii.eqb c "=" then
        if 2 <=? quad then
          if 4 <=? quad + (pads + 1) then Some [] else a2b_base64 rest quad left (pads + 1)
        else a2b_base64 rest quad left pads
      else
        match b64_value c with
        | None => a2b_base64 rest quad left pads
        | Some v =>
            if quad =? 0 then a2b_base64 rest 1 v 0
            else if quad =? 1 then (fun out => left * 4 + v / 16 :: out) <$> a2b_base64 rest 2 (v mod 16) 0
            else if quad =? 2 then (fun out => left * 16 + v / 4 :: out) <$> a2b_base64 rest 3 (v mod 4) 0
            else (fun out => left * 64 + v :: out) <$> a2b_base64 rest 0 0 0
        end
  end.
Definition urlsafe_b64decode (s : string) : option (list Z) := a2b_base64 (chars s) 0 0 0.

Example b64decode_examples :
  (urlsafe_b64decode "aGn__g==", urlsafe_b64decode "a G!n_", urlsafe_b64decode "aG", urlsafe_b64decode "a",
   urlsafe_b64decode "")
  = (Some [104; 105; 255; 254], Some [104; 105; 255], None, None, Some []).
Proof. vm_compute. reflexivity. Qed.

Lemma b64_char_values n :
  0 <= n < 64 -> Ascii.eqb (b64_char n) "=" = false /\ b64_value (b64_char n) = Some n.
Proof.
  intros Hn. assert (forallb (fun k => let n := Z.of_nat k in negb (Ascii.eqb (b64_char n) "=")
    && bool_decide (b64_value (b64_char n) = Some n)) (seq 0 64) = true) as H by (vm_compute; reflexivity).
  rewrite forallb_forall in H. specialize (H (Z.to_nat n)). rewrite Z2Nat.id in H by lia.
  apply andb_true_iff in H as [H1 H2]; [|apply in_seq; lia].
  by apply negb_true_iff in H1; apply bool_decide_eq_true in H2.
Qed.

(** One character of the alphabet. *)
Lemma a2b_data n rest quad left pads :
  0 <= n < 64 ->
  a2b_base64 (b64_char n :: rest) quad left pads
  = if quad =? 0 then a2b_base64 rest 1 n 0
    else if quad =? 1 then (fun out => left * 4 + n / 16 :: out) <$> a2b_base64 rest 2 (n mod 16) 0
    else if quad =? 2 then (fun out => left * 16 + n / 4 :: out) <$> a2b_base64 rest 3 (n mod 4) 0
    else (fun out => left * 64 + n :: out) <$> a2b_base64 rest 0 0 0.
Proof. intros Hn. cbn [a2b_base64]. by destruct (b64_char_values n Hn) as [-> ->]. Qed.

Definition is_byte (n : Z) : Prop := 0 <= n < 256.

Ltac sextets := unfold is_byte in *; Z.to_euclidean_division_equations; lia.

Lemma a2b_one a left pads rest :
  is_byte a -> a2b_base64 (b64_char (a / 4) :: b64_char (a mod 4 * 16) :: "="%char :: "="%char :: rest) 0 left pads
  = Some [a].
Proof.
  intros Ha. rewrite a2b_data by sextets. change (0 =? 0) with true. cbv iota.
  rewrite a2b_data by sextets. change (1 =? 0) with false. change (1 =? 1) with true. cbv iota.
  cbn [a2b_base64]. change (4 <=? 2 + (0 + 1)) with false. change (4 <=? 2 + (0 + 1 + 1)) with true.
  cbn. do 2 f_equal. sextets.
Qed.

Lemma a2b_two a b left pads rest :
  is_byte a -> is_byte b ->
  a2b_base64 (b64_char (a / 4) :: b64_char (a mod 4 * 16 + b / 16) :: b64_char (b mod 16 * 4) :: "="%char :: rest)
    0 left pads = Some [a; b].
Proof.
  intros Ha Hb. rewrite a2b_data by sextets. change (0 =? 0) with true. cbv iota.
  rewrite a2b_data by sextets. change (1 =? 0) with false. change (1 =? 1) with true. cbv iota.
  rewrite a2b_data by sextets. change (2 =? 0) with false. change (2 =? 1) with false.
  change (2 =? 2) with true. cbv iota. cbn [a2b_base64]. change (4 <=? 3 + (0 + 1)) with true.
  cbn. f_equal. f_equal; [sextets|]. f_equal. sextets.
Qed.

Lemma a2b_three a b c left pads rest :
  is_byte a -> is_byte b -> is_byte c ->
  a2b_base64 (b64_char (a / 4) :: b64_char (a mod 4 * 16 + b / 16) :: b64_char (b mod 16 * 4 + c / 64)
              :: b64_char (c mod 64) :: rest) 0 left pads
  = (fun out => a :: b :: c :: out) <$> a2b_base64 rest 0 0 0.
Proof.
  intros Ha Hb Hc. rewrite a2b_data by sextets. change (0 =? 0) with true. cbv iota.
  rewrite a2b_data by sextets. change (1 =? 0) with false. change (1 =? 1) with true. cbv iota.
  rewrite a2b_data by sextets. change (2 =? 0) with false. change (2 =? 1) with false.
  change (2 =? 2) with true. cbv iota. rewrite a2b_data by sextets.
  change (3 =? 0) with false. change (3 =? 1) with false. change (3 =? 2) with false. cbv iota.
  destruct (a2b_base64 rest 0 0 0); [|done]. cbn. f_equal.
  f_equal; [sextets|]. f_equal; [sextets|]. f_equal. sextets.
Qed.

Lemma b64_ind (P : list Z -> Prop) :
  P [] -> (forall a, P [a]) -> (forall a b, P [a; b]) ->
  (forall a b c l, P l -> P (a :: b :: c :: l)) -> forall l, P l.
Proof.
  intros H0 H1 H2 H3. fix IH 1. intros [|a [|b [|c l]]]; [done..|]. apply H3, IH.
Qed.

Lemma urlsafe_b64_round_trip l :
  Forall is_byte l -> urlsafe_b64decode (urlsafe_b64encode l) = Some l.
Proof.
  unfold urlsafe_b64decode, urlsafe_b64encode. rewrite chars_of_chars.
  induction l as [|a|a b|a b c l IH] using b64_ind; rewrite ?Forall_cons; intros Hl; simpl b64_encode.
  - done.
  - apply a2b_one; tauto.
  - apply a2b_two; tauto.
  - rewrite a2b_three by tauto. by rewrite IH by tauto.
Qed.

(** ** [UUID(hex)] *)

(** [s.replace(t, "")] of a pattern that is not empty. *)
Fixpoint remove_chars (t l : list ascii) (skip : nat) : list ascii :=
  match l with
  | [] => []
  | c :: rest =>
      match skip with
      | S k => remove_chars t rest k
      | O => if bool_decide (take (length t) l = t) then remove_chars t rest (pred (length t))
             else c :: remove_chars t rest 0
      end
  end.
Definition remove_str (t : string) (l : list ascii) : list ascii := remove_chars (chars t) l 0.

Example remove_example : remove_str "aab" (chars "aaabaab-") = chars "a-".
Proof. vm_compute. reflexivity. Qed.

(** The value of a hexadecimal digit. *)
Definition digit_value (c : ascii) : option Z :=
  let n := code c in
  if (48 <=? n) && (n <=? 57) then Some (n - 48)
  else if (97 <=? n) && (n <=? 102) then Some (n - 87)
  else if (65 <=? n) && (n <=? 70) then Some (n - 55)
  else None.

(** The digits of [int(text, 16)], with single underscores between them: [seen] tells
    whether the last character was a digit. *)
Fixpoint int_digits (l : list ascii) (acc : Z) (seen : bool) : option Z :=
  match l with
  | [] => if seen then Some acc else None
  | c :: rest =>
      if Ascii.eqb c "_" then if seen then int_digits rest acc false else None
      else match digit_value c with Some v => int_digits rest (acc * 16 + v) true | None => None end
  end.

(** The white space [int] strips: that of C for a text that is all ASCII, that of
    [str] otherwise. *)
Definition int_space (l : list ascii) (c : ascii) : bool :=
  if forallb (fun c => code c <? 128) l then ((9 <=? code c) && (code c <=? 13)) || (code c =? 32)
  else is_space c.
Definition int_prefix (l : list ascii) : list ascii :=
  match l with
  | "0"%char :: "x"%char :: "_"%char :: rest | "0"%char :: "X"%char :: "_"%char :: rest => rest
  | "0"%char :: "x"%char :: rest | "0"%char :: "X"%char :: rest => rest
  | _ => l
  end.
Definition int_base16 (l : list ascii) : option Z :=
  match strip_by (int_space l) l with
  | "+"%char :: rest => int_digits (int_prefix rest) 0 false
  | "-"%char :: rest => Z.opp <$> int_digits (int_prefix rest) 0 false
  | rest => int_digits (int_prefix rest) 0 false
  end.

(** [None] is [ValueError]. *)
Definition uuid_of_hex (text : string) : option Z :=
  let hex := remove_str "uuid:" (remove_str "urn:" (chars text)) in
  let hex := strip_by (fun c => Ascii.eqb c "{" || Ascii.eqb c "}") hex in
  let hex := List.filter (fun c => negb (Ascii.eqb c "-")) hex in
  if Nat.eqb (length hex) 32 then
    n ← int_base16 hex;
    if (0 <=? n) && (n <? 2 ^ 128) then Some n else None
  else None.

Example uuid_examples :
  (uuid_of_hex "{12345678-1234-5678-1234-567812345678}", uuid_of_hex "urn:uuid:12345678123456781234567812345678",
   uuid_of_hex "1234", uuid_of_hex "-2345678123456781234567812345678_")
  = (Some 24197857161011715162171839636988778104, Some 24197857161011715162171839636988778104, None, None).
Proof. vm_compute. reflexivity. Qed.

(** *** [UUID(str(id))] *)

Definition hex_char (c : ascii) : Prop := exists v, 0 <= v < 16 /\ c = hex_digit v.

Lemma hex_digit_facts v :
  0 <= v < 16 ->
  digit_value (hex_digit v) = Some v
  /\ existsb (Ascii.eqb (hex_digit v)) ["_"; "-"; "{"; "}"; "u"; "x"; "X"; "+"; "/"]%char = false
  /\ (code (hex_digit v) <? 128) = true
  /\ (((9 <=? code (hex_digit v)) && (code (hex_digit v) <=? 13)) || (code (hex_digit v) =? 32)) = false.
Proof.
  intros Hv. assert (forallb (fun k => let v := Z.of_nat k in
    bool_decide (digit_value (hex_digit v) = Some v)
    && negb (existsb (Ascii.eqb (hex_digit v)) ["_"; "-"; "{"; "}"; "u"; "x"; "X"; "+"; "/"]%char)
    && (code (hex_digit v) <? 128)
    && negb (((9 <=? code (hex_digit v)) && (code (hex_digit v) <=? 13)) || (code (hex_digit v) =? 32)))
    (seq 0 16) = true) as H by (vm_compute; reflexivity).
  rewrite forallb_forall in H. specialize (H (Z.to_nat v)). rewrite Z2Nat.id in H by lia.
  rewrite !andb_true_iff, !negb_true_iff, bool_decide_eq_true in H.
  destruct H as (((H1 & H2) & H3) & H4); [apply in_seq; lia|]. done.
Qed.

Lemma hex_char_not c d :
  hex_char c -> d ∈ ["_"; "-"; "{"; "}"; "u"; "x"; "X"; "+"; "/"]%char -> Ascii.eqb c d = false.
Proof.
  intros (v & Hv & ->) Hd. destruct (hex_digit_facts v Hv) as (_ & H & _).
  rewrite <- not_true_iff_false in H |- *. intros He. apply H, existsb_exists. exists d.
  split; [by apply list_elem_of_In|done].
Qed.

Lemma hex_digits_ok k n : Forall hex_char (hex_digits k n) /\ length (hex_digits k n) = k.
Proof.
  revert n. induction k as [|k IH]; intros n; cbn [hex_digits]; [done|].
  destruct (IH (n / 16)) as [H1 H2]. split.
  - apply Forall_app. split; [done|]. constructor; [|done]. exists (n mod 16).
    split; [apply Z.mod_pos_bound; lia|done].
  - rewrite length_app, H2. simpl. lia.
Qed.

Lemma int_digits_hex k n l acc seen :
  int_digits (hex_digits k n ++ l) acc seen
  = int_digits l (acc * 16 ^ Z.of_nat k + n mod 16 ^ Z.of_nat k) (match k with O => seen | _ => true end).
Proof.
  revert n l acc seen. induction k as [|k IH]; intros n l acc seen.
  - cbn [hex_digits app]. f_equal. rewrite Z.mod_1_r. simpl. lia.
  - cbn [hex_digits]. rewrite <- app_assoc, IH. cbn [app int_digits].
    assert (0 <= n mod 16 < 16) as Hv by (apply Z.mod_pos_bound; lia).
    rewrite (hex_char_not _ "_") by (try (exists (n mod 16); done); set_solver).
    destruct (hex_digit_facts _ Hv) as (-> & _). f_equal.
    rewrite Nat2Z.inj_succ, Z.pow_succ_r by lia.
    rewrite (Z.rem_mul_r n 16) by lia. lia.
Qed.

Lemma remove_absent c t l : Forall (fun x => Ascii.eqb x c = false) l -> remove_chars (c :: t) l 0 = l.
Proof.
  induction 1 as [|x l Hx _ IH]; [done|]. cbn [remove_chars length take].
  rewrite bool_decide_eq_false_2; [by rewrite IH|].
  intros [= -> _]. by rewrite Ascii.eqb_refl in Hx.
Qed.

Lemma strip_by_none p l : Forall (fun x => p x = false) l -> strip_by p l = l.
Proof.
  intros Hl. unfold strip_by, lstrip_by, rstrip_by. rewrite (drop_while_none p l) by done.
  rewrite drop_while_none by (by apply Forall_rev). apply rev_involutive.
Qed.

Lemma hex_char_cases c : hex_char c -> c ∈ chars "0123456789abcdef".
Proof.
  intros (v & Hv & ->). assert (forallb (fun k => bool_decide (hex_digit (Z.of_nat k) ∈ chars "0123456789abcdef"))
    (seq 0 16) = true) as H by (vm_compute; reflexivity).
  rewrite forallb_forall in H. specialize (H (Z.to_nat v)). rewrite Z2Nat.id in H by lia.
  apply (bool_decide_eq_true_1 _). apply H, in_seq. lia.
Qed.

(** Digits are neither white space nor a sign nor a prefix. *)
Lemma int_prefix_hex l : Forall hex_char l -> int_prefix l = l.
Proof.
  intros Hl. destruct l as [|c l]; [done|]. apply Forall_cons in Hl as [Hc%hex_char_cases Hl].
  simpl in Hc. repeat (apply elem_of_cons in Hc as [->|Hc]; [|]); try (by apply not_elem_of_nil in Hc).
  all: try reflexivity.
  destruct l as [|c l]; [done|]. apply Forall_cons in Hl as [Hc%hex_char_cases _].
  simpl in Hc. repeat (apply elem_of_cons in Hc as [->|Hc]; [reflexivity|]). by apply not_elem_of_nil in Hc.
Qed.

Lemma int_base16_hex l : Forall hex_char l -> int_base16 l = int_digits l 0 false.
Proof.
  intros Hl. unfold int_base16. rewrite strip_by_none.
  - pose proof (int_prefix_hex l Hl) as Hp. destruct l as [|c l]; [done|].
    apply Forall_cons in Hl as [Hc%hex_char_cases _]. simpl in Hc.
    repeat (apply elem_of_cons in Hc as [->|Hc]; [by rewrite Hp|]). by apply not_elem_of_nil in Hc.
  - eapply Forall_impl; [exact Hl|]. intros x (v & Hv & ->). unfold int_space.
    destruct (hex_digit_facts v Hv) as (_ & _ & _ & H4).
    assert (forallb (fun c => code c <? 128) l = true) as ->; [|done].
    apply forallb_forall. intros y Hy%list_elem_of_In. rewrite Forall_forall in Hl.
    destruct (Hl _ Hy) as (v' & Hv' & ->). apply (hex_digit_facts v' Hv').
Qed.

(** The digits of an identifier with its dashes. *)
Definition dashed (h : list ascii) : list ascii :=
  take 8 h ++ "-"%char :: take 4 (drop 8 h) ++ "-"%char :: take 4 (drop 12 h)
  ++ "-"%char :: take 4 (drop 16 h) ++ "-"%char :: take 12 (drop 20 h).

Lemma chars_uuid_str id : chars (uuid_str id) = dashed (hex_digits 32 id).
Proof.
  unfold uuid_str, dashed. cbv zeta. unfold join. cbn [String.concat].
  by rewrite !chars_app, !chars_of_chars.
Qed.

Lemma Forall_dashed (Q : ascii -> Prop) h : Q "-"%char -> Forall Q h -> Forall Q (dashed h).
Proof.
  intros Hd Hh. unfold dashed.
  repeat first [apply Forall_app_2 | apply Forall_cons_2; [done|] | apply Forall_take | apply Forall_drop];
    done.
Qed.

Lemma filter_dashed h :
  length h = 32%nat -> Forall hex_char h ->
  List.filter (fun c => negb (Ascii.eqb c "-")) (dashed h) = h.
Proof.
  intros Hlen Hh.
  assert (forall l, Forall hex_char l -> List.filter (fun c => negb (Ascii.eqb c "-")) l = l) as Hid.
  { induction 1 as [|c l Hc _ IH]; [done|]. cbn [List.filter].
    rewrite (hex_char_not c "-") by (done || set_solver). by rewrite IH. }
  unfold dashed. repeat (rewrite List.filter_app || cbn [List.filter]).
  change (Ascii.eqb "-" "-") with true. cbn [negb].
  rewrite !Hid by (repeat apply Forall_take; repeat apply Forall_drop; done).
  assert (forall n k, take n (drop k h) ++ drop (k + n) h = drop k h) as Hsplit
    by (intros n k; by rewrite <- drop_drop, take_drop).
  rewrite (take_ge (drop 20 h)) by (rewrite length_drop; lia).
  assert (take 4 (drop 16 h) ++ drop 20 h = drop 16 h) as -> by exact (Hsplit 4%nat 16%nat).
  assert (take 4 (drop 12 h) ++ drop 16 h = drop 12 h) as -> by exact (Hsplit 4%nat 12%nat).
  assert (take 4 (drop 8 h) ++ drop 12 h = drop 8 h) as -> by exact (Hsplit 4%nat 8%nat).
  apply take_drop.
Qed.

Lemma uuid_round_trip id : 0 <= id < 2 ^ 128 -> uuid_of_hex (uuid_str id) = Some id.
Proof.
  intros Hid. unfold uuid_of_hex. cbv zeta. rewrite chars_uuid_str.
  destruct (hex_digits_ok 32 id) as [Hh Hlen]. set (h := hex_digits 32 id) in *.
  assert (forall c, c ∈ ["{"; "}"; "u"]%char -> Forall (fun x => Ascii.eqb x c = false) (dashed h)) as Hnone.
  { intros c Hc. assert (Ascii.eqb "-" c = false) as Hdash by (clear -Hc; set_unfold; naive_solver).
    assert (Forall (fun x => Ascii.eqb x c = false) h) as Hf.
    { eapply Forall_impl; [exact Hh|]. intros x Hx. apply hex_char_not; [done|]. set_solver. }
    by apply Forall_dashed. }
  unfold remove_str. change (chars "urn:") with ("u"%char :: chars "rn:").
  change (chars "uuid:") with ("u"%char :: chars "uid:").
  assert (Forall (fun x => Ascii.eqb x "u" = false) (dashed h)) as Hu
    by (apply Hnone, list_elem_of_In; simpl; tauto).
  rewrite !remove_absent by (rewrite ?remove_absent; done).
  rewrite strip_by_none.
  2: { apply Forall_forall. intros x Hx. apply orb_false_iff.
       assert (forall c, c ∈ ["{"; "}"; "u"]%char -> Ascii.eqb x c = false) as H.
       { intros c Hc%Hnone. rewrite Forall_forall in Hc. by apply Hc. }
       split; apply H, list_elem_of_In; simpl; tauto. }
  rewrite filter_dashed by done. rewrite Hlen. change (Nat.eqb 32 32) with true. cbv iota.
  assert (int_base16 h = Some id) as ->; [|].
  2: { simpl. destruct (Z.leb_spec 0 id), (Z.ltb_spec id (2 ^ 128)); simpl; done || lia. }
  rewrite int_base16_hex by (done || by rewrite Hlen).
  pose proof (int_digits_hex 32 id [] 0 false) as H. rewrite app_nil_r in H. fold h in H. rewrite H.
  cbn [int_digits]. f_equal. rewrite Z.mod_small by done. lia.
Qed.
