(* ===== verification/Time.v ===== *)
(** * Time columns and time serialization

    Models [UnixTimestampMillis] of src/backend/app/libraries/sqlalchemy_types.py
    and src/backend/app/models/time_serialization.py.  A [datetime] counts the
    microseconds since the Unix epoch (of its UTC instant when it carries a time
    zone, of its wall clock otherwise). *)

From S2P Require Import Prelude PyStr Errors.

Inductive datetime := Aware (us : Z) | Naive (us : Z).

(** [datetime.min] and [datetime.max] in UTC, in microseconds since the epoch. *)
Definition datetime_min_us : Z := -62135596800000000.
Definition datetime_max_us : Z := 253402300799999999.

(** [timedelta(milliseconds=1)] in microseconds. *)
Definition millisecond : Z := 1000.

(** [timedelta(seconds=n)] in microseconds. *)
Definition timedelta_seconds (n : Z) : Z := n * 1000000.

(* src: backend/app/libraries/sqlalchemy_types.py:32-38 UnixTimestampMillis.process_bind_param *)
Definition process_bind_param (value : option datetime) : result (option Z) :=
  match value with
  | None => Ok None
  | Some (Naive _) => Raise (ValueError "UnixTimestampMillis requires timezone-aware datetime")
  | Some (Aware us) => Ok (Some (us / millisecond))
  end.

(* src: backend/app/libraries/sqlalchemy_types.py:40-43 UnixTimestampMillis.process_result_value *)
Definition process_result_value (value : option Z) : option datetime :=
  match value with
  | None => None
  | Some ms => Some (Aware (ms * millisecond))
  end.

(** [math.floor(value.timestamp())]; the float division is taken as exact. *)
(* src: backend/app/models/time_serialization.py:5-8 unix_timestamp_seconds *)
Definition unix_timestamp_seconds (value : datetime) : result Z :=
  match value with
  | Naive _ => Raise (ValueError "datetime must be timezone-aware")
  | Aware us => Ok (us / 1000000)
  end.

(** [datetime.isoformat()] of an aware UTC datetime: the proleptic Gregorian date
    of the day, the time of day, and the microseconds when they are not zero. *)
Definition civil_from_days (day : Z) : Z * Z * Z :=
  let z := day + 719468 in
  let era := z / 146097 in
  let doe := z - era * 146097 in
  let yoe := (doe - doe / 1460 + doe / 36524 - doe / 146096) / 365 in
  let doy := doe - (365 * yoe + yoe / 4 - yoe / 100) in
  let mp := (5 * doy + 2) / 153 in
  let m := if mp <? 10 then mp + 3 else mp - 9 in
  (yoe + era * 400 + (if m <=? 2 then 1 else 0), m, doy - (153 * mp + 2) / 5 + 1).

Definition zero_pad (width : nat) (n : Z) : string :=
  let s := pretty n in
  (String.concat "" (repeat "0" (width - String.length s)) ++ s)%string.

Definition isoformat (us : Z) : string :=
  let '(y, m, d) := civil_from_days (us / 86400000000) in
  let sec := us mod 86400000000 / 1000000 in
  let frac := us mod 1000000 in
  (zero_pad 4 y ++ "-" ++ zero_pad 2 m ++ "-" ++ zero_pad 2 d ++ "T"
   ++ zero_pad 2 (sec / 3600) ++ ":" ++ zero_pad 2 (sec / 60 mod 60) ++ ":"
   ++ zero_pad 2 (sec mod 60)
   ++ (if (frac =? 0)%Z then "" else "." ++ zero_pad 6 frac) ++ "+00:00")%string.

Example isoformat_epoch : isoformat 0 = "1970-01-01T00:00:00+00:00"%string.
Proof. vm_compute. reflexivity. Qed.
Example isoformat_micros :
  isoformat 1786320045000123 = "2026-08-10T00:00:45.000123+00:00"%string.
Proof. vm_compute. reflexivity. Qed.

(** What a column stores of an aware instant, and what a later read returns. *)
(* src: backend/app/libraries/sqlalchemy_types.py:28-43 UnixTimestampMillis *)
Definition stored (us : Z) : Z := us / millisecond * millisecond.
Definition stored_opt (o : option Z) : option Z := option_map stored o.

Lemma stored_bind us :
  process_result_value (Some (us / millisecond)) = Some (Aware (stored us)).
Proof. done. Qed.

Lemma stored_idem us : stored (stored us) = stored us.
Proof. unfold stored, millisecond. by rewrite Z.div_mul. Qed.

Lemma stored_le us : stored us <= us.
Proof. unfold stored, millisecond. pose proof (Z.div_mod us 1000). pose proof (Z.mod_pos_bound us 1000). lia. Qed.

Lemma stored_gt us : us < stored us + millisecond.
Proof. unfold stored, millisecond. pose proof (Z.div_mod us 1000). pose proof (Z.mod_pos_bound us 1000). lia. Qed.

Lemma stored_mono a b : a <= b -> stored a <= stored b.
Proof. intros. unfold stored, millisecond. apply Z.mul_le_mono_nonneg_r; [lia|]. apply Z.div_le_mono; lia. Qed.

(** A strict comparison of stored values is a strict comparison of instants. *)
Lemma stored_lt_inv a b : stored a < stored b -> a < b.
Proof. intros H. destruct (Z.lt_ge_cases a b) as [|Hge]; [done|]. apply stored_mono in Hge. lia. Qed.

Lemma stored_add a n : stored (a + n * millisecond) = stored a + n * millisecond.
Proof. unfold stored, millisecond. rewrite Z.div_add by lia. lia. Qed.

Lemma stored_opt_idem o : stored_opt (stored_opt o) = stored_opt o.
Proof. destruct o; simpl; [by rewrite stored_idem|done]. Qed.
#[export] Hint Rewrite stored_idem stored_opt_idem : backend.

(** A time column loses less than a millisecond of an aware datetime, always
    downwards; it keeps the order of instants; a second round trip loses
    nothing; and a naive datetime is refused before anything is stored. *)
Theorem millis_column_roundtrip :
  (forall us, exists us' ms,
     process_bind_param (Some (Aware us)) = Ok (Some ms)
     /\ process_result_value (Some ms) = Some (Aware us')
     /\ us - millisecond < us' <= us
     /\ process_bind_param (Some (Aware us')) = Ok (Some ms))
  /\ (forall a b ma mb, a <= b -> process_bind_param (Some (Aware a)) = Ok (Some ma) ->
        process_bind_param (Some (Aware b)) = Ok (Some mb) -> ma <= mb)
  /\ (forall us, exists m, process_bind_param (Some (Naive us)) = Raise (ValueError m)).
Proof.
  split_and!.
  - intros us. exists (stored us), (us / millisecond). split_and!; try done.
    + pose proof (stored_gt us). lia.
    + apply stored_le.
    + simpl. do 2 f_equal. unfold stored, millisecond. by rewrite Z.div_mul.
  - simpl. intros a b ma mb Hab [= <-] [= <-]. apply Z.div_le_mono; [done|lia].
  - intros us. by eexists.
Qed.

(** Every instant Python can represent fits the signed 64-bit column, with
    its whole second fitting 38 bits of the JSON number sent to clients. *)
Theorem millis_column_bounds us :
  datetime_min_us <= us <= datetime_max_us ->
  exists ms s, process_bind_param (Some (Aware us)) = Ok (Some ms)
    /\ unix_timestamp_seconds (Aware us) = Ok s
    /\ - 2 ^ 63 <= ms < 2 ^ 63 /\ - 2 ^ 38 <= s < 2 ^ 38 /\ s = ms / 1000.
Proof.
  unfold datetime_min_us, datetime_max_us. intros [Hlo Hhi].
  exists (us / 1000), (us / 1000000). split_and!; try done.
  - apply Z.div_le_lower_bound; lia.
  - apply Z.div_lt_upper_bound; lia.
  - apply Z.div_le_lower_bound; lia.
  - apply Z.div_lt_upper_bound; lia.
  - rewrite Z.div_div by lia. done.
Qed.

Lemma millis_column_bounds_witness :
  exists ms s, process_bind_param (Some (Aware 1786000000123456)) = Ok (Some ms)
    /\ unix_timestamp_seconds (Aware 1786000000123456) = Ok s
    /\ - 2 ^ 63 <= ms < 2 ^ 63 /\ - 2 ^ 38 <= s < 2 ^ 38 /\ s = ms / 1000.
Proof. apply (millis_column_bounds 1786000000123456). split; vm_compute; discriminate. Defined.
