(* ===== verification/Authorization.v ===== *)
(** * The code-managed role and permission catalog

    Models src/backend/app/config/authorization.py.  A dict built from a tuple is
    a [gmap] filled from left to right, so a later entry with the same key wins;
    frozensets are [gset]s; the warning about unknown roles is not modelled. *)

From S2P Require Import Prelude PyStr.

(* src: backend/app/models/authorization.py:50-56 RoleDefinition *)
Record RoleDefinition := Role {
  role_code : string;
  role_display_name : string;
  role_description : option string;
  permission_codes : list string;
}.

(* src: backend/app/models/authorization.py:58-63 PermissionDefinition *)
Record PermissionDefinition := Permission {
  perm_code : string;
  perm_display_name : string;
  perm_description : option string;
}.

(* src: backend/app/models/authorization.py:65-70 UserAuthorization *)
Record UserAuthorization := Authorization {
  ua_user_id : Z;
  ua_roles : gset string;
  ua_permissions : gset string;
}.

(* src: backend/app/models/authorization.py:72-78 RoleWithPermissions *)
Record RoleWithPermissions := RoleView {
  rv_code : string;
  rv_display_name : string;
  rv_description : option string;
  rv_permissions : list string;
}.

(* src: backend/app/config/authorization.py:9-10 ROLE_CODE_MAX_LENGTH *)
Definition ROLE_CODE_MAX_LENGTH : Z := 64.
(* src: backend/app/config/authorization.py:10-10 PERMISSION_CODE_MAX_LENGTH *)
Definition PERMISSION_CODE_MAX_LENGTH : Z := 120.

(* src: backend/app/config/authorization.py:12-16 DEFAULT_AUTHORIZATION_PERMISSIONS *)
Definition DEFAULT_AUTHORIZATION_PERMISSIONS : list PermissionDefinition :=
  [Permission "admin:access" "Admin access" (Some "Access administrative endpoints.")].

(* src: backend/app/config/authorization.py:18-23 DEFAULT_AUTHORIZATION_DEFINITIONS *)
Definition DEFAULT_AUTHORIZATION_DEFINITIONS : list RoleDefinition :=
  [Role "admin" "Admin" (Some "Full administrative access for this template.") ["admin:access"]].

(** [{key(x): x for x in l}] *)
Definition dict_by {A} (key : A -> string) (l : list A) : gmap string A :=
  foldl (fun m x => <[key x := x]> m) ∅ l.

(* src: backend/app/config/authorization.py:26-29 permission_catalog_by_code *)
Definition permission_catalog_by_code (permissions : list PermissionDefinition)
  : gmap string PermissionDefinition := dict_by perm_code permissions.

(* src: backend/app/config/authorization.py:32-35 role_catalog_by_code *)
Definition role_catalog_by_code (roles : list RoleDefinition) : gmap string RoleDefinition :=
  dict_by role_code roles.

(** The catalogs with their default arguments. *)
Notation default_role_catalog := (role_catalog_by_code DEFAULT_AUTHORIZATION_DEFINITIONS).
Notation default_permission_catalog :=
  (permission_catalog_by_code DEFAULT_AUTHORIZATION_PERMISSIONS).

(** ** Startup validation *)

(** The keys of a [Counter], and the keys counted more than once. *)
Definition counter_keys (codes : list string) : list string := dict_fromkeys codes.
Definition repeated (codes : list string) : list string :=
  base.filter (fun c => (1 < count_occ String.string_dec codes c)%nat) (counter_keys codes).

Definition str_len_gt (n : Z) (c : string) : Prop := n < str_len c.
#[export] Instance str_len_gt_dec n c : Decision (str_len_gt n c).
Proof. unfold str_len_gt. apply _. Defined.

Definition comma_separated (codes : list string) : string := join ", " codes.

(** [if codes: errors.append(message)] *)
Definition error_if (codes : list string) (message : string) : list string :=
  match codes with [] => [] | _ => [message] end.

(* src: backend/app/config/authorization.py:69-74 authorization_config_errors *)
Definition missing_permission_errors (known : gset string) (role : RoleDefinition) : list string :=
  let missing := sorted (elements (list_to_set (permission_codes role) ∖ known : gset string)) in
  error_if missing
    ("Role " ++ role_code role ++ " references unknown permissions: " ++ comma_separated missing).

(* src: backend/app/config/authorization.py:38-75 authorization_config_errors *)
Definition authorization_config_errors (permissions : list PermissionDefinition)
    (roles : list RoleDefinition) : list string :=
  let permission_counts := map perm_code permissions in
  let role_counts := map role_code roles in
  let duplicate_permissions := sorted (repeated permission_counts) in
  let duplicate_roles := sorted (repeated role_counts) in
  let empty_permissions :=
    sorted (base.filter (fun c => c = ""%string) (counter_keys permission_counts)) in
  let empty_roles := sorted (base.filter (fun c => c = ""%string) (counter_keys role_counts)) in
  let oversized_permissions := sorted (base.filter
    (fun c => c <> ""%string /\ str_len_gt PERMISSION_CODE_MAX_LENGTH c)
    (counter_keys permission_counts)) in
  let oversized_roles := sorted (base.filter
    (fun c => c <> ""%string /\ str_len_gt ROLE_CODE_MAX_LENGTH c) (counter_keys role_counts)) in
  error_if duplicate_permissions
    ("Duplicate permission codes: " ++ comma_separated duplicate_permissions)
  ++ error_if duplicate_roles ("Duplicate role codes: " ++ comma_separated duplicate_roles)
  ++ match permissions with [] => ["Permission catalog must not be empty."] | _ => [] end
  ++ match roles with [] => ["Role catalog must not be empty."] | _ => [] end
  ++ error_if empty_permissions "Permission code must not be empty."
  ++ error_if empty_roles "Role code must not be empty."
  ++ map (fun code => ("Permission code exceeds 120 characters: " ++ code)%string)
       oversized_permissions
  ++ map (fun code => ("Role code exceeds 64 characters: " ++ code)%string) oversized_roles
  ++ flat_map (missing_permission_errors (list_to_set permission_counts)) roles.

(** ** Resolution of a user's roles *)

(* src: backend/app/config/authorization.py:78-80 unknown_role_codes *)
Definition unknown_role_codes (role_codes : list string) : gset string :=
  list_to_set (base.filter (fun c => default_role_catalog !! c = None) role_codes).

(* src: backend/app/config/authorization.py:83-91 permissions_for_role_codes *)
Definition permissions_for_role_codes (role_codes : list string) : gset string :=
  foldl (fun permissions role_code =>
           match default_role_catalog !! role_code with
           | None => permissions
           | Some role => permissions ∪ list_to_set (permission_codes role)
           end) ∅ role_codes.

(* src: backend/app/config/authorization.py:94-105 user_authorization_from_role_codes *)
Definition user_authorization_from_role_codes (user_id : Z) (role_codes : list string)
  : UserAuthorization :=
  let normalized_role_codes := dict_fromkeys role_codes in
  let known_role_codes :=
    base.filter (fun c => is_Some (default_role_catalog !! c)) normalized_role_codes in
  Authorization user_id (list_to_set known_role_codes)
    (permissions_for_role_codes known_role_codes).

(* src: backend/app/config/authorization.py:108-121 resolve_user_authorization *)
Definition resolve_user_authorization (user_id : Z) (role_codes : list string)
  : UserAuthorization :=
  user_authorization_from_role_codes user_id (dict_fromkeys role_codes).

(** [sorted(roles, key=lambda role: role.code)], a stable sort. *)
Definition role_code_le (r1 r2 : RoleDefinition) : Prop :=
  String.le (role_code r1) (role_code r2).
#[export] Instance role_code_le_dec : RelDecision role_code_le.
Proof. intros r1 r2. unfold role_code_le. apply _. Defined.

(* src: backend/app/config/authorization.py:124-132 roles_with_permissions *)
Definition roles_with_permissions : list RoleWithPermissions :=
  map (fun role =>
         RoleView (role_code role) (role_display_name role) (role_description role)
           (sorted (dict_fromkeys (permission_codes role))))
      (merge_sort role_code_le DEFAULT_AUTHORIZATION_DEFINITIONS).

(** ** Facts *)

Lemma repeated_nil codes : repeated codes = [] <-> NoDup codes.
Proof.
  rewrite NoDup_ListNoDup, (NoDup_count_occ String.string_dec). unfold repeated. split.
  - intros H x. destruct (Nat.le_gt_cases (count_occ String.string_dec codes x) 1) as [|Hgt]; [done|].
    exfalso. apply (not_elem_of_nil x). rewrite <- H. apply list_elem_of_filter. split; [done|].
    apply elem_of_dict_fromkeys, list_elem_of_In, (count_occ_In String.string_dec). lia.
  - intros H. destruct (base.filter _ _) as [|x l] eqn:E; [done|]. exfalso.
    assert (x ∈ x :: l) as Hx by constructor. rewrite <- E in Hx.
    apply list_elem_of_filter in Hx as [Hx _]. specialize (H x). lia.
Qed.

Lemma sorted_nil l : sorted l = [] <-> l = [].
Proof.
  split; [|by intros ->]. intros H. apply Permutation_nil. symmetry. rewrite <- H.
  unfold sorted. by rewrite merge_sort_Permutation.
Qed.

Lemma error_if_nil codes m : error_if codes m = [] <-> codes = [].
Proof. by destruct codes. Qed.

Lemma filter_counter_nil (P : string -> Prop) `{forall c, Decision (P c)} codes :
  base.filter P (counter_keys codes) = [] <-> forall c, c ∈ codes -> ~ P c.
Proof.
  split.
  - intros E c Hc HP. apply (not_elem_of_nil c). rewrite <- E.
    apply list_elem_of_filter. split; [done|]. by apply elem_of_dict_fromkeys.
  - intros HP. destruct (base.filter P _) as [|x l] eqn:E; [done|].
    assert (x ∈ x :: l) as Hx by constructor. rewrite <- E in Hx.
    apply list_elem_of_filter in Hx as [Hx Hin]. exfalso.
    unfold counter_keys in Hin. rewrite elem_of_dict_fromkeys in Hin. exact (HP x Hin Hx).
Qed.

Lemma map_nil_iff {A B} (f : A -> B) l : map f l = [] <-> l = [].
Proof. by destruct l. Qed.

Lemma flat_map_nil {A B} (f : A -> list B) l :
  flat_map f l = [] <-> forall x, x ∈ l -> f x = [].
Proof.
  induction l as [|x l IH]; simpl; [set_solver|].
  rewrite app_nil, IH. split; [intros [??] y Hy; apply elem_of_cons in Hy as [->|]; auto|].
  intros Hf. split; [|intros y Hy]; apply Hf; [constructor|by constructor].
Qed.

(** What the startup check accepts. *)
Record valid_config (permissions : list PermissionDefinition) (roles : list RoleDefinition)
  : Prop := {
  vc_permissions_nodup : NoDup (map perm_code permissions);
  vc_roles_nodup : NoDup (map role_code roles);
  vc_permissions_ne : permissions <> [];
  vc_roles_ne : roles <> [];
  vc_permission_len c : c ∈ map perm_code permissions -> 1 <= str_len c <= 120;
  vc_role_len c : c ∈ map role_code roles -> 1 <= str_len c <= 64;
  vc_references r c : r ∈ roles -> c ∈ permission_codes r -> c ∈ map perm_code permissions;
}.

Lemma str_len_pos c : 1 <= str_len c <-> c <> ""%string.
Proof. unfold str_len. destruct c; simpl; split; try done; lia. Qed.

Lemma missing_permission_errors_nil known role :
  missing_permission_errors known role = [] <-> forall c, c ∈ permission_codes role -> c ∈ known.
Proof.
  unfold missing_permission_errors. rewrite error_if_nil, sorted_nil, elements_empty_iff.
  rewrite elem_of_equiv_empty. setoid_rewrite elem_of_difference.
  setoid_rewrite elem_of_list_to_set. split; intros H c Hc.
  - destruct (decide (c ∈ known)) as [|Hn]; [done|]. by destruct (H c).
  - destruct Hc as [Hc Hn]. by apply Hn, H.
Qed.

(** The startup check reports no error exactly for a well-formed catalog:
    distinct non-empty codes within their length limits, and every permission a
    role references exists. *)
Theorem config_errors_iff_invalid permissions roles :
  authorization_config_errors permissions roles = [] <-> valid_config permissions roles.
Proof.
  unfold authorization_config_errors.
  rewrite !app_nil, !error_if_nil, !sorted_nil, !repeated_nil, !filter_counter_nil,
    flat_map_nil.
  rewrite !map_nil_iff, !sorted_nil, !filter_counter_nil.
  setoid_rewrite missing_permission_errors_nil. unfold str_len_gt.
  split.
  - intros (?&?&Hp&Hr&He&Hf&Ho&Hq&Hm). split; try done.
    + by destruct permissions.
    + by destruct roles.
    + intros c Hc. specialize (He c Hc). specialize (Ho c Hc). apply str_len_pos in He.
      unfold PERMISSION_CODE_MAX_LENGTH in Ho. destruct (Z.le_gt_cases (str_len c) 120); [done|].
      destruct Ho. by apply str_len_pos in He.
    + intros c Hc. specialize (Hf c Hc). specialize (Hq c Hc). apply str_len_pos in Hf.
      unfold ROLE_CODE_MAX_LENGTH in Hq. destruct (Z.le_gt_cases (str_len c) 64); [done|].
      destruct Hq. by apply str_len_pos in Hf.
    + intros r c Hr' Hc. specialize (Hm r Hr' c Hc). by apply elem_of_list_to_set in Hm.
  - intros [? ? Hp Hr Hpl Hrl Href]. split_and!; try done.
    + by destruct permissions.
    + by destruct roles.
    + intros c Hc. apply str_len_pos. by apply Hpl.
    + intros c Hc. apply str_len_pos. by apply Hrl.
    + intros c Hc [_ Hlt]. apply Hpl in Hc. unfold PERMISSION_CODE_MAX_LENGTH in Hlt. lia.
    + intros c Hc [_ Hlt]. apply Hrl in Hc. unfold ROLE_CODE_MAX_LENGTH in Hlt. lia.
    + intros r Hr' c Hc. apply elem_of_list_to_set. by eapply Href.
Qed.

(** The default catalog passes its own check, so the application starts. *)
Lemma default_config_valid :
  authorization_config_errors DEFAULT_AUTHORIZATION_PERMISSIONS
    DEFAULT_AUTHORIZATION_DEFINITIONS = [].
Proof. vm_compute. reflexivity. Qed.

Lemma elem_of_permissions_for codes p :
  p ∈ permissions_for_role_codes codes <->
  exists c r, c ∈ codes /\ default_role_catalog !! c = Some r /\ p ∈ permission_codes r.
Proof.
  unfold permissions_for_role_codes.
  assert (forall acc : gset string, p ∈ foldl (fun permissions role_code =>
           match default_role_catalog !! role_code with
           | None => permissions
           | Some role => permissions ∪ list_to_set (permission_codes role)
           end) acc codes <->
    p ∈ acc \/ exists c r, c ∈ codes /\ default_role_catalog !! c = Some r /\ p ∈ permission_codes r)
    as H; [|rewrite H; split; [intros [Hn|?]; [by apply not_elem_of_empty in Hn|done]|by right]].
  induction codes as [|c codes IH]; intros acc; simpl.
  { split; [by left|]. intros [?|(c & r & Hc & _)]; [done|]. by apply not_elem_of_nil in Hc. }
  rewrite IH. clear IH. setoid_rewrite elem_of_cons.
  destruct (default_role_catalog !! c) as [r|] eqn:E.
  - rewrite elem_of_union, elem_of_list_to_set. naive_solver.
  - naive_solver congruence.
Qed.

Lemma resolve_roles uid codes c :
  c ∈ ua_roles (resolve_user_authorization uid codes) <->
  c ∈ codes /\ is_Some (default_role_catalog !! c).
Proof.
  unfold resolve_user_authorization, user_authorization_from_role_codes. simpl.
  rewrite elem_of_list_to_set, list_elem_of_filter, !elem_of_dict_fromkeys. tauto.
Qed.

(** A user's effective roles are the stored codes the catalog knows, and the
    permissions are exactly those of these roles: an unknown or stale role code
    grants nothing, and the order and repetition of the stored codes is
    irrelevant. *)
Lemma resolution_grants_only_catalog_permissions uid codes :
  let a := resolve_user_authorization uid codes in
  ua_user_id a = uid
  /\ (forall c, c ∈ ua_roles a <-> c ∈ codes /\ is_Some (default_role_catalog !! c))
  /\ (forall p, p ∈ ua_permissions a <->
        exists c r, c ∈ ua_roles a /\ default_role_catalog !! c = Some r
                    /\ p ∈ permission_codes r)
  /\ (forall c, c ∈ unknown_role_codes codes <-> c ∈ codes /\ c ∉ ua_roles a)
  /\ (forall codes', list_to_set codes = (list_to_set codes' : gset string) ->
        ua_permissions (resolve_user_authorization uid codes') = ua_permissions a
        /\ ua_roles (resolve_user_authorization uid codes') = ua_roles a).
Proof.
  assert (Hp : forall codes p, p ∈ ua_permissions (resolve_user_authorization uid codes) <->
        exists c r, c ∈ ua_roles (resolve_user_authorization uid codes) /\
                    default_role_catalog !! c = Some r /\ p ∈ permission_codes r).
  { intros cs p. unfold resolve_user_authorization, user_authorization_from_role_codes. simpl.
    rewrite elem_of_permissions_for. by setoid_rewrite elem_of_list_to_set. }
  cbv zeta. split_and!; [done|intros; apply resolve_roles|apply Hp|..].
  - intros c. rewrite resolve_roles. unfold unknown_role_codes.
    rewrite elem_of_list_to_set, list_elem_of_filter.
    destruct (default_role_catalog !! c); naive_solver.
  - intros codes' E.
    assert (ua_roles (resolve_user_authorization uid codes') =
            ua_roles (resolve_user_authorization uid codes)) as Er.
    { apply set_eq. intros c. rewrite !(resolve_roles uid), <- !(elem_of_list_to_set (C := gset string)).
      by rewrite E. }
    split; [|exact Er]. apply set_eq. intros p. by rewrite !Hp, Er.
Qed.
