(* ===== verification/Url.v ===== *)
(** * [urllib.parse.urlparse]

    The standard library's splitting of a URL, as the code uses it (Python 3.12 and
    later).  Strings are Latin-1, for which the Unicode check of the network
    location never fails.  Whether a bracketed host is an IPv6 address is asked of
    [ipaddress], a parameter. *)

From S2P Require Import Prelude PyStr Errors.

Local Open Scope bool_scope.

(** [l] before and after the first [c]. *)
Fixpoint partition_at (c : ascii) (l : list ascii) : list ascii * option (list ascii) :=
  match l with
  | [] => ([], None)
  | x :: l' => if Ascii.eqb x c then ([], Some l')
               else let (a, b) := partition_at c l' in (x :: a, b)
  end.

(** The longest prefix without the given characters, and the rest. *)
Fixpoint span_not (stop : ascii -> bool) (l : list ascii) : list ascii * list ascii :=
  match l with
  | [] => ([], [])
  | x :: l' => if stop x then ([], l) else let (a, b) := span_not stop l' in (x :: a, b)
  end.

Definition mem_char (c : ascii) (l : list ascii) : bool := existsb (Ascii.eqb c) l.

Definition code_of (c : ascii) : N := N_of_ascii c.
Definition is_alpha (c : ascii) : bool :=
  ((65 <=? code_of c) && (code_of c <=? 90) || (97 <=? code_of c) && (code_of c <=? 122))%N.
Definition is_hex (c : ascii) : bool :=
  is_digit c || ((65 <=? code_of c) && (code_of c <=? 70) || (97 <=? code_of c) && (code_of c <=? 102))%N.
Definition scheme_char (c : ascii) : bool :=
  is_alpha c || is_digit c || Ascii.eqb c "+" || Ascii.eqb c "-" || Ascii.eqb c ".".
(** [_WHATWG_C0_CONTROL_OR_SPACE] *)
Definition c0_or_space (c : ascii) : bool := (code_of c <=? 32)%N.
(** [_UNSAFE_URL_BYTES_TO_REMOVE]: tab, carriage return and line feed *)
Definition unsafe_char (c : ascii) : bool :=
  ((code_of c =? 9) || (code_of c =? 13) || (code_of c =? 10))%N.

Record parsed_url := ParsedUrl {
  scheme : string;
  netloc : string;
  path : string;
  params : string;
  query : string;
  fragment : string;
}.

Section Parse.
Context (is_ipv6 : string -> bool).

Definition invalid_ipv6 {A} : result A := Raise (ValueError "Invalid IPv6 URL").

(** [_check_bracketed_host]: an IPvFuture address or an IPv6 one *)
Definition bracketed_host_ok (h : list ascii) : bool :=
  match h with
  | v :: rest =>
      if Ascii.eqb v "v" then
        let (hex, tail) := span_not (fun c => negb (is_hex c)) rest in
        match hex, tail with
        | _ :: _, dot :: _ :: _ => Ascii.eqb dot "."
        | _, _ => false
        end
      else is_ipv6 (of_chars h)
  | [] => is_ipv6 ""
  end.

(** What follows the last [c] ([rpartition(c)[2]]). *)
Definition after_last (c : ascii) (l : list ascii) : list ascii :=
  rev (partition_at c (rev l)).1.

(** [_check_bracketed_netloc] *)
Definition bracketed_netloc_ok (n : list ascii) : bool :=
  match partition_at "[" (after_last "@" n) with
  | (before, Some bracketed) =>
      let (host, port) := partition_at "]" bracketed in
      match before with
      | _ :: _ => false
      | [] => match port with
              | Some (c :: _) => Ascii.eqb c ":" && bracketed_host_ok host
              | _ => bracketed_host_ok host
              end
      end
  | (whole, None) => bracketed_host_ok (partition_at ":" whole).1
  end.

Definition check_netloc (n : list ascii) : bool :=
  let o := mem_char "[" n in
  let c := mem_char "]" n in
  if xorb o c then false else if o then bracketed_netloc_ok n else true.

Definition is_delimiter (c : ascii) : bool :=
  Ascii.eqb c "/" || Ascii.eqb c "?" || Ascii.eqb c "#".

(** The scheme of [url[:i]] for the first colon at [i], lower-cased. *)
Definition split_scheme (l : list ascii) : list ascii * list ascii :=
  match partition_at ":" l with
  | ((c :: _) as before, Some after) =>
      if is_alpha c && forallb scheme_char before
      then (chars (lower (of_chars before)), after) else ([], l)
  | _ => ([], l)
  end.

Definition split_netloc (l : list ascii) : result (list ascii * list ascii) :=
  match l with
  | a :: b :: rest =>
      if Ascii.eqb a "/" && Ascii.eqb b "/" then
        let (n, rest') := span_not is_delimiter rest in
        if check_netloc n then Ok (n, rest') else invalid_ipv6
      else Ok ([], l)
  | _ => Ok ([], l)
  end.

(** [_splitparams]: at the first semicolon after the last slash *)
Definition split_params (l : list ascii) : list ascii * list ascii :=
  let (rev_seg, rev_dir) := span_not (fun c => Ascii.eqb c "/") (rev l) in
  match partition_at ";" (rev rev_seg) with
  | (seg, Some ps) => (rev rev_dir ++ seg, ps)
  | (_, None) => (l, [])
  end.

Definition uses_params (scheme : string) : bool :=
  existsb (String.eqb scheme)
    [""; "ftp"; "hdl"; "prospero"; "http"; "https"; "shttp"; "rtsp"; "rtsps"; "sip"; "sips";
     "mms"; "sftp"; "tel"]%string.

Definition opt_chars (o : option (list ascii)) : list ascii := default [] o.

Definition urlparse (url : string) : result parsed_url :=
  let l := List.filter (fun c => negb (unsafe_char c)) (drop_while c0_or_space (chars url)) in
  let (sch, l1) := split_scheme l in
  match split_netloc l1 with
  | Raise e => Raise e
  | Ok (n, l2) =>
      let (l3, frag) := partition_at "#" l2 in
      let (l4, q) := partition_at "?" l3 in
      let sch := of_chars sch in
      let (p, ps) := if uses_params sch then split_params l4 else (l4, []) in
      Ok (ParsedUrl sch (of_chars n) (of_chars p) (of_chars ps) (of_chars (opt_chars q))
            (of_chars (opt_chars frag)))
  end.

Lemma partition_at_spec c l :
  let (a, b) := partition_at c l in
  l = a ++ match b with Some r => c :: r | None => [] end
  /\ mem_char c a = false /\ (b = None -> mem_char c l = false).
Proof.
  induction l as [|x l IH]; simpl; [done|].
  destruct (Ascii.eqb x c) eqn:E.
  - apply Ascii.eqb_eq in E as ->. done.
  - destruct (partition_at c l) as [a b]. destruct IH as (-> & Ha & Hb). split_and!; simpl.
    + done.
    + by rewrite Ascii.eqb_sym, E, Ha.
    + intros ->. rewrite Ascii.eqb_sym, E. simpl. by apply Hb.
Qed.

Lemma span_not_spec stop l :
  let (a, b) := span_not stop l in
  l = a ++ b /\ forallb (fun c => negb (stop c)) a = true
  /\ match b with [] => True | x :: _ => stop x = true end.
Proof.
  induction l as [|x l IH]; simpl; [done|].
  destruct (stop x) eqn:E; [simpl; by rewrite E|].
  destruct (span_not stop l) as [a b]. destruct IH as (-> & Ha & Hb). simpl. by rewrite E, Ha.
Qed.

(** The path of a URL without fragment, query or parameters is a part of it. *)
Lemma split_params_app l : exists r, l = (split_params l).1 ++ r.
Proof.
  unfold split_params. pose proof (span_not_spec (fun c => Ascii.eqb c "/") (rev l)) as H.
  destruct (span_not _ (rev l)) as [s d]. destruct H as (E & _ & _).
  assert (l = rev d ++ rev s) as El by (rewrite <- rev_app_distr, <- E; by rewrite rev_involutive).
  pose proof (partition_at_spec ";" (rev s)) as P.
  destruct (partition_at ";" (rev s)) as [a [b|]]; simpl.
  - destruct P as (P & _). exists (";"%char :: b). rewrite El, P, <- app_assoc. done.
  - exists []. by rewrite app_nil_r.
Qed.
End Parse.

Example urlparse_full :
  urlparse (fun _ => false) "HTTPS://user@host:8080/a/b;p?x=1#frag"
  = Ok (ParsedUrl "https" "user@host:8080" "/a/b" "p" "x=1" "frag").
Proof. vm_compute. reflexivity. Qed.
Example urlparse_slashes :
  urlparse (fun _ => false) "////evil.example"
  = Ok (ParsedUrl "" "" "//evil.example" "" "" "").
Proof. vm_compute. reflexivity. Qed.
