(* ===== verification/UrlQuery.v ===== *)
(** * Query strings

    What the backend uses of Python's [urllib.parse] beside [urlparse]: [parse_qsl]
    with blank values kept, [urlencode] and [urlunparse].  Text is Latin-1, so the
    UTF-8 decoder with errors replaced, whose results may lie outside, is a parameter;
    the encoder is exact. *)

From S2P Require Import Prelude PyStr Errors Url.

(** ** UTF-8 *)

(** [s.encode("utf-8")] of Latin-1 text, as bytes *)
Definition utf8_char (c : ascii) : list ascii :=
  let n := code c in
  if n <? 128 then [c]
  else [ascii_of_N (Z.to_N (192 + n / 64)); ascii_of_N (Z.to_N (128 + n mod 64))].
Definition utf8_encode (l : list ascii) : list ascii := flat_map utf8_char l.

(** ** Quoting *)

(** [_ALWAYS_SAFE] *)
Definition always_safe (c : ascii) : bool :=
  is_alpha c || is_digit c || mem_char c ["_"; "."; "-"; "~"]%char.
Definition upper_hex (n : Z) : ascii :=
  ascii_of_N (Z.to_N (if n <? 10 then 48 + n else 55 + n)).
Definition quote_byte (c : ascii) : list ascii :=
  if always_safe c then [c]
  else ["%"%char; upper_hex (code c / 16); upper_hex (code c mod 16)].

(** [quote_plus(s)]: a space becomes a plus. *)
Definition quote_plus_byte (c : ascii) : list ascii :=
  if Ascii.eqb c " " then ["+"%char] else quote_byte c.
Definition quote_plus (s : string) : list ascii := flat_map quote_plus_byte (utf8_encode (chars s)).

Definition encode_item (item : string * string) : list ascii :=
  quote_plus item.1 ++ "="%char :: quote_plus item.2.
Fixpoint join_chars (sep : ascii) (parts : list (list ascii)) : list ascii :=
  match parts with
  | [] => []
  | [p] => p
  | p :: parts' => p ++ sep :: join_chars sep parts'
  end.

(** [urlencode(query_items)] *)
Definition urlencode (items : list (string * string)) : string :=
  of_chars (join_chars "&" (map encode_item items)).

(** ** Unquoting *)

Definition hex_of (c : ascii) : Z :=
  if is_digit c then code c - 48 else if code c <=? 70 then code c - 55 else code c - 87.

(** [unquote_to_bytes]: a percent sign without two hexadecimal digits stays. *)
Fixpoint unquote_to_bytes (l : list ascii) : list ascii :=
  match l with
  | "%"%char :: ((a :: b :: rest) as l') =>
      if is_hex a && is_hex b
      then ascii_of_N (Z.to_N (hex_of a * 16 + hex_of b)) :: unquote_to_bytes rest
      else "%"%char :: unquote_to_bytes l'
  | c :: l' => c :: unquote_to_bytes l'
  | [] => []
  end.

Section Decode.
(** [bytes.decode("utf-8", "replace")] *)
Context (utf8_decode : list ascii -> list ascii).

Definition is_ascii (c : ascii) : bool := code c <? 128.

(** Runs of ASCII characters are unquoted, the others are kept ([_asciire.split]). *)
Fixpoint unquote_runs (run l : list ascii) : list ascii :=
  match l with
  | [] => utf8_decode (unquote_to_bytes (rev run))
  | c :: l' =>
      if is_ascii c then unquote_runs (c :: run) l'
      else utf8_decode (unquote_to_bytes (rev run)) ++ c :: unquote_runs [] l'
  end.
Definition unquote (l : list ascii) : list ascii :=
  if mem_char "%" l then unquote_runs [] l else l.

Definition plus_to_space (l : list ascii) : list ascii :=
  map (fun c => if Ascii.eqb c "+" then " "%char else c) l.
Definition decode_part (l : list ascii) : string := of_chars (unquote (plus_to_space l)).

(** [nv = name_value.split("=", 1)] with a blank value where there is no sign *)
Definition decode_item (name_value : list ascii) : string * string :=
  let (name, value) := partition_at "=" name_value in
  (decode_part name, decode_part (opt_chars value)).

(** [parse_qsl(qs, keep_blank_values=True)] *)
Definition parse_qsl (qs : string) : list (string * string) :=
  map decode_item (List.filter (fun p => match p with [] => false | _ => true end)
                     (split_chars "&" (chars qs))).
End Decode.

(** [urlunparse(("", "", url, "", query, fragment))] *)
Definition urlunparse_local (url query fragment : string) : string :=
  ((if startswith url "//" then "//" ++ url else url)
   ++ (if truthy query then "?" ++ query else "")
   ++ (if truthy fragment then "#" ++ fragment else ""))%string.

(** ** What is encoded is read back *)

Section RoundTrip.
Context (utf8_decode : list ascii -> list ascii).
(** Decoding what was encoded gives the text back. *)
Context (utf8_round_trip : forall l, utf8_decode (utf8_encode l) = l).

Definition plain (c : ascii) : bool :=
  is_ascii c && negb (Ascii.eqb c "&") && negb (Ascii.eqb c "=") && negb (Ascii.eqb c " ").

Lemma quote_plus_byte_plain c : forallb plain (quote_plus_byte c) = true.
Proof. apply (all_chars_spec (fun c => forallb plain (quote_plus_byte c))). vm_compute. reflexivity. Qed.

Lemma quote_plus_plain s : forallb plain (quote_plus s) = true.
Proof.
  unfold quote_plus. induction (utf8_encode (chars s)) as [|c l IH]; [done|]. simpl.
  by rewrite forallb_app, quote_plus_byte_plain.
Qed.

(** Unquoting a quoted byte yields the byte, whatever follows. *)
Lemma unquote_byte c k :
  unquote_to_bytes (plus_to_space (quote_plus_byte c) ++ k) = c :: unquote_to_bytes k.
Proof.
  assert (quote_plus_byte c = [c] /\ Ascii.eqb c "+" = false /\ Ascii.eqb c "%" = false
          \/ (c = " "%char /\ quote_plus_byte c = ["+"%char])
          \/ exists a b, quote_plus_byte c = ["%"%char; a; b] /\ is_hex a = true /\ is_hex b = true
               /\ Ascii.eqb a "+" = false /\ Ascii.eqb b "+" = false
               /\ ascii_of_N (Z.to_N (hex_of a * 16 + hex_of b)) = c) as H.
  { destruct (Ascii.eqb_spec c " ") as [->|Hs]; [right; left; by split|].
    destruct (always_safe c) eqn:Ea.
    - left. unfold quote_plus_byte, quote_byte. rewrite Ea.
      assert (Ascii.eqb c " " = false) as -> by by apply Ascii.eqb_neq.
      split; [done|]. 
      assert (implb (always_safe c) (negb (Ascii.eqb c "+") && negb (Ascii.eqb c "%")) = true) as H.
      { apply (all_chars_spec (fun c => implb (always_safe c)
          (negb (Ascii.eqb c "+") && negb (Ascii.eqb c "%")))). vm_compute. reflexivity. }
      rewrite Ea in H. simpl in H. by bool_to_prop.
    - right; right. exists (upper_hex (code c / 16)), (upper_hex (code c mod 16)).
      unfold quote_plus_byte, quote_byte. rewrite Ea.
      assert (Ascii.eqb c " " = false) as -> by by apply Ascii.eqb_neq.
      split; [done|].
      assert (let a := upper_hex (code c / 16) in let b := upper_hex (code c mod 16) in
        is_hex a && is_hex b && negb (Ascii.eqb a "+") && negb (Ascii.eqb b "+")
        && Ascii.eqb (ascii_of_N (Z.to_N (hex_of a * 16 + hex_of b))) c = true) as H.
      { apply (all_chars_spec (fun c => let a := upper_hex (code c / 16) in
          let b := upper_hex (code c mod 16) in
          is_hex a && is_hex b && negb (Ascii.eqb a "+") && negb (Ascii.eqb b "+")
          && Ascii.eqb (ascii_of_N (Z.to_N (hex_of a * 16 + hex_of b))) c)). vm_compute. reflexivity. }
      cbv zeta in H. bool_to_prop. split_and!; try done. by apply Ascii.eqb_eq. }
  destruct H as [(-> & Hp & Hq)|[[-> ->]|(x & y & -> & Hx & Hy & Hxp & Hyp & Hc)]].
  - simpl. rewrite Hp. destruct c as [[] [] [] [] [] [] [] []]; done.
  - done.
  - simpl. rewrite Hxp, Hyp, Hx, Hy. simpl. by rewrite Hc.
Qed.

Lemma unquote_quoted s :
  unquote_to_bytes (plus_to_space (quote_plus s)) = utf8_encode (chars s).
Proof.
  unfold quote_plus, plus_to_space. induction (utf8_encode (chars s)) as [|c l IH]; [done|].
  simpl. rewrite map_app. change (map _ (quote_plus_byte c)) with (plus_to_space (quote_plus_byte c)).
  by rewrite unquote_byte, IH.
Qed.

Lemma unquote_runs_ascii run l :
  forallb is_ascii l = true ->
  unquote_runs utf8_decode run l = utf8_decode (unquote_to_bytes (rev run ++ l)).
Proof.
  revert run. induction l as [|c l IH]; intros run Hl; simpl; [by rewrite app_nil_r|].
  simpl in Hl. apply andb_true_iff in Hl as [-> Hl]. rewrite IH by done. simpl. by rewrite <- app_assoc.
Qed.

Lemma unquote_no_percent l : mem_char "%" l = false -> unquote_to_bytes l = l.
Proof.
  induction l as [|c l IH]; [done|]. simpl. intros [Hc Hl]%orb_false_iff.
  destruct c as [[] [] [] [] [] [] [] []]; try done; by rewrite IH.
Qed.

Lemma utf8_encode_ascii l : forallb is_ascii (utf8_encode l) = true -> utf8_encode l = l.
Proof.
  induction l as [|c l IH]; [done|]. simpl. rewrite forallb_app. intros [Hc Hl]%andb_true_iff.
  rewrite (IH Hl). unfold utf8_char in *. destruct (code c <? 128) eqn:E; [done|].
  exfalso. assert (implb (negb (code c <? 128)) (negb (is_ascii (ascii_of_N (Z.to_N (192 + code c / 64)))))
    = true) as H.
  { apply (all_chars_spec (fun c => implb (negb (code c <? 128))
      (negb (is_ascii (ascii_of_N (Z.to_N (192 + code c / 64))))))). vm_compute. reflexivity. }
  rewrite E in H. simpl in H, Hc. apply negb_true_iff in H. by rewrite H in Hc.
Qed.

Lemma plain_ascii l : forallb plain l = true -> forallb is_ascii (plus_to_space l) = true.
Proof.
  induction l as [|c l IH]; [done|]. simpl. intros [Hc Hl]%andb_true_iff. rewrite IH by done.
  unfold plain in Hc. destruct (Ascii.eqb c "+"); [done|]. bool_to_prop. by rewrite andb_true_r.
Qed.

Lemma decode_quoted s : decode_part utf8_decode (quote_plus s) = s.
Proof.
  unfold decode_part, unquote. pose proof (unquote_quoted s) as Hu.
  pose proof (plain_ascii _ (quote_plus_plain s)) as Ha.
  destruct (mem_char "%" _) eqn:Em.
  - rewrite unquote_runs_ascii by done. simpl. rewrite Hu, utf8_round_trip. apply of_chars_chars.
  - rewrite (unquote_no_percent _ Em) in Hu. rewrite Hu in Ha |- *.
    rewrite utf8_encode_ascii by done. apply of_chars_chars.
Qed.

Lemma plain_no l c : forallb plain l = true -> plain c = false -> mem_char c l = false.
Proof.
  intros Hl Hc. induction l as [|x l IH]; [done|]. simpl in *. apply andb_true_iff in Hl as [Hx Hl].
  rewrite IH, orb_false_r by done. apply Ascii.eqb_neq. intros ->. congruence.
Qed.

Lemma partition_at_first c a k : mem_char c a = false -> partition_at c (a ++ c :: k) = (a, Some k).
Proof.
  induction a as [|x a IH]; simpl; intros Ha; [by rewrite Ascii.eqb_refl|].
  apply orb_false_iff in Ha as [Hx Ha]. by rewrite Ascii.eqb_sym, Hx, IH.
Qed.

Lemma decode_encoded item : decode_item utf8_decode (encode_item item) = item.
Proof.
  destruct item as [k v]. unfold decode_item, encode_item. simpl.
  rewrite partition_at_first by (apply plain_no; [apply quote_plus_plain|done]).
  simpl. by rewrite !decode_quoted.
Qed.

Lemma split_chars_no c l : mem_char c l = false -> split_chars c l = [l].
Proof.
  induction l as [|x l IH]; [done|]. simpl. intros [-> Hl]%orb_false_iff. by rewrite IH.
Qed.

Lemma split_chars_app c a k :
  mem_char c a = false -> split_chars c (a ++ c :: k) = a :: split_chars c k.
Proof.
  induction a as [|x a IH]; simpl; intros Ha; [by rewrite Ascii.eqb_refl|].
  apply orb_false_iff in Ha as [-> Ha]. by rewrite IH.
Qed.

Lemma split_join c parts :
  parts <> [] -> Forall (fun p => mem_char c p = false) parts ->
  split_chars c (join_chars c parts) = parts.
Proof.
  intros Hne Hp. induction Hp as [|p parts Hp Hps IH]; [done|].
  destruct parts as [|q parts]; [by apply split_chars_no|].
  change (join_chars c (p :: q :: parts)) with (p ++ c :: join_chars c (q :: parts)).
  by rewrite split_chars_app, IH.
Qed.

Lemma encode_item_no_amp item : mem_char "&" (encode_item item) = false.
Proof.
  unfold encode_item, mem_char. rewrite existsb_app. simpl. apply orb_false_iff. split.
  - apply (plain_no _ "&"); [apply quote_plus_plain|done].
  - apply (plain_no _ "&"); [apply quote_plus_plain|done].
Qed.

(** Reading an encoded query gives back its items, in order and with any text for
    names and values. *)
Lemma query_round_trip items : parse_qsl utf8_decode (urlencode items) = items.
Proof.
  unfold parse_qsl, urlencode. rewrite chars_of_chars.
  destruct items as [|i items]; [done|].
  rewrite split_join; [|done|].
  - induction (i :: items) as [|j l IH]; [done|]. cbn [map List.filter].
    assert (encode_item j <> []) as Hj by (unfold encode_item; by destruct (quote_plus _)).
    destruct (encode_item j) as [|c k] eqn:Ej; [done|]. cbn [map].
    by rewrite IH, <- Ej, decode_encoded.
  - apply Forall_forall. intros p Hp. apply list_elem_of_fmap in Hp as (j & -> & _).
    apply encode_item_no_amp.
Qed.
End RoundTrip.

(** ** A decoder that obeys the law *)

(** Latin-1 characters beyond ASCII are two bytes; what is not their encoding stays. *)
Fixpoint latin1_decode (l : list ascii) : list ascii :=
  match l with
  | a :: ((b :: rest) as l') =>
      if (192 <=? code a) && (code a <? 196) && (128 <=? code b) && (code b <? 192)
      then ascii_of_N (Z.to_N ((code a - 192) * 64 + (code b - 128))) :: latin1_decode rest
      else a :: latin1_decode l'
  | l => l
  end.

Lemma latin1_decode_char c k : latin1_decode (utf8_char c ++ k) = c :: latin1_decode k.
Proof.
  unfold utf8_char. destruct (code c <? 128) eqn:Ec.
  - simpl. destruct k as [|b k]; [done|]. bool_to_prop.
    assert ((192 <=? code c) = false) as -> by (apply Z.leb_gt; lia). done.
  - assert (implb (negb (code c <? 128))
      (let a := ascii_of_N (Z.to_N (192 + code c / 64)) in let b := ascii_of_N (Z.to_N (128 + code c mod 64)) in
       (192 <=? code a) && (code a <? 196) && (128 <=? code b) && (code b <? 192)
       && Ascii.eqb (ascii_of_N (Z.to_N ((code a - 192) * 64 + (code b - 128)))) c) = true) as H.
    { apply (all_chars_spec (fun c => implb (negb (code c <? 128))
        (let a := ascii_of_N (Z.to_N (192 + code c / 64)) in let b := ascii_of_N (Z.to_N (128 + code c mod 64)) in
         (192 <=? code a) && (code a <? 196) && (128 <=? code b) && (code b <? 192)
         && Ascii.eqb (ascii_of_N (Z.to_N ((code a - 192) * 64 + (code b - 128)))) c))).
      vm_compute. reflexivity. }
    rewrite Ec in H. cbn [negb implb] in H. cbv zeta in H. apply andb_true_iff in H as [H Hc].
    apply Ascii.eqb_eq in Hc. cbn [app latin1_decode]. by rewrite H, Hc.
Qed.

Lemma latin1_round_trip l : latin1_decode (utf8_encode l) = l.
Proof. induction l as [|c l IH]; [done|]. simpl. by rewrite latin1_decode_char, IH. Qed.
