(* ===== verification/Ipaddress.v ===== *)
(** * IP addresses and networks

    What the backend uses of Python's [ipaddress]: [ip_address], [ip_network] with
    [strict=False], [str] of an address, [ipv4_mapped] and membership.  An address is
    its integer; the scope of an IPv6 address is kept as text. *)

From S2P Require Import Prelude PyStr Url.

Inductive address :=
| V4 (ip : Z)
| V6 (ip : Z) (scope_id : option string).

#[export] Instance address_eq_dec : EqDecision address.
Proof. solve_decision. Defined.

(** A network: version, masked address and prefix length. *)
Record network := Network { net_v4 : bool; net_ip : Z; net_prefixlen : Z }.

(** ** Parsing *)

(** [s.isascii() and s.isdigit()] on a non-empty text *)
Definition ascii_digits (l : list ascii) : bool :=
  match l with [] => false | _ => forallb is_digit l end.

Definition read_decimal (l : list ascii) : Z :=
  fold_left (fun n c => n * 10 + (code c - 48)) l 0.

(** [_parse_octet]: at most three digits, no leading zero, at most 255 *)
Definition parse_octet (l : list ascii) : option Z :=
  if negb (ascii_digits l) then None
  else if (3 <? length l)%nat then None
  else match l with
       | "0"%char :: _ :: _ => None
       | _ => let n := read_decimal l in if 255 <? n then None else Some n
       end.

(** [IPv4Address._ip_int_from_string] *)
Definition parse_v4 (l : list ascii) : option Z :=
  match split_chars "." l with
  | [a; b; c; d] =>
      a ← parse_octet a; b ← parse_octet b; c ← parse_octet c; d ← parse_octet d;
      Some (a * 16777216 + b * 65536 + c * 256 + d)
  | _ => None
  end.

Definition hex_value (c : ascii) : Z :=
  if is_digit c then code c - 48 else if code c <=? 70 then code c - 55 else code c - 87.
Definition read_hex (l : list ascii) : Z := fold_left (fun n c => n * 16 + hex_value c) l 0.

(** [_parse_hextet] *)
Definition parse_hextet (l : list ascii) : option Z :=
  match l with
  | [] => None
  | _ => if forallb is_hex l && (length l <=? 4)%nat then Some (read_hex l) else None
  end.

(** The parts between colons, with an IPv4 suffix as two hextets. *)
Definition hex4 (n : Z) : list ascii :=
  let digits := hex_digits 4 n in
  match drop_while (Ascii.eqb "0") digits with [] => ["0"%char] | d => d end.
Definition v6_parts (l : list ascii) : option (list (list ascii)) :=
  let parts := split_chars ":" l in
  if (length parts <? 3)%nat then None
  else
    let final := List.last parts [] in
    if mem_char "." final then
      n ← parse_v4 final; Some (removelast parts ++ [hex4 (n / 65536); hex4 (n mod 65536)])
    else Some parts.

(** The places of the empty parts other than the first and the last. *)
Fixpoint inner_empty (i : nat) (parts : list (list ascii)) : list nat :=
  match parts with
  | [] | [_] => []
  | p :: parts' =>
      (if (1 <=? i)%nat && match p with [] => true | _ => false end then [i] else [])
      ++ inner_empty (S i) parts'
  end.

Definition part_empty (p : list ascii) : bool := match p with [] => true | _ => false end.

(** How many parts before and after the gap, and how many hextets it stands for. *)
Definition v6_shape (parts : list (list ascii)) : option (nat * nat * nat) :=
  let n := length parts in
  let first_empty := part_empty (hd [] parts) in
  let last_empty := part_empty (List.last parts []) in
  match inner_empty 0 parts with
  | [] => if (n =? 8)%nat && negb first_empty && negb last_empty then Some (8, 0, 0)%nat else None
  | [skip_index] =>
      let hi := if first_empty then (skip_index - 1)%nat else skip_index in
      let lo := if last_empty then (n - skip_index - 2)%nat else (n - skip_index - 1)%nat in
      if first_empty && (0 <? hi)%nat then None
      else if last_empty && (0 <? lo)%nat then None
      else if (hi + lo <? 8)%nat then Some (hi, lo, 8 - (hi + lo))%nat else None
  | _ => None
  end.

Fixpoint read_hextets (acc : Z) (parts : list (list ascii)) : option Z :=
  match parts with
  | [] => Some acc
  | p :: parts' => h ← parse_hextet p; read_hextets (acc * 65536 + h) parts'
  end.

(** [IPv6Address._ip_int_from_string] *)
Definition parse_v6_int (l : list ascii) : option Z :=
  parts ← v6_parts l;
  if (9 <? length parts)%nat then None
  else
    shape ← v6_shape parts;
    let '(hi, lo, skipped) := shape in
    high ← read_hextets 0 (take hi parts);
    read_hextets (high * 2 ^ (16 * Z.of_nat skipped)) (drop (length parts - lo) parts).

(** [_split_scope_id] and the constructor of [IPv6Address] *)
Definition parse_v6 (l : list ascii) : option address :=
  match partition_at "%" l with
  | (addr, None) => n ← parse_v6_int addr; Some (V6 n None)
  | (addr, Some scope_id) =>
      if part_empty scope_id || mem_char "%" scope_id then None
      else n ← parse_v6_int addr; Some (V6 n (Some (of_chars scope_id)))
  end.

Definition parse_address (l : list ascii) : option address :=
  if mem_char "/" l then None
  else match parse_v4 l with Some n => Some (V4 n) | None => parse_v6 l end.

(** [ip_address(s)]; [None] is [ValueError]. *)
Definition ip_address (s : string) : option address := parse_address (chars s).

(** ** Text *)

Definition v4_str (n : Z) : string :=
  join "." [pretty (n / 16777216); pretty (n / 65536 mod 256); pretty (n / 256 mod 256); pretty (n mod 256)].

(** [_compress_hextets]: the first longest run of zeros, of at least two. *)
Record run_state := RunState { best_start : nat; best_len : nat; cur_start : nat; cur_len : nat }.
Definition run_step (s : run_state) (p : nat * string) : run_state :=
  if (p.2 =? "0")%string then
    let start := if (cur_len s =? 0)%nat then p.1 else cur_start s in
    let len := S (cur_len s) in
    if (best_len s <? len)%nat then RunState start len start len
    else RunState (best_start s) (best_len s) start len
  else RunState (best_start s) (best_len s) 0 0.
Definition compress_hextets (hextets : list string) : list string :=
  let best := fold_left run_step (imap pair hextets) (RunState 0 0 0 0) in
  if (1 <? best_len best)%nat then
    let stop := (best_start best + best_len best)%nat in
    let tail := if (stop =? length hextets)%nat then [""; ""]%string else ""%string :: drop stop hextets in
    if (best_start best =? 0)%nat then ""%string :: tail else take (best_start best) hextets ++ tail
  else hextets.
Definition v6_hextets (n : Z) : list string :=
  map (fun i => of_chars (hex4 (n / 2 ^ (16 * i) mod 65536))) [7; 6; 5; 4; 3; 2; 1; 0].
Definition v6_str (n : Z) : string := join ":" (compress_hextets (v6_hextets n)).

(** [str(address)] *)
Definition address_str (a : address) : string :=
  match a with
  | V4 n => v4_str n
  | V6 n None => v6_str n
  | V6 n (Some scope_id) => (v6_str n ++ "%" ++ scope_id)%string
  end.

(** [address.ipv4_mapped] *)
Definition ipv4_mapped (a : address) : option address :=
  match a with
  | V6 n _ => if n / 4294967296 =? 65535 then Some (V4 (n mod 4294967296)) else None
  | V4 _ => None
  end.

(** ** Networks *)

(** The number of ones of a mask that is ones followed by zeros ([_prefix_from_ip_int]). *)
Definition prefix_from_ip_int (n : Z) : option Z :=
  let lens := filter (fun k => n = 4294967296 - 2 ^ (32 - k)) (map Z.of_nat (seq 0 33)) in
  head lens.
(** [_prefix_from_prefix_string], or for IPv4 a netmask, or a hostmask. *)
Definition prefix_from_string (v4 : bool) (mask : list ascii) : option Z :=
  let max := if v4 then 32 else 128 in
  if ascii_digits mask && (read_decimal mask <=? max) then Some (read_decimal mask)
  else if v4 then
    n ← parse_v4 mask;
    match prefix_from_ip_int n with
    | Some k => Some k
    | None => prefix_from_ip_int (Z.lxor n 4294967295)
    end
  else None.

Definition network_of (v4 : bool) (parse : list ascii -> option Z) (addr : list ascii)
    (mask : option (list ascii)) : option network :=
  let bits := if v4 then 32 else 128 in
  ip ← parse addr;
  prefixlen ← match mask with None => Some bits | Some m => prefix_from_string v4 m end;
  let host := 2 ^ (bits - prefixlen) in
  Some (Network v4 (ip / host * host) prefixlen).

Definition v6_int (l : list ascii) : option Z :=
  match parse_v6 l with Some (V6 n _) => Some n | _ => None end.

(** [ip_network(s, strict=False)]; [None] is [ValueError]. *)
Definition ip_network (s : string) : option network :=
  let make addr mask :=
    match network_of true parse_v4 addr mask with
    | Some n => Some n
    | None => network_of false v6_int addr mask
    end in
  match split_chars "/" (chars s) with
  | [addr] => make addr None
  | [addr; mask] => make addr (Some mask)
  | _ => None
  end.

(** [address in network] *)
Definition in_network (a : address) (n : network) : bool :=
  match a with
  | V4 ip => net_v4 n && (let host := 2 ^ (32 - net_prefixlen n) in ip / host * host =? net_ip n)
  | V6 ip _ => negb (net_v4 n) && (let host := 2 ^ (128 - net_prefixlen n) in ip / host * host =? net_ip n)
  end.

(** ** Examples *)

Example ip_address_examples :
  (address_str <$> ip_address "10.0.0.1", ip_address "10.0.0.01", ip_address "10.0.0",
   address_str <$> ip_address "2001:DB8:0:0:1:0:0:1", address_str <$> ip_address "::",
   address_str <$> ip_address "fe80::1%eth0", ip_address "1::2::3", ip_address ":1:2:3:4:5:6:7",
   address_str <$> ip_address "1:2:3:4:5:6:7::", ip_address "1:2:3:4:5:6:7:8:9",
   fmap address_str ∘ ipv4_mapped <$> ip_address "::ffff:10.0.0.1")
  = (Some "10.0.0.1", None, None, Some "2001:db8::1:0:0:1", Some "::", Some "fe80::1%eth0", None, None,
     Some "1:2:3:4:5:6:7:0", None, Some (Some "10.0.0.1"))%string.
Proof. vm_compute. reflexivity. Qed.

Example ip_network_examples :
  (ip_network "10.1.2.3/8", ip_network "10.0.0.0/255.255.0.0", ip_network "10.0.0.0/0.0.0.255",
   ip_network "10.0.0.1", ip_network "10.0.0.0/33", ip_network "::1/128", ip_network "10.0.0.0/",
   ip_network "0.0.0.0/0")
  = (Some (Network true 167772160 8), Some (Network true 167772160 16),
     Some (Network true 167772160 24), Some (Network true 167772161 32), None,
     Some (Network false 1 128), None, Some (Network true 0 0)).
Proof. vm_compute. reflexivity. Qed.
