(* ===== verification/Settings.v ===== *)
(** * Settings

    Models src/backend/app/config/auth.py and src/backend/app/config/oidc.py: the
    settings records, their validators and the reading of the OIDC environment.
    The floating-point seconds of the Redis settings are rationals.  Parsing of IP
    networks and of IPv6 hosts ([ipaddress]) is a parameter, which [ClientIp]
    instantiates with [Ipaddress].  At the end, what accepted
    settings promise. *)

From Stdlib Require Import QArith.
From S2P Require Import Prelude PyStr Errors Url.

Local Open Scope Z_scope.

(** ** Authentication settings *)

(* src: backend/app/config/auth.py:8-35 AuthSettings *)
Record AuthSettings := mkAuthSettings {
  AUTH_COOKIE_SECURE : option bool;
  AUTH_SESSION_COOKIE_PREFIX : string;
  AUTH_TRUSTED_PROXY_IPS : string;
  AUTH_SESSION_ABSOLUTE_TTL_SECONDS : Z;
  AUTH_SESSION_IDLE_TTL_SECONDS : Z;
  AUTH_SESSION_TOUCH_INTERVAL_SECONDS : Z;
  AUTH_PASSWORD_HASH_CONCURRENCY : Z;
  AUTH_RATE_LIMIT_WINDOW_SECONDS : Z;
  AUTH_RATE_LIMIT_FAILURES_PER_EMAIL_IP : Z;
  AUTH_RATE_LIMIT_FAILURES_PER_IP : Z;
  AUTH_RATE_LIMIT_FAILURES_PER_EMAIL : Z;
  AUTH_RATE_LIMIT_REGISTRATIONS_PER_IP : Z;
  AUTH_RATE_LIMIT_REGISTRATION_WINDOW_SECONDS : Z;
  AUTH_RATE_LIMIT_MAX_BUCKETS_PER_SCOPE : Z;
  AUTH_RATE_LIMIT_BACKEND : string;
  AUTH_RATE_LIMIT_REDIS_URL : string;
  AUTH_RATE_LIMIT_REDIS_KEY_PREFIX : string;
  AUTH_RATE_LIMIT_REDIS_UNAVAILABLE_POLICY : string;
  AUTH_RATE_LIMIT_REDIS_SOCKET_TIMEOUT_SECONDS : Q;
  AUTH_RATE_LIMIT_REDIS_SOCKET_CONNECT_TIMEOUT_SECONDS : Q;
  AUTH_RATE_LIMIT_REDIS_OPERATION_DEADLINE_SECONDS : Q;
  AUTH_RATE_LIMIT_REDIS_CIRCUIT_BREAKER_FAILURES : Z;
  AUTH_RATE_LIMIT_REDIS_CIRCUIT_BREAKER_COOLDOWN_SECONDS : Z;
  AUTH_RATE_LIMIT_REDIS_MAX_CONNECTIONS : Z;
  AUTH_CSRF_EXEMPT_PATHS : string;
}.

(* src: backend/app/config/auth.py:11-35 AuthSettings *)
Definition default_auth_settings : AuthSettings :=
  mkAuthSettings None "" "" 604800 86400 300 4 900 5 20 20 10 3600 10000 "memory" ""
    "auth:rate_limit" "fail_closed" (1 # 4) (1 # 4) (4 # 5) 5 10 100 "".

Definition invalid {A} (m : string) : result A := Raise (ValueError m).

(** A validator returns its value or raises; here it is the error it raises. *)
Definition check (ok : bool) (m : string) : result unit := if ok then Ok tt else invalid m.

Fixpoint check_all (l : list (result unit)) : result unit :=
  match l with [] => Ok tt | c :: l' => c ≫= (fun _ => check_all l') end.

Section AuthSettings.
(** [ip_network(s, strict=False).prefixlen], or [None] for a [ValueError]. *)
Context (network_prefixlen : string -> option Z).
Implicit Types s : AuthSettings.

(* src: backend/app/config/auth.py:37-41 AuthSettings._validate_host_prefixed_session_cookie_requires_secure *)
Definition validate_host_prefix s : result unit :=
  check (negb ((AUTH_SESSION_COOKIE_PREFIX s =? "__Host-")%string
               && bool_decide (AUTH_COOKIE_SECURE s = Some false)))
    "AUTH_SESSION_COOKIE_PREFIX=__Host- requires AUTH_COOKIE_SECURE=true".

(* src: backend/app/config/auth.py:43-54 AuthSettings._validate_redis_rate_limit_settings *)
Definition validate_redis_rate_limit_settings s : result unit :=
  if (AUTH_RATE_LIMIT_BACKEND s =? "redis")%string && negb (truthy (AUTH_RATE_LIMIT_REDIS_URL s))
  then invalid "AUTH_RATE_LIMIT_REDIS_URL is required when AUTH_RATE_LIMIT_BACKEND=redis"
  else
    let minimum_deadline := (AUTH_RATE_LIMIT_REDIS_SOCKET_CONNECT_TIMEOUT_SECONDS s
                             + (2 # 1) * AUTH_RATE_LIMIT_REDIS_SOCKET_TIMEOUT_SECONDS s)%Q in
    check (Qle_bool minimum_deadline (AUTH_RATE_LIMIT_REDIS_OPERATION_DEADLINE_SECONDS s))
      "AUTH_RATE_LIMIT_REDIS_OPERATION_DEADLINE_SECONDS must be at least the socket timeouts".

(* src: backend/app/config/auth.py:83-87 AuthSettings._validate_positive_int *)
Definition validate_positive_int (value : Z) : result unit :=
  check (1 <=? value) "value must be at least 1".

(* src: backend/app/config/auth.py:89-98 AuthSettings._validate_redis_timeout_minimum *)
Definition validate_redis_timeout_minimum (value : Q) : result unit :=
  check (Qle_bool (1 # 20) value) "value must be at least 0.05".

(* src: backend/app/config/auth.py:63-68 AuthSettings._validate_session_cookie_prefix *)
Definition validate_session_cookie_prefix (value : string) : result unit :=
  check ((value =? "") || (value =? "__Host-"))%string
    "AUTH_SESSION_COOKIE_PREFIX must be empty or __Host-".

(* src: backend/app/config/auth.py:107-115 AuthSettings._validate_redis_key_prefix *)
Definition validate_redis_key_prefix (value : string) : result unit :=
  check (negb (negb (truthy (strip value)) || negb (truthy (strip_char ":" value))
               || existsb (fun c => contains_char c value) ["*"; "?"; "["; "]"]%char
               || contains_char "010" value || contains_char "013" value))
    "AUTH_RATE_LIMIT_REDIS_KEY_PREFIX must not be empty or contain glob characters".

(* src: backend/app/config/auth.py:117-131 AuthSettings._validate_trusted_proxy_ips *)
Fixpoint validate_proxies (l : list string) : result unit :=
  match l with
  | [] => Ok tt
  | raw_proxy_ip :: l' =>
      let proxy_ip := strip raw_proxy_ip in
      if negb (truthy proxy_ip) then validate_proxies l'
      else match network_prefixlen proxy_ip with
           | None => invalid "AUTH_TRUSTED_PROXY_IPS must contain only IP addresses or CIDR networks"
           | Some prefixlen =>
               if prefixlen =? 0 then invalid "AUTH_TRUSTED_PROXY_IPS must not trust all addresses"
               else validate_proxies l'
           end
  end.
Definition validate_trusted_proxy_ips (value : string) : result unit :=
  validate_proxies (split "," value).

(** Literal types and field validators first, then the model validators. *)
(* src: backend/app/config/auth.py:37-131 AuthSettings *)
Definition validate_auth_settings s : result unit :=
  check_all [
    validate_session_cookie_prefix (AUTH_SESSION_COOKIE_PREFIX s);
    validate_trusted_proxy_ips (AUTH_TRUSTED_PROXY_IPS s);
    validate_positive_int (AUTH_SESSION_ABSOLUTE_TTL_SECONDS s);
    validate_positive_int (AUTH_SESSION_IDLE_TTL_SECONDS s);
    check (1 <=? AUTH_PASSWORD_HASH_CONCURRENCY s)
      "AUTH_PASSWORD_HASH_CONCURRENCY must be at least 1";
    validate_positive_int (AUTH_RATE_LIMIT_WINDOW_SECONDS s);
    validate_positive_int (AUTH_RATE_LIMIT_FAILURES_PER_EMAIL_IP s);
    validate_positive_int (AUTH_RATE_LIMIT_FAILURES_PER_IP s);
    validate_positive_int (AUTH_RATE_LIMIT_FAILURES_PER_EMAIL s);
    validate_positive_int (AUTH_RATE_LIMIT_REGISTRATIONS_PER_IP s);
    validate_positive_int (AUTH_RATE_LIMIT_REGISTRATION_WINDOW_SECONDS s);
    validate_positive_int (AUTH_RATE_LIMIT_MAX_BUCKETS_PER_SCOPE s);
    check ((AUTH_RATE_LIMIT_BACKEND s =? "memory") || (AUTH_RATE_LIMIT_BACKEND s =? "redis"))%string
      "Input should be 'memory' or 'redis'";
    validate_redis_key_prefix (AUTH_RATE_LIMIT_REDIS_KEY_PREFIX s);
    check ((AUTH_RATE_LIMIT_REDIS_UNAVAILABLE_POLICY s =? "fail_closed")
           || (AUTH_RATE_LIMIT_REDIS_UNAVAILABLE_POLICY s =? "fail_open"))%string
      "Input should be 'fail_closed' or 'fail_open'";
    validate_redis_timeout_minimum (AUTH_RATE_LIMIT_REDIS_SOCKET_TIMEOUT_SECONDS s);
    validate_redis_timeout_minimum (AUTH_RATE_LIMIT_REDIS_SOCKET_CONNECT_TIMEOUT_SECONDS s);
    validate_redis_timeout_minimum (AUTH_RATE_LIMIT_REDIS_OPERATION_DEADLINE_SECONDS s);
    validate_positive_int (AUTH_RATE_LIMIT_REDIS_CIRCUIT_BREAKER_FAILURES s);
    validate_positive_int (AUTH_RATE_LIMIT_REDIS_CIRCUIT_BREAKER_COOLDOWN_SECONDS s);
    check (1 <=? AUTH_RATE_LIMIT_REDIS_MAX_CONNECTIONS s)
      "AUTH_RATE_LIMIT_REDIS_MAX_CONNECTIONS must be at least 1";
    validate_host_prefix s;
    validate_redis_rate_limit_settings s].
End AuthSettings.

(* src: backend/app/config/auth.py:133-140 AuthSettings.effective_session_touch_interval_seconds *)
Definition effective_session_touch_interval_seconds (s : AuthSettings) : Z :=
  let configured_interval := AUTH_SESSION_TOUCH_INTERVAL_SECONDS s in
  if configured_interval <=? 0 then configured_interval
  else
    let max_interval := AUTH_SESSION_IDLE_TTL_SECONDS s / 2 in
    if max_interval <=? configured_interval then max_interval else configured_interval.

(** ** OIDC settings *)

(* src: backend/app/config/oidc.py:9-10 LinkMode *)
Inductive link_mode := LinkAuto | LinkManual | LinkDisabled.
#[export] Instance link_mode_eq_dec : EqDecision link_mode.
Proof. solve_decision. Defined.

(* src: backend/app/config/oidc.py:15-28 OidcProviderSettings *)
Record OidcProviderSettings := mkProvider {
  provider_id : string;
  display_name : string;
  issuer : string;
  client_id : string;
  client_secret : string;
  oidc_scope : list string;
  trust_verified_email : bool;
  auto_provision_enabled : bool;  (* [auto_provision == "enabled"] *)
  provider_link_mode : link_mode;
  callback_path : string;
  claims_allowlist : list string;
}.

(* src: backend/app/config/oidc.py:66-74 OidcSettings *)
Record OidcSettings := mkOidcSettings {
  providers : list OidcProviderSettings;
  AUTH_OIDC_REDIRECT_BASE_URL : option string;
  AUTH_OIDC_REAUTH_FRESHNESS_SECONDS : Z;
  AUTH_OIDC_AUTHORIZATION_STARTS_PER_IP : Z;
  AUTH_OIDC_STATE_TTL_SECONDS : Z;
  AUTH_OIDC_AUTH_TIME_FUTURE_LEEWAY_SECONDS : Z;
}.

(* src: backend/app/config/oidc.py:57-59 OidcProviderSettings.allows_auto_provision *)
Definition allows_auto_provision (p : OidcProviderSettings) : bool :=
  trust_verified_email p && auto_provision_enabled p.

(* src: backend/app/config/oidc.py:61-63 OidcProviderSettings.allows_auto_link *)
Definition allows_auto_link (p : OidcProviderSettings) : bool :=
  trust_verified_email p && bool_decide (provider_link_mode p = LinkAuto).

(* src: backend/app/config/oidc.py:103-107 OidcSettings.get_provider *)
Fixpoint find_provider (l : list OidcProviderSettings) (pid : string)
  : result OidcProviderSettings :=
  match l with
  | [] => Raise (KeyError pid)
  | p :: l' => if (provider_id p =? pid)%string then Ok p else find_provider l' pid
  end.
Definition get_provider (s : OidcSettings) (pid : string) : result OidcProviderSettings :=
  find_provider (providers s) pid.

(** [_PROVIDER_ID_PATTERN.fullmatch] *)
Definition id_head_char (c : ascii) : bool :=
  ((97 <=? code c) && (code c <=? 122)) || is_digit c.
Definition id_char (c : ascii) : bool :=
  id_head_char c || Ascii.eqb c "_" || Ascii.eqb c "-".
(* src: backend/app/config/oidc.py:12-12 _PROVIDER_ID_PATTERN *)
Definition provider_id_matches (v : string) : bool :=
  match chars v with c :: l => id_head_char c && forallb id_char l | [] => false end.

(* src: backend/app/config/oidc.py:202-203 _split_csv *)
Definition split_csv (value : string) : list string :=
  List.filter truthy (map strip (split "," value)).

(* src: backend/app/config/oidc.py:206-209 _split_csv_or_space *)
Definition split_csv_or_space (value : string) : list string :=
  if contains_char "," value then split_csv value
  else List.filter truthy (map strip (split_ws value)).

(* src: backend/app/config/oidc.py:212-217 _validate_unique *)
Fixpoint validate_unique_from (seen values : list string) (label : string) : result unit :=
  match values with
  | [] => Ok tt
  | v :: vs => if decide (v ∈ seen) then invalid (label ++ " contains duplicates")
               else validate_unique_from (v :: seen) vs label
  end.
Definition validate_unique (values : list string) (label : string) : result unit :=
  validate_unique_from [] values label.

(* src: backend/app/config/oidc.py:220-221 _provider_env_suffix *)
Definition provider_env_suffix (pid : string) : string := upper (replace_char "-" "_" pid).

(* src: backend/app/config/oidc.py:224-227 _empty_to_none *)
Definition empty_to_none (value : option string) : option string :=
  match value with Some v => if truthy v then Some v else None | None => None end.

(* src: backend/app/config/oidc.py:187-193 _read_bool *)
Definition read_bool (value : string) : result bool :=
  let normalized := lower (strip value) in
  if existsb (String.eqb normalized) ["true"; "1"; "yes"]%string then Ok true
  else if existsb (String.eqb normalized) ["false"; "0"; "no"]%string then Ok false
  else invalid "boolean value must be true or false".

(** [int(s)] of a string: white space around, an optional sign, and digits with
    single underscores between them. *)
Fixpoint parse_digits (acc : Z) (after_digit : bool) (l : list ascii) : option Z :=
  match l with
  | [] => if after_digit then Some acc else None
  | c :: l' =>
      if is_digit c then parse_digits (acc * 10 + (code c - 48)) true l'
      else if Ascii.eqb c "_" && after_digit then parse_digits acc false l'
      else None
  end.
Definition python_int (s : string) : result Z :=
  let int_of o := match o with Some n => Ok n | None => invalid "invalid literal for int()" end in
  match chars (strip s) with
  | c :: l => if Ascii.eqb c "-" then int_of (Z.opp <$> parse_digits 0 false l)
              else if Ascii.eqb c "+" then int_of (parse_digits 0 false l)
              else int_of (parse_digits 0 false (c :: l))
  | [] => int_of None
  end.

Section OidcEnvironment.
Context (is_ipv6 : string -> bool).
Implicit Types env : gmap string string.

(* src: backend/app/config/oidc.py:173-177 _required *)
Definition required env (key : string) : result string :=
  match env !! key with
  | Some value => if truthy (strip value) then Ok value else invalid (key ++ " is required")
  | None => invalid (key ++ " is required")
  end.

(* src: backend/app/config/oidc.py:180-184 _read_int *)
Definition read_int env (key : string) (dflt : Z) : result Z :=
  match env !! key with
  | None => Ok dflt
  | Some raw_value => if truthy raw_value then python_int raw_value else Ok dflt
  end.

(* src: backend/app/config/oidc.py:196-199 _read_literal *)
Definition read_literal {A} (value : string) (allowed : list (string * A)) (key : string)
  : result A :=
  match List.find (fun p => (p.1 =? value)%string) allowed with
  | Some (_, a) => Ok a
  | None => invalid (key ++ " must be one of: " ++ join ", " (sorted (map fst allowed)))
  end.

(* src: backend/app/config/oidc.py:230-233 _validate_absolute_url *)
Definition validate_absolute_url (value label : string) : result unit :=
  parsed ← urlparse is_ipv6 value;
  check (((scheme parsed =? "https") || (scheme parsed =? "http"))%string
         && truthy (netloc parsed)) (label ++ " must be an absolute URL").

Definition rstrip_slash (s : string) : string := rstrip_char "/" s.

(** The validated provider: [issuer] loses its trailing slashes. *)
(* src: backend/app/config/oidc.py:30-55 OidcProviderSettings *)
Definition validate_provider (p : OidcProviderSettings) : result OidcProviderSettings :=
  check_all [
    check (provider_id_matches (provider_id p))
      "provider_id must be lowercase alphanumeric, dash, or underscore";
    check (truthy (strip (display_name p))) "value must not be empty";
    validate_absolute_url (issuer p) "issuer";
    check (truthy (strip (client_id p))) "value must not be empty";
    check (truthy (strip (client_secret p))) "value must not be empty";
    check (startswith (callback_path p) "/") "callback_path must be an absolute path"] ≫= (fun _ =>
  Ok (mkProvider (provider_id p) (display_name p) (rstrip_slash (issuer p)) (client_id p)
        (client_secret p) (oidc_scope p) (trust_verified_email p) (auto_provision_enabled p)
        (provider_link_mode p) (callback_path p) (claims_allowlist p))).

(* src: backend/app/config/oidc.py:76-101 OidcSettings *)
Definition validate_oidc_settings (s : OidcSettings) : result OidcSettings :=
  let base_url := AUTH_OIDC_REDIRECT_BASE_URL s in
  check_all [
    match base_url with
    | Some u => validate_absolute_url u "AUTH_OIDC_REDIRECT_BASE_URL"
    | None => Ok tt
    end;
    validate_positive_int (AUTH_OIDC_REAUTH_FRESHNESS_SECONDS s);
    validate_positive_int (AUTH_OIDC_AUTHORIZATION_STARTS_PER_IP s);
    validate_positive_int (AUTH_OIDC_STATE_TTL_SECONDS s);
    validate_positive_int (AUTH_OIDC_AUTH_TIME_FUTURE_LEEWAY_SECONDS s);
    match providers s, base_url with
    | _ :: _, None =>
        invalid "AUTH_OIDC_REDIRECT_BASE_URL is required when OIDC providers are enabled"
    | _, _ => Ok tt
    end] ≫= (fun _ =>
  Ok (mkOidcSettings (providers s) (rstrip_slash <$> base_url)
        (AUTH_OIDC_REAUTH_FRESHNESS_SECONDS s) (AUTH_OIDC_AUTHORIZATION_STARTS_PER_IP s)
        (AUTH_OIDC_STATE_TTL_SECONDS s) (AUTH_OIDC_AUTH_TIME_FUTURE_LEEWAY_SECONDS s))).

Definition env_or env (key dflt : string) : string := default dflt (env !! key).

(* src: backend/app/config/oidc.py:141-170 _read_provider *)
Definition read_provider env (pid : string) : result OidcProviderSettings :=
  _ ← check (provider_id_matches pid)
        "AUTH_OIDC_ENABLED_PROVIDERS must contain lowercase provider ids";
  let prefix := ("AUTH_OIDC_PROVIDER_" ++ provider_env_suffix pid)%string in
  let callback_path :=
    env_or env (prefix ++ "_CALLBACK_PATH") ("/api/auth/oidc/" ++ pid ++ "/callback") in
  display_name ← required env (prefix ++ "_DISPLAY_NAME");
  issuer ← required env (prefix ++ "_ISSUER");
  client_id ← required env (prefix ++ "_CLIENT_ID");
  client_secret ← required env (prefix ++ "_CLIENT_SECRET");
  trust ← read_bool (env_or env (prefix ++ "_TRUST_VERIFIED_EMAIL") "false");
  auto ← read_literal (env_or env (prefix ++ "_AUTO_PROVISION") "link-only")
           [("enabled", true); ("link-only", false)]%string (prefix ++ "_AUTO_PROVISION");
  mode ← read_literal (env_or env (prefix ++ "_LINK_MODE") "manual")
           [("auto", LinkAuto); ("manual", LinkManual); ("disabled", LinkDisabled)]%string
           (prefix ++ "_LINK_MODE");
  validate_provider (mkProvider pid display_name issuer client_id client_secret
    (split_csv_or_space (env_or env (prefix ++ "_SCOPE") "openid email profile")) trust auto mode
    callback_path (split_csv (env_or env (prefix ++ "_CLAIMS_ALLOWLIST") ""))).

Fixpoint read_providers env (pids : list string) : result (list OidcProviderSettings) :=
  match pids with
  | [] => Ok []
  | pid :: pids' =>
      p ← read_provider env pid;
      ps ← read_providers env pids';
      Ok (p :: ps)
  end.

(* src: backend/app/config/oidc.py:116-138 get_oidc_settings *)
Definition get_oidc_settings env : result OidcSettings :=
  let provider_ids := split_csv (env_or env "AUTH_OIDC_ENABLED_PROVIDERS" "") in
  _ ← validate_unique provider_ids "AUTH_OIDC_ENABLED_PROVIDERS";
  _ ← validate_unique (map provider_env_suffix provider_ids)
        "AUTH_OIDC_ENABLED_PROVIDERS env suffix";
  ps ← read_providers env provider_ids;
  freshness ← read_int env "AUTH_OIDC_REAUTH_FRESHNESS_SECONDS" 300;
  starts ← read_int env "AUTH_OIDC_AUTHORIZATION_STARTS_PER_IP" 20;
  ttl ← read_int env "AUTH_OIDC_STATE_TTL_SECONDS" 300;
  validate_oidc_settings (mkOidcSettings ps
    (empty_to_none (env !! ("AUTH_OIDC_REDIRECT_BASE_URL" : string))) freshness starts ttl 60).
End OidcEnvironment.

(** ** What accepted settings promise

    The reading of the OpenID Connect environment: identifiers and configuration
    keys of the providers do not clash, every provider is complete, and nothing is
    trusted, linked or provisioned that the environment does not ask for. *)

Local Open Scope Z_scope.

Section Spec.
Context (is_ipv6 : string -> bool).
Implicit Types env : gmap string string.

Lemma check_all_ok l : check_all l = Ok tt -> Forall (fun r => r = Ok tt) l.
Proof.
  induction l as [|r l IH]; simpl; [by constructor|].
  destruct r as [[]|e]; simpl; [|done]. intros H. constructor; auto.
Qed.

Lemma validate_unique_from_ok seen l label :
  validate_unique_from seen l label = Ok tt -> NoDup l /\ forall v, v ∈ l -> v ∉ seen.
Proof.
  revert seen. induction l as [|v l IH]; intros seen; simpl.
  { intros _. split; [constructor|]. intros v Hv. by apply elem_of_nil in Hv. }
  destruct (decide (v ∈ seen)); [done|]. intros [Hn Hs]%IH. split.
  - constructor; [|done]. intros Hv. apply (Hs v Hv). by left.
  - intros u [->|Hu]%elem_of_cons; [done|]. intros Hus. apply (Hs u Hu). by right.
Qed.

Lemma validate_unique_ok l label : validate_unique l label = Ok tt -> NoDup l.
Proof. by intros [? _]%validate_unique_from_ok. Qed.

Lemma read_providers_ok env pids ps :
  read_providers is_ipv6 env pids = Ok ps ->
  Forall2 (fun pid p => read_provider is_ipv6 env pid = Ok p) pids ps.
Proof.
  revert ps. induction pids as [|pid pids IH]; intros ps; simpl; [by intros [= <-]|].
  destruct (read_provider _ _ _) as [p|] eqn:Ep; simpl; [|done].
  destruct (read_providers _ _ _) as [ps'|] eqn:Eps; simpl; [|done].
  intros [= <-]. constructor; auto.
Qed.

(** A setting of a provider as the environment has it. *)
Definition provider_variable env (pid suffix : string) : option string :=
  env !! ("AUTH_OIDC_PROVIDER_" ++ provider_env_suffix pid ++ suffix)%string.

(** A provider that was read for an identifier. *)
Record provider_read env (pid : string) (p : OidcProviderSettings) : Prop := {
  pr_id : provider_id p = pid /\ provider_id_matches pid = true;
  pr_complete : strip (display_name p) <> "" /\ strip (client_id p) <> ""
    /\ strip (client_secret p) <> "";
  pr_callback : startswith (callback_path p) "/" = true;
  pr_issuer : exists raw parsed, provider_variable env pid "_ISSUER" = Some raw
    /\ issuer p = rstrip_slash raw /\ urlparse is_ipv6 raw = Ok parsed
    /\ (scheme parsed = "https" \/ scheme parsed = "http") /\ netloc parsed <> "";
  pr_trust : trust_verified_email p = true ->
    exists v, provider_variable env pid "_TRUST_VERIFIED_EMAIL" = Some v /\ read_bool v = Ok true;
  pr_provision : auto_provision_enabled p = true ->
    provider_variable env pid "_AUTO_PROVISION" = Some "enabled"%string;
  pr_link : provider_link_mode p = LinkAuto ->
    provider_variable env pid "_LINK_MODE" = Some "auto"%string;
}.

Lemma result_bind_inv {A B} (r : result A) (f : A -> result B) v :
  (r ≫= f) = Ok v -> exists a, r = Ok a /\ f a = Ok v.
Proof. destruct r as [a|e]; [|done]. by exists a. Qed.

Lemma check_ok (t : bool) m : check t m = Ok tt -> t = true.
Proof. by destruct t. Qed.

Lemma validate_absolute_url_ok v label :
  validate_absolute_url is_ipv6 v label = Ok tt ->
  exists parsed, urlparse is_ipv6 v = Ok parsed
    /\ (scheme parsed = "https" \/ scheme parsed = "http") /\ netloc parsed <> "".
Proof.
  unfold validate_absolute_url. intros (parsed & Hp & Hc)%result_bind_inv.
  apply check_ok in Hc. apply andb_true_iff in Hc as [Hs Hn]. exists parsed. split; [done|].
  split; [|by apply truthy_spec]. apply orb_true_iff in Hs as [?%String.eqb_eq|?%String.eqb_eq]; auto.
Qed.

Lemma required_ok env key v : required env key = Ok v -> env !! key = Some v /\ strip v <> "".
Proof.
  unfold required. destruct (env !! key) as [w|]; [|done].
  destruct (truthy (strip w)) eqn:Et; [|done]. intros [= <-]. split; [done|]. by apply truthy_spec.
Qed.

(** A variable whose value is not the default is set. *)
Lemma env_or_set env key dflt v : env_or env key dflt = v -> v <> dflt -> env !! key = Some v.
Proof. unfold env_or. destruct (env !! key) as [w|]; simpl; congruence. Qed.

Lemma read_literal_ok {A} v (allowed : list (string * A)) key a :
  read_literal v allowed key = Ok a -> (v, a) ∈ allowed.
Proof.
  unfold read_literal. destruct (List.find _ allowed) as [[s a']|] eqn:Ef; [|done].
  intros [= ->]. apply List.find_some in Ef as [Hin Heq]. simpl in Heq. apply String.eqb_eq in Heq as ->.
  by apply list_elem_of_In.
Qed.

Lemma validate_provider_ok p p' :
  validate_provider is_ipv6 p = Ok p' ->
  provider_id_matches (provider_id p) = true
  /\ strip (display_name p) <> "" /\ strip (client_id p) <> "" /\ strip (client_secret p) <> ""
  /\ startswith (callback_path p) "/" = true
  /\ (exists parsed, urlparse is_ipv6 (issuer p) = Ok parsed
       /\ (scheme parsed = "https" \/ scheme parsed = "http") /\ netloc parsed <> "")
  /\ p' = mkProvider (provider_id p) (display_name p) (rstrip_slash (issuer p)) (client_id p)
           (client_secret p) (oidc_scope p) (trust_verified_email p) (auto_provision_enabled p)
           (provider_link_mode p) (callback_path p) (claims_allowlist p).
Proof.
  unfold validate_provider. intros ([] & Hc & [= <-])%result_bind_inv.
  apply check_all_ok in Hc. rewrite !Forall_cons in Hc.
  destruct Hc as (H1%check_ok & H2%check_ok & H3 & H4%check_ok & H5%check_ok & H6%check_ok & _).
  apply validate_absolute_url_ok in H3. rewrite !truthy_spec in H2, H4, H5. by split_and!.
Qed.

Lemma read_provider_ok env pid p :
  read_provider is_ipv6 env pid = Ok p -> provider_read env pid p.
Proof.
  unfold read_provider. cbv zeta. intros ([] & _ & H)%result_bind_inv.
  apply result_bind_inv in H as (dn & _ & H).
  apply result_bind_inv in H as (iss & [Hi _]%required_ok & H).
  apply result_bind_inv in H as (ci & _ & H). apply result_bind_inv in H as (cs & _ & H).
  apply result_bind_inv in H as (trust & Ht & H). apply result_bind_inv in H as (auto & Ha & H).
  apply result_bind_inv in H as (mode & Hm & H).
  apply validate_provider_ok in H as (H1 & H2 & H3 & H4 & H5 & (parsed & H6 & H7 & H8) & ->).
  apply read_literal_ok in Ha, Hm. split; simpl in *; [done|done|done| | | |].
  - by exists iss, parsed.
  - intros ->. eexists. split; [|exact Ht]. eapply env_or_set; [done|]. intros Heq. by rewrite Heq in Ht.
  - intros ->. rewrite !elem_of_cons in Ha. destruct Ha as [[= Ha]|[[=]|Ha%elem_of_nil]]; [|done].
    by eapply env_or_set.
  - intros ->. rewrite !elem_of_cons in Hm. destruct Hm as [[= Hm]|[[=]|[[=]|Hm%elem_of_nil]]]; [|done].
    by eapply env_or_set.
Qed.

Lemma find_provider_spec ps pid p :
  NoDup (map provider_id ps) ->
  find_provider ps pid = Ok p <-> p ∈ ps /\ provider_id p = pid.
Proof.
  induction ps as [|q ps IH]; simpl.
  { intros _. split; [done|]. by intros [?%elem_of_nil _]. }
  intros [Hq Hn]%NoDup_cons. rewrite elem_of_cons. destruct (String.eqb_spec (provider_id q) pid) as [<-|Hne].
  - split; [intros [= ->]; auto|]. intros [[->|Hp] Heq]; [done|]. destruct Hq.
    rewrite <- Heq. by apply list_elem_of_fmap_2.
  - rewrite IH by done. naive_solver.
Qed.

(** C40. Settings that are read from the environment are sound: the enabled providers
    are the listed ones, once each, and no two read the same variables; each is
    complete and its issuer an absolute http(s) URL; e-mails are trusted, accounts
    linked or provisioned only for a provider whose variables say so; the life times
    are positive and there is a redirect base; and the look-up by identifier finds
    exactly the enabled providers. *)
Theorem oidc_settings_sound env s :
  get_oidc_settings is_ipv6 env = Ok s ->
  let ids := split_csv (env_or env "AUTH_OIDC_ENABLED_PROVIDERS" "") in
  map provider_id (providers s) = ids /\ NoDup ids /\ NoDup (map provider_env_suffix ids)
  /\ Forall (fun p => provider_read env (provider_id p) p) (providers s)
  /\ (forall p, p ∈ providers s -> allows_auto_provision p = true \/ allows_auto_link p = true ->
       exists v, provider_variable env (provider_id p) "_TRUST_VERIFIED_EMAIL" = Some v
                 /\ read_bool v = Ok true)
  /\ (providers s <> [] -> is_Some (AUTH_OIDC_REDIRECT_BASE_URL s))
  /\ 1 <= AUTH_OIDC_REAUTH_FRESHNESS_SECONDS s /\ 1 <= AUTH_OIDC_AUTHORIZATION_STARTS_PER_IP s
  /\ 1 <= AUTH_OIDC_STATE_TTL_SECONDS s
  /\ (forall pid p, get_provider s pid = Ok p <-> p ∈ providers s /\ provider_id p = pid).
Proof.
  unfold get_oidc_settings. cbv zeta. set (ids := split_csv _).
  intros ([] & Hu%validate_unique_ok & H)%result_bind_inv.
  apply result_bind_inv in H as ([] & Hv%validate_unique_ok & H).
  apply result_bind_inv in H as (ps & Hps%read_providers_ok & H).
  apply result_bind_inv in H as (fr & _ & H). apply result_bind_inv in H as (st & _ & H).
  apply result_bind_inv in H as (ttl & _ & H). unfold validate_oidc_settings in H.
  apply result_bind_inv in H as ([] & Hc%check_all_ok & [= <-]). simpl in Hc |- *.
  rewrite !Forall_cons in Hc. destruct Hc as (_ & H1%check_ok & H2%check_ok & H3%check_ok & _ & H4 & _).
  assert (map provider_id ps = ids) as Hids.
  { clear -Hps. induction Hps as [|pid p pids ps Hp _ IH]; simpl; [done|].
    rewrite IH. by destruct (read_provider_ok _ _ _ Hp) as [[-> _] _]. }
  assert (Forall (fun p => provider_read env (provider_id p) p) ps) as Hread.
  { clear -Hps. induction Hps as [|pid p pids ps Hp _ IH]; constructor; [|done].
    apply read_provider_ok in Hp. by destruct (pr_id _ _ _ Hp) as [-> _]. }
  split_and!; [done..| | |lia|lia|lia|].
  - intros p Hp Hor. rewrite Forall_forall in Hread. apply (pr_trust _ _ _ (Hread p Hp)).
    unfold allows_auto_provision, allows_auto_link in Hor. by destruct (trust_verified_email p), Hor.
  - intros Hne. destruct ps; [done|]. destruct (empty_to_none _); [by eexists|done].
  - intros pid p. apply find_provider_spec. by rewrite Hids.
Qed.
End Spec.

(** ** Instance *)

Definition demo_environment : gmap string string :=
  list_to_map [
    ("AUTH_OIDC_ENABLED_PROVIDERS", "acme");
    ("AUTH_OIDC_PROVIDER_ACME_DISPLAY_NAME", "Acme");
    ("AUTH_OIDC_PROVIDER_ACME_ISSUER", "https://id.example/");
    ("AUTH_OIDC_PROVIDER_ACME_CLIENT_ID", "client");
    ("AUTH_OIDC_PROVIDER_ACME_CLIENT_SECRET", "secret");
    ("AUTH_OIDC_REDIRECT_BASE_URL", "https://app.example")]%string.

Lemma oidc_settings_sound_witness : exists s,
  get_oidc_settings (fun _ => false) demo_environment = Ok s
  /\ Forall (fun p => provider_read (fun _ => false) demo_environment (provider_id p) p) (providers s).
Proof.
  eexists.
  assert (get_oidc_settings (fun _ => false) demo_environment = Ok _) as H by (vm_compute; reflexivity).
  destruct (oidc_settings_sound _ _ _ H) as (_ & _ & _ & Hp & _).
  split; [exact H|exact Hp].
Defined.
