(* ===== verification/Tables.v ===== *)
(** * The database: rows, tables, constraints

    The SQLModel tables of src/backend/app/models/ as records, one field per
    column, and the database as one finite map per table keyed by the primary
    key.  The technical columns [created_at] and [updated_at], which are filled by
    column defaults and read by no code under src/backend/app, are left out.
    Times are microseconds since the epoch; a row holds what its column stores
    ([Time.stored]). *)

From S2P Require Import Prelude PyStr Errors Time.

(** ** JSON values of the JSONB columns *)

Inductive json :=
| JNull
| JBool (b : bool)
| JInt (n : Z)
| JStr (s : string)
| JArr (l : list json)
| JObj (fields : list (string * json)).

(** [d.get(k)] and [{**d, k: v}] on a dict in insertion order. *)
Fixpoint json_get (k : string) (d : list (string * json)) : option json :=
  match d with
  | [] => None
  | (k', v) :: d' => if decide (k' = k) then Some v else json_get k d'
  end.

Fixpoint json_set (k : string) (v : json) (d : list (string * json)) : list (string * json) :=
  match d with
  | [] => [(k, v)]
  | (k', v') :: d' => if decide (k' = k) then (k, v) :: d' else (k', v') :: json_set k v d'
  end.

Lemma json_get_set k k' v d :
  json_get k (json_set k' v d) = if decide (k' = k) then Some v else json_get k d.
Proof.
  induction d as [|[j w] d IH]; simpl; [done|].
  destruct (decide (j = k')) as [->|]; simpl; [by destruct (decide (k' = k))|].
  rewrite IH. destruct (decide (j = k)) as [->|]; [|done].
  by destruct (decide (k' = k)) as [->|].
Qed.

(** [str(value) if value is not None else None] and the like. *)
Definition json_opt_str (o : option string) : json :=
  match o with Some s => JStr s | None => JNull end.

(** ** Rows *)

(* src: backend/app/models/user.py:19-94 User *)
Record User := mkUser {
  u_id : Z;
  u_email : string;
  u_password_hash : option string;
  u_is_active : bool;
  u_language_code : string;
  u_registered_at : Z;
  u_modified_at : Z;
  u_last_logged_in_at : option Z;
  u_deleted_at : option Z;
}.

(* src: backend/app/models/auth_session.py:11-88 AuthSession *)
Record AuthSession := mkSession {
  s_id : Z;
  s_user_id : Z;
  s_session_token_hash : string;
  s_csrf_token_hash : string;
  s_issued_at : Z;
  s_last_seen_at : Z;
  s_expires_at : Z;
  s_revoked_at : option Z;
  s_last_oidc_authenticated_at : option Z;
  s_ip_address : option string;
  s_user_agent : option string;
}.

(* src: backend/app/models/auth_identity.py:12-67 AuthIdentity *)
Record AuthIdentity := mkIdentity {
  i_id : Z;
  i_user_id : Z;
  i_provider_id : string;
  i_provider_subject : string;
  i_email : option string;
  i_is_email_verified : bool;
  i_claims_json : json;
  i_linked_at : Z;
  i_last_logged_in_at : option Z;
}.

(* src: backend/app/models/auth_oidc_state.py:13-86 AuthOidcState *)
Record AuthOidcState := mkOidcState {
  o_id : Z;
  o_state_hash : string;
  o_browser_binding_hash : string;
  o_nonce_hash : string;
  o_pkce_verifier : string;
  o_provider_id : string;
  o_purpose : oidc_purpose;
  o_expected_user_id : option Z;
  o_expected_session_id : option Z;
  o_redirect_path : string;
  o_login_hint : option string;
  o_language_code : option string;
  o_expires_at : Z;
  o_consumed_at : option Z;
}.

(* src: backend/app/models/auth_event_type.py:4-25 AuthEventType *)
Inductive AuthEventType :=
| REGISTER_SUCCESS
| REGISTER_FAILED
| LOGIN_SUCCESS
| LOGIN_FAILED
| LOGOUT
| SESSION_REJECTED
| USER_MARKED_DELETED
| ACCOUNT_DELETION_REAUTH_FAILED
| SESSION_REVOKED_DELETED_USER
| SESSION_REVOKED_INACTIVE_USER
| OIDC_LOGIN_SUCCESS
| OIDC_LOGIN_FAILED
| OIDC_IDENTITY_LINKED
| OIDC_USER_PROVISIONED
| OIDC_REAUTH_SUCCESS
| OIDC_REAUTH_FAILED
| ROLE_GRANTED
| ROLE_REVOKED
| USER_CREATED_BY_ADMIN
| USER_UPDATED_BY_ADMIN
| USER_DELETED_BY_ADMIN.

#[export] Instance AuthEventType_eq_dec : EqDecision AuthEventType.
Proof. solve_decision. Defined.

(* src: backend/app/models/auth_audit_log.py:12-74 AuthAuditLog *)
Record AuthAuditLog := mkAudit {
  a_id : Z;
  a_user_id : option Z;
  a_session_id : option Z;
  a_event_type : AuthEventType;
  a_ip_address : option string;
  a_user_agent : option string;
  a_detail_json : option json;
  a_occurred_at : Z;
}.

(* src: backend/app/models/authorization.py:12-49 UserRole *)
Record UserRole := mkUserRole {
  r_id : Z;
  r_user_id : Z;
  r_role_code : string;
  r_assigned_at : Z;
  r_assigned_by_user_id : option Z;
}.

(* src: backend/app/models/sample_item.py:32-79 SampleItem *)
Record SampleItem := mkSampleItem {
  it_id : Z;
  it_owner_user_id : Z;
  it_title : string;
  it_description : option string;
  it_is_completed : bool;
  it_registered_at : Z;
  it_modified_at : Z;
}.

(** ** Attribute assignments ([row.column = value]) *)

Definition set_language (c : string) (u : User) : User :=
  mkUser (u_id u) (u_email u) (u_password_hash u) (u_is_active u) c (u_registered_at u)
    (u_modified_at u) (u_last_logged_in_at u) (u_deleted_at u).
Definition set_user_modified (t : Z) (u : User) : User :=
  mkUser (u_id u) (u_email u) (u_password_hash u) (u_is_active u) (u_language_code u)
    (u_registered_at u) t (u_last_logged_in_at u) (u_deleted_at u).
Definition set_last_login (t : Z) (u : User) : User :=
  mkUser (u_id u) (u_email u) (u_password_hash u) (u_is_active u) (u_language_code u)
    (u_registered_at u) (u_modified_at u) (Some t) (u_deleted_at u).
Definition set_deleted (t : Z) (u : User) : User :=
  mkUser (u_id u) (u_email u) (u_password_hash u) (u_is_active u) (u_language_code u)
    (u_registered_at u) (u_modified_at u) (u_last_logged_in_at u) (Some t).
Definition set_email (e : string) (u : User) : User :=
  mkUser (u_id u) e (u_password_hash u) (u_is_active u) (u_language_code u)
    (u_registered_at u) (u_modified_at u) (u_last_logged_in_at u) (u_deleted_at u).
Definition set_password_hash (h : string) (u : User) : User :=
  mkUser (u_id u) (u_email u) (Some h) (u_is_active u) (u_language_code u)
    (u_registered_at u) (u_modified_at u) (u_last_logged_in_at u) (u_deleted_at u).
Definition set_is_active (b : bool) (u : User) : User :=
  mkUser (u_id u) (u_email u) (u_password_hash u) b (u_language_code u)
    (u_registered_at u) (u_modified_at u) (u_last_logged_in_at u) (u_deleted_at u).

Definition set_csrf_hash (h : string) (s : AuthSession) : AuthSession :=
  mkSession (s_id s) (s_user_id s) (s_session_token_hash s) h (s_issued_at s) (s_last_seen_at s)
    (s_expires_at s) (s_revoked_at s) (s_last_oidc_authenticated_at s) (s_ip_address s)
    (s_user_agent s).
Definition set_revoked (t : Z) (s : AuthSession) : AuthSession :=
  mkSession (s_id s) (s_user_id s) (s_session_token_hash s) (s_csrf_token_hash s) (s_issued_at s)
    (s_last_seen_at s) (s_expires_at s) (Some t) (s_last_oidc_authenticated_at s)
    (s_ip_address s) (s_user_agent s).
Definition set_last_seen (seen expires : Z) (s : AuthSession) : AuthSession :=
  mkSession (s_id s) (s_user_id s) (s_session_token_hash s) (s_csrf_token_hash s) (s_issued_at s)
    seen expires (s_revoked_at s) (s_last_oidc_authenticated_at s) (s_ip_address s)
    (s_user_agent s).
Definition set_oidc_authenticated (t : Z) (s : AuthSession) : AuthSession :=
  mkSession (s_id s) (s_user_id s) (s_session_token_hash s) (s_csrf_token_hash s) (s_issued_at s)
    (s_last_seen_at s) (s_expires_at s) (s_revoked_at s) (Some t) (s_ip_address s)
    (s_user_agent s).

Definition set_identity_login (t : Z) (i : AuthIdentity) : AuthIdentity :=
  mkIdentity (i_id i) (i_user_id i) (i_provider_id i) (i_provider_subject i) (i_email i)
    (i_is_email_verified i) (i_claims_json i) (i_linked_at i) (Some t).

Definition set_consumed (t : Z) (o : AuthOidcState) : AuthOidcState :=
  mkOidcState (o_id o) (o_state_hash o) (o_browser_binding_hash o) (o_nonce_hash o)
    (o_pkce_verifier o) (o_provider_id o) (o_purpose o) (o_expected_user_id o)
    (o_expected_session_id o) (o_redirect_path o) (o_login_hint o) (o_language_code o)
    (o_expires_at o) (Some t).

Definition set_detail (d : json) (a : AuthAuditLog) : AuthAuditLog :=
  mkAudit (a_id a) (a_user_id a) (a_session_id a) (a_event_type a) (a_ip_address a)
    (a_user_agent a) (Some d) (a_occurred_at a).
Definition clear_audit_session (a : AuthAuditLog) : AuthAuditLog :=
  mkAudit (a_id a) (a_user_id a) None (a_event_type a) (a_ip_address a) (a_user_agent a)
    (a_detail_json a) (a_occurred_at a).

Definition set_title (t : string) (i : SampleItem) : SampleItem :=
  mkSampleItem (it_id i) (it_owner_user_id i) t (it_description i) (it_is_completed i)
    (it_registered_at i) (it_modified_at i).
Definition set_description (d : option string) (i : SampleItem) : SampleItem :=
  mkSampleItem (it_id i) (it_owner_user_id i) (it_title i) d (it_is_completed i)
    (it_registered_at i) (it_modified_at i).
Definition set_completed (b : bool) (i : SampleItem) : SampleItem :=
  mkSampleItem (it_id i) (it_owner_user_id i) (it_title i) (it_description i) b
    (it_registered_at i) (it_modified_at i).
Definition set_item_modified (t : Z) (i : SampleItem) : SampleItem :=
  mkSampleItem (it_id i) (it_owner_user_id i) (it_title i) (it_description i)
    (it_is_completed i) (it_registered_at i) t.

(** ** The database *)

Record DB := mkDB {
  users : gmap Z User;
  sessions : gmap Z AuthSession;
  identities : gmap Z AuthIdentity;
  oidc_states : gmap Z AuthOidcState;
  audit_logs : gmap Z AuthAuditLog;
  user_roles : gmap Z UserRole;
  sample_items : gmap Z SampleItem;
}.

Definition empty_db : DB := mkDB ∅ ∅ ∅ ∅ ∅ ∅ ∅.

Definition with_users (f : gmap Z User -> gmap Z User) (d : DB) : DB :=
  mkDB (f (users d)) (sessions d) (identities d) (oidc_states d) (audit_logs d) (user_roles d)
    (sample_items d).
Definition with_sessions (f : gmap Z AuthSession -> gmap Z AuthSession) (d : DB) : DB :=
  mkDB (users d) (f (sessions d)) (identities d) (oidc_states d) (audit_logs d) (user_roles d)
    (sample_items d).
Definition with_identities (f : gmap Z AuthIdentity -> gmap Z AuthIdentity) (d : DB) : DB :=
  mkDB (users d) (sessions d) (f (identities d)) (oidc_states d) (audit_logs d) (user_roles d)
    (sample_items d).
Definition with_oidc_states (f : gmap Z AuthOidcState -> gmap Z AuthOidcState) (d : DB) : DB :=
  mkDB (users d) (sessions d) (identities d) (f (oidc_states d)) (audit_logs d) (user_roles d)
    (sample_items d).
Definition with_audit_logs (f : gmap Z AuthAuditLog -> gmap Z AuthAuditLog) (d : DB) : DB :=
  mkDB (users d) (sessions d) (identities d) (oidc_states d) (f (audit_logs d)) (user_roles d)
    (sample_items d).
Definition with_user_roles (f : gmap Z UserRole -> gmap Z UserRole) (d : DB) : DB :=
  mkDB (users d) (sessions d) (identities d) (oidc_states d) (audit_logs d) (f (user_roles d))
    (sample_items d).
Definition with_sample_items (f : gmap Z SampleItem -> gmap Z SampleItem) (d : DB) : DB :=
  mkDB (users d) (sessions d) (identities d) (oidc_states d) (audit_logs d) (user_roles d)
    (f (sample_items d)).

(** ** SQL over one table *)

(** [SELECT ... WHERE p], in no particular order. *)
Definition select {A} (p : A -> bool) (t : gmap Z A) : list A :=
  List.filter p (map snd (map_to_list t)).

(** [UPDATE ... SET f WHERE p] and its row count. *)
Definition update_where {A} (p : A -> bool) (f : A -> A) (t : gmap Z A) : gmap Z A :=
  (fun r => if p r then f r else r) <$> t.
Definition row_count {A} (p : A -> bool) (t : gmap Z A) : Z := Z.of_nat (length (select p t)).

(** [DELETE ... WHERE p] *)
Definition delete_where {A} (p : A -> bool) (t : gmap Z A) : gmap Z A :=
  base.filter (fun kr => p kr.2 = false) t.

Section Sql.
Context {A : Type}.
Implicit Types (p : A -> bool) (t : gmap Z A) (r : A).

Lemma elem_of_select p t r :
  r ∈ select p t <-> p r = true /\ exists k, t !! k = Some r.
Proof.
  unfold select. rewrite list_elem_of_In, filter_In, <- list_elem_of_In.
  change (map snd (map_to_list t)) with ((map_to_list t).*2).
  rewrite list_elem_of_fmap. split.
  - intros [([k r'] & -> & H) Hp]. split; [done|]. exists k. by apply elem_of_map_to_list.
  - intros [Hp [k H]]. split; [|done]. exists (k, r). split; [done|].
    by apply elem_of_map_to_list.
Qed.

Lemma select_nil p t : select p t = [] <-> forall k r, t !! k = Some r -> p r = false.
Proof.
  split.
  - intros H k r Hk. destruct (p r) eqn:E; [|done]. exfalso. apply (not_elem_of_nil r).
    rewrite <- H. apply elem_of_select. eauto.
  - intros H. destruct (select p t) as [|r l] eqn:E; [done|]. exfalso.
    assert (r ∈ select p t) as Hr by (rewrite E; constructor).
    apply elem_of_select in Hr as [Hp [k Hk]]. specialize (H k r Hk). congruence.
Qed.

Lemma filter_Permutation_bool p (l k : list A) :
  l ≡ₚ k -> List.filter p l ≡ₚ List.filter p k.
Proof.
  induction 1; simpl; repeat case_match; try done.
  - by constructor.
  - by constructor.
  - by etrans.
Qed.

(** A row whose key is its own and that is the only match is selected alone. *)
Lemma select_unique p t k r :
  t !! k = Some r -> p r = true -> (forall k' r', t !! k' = Some r' -> p r' = true -> k' = k) ->
  select p t = [r].
Proof.
  intros Hk Hp Hu. unfold select.
  assert (map_to_list t ≡ₚ (k, r) :: map_to_list (delete k t)) as HP.
  { rewrite <- map_to_list_insert by apply lookup_delete_eq. by rewrite insert_delete_id. }
  apply (fmap_Permutation snd) in HP.
  change (snd <$> map_to_list t) with (map snd (map_to_list t)) in HP.
  apply (filter_Permutation_bool p) in HP. csimpl in HP. rewrite Hp in HP.
  assert (List.filter p (snd <$> map_to_list (delete k t)) = []) as HN.
  { apply (select_nil p (delete k t)). intros k' r' H. destruct (p r') eqn:E; [|done].
    apply lookup_delete_Some in H as [Hne H]. destruct Hne. symmetry. by eapply Hu. }
  rewrite HN in HP. by apply Permutation_singleton_r in HP.
Qed.

Lemma lookup_update_where p f t k :
  update_where p f t !! k = (fun r => if p r then f r else r) <$> t !! k.
Proof. unfold update_where. by rewrite lookup_fmap. Qed.

Lemma lookup_update_where_Some p f t k r :
  t !! k = Some r -> update_where p f t !! k = Some (if p r then f r else r).
Proof. intros H. by rewrite lookup_update_where, H. Qed.

Lemma lookup_delete_where p t k r :
  delete_where p t !! k = Some r <-> t !! k = Some r /\ p r = false.
Proof. unfold delete_where. rewrite map_lookup_filter_Some. done. Qed.

Lemma lookup_delete_where_None p t k :
  delete_where p t !! k = None <-> forall r, t !! k = Some r -> p r = true.
Proof.
  unfold delete_where. rewrite map_lookup_filter_None. simpl. split.
  - intros [H|H] r Hr; [congruence|]. specialize (H r Hr). by destruct (p r).
  - intros H. right. intros r Hr. rewrite (H r Hr). done.
Qed.

Lemma row_count_zero p t : row_count p t = 0 <-> select p t = [].
Proof. unfold row_count. destruct (select p t); simpl; split; try done; lia. Qed.
End Sql.
