(* ===== verification/Effects.v ===== *)
(** * Effects: the world a request runs in

    The code awaits a database, a clock, random sources, a password-hash executor
    and a rate limiter.  A coroutine that returns an [A] is a state transformer
    over a [World]; an exception is the [Raise] outcome and keeps the state
    reached when it is raised.  What comes from outside the program (the clock,
    [uuid4], [secrets], SHA-256, the password-hash library, [ipaddress], the
    advisory locks of PostgreSQL) is the class [Env]: streams indexed by the
    number of earlier calls, and functions. *)

From S2P Require Import Prelude PyStr Errors Time Tables.

(** ** The environment *)

Class Env := {
  env_now : nat -> Z;                       (* [datetime.now(UTC)], in microseconds *)
  env_uuid : nat -> Z;                      (* [uuid.uuid4()] *)
  env_token : nat -> string;                (* [secrets.token_urlsafe] *)
  env_sha256 : string -> string;            (* [hashlib.sha256(...).hexdigest()] *)
  env_pw_hash : nat -> string -> string;    (* [PasswordHash.hash], salted *)
  env_pw_verify : string -> string -> bool; (* [PasswordHash.verify] *)
  env_ip_address : string -> option string; (* [str(ipaddress.ip_address(s))], [None]: ValueError *)
  env_try_lock : nat -> bool;               (* [pg_try_advisory_xact_lock] *)
}.

(** ** The world

    [w_tx] is the context variable [_transaction_session]: the owner of the open
    transaction and the database as its session sees it.  [w_local] is the
    database as seen by the plain session of a [session_scope], if one is open.
    [w_ext] is the state of the components outside the database that a request
    talks to (rate limiter, OIDC provider client), with their own clocks. *)
Record World (L : Type) := mkWorld {
  w_committed : DB;
  w_tx : option (Z * DB);
  w_local : option DB;
  w_ext : L;
  w_clock : nat;
  w_uuid : nat;
  w_token : nat;
  w_salt : nat;
  w_lock : nat;
  w_verified : list (string * string);
}.
Arguments mkWorld {L}.
Arguments w_committed {L}.
Arguments w_tx {L}.
Arguments w_local {L}.
Arguments w_ext {L}.
Arguments w_clock {L}.
Arguments w_uuid {L}.
Arguments w_token {L}.
Arguments w_salt {L}.
Arguments w_lock {L}.
Arguments w_verified {L}.

Section World.
Context {L : Type}.
Implicit Types w : World L.

Definition set_committed (d : DB) w : World L :=
  mkWorld d (w_tx w) (w_local w) (w_ext w) (w_clock w) (w_uuid w) (w_token w) (w_salt w)
    (w_lock w) (w_verified w).
Definition set_tx (t : option (Z * DB)) w : World L :=
  mkWorld (w_committed w) t (w_local w) (w_ext w) (w_clock w) (w_uuid w) (w_token w)
    (w_salt w) (w_lock w) (w_verified w).
Definition set_local (l : option DB) w : World L :=
  mkWorld (w_committed w) (w_tx w) l (w_ext w) (w_clock w) (w_uuid w) (w_token w) (w_salt w)
    (w_lock w) (w_verified w).
Definition set_ext (l : L) w : World L :=
  mkWorld (w_committed w) (w_tx w) (w_local w) l (w_clock w) (w_uuid w) (w_token w) (w_salt w)
    (w_lock w) (w_verified w).
Definition tick_clock w : World L :=
  mkWorld (w_committed w) (w_tx w) (w_local w) (w_ext w) (S (w_clock w)) (w_uuid w)
    (w_token w) (w_salt w) (w_lock w) (w_verified w).
Definition tick_uuid w : World L :=
  mkWorld (w_committed w) (w_tx w) (w_local w) (w_ext w) (w_clock w) (S (w_uuid w))
    (w_token w) (w_salt w) (w_lock w) (w_verified w).
Definition tick_token w : World L :=
  mkWorld (w_committed w) (w_tx w) (w_local w) (w_ext w) (w_clock w) (w_uuid w)
    (S (w_token w)) (w_salt w) (w_lock w) (w_verified w).
Definition tick_salt w : World L :=
  mkWorld (w_committed w) (w_tx w) (w_local w) (w_ext w) (w_clock w) (w_uuid w) (w_token w)
    (S (w_salt w)) (w_lock w) (w_verified w).
Definition tick_lock w : World L :=
  mkWorld (w_committed w) (w_tx w) (w_local w) (w_ext w) (w_clock w) (w_uuid w) (w_token w)
    (w_salt w) (S (w_lock w)) (w_verified w).
Definition log_verify (p h : string) w : World L :=
  mkWorld (w_committed w) (w_tx w) (w_local w) (w_ext w) (w_clock w) (w_uuid w) (w_token w)
    (w_salt w) (w_lock w) (w_verified w ++ [(p, h)]).

(** The database as the current session sees it, and a change made through it. *)
Definition view w : DB :=
  match w_tx w with
  | Some (_, d) => d
  | None => match w_local w with Some d => d | None => w_committed w end
  end.

Definition set_view (d : DB) w : World L :=
  match w_tx w with
  | Some (o, _) => set_tx (Some (o, d)) w
  | None => match w_local w with
            | Some _ => set_local (Some d) w
            | None => set_committed d w
            end
  end.

Lemma view_set_view d w : view (set_view d w) = d.
Proof. unfold view, set_view. destruct w as [c [[o t]|] [l|]]; done. Qed.
Lemma set_view_set_view d d' w : set_view d (set_view d' w) = set_view d w.
Proof. unfold set_view. destruct w as [c [[o t]|] [l|]]; done. Qed.
Lemma set_view_view w : set_view (view w) w = w.
Proof. unfold view, set_view. destruct w as [c [[o t]|] [l|]]; done. Qed.
Lemma w_tx_set_view d w : w_tx (set_view d w) = (fun t => (t.1, d)) <$> w_tx w.
Proof. destruct w as [c [[o t]|] [l|]]; done. Qed.
End World.

(** ** Coroutines *)

Definition M (L A : Type) : Type := World L -> result A * World L.

#[export] Instance M_ret L : MRet (M L) := fun A a w => (Ok a, w).
#[export] Instance M_bind L : MBind (M L) := fun A B f m w =>
  match m w with
  | (Ok a, w') => f a w'
  | (Raise e, w') => (Raise e, w')
  end.

Definition raise {L A} (e : exn) : M L A := fun w => (Raise e, w).

(** [try: m except E: handler]: [handler e] is [None] when the clause does not
    match [e]. *)
Definition try_except {L A} (m : M L A) (handler : exn -> option (M L A)) : M L A := fun w =>
  match m w with
  | (Ok a, w') => (Ok a, w')
  | (Raise e, w') => match handler e with
                     | Some h => h w'
                     | None => (Raise e, w')
                     end
  end.

(** A pure computation that may raise. *)
Definition lift {L A} (r : result A) : M L A := fun w => (r, w).

(** [for x in l: body] *)
Fixpoint for_each {L A} (l : list A) (body : A -> M L unit) : M L unit :=
  match l with
  | [] => mret tt
  | x :: l' => body x ;; for_each l' body
  end.

Section Primitives.
Context `{E : Env} {L : Type}.

(* src: backend/app/libraries/clock.py:4-5 utcnow *)
Definition utcnow : M L Z := fun w => (Ok (env_now (w_clock w)), tick_clock w).

Definition uuid4 : M L Z := fun w => (Ok (env_uuid (w_uuid w)), tick_uuid w).

(* src: backend/app/libraries/session_tokens.py:5-6 generate_token *)
Definition generate_token : M L string := fun w => (Ok (env_token (w_token w)), tick_token w).

(* src: backend/app/libraries/session_tokens.py:9-11 hash_token *)
Definition hash_token (raw_token : string) : string := env_sha256 raw_token.

(** [PasswordHashExecutor]: every verification is recorded in the world. *)
(* src: backend/app/libraries/password_hasher.py:20-37 PasswordHashExecutor.hash *)
Definition hash_password (raw_password : string) : M L string :=
  fun w => (Ok (env_pw_hash (w_salt w) raw_password), tick_salt w).

(* src: backend/app/libraries/password_hasher.py:24-44 PasswordHashExecutor.verify *)
Definition verify_password (raw_password hashed_password : string) : M L bool :=
  fun w => (Ok (env_pw_verify raw_password hashed_password),
            log_verify raw_password hashed_password w).

Definition try_advisory_lock : M L bool := fun w => (Ok (env_try_lock (w_lock w)), tick_lock w).

(** The database as the session sees it; a statement that changes it. *)
Definition read_db : M L DB := fun w => (Ok (view w), w).
Definition write_db (f : DB -> DB) : M L unit := fun w => (Ok tt, set_view (f (view w)) w).

(** A call of a component outside the database. *)
Definition call_ext {A} (f : L -> A * L) : M L A :=
  fun w => let (a, l) := f (w_ext w) in (Ok a, set_ext l w).
Definition call_ext_raising {A} (f : L -> result A * L) : M L A :=
  fun w => let (r, l) := f (w_ext w) in (r, set_ext l w).
End Primitives.

(* src: backend/app/libraries/password_hasher.py:12-17 validate_password_policy *)
Definition validate_password_policy (raw_password : string) : bool * option string :=
  if str_len raw_password <? 12 then
    (false, Some "Password must be at least 12 characters long")
  else if 128 <? str_len raw_password then
    (false, Some "Password must be 128 characters or fewer")
  else (true, None).

(** [InetString.process_bind_param] *)
(* src: backend/app/libraries/sqlalchemy_types.py:16-25 InetString.process_bind_param *)
Definition inet_bind `{Env} (value : option string) : result (option string) :=
  match value with
  | None => Ok None
  | Some v =>
      match split "%" v with
      | normalized_value :: _ =>
          match env_ip_address normalized_value with
          | Some s => Ok (Some s)
          | None => Raise StatementError
          end
      | [] => Raise StatementError
      end
  end.

(** ** Equations of the monad *)

Section Equations.
Context {L : Type}.

Lemma ret_run {A} (a : A) (w : World L) : (mret a : M L A) w = (Ok a, w).
Proof. done. Qed.

Lemma bind_run {A B} (m : M L A) (f : A -> M L B) w :
  (m ≫= f) w = match m w with (Ok a, w') => f a w' | (Raise e, w') => (Raise e, w') end.
Proof. done. Qed.

Lemma raise_run {A} e (w : World L) : (raise e : M L A) w = (Raise e, w).
Proof. done. Qed.
Lemma lift_run {A} (r : result A) (w : World L) : (lift r : M L A) w = (r, w).
Proof. done. Qed.

Lemma bind_ok {A B} (m : M L A) (f : A -> M L B) w a w' :
  m w = (Ok a, w') -> (m ≫= f) w = f a w'.
Proof. intros H. by rewrite bind_run, H. Qed.

Lemma bind_raise {A B} (m : M L A) (f : A -> M L B) w e w' :
  m w = (Raise e, w') -> (m ≫= f) w = (Raise e, w').
Proof. intros H. by rewrite bind_run, H. Qed.

Lemma bind_inv {A B} (m : M L A) (f : A -> M L B) w r w' :
  (m ≫= f) w = (r, w') ->
  (exists e, m w = (Raise e, w') /\ r = Raise e)
  \/ (exists a w1, m w = (Ok a, w1) /\ f a w1 = (r, w')).
Proof.
  rewrite bind_run. destruct (m w) as [[a|e] w1]; intros H.
  - right. by exists a, w1.
  - left. exists e. injection H as <- <-. done.
Qed.

Lemma bind_assoc {A B C} (m : M L A) (f : A -> M L B) (g : B -> M L C) w :
  ((m ≫= f) ≫= g) w = (m ≫= (fun a => f a ≫= g)) w.
Proof. rewrite !bind_run. by destruct (m w) as [[a|e] w1]. Qed.
End Equations.
