(* ===== verification/UnitOfWork.v ===== *)
(** * Unit of work

    Models src/backend/app/services/unit_of_work.py: [transaction], which nested
    calls join, [session_scope], which uses the open transaction or a session of
    its own, and the [_persist] of the repositories.  A session that ends without
    a commit loses its changes.  The dependency container binds one unit of work
    for the whole process (bootstrap/modules.py:94): [unit_of_work]. *)

From S2P Require Import Prelude PyStr Errors Time Tables Effects.

(* src: backend/app/services/unit_of_work.py:18-32 UnitOfWork.__init__ *)
Record UnitOfWork := UoW { context_owner : Z }.

Definition unit_of_work : UnitOfWork := UoW 0.

Definition other_transaction_error : exn :=
  RuntimeError "Cannot open a different UnitOfWork transaction inside an active transaction".

Section UnitOfWork.
Context {L : Type}.
Implicit Types w : World L.

(** [async with uow.transaction(): body] *)
(* src: backend/app/services/unit_of_work.py:34-50 UnitOfWork.transaction *)
Definition transaction {A} (uow : UnitOfWork) (body : M L A) : M L A := fun w =>
  match w_tx w with
  | Some (owner, _) =>
      if decide (owner = context_owner uow) then body w else (Raise other_transaction_error, w)
  | None =>
      let (r, w1) := body (set_tx (Some (context_owner uow, w_committed w)) w) in
      match r, w_tx w1 with
      | Ok a, Some (_, d) => (Ok a, set_tx None (set_committed d w1))
      | _, _ => (r, set_tx None w1)
      end
  end.

(** [async with uow.session_scope() as session: body] *)
(* src: backend/app/services/unit_of_work.py:52-63 UnitOfWork.session_scope *)
Definition session_scope {A} (uow : UnitOfWork) (body : M L A) : M L A := fun w =>
  match w_tx w with
  | Some (owner, _) =>
      if decide (owner = context_owner uow) then body w else (Raise other_transaction_error, w)
  | None =>
      let (r, w1) := body (set_local (Some (w_committed w)) w) in
      (r, set_local (w_local w) w1)
  end.

(** Inside a [session_scope], whose session is the transaction's if one is open. *)
(* src: backend/app/services/unit_of_work.py:65-67 UnitOfWork.is_transaction_session *)
Definition is_transaction_session (uow : UnitOfWork) : M L bool := fun w =>
  (Ok (match w_tx w with
       | Some (owner, _) => bool_decide (owner = context_owner uow)
       | None => false
       end), w).

(** [session.commit()] and [session.rollback()] of a plain session. *)
Definition commit : M L unit := fun w =>
  match w_local w with
  | Some d => (Ok tt, set_committed d w)
  | None => (Ok tt, w)
  end.
Definition rollback : M L unit := fun w =>
  match w_local w with
  | Some _ => (Ok tt, set_local (Some (w_committed w)) w)
  | None => (Ok tt, w)
  end.

(** [_persist], the same method in every repository.  [flush] is the work the
    session has pending: the INSERT and UPDATE statements of its new and changed
    objects. *)
(* src: backend/app/services/auth_repository.py:34-38 AuthRepository._persist *)
Definition persist (uow : UnitOfWork) (flush : M L unit) : M L unit :=
  flush ;;
  in_transaction ← is_transaction_session uow;
  if in_transaction : bool then mret tt else commit.

(** [persist] of a session without pending objects. *)
Definition nothing_pending : M L unit := mret tt.

(** The handler of the repositories that turn a constraint violation into
    [EmailAlreadyRegisteredError]. *)
(* src: backend/app/services/auth_repository.py:49-54 AuthRepository.create_user *)
Definition persist_unique_email (uow : UnitOfWork) (flush : M L unit) : M L unit :=
  try_except (persist uow flush) (fun error =>
    match error with
    | IntegrityError => Some (
        in_transaction ← is_transaction_session uow;
        (if in_transaction : bool then mret tt else rollback) ;;
        raise EmailAlreadyRegisteredError)
    | _ => None
    end).
End UnitOfWork.

(** ** Constraints of the tables *)

Definition supported_language (c : string) : bool := (c =? "en")%string || (c =? "ja")%string.

Definition exists_row {A} (p : A -> bool) (t : gmap Z A) : bool :=
  match select p t with [] => false | _ => true end.

Lemma exists_row_false {A} (p : A -> bool) t :
  exists_row p t = false <-> forall k r, t !! k = Some r -> p r = false.
Proof. unfold exists_row. rewrite <- select_nil. by destruct (select p t). Qed.

Lemma exists_row_true {A} (p : A -> bool) t :
  exists_row p t = true <-> exists k r, t !! k = Some r /\ p r = true.
Proof.
  unfold exists_row. destruct (select p t) as [|r l] eqn:E.
  - split; [done|]. intros (k & r & Hk & Hp). pose proof (proj1 (select_nil p t) E k r Hk). congruence.
  - split; [|done]. intros _. assert (r ∈ select p t) as Hr by (rewrite E; constructor).
    apply elem_of_select in Hr as [Hp [k Hk]]. by exists k, r.
Qed.

(** A foreign key: NULL or the key of a row. *)
Definition references {A} (t : gmap Z A) (o : option Z) : bool :=
  match o with None => true | Some k => is_some (t !! k) end.

#[global] Arguments references : simpl never.

Definition same_active_email (u u' : User) : bool :=
  negb (u_id u' =? u_id u) && (lower (u_email u') =? lower (u_email u))%string
  && is_none (u_deleted_at u').

(* src: backend/app/models/user.py:20-33 User.__table_args__ *)
Definition user_row_ok (d : DB) (u : User) : bool :=
  supported_language (u_language_code u)
  && (is_some (u_deleted_at u) || negb (exists_row (same_active_email u) (users d))).

(* src: backend/app/models/auth_session.py:13-28 AuthSession.__table_args__ *)
Definition session_row_ok (d : DB) (s : AuthSession) : bool :=
  references (users d) (Some (s_user_id s))
  && negb (exists_row (fun s' => negb (s_id s' =? s_id s)
                       && (s_session_token_hash s' =? s_session_token_hash s)%string) (sessions d)).

(* src: backend/app/models/auth_identity.py:14-33 AuthIdentity.__table_args__ *)
Definition identity_row_ok (d : DB) (i : AuthIdentity) : bool :=
  references (users d) (Some (i_user_id i))
  && negb (exists_row (fun i' => negb (i_id i' =? i_id i)
                       && (i_provider_id i' =? i_provider_id i)%string
                       && (i_provider_subject i' =? i_provider_subject i)%string) (identities d)).

(* src: backend/app/models/auth_oidc_state.py:15-23 AuthOidcState.__table_args__ *)
Definition oidc_state_row_ok (d : DB) (o : AuthOidcState) : bool :=
  match o_language_code o with None => true | Some c => supported_language c end
  && negb (exists_row (fun o' => negb (o_id o' =? o_id o)
                       && (o_state_hash o' =? o_state_hash o)%string) (oidc_states d)).

(* src: backend/app/models/auth_audit_log.py:20-39 AuthAuditLog *)
Definition audit_row_ok (d : DB) (a : AuthAuditLog) : bool :=
  references (users d) (a_user_id a) && references (sessions d) (a_session_id a).

(* src: backend/app/models/authorization.py:14-39 UserRole.__table_args__ *)
Definition user_role_row_ok (d : DB) (r : UserRole) : bool :=
  references (users d) (Some (r_user_id r)) && references (users d) (r_assigned_by_user_id r)
  && negb (exists_row (fun r' => negb (r_id r' =? r_id r) && (r_user_id r' =? r_user_id r)
                       && (r_role_code r' =? r_role_code r)%string) (user_roles d)).

(* src: backend/app/models/sample_item.py:37-42 SampleItem *)
Definition sample_item_row_ok (d : DB) (i : SampleItem) : bool :=
  references (users d) (Some (it_owner_user_id i)).

(** ** Row statements *)

(** What the columns store of an object. *)
Definition store_user (u : User) : User :=
  mkUser (u_id u) (u_email u) (u_password_hash u) (u_is_active u) (u_language_code u)
    (stored (u_registered_at u)) (stored (u_modified_at u)) (stored_opt (u_last_logged_in_at u))
    (stored_opt (u_deleted_at u)).
Definition store_session (ip : option string) (s : AuthSession) : AuthSession :=
  mkSession (s_id s) (s_user_id s) (s_session_token_hash s) (s_csrf_token_hash s)
    (stored (s_issued_at s)) (stored (s_last_seen_at s)) (stored (s_expires_at s))
    (stored_opt (s_revoked_at s)) (stored_opt (s_last_oidc_authenticated_at s)) ip
    (s_user_agent s).
Definition store_identity (i : AuthIdentity) : AuthIdentity :=
  mkIdentity (i_id i) (i_user_id i) (i_provider_id i) (i_provider_subject i) (i_email i)
    (i_is_email_verified i) (i_claims_json i) (stored (i_linked_at i))
    (stored_opt (i_last_logged_in_at i)).
Definition store_oidc_state (o : AuthOidcState) : AuthOidcState :=
  mkOidcState (o_id o) (o_state_hash o) (o_browser_binding_hash o) (o_nonce_hash o)
    (o_pkce_verifier o) (o_provider_id o) (o_purpose o) (o_expected_user_id o)
    (o_expected_session_id o) (o_redirect_path o) (o_login_hint o) (o_language_code o)
    (stored (o_expires_at o)) (stored_opt (o_consumed_at o)).
Definition store_audit (ip : option string) (a : AuthAuditLog) : AuthAuditLog :=
  mkAudit (a_id a) (a_user_id a) (a_session_id a) (a_event_type a) ip (a_user_agent a)
    (a_detail_json a) (stored (a_occurred_at a)).
Definition store_user_role (r : UserRole) : UserRole :=
  mkUserRole (r_id r) (r_user_id r) (r_role_code r) (stored (r_assigned_at r))
    (r_assigned_by_user_id r).
Definition store_sample_item (i : SampleItem) : SampleItem :=
  mkSampleItem (it_id i) (it_owner_user_id i) (it_title i) (it_description i)
    (it_is_completed i) (stored (it_registered_at i)) (stored (it_modified_at i)).

Section Statements.
Context `{E : Env} {L : Type}.

(** A statement the constraints accept, or an [IntegrityError]. *)
Definition checked (ok : DB -> bool) (f : DB -> DB) : M L unit :=
  d ← read_db; if ok d then write_db f else raise IntegrityError.

Definition insert_user (u : User) : M L unit :=
  checked (fun d => is_none (users d !! u_id u) && user_row_ok d u)
    (with_users <[u_id u := store_user u]>).
Definition insert_session (s : AuthSession) : M L unit :=
  ip ← lift (inet_bind (s_ip_address s));
  checked (fun d => is_none (sessions d !! s_id s) && session_row_ok d s)
    (with_sessions <[s_id s := store_session ip s]>).
Definition insert_identity (i : AuthIdentity) : M L unit :=
  checked (fun d => is_none (identities d !! i_id i) && identity_row_ok d i)
    (with_identities <[i_id i := store_identity i]>).
Definition insert_oidc_state (o : AuthOidcState) : M L unit :=
  checked (fun d => is_none (oidc_states d !! o_id o) && oidc_state_row_ok d o)
    (with_oidc_states <[o_id o := store_oidc_state o]>).
Definition insert_audit (a : AuthAuditLog) : M L unit :=
  ip ← lift (inet_bind (a_ip_address a));
  checked (fun d => is_none (audit_logs d !! a_id a) && audit_row_ok d a)
    (with_audit_logs <[a_id a := store_audit ip a]>).
Definition insert_user_role (r : UserRole) : M L unit :=
  checked (fun d => is_none (user_roles d !! r_id r) && user_role_row_ok d r)
    (with_user_roles <[r_id r := store_user_role r]>).
Definition insert_sample_item (i : SampleItem) : M L unit :=
  checked (fun d => is_none (sample_items d !! it_id i) && sample_item_row_ok d i)
    (with_sample_items <[it_id i := store_sample_item i]>).

(** The UPDATE of a changed object: [f] sets the changed columns of its row. *)
Definition update_row {A} (get : DB -> gmap Z A) (ok : DB -> A -> bool)
    (upd : (gmap Z A -> gmap Z A) -> DB -> DB) (k : Z) (f : A -> A) : M L unit :=
  d ← read_db;
  match get d !! k with
  | None => raise StaleDataError
  | Some r => if ok d (f r) then write_db (upd <[k := f r]>) else raise IntegrityError
  end.

Definition update_user_row := update_row users user_row_ok with_users.
Definition update_session_row := update_row sessions session_row_ok with_sessions.
Definition update_oidc_state_row := update_row oidc_states oidc_state_row_ok with_oidc_states.
Definition update_audit_row := update_row audit_logs audit_row_ok with_audit_logs.
Definition update_sample_item_row :=
  update_row sample_items sample_item_row_ok with_sample_items.

(** [session.get(Table, key)] and [session.refresh(object)]. *)
Definition get_row {A} (get : DB -> gmap Z A) (k : Z) : M L (option A) :=
  d ← read_db; mret (get d !! k).
Definition refresh {A} (get : DB -> gmap Z A) (k : Z) : M L A :=
  d ← read_db;
  match get d !! k with Some r => mret r | None => raise InvalidRequestError end.

(** [session.exec(select(Table).where(p))] and its [one_or_none()]. *)
Definition exec_select {A} (get : DB -> gmap Z A) (p : A -> bool) : M L (list A) :=
  d ← read_db; mret (select p (get d)).
Definition one_or_none {A} (rows : list A) : M L (option A) :=
  match rows with
  | [] => mret None
  | [r] => mret (Some r)
  | _ => raise MultipleResultsFound
  end.

(** [session.exec(update(Table)...)] or [delete(Table)...], with its row count. *)
Definition exec_counting {A} (get : DB -> gmap Z A) (p : A -> bool) (f : DB -> DB) : M L Z :=
  d ← read_db; write_db f ;; mret (row_count p (get d)).

(** Deleting sessions clears the references of the audit log to them. *)
Definition delete_sessions (p : AuthSession -> bool) (d : DB) : DB :=
  with_audit_logs
    (update_where (fun a => match a_session_id a with
                            | Some k => match sessions d !! k with Some s => p s | None => false end
                            | None => false
                            end) clear_audit_session)
    (with_sessions (delete_where p) d).
End Statements.
