(* ===== verification/Preserve.v ===== *)
(** * Invariants of the database through coroutines

    [preserves n0 I m]: whatever state a call of [m] starts from, in a transaction
    or outside, the committed database and the uncommitted ones satisfy [I]
    afterwards if they did before, also when [m] raises; and [m] leaves open exactly
    the transaction and session that were open.  Tokens are generated from the
    stream at [n0] or later.  One lemma per construct, and the tactic [preserve]
    that applies them. *)

From S2P Require Import Prelude PyStr Errors Time Tables Effects UnitOfWork.

Section Preserve.
Context `{E : Env} {L : Type} (n0 : nat) (I : DB -> Prop).

Record world_inv (w : World L) : Prop := WorldInv {
  wi_committed : I (w_committed w);
  wi_tx : forall o d, w_tx w = Some (o, d) -> I d;
  wi_local : forall d, w_local w = Some d -> I d;
  wi_token : (n0 <= w_token w)%nat;
}.

(** The owner of the open transaction, whether a plain session is open, and the
    committed database while only a transaction is open: code in a transaction
    does not commit. *)
Definition shape (w : World L) : option Z * bool * option DB :=
  (fst <$> w_tx w, is_some (w_local w),
   match w_tx w, w_local w with Some _, None => Some (w_committed w) | _, _ => None end).

Definition preserves {A} (m : M L A) : Prop :=
  forall w, world_inv w -> world_inv (m w).2 /\ shape (m w).2 = shape w.

Lemma world_inv_view w : world_inv w -> I (view w).
Proof.
  intros [Hc Ht Hl _]. unfold view. destruct (w_tx w) as [[o d]|]; [by eapply Ht|].
  destruct (w_local w); [by apply Hl|done].
Qed.

Lemma world_inv_set_view d w :
  world_inv w -> I d -> world_inv (set_view d w) /\ shape (set_view d w) = shape w.
Proof.
  intros [Hc Ht Hl Hn] Hd. unfold set_view. destruct w as [c [[o t]|] [l|]]; simpl in *;
    (split; [split; simpl; try done; intros; simplify_eq; eauto|done]).
Qed.

Lemma preserves_ret {A} (a : A) : preserves (mret a).
Proof. by intros w. Qed.
Lemma preserves_raise {A} e : preserves (raise e : M L A).
Proof. by intros w. Qed.
Lemma preserves_lift {A} (r : result A) : preserves (lift r).
Proof. by intros w. Qed.

Lemma preserves_bind {A B} (m : M L A) (f : A -> M L B) :
  preserves m -> (forall a, preserves (f a)) -> preserves (m ≫= f).
Proof.
  intros Hm Hf w Hw. rewrite bind_run. destruct (Hm w Hw) as [H1 H2].
  destruct (m w) as [[a|e] w1]; simpl in *; [|done]. rewrite <- H2. by apply Hf.
Qed.

Lemma preserves_try_except {A} (m : M L A) h :
  preserves m -> (forall e m', h e = Some m' -> preserves m') -> preserves (try_except m h).
Proof.
  intros Hm Hh w Hw. unfold try_except. destruct (Hm w Hw) as [H1 H2].
  destruct (m w) as [[a|e] w1]; simpl in *; [done|]. destruct (h e) eqn:Eh; [|done].
  rewrite <- H2. by eapply Hh.
Qed.

Lemma preserves_for_each {A} (l : list A) (body : A -> M L unit) :
  (forall a, a ∈ l -> preserves (body a)) -> preserves (for_each l body).
Proof.
  induction l as [|a l IH]; intros H; simpl; [apply preserves_ret|].
  apply preserves_bind; [apply H; constructor|]. intros _. apply IH.
  intros b Hb. apply H. by constructor.
Qed.

(** A step that leaves every copy of the database alone. *)
Lemma preserves_frame {A} (m : M L A) :
  (forall w, w_committed (m w).2 = w_committed w /\ w_tx (m w).2 = w_tx w
             /\ w_local (m w).2 = w_local w /\ (w_token w <= w_token (m w).2)%nat) ->
  preserves m.
Proof.
  intros H w [Hc Ht Hl Hn]. destruct (H w) as (E1 & E2 & E3 & E4). split.
  - split; [by rewrite E1|intros o d; rewrite E2; apply Ht|intros d; rewrite E3; apply Hl|lia].
  - unfold shape. by rewrite E1, E2, E3.
Qed.

Lemma preserves_utcnow : preserves utcnow.
Proof. by apply preserves_frame. Qed.
Lemma preserves_uuid4 : preserves uuid4.
Proof. by apply preserves_frame. Qed.
Lemma preserves_generate_token : preserves generate_token.
Proof. apply preserves_frame. intros w. split_and!; simpl; try done. lia. Qed.
Lemma preserves_hash_password p : preserves (hash_password p).
Proof. by apply preserves_frame. Qed.
Lemma preserves_verify_password p h : preserves (verify_password p h).
Proof. by apply preserves_frame. Qed.
Lemma preserves_try_advisory_lock : preserves try_advisory_lock.
Proof. by apply preserves_frame. Qed.
Lemma preserves_read_db : preserves read_db.
Proof. by apply preserves_frame. Qed.
Lemma preserves_call_ext {A} (f : L -> A * L) : preserves (call_ext f).
Proof. apply preserves_frame. intros w. unfold call_ext. by destruct (f (w_ext w)). Qed.
Lemma preserves_call_ext_raising {A} (f : L -> result A * L) : preserves (call_ext_raising f).
Proof. apply preserves_frame. intros w. unfold call_ext_raising. by destruct (f (w_ext w)). Qed.
Lemma preserves_is_transaction_session uow : preserves (is_transaction_session uow).
Proof. by apply preserves_frame. Qed.

Lemma preserves_write_db f : (forall d, I d -> I (f d)) -> preserves (write_db f).
Proof.
  intros Hf w Hw. apply (world_inv_set_view _ w Hw). by apply Hf, world_inv_view.
Qed.

Lemma preserves_read_then {A} (f : DB -> M L A) :
  (forall d w, world_inv w -> view w = d -> I d ->
     world_inv (f d w).2 /\ shape (f d w).2 = shape w) ->
  preserves (read_db ≫= f).
Proof. intros H w Hw. rewrite bind_run. simpl. apply H; [done..|]. by apply world_inv_view. Qed.

Lemma preserves_checked ok f :
  (forall d, I d -> ok d = true -> I (f d)) -> preserves (checked ok f).
Proof.
  intros H. apply preserves_read_then. intros d w Hw <- Hd. destruct (ok (view w)) eqn:Eo; [|done].
  apply world_inv_set_view; [done|]. by apply H.
Qed.

Lemma preserves_update_row {A} get (ok : DB -> A -> bool) upd k f :
  (forall d r, I d -> get d !! k = Some r -> ok d (f r) = true -> I (upd <[k := f r]> d)) ->
  preserves (update_row get ok upd k f).
Proof.
  intros H. apply preserves_read_then. intros d w Hw <- Hd.
  destruct (get (view w) !! k) as [r|] eqn:Ek; [|done]. destruct (ok _ (f r)) eqn:Eo; [|done].
  apply world_inv_set_view; [done|]. by apply H.
Qed.

Lemma preserves_get_row {A} (get : DB -> gmap Z A) k : preserves (get_row get k).
Proof. by apply preserves_frame. Qed.
Lemma preserves_refresh {A} (get : DB -> gmap Z A) k : preserves (refresh get k).
Proof.
  apply preserves_frame. intros w. unfold refresh. rewrite bind_run. simpl.
  by destruct (get (view w) !! k).
Qed.
Lemma preserves_exec_select {A} (get : DB -> gmap Z A) p : preserves (exec_select get p).
Proof. by apply preserves_frame. Qed.
Lemma preserves_one_or_none {A} (rows : list A) : preserves (one_or_none rows).
Proof. apply preserves_frame. intros w. by destruct rows as [|? [|? ?]]. Qed.

Lemma preserves_exec_counting {A} (get : DB -> gmap Z A) p f :
  (forall d, I d -> I (f d)) -> preserves (exec_counting get p f).
Proof.
  intros H. apply preserves_bind; [apply preserves_read_db|]. intros d.
  apply preserves_bind; [by apply preserves_write_db|]. intros _. apply preserves_ret.
Qed.

Lemma preserves_transaction {A} uow (m : M L A) : preserves m -> preserves (transaction uow m).
Proof.
  intros Hm w Hw. unfold transaction. destruct (w_tx w) as [[o d]|] eqn:Et.
  { destruct (decide _); [by apply Hm|done]. }
  pose proof Hw as [Hc Ht Hl Hn].
  destruct (Hm (set_tx (Some (context_owner uow, w_committed w)) w)) as [[Hc1 Ht1 Hl1 Hn1] Hs].
  { split; simpl; try done. intros o d [= <- <-]. done. }
  destruct (m _) as [r w1]. simpl in *. injection Hs as Hs1 Hs2 _.
  destruct r as [a|e]; [destruct (w_tx w1) as [[o d]|] eqn:E1|]; simpl;
    (split; [split; simpl; try done; by eapply Ht1|]); unfold shape; rewrite Et; simpl;
    by rewrite Hs2.
Qed.

Lemma preserves_session_scope {A} uow (m : M L A) :
  preserves m -> preserves (session_scope uow m).
Proof.
  intros Hm w Hw. unfold session_scope. destruct (w_tx w) as [[o d]|] eqn:Et.
  { destruct (decide _); [by apply Hm|done]. }
  pose proof Hw as [Hc Ht Hl Hn].
  destruct (Hm (set_local (Some (w_committed w)) w)) as [[Hc1 Ht1 Hl1 Hn1] Hs].
  { split; simpl; [done|by rewrite Et| |done]. by intros d [= <-]. }
  destruct (m _) as [r w1]. simpl in *. injection Hs as Hs1 Hs2 _.
  assert (w_tx w1 = None) as Etx by (by destruct (w_tx w1); rewrite ?Et in Hs1). split.
  - by split.
  - unfold shape. simpl. by rewrite Etx, Et.
Qed.

Lemma preserves_commit : preserves commit.
Proof.
  intros w Hw. pose proof Hw as [Hc Ht Hl Hn]. unfold commit.
  destruct (w_local w) as [d|] eqn:El in |- *; [|done].
  split; [|unfold shape; simpl; rewrite El; by destruct (w_tx w)]. split; simpl; eauto.
Qed.
Lemma preserves_rollback : preserves rollback.
Proof.
  intros w Hw. pose proof Hw as [Hc Ht Hl Hn]. unfold rollback.
  destruct (w_local w) as [d|] eqn:El in |- *; [|done].
  split; [|unfold shape; simpl; rewrite El; by destruct (w_tx w)]. split; simpl; try done. by intros d' [= <-].
Qed.

Lemma preserves_persist uow (flush : M L unit) : preserves flush -> preserves (persist uow flush).
Proof.
  intros H. apply preserves_bind; [done|]. intros _.
  apply preserves_bind; [apply preserves_is_transaction_session|].
  intros [|]; [apply preserves_ret|apply preserves_commit].
Qed.

Lemma preserves_persist_unique_email uow (flush : M L unit) :
  preserves flush -> preserves (persist_unique_email uow flush).
Proof.
  intros H. apply preserves_try_except; [by apply preserves_persist|].
  intros e m'. destruct e; try done. intros [= <-].
  apply preserves_bind; [apply preserves_is_transaction_session|]. intros b.
  apply preserves_bind; [|intros _; apply preserves_raise].
  destruct b; [apply preserves_ret|apply preserves_rollback].
Qed.
End Preserve.

Create HintDb preserve.
#[export] Hint Resolve preserves_ret preserves_raise preserves_lift preserves_utcnow
  preserves_uuid4 preserves_generate_token preserves_hash_password preserves_verify_password
  preserves_try_advisory_lock preserves_read_db preserves_call_ext preserves_call_ext_raising
  preserves_is_transaction_session preserves_get_row preserves_refresh preserves_exec_select
  preserves_one_or_none preserves_commit preserves_rollback : preserve.

(** Goes through the constructs of a coroutine; leaves the statements that change
    the database, or closes them with the hints. *)
Ltac preserve_step :=
  match goal with
  | |- preserves _ _ _ => solve [eauto with preserve]
  | |- preserves _ _ (mbind _ _) => apply preserves_bind; [|intros ?]
  | |- preserves _ _ (transaction _ _) => apply preserves_transaction
  | |- preserves _ _ (session_scope _ _) => apply preserves_session_scope
  | |- preserves _ _ (persist _ _) => apply preserves_persist
  | |- preserves _ _ (persist_unique_email _ _) => apply preserves_persist_unique_email
  | |- preserves _ _ (for_each _ _) => apply preserves_for_each; intros ? ?
  | |- preserves _ _ (try_except _ _) => apply preserves_try_except; [|intros ? ? ?]
  | |- preserves _ _ (if ?b then _ else _) => destruct b eqn:?
  | |- preserves _ _ (match ?x with _ => _ end) => destruct x eqn:?
  | |- preserves _ _ nothing_pending => apply preserves_ret
  end.
Ltac preserve := cbv zeta; repeat (preserve_step; cbv zeta).
