(* ===== verification/AuthRepository.v ===== *)
(** * The authentication repository

    Models src/backend/app/services/auth_repository.py, method by method.  A bound
    datetime is compared with a column after the millisecond truncation of its
    type ([stored]).  Taking a row lock ([with_for_update]) is not visible here,
    where requests run one at a time; Concurrent.v has the methods with their locks. *)

From S2P Require Import Prelude PyStr Errors Time Tables Effects UnitOfWork.

(** The arguments of the [AuthAuditLog] constructor; [occurred_at] defaults to
    [utcnow] when the row is flushed. *)
(* src: backend/app/models/auth_audit_log.py:19-67 AuthAuditLog *)
Record audit_event := AuditEvent {
  ev_user_id : option Z;
  ev_session_id : option Z;
  ev_event_type : AuthEventType;
  ev_ip_address : option string;
  ev_user_agent : option string;
  ev_detail_json : option json;
  ev_occurred_at : option Z;
}.

(* src: backend/app/models/auth_oidc_state.py:89-101 AuthOidcStateConsumeResult *)
Inductive consume_status :=
| consumed | state_mismatch | expired | already_consumed | browser_binding_mismatch.

(* src: backend/app/models/auth_oidc_state.py:98-101 AuthOidcStateConsumeResult *)
Record AuthOidcStateConsumeResult := ConsumeResult {
  cr_status : consume_status;
  cr_state : option AuthOidcState;
}.

(* src: backend/app/services/auth_repository.py:24-25 RECENT_REPLAY_IP_LIMIT *)
Definition RECENT_REPLAY_IP_LIMIT : nat := 10.

(** ** The JSON detail of a replayed session

    A JSON boolean, which Python counts as an integer, is read as 0 or 1. *)

Definition as_int (j : json) : option Z :=
  match j with JInt n => Some n | JBool b => Some (Z.b2z b) | _ => None end.

(* src: backend/app/services/auth_repository.py:488-492 _recent_ip_addresses *)
Definition recent_ip_addresses (detail : list (string * json)) : list string :=
  match default (JArr []) (json_get "recent_ip_addresses" detail) with
  | JArr l => omap (fun j => match j with JStr s => Some s | _ => None end) l
  | _ => []
  end.

(* src: backend/app/services/auth_repository.py:495-499 _distinct_ip_count *)
Definition distinct_ip_count (detail : list (string * json)) (recent : list string) : Z :=
  let len := Z.of_nat (length recent) in
  match as_int (default (JInt len) (json_get "distinct_ip_count" detail)) with
  | Some n => Z.max n len
  | None => len
  end.

(* src: backend/app/services/auth_repository.py:502-506 _replay_count *)
Definition replay_count (detail : list (string * json)) : Z :=
  match as_int (default (JInt 0) (json_get "replay_count" detail)) with
  | Some n => Z.max n 0
  | None => 0
  end.

(** [l[-n:]] *)
Definition last_n {A} (n : nat) (l : list A) : list A := drop (length l - n) l.

(* src: backend/app/services/auth_repository.py:462-485 _replay_detail_json *)
Definition replay_detail_json (detail : list (string * json)) (ip_address user_agent : option string)
    (replayed_at window_seconds : Z) : list (string * json) :=
  let recent := recent_ip_addresses detail in
  let distinct := distinct_ip_count detail recent in
  let '(distinct, recent) :=
    match ip_address with
    | Some ip => if decide (ip ∈ recent) then (distinct, recent)
                 else (distinct + 1, last_n RECENT_REPLAY_IP_LIMIT (recent ++ [ip]))
    | None => (distinct, recent)
    end in
  json_set "window_seconds" (JInt window_seconds)
    (json_set "replay_count" (JInt (replay_count detail + 1))
    (json_set "recent_ip_addresses" (JArr (map JStr recent))
    (json_set "last_replayed_at" (JStr (isoformat replayed_at))
    (json_set "last_user_agent" (json_opt_str user_agent)
    (json_set "last_ip_address" (json_opt_str ip_address)
    (json_set "distinct_ip_count" (JInt distinct) detail)))))).

(** [detail_json ? 'key'] in PostgreSQL: a key of an object, an element of an
    array, or the string itself. *)
Definition jsonb_has_key (k : string) (j : option json) : bool :=
  match j with
  | Some (JObj d) => is_some (json_get k d)
  | Some (JArr l) => existsb (fun e => match e with JStr s => (s =? k)%string | _ => false end) l
  | Some (JStr s) => (s =? k)%string
  | _ => false
  end.

(** [dict(detail_json or {})] *)
Definition dict_or_empty (j : option json) : result (list (string * json)) :=
  match j with
  | None | Some JNull | Some (JBool false) | Some (JInt 0) | Some (JStr "") | Some (JArr []) => Ok []
  | Some (JObj d) => Ok d
  | _ => Raise (ValueError "dictionary update sequence")
  end.

(** [ORDER BY key1, key2] *)
Definition lex_le {A} (f g : A -> Z) (x y : A) : Prop := f x < f y \/ (f x = f y /\ g x <= g y).
#[export] Instance lex_le_dec {A} (f g : A -> Z) : RelDecision (lex_le f g).
Proof. intros x y. unfold lex_le. apply _. Defined.
Definition order_by {A} (f g : A -> Z) (l : list A) : list A := merge_sort (lex_le f g) l.
Definition order_by_desc {A} (f g : A -> Z) (l : list A) : list A :=
  merge_sort (lex_le (fun x => - f x) (fun x => - g x)) l.

Definition id_is (k : Z) (u : User) : bool := u_id u =? k.
Definition active_email (normalized_email : string) (u : User) : bool :=
  (lower (u_email u) =? normalized_email)%string && is_none (u_deleted_at u).

Section AuthRepository.
Context `{E : Env} {L : Type}.
Notation uow := unit_of_work.

(** ** Users *)

(** [User(...)] with its defaults, flushed and refreshed. *)
(* src: backend/app/services/auth_repository.py:40-56 AuthRepository.create_user *)
Definition create_user (email : string) (password_hash : option string) (language_code : string)
  : M L User :=
  session_scope uow (
    id ← uuid4;
    persist_unique_email uow (
      registered_at ← utcnow;
      modified_at ← utcnow;
      insert_user (mkUser id email password_hash true language_code registered_at modified_at
                     None None)) ;;
    refresh users id).

(* src: backend/app/services/auth_repository.py:58-73 AuthRepository.update_user_language *)
Definition update_user_language (user_id : Z) (language_code : string) (modified_at : Z)
  : M L User :=
  session_scope uow (
    user ← get_row users user_id;
    match user with
    | Some u =>
        if is_some (u_deleted_at u) then raise (UserNotFoundError user_id)
        else
          persist uow (update_user_row user_id
            (fun r => set_user_modified (stored modified_at) (set_language language_code r))) ;;
          refresh users user_id
    | None => raise (UserNotFoundError user_id)
    end).

(* src: backend/app/services/auth_repository.py:75-82 AuthRepository.find_user_by_email *)
Definition find_user_by_email (normalized_email : string) : M L (option User) :=
  session_scope uow (
    rows ← exec_select users (active_email normalized_email);
    one_or_none rows).

(* src: backend/app/services/auth_repository.py:84-93 AuthRepository.find_user_by_verified_email_for_oidc_link *)
Definition find_user_by_verified_email_for_oidc_link (email : string) : M L (option User) :=
  let normalized_email := normalize_email email in
  session_scope uow (
    rows ← exec_select users (fun u => active_email normalized_email u && u_is_active u);
    one_or_none rows).

(* src: backend/app/services/auth_repository.py:95-103 AuthRepository.find_user_by_email_for_oidc_collision *)
Definition find_user_by_email_for_oidc_collision (email : string) : M L (option User) :=
  let normalized_email := normalize_email email in
  session_scope uow (
    rows ← exec_select users (active_email normalized_email);
    one_or_none rows).

(* src: backend/app/services/auth_repository.py:105-109 AuthRepository.find_user_by_id_for_authentication *)
Definition find_user_by_id_for_authentication (user_id : Z) : M L (option User) :=
  session_scope uow (
    rows ← exec_select users (id_is user_id);
    one_or_none rows).

(* src: backend/app/services/auth_repository.py:235-244 AuthRepository.record_user_login *)
Definition record_user_login (user_id : Z) (login_at : Z) : M L User :=
  session_scope uow (
    user ← get_row users user_id;
    match user with
    | Some u =>
        if is_some (u_deleted_at u) then raise (UserNotFoundError user_id)
        else
          persist uow (update_user_row user_id (set_last_login (stored login_at))) ;;
          refresh users user_id
    | None => raise (UserNotFoundError user_id)
    end).

(** ** Identities *)

(* src: backend/app/services/auth_repository.py:111-122 AuthRepository.find_identity_by_provider_subject *)
Definition find_identity_by_provider_subject (provider_id provider_subject : string)
  : M L (option AuthIdentity) :=
  session_scope uow (
    rows ← exec_select identities (fun i =>
      (i_provider_id i =? provider_id)%string && (i_provider_subject i =? provider_subject)%string);
    one_or_none rows).

(* src: backend/app/services/auth_repository.py:124-135 AuthRepository.find_identities_by_user_id *)
Definition find_identities_by_user_id (user_id : Z) : M L (list AuthIdentity) :=
  session_scope uow (
    d ← read_db;
    mret (order_by i_linked_at i_id (select (fun i =>
      (i_user_id i =? user_id)
      && match users d !! i_user_id i with
         | Some u => is_none (u_deleted_at u)
         | None => false
         end) (identities d)))).

(* src: backend/app/services/auth_repository.py:137-142 AuthRepository.create_auth_identity *)
Definition create_auth_identity (identity : AuthIdentity) : M L AuthIdentity :=
  session_scope uow (
    persist uow (insert_identity identity) ;;
    refresh identities (i_id identity)).

(* src: backend/app/services/auth_repository.py:144-149 AuthRepository.delete_auth_identities_for_user *)
Definition delete_auth_identities_for_user (user_id : Z) : M L Z :=
  session_scope uow (
    let p i := i_user_id i =? user_id in
    rowcount ← exec_counting identities p (with_identities (delete_where p));
    persist uow nothing_pending ;;
    mret rowcount).

(** ** Sessions *)

(* src: backend/app/services/auth_repository.py:151-176 AuthRepository.create_session *)
Definition create_session (user_id : Z) (session_token_hash csrf_token_hash : string)
    (issued_at last_seen_at expires_at : Z) (ip_address user_agent : option string)
  : M L AuthSession :=
  session_scope uow (
    id ← uuid4;
    persist uow (insert_session (mkSession id user_id session_token_hash csrf_token_hash issued_at
                   last_seen_at expires_at None None ip_address user_agent)) ;;
    refresh sessions id).

Definition active_session (token_hash : string) (now : Z) (s : AuthSession) : bool :=
  (s_session_token_hash s =? token_hash)%string && is_none (s_revoked_at s)
  && (stored now <? s_expires_at s).

(* src: backend/app/services/auth_repository.py:178-187 AuthRepository.find_active_session_by_token_hash *)
Definition find_active_session_by_token_hash (token_hash : string) : M L (option AuthSession) :=
  now ← utcnow;
  session_scope uow (
    rows ← exec_select sessions (active_session token_hash now);
    one_or_none rows).

(* src: backend/app/services/auth_repository.py:189-193 AuthRepository.find_session_by_token_hash *)
Definition find_session_by_token_hash (token_hash : string) : M L (option AuthSession) :=
  session_scope uow (
    rows ← exec_select sessions (fun s => (s_session_token_hash s =? token_hash)%string);
    one_or_none rows).

(* src: backend/app/services/auth_repository.py:195-208 AuthRepository.update_session_csrf_token_hash *)
Definition update_session_csrf_token_hash (session_id : Z) (csrf_token_hash : string)
  : M L AuthSession :=
  session_scope uow (
    auth_session ← get_row sessions session_id;
    match auth_session with
    | None => raise (AuthSessionNotFoundError session_id)
    | Some _ =>
        persist uow (update_session_row session_id (set_csrf_hash csrf_token_hash)) ;;
        refresh sessions session_id
    end).

(* src: backend/app/services/auth_repository.py:210-217 AuthRepository.revoke_session *)
Definition revoke_session (session_id : Z) : M L unit :=
  session_scope uow (
    auth_session ← get_row sessions session_id;
    match auth_session with
    | None => mret tt
    | Some _ =>
        revoked_at ← utcnow;
        persist uow (update_session_row session_id (set_revoked (stored revoked_at)))
    end).

(** The returned object is not refreshed: it keeps the microseconds. *)
(* src: backend/app/services/auth_repository.py:219-233 AuthRepository.touch_session *)
Definition touch_session (session_id : Z) (last_seen_at expires_at : Z) : M L AuthSession :=
  session_scope uow (
    auth_session ← get_row sessions session_id;
    match auth_session with
    | None => raise (AuthSessionNotFoundError session_id)
    | Some s =>
        persist uow (update_session_row session_id
          (set_last_seen (stored last_seen_at) (stored expires_at))) ;;
        mret (set_last_seen last_seen_at expires_at s)
    end).

(* src: backend/app/services/auth_repository.py:246-272 AuthRepository.record_oidc_login *)
Definition record_oidc_login (user_id identity_id session_id : Z) (login_at : Z)
    (provider_auth_time : option Z) : M L unit :=
  session_scope uow (
    user ← get_row users user_id;
    match user with
    | Some u =>
        if is_some (u_deleted_at u) then raise (UserNotFoundError user_id)
        else
          auth_session ← get_row sessions session_id;
          match auth_session with
          | None => raise (AuthSessionNotFoundError session_id)
          | Some _ =>
              write_db (with_identities (update_where
                (fun i => (i_id i =? identity_id) && (i_user_id i =? user_id))
                (set_identity_login (stored login_at)))) ;;
              persist uow (
                match provider_auth_time with
                | Some t => update_session_row session_id (set_oidc_authenticated (stored t))
                | None => mret tt
                end ;;
                update_user_row user_id (set_last_login (stored login_at)))
          end
    | None => raise (UserNotFoundError user_id)
    end).

(* src: backend/app/services/auth_repository.py:274-287 AuthRepository.record_oidc_reauth *)
Definition record_oidc_reauth (session_id : Z) (auth_time : Z) : M L unit :=
  session_scope uow (
    auth_session ← get_row sessions session_id;
    match auth_session with
    | None => raise (AuthSessionNotFoundError session_id)
    | Some _ =>
        persist uow (update_session_row session_id (set_oidc_authenticated (stored auth_time)))
    end).

(* src: backend/app/services/auth_repository.py:325-334 AuthRepository.revoke_sessions_for_user *)
Definition revoke_sessions_for_user (user_id : Z) (revoked_at : Z) : M L Z :=
  session_scope uow (
    let p s := (s_user_id s =? user_id) && is_none (s_revoked_at s) in
    rowcount ← exec_counting sessions p
                 (with_sessions (update_where p (set_revoked (stored revoked_at))));
    persist uow nothing_pending ;;
    mret rowcount).

(* src: backend/app/services/auth_repository.py:336-341 AuthRepository.delete_sessions_expired_before *)
Definition delete_sessions_expired_before (expired_before : Z) : M L Z :=
  session_scope uow (
    let p s := s_expires_at s <? stored expired_before in
    rowcount ← exec_counting sessions p (delete_sessions p);
    persist uow nothing_pending ;;
    mret rowcount).

(** ** The audit log *)

Definition audit_row (id : Z) (e : audit_event) (occurred_at : Z) : AuthAuditLog :=
  mkAudit id (ev_user_id e) (ev_session_id e) (ev_event_type e) (ev_ip_address e)
    (ev_user_agent e) (ev_detail_json e) occurred_at.

(** The flush of a new audit row fills its column defaults. *)
Definition flush_audit (id : Z) (e : audit_event) : M L unit :=
  occurred_at ← match ev_occurred_at e with Some t => mret t | None => utcnow end;
  insert_audit (audit_row id e occurred_at).

(* src: backend/app/services/auth_repository.py:393-396 AuthRepository.create_audit_log *)
Definition create_audit_log (audit_log : audit_event) : M L unit :=
  id ← uuid4;
  session_scope uow (persist uow (flush_audit id audit_log)).

(* src: backend/app/services/auth_repository.py:343-348 AuthRepository.delete_audit_logs_occurred_before *)
Definition delete_audit_logs_occurred_before (occurred_before : Z) : M L Z :=
  session_scope uow (
    let p a := a_occurred_at a <? stored occurred_before in
    rowcount ← exec_counting audit_logs p (with_audit_logs (delete_where p));
    persist uow nothing_pending ;;
    mret rowcount).

(** The row returned is the one the database holds; a [User] already loaded by
    the session would carry the microseconds of [deleted_at]. *)
(* src: backend/app/services/auth_repository.py:289-323 AuthRepository.mark_user_deleted *)
Definition mark_user_deleted (user_id : Z) (deleted_at : Z) (session_id : option Z)
    (ip_address : option string) : M L User :=
  session_scope uow (
    let p u := id_is user_id u && is_none (u_deleted_at u) in
    rowcount ← exec_counting users p (with_users (update_where p
                 (fun u => set_user_modified (stored deleted_at) (set_deleted (stored deleted_at) u))));
    if rowcount =? 0 then
      existing_user ← get_row users user_id;
      match existing_user with
      | None => raise (UserNotFoundError user_id)
      | Some u => mret u
      end
    else
      id ← uuid4;
      persist uow (flush_audit id (AuditEvent (Some user_id) session_id USER_MARKED_DELETED
                                     ip_address None None (Some deleted_at))) ;;
      deleted_user ← get_row users user_id;
      match deleted_user with
      | None => raise (UserNotFoundError user_id)
      | Some u => mret u
      end).

(* src: backend/app/services/auth_repository.py:398-455 AuthRepository.record_rejected_session_replay *)
Definition record_rejected_session_replay (auth_session : AuthSession)
    (ip_address user_agent : option string) (replayed_at window_seconds : Z) : M L unit :=
  session_scope uow (
    locked ← try_advisory_lock;
    if negb locked then mret tt
    else
      let window_started_at := replayed_at - window_seconds * 1000000 in
      rows ← exec_select audit_logs (fun a =>
        bool_decide (a_session_id a = Some (s_id auth_session))
        && bool_decide (a_event_type a = SESSION_REJECTED)
        && (stored window_started_at <=? a_occurred_at a)
        && jsonb_has_key "replay_count" (a_detail_json a));
      match order_by_desc a_occurred_at a_id rows with
      | [] =>
          id ← uuid4;
          persist uow (flush_audit id (AuditEvent (Some (s_user_id auth_session))
            (Some (s_id auth_session)) SESSION_REJECTED ip_address user_agent
            (Some (JObj (replay_detail_json [] ip_address user_agent replayed_at window_seconds)))
            (Some replayed_at)))
      | audit_log :: _ =>
          detail ← lift (dict_or_empty (a_detail_json audit_log));
          persist uow (update_audit_row (a_id audit_log) (set_detail (JObj
            (replay_detail_json detail ip_address user_agent replayed_at window_seconds))))
      end).

(** ** OIDC authorization states *)

(* src: backend/app/services/auth_repository.py:350-355 AuthRepository.create_oidc_authorization_state *)
Definition create_oidc_authorization_state (state : AuthOidcState) : M L AuthOidcState :=
  session_scope uow (
    persist uow (insert_oidc_state state) ;;
    refresh oidc_states (o_id state)).

(* src: backend/app/services/auth_repository.py:357-383 AuthRepository.consume_oidc_authorization_state *)
Definition consume_oidc_authorization_state (state_hash browser_binding_hash : string)
    (consumed_at : Z) : M L AuthOidcStateConsumeResult :=
  session_scope uow (
    rows ← exec_select oidc_states (fun o => (o_state_hash o =? state_hash)%string);
    found ← one_or_none rows;
    match found with
    | None => mret (ConsumeResult state_mismatch None)
    | Some state =>
        if is_some (o_consumed_at state) then mret (ConsumeResult already_consumed (Some state))
        else if o_expires_at state <=? consumed_at then mret (ConsumeResult expired (Some state))
        else if negb (o_browser_binding_hash state =? browser_binding_hash)%string then
          mret (ConsumeResult browser_binding_mismatch (Some state))
        else
          persist uow (update_oidc_state_row (o_id state) (set_consumed (stored consumed_at))) ;;
          state ← refresh oidc_states (o_id state);
          mret (ConsumeResult consumed (Some state))
    end).

(* src: backend/app/services/auth_repository.py:385-391 AuthRepository.delete_oidc_states_expired_before *)
Definition delete_oidc_states_expired_before (expired_before : Z) : M L Z :=
  session_scope uow (
    let p o := (o_expires_at o <? stored expired_before)
               || match o_consumed_at o with
                  | Some t => t <? stored expired_before
                  | None => false
                  end in
    rowcount ← exec_counting oidc_states p (with_oidc_states (delete_where p));
    persist uow nothing_pending ;;
    mret rowcount).
End AuthRepository.
