(* ===== verification/AuthorizationRepository.v ===== *)
(** * The authorization repository

    Models src/backend/app/services/authorization_repository.py.  Columns of text
    are ordered by code point, as by Python. *)

From S2P Require Import Prelude PyStr Errors Time Tables Effects UnitOfWork.

(* src: backend/app/models/authorization.py:80-86 UserRoleReplacementResult *)
Record UserRoleReplacementResult := RoleReplacement {
  rr_user_id : Z;
  granted_role_codes : list string;
  revoked_role_codes : list string;
  current_role_codes : list string;
}.

(* src: backend/app/models/authorization.py:88-91 UnknownRoleAssignment *)
Record UnknownRoleAssignment := UnknownRole {
  ur_user_id : Z;
  ur_role_code : string;
}.

Definition role_of (user_id : Z) (r : UserRole) : bool := r_user_id r =? user_id.

(** [ORDER BY role_code, user_id] *)
Definition unknown_le (x y : UnknownRoleAssignment) : Prop :=
  (ur_role_code x <> ur_role_code y /\ String.le (ur_role_code x) (ur_role_code y))
  \/ (ur_role_code x = ur_role_code y /\ ur_user_id x <= ur_user_id y).
#[export] Instance unknown_le_dec : RelDecision unknown_le.
Proof. intros x y. unfold unknown_le. apply _. Defined.

Definition not_in (codes : gset string) (r : UserRole) : bool :=
  bool_decide (r_role_code r ∉ codes).

Section AuthorizationRepository.
Context `{E : Env} {L : Type}.
Notation uow := unit_of_work.

(* src: backend/app/services/authorization_repository.py:102-106 AuthorizationRepository._role_codes_for_user *)
Definition role_codes_for_user (user_id : Z) : M L (list string) :=
  rows ← exec_select user_roles (role_of user_id);
  mret (sorted (map r_role_code rows)).

(* src: backend/app/services/authorization_repository.py:28-30 AuthorizationRepository.get_user_role_codes *)
Definition get_user_role_codes (user_id : Z) : M L (list string) :=
  session_scope uow (role_codes_for_user user_id).

(** Without a WHERE clause when no role is known. *)
(* src: backend/app/services/authorization_repository.py:32-44 AuthorizationRepository.list_unknown_role_assignments *)
Definition list_unknown_role_assignments (known_role_codes : gset string)
  : M L (list UnknownRoleAssignment) :=
  session_scope uow (
    rows ← exec_select user_roles (fun r =>
             bool_decide (known_role_codes = ∅) || not_in known_role_codes r);
    mret (merge_sort unknown_le
            (map (fun r => UnknownRole (r_user_id r) (r_role_code r)) rows))).

(* src: backend/app/services/authorization_repository.py:46-54 AuthorizationRepository.delete_unknown_role_assignments *)
Definition delete_unknown_role_assignments (known_role_codes : gset string) : M L Z :=
  if bool_decide (known_role_codes = ∅) then
    raise (ValueError "known_role_codes must not be empty")
  else
    session_scope uow (
      let p := not_in known_role_codes in
      rowcount ← exec_counting user_roles p (with_user_roles (delete_where p));
      persist uow nothing_pending ;;
      mret rowcount).

(** [session.add(UserRole(...))] for every granted code; the identifiers are drawn
    when the objects are made, before any of them is flushed. *)
(* src: backend/app/services/authorization_repository.py:76-83 AuthorizationRepository.replace_user_roles *)
Fixpoint new_user_roles (user_id : Z) (codes : list string) (assigned_at : Z)
    (assigned_by_user_id : option Z) : M L (list UserRole) :=
  match codes with
  | [] => mret []
  | code :: codes' =>
      id ← uuid4;
      rows ← new_user_roles user_id codes' assigned_at assigned_by_user_id;
      mret (mkUserRole id user_id code assigned_at assigned_by_user_id :: rows)
  end.

(** The UPDATE of the user autoflushes the new role rows, so they are inserted
    first; it makes no difference to the outcome. *)
(* src: backend/app/services/authorization_repository.py:56-94 AuthorizationRepository.replace_user_roles *)
Definition replace_user_roles (user_id : Z) (role_codes : list string)
    (assigned_by_user_id : option Z) : M L UserRoleReplacementResult :=
  let target_codes := dict_fromkeys role_codes in
  session_scope uow (
    existing_role_codes ← role_codes_for_user user_id;
    let existing_set : gset string := list_to_set existing_role_codes in
    let target_set : gset string := list_to_set target_codes in
    let revoked := sorted (elements (existing_set ∖ target_set)) in
    let granted := sorted (elements (target_set ∖ existing_set)) in
    changed_at ← utcnow;
    (if bool_decide (revoked = []) then mret tt
     else write_db (with_user_roles (delete_where (fun r =>
            role_of user_id r && bool_decide (r_role_code r ∈ revoked))))) ;;
    rows ← new_user_roles user_id granted changed_at assigned_by_user_id;
    for_each rows insert_user_role ;;
    (if bool_decide (granted = [] /\ revoked = []) then mret tt
     else write_db (with_users (update_where (fun u => u_id u =? user_id)
            (set_user_modified (stored changed_at))))) ;;
    persist uow nothing_pending ;;
    mret (RoleReplacement user_id granted revoked (sorted (elements target_set)))).

(* src: backend/app/services/authorization_repository.py:96-100 AuthorizationRepository.delete_roles_for_user *)
Definition delete_roles_for_user (user_id : Z) : M L Z :=
  session_scope uow (
    let p := role_of user_id in
    rowcount ← exec_counting user_roles p (with_user_roles (delete_where p));
    persist uow nothing_pending ;;
    mret rowcount).
End AuthorizationRepository.
