(* ===== verification/AdminUserRepository.v ===== *)
(** * The admin user repository

    Models src/backend/app/services/admin_user_repository.py and the query helpers
    of src/backend/app/models/admin_query.py, with the SQL [LIKE] they rely on. *)

From S2P Require Import Prelude PyStr Errors Time Tables Effects UnitOfWork AuthRepository.
From S2P Require Import AuthorizationRepository.

(* src: backend/app/models/admin_user.py:6-10 AdminUserListQuery *)
Record AdminUserListQuery := ListQuery {
  q_search : option string;
  q_is_active : option bool;
  q_role : option string;
}.

(* src: backend/app/models/admin_user.py:13-16 AdminUserRecord *)
Record AdminUserRecord := UserRecord {
  rec_user : User;
  rec_roles : list string;
}.

(* src: backend/app/models/admin_user.py:19-23 AdminUserDetail *)
Record AdminUserDetail := UserDetail {
  det_user : User;
  det_roles : list string;
  det_permissions : list string;
}.

(* src: backend/app/models/admin_user.py:26-32 AdminUserUpdateChanges *)
Record AdminUserUpdateChanges := UserChanges {
  ch_email : option string;
  ch_password : option string;
  ch_is_active : option bool;
  ch_roles : option (list string);
  ch_fields_set : gset string;
}.

(* src: backend/app/models/admin_pagination.py:7-18 AdminOffsetPageRequest *)
Record AdminOffsetPageResult (A : Type) := OffsetPage {
  page_items : list A;
  page_total : Z;
  page_offset : Z;
  page_limit : Z;
}.
Arguments OffsetPage {A}.
Arguments page_items {A}.
Arguments page_total {A}.
Arguments page_offset {A}.
Arguments page_limit {A}.

(* src: backend/app/models/admin_query.py:1-10 normalize_admin_search *)
Definition normalize_admin_search (value : option string) (max_length : Z)
  : result (option string) :=
  match value with
  | None => Ok None
  | Some v =>
      let normalized := strip v in
      if (normalized =? "")%string then Ok None
      else if max_length <? str_len normalized then Raise (ValueError "Search query is too long.")
      else Ok (Some normalized)
  end.

Definition backslash : ascii := "\"%char.

(* src: backend/app/models/admin_query.py:13-17 escape_like_search *)
Definition escape_like_search (value : string) : string :=
  replace_char "_" "\_" (replace_char "%" "\%" (replace_char backslash "\\" value)).

(** [text LIKE pattern ESCAPE '\'] *)
Fixpoint like_chars (p s : list ascii) : bool :=
  match p with
  | [] => match s with [] => true | _ => false end
  | c :: p' =>
      if Ascii.eqb c "%" then
        (fix any (s : list ascii) : bool :=
           like_chars p' s || match s with [] => false | _ :: s' => any s' end) s
      else if Ascii.eqb c "_" then
        match s with [] => false | _ :: s' => like_chars p' s' end
      else if Ascii.eqb c backslash then
        match p', s with
        | e :: p'', x :: s' => Ascii.eqb e x && like_chars p'' s'
        | _, _ => false
        end
      else match s with [] => false | x :: s' => Ascii.eqb c x && like_chars p' s' end
  end.
Definition like (text pattern : string) : bool := like_chars (chars pattern) (chars text).

(** The optional filters of the user list. *)
(* src: backend/app/services/admin_user_repository.py:122-134 AdminUserRepository._filters *)
Definition list_filter (d : DB) (query : AdminUserListQuery) (u : User) : bool :=
  is_none (u_deleted_at u)
  && match q_search query with
     | Some search =>
         let pattern := escape_like_search (lower search) in
         like (lower (u_email u)) ("%" ++ pattern ++ "%")
     | None => true
     end
  && match q_is_active query with Some b => eqb (u_is_active u) b | None => true end
  && match q_role query with
     | Some role => exists_row (fun r => (r_user_id r =? u_id u) && (r_role_code r =? role)%string)
                      (user_roles d)
     | None => true
     end.

(** The dict of [_role_codes_for_users] as the function [.get(user_id, ())]. *)
(* src: backend/app/services/admin_user_repository.py:136-152 AdminUserRepository._role_codes_for_users *)
Definition role_codes_for_users (d : DB) (user_ids : list Z) (user_id : Z) : list string :=
  if bool_decide (user_id ∈ user_ids)
  then sorted (map r_role_code (select (role_of user_id) (user_roles d)))
  else [].

(** [LIMIT] and [OFFSET]; both are bounded below by the controller's validation. *)
Definition slice {A} (offset limit : Z) (l : list A) : list A :=
  take (Z.to_nat limit) (drop (Z.to_nat offset) l).

Section AdminUserRepository.
Context `{E : Env} {L : Type}.
Notation uow := unit_of_work.

(* src: backend/app/services/admin_user_repository.py:32-58 AdminUserRepository.list_users *)
Definition list_users (query : AdminUserListQuery) (offset limit : Z)
  : M L (AdminOffsetPageResult AdminUserRecord) :=
  session_scope uow (
    d ← read_db;
    let users_page := slice offset limit
      (order_by_desc u_registered_at u_id (select (list_filter d query) (users d))) in
    let total := row_count (list_filter d query) (users d) in
    let roles_by_user_id := role_codes_for_users d (map u_id users_page) in
    mret (OffsetPage (map (fun u => UserRecord u (roles_by_user_id (u_id u))) users_page)
            total offset limit)).

(* src: backend/app/services/admin_user_repository.py:60-67 AdminUserRepository.get_user *)
Definition get_user (user_id : Z) : M L (option User) :=
  session_scope uow (
    rows ← exec_select users (fun u => id_is user_id u && is_none (u_deleted_at u));
    one_or_none rows).

(* src: backend/app/services/admin_user_repository.py:69-80 AdminUserRepository.create_user *)
Definition create_user (email password_hash : string) (is_active : bool) : M L User :=
  session_scope uow (
    id ← uuid4;
    persist_unique_email uow (
      registered_at ← utcnow;
      modified_at ← utcnow;
      insert_user (mkUser id email (Some password_hash) is_active "ja" registered_at modified_at
                     None None)) ;;
    refresh users id).

(** The assignments to the columns named in [fields_set]. *)
(* src: backend/app/services/admin_user_repository.py:98-109 AdminUserRepository.update_user *)
Definition changed_columns (changes : AdminUserUpdateChanges) (password_hash : option string)
  : result (User -> User) :=
  let fields_set := ch_fields_set changes in
  f1 ← (if decide (("email" : string) ∈ fields_set) then
          match ch_email changes with
          | None => Raise (ValueError "email cannot be None when included in fields_set")
          | Some email => Ok (set_email email)
          end
        else Ok id : result (User -> User));
  f2 ← (if decide (("password" : string) ∈ fields_set) then
          match password_hash with
          | None => Raise (ValueError "password_hash cannot be None when password is included")
          | Some h => Ok (set_password_hash h)
          end
        else Ok id : result (User -> User));
  f3 ← (if decide (("is_active" : string) ∈ fields_set) then
          match ch_is_active changes with
          | None => Raise (ValueError "is_active cannot be None when included in fields_set")
          | Some b => Ok (set_is_active b)
          end
        else Ok id : result (User -> User));
  Ok (fun u => f3 (f2 (f1 u))).

(* src: backend/app/services/admin_user_repository.py:82-120 AdminUserRepository.update_user *)
Definition update_user (user_id : Z) (changes : AdminUserUpdateChanges)
    (password_hash : option string) : M L User :=
  session_scope uow (
    rows ← exec_select users (fun u => id_is user_id u && is_none (u_deleted_at u));
    user ← one_or_none rows;
    match user with
    | None => raise (UserNotFoundError user_id)
    | Some _ =>
        columns ← lift (changed_columns changes password_hash);
        modified_at ← utcnow;
        persist_unique_email uow (update_user_row user_id
          (fun u => set_user_modified (stored modified_at) (columns u))) ;;
        refresh users user_id
    end).
End AdminUserRepository.
