(* ===== verification/SampleItemRepository.v ===== *)
(** * The sample item repository

    Models src/backend/app/services/sample_item_repository.py. *)

From S2P Require Import Prelude PyStr Errors Time Tables Effects UnitOfWork AuthRepository.

(* src: backend/app/models/sample_item.py:12-15 SampleItemCursor *)
Record SampleItemCursor := ItemCursor {
  c_registered_at : Z;
  c_id : Z;
}.

(** [WHERE registered_at < :r OR (registered_at = :r AND id < :id)] *)
(* src: backend/app/services/sample_item_repository.py:36-41 SampleItemRepository.list_by_owner *)
Definition after_cursor (cursor : option SampleItemCursor) (i : SampleItem) : bool :=
  match cursor with
  | None => true
  | Some c =>
      (it_registered_at i <? stored (c_registered_at c))
      || ((it_registered_at i =? stored (c_registered_at c)) && (it_id i <? c_id c))
  end.

Section SampleItemRepository.
Context `{E : Env} {L : Type}.
Notation uow := unit_of_work.

(* src: backend/app/services/sample_item_repository.py:26-47 SampleItemRepository.list_by_owner *)
Definition list_by_owner (owner_user_id : Z) (fetch_limit : Z) (cursor : option SampleItemCursor)
  : M L (list SampleItem) :=
  session_scope uow (
    rows ← exec_select sample_items (fun i =>
             (it_owner_user_id i =? owner_user_id) && after_cursor cursor i);
    mret (take (Z.to_nat fetch_limit) (order_by_desc it_registered_at it_id rows))).

(* src: backend/app/services/sample_item_repository.py:49-60 SampleItemRepository.get_by_id_for_owner *)
Definition get_by_id_for_owner (item_id owner_user_id : Z) : M L (option SampleItem) :=
  session_scope uow (
    rows ← exec_select sample_items (fun i =>
             (it_id i =? item_id) && (it_owner_user_id i =? owner_user_id));
    one_or_none rows).

(** [SampleItem(...)] made by the use case and flushed here with its defaults; the
    returned object is not refreshed. *)
(* src: backend/app/services/sample_item_repository.py:62-66 SampleItemRepository.create *)
Definition create (id owner_user_id : Z) (title : string) (description : option string)
  : M L SampleItem :=
  session_scope uow (
    registered_at ← utcnow;
    modified_at ← utcnow;
    let item := mkSampleItem id owner_user_id title description false registered_at modified_at in
    persist uow (insert_sample_item item) ;;
    mret item).

(* src: backend/app/services/sample_item_repository.py:68-73 SampleItemRepository.update *)
Definition update (item : SampleItem) : M L SampleItem :=
  session_scope uow (
    modified_at ← utcnow;
    let item := set_item_modified modified_at item in
    persist uow (update_sample_item_row (it_id item) (fun _ => store_sample_item item)) ;;
    mret item).

(* src: backend/app/services/sample_item_repository.py:75-78 SampleItemRepository.delete *)
Definition delete_item_row (item : SampleItem) : M L unit :=
  session_scope uow (persist uow (write_db (with_sample_items (delete (it_id item))))).

(* src: backend/app/services/sample_item_repository.py:80-84 SampleItemRepository.delete_all_for_owner *)
Definition delete_all_for_owner (owner_user_id : Z) : M L unit :=
  session_scope uow (
    write_db (with_sample_items (delete_where (fun i => it_owner_user_id i =? owner_user_id))) ;;
    persist uow nothing_pending).
End SampleItemRepository.
