(* ===== verification/Runs.v ===== *)
(** * Runs of the repository operations

    What each repository method returns and does to the database, as equations on
    worlds that are ready for a request step: no plain session is open, and the
    transaction that may be open is the one of [unit_of_work].  [at_db b c d x] is
    such a world: inside a transaction when [b], with [d] the database its code
    sees, [c] the committed one (when [b]), and the clock, random streams, limiter
    and log of [x].  The use cases are evaluated with these equations. *)

From S2P Require Import Prelude PyStr Errors Time Tables Effects UnitOfWork AuthRepository.
From S2P Require Import AuthorizationRepository SampleItemRepository.

Section Worlds.
Context `{E : Env} {L : Type}.
Implicit Types (w x : World L) (b : bool) (c d : DB).

Definition at_db b c d x : World L :=
  mkWorld (if b then c else d) (if b then Some (0, d) else None) None (w_ext x) (w_clock x)
    (w_uuid x) (w_token x) (w_salt x) (w_lock x) (w_verified x).

(** The same inside a [session_scope]. *)
Definition in_scope b c d x : World L :=
  mkWorld c (if b then Some (0, d) else None) (if b then None else Some d) (w_ext x)
    (w_clock x) (w_uuid x) (w_token x) (w_salt x) (w_lock x) (w_verified x).

Definition ready w : Prop :=
  w_local w = None /\ (w_tx w = None \/ exists d, w_tx w = Some (0, d)).
(** Ready, and outside any transaction: the world between two requests. *)
Definition idle w : Prop := w_local w = None /\ w_tx w = None.

Lemma idle_at w : idle w -> w = at_db false (w_committed w) (w_committed w) w.
Proof. destruct w; intros [??]; simpl in *; by subst. Qed.

Lemma idle_at_db c d x : idle (at_db false c d x).
Proof. done. Qed.

Lemma committed_at_db c d x : w_committed (at_db false c d x) = d.
Proof. done. Qed.

Lemma at_db_false c c' d x : at_db false c d x = at_db false c' d x.
Proof. done. Qed.

Lemma session_scope_at {A} (body : M L A) b c d x :
  session_scope unit_of_work body (at_db b c d x) =
    (let (r, w1) := body (in_scope b (if b then c else d) d x) in
     (r, if b then w1 else set_local None w1)).
Proof. destruct b; simpl; [|done]. unfold session_scope. simpl. by destruct (body _). Qed.

Lemma leave_scope b c d x :
  (if b then in_scope b c d x else set_local None (in_scope b c d x))
  = at_db b c (if b then d else c) x.
Proof. by destruct b. Qed.

(** A transaction from an idle world commits what its body leaves, or nothing. *)
Lemma transaction_at {A} (body : M L A) c d x :
  transaction unit_of_work body (at_db false c d x) =
    match body (at_db true d d x) with
    | (Ok a, w1) => (Ok a, match w_tx w1 with
                           | Some (_, d1) => set_tx None (set_committed d1 w1)
                           | None => set_tx None w1
                           end)
    | (Raise e, w1) => (Raise e, set_tx None w1)
    end.
Proof.
  unfold transaction. simpl. destruct (body _) as [[a|e] w1]; [|done].
  by destruct (w_tx w1) as [[o d1]|].
Qed.

Lemma transaction_nested {A} (body : M L A) c d x :
  transaction unit_of_work body (at_db true c d x) = body (at_db true c d x).
Proof. done. Qed.

Lemma commit_at c d x : set_tx None (set_committed d (at_db true c d x)) = at_db false c d x.
Proof. done. Qed.
Lemma w_tx_at c d x : w_tx (at_db true c d x) = Some (0, d).
Proof. done. Qed.
Lemma rollback_at c d x : set_tx None (at_db true c d x) = at_db false c c x.
Proof. done. Qed.

(** A transaction that returns has committed what its body left. *)
Lemma transaction_ok_inv {A} (body : M L A) c d x a w' :
  transaction unit_of_work body (at_db false c d x) = (Ok a, w') ->
  exists w1, body (at_db true d d x) = (Ok a, w1)
  /\ (forall d1 x1, w1 = at_db true d d1 x1 -> w' = at_db false c d1 x1).
Proof.
  rewrite transaction_at. destruct (body _) as [[r|e] w1]; [|done].
  intros [= <- <-]. exists w1. split; [done|]. by intros d1 x1 ->.
Qed.

(** The limiter, the clock and the random sources. *)
Lemma utcnow_at b c d x :
  utcnow (at_db b c d x) = (Ok (env_now (w_clock x)), at_db b c d (tick_clock x)).
Proof. done. Qed.
Lemma uuid4_at b c d x :
  uuid4 (at_db b c d x) = (Ok (env_uuid (w_uuid x)), at_db b c d (tick_uuid x)).
Proof. done. Qed.
Lemma generate_token_at b c d x :
  generate_token (at_db b c d x) = (Ok (env_token (w_token x)), at_db b c d (tick_token x)).
Proof. done. Qed.
Lemma hash_password_at p b c d x :
  hash_password p (at_db b c d x) = (Ok (env_pw_hash (w_salt x) p), at_db b c d (tick_salt x)).
Proof. done. Qed.
Lemma verify_password_at p h b c d x :
  verify_password p h (at_db b c d x) = (Ok (env_pw_verify p h), at_db b c d (log_verify p h x)).
Proof. done. Qed.
Lemma call_ext_at {A} (f : L -> A * L) b c d x :
  call_ext f (at_db b c d x) =
    (Ok (f (w_ext x)).1, at_db b c d (set_ext (f (w_ext x)).2 x)).
Proof. unfold call_ext. simpl. by destruct (f (w_ext x)). Qed.
End Worlds.

#[global] Arguments at_db : simpl never.
#[global] Arguments in_scope : simpl never.

(** Evaluates the statements of one repository method, by cases on the rows and
    constraints it looks at. *)
Ltac run_cbv :=
  cbv [mbind M_bind mret M_ret exec_select one_or_none read_db write_db get_row refresh persist
       persist_unique_email try_except rollback
       nothing_pending is_transaction_session commit raise lift exec_counting checked update_row
       update_user_row update_session_row update_oidc_state_row update_audit_row
       update_sample_item_row insert_user insert_session insert_identity insert_oidc_state
       insert_audit insert_user_role insert_sample_item flush_audit
       try_advisory_lock utcnow uuid4]; cbn.
Ltac run_known x :=
  match goal with H : x = _ |- _ => rewrite H end.
Ltac run_case :=
  match goal with
  | |- context [match ?x with _ => _ end] =>
      lazymatch x with
      | context [match _ with _ => _ end] => fail
      | context [let (_, _) := _ in _] => fail
      | _ => first [run_known x | rewrite lookup_insert_eq | destruct x eqn:?]
      end
  end; cbn; try done.
Ltac run_scope :=
  rewrite ?session_scope_at; cbv zeta;
  repeat match goal with b : bool |- context [in_scope ?b] => destruct b end;
  unfold at_db, in_scope; run_cbv; try done; repeat run_case.

Section Methods.
Context `{E : Env} {L : Type}.
Implicit Types (x : World L) (b : bool) (c d : DB).

(** The outcome of [one_or_none]. *)
Definition one_result {A} (rows : list A) : result (option A) :=
  match rows with [] => Ok None | [r] => Ok (Some r) | _ => Raise MultipleResultsFound end.

Lemma find_user_by_email_at email b c d x :
  find_user_by_email email (at_db b c d x)
  = (one_result (select (active_email email) (users d)), at_db b c d x).
Proof.
  unfold find_user_by_email. run_scope.
Qed.

Lemma find_user_by_id_at uid b c d x :
  find_user_by_id_for_authentication uid (at_db b c d x)
  = (one_result (select (id_is uid) (users d)), at_db b c d x).
Proof.
  unfold find_user_by_id_for_authentication. run_scope.
Qed.

Lemma find_active_session_at h b c d x :
  find_active_session_by_token_hash h (at_db b c d x)
  = (one_result (select (active_session h (env_now (w_clock x))) (sessions d)),
     at_db b c d (tick_clock x)).
Proof.
  unfold find_active_session_by_token_hash. rewrite bind_run, utcnow_at.
  change (w_clock (tick_clock x)) with (S (w_clock x)). run_scope.
Qed.

Lemma find_session_at h b c d x :
  find_session_by_token_hash h (at_db b c d x)
  = (one_result (select (fun s => (s_session_token_hash s =? h)%string) (sessions d)),
     at_db b c d x).
Proof. unfold find_session_by_token_hash. run_scope. Qed.

Lemma record_user_login_at uid t b c d x :
  record_user_login uid t (at_db b c d x) =
    match users d !! uid with
    | None => (Raise (UserNotFoundError uid), at_db b c d x)
    | Some u =>
        if is_some (u_deleted_at u) then (Raise (UserNotFoundError uid), at_db b c d x)
        else
          let u' := set_last_login (stored t) u in
          if user_row_ok d u' then (Ok u', at_db b c (with_users <[uid := u']> d) x)
          else (Raise IntegrityError, at_db b c d x)
    end.
Proof.
  unfold record_user_login. run_scope.
Qed.

Lemma create_session_at uid th ch t1 t2 t3 ip ua b c d x :
  create_session uid th ch t1 t2 t3 ip ua (at_db b c d x) =
    let sid := env_uuid (w_uuid x) in
    let s := mkSession sid uid th ch t1 t2 t3 None None ip ua in
    match inet_bind ip with
    | Raise e => (Raise e, at_db b c d (tick_uuid x))
    | Ok ip' =>
        if is_none (sessions d !! sid) && session_row_ok d s
        then (Ok (store_session ip' s),
              at_db b c (with_sessions <[sid := store_session ip' s]> d) (tick_uuid x))
        else (Raise IntegrityError, at_db b c d (tick_uuid x))
    end.
Proof. unfold create_session. run_scope. Qed.

Lemma revoke_session_at sid b c d x :
  revoke_session sid (at_db b c d x) =
    match sessions d !! sid with
    | None => (Ok tt, at_db b c d x)
    | Some s =>
        let s' := set_revoked (stored (env_now (w_clock x))) s in
        if session_row_ok d s'
        then (Ok tt, at_db b c (with_sessions <[sid := s']> d) (tick_clock x))
        else (Raise IntegrityError, at_db b c d (tick_clock x))
    end.
Proof. unfold revoke_session. run_scope. Qed.

Lemma update_session_csrf_at sid h b c d x :
  update_session_csrf_token_hash sid h (at_db b c d x) =
    match sessions d !! sid with
    | None => (Raise (AuthSessionNotFoundError sid), at_db b c d x)
    | Some s =>
        let s' := set_csrf_hash h s in
        if session_row_ok d s' then (Ok s', at_db b c (with_sessions <[sid := s']> d) x)
        else (Raise IntegrityError, at_db b c d x)
    end.
Proof. unfold update_session_csrf_token_hash. run_scope. Qed.

Lemma touch_session_at sid t1 t2 b c d x :
  touch_session sid t1 t2 (at_db b c d x) =
    match sessions d !! sid with
    | None => (Raise (AuthSessionNotFoundError sid), at_db b c d x)
    | Some s =>
        let s' := set_last_seen (stored t1) (stored t2) s in
        if session_row_ok d s'
        then (Ok (set_last_seen t1 t2 s), at_db b c (with_sessions <[sid := s']> d) x)
        else (Raise IntegrityError, at_db b c d x)
    end.
Proof. unfold touch_session. run_scope. Qed.

Lemma revoke_sessions_for_user_at uid t b c d x :
  revoke_sessions_for_user uid t (at_db b c d x) =
    let p s := (s_user_id s =? uid) && is_none (s_revoked_at s) in
    (Ok (row_count p (sessions d)),
     at_db b c (with_sessions (update_where p (set_revoked (stored t))) d) x).
Proof. unfold revoke_sessions_for_user. run_scope. Qed.

(** The clock after a flush of an audit row. *)
Definition tick_audit (e : audit_event) x : World L :=
  match ev_occurred_at e with Some _ => x | None => tick_clock x end.
Definition audit_time (e : audit_event) x : Z :=
  match ev_occurred_at e with Some t => t | None => env_now (w_clock x) end.

Lemma create_audit_log_at e b c d x :
  create_audit_log e (at_db b c d x) =
    let aid := env_uuid (w_uuid x) in
    let a := audit_row aid e (audit_time e x) in
    let x' := tick_audit e (tick_uuid x) in
    match inet_bind (ev_ip_address e) with
    | Raise err => (Raise err, at_db b c d x')
    | Ok ip' =>
        if is_none (audit_logs d !! aid) && audit_row_ok d a
        then (Ok tt, at_db b c (with_audit_logs <[aid := store_audit ip' a]> d) x')
        else (Raise IntegrityError, at_db b c d x')
    end.
Proof.
  destruct e as [uid sid ty ip ua dj [t|]]; unfold create_audit_log, tick_audit, audit_time;
    rewrite bind_run, uuid4_at; cbn; run_scope.
Qed.

Lemma create_user_at email h lang b c d x :
  create_user email h lang (at_db b c d x) =
    let uid := env_uuid (w_uuid x) in
    let u := mkUser uid email h true lang (env_now (w_clock x)) (env_now (S (w_clock x)))
               None None in
    let x' := tick_clock (tick_clock (tick_uuid x)) in
    if is_none (users d !! uid) && user_row_ok d u
    then (Ok (store_user u), at_db b c (with_users <[uid := store_user u]> d) x')
    else (Raise EmailAlreadyRegisteredError, at_db b c d x').
Proof. unfold create_user. run_scope. Qed.

Lemma delete_identities_at uid b c d x :
  delete_auth_identities_for_user uid (at_db b c d x) =
    let p i := i_user_id i =? uid in
    (Ok (row_count p (identities d)), at_db b c (with_identities (delete_where p) d) x).
Proof. unfold delete_auth_identities_for_user. run_scope. Qed.

Lemma find_identity_at pid sub b c d x :
  find_identity_by_provider_subject pid sub (at_db b c d x)
  = (one_result (select (fun i => (i_provider_id i =? pid)%string
       && (i_provider_subject i =? sub)%string) (identities d)), at_db b c d x).
Proof. unfold find_identity_by_provider_subject. run_scope. Qed.

Lemma find_link_user_at em b c d x :
  find_user_by_verified_email_for_oidc_link em (at_db b c d x)
  = (one_result (select (fun u => active_email (normalize_email em) u && u_is_active u) (users d)),
     at_db b c d x).
Proof. unfold find_user_by_verified_email_for_oidc_link. run_scope. Qed.

Lemma find_collision_user_at em b c d x :
  find_user_by_email_for_oidc_collision em (at_db b c d x)
  = (one_result (select (active_email (normalize_email em)) (users d)), at_db b c d x).
Proof. unfold find_user_by_email_for_oidc_collision. run_scope. Qed.

Lemma create_identity_at i b c d x :
  create_auth_identity i (at_db b c d x) =
    if is_none (identities d !! i_id i) && identity_row_ok d i
    then (Ok (store_identity i),
          at_db b c (with_identities <[i_id i := store_identity i]> d) x)
    else (Raise IntegrityError, at_db b c d x).
Proof. unfold create_auth_identity. run_scope. Qed.

Lemma record_oidc_reauth_at sid t b c d x :
  record_oidc_reauth sid t (at_db b c d x) =
    match sessions d !! sid with
    | None => (Raise (AuthSessionNotFoundError sid), at_db b c d x)
    | Some s =>
        let s' := set_oidc_authenticated (stored t) s in
        if session_row_ok d s' then (Ok tt, at_db b c (with_sessions <[sid := s']> d) x)
        else (Raise IntegrityError, at_db b c d x)
    end.
Proof. unfold record_oidc_reauth. run_scope. Qed.

Lemma create_state_at o b c d x :
  create_oidc_authorization_state o (at_db b c d x) =
    if is_none (oidc_states d !! o_id o) && oidc_state_row_ok d o
    then (Ok (store_oidc_state o),
          at_db b c (with_oidc_states <[o_id o := store_oidc_state o]> d) x)
    else (Raise IntegrityError, at_db b c d x).
Proof. unfold create_oidc_authorization_state. run_scope. Qed.

Definition oidc_login_db (uid iid sid t : Z) (auth_time : option Z) (u : User) (s : AuthSession) (d : DB) : DB :=
  with_users <[uid := set_last_login (stored t) u]>
    (with_sessions (match auth_time with
                    | Some a => <[sid := set_oidc_authenticated (stored a) s]>
                    | None => fun t => t
                    end)
      (with_identities (update_where (fun i => (i_id i =? iid) && (i_user_id i =? uid))
                          (set_identity_login (stored t))) d)).

Lemma record_oidc_login_inv uid iid sid t auth_time b c d x w' :
  record_oidc_login uid iid sid t auth_time (at_db b c d x) = (Ok tt, w') ->
  exists u s, users d !! uid = Some u /\ u_deleted_at u = None /\ sessions d !! sid = Some s
    /\ w' = at_db b c (oidc_login_db uid iid sid t auth_time u s d) x.
Proof.
  unfold record_oidc_login, oidc_login_db. rewrite session_scope_at.
  destruct b; unfold at_db, in_scope; run_cbv.
  all: destruct (users d !! uid) as [u|] eqn:Eu; cbn; [|done].
  all: destruct (u_deleted_at u) eqn:Ed; cbn; [done|].
  all: destruct (sessions d !! sid) as [s|] eqn:Es; cbn; [|done].
  all: destruct auth_time as [a|]; cbn; repeat run_case.
  all: intros [= <-]; exists u, s; split_and!; done.
Qed.

(** The consumption of the state that the lookup found. *)
Definition consumption (found : option AuthOidcState) (bh : string) (t : Z) (d : DB)
  : AuthOidcStateConsumeResult * DB :=
  match found with
  | None => (ConsumeResult state_mismatch None, d)
  | Some o =>
      if is_some (o_consumed_at o) then (ConsumeResult already_consumed (Some o), d)
      else if o_expires_at o <=? t then (ConsumeResult expired (Some o), d)
      else if negb (o_browser_binding_hash o =? bh)%string
           then (ConsumeResult browser_binding_mismatch (Some o), d)
      else (ConsumeResult consumed (Some (set_consumed (stored t) o)),
            with_oidc_states <[o_id o := set_consumed (stored t) o]> d)
  end.

Lemma consume_state_at sh bh t b c d x found :
  one_result (select (fun o => (o_state_hash o =? sh)%string) (oidc_states d)) = Ok found ->
  (forall o, found = Some o -> oidc_states d !! o_id o = Some o) ->
  (forall o, found = Some o -> oidc_state_row_ok d (set_consumed (stored t) o) = true) ->
  consume_oidc_authorization_state sh bh t (at_db b c d x)
  = (Ok (consumption found bh t d).1, at_db b c (consumption found bh t d).2 x).
Proof.
  intros Hf Hk Hr. unfold consume_oidc_authorization_state, consumption.
  destruct (select _ _) as [|o [|]] eqn:Es; simpl in Hf; simplify_eq.
  - run_scope.
  - specialize (Hk _ eq_refl). specialize (Hr _ eq_refl). run_scope.
Qed.

Lemma find_identities_at uid b c d x :
  find_identities_by_user_id uid (at_db b c d x)
  = (Ok (order_by i_linked_at i_id (select (fun i =>
           (i_user_id i =? uid)
           && match users d !! i_user_id i with
              | Some u => is_none (u_deleted_at u)
              | None => false
              end) (identities d))), at_db b c d x).
Proof. unfold find_identities_by_user_id. run_scope. Qed.

Lemma get_user_role_codes_at uid b c d x :
  get_user_role_codes uid (at_db b c d x)
  = (Ok (sorted (map r_role_code (select (role_of uid) (user_roles d)))), at_db b c d x).
Proof. unfold get_user_role_codes, role_codes_for_user. run_scope. Qed.

Lemma delete_roles_for_user_at uid b c d x :
  delete_roles_for_user uid (at_db b c d x)
  = (Ok (row_count (role_of uid) (user_roles d)),
     at_db b c (with_user_roles (delete_where (role_of uid)) d) x).
Proof. unfold delete_roles_for_user. run_scope. Qed.

Lemma delete_all_for_owner_at uid b c d x :
  delete_all_for_owner uid (at_db b c d x)
  = (Ok tt,
     at_db b c (with_sample_items (delete_where (fun i => it_owner_user_id i =? uid)) d) x).
Proof. unfold delete_all_for_owner. run_scope. Qed.

Definition deletable (uid : Z) (u : User) : bool := id_is uid u && is_none (u_deleted_at u).
Definition mark_deleted (uid t : Z) (d : DB) : DB :=
  with_users (update_where (deletable uid)
                (fun u => set_user_modified (stored t) (set_deleted (stored t) u))) d.

Lemma mark_user_deleted_at uid t sid ip b c d x :
  mark_user_deleted uid t sid ip (at_db b c d x) =
    let d1 := mark_deleted uid t d in
    if row_count (deletable uid) (users d) =? 0 then
      (match users d1 !! uid with
       | None => Raise (UserNotFoundError uid)
       | Some u => Ok u
       end, at_db b c (if b then d1 else d) x)
    else
      let aid := env_uuid (w_uuid x) in
      let a := mkAudit aid (Some uid) sid USER_MARKED_DELETED ip None None t in
      match inet_bind ip with
      | Raise err => (Raise err, at_db b c (if b then d1 else d) (tick_uuid x))
      | Ok ip' =>
          if is_none (audit_logs d !! aid) && audit_row_ok d1 a
          then (match users d1 !! uid with
                | None => Raise (UserNotFoundError uid)
                | Some u => Ok u
                end, at_db b c (with_audit_logs <[aid := store_audit ip' a]> d1) (tick_uuid x))
          else (Raise IntegrityError, at_db b c (if b then d1 else d) (tick_uuid x))
      end.
Proof.
  unfold mark_user_deleted, mark_deleted, deletable. run_scope.
  all: match goal with H : ?a = true, H' : ?b = false |- _ =>
         change b with a in H'; rewrite H in H'; discriminate H' end.
Qed.
End Methods.

#[export] Hint Rewrite @bind_run @ret_run @raise_run @lift_run @utcnow_at @uuid4_at
  @generate_token_at @hash_password_at @verify_password_at @call_ext_at @transaction_at
  @transaction_nested @commit_at @rollback_at @find_user_by_email_at @find_user_by_id_at
  @record_user_login_at @find_active_session_at @find_session_at @create_session_at
  @revoke_session_at @update_session_csrf_at @touch_session_at @revoke_sessions_for_user_at
  @create_audit_log_at @create_user_at @delete_identities_at @find_identities_at
  @get_user_role_codes_at @delete_roles_for_user_at @delete_all_for_owner_at
  @mark_user_deleted_at : runs.

(** Evaluates the calls of a use case whose result is the equation [H], keeping the
    cases the result allows. *)
Ltac run_in H :=
  repeat (autorewrite with runs in H; cbv zeta in H; simpl in H;
          try discriminate H; try (injection H; clear H; intros; subst);
          try case_match; try discriminate; simplify_eq/=).
