(* ===== verification/Integrity.v ===== *)
(** * Integrity of the database

    The invariant that the constraints of the tables keep: every row is stored under
    its own key, foreign keys point at existing rows, and the unique indexes hold.
    Every statement of the repositories preserves it, hence every repository
    method, which is what the hint database [preserve] records for [db_ok]. *)

From S2P Require Import Prelude PyStr Errors Time Tables Effects UnitOfWork Preserve.
From S2P Require Import AuthRepository AuthorizationRepository AdminUserRepository.
From S2P Require Import SampleItemRepository.

(** ** Unique indexes *)

(** A table without two rows in conflict. *)
Section Unique.
Context {A : Type} (key : A -> Z) (c : A -> A -> bool).
Context (c_sym : forall x y, c x y = c y x) (c_irrefl : forall x y, key x = key y -> c x y = false).
Implicit Types (t : gmap Z A).

Definition keyed t : Prop := forall k r, t !! k = Some r -> key r = k.
Definition unique t : Prop :=
  forall k1 r1 k2 r2, t !! k1 = Some r1 -> t !! k2 = Some r2 -> c r1 r2 = false.

Lemma keyed_insert t k r : keyed t -> key r = k -> keyed (<[k := r]> t).
Proof. intros H Hr k' r' [[<- <-]|[_ Hk]]%lookup_insert_Some; [done|by apply H]. Qed.

Lemma unique_insert t k r :
  unique t -> exists_row (c r) t = false -> unique (<[k := r]> t).
Proof.
  intros H Hr k1 r1 k2 r2. rewrite exists_row_false in Hr.
  intros [[<- <-]|[_ H1]]%lookup_insert_Some [[<- <-]|[_ H2]]%lookup_insert_Some.
  - by apply c_irrefl.
  - by eapply Hr.
  - rewrite c_sym. by eapply Hr.
  - by eapply H.
Qed.

Lemma keyed_update_where t p f : (forall r, key (f r) = key r) -> keyed t -> keyed (update_where p f t).
Proof.
  intros Hf H k r. rewrite lookup_update_where. destruct (t !! k) as [r0|] eqn:E; [|done].
  intros [= <-]. destruct (p r0); rewrite ?Hf; by apply H.
Qed.

Lemma unique_update_where t p f :
  (forall x y, c x y = false -> c (f x) y = false) -> unique t -> unique (update_where p f t).
Proof.
  intros Hf H k1 r1 k2 r2. rewrite !lookup_update_where.
  destruct (t !! k1) as [x|] eqn:E1; [|done]. destruct (t !! k2) as [y|] eqn:E2; [|done].
  intros [= <-] [= <-]. specialize (H _ _ _ _ E1 E2).
  destruct (p x), (p y); auto.
  - apply Hf. rewrite c_sym. apply Hf. by rewrite c_sym.
  - rewrite c_sym. apply Hf. by rewrite c_sym.
Qed.

Lemma keyed_delete_where t p : keyed t -> keyed (delete_where p t).
Proof. intros H k r [Hk _]%lookup_delete_where. by apply H. Qed.
Lemma unique_delete_where t p : unique t -> unique (delete_where p t).
Proof. intros H k1 r1 k2 r2 [H1 _]%lookup_delete_where [H2 _]%lookup_delete_where. by eapply H. Qed.
End Unique.

(** ** Foreign keys *)

Lemma references_spec {A} (t : gmap Z A) o :
  references t o = true <-> forall k, o = Some k -> is_Some (t !! k).
Proof.
  unfold references. destruct o as [k|]; [|split; done].
  unfold is_some. destruct (t !! k) eqn:E; simpl; split; try done.
  - intros _ ? [= <-]. by rewrite E.
  - intros H. specialize (H k eq_refl). rewrite E in H. by destruct H.
Qed.

Lemma references_insert {A} (t : gmap Z A) k r o :
  references t o = true -> references (<[k := r]> t) o = true.
Proof.
  rewrite !references_spec. intros H j ->. specialize (H j eq_refl).
  destruct (decide (k = j)) as [->|]; [by rewrite lookup_insert_eq|by rewrite lookup_insert_ne].
Qed.

Lemma references_update_where {A} (t : gmap Z A) p f o :
  references (update_where p f t) o = references t o.
Proof.
  unfold references. destruct o as [k|]; [|done]. rewrite lookup_update_where. by destruct (t !! k).
Qed.

(** ** The invariant *)

Definition email_conflict (u u' : User) : bool := is_none (u_deleted_at u) && same_active_email u u'.
Definition token_conflict (s s' : AuthSession) : bool :=
  negb (s_id s' =? s_id s) && (s_session_token_hash s' =? s_session_token_hash s)%string.
Definition subject_conflict (i i' : AuthIdentity) : bool :=
  negb (i_id i' =? i_id i) && (i_provider_id i' =? i_provider_id i)%string
  && (i_provider_subject i' =? i_provider_subject i)%string.
Definition state_conflict (o o' : AuthOidcState) : bool :=
  negb (o_id o' =? o_id o) && (o_state_hash o' =? o_state_hash o)%string.
Definition role_conflict (r r' : UserRole) : bool :=
  negb (r_id r' =? r_id r) && (r_user_id r' =? r_user_id r)
  && (r_role_code r' =? r_role_code r)%string.

Definition language_ok (c : option string) : bool :=
  match c with None => true | Some c => supported_language c end.

Record db_ok (d : DB) : Prop := DbOk {
  ok_users_keyed : keyed u_id (users d);
  ok_users_unique : unique email_conflict (users d);
  ok_users_language k u : users d !! k = Some u -> supported_language (u_language_code u) = true;
  ok_sessions_keyed : keyed s_id (sessions d);
  ok_sessions_unique : unique token_conflict (sessions d);
  ok_sessions_user k s : sessions d !! k = Some s -> references (users d) (Some (s_user_id s)) = true;
  ok_identities_keyed : keyed i_id (identities d);
  ok_identities_unique : unique subject_conflict (identities d);
  ok_identities_user k i :
    identities d !! k = Some i -> references (users d) (Some (i_user_id i)) = true;
  ok_states_keyed : keyed o_id (oidc_states d);
  ok_states_language k o : oidc_states d !! k = Some o -> language_ok (o_language_code o) = true;
  ok_states_unique : unique state_conflict (oidc_states d);
  ok_audits_keyed : keyed a_id (audit_logs d);
  ok_audits_user k a : audit_logs d !! k = Some a -> references (users d) (a_user_id a) = true;
  ok_audits_session k a :
    audit_logs d !! k = Some a -> references (sessions d) (a_session_id a) = true;
  ok_roles_keyed : keyed r_id (user_roles d);
  ok_roles_unique : unique role_conflict (user_roles d);
  ok_roles_user k r : user_roles d !! k = Some r -> references (users d) (Some (r_user_id r)) = true;
  ok_roles_assigner k r :
    user_roles d !! k = Some r -> references (users d) (r_assigned_by_user_id r) = true;
  ok_items_keyed : keyed it_id (sample_items d);
  ok_items_user k i :
    sample_items d !! k = Some i -> references (users d) (Some (it_owner_user_id i)) = true;
}.

Lemma email_conflict_sym x y : email_conflict x y = email_conflict y x.
Proof.
  unfold email_conflict, same_active_email. rewrite (Z.eqb_sym (u_id y)), (String.eqb_sym (lower (u_email y))).
  destruct (is_none (u_deleted_at x)), (is_none (u_deleted_at y)); simpl;
    rewrite ?andb_false_r; done.
Qed.
Lemma email_conflict_irrefl x y : u_id x = u_id y -> email_conflict x y = false.
Proof. intros H. unfold email_conflict, same_active_email. rewrite H, Z.eqb_refl. by rewrite andb_false_r. Qed.
Lemma token_conflict_sym x y : token_conflict x y = token_conflict y x.
Proof. unfold token_conflict. by rewrite (Z.eqb_sym (s_id y)), String.eqb_sym. Qed.
Lemma token_conflict_irrefl x y : s_id x = s_id y -> token_conflict x y = false.
Proof. intros H. unfold token_conflict. by rewrite H, Z.eqb_refl. Qed.
Lemma subject_conflict_sym x y : subject_conflict x y = subject_conflict y x.
Proof.
  unfold subject_conflict.
  by rewrite (Z.eqb_sym (i_id y)), (String.eqb_sym (i_provider_id y)), (String.eqb_sym (i_provider_subject y)).
Qed.
Lemma subject_conflict_irrefl x y : i_id x = i_id y -> subject_conflict x y = false.
Proof. intros H. unfold subject_conflict. by rewrite H, Z.eqb_refl. Qed.
Lemma state_conflict_sym x y : state_conflict x y = state_conflict y x.
Proof. unfold state_conflict. by rewrite (Z.eqb_sym (o_id y)), String.eqb_sym. Qed.
Lemma state_conflict_irrefl x y : o_id x = o_id y -> state_conflict x y = false.
Proof. intros H. unfold state_conflict. by rewrite H, Z.eqb_refl. Qed.
Lemma role_conflict_sym x y : role_conflict x y = role_conflict y x.
Proof.
  unfold role_conflict.
  by rewrite (Z.eqb_sym (r_id y)), (Z.eqb_sym (r_user_id y)), (String.eqb_sym (r_role_code y)).
Qed.
Lemma role_conflict_irrefl x y : r_id x = r_id y -> role_conflict x y = false.
Proof. intros H. unfold role_conflict. by rewrite H, Z.eqb_refl. Qed.

#[export] Hint Resolve email_conflict_sym email_conflict_irrefl token_conflict_sym
  token_conflict_irrefl subject_conflict_sym subject_conflict_irrefl state_conflict_sym
  state_conflict_irrefl role_conflict_sym role_conflict_irrefl keyed_insert unique_insert
  keyed_update_where unique_update_where keyed_delete_where unique_delete_where
  references_insert : integrity.

Lemma empty_db_ok : db_ok empty_db.
Proof. split; intros ?; intros; simpl in *; by rewrite lookup_empty in *. Qed.

Lemma user_row_ok_spec d u :
  user_row_ok d u = true <->
  supported_language (u_language_code u) = true /\ exists_row (email_conflict u) (users d) = false.
Proof.
  unfold user_row_ok. rewrite andb_true_iff, orb_true_iff, negb_true_iff, !exists_row_false.
  unfold email_conflict, is_some. destruct (is_none (u_deleted_at u)); simpl; naive_solver.
Qed.

(** ** Statements on users *)

Lemma db_ok_users_insert d k u :
  db_ok d -> u_id u = k -> user_row_ok d u = true -> db_ok (with_users <[k := u]> d).
Proof.
  intros [] Hk [Hl Hu]%user_row_ok_spec.
  split; simpl; eauto 3 with integrity.
  intros j r [[_ <-]|[_ Hj]]%lookup_insert_Some; [done|eauto].
Qed.

Lemma db_ok_users_update d p f :
  (forall u, u_id (f u) = u_id u) ->
  (forall u, supported_language (u_language_code u) = true ->
     supported_language (u_language_code (f u)) = true) ->
  (forall x y, email_conflict x y = false -> email_conflict (f x) y = false) ->
  db_ok d -> db_ok (with_users (update_where p f) d).
Proof.
  intros Hid Hlang Hc []. split; simpl; eauto 3 with integrity;
    intros; rewrite ?references_update_where; eauto.
  rewrite lookup_update_where in *. destruct (users d !! k) as [u0|] eqn:Ek; [|done]. simplify_eq/=.
  destruct (p u0); eauto.
Qed.

(** ** Statements on the other tables *)

Lemma session_row_ok_spec d s :
  session_row_ok d s = true <->
  references (users d) (Some (s_user_id s)) = true
  /\ exists_row (token_conflict s) (sessions d) = false.
Proof. unfold session_row_ok. by rewrite andb_true_iff, negb_true_iff. Qed.

Lemma db_ok_sessions_insert d k s :
  db_ok d -> s_id s = k -> session_row_ok d s = true -> db_ok (with_sessions <[k := s]> d).
Proof.
  intros [] Hk [Hl Hu]%session_row_ok_spec.
  split; simpl; eauto 3 with integrity.
  intros j r [[_ <-]|[_ Hj]]%lookup_insert_Some; [done|eauto].
Qed.

Lemma db_ok_sessions_update d p f :
  (forall s, s_id (f s) = s_id s) -> (forall s, s_user_id (f s) = s_user_id s) ->
  (forall s, s_session_token_hash (f s) = s_session_token_hash s) ->
  db_ok d -> db_ok (with_sessions (update_where p f) d).
Proof.
  intros Hid Huid Hth []. split; simpl; eauto 3 with integrity;
    intros; rewrite ?references_update_where; eauto.
  - eapply unique_update_where; eauto with integrity. intros x y.
    unfold token_conflict. by rewrite Hid, Hth.
  - rewrite lookup_update_where in *. destruct (sessions d !! k) as [s0|] eqn:Ek; [|done].
    simplify_eq/=. destruct (p s0); rewrite ?Huid; eauto.
Qed.

Lemma references_delete_where {A} (t : gmap Z A) p k :
  references t (Some k) = true ->
  match t !! k with Some r => p r | None => false end = false ->
  references (delete_where p t) (Some k) = true.
Proof.
  rewrite !references_spec. intros H Hp j [= <-]. destruct (H k eq_refl) as [r Hr].
  rewrite Hr in Hp. exists r. by apply lookup_delete_where.
Qed.

Lemma db_ok_delete_sessions d p : db_ok d -> db_ok (delete_sessions p d).
Proof.
  intros []. unfold delete_sessions. split; simpl; eauto 3 with integrity.
  - intros k s [Hk _]%lookup_delete_where. eauto.
  - intros k a. rewrite lookup_update_where. destruct (audit_logs d !! k) as [a0|] eqn:Ek; [|done].
    intros [= <-]. case_match; simpl; eauto.
  - intros k a. rewrite lookup_update_where. destruct (audit_logs d !! k) as [a0|] eqn:Ek; [|done].
    intros [= <-]. specialize (ok_audits_session0 _ _ Ek).
    destruct (a_session_id a0) as [j|] eqn:Ej; simpl; [|by rewrite Ej].
    destruct (match sessions d !! j with Some s => p s | None => false end) eqn:Hp; [done|].
    rewrite Ej. by apply references_delete_where.
Qed.

Lemma db_ok_identities_insert d k i :
  db_ok d -> i_id i = k -> identity_row_ok d i = true -> db_ok (with_identities <[k := i]> d).
Proof.
  intros [] Hk [Hf Hu]%andb_true_iff. apply negb_true_iff in Hu.
  split; simpl; eauto 3 with integrity.
  intros j r [[_ <-]|[_ Hj]]%lookup_insert_Some; [done|eauto].
Qed.

Lemma db_ok_identities_update d p f :
  (forall i, i_id (f i) = i_id i) -> (forall i, i_user_id (f i) = i_user_id i) ->
  (forall x y, subject_conflict x y = false -> subject_conflict (f x) y = false) ->
  db_ok d -> db_ok (with_identities (update_where p f) d).
Proof.
  intros Hid Huid Hc []. split; simpl; eauto 3 with integrity.
  intros k i. rewrite lookup_update_where. destruct (identities d !! k) as [i0|] eqn:Ek; [|done].
  intros [= <-]. destruct (p i0); rewrite ?Huid; eauto.
Qed.

Lemma db_ok_identities_delete d p : db_ok d -> db_ok (with_identities (delete_where p) d).
Proof.
  intros []. split; simpl; eauto 3 with integrity.
  intros k i [Hk _]%lookup_delete_where. eauto.
Qed.

Lemma db_ok_states_insert d k o :
  db_ok d -> o_id o = k -> oidc_state_row_ok d o = true -> db_ok (with_oidc_states <[k := o]> d).
Proof.
  intros [] Hk [Hf Hu]%andb_true_iff. apply negb_true_iff in Hu.
  split; simpl; eauto 3 with integrity.
  intros j r [[_ <-]|[_ Hj]]%lookup_insert_Some; [done|eauto].
Qed.

Lemma db_ok_states_delete d p : db_ok d -> db_ok (with_oidc_states (delete_where p) d).
Proof.
  intros []. split; simpl; eauto 3 with integrity.
  intros k o [Hk _]%lookup_delete_where. eauto.
Qed.

Lemma db_ok_audits_insert d k a :
  db_ok d -> a_id a = k -> audit_row_ok d a = true -> db_ok (with_audit_logs <[k := a]> d).
Proof.
  intros [] Hk [Hf Hu]%andb_true_iff.
  split; simpl; eauto 3 with integrity;
    intros j r [[_ <-]|[_ Hj]]%lookup_insert_Some; eauto.
Qed.

Lemma db_ok_audits_delete d p : db_ok d -> db_ok (with_audit_logs (delete_where p) d).
Proof.
  intros []. split; simpl; eauto 3 with integrity;
    intros k a [Hk _]%lookup_delete_where; eauto.
Qed.

Lemma db_ok_roles_insert d k r :
  db_ok d -> r_id r = k -> user_role_row_ok d r = true -> db_ok (with_user_roles <[k := r]> d).
Proof.
  intros [] Hk [[Hf Ha]%andb_true_iff Hu]%andb_true_iff. apply negb_true_iff in Hu.
  split; simpl; eauto 3 with integrity;
    intros j r' [[_ <-]|[_ Hj]]%lookup_insert_Some; eauto.
Qed.

Lemma db_ok_roles_delete d p : db_ok d -> db_ok (with_user_roles (delete_where p) d).
Proof.
  intros []. split; simpl; eauto 3 with integrity;
    intros k r [Hk _]%lookup_delete_where; eauto.
Qed.

Lemma db_ok_items_insert d k i :
  db_ok d -> it_id i = k -> sample_item_row_ok d i = true -> db_ok (with_sample_items <[k := i]> d).
Proof.
  intros [] Hk Hf. split; simpl; eauto 3 with integrity.
  intros j r [[_ <-]|[_ Hj]]%lookup_insert_Some; eauto.
Qed.

Lemma db_ok_items_delete d p : db_ok d -> db_ok (with_sample_items (delete_where p) d).
Proof.
  intros []. split; simpl; eauto 3 with integrity.
  intros k i [Hk _]%lookup_delete_where. eauto.
Qed.

Lemma db_ok_items_delete_key d k : db_ok d -> db_ok (with_sample_items (delete k) d).
Proof.
  intros []. split; simpl; eauto 3 with integrity.
  - intros j i [_ Hj]%lookup_delete_Some. eauto.
  - intros j i [_ Hj]%lookup_delete_Some. eauto.
Qed.

#[export] Hint Resolve db_ok_users_insert db_ok_users_update db_ok_sessions_insert
  db_ok_sessions_update db_ok_delete_sessions db_ok_identities_insert db_ok_identities_update
  db_ok_identities_delete db_ok_states_insert db_ok_states_delete db_ok_audits_insert
  db_ok_audits_delete db_ok_roles_insert db_ok_roles_delete db_ok_items_insert
  db_ok_items_delete db_ok_items_delete_key : integrity.
