(* ===== verification/Lookups.v ===== *)
(** * Lookups under the constraints

    In a database that satisfies its constraints a lookup by a unique column finds
    at most one row, and an UPDATE that keeps the constrained columns is accepted:
    the errors of [Runs] that remain are those of new rows. *)

From S2P Require Import Prelude PyStr Errors Time Tables Effects UnitOfWork AuthRepository.
From S2P Require Import AuthorizationRepository SampleItemRepository Runs Integrity.

Section Lookups.
Implicit Types d : DB.

Definition user_by_email d (em : string) : option User := head (select (active_email em) (users d)).
Definition active_session_of d (h : string) (now : Z) : option AuthSession :=
  head (select (active_session h now) (sessions d)).
Definition session_of d (h : string) : option AuthSession :=
  head (select (fun s => (s_session_token_hash s =? h)%string) (sessions d)).

Definition state_of d (h : string) : option AuthOidcState :=
  head (select (fun o => (o_state_hash o =? h)%string) (oidc_states d)).
Definition identity_of d (pid sub : string) : option AuthIdentity :=
  head (select (fun i => (i_provider_id i =? pid)%string
                         && (i_provider_subject i =? sub)%string) (identities d)).

(** At most one row of a keyed table matches when no two can. *)
Lemma one_result_head {A} (p : A -> bool) (t : gmap Z A) :
  (forall k1 r1 k2 r2, t !! k1 = Some r1 -> t !! k2 = Some r2 -> p r1 = true -> p r2 = true -> k1 = k2) ->
  one_result (select p t) = Ok (head (select p t)).
Proof.
  intros H. destruct (select p t) as [|r l] eqn:Es; [done|].
  assert (r ∈ select p t) as Hr by (rewrite Es; constructor).
  apply elem_of_select in Hr as [Hp [k Hk]].
  rewrite (select_unique p t k r) in Es; [by simplify_eq|done..|].
  intros k' r' Hk' Hp'. by eapply H.
Qed.

Lemma head_select {A} (p : A -> bool) t (r : A) :
  head (select p t) = Some r -> p r = true /\ exists k, t !! k = Some r.
Proof.
  intros H. apply elem_of_select. destruct (select p t); simplify_eq/=. constructor.
Qed.

Lemma head_select_None {A} (p : A -> bool) t :
  head (select p t) = None <-> forall k r, t !! k = Some r -> p r = false.
Proof. rewrite <- select_nil. by destruct (select p t). Qed.

Lemma active_email_unique d em k1 u1 k2 u2 :
  db_ok d -> users d !! k1 = Some u1 -> users d !! k2 = Some u2 ->
  active_email em u1 = true -> active_email em u2 = true -> k1 = k2.
Proof.
  intros Hd H1 H2. unfold active_email. intros [E1%String.eqb_eq D1]%andb_true_iff [E2%String.eqb_eq D2]%andb_true_iff.
  pose proof (ok_users_unique _ Hd _ _ _ _ H1 H2) as Hu.
  unfold email_conflict, same_active_email in Hu. rewrite D1, D2, E1, E2, String.eqb_refl in Hu.
  rewrite !andb_true_r in Hu. simpl in Hu. apply negb_false_iff, Z.eqb_eq in Hu.
  rewrite <- (ok_users_keyed _ Hd _ _ H1), <- (ok_users_keyed _ Hd _ _ H2). congruence.
Qed.

Lemma find_user_one d em :
  db_ok d -> one_result (select (active_email em) (users d)) = Ok (user_by_email d em).
Proof. intros Hd. apply one_result_head. intros k1 u1 k2 u2. by eapply active_email_unique. Qed.

Lemma token_unique d h k1 s1 k2 s2 :
  db_ok d -> sessions d !! k1 = Some s1 -> sessions d !! k2 = Some s2 ->
  s_session_token_hash s1 = h -> s_session_token_hash s2 = h -> k1 = k2.
Proof.
  intros Hd H1 H2 E1 E2. pose proof (ok_sessions_unique _ Hd _ _ _ _ H1 H2) as Hu.
  unfold token_conflict in Hu. rewrite E1, E2, String.eqb_refl, andb_true_r in Hu.
  apply negb_false_iff, Z.eqb_eq in Hu.
  rewrite <- (ok_sessions_keyed _ Hd _ _ H1), <- (ok_sessions_keyed _ Hd _ _ H2). congruence.
Qed.

Lemma active_session_spec h now s :
  active_session h now s = true <->
  s_session_token_hash s = h /\ s_revoked_at s = None /\ stored now < s_expires_at s.
Proof.
  unfold active_session. rewrite !andb_true_iff, String.eqb_eq, Z.ltb_lt.
  destruct (s_revoked_at s); simpl; naive_solver.
Qed.

Lemma find_active_one d h now :
  db_ok d -> one_result (select (active_session h now) (sessions d)) = Ok (active_session_of d h now).
Proof.
  intros Hd. apply one_result_head. intros k1 s1 k2 s2 H1 H2.
  rewrite !active_session_spec. intros (E1 & _) (E2 & _). by eapply token_unique.
Qed.

Lemma find_session_one d h :
  db_ok d ->
  one_result (select (fun s => (s_session_token_hash s =? h)%string) (sessions d)) = Ok (session_of d h).
Proof.
  intros Hd. apply one_result_head. intros k1 s1 k2 s2 H1 H2.
  rewrite !String.eqb_eq. intros E1 E2. by eapply token_unique.
Qed.

Lemma active_session_of_Some d h now s :
  db_ok d -> active_session_of d h now = Some s ->
  sessions d !! s_id s = Some s /\ s_session_token_hash s = h /\ s_revoked_at s = None
  /\ stored now < s_expires_at s.
Proof.
  intros Hd [Hp [k Hk]]%head_select. apply active_session_spec in Hp.
  by rewrite (ok_sessions_keyed _ Hd _ _ Hk).
Qed.

Lemma active_session_at_key d h now s k :
  db_ok d -> sessions d !! k = Some s -> active_session h now s = true ->
  active_session_of d h now = Some s.
Proof.
  intros Hd Hk Hs. unfold active_session_of. rewrite (select_unique _ _ _ _ Hk Hs); [done|].
  intros k' s' Hk' Hs'. apply active_session_spec in Hs as [Hs _], Hs' as [Hs' _].
  by eapply token_unique.
Qed.

Lemma user_by_email_Some d em u :
  db_ok d -> user_by_email d em = Some u ->
  users d !! u_id u = Some u /\ lower (u_email u) = em /\ u_deleted_at u = None.
Proof.
  intros Hd [Hp [k Hk]]%head_select. rewrite (ok_users_keyed _ Hd _ _ Hk).
  unfold active_email in Hp. apply andb_true_iff in Hp as [He%String.eqb_eq Hn].
  destruct (u_deleted_at u); naive_solver.
Qed.

Lemma state_unique d h k1 o1 k2 o2 :
  db_ok d -> oidc_states d !! k1 = Some o1 -> oidc_states d !! k2 = Some o2 ->
  o_state_hash o1 = h -> o_state_hash o2 = h -> k1 = k2.
Proof.
  intros Hd H1 H2 E1 E2. pose proof (ok_states_unique _ Hd _ _ _ _ H1 H2) as Hu.
  unfold state_conflict in Hu. rewrite E1, E2, String.eqb_refl, andb_true_r in Hu.
  apply negb_false_iff, Z.eqb_eq in Hu.
  rewrite <- (ok_states_keyed _ Hd _ _ H1), <- (ok_states_keyed _ Hd _ _ H2). congruence.
Qed.

Lemma find_state_one d h :
  db_ok d ->
  one_result (select (fun o => (o_state_hash o =? h)%string) (oidc_states d)) = Ok (state_of d h).
Proof.
  intros Hd. apply one_result_head. intros k1 o1 k2 o2 H1 H2.
  rewrite !String.eqb_eq. intros E1 E2. by eapply state_unique.
Qed.

Lemma state_of_Some d h o :
  db_ok d -> state_of d h = Some o -> oidc_states d !! o_id o = Some o /\ o_state_hash o = h.
Proof.
  intros Hd [Hp [k Hk]]%head_select. apply String.eqb_eq in Hp.
  by rewrite (ok_states_keyed _ Hd _ _ Hk).
Qed.

Lemma find_identity_one d pid sub :
  db_ok d ->
  one_result (select (fun i => (i_provider_id i =? pid)%string
    && (i_provider_subject i =? sub)%string) (identities d)) = Ok (identity_of d pid sub).
Proof.
  intros Hd. apply one_result_head. intros k1 i1 k2 i2 H1 H2.
  rewrite !andb_true_iff, !String.eqb_eq. intros [P1 S1] [P2 S2].
  pose proof (ok_identities_unique _ Hd _ _ _ _ H1 H2) as Hu.
  unfold subject_conflict in Hu. rewrite P1, P2, S1, S2, !String.eqb_refl, !andb_true_r in Hu.
  apply negb_false_iff, Z.eqb_eq in Hu.
  rewrite <- (ok_identities_keyed _ Hd _ _ H1), <- (ok_identities_keyed _ Hd _ _ H2). congruence.
Qed.

Lemma identity_of_Some d pid sub i :
  db_ok d -> identity_of d pid sub = Some i ->
  identities d !! i_id i = Some i /\ i_provider_id i = pid /\ i_provider_subject i = sub.
Proof.
  intros Hd [Hp [k Hk]]%head_select. rewrite (ok_identities_keyed _ Hd _ _ Hk).
  by apply andb_true_iff in Hp as [?%String.eqb_eq ?%String.eqb_eq].
Qed.

(** The link lookup, which also asks for an active user, finds the user of the
    e-mail when that user is active. *)
Lemma find_link_one d em :
  db_ok d ->
  one_result (select (fun u => active_email em u && u_is_active u) (users d))
  = Ok (head (select (fun u => active_email em u && u_is_active u) (users d))).
Proof.
  intros Hd. apply one_result_head. intros k1 u1 k2 u2 H1 H2.
  intros [P1 _]%andb_true_iff [P2 _]%andb_true_iff. by eapply active_email_unique.
Qed.

Lemma select_id d uid :
  db_ok d -> one_result (select (id_is uid) (users d)) = Ok (users d !! uid).
Proof.
  intros Hd. rewrite one_result_head.
  - f_equal. destruct (head _) as [u|] eqn:Eh.
    + apply head_select in Eh as [Hp [k Hk]]. unfold id_is in Hp. apply Z.eqb_eq in Hp as <-.
      by rewrite (ok_users_keyed _ Hd _ _ Hk).
    + destruct (users d !! uid) as [u|] eqn:Eu; [|done].
      rewrite head_select_None in Eh. specialize (Eh _ _ Eu). unfold id_is in Eh.
      apply Z.eqb_neq in Eh. by rewrite (ok_users_keyed _ Hd _ _ Eu) in Eh.
  - intros k1 u1 k2 u2 H1 H2. unfold id_is. rewrite !Z.eqb_eq. intros E1 E2.
    rewrite <- (ok_users_keyed _ Hd _ _ H1), <- (ok_users_keyed _ Hd _ _ H2). congruence.
Qed.

(** Row checks that an existing row keeps passing. *)
Lemma session_row_ok_update d k s s' :
  db_ok d -> sessions d !! k = Some s -> s_id s' = s_id s -> s_user_id s' = s_user_id s ->
  s_session_token_hash s' = s_session_token_hash s -> session_row_ok d s' = true.
Proof.
  intros Hd Hk Ei Eu Et. rewrite session_row_ok_spec, Eu. split; [by eapply ok_sessions_user|].
  apply exists_row_false. intros j r Hj. unfold token_conflict. rewrite Ei, Et.
  apply (ok_sessions_unique _ Hd _ _ _ _ Hk Hj).
Qed.

Lemma state_row_ok_update d k o o' :
  db_ok d -> oidc_states d !! k = Some o -> o_id o' = o_id o -> o_state_hash o' = o_state_hash o ->
  o_language_code o' = o_language_code o -> oidc_state_row_ok d o' = true.
Proof.
  intros Hd Hk Ei Eh El. unfold oidc_state_row_ok. rewrite El.
  apply andb_true_iff. split; [exact (ok_states_language _ Hd _ _ Hk)|].
  apply negb_true_iff, exists_row_false. intros j r Hj. rewrite Ei, Eh.
  exact (ok_states_unique _ Hd _ _ _ _ Hk Hj).
Qed.

Lemma user_row_ok_update d k u u' :
  db_ok d -> users d !! k = Some u -> u_id u' = u_id u -> u_email u' = u_email u ->
  u_deleted_at u' = u_deleted_at u -> u_language_code u' = u_language_code u ->
  user_row_ok d u' = true.
Proof.
  intros Hd Hk Ei Ee Ed El. apply user_row_ok_spec. rewrite El.
  split; [by eapply ok_users_language|]. apply exists_row_false. intros j r Hj.
  unfold email_conflict, same_active_email. rewrite Ei, Ee, Ed.
  apply (ok_users_unique _ Hd _ _ _ _ Hk Hj).
Qed.
End Lookups.

(** ** Repository methods *)

Section Methods.
Context `{E : Env} {L : Type}.
Implicit Types (x : World L) (b : bool) (c d : DB).

Lemma find_user_by_email_ok em b c d x :
  db_ok d -> find_user_by_email em (at_db b c d x) = (Ok (user_by_email d em), at_db b c d x).
Proof. intros Hd. by rewrite find_user_by_email_at, find_user_one. Qed.

Lemma find_user_by_id_ok uid b c d x :
  db_ok d ->
  find_user_by_id_for_authentication uid (at_db b c d x) = (Ok (users d !! uid), at_db b c d x).
Proof. intros Hd. by rewrite find_user_by_id_at, select_id. Qed.

Lemma find_active_session_ok h b c d x :
  db_ok d ->
  find_active_session_by_token_hash h (at_db b c d x)
  = (Ok (active_session_of d h (env_now (w_clock x))), at_db b c d (tick_clock x)).
Proof. intros Hd. by rewrite find_active_session_at, find_active_one. Qed.

Lemma find_session_ok h b c d x :
  db_ok d ->
  find_session_by_token_hash h (at_db b c d x) = (Ok (session_of d h), at_db b c d x).
Proof. intros Hd. by rewrite find_session_at, find_session_one. Qed.

Lemma record_user_login_ok uid u t b c d x :
  db_ok d -> users d !! uid = Some u -> u_deleted_at u = None ->
  let u' := set_last_login (stored t) u in
  record_user_login uid t (at_db b c d x) = (Ok u', at_db b c (with_users <[uid := u']> d) x)
  /\ db_ok (with_users <[uid := u']> d).
Proof.
  intros Hd Hu Hn u'. assert (user_row_ok d u' = true) as Hr by (by eapply user_row_ok_update).
  rewrite record_user_login_at, Hu, Hn. simpl. fold u'. rewrite Hr. split; [done|].
  apply db_ok_users_insert; [done|exact (ok_users_keyed _ Hd _ _ Hu)|done].
Qed.

Lemma revoke_session_ok sid s b c d x :
  db_ok d -> sessions d !! sid = Some s ->
  let s' := set_revoked (stored (env_now (w_clock x))) s in
  revoke_session sid (at_db b c d x)
  = (Ok tt, at_db b c (with_sessions <[sid := s']> d) (tick_clock x))
  /\ db_ok (with_sessions <[sid := s']> d).
Proof.
  intros Hd Hs s'. assert (session_row_ok d s' = true) as Hr by (by eapply session_row_ok_update).
  rewrite revoke_session_at, Hs. cbv zeta. fold s'. rewrite Hr. split; [done|].
  apply db_ok_sessions_insert; [done|exact (ok_sessions_keyed _ Hd _ _ Hs)|done].
Qed.

Lemma update_session_csrf_ok sid s h b c d x :
  db_ok d -> sessions d !! sid = Some s ->
  update_session_csrf_token_hash sid h (at_db b c d x)
  = (Ok (set_csrf_hash h s), at_db b c (with_sessions <[sid := set_csrf_hash h s]> d) x).
Proof.
  intros Hd Hs. assert (session_row_ok d (set_csrf_hash h s) = true) as Hr
    by (by eapply session_row_ok_update).
  rewrite update_session_csrf_at, Hs. cbv zeta. by rewrite Hr.
Qed.

Lemma touch_session_ok sid s t1 t2 b c d x :
  db_ok d -> sessions d !! sid = Some s ->
  let s' := set_last_seen (stored t1) (stored t2) s in
  touch_session sid t1 t2 (at_db b c d x)
  = (Ok (set_last_seen t1 t2 s), at_db b c (with_sessions <[sid := s']> d) x)
  /\ db_ok (with_sessions <[sid := s']> d).
Proof.
  intros Hd Hs s'. assert (session_row_ok d s' = true) as Hr by (by eapply session_row_ok_update).
  rewrite touch_session_at, Hs. cbv zeta. fold s'. rewrite Hr. split; [done|].
  apply db_ok_sessions_insert; [done|exact (ok_sessions_keyed _ Hd _ _ Hs)|done].
Qed.

(** An audit row that was written. *)
Definition audit_written (e : audit_event) (a : AuthAuditLog) : Prop :=
  a_user_id a = ev_user_id e /\ a_session_id a = ev_session_id e
  /\ a_event_type a = ev_event_type e /\ a_user_agent a = ev_user_agent e
  /\ a_detail_json a = ev_detail_json e
  /\ (forall t, ev_occurred_at e = Some t -> a_occurred_at a = stored t)
  /\ inet_bind (ev_ip_address e) = Ok (a_ip_address a).

(** [create_audit_log] adds one row or raises; it touches nothing else. *)
Lemma create_audit_log_inv e b c d x r w' :
  create_audit_log e (at_db b c d x) = (r, w') ->
  exists x', w_ext x' = w_ext x /\ w_token x' = w_token x /\ w_verified x' = w_verified x
  /\ ((r = Ok tt /\ exists a, audit_written e a /\ audit_logs d !! a_id a = None
         /\ w' = at_db b c (with_audit_logs <[a_id a := a]> d) x')
      \/ (exists err, r = Raise err /\ w' = at_db b c d x')).
Proof.
  rewrite create_audit_log_at. cbv zeta. intros H.
  exists (tick_audit e (tick_uuid x)).
  split_and!; try (unfold tick_audit; by destruct (ev_occurred_at e)).
  destruct (inet_bind (ev_ip_address e)) as [ip|err] eqn:Ei; [|simplify_eq; right; eauto].
  destruct (is_none _ && _) eqn:Eo; simplify_eq; [|right; eauto].
  apply andb_true_iff in Eo as [Hn _]. left. split; [done|].
  eexists (store_audit ip (audit_row (env_uuid (w_uuid x)) e (audit_time e x))).
  split_and!; try done.
  - unfold audit_written, audit_time. simpl. split_and!; try done. by intros t ->.
  - simpl. by destruct (audit_logs d !! _).
Qed.

(** Writing audit rows adds audit rows. *)
Lemma audits_inv {A} (l : list A) (ev : A -> audit_event) b c d x w' :
  for_each l (fun a => create_audit_log (ev a)) (at_db b c d x) = (Ok tt, w') ->
  exists logs x', w' = at_db b c (with_audit_logs (fun _ => logs) d) x' /\ w_token x' = w_token x.
Proof.
  revert d x. induction l as [|a l IH]; intros d x; simpl.
  - rewrite ret_run. intros [= <-]. exists (audit_logs d), x. split; [by destruct d|done].
  - intros [(e & _ & ?)|([] & w1 & Hc & Hl)]%bind_inv; [done|].
    apply create_audit_log_inv in Hc as (x1 & _ & Ht & _ & [(_ & a' & _ & _ & ->)|(e & ? & _)]); [|done].
    apply IH in Hl as (logs & x2 & -> & Ht2). exists logs, x2. split; [done|congruence].
Qed.

(** With a free identifier, known references and a bindable address it succeeds. *)
Lemma create_audit_log_live e ip b c d x :
  inet_bind (ev_ip_address e) = Ok ip -> audit_logs d !! env_uuid (w_uuid x) = None ->
  references (users d) (ev_user_id e) = true -> references (sessions d) (ev_session_id e) = true ->
  exists w', create_audit_log e (at_db b c d x) = (Ok tt, w').
Proof.
  intros Hi Hn Hu Hs. rewrite create_audit_log_at. cbv zeta. rewrite Hi, Hn.
  unfold audit_row_ok. simpl.
  rewrite Hu, Hs. simpl. eauto.
Qed.
End Methods.

(** The next audit row is written: leaves the conditions, then the rest. *)
Ltac audit_live ip w2 H :=
  match goal with |- context [create_audit_log ?e (at_db ?b ?c ?d ?x)] =>
    destruct (create_audit_log_live e ip b c d x) as [w2 H]
  end.
