(* ===== verification/RateLimiter.v ===== *)
(** * The in-memory login rate limiter

    Models [InMemoryLoginRateLimiter] of
    src/backend/app/libraries/auth_rate_limiter.py: five scopes of sliding-window
    buckets, each an [OrderedDict] from a key to a deque of clock readings.  An
    [OrderedDict] is an association list in insertion order; clock readings are
    counted in microseconds.  A bucket returned by the code aliases the entry of
    the dict, so a later [append] is an update of that entry ([append_bucket]). *)

From S2P Require Import Prelude PyStr.

(** Seconds to clock units. *)
Definition seconds (n : Z) : Z := n * 1000000.

Module InMemory.

(** ** Data *)

Notation bucket := (list Z).
Notation buckets := (list (string * list Z)).

(** The constructor's arguments. *)
(* src: backend/app/libraries/auth_rate_limiter.py:13-33 InMemoryLoginRateLimiter.__init__ *)
Record config := Config {
  window_seconds : Z;
  registration_window_seconds : Z;
  max_failures_per_email_ip : Z;
  max_failures_per_ip : Z;
  max_failures_per_email : Z;
  max_registrations_per_ip : Z;
  max_oidc_authorizations_per_ip : Z;
  max_buckets_per_scope : Z;
}.

(** The mutable attributes. *)
(* src: backend/app/libraries/auth_rate_limiter.py:34-39 InMemoryLoginRateLimiter *)
Record limiter := Limiter {
  email_ip_buckets : buckets;
  ip_buckets : buckets;
  email_buckets : buckets;
  registration_ip_buckets : buckets;
  oidc_authorization_ip_buckets : buckets;
  cap_warning_scopes : gset string;
}.

(* src: backend/app/libraries/auth_rate_limiter.py:34-39 InMemoryLoginRateLimiter.__init__ *)
Definition new_limiter : limiter := Limiter [] [] [] [] [] ∅.

(** ** [OrderedDict] *)

Fixpoint od_get (k : string) (d : buckets) : option bucket :=
  match d with
  | [] => None
  | (k', b) :: d' => if decide (k' = k) then Some b else od_get k d'
  end.

Definition od_del (k : string) (d : buckets) : buckets :=
  base.filter (fun p => p.1 <> k) d.

(** [d[k] = b]: in place when the key is present, at the end otherwise. *)
Fixpoint od_set (k : string) (b : bucket) (d : buckets) : buckets :=
  match d with
  | [] => [(k, b)]
  | (k', b') :: d' => if decide (k' = k) then (k, b) :: d' else (k', b') :: od_set k b d'
  end.

Definition od_move_to_end (k : string) (d : buckets) : buckets :=
  match od_get k d with
  | Some b => od_del k d ++ [(k, b)]
  | None => d
  end.

Definition od_len (d : buckets) : Z := Z.of_nat (length d).

(** ** Private helpers *)

(* src: backend/app/libraries/auth_rate_limiter.py:206-208 InMemoryLoginRateLimiter._trim *)
Definition trim (b : bucket) (now window : Z) : bucket :=
  drop_while (fun t => seconds window <? now - t) b.

(* src: backend/app/libraries/auth_rate_limiter.py:169-183 InMemoryLoginRateLimiter._get_existing_bucket *)
Definition get_existing_bucket (d : buckets) (key : string) (now window : Z)
  : bucket * buckets :=
  match od_get key d with
  | None => ([], d)
  | Some b =>
      match trim b now window with
      | [] => ([], od_del key d)
      | b' => (b', od_set key b' d)
      end
  end.

(** The [while] loop drops the oldest bucket or stops, so it recurses on the dict. *)
(* src: backend/app/libraries/auth_rate_limiter.py:210-222 InMemoryLoginRateLimiter._evict_expired_buckets *)
Fixpoint evict_expired_buckets (cap : Z) (d : buckets) (now window : Z) : buckets :=
  match d with
  | [] => []
  | (key, b) :: d' =>
      if cap <=? od_len d then
        match trim b now window with
        | [] => evict_expired_buckets cap d' now window
        | b' => (key, b') :: d'
        end
      else d
  end.

(* src: backend/app/libraries/auth_rate_limiter.py:224-230 InMemoryLoginRateLimiter._warn_bucket_cap_reached *)
Definition warn_bucket_cap_reached (scope_name : string) (warned : gset string) : gset string :=
  if decide (scope_name ∈ warned) then warned else {[scope_name]} ∪ warned.

(** [None] when the scope is full and nothing could be evicted. *)
(* src: backend/app/libraries/auth_rate_limiter.py:185-204 InMemoryLoginRateLimiter._get_or_create_bucket *)
Definition get_or_create_bucket (cap : Z) (d : buckets) (key : string) (now window : Z)
    (scope_name : string) (warned : gset string)
  : option bucket * buckets * gset string :=
  let (b, d1) := get_existing_bucket d key now window in
  match b with
  | _ :: _ => (Some b, od_move_to_end key d1, warned)
  | [] =>
      let d2 := if cap <=? od_len d1 then evict_expired_buckets cap d1 now window else d1 in
      if cap <=? od_len d2 then (None, d2, warn_bucket_cap_reached scope_name warned)
      else (Some [], od_set key [] d2, warned)
  end.

(** [if bucket is not None: bucket.append(now)] on the aliased entry. *)
(* src: backend/app/libraries/auth_rate_limiter.py:94-95 InMemoryLoginRateLimiter.record_failure *)
Definition append_bucket (b : option bucket) (key : string) (now : Z) (d : buckets) : buckets :=
  match b with Some b => od_set key (b ++ [now]) d | None => d end.

(** One [get_or_create] and [append], the step every recording method makes. *)
(* src: backend/app/libraries/auth_rate_limiter.py:124-134 InMemoryLoginRateLimiter.record_registration *)
Definition record_in_scope (cap : Z) (d : buckets) (key : string) (now window : Z)
    (scope_name : string) (warned : gset string) : buckets * gset string :=
  let '(b, d', warned') := get_or_create_bucket cap d key now window scope_name warned in
  (append_bucket b key now d', warned').

(* src: backend/app/libraries/auth_rate_limiter.py:232-233 InMemoryLoginRateLimiter._email_ip_key *)
Definition email_ip_key (ip_address normalized_email : string) : string :=
  (ip_address ++ ":" ++ normalized_email)%string.

Definition len (b : bucket) : Z := Z.of_nat (length b).

(** ** Public operations

    Each reads the clock once; [now] is that reading. *)
Section Operations.
Context (cfg : config).
Implicit Types (s : limiter) (now : Z) (ip_address normalized_email : string).

(* src: backend/app/libraries/auth_rate_limiter.py:41-60 InMemoryLoginRateLimiter.is_allowed *)
Definition is_allowed now ip_address normalized_email s : bool * limiter :=
  let (email_ip_bucket, d1) :=
    get_existing_bucket (email_ip_buckets s) (email_ip_key ip_address normalized_email)
      now (window_seconds cfg) in
  let (ip_bucket, d2) :=
    get_existing_bucket (ip_buckets s) ip_address now (window_seconds cfg) in
  let (email_bucket, d3) :=
    get_existing_bucket (email_buckets s) normalized_email now (window_seconds cfg) in
  ((len email_ip_bucket <? max_failures_per_email_ip cfg)
     && (len ip_bucket <? max_failures_per_ip cfg)
     && (len email_bucket <? max_failures_per_email cfg),
   Limiter d1 d2 d3 (registration_ip_buckets s) (oidc_authorization_ip_buckets s)
     (cap_warning_scopes s)).

(* src: backend/app/libraries/auth_rate_limiter.py:62-78 InMemoryLoginRateLimiter.is_account_deletion_reauth_allowed *)
Definition is_account_deletion_reauth_allowed now ip_address normalized_email s
  : bool * limiter :=
  let (email_ip_bucket, d1) :=
    get_existing_bucket (email_ip_buckets s) (email_ip_key ip_address normalized_email)
      now (window_seconds cfg) in
  let (ip_bucket, d2) :=
    get_existing_bucket (ip_buckets s) ip_address now (window_seconds cfg) in
  ((len email_ip_bucket <? max_failures_per_email_ip cfg)
     && (len ip_bucket <? max_failures_per_ip cfg),
   Limiter d1 d2 (email_buckets s) (registration_ip_buckets s)
     (oidc_authorization_ip_buckets s) (cap_warning_scopes s)).

(* src: backend/app/libraries/auth_rate_limiter.py:80-109 InMemoryLoginRateLimiter.record_failure *)
Definition record_failure now ip_address normalized_email (include_email_bucket : bool) s
  : limiter :=
  let cap := max_buckets_per_scope cfg in
  let (d1, w1) :=
    record_in_scope cap (email_ip_buckets s) (email_ip_key ip_address normalized_email) now
      (window_seconds cfg) "email_ip" (cap_warning_scopes s) in
  let (d2, w2) :=
    record_in_scope cap (ip_buckets s) ip_address now (window_seconds cfg) "ip" w1 in
  let (d3, w3) :=
    if include_email_bucket
    then record_in_scope cap (email_buckets s) normalized_email now (window_seconds cfg)
           "email" w2
    else (email_buckets s, w2) in
  Limiter d1 d2 d3 (registration_ip_buckets s) (oidc_authorization_ip_buckets s) w3.

(* src: backend/app/libraries/auth_rate_limiter.py:111-112 InMemoryLoginRateLimiter.record_success *)
Definition record_success ip_address normalized_email s : limiter :=
  Limiter (od_del (email_ip_key ip_address normalized_email) (email_ip_buckets s))
    (ip_buckets s) (email_buckets s) (registration_ip_buckets s)
    (oidc_authorization_ip_buckets s) (cap_warning_scopes s).

(* src: backend/app/libraries/auth_rate_limiter.py:114-122 InMemoryLoginRateLimiter.is_registration_allowed *)
Definition is_registration_allowed now ip_address s : bool * limiter :=
  let (b, d) := get_existing_bucket (registration_ip_buckets s) ip_address now
                  (registration_window_seconds cfg) in
  (len b <? max_registrations_per_ip cfg,
   Limiter (email_ip_buckets s) (ip_buckets s) (email_buckets s) d
     (oidc_authorization_ip_buckets s) (cap_warning_scopes s)).

(* src: backend/app/libraries/auth_rate_limiter.py:124-134 InMemoryLoginRateLimiter.record_registration *)
Definition record_registration now ip_address s : limiter :=
  let (d, w) := record_in_scope (max_buckets_per_scope cfg) (registration_ip_buckets s)
                  ip_address now (registration_window_seconds cfg) "registration_ip"
                  (cap_warning_scopes s) in
  Limiter (email_ip_buckets s) (ip_buckets s) (email_buckets s) d
    (oidc_authorization_ip_buckets s) w.

(* src: backend/app/libraries/auth_rate_limiter.py:136-144 InMemoryLoginRateLimiter.is_oidc_authorization_allowed *)
Definition is_oidc_authorization_allowed now ip_address s : bool * limiter :=
  let (b, d) := get_existing_bucket (oidc_authorization_ip_buckets s) ip_address now
                  (window_seconds cfg) in
  (len b <? max_oidc_authorizations_per_ip cfg,
   Limiter (email_ip_buckets s) (ip_buckets s) (email_buckets s) (registration_ip_buckets s)
     d (cap_warning_scopes s)).

(* src: backend/app/libraries/auth_rate_limiter.py:146-156 InMemoryLoginRateLimiter.record_oidc_authorization *)
Definition record_oidc_authorization now ip_address s : limiter :=
  let (d, w) := record_in_scope (max_buckets_per_scope cfg) (oidc_authorization_ip_buckets s)
                  ip_address now (window_seconds cfg) "oidc_authorization_ip"
                  (cap_warning_scopes s) in
  Limiter (email_ip_buckets s) (ip_buckets s) (email_buckets s) (registration_ip_buckets s)
    d w.

(* src: backend/app/libraries/auth_rate_limiter.py:161-167 InMemoryLoginRateLimiter.reset_for_tests *)
Definition reset_for_tests s : limiter := Limiter [] [] [] [] [] ∅.
End Operations.

End InMemory.
