(* ===== verification/RateLimiterSpec.v ===== *)
(** * The sliding-window contract of the login rate limiter

    An abstract limiter that only remembers which events happened when, and the
    proof that the in-memory implementation of [RateLimiter] refines it: the
    same answers as long as no scope ever overflowed, and never a stricter
    answer in any case.  Also the memory bound of the implementation. *)

From S2P Require Import Prelude PyStr RateLimiter.
Import InMemory.

(** ** [OrderedDict] laws *)

Section OrderedDict.
Implicit Types (d : buckets) (b : bucket) (k : string).

Definition od_keys d : list string := d.*1.
Definition od_bucket d k : bucket := default [] (od_get k d).

Lemma od_bucket_cons j c d k :
  od_bucket ((j, c) :: d) k = if decide (j = k) then c else od_bucket d k.
Proof. unfold od_bucket. simpl. by destruct (decide (j = k)). Qed.

Lemma od_get_app k d1 d2 :
  od_get k (d1 ++ d2) = match od_get k d1 with Some b => Some b | None => od_get k d2 end.
Proof. induction d1 as [|[k' b'] d1 IH]; simpl; [done|]. by case_decide. Qed.

Lemma od_get_set k k' b d :
  od_get k (od_set k' b d) = if decide (k' = k) then Some b else od_get k d.
Proof.
  induction d as [|[j c] d IH]; simpl; [by case_decide|].
  repeat (case_decide; subst; simpl; try done).
Qed.

Lemma od_get_del k k' d :
  od_get k (od_del k' d) = if decide (k' = k) then None else od_get k d.
Proof.
  unfold od_del. induction d as [|[j c] d IH]; [by case_decide|].
  rewrite filter_cons. simpl. repeat (case_decide; subst; simpl; try done).
Qed.

Lemma od_get_None k d : od_get k d = None <-> k ∉ od_keys d.
Proof.
  induction d as [|[j c] d IH]; simpl; [set_solver|].
  rewrite not_elem_of_cons. case_decide; naive_solver.
Qed.

Lemma od_get_move k k' d : od_get k (od_move_to_end k' d) = od_get k d.
Proof.
  unfold od_move_to_end. destruct (od_get k' d) eqn:E; [|done].
  rewrite od_get_app, od_get_del. simpl. case_decide; subst; [done|].
  by destruct (od_get k d).
Qed.

Lemma od_keys_set k b d :
  od_keys (od_set k b d) = if decide (k ∈ od_keys d) then od_keys d else od_keys d ++ [k].
Proof.
  unfold od_keys. induction d as [|[j c] d IH]; [done|]; csimpl.
  destruct (decide (j = k)) as [->|Hne]; csimpl.
  - rewrite decide_True by set_solver. done.
  - rewrite IH. destruct (decide (k ∈ d.*1)), (decide (k ∈ j :: d.*1)); set_solver.
Qed.

Lemma od_keys_del k d : od_keys (od_del k d) = base.filter (fun j => j <> k) (od_keys d).
Proof.
  unfold od_keys, od_del. induction d as [|[j c] d IH]; [done|].
  rewrite filter_cons, fmap_cons, filter_cons; simpl.
  case_decide; csimpl; by rewrite IH.
Qed.

Lemma NoDup_od_set k b d : NoDup (od_keys d) -> NoDup (od_keys (od_set k b d)).
Proof.
  rewrite od_keys_set. case_decide; [done|]. intros Hd.
  apply NoDup_app; split; [done|]. split; [set_solver|apply NoDup_singleton].
Qed.

Lemma NoDup_od_del k d : NoDup (od_keys d) -> NoDup (od_keys (od_del k d)).
Proof. rewrite od_keys_del. apply NoDup_filter. Qed.

Lemma NoDup_od_move k d : NoDup (od_keys d) -> NoDup (od_keys (od_move_to_end k d)).
Proof.
  unfold od_move_to_end. destruct (od_get k d); [|done]. intros H.
  unfold od_keys. rewrite fmap_app. apply NoDup_app; split; [by apply NoDup_od_del|].
  split; [|apply NoDup_singleton].
  change ((od_del k d).*1) with (od_keys (od_del k d)). rewrite od_keys_del.
  intros j Hj. apply list_elem_of_filter in Hj. set_solver.
Qed.

Lemma od_len_keys d : od_len d = Z.of_nat (length (od_keys d)).
Proof. unfold od_len, od_keys. by rewrite length_fmap. Qed.

Lemma od_len_set_present k b d : od_get k d <> None -> od_len (od_set k b d) = od_len d.
Proof.
  intros H. rewrite !od_len_keys, od_keys_set, decide_True; [done|].
  destruct (decide (k ∈ od_keys d)) as [|Hn]; [done|]. by apply od_get_None in Hn.
Qed.

Lemma od_len_set_le k b d : od_len (od_set k b d) <= od_len d + 1.
Proof. rewrite !od_len_keys, od_keys_set. case_decide; [lia|]. rewrite length_app. simpl. lia. Qed.

Lemma od_len_del_le k d : od_len (od_del k d) <= od_len d.
Proof.
  rewrite !od_len_keys, od_keys_del.
  pose proof (length_filter (fun j => j <> k) (od_keys d)). lia.
Qed.

Lemma od_len_del_present k d : od_get k d <> None -> od_len (od_del k d) + 1 <= od_len d.
Proof.
  unfold od_len. induction d as [|[j c] d IH]; simpl; [done|].
  unfold od_del in *. rewrite filter_cons. cbn [fst].
  destruct (decide (j = k)) as [->|E]; intros Hg.
  - rewrite decide_False by tauto.
    pose proof (length_filter (fun p : string * bucket => p.1 <> k) d). lia.
  - rewrite decide_True by done. specialize (IH Hg). simpl. lia.
Qed.

Lemma od_len_move k d : od_len (od_move_to_end k d) <= od_len d.
Proof.
  unfold od_move_to_end. destruct (od_get k d) eqn:E; [|lia].
  pose proof (od_len_del_present k d ltac:(congruence)) as H.
  unfold od_len in *. rewrite length_app. simpl. lia.
Qed.
End OrderedDict.
#[export] Hint Resolve NoDup_od_set NoDup_od_del NoDup_od_move : backend.

(** ** Trimming *)

Section Trim.
Implicit Types (b : bucket) (now w t : Z).

Definition recent now w t : Prop := now - t <= seconds w.
#[export] Instance recent_dec now w t : Decision (recent now w t).
Proof. unfold recent. apply _. Defined.

Lemma filter_recent_trim b now w :
  base.filter (recent now w) (trim b now w) = base.filter (recent now w) b.
Proof.
  unfold trim. induction b as [|t b IH]; [done|]. simpl.
  destruct (Z.ltb_spec (seconds w) (now - t)) as [H|H]; [|done].
  rewrite IH, filter_cons, decide_False; [done|]. unfold recent. lia.
Qed.

(** On a bucket in time order, trimming keeps exactly the recent readings. *)
Lemma trim_sorted b now w :
  StronglySorted Z.le b -> trim b now w = base.filter (recent now w) b.
Proof.
  induction 1 as [|t b Hs IH Hall]; [done|]. unfold trim in *. simpl. rewrite filter_cons.
  destruct (Z.ltb_spec (seconds w) (now - t)) as [Hlt|Hge].
  - rewrite decide_False; [done|]. unfold recent; lia.
  - rewrite decide_True by (unfold recent; lia). f_equal. rewrite <- IH.
    symmetry. apply drop_while_none. eapply Forall_impl; [exact Hall|].
    intros u Hu. simpl. apply Z.ltb_ge. lia.
Qed.

Lemma Forall_filter_keep (P Q : Z -> Prop) `{forall x, Decision (P x)} b :
  Forall Q b -> Forall Q (base.filter P b).
Proof.
  rewrite !Forall_forall. intros HQ x Hx. apply list_elem_of_filter in Hx. apply HQ. tauto.
Qed.

Lemma StronglySorted_filter (P : Z -> Prop) `{forall x, Decision (P x)} b :
  StronglySorted Z.le b -> StronglySorted Z.le (base.filter P b).
Proof.
  induction 1 as [|t b Hs IH Hall]; [constructor|]. rewrite filter_cons.
  case_decide; [|done]. constructor; [done|].
  by apply Forall_filter_keep.
Qed.

Lemma StronglySorted_snoc b t :
  StronglySorted Z.le b -> Forall (fun u => u <= t) b -> StronglySorted Z.le (b ++ [t]).
Proof.
  induction 1 as [|u b Hs IH Hall]; simpl; intros Ht.
  - repeat constructor.
  - apply Forall_cons in Ht as [Hu Ht]. constructor; [by apply IH|].
    apply Forall_app; split; [done|]. by constructor.
Qed.

(** What is recent later was recent before. *)
Lemma filter_recent_mono now now' w b :
  now <= now' ->
  base.filter (recent now' w) (base.filter (recent now w) b) = base.filter (recent now' w) b.
Proof.
  intros H. rewrite list_filter_filter. apply list_filter_iff.
  intros t. unfold recent. lia.
Qed.
End Trim.

(** ** One scope against its history

    The contract of a scope is the list of its events.  [rel] compares what the
    bucket and the history know about the current window: equality for the exact
    refinement, [sublist] for the claim that losing events never blocks more. *)

Notation history := (list (string * Z)).

Definition event_times (k : string) (h : history) : list Z :=
  (base.filter (fun e => e.1 = k) h).*2.

(** How many events of a key lie in the window that ends now. *)
Definition window_count (h : history) (k : string) (now w : Z) : Z :=
  Z.of_nat (length (base.filter (recent now w) (event_times k h))).

Class Approx (rel : relation (list Z)) : Prop := {
  approx_nil : rel [] [];
  approx_length l m : rel l m -> (length l <= length m)%nat;
  approx_filter (P : Z -> Prop) `{forall x, Decision (P x)} l m :
    rel l m -> rel (base.filter P l) (base.filter P m);
  approx_snoc l m x : rel l m -> rel (l ++ [x]) (m ++ [x]);
}.

#[export] Instance approx_eq : Approx eq.
Proof. split; intros; subst; done. Qed.

#[export] Instance approx_sublist : Approx sublist.
Proof.
  split; intros.
  - constructor.
  - by apply sublist_length.
  - match goal with H : sublist _ _ |- _ => induction H end.
    + constructor.
    + rewrite !filter_cons. case_decide; [by constructor|done].
    + rewrite filter_cons. case_decide; [by constructor|done].
  - by apply sublist_app.
Qed.

Lemma event_times_snoc k h k' t :
  event_times k (h ++ [(k', t)]) = event_times k h ++ (if decide (k' = k) then [t] else []).
Proof.
  unfold event_times. rewrite filter_app, fmap_app. f_equal.
  rewrite filter_cons. simpl. by case_decide.
Qed.

Lemma event_times_del k key h :
  event_times k (base.filter (fun e => e.1 <> key) h) =
  if decide (key = k) then [] else event_times k h.
Proof.
  unfold event_times. rewrite list_filter_filter. destruct (decide (key = k)) as [<-|Hne].
  - induction h as [|e h IH]; [done|]. rewrite filter_cons, decide_False; [done|tauto].
  - f_equal. apply list_filter_iff. naive_solver congruence.
Qed.

Section Scope.
Context (rel : relation (list Z)) `{!Approx rel}.
Implicit Types (d : buckets) (h : history) (now w : Z).

Record scope_sim now w h d : Prop := {
  sim_keys : NoDup (od_keys d);
  sim_sorted k : StronglySorted Z.le (od_bucket d k);
  sim_past k : Forall (fun t => t <= now) (od_bucket d k);
  sim_window k : rel (base.filter (recent now w) (od_bucket d k))
                     (base.filter (recent now w) (event_times k h));
}.

Lemma scope_sim_nil now w : scope_sim now w [] [].
Proof. split; intros; simpl; try constructor. apply approx_nil. Qed.

Lemma scope_sim_later now now' w h d :
  now <= now' -> scope_sim now w h d -> scope_sim now' w h d.
Proof.
  intros Hle [Hk Hs Hp Hw]. split; [done|done|..].
  - intros k. eapply Forall_impl; [apply Hp|]. simpl. lia.
  - intros k. rewrite <- (filter_recent_mono now now'), <- (filter_recent_mono now now' w (event_times k h)) by done.
    by apply approx_filter.
Qed.

(** Replacing buckets by trimmed buckets keeps the simulation. *)
Lemma scope_sim_trim now w h d d' :
  scope_sim now w h d -> NoDup (od_keys d') ->
  (forall k, od_bucket d' k = od_bucket d k \/ od_bucket d' k = trim (od_bucket d k) now w) ->
  scope_sim now w h d'.
Proof.
  intros [Hk Hs Hp Hw] Hk' Hd. split; [done|..]; intros k.
  - destruct (Hd k) as [->| ->]; [done|]. rewrite trim_sorted by done.
    by apply StronglySorted_filter.
  - destruct (Hd k) as [->| ->]; [done|]. rewrite trim_sorted by done. by apply Forall_filter_keep.
  - destruct (Hd k) as [->| ->]; [done|]. by rewrite filter_recent_trim.
Qed.

Lemma get_existing_bucket_spec d key now w b d' :
  get_existing_bucket d key now w = (b, d') ->
  b = trim (od_bucket d key) now w /\
  (forall k, od_get k d' = if decide (key = k) then (if decide (b = []) then None else Some b)
                           else od_get k d) /\
  (NoDup (od_keys d) -> NoDup (od_keys d')) /\ od_len d' <= od_len d.
Proof.
  unfold get_existing_bucket, od_bucket. destruct (od_get key d) as [b0|] eqn:E; simpl.
  - destruct (trim b0 now w) as [|t b1] eqn:Et; intros [= <- <-];
      (split; [done|split; [|split; [auto with backend|]]]).
    + intros k. by rewrite od_get_del.
    + apply od_len_del_le.
    + intros k. by rewrite od_get_set.
    + rewrite od_len_set_present; [lia|congruence].
  - intros [= <- <-]. split; [done|]. split; [|split; [done|lia]].
    intros k. case_decide; [by subst|done].
Qed.

Lemma get_existing_bucket_sim now w h d key b d' :
  scope_sim now w h d -> get_existing_bucket d key now w = (b, d') ->
  scope_sim now w h d' /\ rel b (base.filter (recent now w) (event_times key h)).
Proof.
  intros Hsim Hg. destruct (get_existing_bucket_spec _ _ _ _ _ _ Hg) as (-> & Hd & Hk & _).
  split.
  - eapply scope_sim_trim; [done|apply Hk, Hsim|]. intros k. unfold od_bucket at 1 3.
    rewrite Hd. destruct (decide (key = k)) as [<-|]; [right|by left].
    by destruct (decide (trim (od_bucket d key) now w = [])) as [->|].
  - rewrite trim_sorted by apply Hsim. apply Hsim.
Qed.

Lemma evict_spec cap d now w :
  NoDup (od_keys d) ->
  NoDup (od_keys (evict_expired_buckets cap d now w)) /\
  od_len (evict_expired_buckets cap d now w) <= od_len d /\
  forall k, od_bucket (evict_expired_buckets cap d now w) k = od_bucket d k \/
            od_bucket (evict_expired_buckets cap d now w) k = trim (od_bucket d k) now w.
Proof.
  induction d as [|[key b] d IH]; intros Hnd; simpl; [split_and!; [done|lia|by left]|].
  destruct (cap <=? od_len _); [|split_and!; [done|lia|by left]].
  apply NoDup_cons in Hnd as [Hin Hnd].
  destruct (trim b now w) as [|t b'] eqn:Et.
  - destruct (IH Hnd) as (H1 & H2 & H3). split_and!; [done| |].
    { revert H2. unfold od_len. simpl. lia. }
    intros k. rewrite od_bucket_cons. destruct (decide (key = k)) as [->|]; [|apply H3].
    right. rewrite Et. apply od_get_None in Hin. simpl in Hin.
    destruct (H3 k) as [-> | ->]; unfold od_bucket; by rewrite Hin.
  - split_and!; [by constructor|unfold od_len; simpl; lia|].
    intros k. rewrite !od_bucket_cons. destruct (decide (key = k)); [right|by left].
    by rewrite Et.
Qed.

Lemma evict_sim cap now w h d :
  scope_sim now w h d -> scope_sim now w h (evict_expired_buckets cap d now w).
Proof.
  intros Hs. destruct (evict_spec cap d now w (sim_keys _ _ _ _ Hs)) as (? & _ & ?).
  by eapply scope_sim_trim.
Qed.

(** Appending an event that the history also gets. *)
Lemma append_sim now w h d key d' :
  scope_sim now w h d -> NoDup (od_keys d') ->
  (forall k, od_bucket d' k = if decide (key = k) then od_bucket d key ++ [now]
                              else od_bucket d k) ->
  scope_sim now w (h ++ [(key, now)]) d'.
Proof.
  intros [Hk Hs Hp Hw] Hk' Hset.
  split; [done|..]; intros k; rewrite Hset, ?event_times_snoc;
    destruct (decide (key = k)) as [<-|]; rewrite ?app_nil_r; try done.
  - by apply StronglySorted_snoc.
  - apply Forall_app; split; [done|]. by constructor.
  - rewrite !filter_app, !(filter_cons _ now). destruct (decide (recent now w now)).
    + by apply approx_snoc.
    + by rewrite !app_nil_r.
Qed.

(** A scope may lose an event only when losing events is tolerated. *)
Definition lossy : Prop := forall l m x, rel l m -> rel l (m ++ [x]).

Lemma drop_sim now w h d e :
  lossy -> scope_sim now w h d -> scope_sim now w (h ++ [e]) d.
Proof.
  intros Hl [Hk Hs Hp Hw]. split; [done..|]. intros k. destruct e as [k' t].
  rewrite event_times_snoc, filter_app.
  destruct (decide (k' = k)); simpl; [rewrite filter_cons; case_decide|]; rewrite ?app_nil_r; auto.
Qed.

Lemma od_bucket_create d key k :
  od_bucket (od_set key [] d) k = if decide (key = k) then [] else od_bucket d k.
Proof. unfold od_bucket. rewrite od_get_set. by destruct (decide (key = k)). Qed.

(** Recording one event in a scope. *)
Lemma record_in_scope_sim cap now w h d key name warned d' warned' :
  record_in_scope cap d key now w name warned = (d', warned') ->
  lossy \/ name ∉ warned' ->
  scope_sim now w h d -> scope_sim now w (h ++ [(key, now)]) d'.
Proof.
  unfold record_in_scope, get_or_create_bucket.
  destruct (get_existing_bucket d key now w) as [b d1] eqn:Hg. intros Hr Hloss Hsim.
  destruct (get_existing_bucket_sim _ _ _ _ _ _ _ Hsim Hg) as [Hsim1 Hb].
  destruct (get_existing_bucket_spec _ _ _ _ _ _ Hg) as (Eb & Hd1 & _).
  assert (Hkey : od_bucket d1 key = b).
  { unfold od_bucket. rewrite Hd1, decide_True by done. by destruct (decide (b = [])). }
  destruct b as [|t b].
  - set (d2 := if cap <=? od_len d1 then _ else _) in Hr.
    assert (Hsim2 : scope_sim now w h d2) by (unfold d2; destruct (cap <=? od_len d1); [by apply evict_sim|done]).
    assert (Hkey2 : od_bucket d2 key = []).
    { unfold d2. destruct (cap <=? od_len d1); [|done].
      destruct (evict_spec cap d1 now w (sim_keys _ _ _ _ Hsim1)) as (_ & _ & Hev).
      destruct (Hev key) as [-> | ->]; by rewrite Hkey. }
    destruct (cap <=? od_len d2); injection Hr as <- <-.
    + apply drop_sim; [|done]. destruct Hloss as [|Hn]; [done|]. destruct Hn.
      unfold warn_bucket_cap_reached.
      destruct (decide (name ∈ warned)); [done|]. apply elem_of_union. left.
      by apply elem_of_singleton.
    + apply (append_sim _ _ _ d2); [done|apply NoDup_od_set, NoDup_od_set, Hsim2|].
      intros k. unfold od_bucket at 1. simpl. rewrite !od_get_set, Hkey2.
      by destruct (decide (key = k)).
  - injection Hr as <- <-.
    apply (append_sim _ _ _ d1); [done|apply NoDup_od_set, NoDup_od_move, Hsim1|].
    intros k. unfold od_bucket at 1. simpl. rewrite od_get_set, od_get_move, Hkey.
    by destruct (decide (key = k)).
Qed.

Lemma del_sim now w h d key :
  scope_sim now w h d -> scope_sim now w (base.filter (fun e => e.1 <> key) h) (od_del key d).
Proof.
  intros [Hk Hs Hp Hw].
  assert (Hb : forall k, od_bucket (od_del key d) k = if decide (key = k) then [] else od_bucket d k).
  { intros k. unfold od_bucket. rewrite od_get_del. by destruct (decide (key = k)). }
  split; [by apply NoDup_od_del|..]; intros k; rewrite Hb, ?event_times_del;
    destruct (decide (key = k)); try done; try constructor.
  apply approx_nil.
Qed.

(** Asking about one key: the answer compares with the history's count. *)
Lemma get_existing_count now w h d key b d' :
  scope_sim now w h d -> get_existing_bucket d key now w = (b, d') ->
  len b <= window_count h key now w.
Proof.
  intros Hs Hg. destruct (get_existing_bucket_sim _ _ _ _ _ _ _ Hs Hg) as [_ Hr].
  apply approx_length in Hr. unfold len, window_count. lia.
Qed.
End Scope.

(** ** The abstract limiter *)

Module SlidingWindow.
Record log := Log {
  email_ip_log : history; ip_log : history; email_log : history;
  registration_log : history; oidc_log : history;
}.
Definition empty : log := Log [] [] [] [] [].

Section Contract.
Context (cfg : config).
Implicit Types (l : log) (now : Z).

Definition under (h : history) (k : string) (now w limit : Z) : bool :=
  window_count h k now w <? limit.

Definition allowed now ip em l : bool :=
  under (email_ip_log l) (email_ip_key ip em) now (window_seconds cfg)
    (max_failures_per_email_ip cfg)
  && under (ip_log l) ip now (window_seconds cfg) (max_failures_per_ip cfg)
  && under (email_log l) em now (window_seconds cfg) (max_failures_per_email cfg).

Definition reauth_allowed now ip em l : bool :=
  under (email_ip_log l) (email_ip_key ip em) now (window_seconds cfg)
    (max_failures_per_email_ip cfg)
  && under (ip_log l) ip now (window_seconds cfg) (max_failures_per_ip cfg).

Definition failed now ip em (include_email : bool) l : log :=
  Log (email_ip_log l ++ [(email_ip_key ip em, now)]) (ip_log l ++ [(ip, now)])
    (if include_email then email_log l ++ [(em, now)] else email_log l)
    (registration_log l) (oidc_log l).

Definition succeeded ip em l : log :=
  Log (base.filter (fun e => e.1 <> email_ip_key ip em) (email_ip_log l)) (ip_log l)
    (email_log l) (registration_log l) (oidc_log l).
End Contract.
End SlidingWindow.

(** ** Runs of both limiters over one trace of timed calls *)

Inductive call :=
| IsAllowed (ip em : string)
| IsReauthAllowed (ip em : string)
| RecordFailure (ip em : string) (include_email : bool)
| RecordSuccess (ip em : string)
| IsRegistrationAllowed (ip : string)
| RecordRegistration (ip : string)
| IsOidcAllowed (ip : string)
| RecordOidc (ip : string).

Section Runs.
Context (cfg : config).

Definition answer {S} (p : bool * S) : option bool * S := (Some p.1, p.2).

Definition impl_step (now : Z) (c : call) (s : limiter) : option bool * limiter :=
  match c with
  | IsAllowed ip em => answer (is_allowed cfg now ip em s)
  | IsReauthAllowed ip em => answer (is_account_deletion_reauth_allowed cfg now ip em s)
  | RecordFailure ip em i => (None, record_failure cfg now ip em i s)
  | RecordSuccess ip em => (None, record_success ip em s)
  | IsRegistrationAllowed ip => answer (is_registration_allowed cfg now ip s)
  | RecordRegistration ip => (None, record_registration cfg now ip s)
  | IsOidcAllowed ip => answer (is_oidc_authorization_allowed cfg now ip s)
  | RecordOidc ip => (None, record_oidc_authorization cfg now ip s)
  end.

Definition spec_step (now : Z) (c : call) (l : SlidingWindow.log)
  : option bool * SlidingWindow.log :=
  match c with
  | IsAllowed ip em => (Some (SlidingWindow.allowed cfg now ip em l), l)
  | IsReauthAllowed ip em => (Some (SlidingWindow.reauth_allowed cfg now ip em l), l)
  | RecordFailure ip em i => (None, SlidingWindow.failed now ip em i l)
  | RecordSuccess ip em => (None, SlidingWindow.succeeded ip em l)
  | IsRegistrationAllowed ip =>
      (Some (SlidingWindow.under (SlidingWindow.registration_log l) ip now
               (registration_window_seconds cfg) (max_registrations_per_ip cfg)), l)
  | RecordRegistration ip =>
      (None, SlidingWindow.Log (SlidingWindow.email_ip_log l) (SlidingWindow.ip_log l)
               (SlidingWindow.email_log l) (SlidingWindow.registration_log l ++ [(ip, now)])
               (SlidingWindow.oidc_log l))
  | IsOidcAllowed ip =>
      (Some (SlidingWindow.under (SlidingWindow.oidc_log l) ip now
               (window_seconds cfg) (max_oidc_authorizations_per_ip cfg)), l)
  | RecordOidc ip =>
      (None, SlidingWindow.Log (SlidingWindow.email_ip_log l) (SlidingWindow.ip_log l)
               (SlidingWindow.email_log l) (SlidingWindow.registration_log l)
               (SlidingWindow.oidc_log l ++ [(ip, now)]))
  end.

Fixpoint run {S} (step : Z -> call -> S -> option bool * S) (tr : list (Z * call)) (s : S)
  : list (option bool) * S :=
  match tr with
  | [] => ([], s)
  | (now, c) :: tr' =>
      let (a, s1) := step now c s in
      let (rest, s2) := run step tr' s1 in (a :: rest, s2)
  end.

(** The readings of [time.monotonic] never go back. *)
Fixpoint monotonic (t : Z) (tr : list (Z * call)) : Prop :=
  match tr with [] => True | (now, _) :: tr' => t <= now /\ monotonic now tr' end.

(** ** The simulation *)
Section Simulation.
Context (rel : relation (list Z)) `{!Approx rel}.

Record limiter_sim (now : Z) (l : SlidingWindow.log) (s : limiter) : Prop := {
  ls_email_ip : scope_sim rel now (window_seconds cfg) (SlidingWindow.email_ip_log l) (email_ip_buckets s);
  ls_ip : scope_sim rel now (window_seconds cfg) (SlidingWindow.ip_log l) (ip_buckets s);
  ls_email : scope_sim rel now (window_seconds cfg) (SlidingWindow.email_log l) (email_buckets s);
  ls_registration : scope_sim rel now (registration_window_seconds cfg)
                      (SlidingWindow.registration_log l) (registration_ip_buckets s);
  ls_oidc : scope_sim rel now (window_seconds cfg) (SlidingWindow.oidc_log l)
              (oidc_authorization_ip_buckets s);
}.

Lemma limiter_sim_later now now' l s :
  now <= now' -> limiter_sim now l s -> limiter_sim now' l s.
Proof. intros H []. by split; eapply scope_sim_later. Qed.

Lemma limiter_sim_empty now : limiter_sim now SlidingWindow.empty new_limiter.
Proof. split; by apply scope_sim_nil. Qed.

Lemma record_in_scope_warned cap d key now w name warned :
  warned ⊆ (record_in_scope cap d key now w name warned).2.
Proof.
  unfold record_in_scope, get_or_create_bucket, warn_bucket_cap_reached.
  destruct (get_existing_bucket d key now w) as [[|t b] d1]; simpl; [|done].
  set (d2 := if cap <=? od_len d1 then _ else _).
  destruct (cap <=? od_len d2); simpl; [|done].
  destruct (decide (name ∈ warned)); [done|apply union_subseteq_r].
Qed.

Lemma impl_step_warned now c s :
  cap_warning_scopes s ⊆ cap_warning_scopes (impl_step now c s).2.
Proof.
  destruct c; simpl; unfold is_allowed, is_account_deletion_reauth_allowed,
    is_registration_allowed, is_oidc_authorization_allowed, record_failure,
    record_registration, record_oidc_authorization;
    repeat match goal with
    | |- context [get_existing_bucket ?a ?b ?c ?d] =>
        destruct (get_existing_bucket a b c d); simpl
    | |- context [record_in_scope ?a ?b ?c ?d ?e ?f ?g] =>
        pose proof (record_in_scope_warned a b c d e f g);
        destruct (record_in_scope a b c d e f g); simpl in *
    | |- context [if ?b then _ else _] => destruct b; simpl in *
    end; set_solver.
Qed.

(** Events are lost only where the code warns about it. *)
Definition no_loss (s : limiter) : Prop := lossy rel \/ cap_warning_scopes s = ∅.

Ltac scope_step :=
  match goal with
  | H : get_existing_bucket _ _ _ _ = _ |- _ =>
      eapply get_existing_bucket_sim in H; [destruct H as [? ?]|done..]
  end.

Lemma record_step cap now w h d key name warned d' warned' s' :
  record_in_scope cap d key now w name warned = (d', warned') ->
  no_loss s' -> warned' ⊆ cap_warning_scopes s' ->
  scope_sim rel now w h d -> scope_sim rel now w (h ++ [(key, now)]) d'.
Proof.
  intros Hr Hn Hsub. eapply record_in_scope_sim; [done..|].
  destruct Hn as [|Hn]; [by left|right]. rewrite Hn in Hsub. set_solver.
Qed.

Lemma impl_step_sim now c l s :
  no_loss (impl_step now c s).2 ->
  limiter_sim now l s ->
  limiter_sim now (spec_step now c l).2 (impl_step now c s).2.
Proof.
  intros Hn [H1 H2 H3 H4 H5]. revert Hn.
  destruct c; simpl; unfold is_allowed, is_account_deletion_reauth_allowed,
    is_registration_allowed, is_oidc_authorization_allowed, record_failure,
    record_registration, record_oidc_authorization.
  - destruct (get_existing_bucket (email_ip_buckets s) _ _ _) eqn:E1,
      (get_existing_bucket (ip_buckets s) _ _ _) eqn:E2,
      (get_existing_bucket (email_buckets s) _ _ _) eqn:E3. intros _.
    split; simpl; [by eapply get_existing_bucket_sim..| |]; done.
  - destruct (get_existing_bucket (email_ip_buckets s) _ _ _) eqn:E1,
      (get_existing_bucket (ip_buckets s) _ _ _) eqn:E2. intros _.
    split; simpl; [by eapply get_existing_bucket_sim..| | |]; done.
  - destruct (record_in_scope _ (email_ip_buckets s) _ _ _ _ _) as [d1 w1] eqn:E1.
    pose proof (record_in_scope_warned (max_buckets_per_scope cfg) (ip_buckets s) ip now
                  (window_seconds cfg) "ip" w1) as S2.
    destruct (record_in_scope _ (ip_buckets s) _ _ _ _ _) as [d2 w2] eqn:E2; simpl in S2.
    destruct include_email; simpl.
    + pose proof (record_in_scope_warned (max_buckets_per_scope cfg) (email_buckets s) em now
                  (window_seconds cfg) "email" w2) as S3.
      destruct (record_in_scope _ (email_buckets s) _ _ _ _ _) as [d3 w3] eqn:E3; simpl in S3.
      intros Hn. split; simpl; try done; eapply record_step; try done; simpl; set_solver.
    + intros Hn. split; simpl; try done; eapply record_step; try done; simpl; set_solver.
  - intros _. split; simpl; try done. by apply del_sim.
  - destruct (get_existing_bucket (registration_ip_buckets s) _ _ _) eqn:E1. intros _.
    split; simpl; try done. by eapply get_existing_bucket_sim.
  - destruct (record_in_scope _ (registration_ip_buckets s) _ _ _ _ _) eqn:E1.
    intros Hn. split; simpl; try done. by eapply record_step.
  - destruct (get_existing_bucket (oidc_authorization_ip_buckets s) _ _ _) eqn:E1. intros _.
    split; simpl; try done. by eapply get_existing_bucket_sim.
  - destruct (record_in_scope _ (oidc_authorization_ip_buckets s) _ _ _ _ _) eqn:E1.
    intros Hn. split; simpl; try done. by eapply record_step.
Qed.

Lemma run_warned tr s :
  cap_warning_scopes s ⊆ cap_warning_scopes (run impl_step tr s).2.
Proof.
  revert s. induction tr as [|[now c] tr IH]; intros s; simpl; [done|].
  pose proof (impl_step_warned now c s) as H. destruct (impl_step now c s) as [a s1].
  specialize (IH s1). destruct (run impl_step tr s1) as [r s2]. simpl in *. set_solver.
Qed.

(** A relation on answers that holds step by step holds along a run. *)
Lemma run_sim (agree : relation (option bool)) tr t l s :
  (forall now c l s, limiter_sim now l s -> agree (impl_step now c s).1 (spec_step now c l).1) ->
  monotonic t tr -> limiter_sim t l s -> no_loss (run impl_step tr s).2 ->
  Forall2 agree (run impl_step tr s).1 (run spec_step tr l).1.
Proof.
  intros Hagree. revert t l s.
  induction tr as [|[now c] tr IH]; intros t l s; simpl; [constructor|].
  intros [Ht Hm] Hsim. apply (limiter_sim_later _ now) in Hsim; [|done].
  pose proof (Hagree now c l s Hsim) as Ha. pose proof (impl_step_sim now c l s) as Hs.
  destruct (impl_step now c s) as [a s1] eqn:E1, (spec_step now c l) as [a' l1] eqn:E2.
  pose proof (run_warned tr s1) as Hw. specialize (IH now l1 s1 Hm).
  destruct (run impl_step tr s1) as [r s2], (run spec_step tr l1) as [r' l2]. simpl in *.
  intros Hn. constructor; [done|]. apply IH; [|done]. apply Hs; [|done].
  destruct Hn as [|Hn]; [by left|right]. rewrite Hn in Hw. set_solver.
Qed.

Lemma under_le now w h d key b d' limit :
  scope_sim rel now w h d -> get_existing_bucket d key now w = (b, d') ->
  SlidingWindow.under h key now w limit = true -> (len b <? limit) = true.
Proof.
  intros Hs Hg. pose proof (get_existing_count _ _ _ _ _ _ _ _ Hs Hg).
  unfold SlidingWindow.under. rewrite !Z.ltb_lt. lia.
Qed.

Lemma impl_step_answer_le now c l s :
  limiter_sim now l s ->
  (spec_step now c l).1 = Some true -> (impl_step now c s).1 = Some true.
Proof.
  intros [H1 H2 H3 H4 H5].
  destruct c; simpl; unfold is_allowed, is_account_deletion_reauth_allowed,
    is_registration_allowed, is_oidc_authorization_allowed, SlidingWindow.allowed,
    SlidingWindow.reauth_allowed; try done;
    repeat match goal with
    | |- context [get_existing_bucket ?a ?b ?c ?d] =>
        destruct (get_existing_bucket a b c d) eqn:?
    end; intros [= Hu]; simpl; f_equal; rewrite ?andb_true_iff in *; split_and?;
    destruct_and?; (eapply under_le; [|eassumption|]; eassumption).
Qed.
End Simulation.
End Runs.

Lemma under_eq now w h d key b d' limit :
  scope_sim eq now w h d -> get_existing_bucket d key now w = (b, d') ->
  (len b <? limit) = SlidingWindow.under h key now w limit.
Proof.
  intros Hs Hg. destruct (get_existing_bucket_sim _ _ _ _ _ _ _ _ Hs Hg) as [_ ->]. done.
Qed.

Lemma impl_step_answer_eq cfg now c l s :
  limiter_sim cfg eq now l s -> (impl_step cfg now c s).1 = (spec_step cfg now c l).1.
Proof.
  intros [H1 H2 H3 H4 H5].
  destruct c; simpl; unfold is_allowed, is_account_deletion_reauth_allowed,
    is_registration_allowed, is_oidc_authorization_allowed, SlidingWindow.allowed,
    SlidingWindow.reauth_allowed; try done;
    repeat match goal with
    | |- context [get_existing_bucket ?a ?b ?c ?d] =>
        destruct (get_existing_bucket a b c d) eqn:?
    end; simpl; f_equal;
    repeat match goal with |- (_ && _)%bool = (_ && _)%bool => f_equal end;
    by eapply under_eq.
Qed.

(** ** Memory bound *)

Lemma record_in_scope_len cap d key now w name warned :
  od_len d <= cap -> od_len (record_in_scope cap d key now w name warned).1 <= cap.
Proof.
  intros Hd. unfold record_in_scope, get_or_create_bucket.
  destruct (get_existing_bucket d key now w) as [b d1] eqn:Hg.
  destruct (get_existing_bucket_spec _ _ _ _ _ _ Hg) as (Eb & Hd1 & _ & Hlen).
  destruct b as [|t b]; simpl.
  - set (d2 := if cap <=? od_len d1 then _ else _).
    destruct (Z.leb_spec cap (od_len d2)) as [Hc|Hc]; simpl.
    + unfold d2. destruct (cap <=? od_len d1); [|lia].
      assert (forall d, od_len (evict_expired_buckets cap d now w) <= od_len d) as He.
      { intros e. induction e as [|[k c] e IH]; simpl; [lia|].
        destruct (cap <=? od_len _); [|lia].
        destruct (trim c now w); [revert IH|]; unfold od_len; simpl; lia. }
      specialize (He d1). lia.
    + rewrite od_len_set_present by (rewrite od_get_set; by destruct (decide (key = key))).
      pose proof (od_len_set_le key [] d2). lia.
  - rewrite od_len_set_present.
    + pose proof (od_len_move key d1). lia.
    + rewrite od_get_move, Hd1, decide_True by done. by destruct (decide (t :: b = [])).
Qed.

(** Every scope holds at most [max_buckets_per_scope] buckets. *)
Record bounded (cap : Z) (s : limiter) : Prop := {
  bounded_email_ip : od_len (email_ip_buckets s) <= cap;
  bounded_ip : od_len (ip_buckets s) <= cap;
  bounded_email : od_len (email_buckets s) <= cap;
  bounded_registration : od_len (registration_ip_buckets s) <= cap;
  bounded_oidc : od_len (oidc_authorization_ip_buckets s) <= cap;
}.

Lemma get_existing_bucket_len d key now w b d' :
  get_existing_bucket d key now w = (b, d') -> od_len d' <= od_len d.
Proof. intros H. by destruct (get_existing_bucket_spec _ _ _ _ _ _ H) as (_ & _ & _ & ?). Qed.

Lemma impl_step_bounded cfg now c s :
  bounded (max_buckets_per_scope cfg) s ->
  bounded (max_buckets_per_scope cfg) (impl_step cfg now c s).2.
Proof.
  intros [H1 H2 H3 H4 H5].
  destruct c; simpl; unfold is_allowed, is_account_deletion_reauth_allowed,
    is_registration_allowed, is_oidc_authorization_allowed, record_failure,
    record_registration, record_oidc_authorization, record_success;
    repeat match goal with
    | |- context [get_existing_bucket ?a ?b ?c ?d] =>
        let E := fresh in destruct (get_existing_bucket a b c d) eqn:E;
        apply get_existing_bucket_len in E
    | |- context [record_in_scope ?a ?b ?c ?d ?e ?f ?g] =>
        let H := fresh in
        pose proof (record_in_scope_len a b c d e f g) as H;
        destruct (record_in_scope a b c d e f g); simpl in *; specialize (H ltac:(assumption))
    | |- context [if ?b then _ else _] => destruct b
    end; split; simpl in *; try assumption; try (eapply Z.le_trans; eassumption).
  eapply Z.le_trans; [apply od_len_del_le|done].
Qed.

(** ** Theorems *)

Lemma window_refinement cfg t tr :
  monotonic t tr ->
  cap_warning_scopes (run (impl_step cfg) tr new_limiter).2 = ∅ ->
  (run (impl_step cfg) tr new_limiter).1 = (run (spec_step cfg) tr SlidingWindow.empty).1.
Proof.
  intros Hm Hw. apply list_eq_Forall2, (run_sim cfg eq eq tr t).
  - intros. by apply impl_step_answer_eq.
  - done.
  - apply limiter_sim_empty, _.
  - by right.
Qed.

(** C24. As long as no scope ever reported a full bucket table, the in-memory
    limiter answers every call of every trace exactly as the sliding-window
    contract does. *)
Theorem refines_sliding_window cfg t tr :
  monotonic t tr ->
  cap_warning_scopes (run (impl_step cfg) tr new_limiter).2 = ∅ ->
  (run (impl_step cfg) tr new_limiter).1 = (run (spec_step cfg) tr SlidingWindow.empty).1.
Proof. apply window_refinement. Qed.

(** Whatever overflowed, a call the contract allows is allowed: dropping a
    bucket never locks anybody out. *)
Theorem never_stricter_than_window cfg t tr :
  monotonic t tr ->
  Forall2 (fun a contract => contract = Some true -> a = Some true)
    (run (impl_step cfg) tr new_limiter).1 (run (spec_step cfg) tr SlidingWindow.empty).1.
Proof.
  intros Hm. apply (run_sim cfg sublist _ tr t).
  - intros now c l s Hs. exact (impl_step_answer_le cfg sublist now c l s Hs).
  - done.
  - apply limiter_sim_empty, _.
  - left. intros l m x Hlm. by apply sublist_inserts_r.
Qed.

(** No trace of calls makes a scope hold more than the configured number of
    buckets. *)
Theorem buckets_bounded cfg tr :
  0 <= max_buckets_per_scope cfg ->
  bounded (max_buckets_per_scope cfg) (run (impl_step cfg) tr new_limiter).2.
Proof.
  intros Hc. assert (bounded (max_buckets_per_scope cfg) new_limiter) as Hs by (split; exact Hc).
  revert Hs. generalize new_limiter as s.
  induction tr as [|[now c] tr IH]; intros s Hs; simpl; [done|].
  pose proof (impl_step_bounded cfg now c s Hs) as H1.
  destruct (impl_step cfg now c s) as [a s1]. specialize (IH s1 H1).
  by destruct (run (impl_step cfg) tr s1).
Qed.

(** ** Concrete runs *)

Definition demo_config : config := Config 900 3600 2 20 20 10 20 3.

(** Two failures, a blocked attempt, the window passes, an allowed attempt. *)
Definition demo_trace : list (Z * call) :=
  [ (seconds 0, IsAllowed "10.0.0.1" "a@example.com");
    (seconds 1, RecordFailure "10.0.0.1" "a@example.com" true);
    (seconds 2, RecordFailure "10.0.0.1" "a@example.com" true);
    (seconds 3, IsAllowed "10.0.0.1" "a@example.com");
    (seconds 3, IsAllowed "10.0.0.2" "a@example.com");
    (seconds 950, IsAllowed "10.0.0.1" "a@example.com");
    (seconds 951, RecordSuccess "10.0.0.1" "a@example.com") ].

Lemma refines_sliding_window_witness :
  (run (impl_step demo_config) demo_trace new_limiter).1 =
    [Some true; None; None; Some false; Some true; Some true; None]
  /\ (run (impl_step demo_config) demo_trace new_limiter).1 =
    (run (spec_step demo_config) demo_trace SlidingWindow.empty).1.
Proof.
  split; [vm_compute; reflexivity|].
  apply (refines_sliding_window demo_config 0 demo_trace).
  - vm_compute. repeat split; discriminate.
  - vm_compute. reflexivity.
Defined.

Lemma never_stricter_than_window_witness :
  Forall2 (fun a contract => contract = Some true -> a = Some true)
    (run (impl_step demo_config) demo_trace new_limiter).1
    (run (spec_step demo_config) demo_trace SlidingWindow.empty).1.
Proof.
  apply (never_stricter_than_window demo_config 0 demo_trace).
  vm_compute. repeat split; discriminate.
Defined.

Lemma buckets_bounded_witness :
  bounded 3 (run (impl_step demo_config) demo_trace new_limiter).2.
Proof. apply (buckets_bounded demo_config demo_trace). discriminate. Defined.
