(* ===== verification/RedisRateLimiter.v ===== *)
(** * The Redis login rate limiter

    Models [RedisLoginRateLimiter] of
    src/backend/app/libraries/redis_login_rate_limiter.py: counters in Redis sorted
    sets behind a circuit breaker.  The Redis client is the class [RedisClient]; a
    call that the operation deadline cuts off is one that fails with [TimeoutError]
    at the await where it is cut.  Times and scores are counted in microseconds, the
    resolution of the Redis clock, which the floats of the source represent apart
    from one another; the breaker's clock and the random suffixes are streams. *)

From S2P Require Import Prelude PyStr RateLimiter.

(** ** The client *)

(** The exceptions [_run_operation] catches. *)
Inductive redis_error :=
| RedisConnectionError (message : string)
| OtherRedisError
| TimeoutError
| OSError.

Inductive reply (A : Type) := Reply (a : A) | Failed (e : redis_error).
#[global] Arguments Reply {A} a.
#[global] Arguments Failed {A} e.

(** The commands the limiter puts into a pipeline. *)
(* src: backend/app/libraries/redis_login_rate_limiter.py:20-35 _RedisPipeline *)
Inductive redis_command :=
| ZCount (key : string) (minimum : Z)             (* [zcount(key, minimum, "+inf")] *)
| ZRemRangeByScore (key : string) (below : Z)     (* [zremrangebyscore(key, "-inf", f"({below}")] *)
| ZAdd (key member : string) (score : Z)
| ExpireKey (key : string) (seconds : Z).

(* src: backend/app/libraries/redis_login_rate_limiter.py:38-53 _RedisClient *)
Class RedisClient (S : Type) := {
  redis_time : S -> reply (Z * Z) * S;
  redis_execute : bool -> list redis_command -> S -> reply (list Z) * S;  (* [transaction] first *)
  redis_delete : string -> S -> reply Z * S;
}.

Module Redis.

(* src: backend/app/libraries/redis_login_rate_limiter.py:58-89 RedisLoginRateLimiter.__init__ *)
Record config := Config {
  limits : InMemory.config;   (* the windows and limits shared with the in-memory limiter *)
  key_prefix : string;
  fail_open : bool;           (* [unavailable_policy == "fail_open"] *)
  circuit_breaker_failures : Z;
  circuit_breaker_cooldown : Z;
}.

(** The attributes that change, the client's own state, and the log. *)
(* src: backend/app/libraries/redis_login_rate_limiter.py:84-93 RedisLoginRateLimiter.__init__ *)
Record limiter (S : Type) := Limiter {
  client : S;
  consecutive_failures : Z;
  circuit_opened_at : option Z;
  circuit_open_warning_logged : bool;
  pool_exhaustion_warning_logged_at : option Z;
  clock_reads : nat;
  tokens : nat;
  warnings : list string;
}.
#[global] Arguments Limiter {S}.
#[global] Arguments client {S}.
#[global] Arguments consecutive_failures {S}.
#[global] Arguments circuit_opened_at {S}.
#[global] Arguments circuit_open_warning_logged {S}.
#[global] Arguments pool_exhaustion_warning_logged_at {S}.
#[global] Arguments clock_reads {S}.
#[global] Arguments tokens {S}.
#[global] Arguments warnings {S}.

(* src: backend/app/libraries/redis_login_rate_limiter.py:90-93 RedisLoginRateLimiter.__init__ *)
Definition new_limiter {S} (client : S) : limiter S := Limiter client 0 None false None 0 0 [].

Section Limiter.
Context {S : Type} `{RC : RedisClient S}.
(** The breaker's monotonic clock, [secrets.token_hex(8)], [f"{now:.6f}"] and
    [sha256(...).hexdigest()]. *)
Context (breaker_clock : nat -> Z) (token_hex : nat -> string) (sha256_hex : string -> string).
Context (cfg : config).

(** ** Operations on the client

    They run in a state monad whose failures are the caught exceptions. *)
Definition op (A : Type) : Type := limiter S -> reply A * limiter S.
#[local] Instance op_ret : MRet op := fun A a l => (Reply a, l).
#[local] Instance op_bind : MBind op := fun A B f m l =>
  match m l with
  | (Reply a, l') => f a l'
  | (Failed e, l') => (Failed e, l')
  end.

Definition set_client (c : S) (l : limiter S) : limiter S :=
  Limiter c (consecutive_failures l) (circuit_opened_at l) (circuit_open_warning_logged l)
    (pool_exhaustion_warning_logged_at l) (clock_reads l) (tokens l) (warnings l).
Definition call_client {A} (f : S -> reply A * S) : op A := fun l =>
  let (r, c) := f (client l) in (r, set_client c l).
Definition next_token : op string := fun l =>
  (Reply (token_hex (tokens l)),
   Limiter (client l) (consecutive_failures l) (circuit_opened_at l)
     (circuit_open_warning_logged l) (pool_exhaustion_warning_logged_at l) (clock_reads l)
     (Datatypes.S (tokens l)) (warnings l)).

(* src: backend/app/libraries/redis_login_rate_limiter.py:246-248 RedisLoginRateLimiter._redis_time_seconds *)
Definition redis_time_seconds : op Z :=
  t ← call_client redis_time;
  mret (seconds t.1 + t.2).

(** [f"{now:.6f}"] *)
Fixpoint zero_padded (width n : nat) : string :=
  match width with
  | O => ""
  | Datatypes.S w => zero_padded w (n / 10) ++ String (ascii_of_nat (48 + n mod 10)) ""
  end.
Definition format_seconds (now : Z) : string :=
  pretty (now / 1000000) ++ "." ++ zero_padded 6 (Z.to_nat (now mod 1000000)).

(* src: backend/app/libraries/redis_login_rate_limiter.py:253-255 RedisLoginRateLimiter._bucket_key *)
Definition bucket_key (scope raw_key : string) : string :=
  rstrip_char ":" (key_prefix cfg) ++ ":" ++ scope ++ ":" ++ sha256_hex (scope ++ ":" ++ raw_key).

(* src: backend/app/libraries/redis_login_rate_limiter.py:250-251 RedisLoginRateLimiter._email_ip_key *)
Definition email_ip_key (ip_address normalized_email : string) : string :=
  bucket_key "email_ip" (InMemory.email_ip_key ip_address normalized_email).

(* src: backend/app/libraries/redis_login_rate_limiter.py:226-232 RedisLoginRateLimiter._count_active *)
Definition count_active (keys : list string) (window_seconds : Z) : op (list Z) :=
  now ← redis_time_seconds;
  let window_start := now - seconds window_seconds in
  call_client (redis_execute false (map (fun key => ZCount key window_start) keys)).

(* src: backend/app/libraries/redis_login_rate_limiter.py:234-244 RedisLoginRateLimiter._record *)
Fixpoint record_commands (keys : list string) (now window_seconds : Z) : op (list redis_command) :=
  match keys with
  | [] => mret []
  | key :: keys' =>
      token ← next_token;
      let member := (format_seconds now ++ ":" ++ token)%string in
      rest ← record_commands keys' now window_seconds;
      mret ([ZRemRangeByScore key (now - seconds window_seconds); ZAdd key member now;
             ExpireKey key (window_seconds + 1)] ++ rest)
  end.
Definition record (keys : list string) (window_seconds : Z) : op (list Z) :=
  now ← redis_time_seconds;
  commands ← record_commands keys now window_seconds;
  call_client (redis_execute true commands).

(* src: backend/app/libraries/redis_login_rate_limiter.py:171-182 RedisLoginRateLimiter._is_allowed *)
Definition is_allowed_op (ip_address normalized_email : string) : op bool :=
  counts ← count_active [email_ip_key ip_address normalized_email; bucket_key "ip" ip_address;
                         bucket_key "email" normalized_email]
             (InMemory.window_seconds (limits cfg));
  mret ((nth 0 counts 0 <? InMemory.max_failures_per_email_ip (limits cfg))
        && (nth 1 counts 0 <? InMemory.max_failures_per_ip (limits cfg))
        && (nth 2 counts 0 <? InMemory.max_failures_per_email (limits cfg))).

(* src: backend/app/libraries/redis_login_rate_limiter.py:184-196 RedisLoginRateLimiter._is_account_deletion_reauth_allowed *)
Definition is_account_deletion_reauth_allowed_op (ip_address normalized_email : string) : op bool :=
  counts ← count_active [email_ip_key ip_address normalized_email; bucket_key "ip" ip_address]
             (InMemory.window_seconds (limits cfg));
  mret ((nth 0 counts 0 <? InMemory.max_failures_per_email_ip (limits cfg))
        && (nth 1 counts 0 <? InMemory.max_failures_per_ip (limits cfg))).

(* src: backend/app/libraries/redis_login_rate_limiter.py:198-210 RedisLoginRateLimiter._record_failure *)
Definition record_failure_op (ip_address normalized_email : string) (include_email_bucket : bool)
  : op (list Z) :=
  record ([email_ip_key ip_address normalized_email; bucket_key "ip" ip_address]
          ++ (if include_email_bucket then [bucket_key "email" normalized_email] else []))
    (InMemory.window_seconds (limits cfg)).

(* src: backend/app/libraries/redis_login_rate_limiter.py:212-217 RedisLoginRateLimiter._is_registration_allowed *)
Definition is_registration_allowed_op (ip_address : string) : op bool :=
  counts ← count_active [bucket_key "registration_ip" ip_address]
             (InMemory.registration_window_seconds (limits cfg));
  mret (nth 0 counts 0 <? InMemory.max_registrations_per_ip (limits cfg)).

(* src: backend/app/libraries/redis_login_rate_limiter.py:219-224 RedisLoginRateLimiter._is_oidc_authorization_allowed *)
Definition is_oidc_authorization_allowed_op (ip_address : string) : op bool :=
  counts ← count_active [bucket_key "oidc_authorization_ip" ip_address]
             (InMemory.window_seconds (limits cfg));
  mret (nth 0 counts 0 <? InMemory.max_oidc_authorizations_per_ip (limits cfg)).

(** ** The circuit breaker *)

(** One reading of the breaker's clock. *)
Definition read_clock (l : limiter S) : Z * limiter S :=
  (breaker_clock (clock_reads l),
   Limiter (client l) (consecutive_failures l) (circuit_opened_at l)
     (circuit_open_warning_logged l) (pool_exhaustion_warning_logged_at l)
     (Datatypes.S (clock_reads l)) (tokens l) (warnings l)).

Definition set_circuit (failures : Z) (opened_at : option Z) (logged : bool) (l : limiter S)
  : limiter S :=
  Limiter (client l) failures opened_at logged (pool_exhaustion_warning_logged_at l)
    (clock_reads l) (tokens l) (warnings l).

(* src: backend/app/libraries/redis_login_rate_limiter.py:339-344 RedisLoginRateLimiter._emit_unavailable_warning *)
Definition emit_unavailable_warning (operation : string) (l : limiter S) : limiter S :=
  Limiter (client l) (consecutive_failures l) (circuit_opened_at l)
    (circuit_open_warning_logged l) (pool_exhaustion_warning_logged_at l) (clock_reads l)
    (tokens l) (warnings l ++ [operation]).

(* src: backend/app/libraries/redis_login_rate_limiter.py:323-328 RedisLoginRateLimiter._log_unavailable *)
Definition log_unavailable (operation : string) (l : limiter S) : limiter S :=
  if is_some (circuit_opened_at l) && circuit_open_warning_logged l then l
  else
    let l := emit_unavailable_warning operation l in
    if is_some (circuit_opened_at l)
    then set_circuit (consecutive_failures l) (circuit_opened_at l) true l else l.

(** [_POOL_EXHAUSTION_WARNING_INTERVAL_SECONDS] *)
(* src: backend/app/libraries/redis_login_rate_limiter.py:17-17 _POOL_EXHAUSTION_WARNING_INTERVAL_SECONDS *)
Definition pool_exhaustion_warning_interval : Z := seconds 1.

(* src: backend/app/libraries/redis_login_rate_limiter.py:330-337 RedisLoginRateLimiter._log_pool_exhaustion *)
Definition log_pool_exhaustion (operation : string) (l : limiter S) : limiter S :=
  let (now, l) := read_clock l in
  if match pool_exhaustion_warning_logged_at l with
     | Some t => now - t <? pool_exhaustion_warning_interval
     | None => false
     end
  then l
  else
    let l := emit_unavailable_warning operation l in
    Limiter (client l) (consecutive_failures l) (circuit_opened_at l)
      (circuit_open_warning_logged l) (Some now) (clock_reads l) (tokens l) (warnings l).

(* src: backend/app/libraries/redis_login_rate_limiter.py:296-300 RedisLoginRateLimiter._is_pool_exhaustion *)
Definition is_pool_exhaustion (error : redis_error) : bool :=
  match error with
  | RedisConnectionError message =>
      contains message "Too many connections" || contains message "No connection available"
  | _ => false
  end.

(* src: backend/app/libraries/redis_login_rate_limiter.py:302-309 RedisLoginRateLimiter._circuit_is_open *)
Definition circuit_is_open (l : limiter S) : bool * limiter S :=
  match circuit_opened_at l with
  | None => (false, l)
  | Some opened_at =>
      let (now, l) := read_clock l in
      if now - opened_at <? circuit_breaker_cooldown cfg then (true, l)
      else (false, set_circuit (consecutive_failures l) None false l)
  end.

(* src: backend/app/libraries/redis_login_rate_limiter.py:311-316 RedisLoginRateLimiter._mark_failure *)
Definition mark_failure (operation : string) (l : limiter S) : limiter S :=
  let failures := consecutive_failures l + 1 in
  let l := set_circuit failures (circuit_opened_at l) (circuit_open_warning_logged l) l in
  let l :=
    if circuit_breaker_failures cfg <=? failures
    then let (now, l) := read_clock l in set_circuit failures (Some now) false l
    else l in
  log_unavailable operation l.

(* src: backend/app/libraries/redis_login_rate_limiter.py:318-321 RedisLoginRateLimiter._mark_success *)
Definition mark_success (l : limiter S) : limiter S := set_circuit 0 None false l.

(* src: backend/app/libraries/redis_login_rate_limiter.py:274-294 RedisLoginRateLimiter._run_operation *)
Definition run_operation {A} (operation : string) (operation_factory : op A) (l : limiter S)
  : option A * limiter S :=
  let (is_open, l) := circuit_is_open l in
  if is_open then (None, log_unavailable operation l)
  else
    match operation_factory l with
    | (Failed error, l) =>
        if is_pool_exhaustion error then (None, log_pool_exhaustion operation l)
        else (None, mark_failure operation l)
    | (Reply result, l) => (Some result, mark_success l)
    end.

(* src: backend/app/libraries/redis_login_rate_limiter.py:257-265 RedisLoginRateLimiter._run_check_operation *)
Definition run_check_operation (operation : string) (operation_factory : op bool) (l : limiter S)
  : bool * limiter S :=
  let (result, l) := run_operation operation operation_factory l in
  (default (fail_open cfg) result, l).

Definition run_record_operation {A} (operation : string) (operation_factory : op A) (l : limiter S)
  : limiter S := (run_operation operation operation_factory l).2.

(** ** Public operations *)

(* src: backend/app/libraries/redis_login_rate_limiter.py:95-99 RedisLoginRateLimiter.is_allowed *)
Definition is_allowed (ip_address normalized_email : string) : limiter S -> bool * limiter S :=
  run_check_operation "is_allowed" (is_allowed_op ip_address normalized_email).

(* src: backend/app/libraries/redis_login_rate_limiter.py:101-109 RedisLoginRateLimiter.is_account_deletion_reauth_allowed *)
Definition is_account_deletion_reauth_allowed (ip_address normalized_email : string)
  : limiter S -> bool * limiter S :=
  run_check_operation "is_account_deletion_reauth_allowed"
    (is_account_deletion_reauth_allowed_op ip_address normalized_email).

(* src: backend/app/libraries/redis_login_rate_limiter.py:111-120 RedisLoginRateLimiter.record_failure *)
Definition record_failure (ip_address normalized_email : string) (include_email_bucket : bool)
  : limiter S -> limiter S :=
  run_record_operation "record_failure"
    (record_failure_op ip_address normalized_email include_email_bucket).

(* src: backend/app/libraries/redis_login_rate_limiter.py:122-126 RedisLoginRateLimiter.record_success *)
Definition record_success (ip_address normalized_email : string) : limiter S -> limiter S :=
  run_record_operation "record_success"
    (call_client (redis_delete (email_ip_key ip_address normalized_email))).

(* src: backend/app/libraries/redis_login_rate_limiter.py:128-132 RedisLoginRateLimiter.is_registration_allowed *)
Definition is_registration_allowed (ip_address : string) : limiter S -> bool * limiter S :=
  run_check_operation "is_registration_allowed" (is_registration_allowed_op ip_address).

(* src: backend/app/libraries/redis_login_rate_limiter.py:134-141 RedisLoginRateLimiter.record_registration *)
Definition record_registration (ip_address : string) : limiter S -> limiter S :=
  run_record_operation "record_registration"
    (record [bucket_key "registration_ip" ip_address]
       (InMemory.registration_window_seconds (limits cfg))).

(* src: backend/app/libraries/redis_login_rate_limiter.py:143-147 RedisLoginRateLimiter.is_oidc_authorization_allowed *)
Definition is_oidc_authorization_allowed (ip_address : string) : limiter S -> bool * limiter S :=
  run_check_operation "is_oidc_authorization_allowed" (is_oidc_authorization_allowed_op ip_address).

(* src: backend/app/libraries/redis_login_rate_limiter.py:149-156 RedisLoginRateLimiter.record_oidc_authorization *)
Definition record_oidc_authorization (ip_address : string) : limiter S -> limiter S :=
  run_record_operation "record_oidc_authorization"
    (record [bucket_key "oidc_authorization_ip" ip_address] (InMemory.window_seconds (limits cfg))).
End Limiter.
End Redis.
