(* ===== verification/RedisRateLimiterSpec.v ===== *)
(** * The Redis limiter keeps the sliding-window contract

    What the limiter relies on of Redis, stated on a key space of sorted sets with
    deadlines, and the proof that a Redis that serves makes the limiter answer every
    trace as the contract of [RateLimiterSpec] does, and so as the in-memory limiter.
    Also what the circuit breaker and the unavailability policy do when it does not
    serve. *)

From S2P Require Import Prelude PyStr RateLimiter RateLimiterSpec RedisRateLimiter.
Import Redis.

(** ** Sorted sets with deadlines *)

Record keyspace := Keyspace {
  ks_now : Z;
  ks_zsets : gmap string (gmap string Z);
  ks_deadlines : gmap string Z;
}.

Definition members (k : string) (d : keyspace) : gmap string Z := default ∅ (ks_zsets d !! k).
Definition scores (m : gmap string Z) : list Z := (map_to_list m).*2.

(** A key without members does not exist, and has no deadline. *)
Definition set_members (k : string) (m : gmap string Z) (d : keyspace) : keyspace :=
  if decide (m = ∅)
  then Keyspace (ks_now d) (delete k (ks_zsets d)) (delete k (ks_deadlines d))
  else Keyspace (ks_now d) (<[k := m]> (ks_zsets d)) (ks_deadlines d).

(** The documented effect and reply of a command. *)
Definition exec (c : redis_command) (d : keyspace) : Z * keyspace :=
  match c with
  | ZCount k minimum =>
      (Z.of_nat (length (base.filter (fun t => minimum <= t) (scores (members k d)))), d)
  | ZRemRangeByScore k below =>
      let m := base.filter (fun p => ~ p.2 < below) (members k d) in
      (Z.of_nat (size (members k d)) - Z.of_nat (size m), set_members k m d)
  | ZAdd k member score =>
      (if members k d !! member then 0 else 1, set_members k (<[member := score]> (members k d)) d)
  | ExpireKey k secs =>
      if decide (members k d = ∅) then (0, d)
      else (1, Keyspace (ks_now d) (ks_zsets d) (<[k := ks_now d + seconds secs]> (ks_deadlines d)))
  end.

(** Time passes: a key may disappear when its deadline has come, and nothing else
    changes it. *)
Definition aged_at (k : string) (d d' : keyspace) : Prop :=
  ks_now d <= ks_now d'
  /\ (members k d' = members k d /\ ks_deadlines d' !! k = ks_deadlines d !! k
      \/ exists t, ks_deadlines d !! k = Some t /\ t <= ks_now d'
                   /\ members k d' = ∅ /\ ks_deadlines d' !! k = None).
Definition aged (d d' : keyspace) : Prop := forall k, aged_at k d d'.

(** A pipeline runs its commands in order, while time passes. *)
Inductive runs : keyspace -> list redis_command -> list Z -> keyspace -> Prop :=
| runs_nil d d' : aged d d' -> runs d [] [] d'
| runs_cons d d1 c z d2 cmds zs d' :
    aged d d1 -> exec c d1 = (z, d2) -> runs d2 cmds zs d' -> runs d (c :: cmds) (z :: zs) d'.

(** Redis serves: every call is answered, by the documented commands on the key space
    the client sees, and within a second, which the operation deadline is not above. *)
Class RedisServes (S : Type) `{RC : RedisClient S} (view : S -> keyspace) : Prop := {
  serves_time s : exists sec us s', redis_time s = (Reply (sec, us), s')
    /\ aged (view s) (view s') /\ seconds sec + us = ks_now (view s');
  serves_execute t cmds s : exists zs s', redis_execute t cmds s = (Reply zs, s')
    /\ runs (view s) cmds zs (view s') /\ ks_now (view s') < ks_now (view s) + seconds 1;
  serves_delete k s : exists n s' d, redis_delete k s = (Reply n, s')
    /\ aged (view s) d /\ view s' = set_members k ∅ d;
}.

(** ** One key against its history *)

Lemma aged_at_refl k d : aged_at k d d.
Proof. split; [lia|by left]. Qed.

Lemma aged_at_trans k d1 d2 d3 : aged_at k d1 d2 -> aged_at k d2 d3 -> aged_at k d1 d3.
Proof.
  intros [H1 C1] [H2 C2]. split; [lia|].
  destruct C1 as [[M1 D1]|(t & D1 & T1 & M1 & N1)], C2 as [[M2 D2]|(t2 & D2 & T2 & M2 & N2)].
  - left. split; congruence.
  - right. exists t2. split_and!; [congruence|lia|done..].
  - right. exists t. split_and!; [done|lia|congruence..].
  - congruence.
Qed.

Lemma members_set k j m d :
  members j (set_members k m d) = if decide (j = k) then m else members j d.
Proof.
  unfold set_members, members. destruct (decide (m = ∅)) as [->|]; simpl;
    (destruct (decide (j = k)) as [->|]; [by rewrite ?lookup_delete_eq, ?lookup_insert_eq|]);
    by rewrite ?lookup_delete_ne, ?lookup_insert_ne by done.
Qed.

Lemma deadline_set k j m d :
  ks_deadlines (set_members k m d) !! j
  = if decide (j = k) then (if decide (m = ∅) then None else ks_deadlines d !! k)
    else ks_deadlines d !! j.
Proof.
  unfold set_members. destruct (decide (m = ∅)) as [->|]; simpl;
    (destruct (decide (j = k)) as [->|]; [by rewrite ?lookup_delete_eq|]);
    by rewrite ?lookup_delete_ne by done.
Qed.

Lemma now_set k m d : ks_now (set_members k m d) = ks_now d.
Proof. unfold set_members. by destruct (decide (m = ∅)). Qed.

Definition command_key (c : redis_command) : string :=
  match c with ZCount k _ | ZRemRangeByScore k _ | ZAdd k _ _ | ExpireKey k _ => k end.

Lemma exec_now c d : ks_now (exec c d).2 = ks_now d.
Proof. destruct c; simpl; try case_decide; simpl; rewrite ?now_set; done. Qed.

Lemma exec_other c d k : command_key c <> k -> aged_at k d (exec c d).2.
Proof.
  intros Hne. split; [by rewrite exec_now|]. left.
  destruct c; simpl in *; try done; rewrite ?members_set, ?deadline_set, ?decide_False by done;
    try done.
  case_decide; simpl; [done|]. by rewrite lookup_insert_ne.
Qed.

Lemma runs_other k d cmds zs d' :
  runs d cmds zs d' -> Forall (fun c => command_key c <> k) cmds -> aged_at k d d'.
Proof.
  induction 1 as [d d' Ha|d d1 c z d2 cmds zs d' Ha He Hr IH]; intros Hk; [apply Ha|].
  apply Forall_cons in Hk as [Hc Hk]. eapply aged_at_trans; [apply Ha|].
  eapply aged_at_trans; [|by apply IH]. pose proof (exec_other c d1 k Hc) as H. by rewrite He in H.
Qed.

Lemma runs_now d cmds zs d' : runs d cmds zs d' -> ks_now d <= ks_now d'.
Proof.
  induction 1 as [d d' Ha|d d1 c z d2 cmds zs d' Ha He Hr IH]; [apply (Ha "")|].
  destruct (Ha "") as [H _]. pose proof (exec_now c d1) as Hn. rewrite He in Hn. simpl in Hn. lia.
Qed.

(** What a key's sorted set and deadline know of its events at a time. *)
Record key_sim (now w : Z) (ts : list Z) (m : gmap string Z) (deadline : option Z) : Prop := {
  ks_past : Forall (fun t => t <= now) (scores m);
  ks_window : base.filter (recent now w) (scores m) ≡ₚ base.filter (recent now w) ts;
  ks_deadline : forall t, deadline = Some t -> Forall (fun u => u + seconds (w + 1) <= t) (scores m);
}.

Lemma filter_none (P : Z -> Prop) `{forall t, Decision (P t)} l :
  Forall (fun t => ~ P t) l -> base.filter P l = [].
Proof. induction 1 as [|t l Ht _ IH]; [done|]. by rewrite filter_cons, decide_False. Qed.

Lemma recent_later now now' w l k :
  now <= now' -> base.filter (recent now w) l ≡ₚ base.filter (recent now w) k ->
  base.filter (recent now' w) l ≡ₚ base.filter (recent now' w) k.
Proof.
  intros Hle H. rewrite <- (filter_recent_mono now now' w l), <- (filter_recent_mono now now' w k) by done.
  by rewrite H.
Qed.

Lemma key_sim_aged k d d' w ts :
  aged_at k d d' -> key_sim (ks_now d) w ts (members k d) (ks_deadlines d !! k) ->
  key_sim (ks_now d') w ts (members k d') (ks_deadlines d' !! k).
Proof.
  intros [Hle [[-> ->]|(t & Hd & Ht & -> & ->)]] [Hp Hw Hdl].
  - split; [|by eapply recent_later|done]. eapply Forall_impl; [exact Hp|]. simpl. lia.
  - split; [constructor| |done]. rewrite <- (recent_later _ _ _ _ _ Hle Hw).
    rewrite (filter_none _ (scores (members k d))); [done|]. eapply Forall_impl; [by apply Hdl|].
    intros u Hu. unfold recent, seconds in *. simpl in Hu. lia.
Qed.

(** Counting later, but within a second of the reading. *)
Lemma key_sim_count k d d' w ts :
  aged_at k d d' -> ks_now d' < ks_now d + seconds 1 ->
  key_sim (ks_now d) w ts (members k d) (ks_deadlines d !! k) ->
  length (base.filter (fun t => ks_now d - seconds w <= t) (scores (members k d')))
  = length (base.filter (recent (ks_now d) w) ts).
Proof.
  intros [Hle Hc] Hlt [Hp Hw Hdl].
  assert (forall l : list Z, base.filter (fun t => ks_now d - seconds w <= t) l = base.filter (recent (ks_now d) w) l) as Hf.
  { intros l. apply list_filter_iff. intros t. unfold recent. lia. }
  rewrite Hf. destruct Hc as [[-> _]|(t & Hd & Ht & -> & _)]; [by rewrite Hw|].
  rewrite <- Hw, (filter_none _ (scores (members k d))); [done|].
  eapply Forall_impl; [by apply Hdl|]. intros u Hu. unfold recent, seconds in *. simpl in Hu. lia.
Qed.

(** Recording an event. *)
Definition record_one (r w : Z) (km : string * string) : list redis_command :=
  [ZRemRangeByScore km.1 (r - seconds w); ZAdd km.1 km.2 r; ExpireKey km.1 (w + 1)].

Lemma scores_insert m i t : m !! i = None -> scores (<[i := t]> m) ≡ₚ t :: scores m.
Proof. intros H. unfold scores. by rewrite map_to_list_insert. Qed.

Lemma scores_filter (P : Z -> Prop) `{forall t, Decision (P t)} (m : gmap string Z) :
  scores (base.filter (fun p => P p.2) m) ≡ₚ base.filter P (scores m).
Proof.
  induction m as [|i t m Hi IH] using map_ind; [done|].
  rewrite map_filter_insert. simpl. destruct (decide (P t)) as [HP|HP].
  - rewrite !scores_insert, filter_cons, decide_True by (try done; by apply map_lookup_filter_None_2; left).
    by rewrite IH.
  - rewrite scores_insert, filter_cons, decide_False by done.
    by rewrite delete_id.
Qed.

(** Dropping what is out of the window keeps what is known of it, and a key that
    keeps a member lives for another second. *)
Lemma key_sim_trimmed k d w ts r :
  r <= ks_now d -> key_sim (ks_now d) w ts (members k d) (ks_deadlines d !! k) ->
  let d' := set_members k (base.filter (fun p => ~ p.2 < r - seconds w) (members k d)) d in
  key_sim (ks_now d') w ts (members k d') (ks_deadlines d' !! k)
  /\ (forall t, ks_deadlines d' !! k = Some t -> r + seconds 1 <= t).
Proof.
  intros Hr [Hp Hw Hdl] d'. unfold d'. rewrite now_set, members_set, deadline_set, !decide_True by done.
  set (m := base.filter _ _). assert (scores m ≡ₚ base.filter (fun t => ~ t < r - seconds w) (scores (members k d))) as Hm
    by exact (scores_filter (fun t => ~ t < r - seconds w) (members k d)).
  assert (forall Q : Z -> Prop, Forall Q (scores (members k d)) -> Forall Q (scores m)) as Hsub.
  { intros Q HQ. rewrite Hm. by apply Forall_filter_keep. }
  split.
  - split; [by apply Hsub| |].
    + rewrite <- Hw, Hm, list_filter_filter. apply reflexive_eq, list_filter_iff.
      intros t. unfold recent. lia.
    + intros t. destruct (decide (m = ∅)); [done|]. intros Ht. by apply Hsub, Hdl.
  - intros t. destruct (decide (m = ∅)) as [|Hne]; [done|]. intros Ht.
    apply map_choose in Hne as (i & u & Hi). apply map_lookup_filter_Some in Hi as [Hi Hu]. simpl in Hu.
    specialize (Hdl t Ht). rewrite Forall_forall in Hdl. specialize (Hdl u).
    assert (u ∈ scores (members k d)) as Hin.
    { unfold scores. apply list_elem_of_fmap. exists (i, u). split; [done|]. by apply elem_of_map_to_list. }
    apply Hdl in Hin. unfold seconds in *. lia.
Qed.

(** Ageing within the second does not remove such a key. *)
Lemma aged_alive k d d' r :
  aged_at k d d' -> ks_now d' < r + seconds 1 ->
  (forall t, ks_deadlines d !! k = Some t -> r + seconds 1 <= t) ->
  members k d' = members k d /\ ks_deadlines d' !! k = ks_deadlines d !! k.
Proof.
  intros [_ [H|(t & Hd & Ht & _)]] Hlt Hlive; [done|]. specialize (Hlive t Hd). lia.
Qed.

Lemma key_sim_added now w ts m dl r i :
  r <= now -> m !! i = None -> key_sim now w ts m dl ->
  key_sim now w (ts ++ [r]) (<[i := r]> m) (Some (now + seconds (w + 1))).
Proof.
  intros Hr Hi [Hp Hw _]. pose proof (scores_insert m i r Hi) as Hs. split.
  - rewrite Hs. by constructor.
  - rewrite Hs, filter_app, filter_cons, <- Hw. rewrite (filter_cons _ r []).
    case_decide; [by rewrite Permutation_cons_append|by rewrite app_nil_r].
  - intros t [= <-]. rewrite Hs. constructor; [lia|]. eapply Forall_impl; [exact Hp|]. simpl. lia.
Qed.

Lemma runs_cons_inv d c cmds zs d' :
  runs d (c :: cmds) zs d' ->
  exists d1 zs', aged d d1 /\ runs (exec c d1).2 cmds zs' d'.
Proof.
  intros H. inversion H as [|? d1 ? z d2 ? zs' ? Ha He Hr]; subst. exists d1, zs'.
  split; [done|]. by rewrite He.
Qed.

Lemma runs_record_one k i d rest zs d' w ts r :
  runs d (record_one r w (k, i) ++ rest) zs d' -> r <= ks_now d -> ks_now d' < r + seconds 1 ->
  members k d !! i = None -> key_sim (ks_now d) w ts (members k d) (ks_deadlines d !! k) ->
  exists d1 zs1, runs d1 rest zs1 d' /\ r <= ks_now d1
    /\ key_sim (ks_now d1) w (ts ++ [r]) (members k d1) (ks_deadlines d1 !! k)
    /\ (forall j, is_Some (members k d1 !! j) -> j = i \/ is_Some (members k d !! j))
    /\ forall j, j <> k -> aged_at j d d1.
Proof.
  intros Hrun Hr Hlt Hi Hs. simpl in Hrun.
  apply runs_cons_inv in Hrun as (d1 & zs1 & Ha1 & Hrun).
  set (d2 := (exec (ZRemRangeByScore k (r - seconds w)) d1).2) in *.
  apply runs_cons_inv in Hrun as (d3 & zs3 & Ha3 & Hrun).
  set (d4 := (exec (ZAdd k i r) d3).2) in *.
  apply runs_cons_inv in Hrun as (d5 & zs5 & Ha5 & Hrun).
  set (d6 := (exec (ExpireKey k (w + 1)) d5).2) in *.
  pose proof (runs_now _ _ _ _ Hrun) as N6. unfold d6 in N6. rewrite exec_now in N6.
  pose proof (proj1 (Ha1 k)) as N1. pose proof (proj1 (Ha3 k)) as N3. pose proof (proj1 (Ha5 k)) as N5.
  assert (ks_now d2 = ks_now d1) as N2 by apply exec_now.
  assert (ks_now d4 = ks_now d3) as N4 by apply exec_now.
  assert (r <= ks_now d1) as Hr1 by lia.
  destruct (key_sim_trimmed k d1 w ts r Hr1 (key_sim_aged _ _ _ _ _ (Ha1 k) Hs)) as [Hs2 Hl2].
  change (set_members k _ d1) with d2 in Hs2, Hl2.
  assert (members k d2 !! i = None) as Hi2.
  { unfold d2. simpl. rewrite members_set, decide_True by done. apply map_lookup_filter_None_2. left.
    destruct (Ha1 k) as [_ [[-> _]|(t & _ & _ & -> & _)]]; [done|apply lookup_empty]. }
  destruct (aged_alive k d2 d3 r (Ha3 k)) as [Hm3 Hd3]; [lia|done|].
  assert (key_sim (ks_now d3) w ts (members k d3) (ks_deadlines d3 !! k)) as Hs3
    by (eapply key_sim_aged; [apply Ha3|done]).
  assert (members k d4 = <[i := r]> (members k d3)) as Hm4
    by (unfold d4; simpl; by rewrite members_set, decide_True).
  assert (ks_deadlines d4 !! k = ks_deadlines d3 !! k) as Hd4.
  { unfold d4. simpl. rewrite deadline_set, decide_True, decide_False by (done || apply insert_non_empty). done. }
  destruct (aged_alive k d4 d5 r (Ha5 k)) as [Hm5 Hd5]; [lia|by rewrite Hd4, Hd3|].
  assert (key_sim (ks_now d5) w ts (members k d3) (ks_deadlines d3 !! k)) as Hs5.
  { destruct Hs3 as [P W D]. split; [|eapply recent_later; [|exact W]; lia|done].
    eapply Forall_impl; [exact P|]. simpl. lia. }
  assert (members k d5 <> ∅) as Hne by (rewrite Hm5, Hm4; apply insert_non_empty).
  assert (members k d6 = members k d5 /\ ks_deadlines d6 !! k = Some (ks_now d5 + seconds (w + 1))
          /\ ks_now d6 = ks_now d5) as (Hm6 & Hd6 & Hn6).
  { unfold d6. simpl. rewrite decide_False by done. split_and!; [done| |done]. apply lookup_insert_eq. }
  exists d6, zs5. split_and!; [done|lia| | |].
  - rewrite Hm6, Hd6, Hn6, Hm5, Hm4. eapply key_sim_added; [lia| |exact Hs5]. by rewrite Hm3.
  - intros j. rewrite Hm6, Hm5, Hm4, Hm3. intros [x [[<- _]|[_ Hx]]%lookup_insert_Some]; [by left|right].
    unfold d2 in Hx. simpl in Hx. rewrite members_set, decide_True in Hx by done.
    apply map_lookup_filter_Some in Hx as [Hx _].
    destruct (Ha1 k) as [_ [[<- _]|(t & _ & _ & Hm1 & _)]]; [by exists x|]. by rewrite Hm1 in Hx.
  - intros j Hj. eapply aged_at_trans; [apply Ha1|].
    eapply aged_at_trans; [apply (exec_other (ZRemRangeByScore k (r - seconds w))); simpl; congruence|].
    eapply aged_at_trans; [apply Ha3|].
    eapply aged_at_trans; [apply (exec_other (ZAdd k i r)); simpl; congruence|].
    eapply aged_at_trans; [apply Ha5|]. apply (exec_other (ExpireKey k (w + 1))). simpl. congruence.
Qed.

(** ** The limiter against the contract *)

Inductive scope := EmailIp | Ip | Email | Registration | Oidc.

Definition scope_name (sc : scope) : string :=
  match sc with
  | EmailIp => "email_ip" | Ip => "ip" | Email => "email"
  | Registration => "registration_ip" | Oidc => "oidc_authorization_ip"
  end.
Definition scope_log (sc : scope) (lg : SlidingWindow.log) : history :=
  match sc with
  | EmailIp => SlidingWindow.email_ip_log lg | Ip => SlidingWindow.ip_log lg
  | Email => SlidingWindow.email_log lg | Registration => SlidingWindow.registration_log lg
  | Oidc => SlidingWindow.oidc_log lg
  end.
Definition scope_window (c : InMemory.config) (sc : scope) : Z :=
  match sc with
  | Registration => InMemory.registration_window_seconds c
  | _ => InMemory.window_seconds c
  end.

(** What a bucket of a scope hashes. *)
Definition hashed (sr : scope * string) : string := scope_name sr.1 ++ ":" ++ sr.2.

(** The buckets a call touches. *)
Definition call_buckets (c : call) : list (scope * string) :=
  match c with
  | IsAllowed ip em =>
      [(EmailIp, InMemory.email_ip_key ip em); (Ip, ip); (Email, em)]
  | IsReauthAllowed ip em => [(EmailIp, InMemory.email_ip_key ip em); (Ip, ip)]
  | RecordFailure ip em include_email =>
      [(EmailIp, InMemory.email_ip_key ip em); (Ip, ip)]
      ++ (if include_email then [(Email, em)] else [])
  | RecordSuccess ip em => [(EmailIp, InMemory.email_ip_key ip em)]
  | IsRegistrationAllowed ip | RecordRegistration ip => [(Registration, ip)]
  | IsOidcAllowed ip | RecordOidc ip => [(Oidc, ip)]
  end.

Definition add_event (r : Z) (lg : SlidingWindow.log) (sr : scope * string) : SlidingWindow.log :=
  let e := [(sr.2, r)] in
  match sr.1, lg with
  | EmailIp, SlidingWindow.Log a b c d o => SlidingWindow.Log (a ++ e) b c d o
  | Ip, SlidingWindow.Log a b c d o => SlidingWindow.Log a (b ++ e) c d o
  | Email, SlidingWindow.Log a b c d o => SlidingWindow.Log a b (c ++ e) d o
  | Registration, SlidingWindow.Log a b c d o => SlidingWindow.Log a b c (d ++ e) o
  | Oidc, SlidingWindow.Log a b c d o => SlidingWindow.Log a b c d (o ++ e)
  end.

#[export] Instance scope_eq_dec : EqDecision scope.
Proof. solve_decision. Defined.

Lemma scope_log_add r lg sr sc :
  scope_log sc (add_event r lg sr)
  = if decide (sc = sr.1) then scope_log sc lg ++ [(sr.2, r)] else scope_log sc lg.
Proof. destruct sr as [[] raw], lg, sc; reflexivity. Qed.

Section Contract.
Context {S : Type} `{RC : RedisClient S} (view : S -> keyspace) `{RS : !RedisServes S view}.
Context (breaker_clock : nat -> Z) (token_hex : nat -> string) (sha256_hex : string -> string).
Context (cfg : Redis.config) (used : string -> Prop) (budget : nat).
(** Random suffixes are 16 hexadecimal digits, and those that are used do not repeat;
    the digests of the buckets in use do not collide. *)
Context (token_inj : forall i j, (i < budget)%nat -> (j < budget)%nat ->
           token_hex i = token_hex j -> i = j).
Context (token_length : forall n, str_len (token_hex n) = 16).
Context (digest_inj : forall a b, used a -> used b -> sha256_hex a = sha256_hex b -> a = b).
Implicit Types (sr : scope * string) (lg : SlidingWindow.log) (d : keyspace).

Definition key_of sr : string := bucket_key sha256_hex cfg (scope_name sr.1) sr.2.

Lemma key_of_inj a b : used (hashed a) -> used (hashed b) -> key_of a = key_of b -> a = b.
Proof.
  intros Ha Hb. unfold key_of, bucket_key. intros H%(inj (String.append _)).
  destruct a as [sa ra], b as [sb rb]. simpl in *.
  destruct sa, sb; simpl in H; simplify_eq; apply digest_inj in H; try done; simpl in H; by simplify_eq.
Qed.

(** A member is of a token issued before. *)
Definition issued (n : nat) (m : string) : Prop :=
  exists head j, (j < n)%nat /\ m = (head ++ ":" ++ token_hex j)%string.

Lemma token_not_issued n head : (n < budget)%nat -> ~ issued n (head ++ ":" ++ token_hex n)%string.
Proof.
  intros Hn (h & j & Hj & H). apply (f_equal chars) in H. rewrite !chars_app in H.
  rewrite !(app_assoc (chars _)) in H. apply app_inj_2 in H as [_ H%chars_inj%token_inj]; [lia|lia|lia|].
  rewrite !chars_length. pose proof (token_length n) as H1. pose proof (token_length j) as H2.
  unfold str_len in *. lia.
Qed.

Record st (d : keyspace) lg (n : nat) : Prop := {
  st_keys sr : used (hashed sr) ->
    key_sim (ks_now d) (scope_window (limits cfg) sr.1) (event_times sr.2 (scope_log sr.1 lg))
      (members (key_of sr) d) (ks_deadlines d !! key_of sr);
  st_issued sr m : used (hashed sr) -> is_Some (members (key_of sr) d !! m) -> issued n m;
}.

Lemma st_aged d d' lg n : aged d d' -> st d lg n -> st d' lg n.
Proof.
  intros Ha [Hk Hi]. split.
  - intros sr Hu. eapply key_sim_aged; [apply Ha|by apply Hk].
  - intros sr m Hu Hm. apply (Hi sr m Hu).
    destruct (Ha (key_of sr)) as [_ [[<- _]|(t & _ & _ & Hm0 & _)]]; [done|].
    rewrite Hm0, lookup_empty in Hm. by destruct Hm.
Qed.

Lemma st_empty d : (forall k, members k d = ∅) -> (forall k, ks_deadlines d !! k = None) ->
  st d SlidingWindow.empty 0.
Proof.
  intros Hm Hd. split.
  - intros sr _. rewrite Hm, Hd. split; [constructor| |done].
    destruct sr as [[] raw]; reflexivity.
  - intros sr m _. rewrite Hm, lookup_empty. by intros [].
Qed.

(** The commands that record events in some buckets, with the tokens from [n] on. *)
Fixpoint recording (n : nat) (r w : Z) (srs : list (scope * string)) : list redis_command :=
  match srs with
  | [] => []
  | sr :: srs' =>
      record_one r w (key_of sr, format_seconds r ++ ":" ++ token_hex n)%string
      ++ recording (Datatypes.S n) r w srs'
  end.

Lemma st_recording srs d lg n zs d' r w :
  runs d (recording n r w srs) zs d' -> st d lg n -> r <= ks_now d -> ks_now d' < r + seconds 1 ->
  Forall (fun sr => used (hashed sr) /\ scope_window (limits cfg) sr.1 = w) srs ->
  (n + length srs <= budget)%nat ->
  st d' (foldl (add_event r) lg srs) (n + length srs).
Proof.
  revert d lg n zs. induction srs as [|sr srs IH]; intros d lg n zs Hrun Hst Hr Hlt Hall Hn;
    simpl in Hrun, Hn |- *.
  { inversion Hrun as [? ? Ha|]; subst. rewrite Nat.add_0_r. by eapply st_aged. }
  apply Forall_cons in Hall as [[Hu Hw] Hall].
  assert (members (key_of sr) d !! (format_seconds r ++ ":" ++ token_hex n)%string = None) as Hnew.
  { destruct (_ !! _) eqn:E; [|done]. exfalso. eapply (token_not_issued n (format_seconds r)).
    { lia. } by eapply (st_issued _ _ _ Hst sr). }
  pose proof (st_keys _ _ _ Hst sr Hu) as Hks. rewrite Hw in Hks.
  change (record_one r w (key_of sr, _) ++ _) with
    (record_one r w (key_of sr, (format_seconds r ++ ":" ++ token_hex n)%string)
     ++ recording (Datatypes.S n) r w srs) in Hrun.
  destruct (runs_record_one _ _ _ _ _ _ _ _ _ Hrun Hr Hlt Hnew Hks)
    as (d1 & zs1 & Hrun1 & Hr1 & Hk1 & Hm1 & Hother).
  replace (n + Datatypes.S (length srs))%nat with (Datatypes.S n + length srs)%nat by lia.
  eapply IH; [done| |done|done|done|lia]. split.
  - intros sr' Hu'. rewrite scope_log_add. destruct (decide (sr' = sr)) as [->|Hne].
    + rewrite decide_True, event_times_snoc, decide_True by done. by rewrite Hw.
    + assert (event_times sr'.2 (if decide (sr'.1 = sr.1) then scope_log sr'.1 lg ++ [(sr.2, r)] else scope_log sr'.1 lg)
              = event_times sr'.2 (scope_log sr'.1 lg)) as ->.
      { destruct (decide (sr'.1 = sr.1)) as [E|]; [|done]. rewrite event_times_snoc, decide_False; [by rewrite app_nil_r|].
        intros E2. apply Hne. destruct sr', sr; simpl in *; congruence. }
      eapply key_sim_aged; [apply Hother|by apply Hst].
      intros E. by apply Hne, key_of_inj.
  - intros sr' m Hu' Hm. destruct (decide (sr' = sr)) as [->|Hne].
    + destruct (Hm1 m Hm) as [->|Hold]; [by exists (format_seconds r), n; split; [lia|]|].
      destruct (st_issued _ _ _ Hst sr m Hu Hold) as (h & j & Hj & ->). exists h, j. split; [lia|done].
    + assert (key_of sr' <> key_of sr) as Hk by (intros E; by apply Hne, key_of_inj).
      destruct (Hother _ Hk) as [_ [[Hsame _]|(t & _ & _ & Hm0 & _)]].
      * rewrite Hsame in Hm. destruct (st_issued _ _ _ Hst sr' m Hu' Hm) as (h & j & Hj & ->).
        exists h, j. split; [lia|done].
      * rewrite Hm0, lookup_empty in Hm. by destruct Hm.
Qed.

(** Counting in several buckets after a reading of the clock. *)
Lemma runs_counts srs d lg n zs d' d0 w :
  aged d0 d -> runs d (map (fun k => ZCount k (ks_now d0 - seconds w)) (map key_of srs)) zs d' ->
  st d0 lg n -> ks_now d' < ks_now d0 + seconds 1 ->
  Forall (fun sr => used (hashed sr) /\ scope_window (limits cfg) sr.1 = w) srs ->
  zs = map (fun sr => window_count (scope_log sr.1 lg) sr.2 (ks_now d0) w) srs /\ aged d0 d'.
Proof.
  revert d zs. induction srs as [|sr srs IH]; intros d zs Ha Hrun Hst Hlt Hall; simpl in Hrun |- *.
  { inversion Hrun as [? ? Ha'|]; subst. split; [done|]. intros k. by eapply aged_at_trans. }
  apply Forall_cons in Hall as [[Hu Hw] Hall].
  inversion Hrun as [|? d1 ? z d2 ? zs' ? Ha1 He Hrun']; subst. injection He as <- <-.
  assert (aged d0 d1) as Ha01 by (intros k; by eapply aged_at_trans).
  destruct (IH d1 zs' Ha01 Hrun' Hst Hlt Hall) as [-> Ha']. split; [|done]. f_equal.
  unfold window_count. f_equal. apply key_sim_count; [apply Ha01| |by apply Hst].
  pose proof (runs_now _ _ _ _ Hrun'). lia.
Qed.

(** ** The operations of the limiter *)

(** What the clock of Redis says if it is asked now. *)
Definition reading (l : limiter S) : Z :=
  match (redis_time (client l)).1 with Reply t => seconds t.1 + t.2 | Failed _ => 0 end.

Record redis_sim lg (l : limiter S) : Prop := {
  rs_closed : circuit_opened_at l = None;
  rs_state : st (view (client l)) lg (tokens l);
}.

(** The part of a step that is the same for every operation: time goes on from the
    reading, and the breaker stays closed. *)
Definition continues (k : nat) (l l' : limiter S) : Prop :=
  ks_now (view (client l)) <= reading l <= ks_now (view (client l'))
  /\ circuit_opened_at l' = circuit_opened_at l /\ (tokens l' <= tokens l + k)%nat.

Lemma redis_time_ok (l : limiter S) :
  exists s', redis_time_seconds l = (Reply (reading l), set_client s' l)
    /\ aged (view (client l)) (view s') /\ ks_now (view s') = reading l.
Proof.
  destruct (serves_time (client l)) as (sec & us & s' & Ht & Ha & Hn). exists s'.
  unfold redis_time_seconds, reading, mbind, op_bind, call_client. by rewrite Ht.
Qed.

Lemma count_active_ok srs w l lg :
  redis_sim lg l ->
  Forall (fun sr => used (hashed sr) /\ scope_window (limits cfg) sr.1 = w) srs ->
  exists l', count_active (map key_of srs) w l
    = (Reply (map (fun sr => window_count (scope_log sr.1 lg) sr.2 (reading l) w) srs), l')
    /\ st (view (client l')) lg (tokens l') /\ continues (length srs) l l'.
Proof.
  intros [Hc Hst] Hall. destruct (redis_time_ok l) as (s1 & Ht & Ha & Hn).
  destruct (serves_execute false (map (fun k => ZCount k (reading l - seconds w)) (map key_of srs)) s1)
    as (zs & s2 & He & Hrun & Hlt).
  rewrite <- Hn in Hrun.
  destruct (runs_counts srs (view s1) lg (tokens l) zs (view s2) (view s1) w) as [-> Ha2]; try done.
  { intros k. apply aged_at_refl. }
  { by eapply st_aged. }
  exists (set_client s2 l). split_and!.
  - unfold count_active, mbind, op_bind. rewrite Ht. unfold call_client. simpl. rewrite He. by rewrite Hn.
  - simpl. eapply st_aged; [exact Ha2|]. by eapply st_aged.
  - split; [|split; [done|simpl; lia]]. simpl. destruct (Ha "") as [Hle _], (Ha2 "") as [Hle2 _]. lia.
Qed.

Definition add_tokens (k : nat) (l : limiter S) : limiter S :=
  Limiter (client l) (consecutive_failures l) (circuit_opened_at l) (circuit_open_warning_logged l)
    (pool_exhaustion_warning_logged_at l) (clock_reads l) (tokens l + k) (warnings l).

Lemma record_commands_ok srs r w (l : limiter S) :
  record_commands token_hex (map key_of srs) r w l
  = (Reply (recording (tokens l) r w srs), add_tokens (length srs) l).
Proof.
  revert l. induction srs as [|sr srs IH]; intros l; simpl.
  { unfold add_tokens. rewrite Nat.add_0_r. by destruct l. }
  unfold mbind, op_bind, next_token. cbn [fst snd]. rewrite IH. unfold add_tokens. simpl.
  do 3 f_equal. lia.
Qed.

Lemma record_ok srs w l lg :
  redis_sim lg l ->
  Forall (fun sr => used (hashed sr) /\ scope_window (limits cfg) sr.1 = w) srs ->
  (tokens l + length srs <= budget)%nat ->
  exists zs l', record token_hex (map key_of srs) w l = (Reply zs, l')
    /\ st (view (client l')) (foldl (add_event (reading l)) lg srs) (tokens l')
    /\ continues (length srs) l l'.
Proof.
  intros [Hc Hst] Hall Hn0. destruct (redis_time_ok l) as (s1 & Ht & Ha & Hn).
  destruct (serves_execute true (recording (tokens l) (reading l) w srs) s1)
    as (zs & s2 & He & Hrun & Hlt).
  exists zs, (set_client s2 (add_tokens (length srs) l)). split_and!.
  - unfold record, mbind, op_bind. rewrite Ht, record_commands_ok. unfold call_client. simpl. by rewrite He.
  - simpl. eapply (st_recording srs (view s1)); [exact Hrun|by eapply st_aged|lia|lia|done|done].
  - split; [|split; [done|simpl; lia]]. simpl. destruct (Ha "") as [Hle _]. pose proof (runs_now _ _ _ _ Hrun). lia.
Qed.

Lemma delete_ok sr l lg :
  redis_sim lg l -> used (hashed sr) -> sr.1 = EmailIp ->
  exists n s', call_client (redis_delete (key_of sr)) l = (Reply n, set_client s' l)
    /\ st (view s') (SlidingWindow.Log (base.filter (fun e => e.1 <> sr.2) (SlidingWindow.email_ip_log lg))
              (SlidingWindow.ip_log lg) (SlidingWindow.email_log lg) (SlidingWindow.registration_log lg)
              (SlidingWindow.oidc_log lg)) (tokens l)
    /\ ks_now (view (client l)) <= ks_now (view s').
Proof.
  intros [Hc Hst] Hu Hs. destruct (serves_delete (key_of sr) (client l)) as (n & s' & d & Hd & Ha & Hv).
  exists n, s'. unfold call_client. rewrite Hd. split; [done|]. rewrite Hv, now_set.
  split; [|apply (Ha "")]. apply (st_aged _ _ _ _ Ha) in Hst. split.
  - intros sr' Hu'. rewrite members_set, deadline_set, now_set.
    destruct (decide (key_of sr' = key_of sr)) as [E|Hne].
    + apply key_of_inj in E as ->; [|done..]. rewrite Hs. simpl.
      rewrite event_times_del, !decide_True by done. split; [constructor|done|done].
    + pose proof (st_keys _ _ _ Hst sr' Hu') as Hk. destruct sr' as [[] raw]; try exact Hk. simpl in *.
      rewrite event_times_del, decide_False; [exact Hk|]. intros <-. apply Hne. f_equal.
      destruct sr; simpl in *; congruence.
  - intros sr' m Hu'. rewrite members_set. destruct (decide _); [rewrite lookup_empty; by intros []|].
    by apply (st_issued _ _ _ Hst).
Qed.

Lemma run_operation_ok {A} name (f : op (S:=S) A) l a l' :
  circuit_opened_at l = None -> f l = (Reply a, l') ->
  run_operation breaker_clock cfg name f l = (Some a, mark_success l').
Proof. intros Hc Hf. unfold run_operation, circuit_is_open. by rewrite Hc, Hf. Qed.

(** A call of the limiter, and the time at which it takes place: its reading of the
    clock of Redis, or, where it reads none, the time so far. *)
Definition redis_step (c : call) (l : limiter S) : option bool * limiter S :=
  match c with
  | IsAllowed ip em => answer (Redis.is_allowed breaker_clock sha256_hex cfg ip em l)
  | IsReauthAllowed ip em =>
      answer (Redis.is_account_deletion_reauth_allowed breaker_clock sha256_hex cfg ip em l)
  | RecordFailure ip em i => (None, Redis.record_failure breaker_clock token_hex sha256_hex cfg ip em i l)
  | RecordSuccess ip em => (None, Redis.record_success breaker_clock sha256_hex cfg ip em l)
  | IsRegistrationAllowed ip => answer (Redis.is_registration_allowed breaker_clock sha256_hex cfg ip l)
  | RecordRegistration ip =>
      (None, Redis.record_registration breaker_clock token_hex sha256_hex cfg ip l)
  | IsOidcAllowed ip => answer (Redis.is_oidc_authorization_allowed breaker_clock sha256_hex cfg ip l)
  | RecordOidc ip => (None, Redis.record_oidc_authorization breaker_clock token_hex sha256_hex cfg ip l)
  end.
Definition call_time (c : call) (l : limiter S) : Z :=
  match c with RecordSuccess _ _ => ks_now (view (client l)) | _ => reading l end.
Fixpoint redis_trace (calls : list call) (l : limiter S) : list (Z * call) :=
  match calls with
  | [] => []
  | c :: calls' => (call_time c l, c) :: redis_trace calls' (redis_step c l).2
  end.

Lemma run_check_sim name (g : list Z -> bool) srs w l lg :
  redis_sim lg l ->
  Forall (fun sr => used (hashed sr) /\ scope_window (limits cfg) sr.1 = w) srs ->
  let p := run_check_operation breaker_clock cfg name
             (fun l => op_bind _ _ (fun counts => op_ret _ (g counts)) (count_active (map key_of srs) w) l) l in
  p.1 = g (map (fun sr => window_count (scope_log sr.1 lg) sr.2 (reading l) w) srs)
  /\ redis_sim lg p.2 /\ ks_now (view (client l)) <= reading l <= ks_now (view (client p.2))
  /\ (tokens p.2 <= tokens l + length srs)%nat.
Proof.
  intros Hsim Hall. destruct (count_active_ok srs w l lg Hsim Hall) as (l' & Hc & Hst & Ht & _ & Hn).
  unfold run_check_operation.
  rewrite (run_operation_ok name _ l (g (map (fun sr => window_count (scope_log sr.1 lg) sr.2 (reading l) w) srs)) l');
    [|apply Hsim|unfold op_bind; by rewrite Hc]. split_and!; [done|by split|simpl in *; lia..].
Qed.

Lemma run_record_sim name srs w l lg :
  redis_sim lg l ->
  Forall (fun sr => used (hashed sr) /\ scope_window (limits cfg) sr.1 = w) srs ->
  (tokens l + length srs <= budget)%nat ->
  let l' := run_record_operation breaker_clock cfg name (record token_hex (map key_of srs) w) l in
  redis_sim (foldl (add_event (reading l)) lg srs) l'
  /\ ks_now (view (client l)) <= reading l <= ks_now (view (client l'))
  /\ (tokens l' <= tokens l + length srs)%nat.
Proof.
  intros Hsim Hall Hn0. destruct (record_ok srs w l lg Hsim Hall Hn0) as (zs & l' & Hr & Hst & Ht & _ & Hn).
  unfold run_record_operation. rewrite (run_operation_ok name _ l zs l' (rs_closed _ _ Hsim) Hr).
  by split.
Qed.

Lemma bucket_windows c :
  Forall (fun sr => used (hashed sr)) (call_buckets c) ->
  Forall (fun sr => used (hashed sr) /\ scope_window (limits cfg) sr.1
            = match c with
              | IsRegistrationAllowed _ | RecordRegistration _ =>
                  InMemory.registration_window_seconds (limits cfg)
              | _ => InMemory.window_seconds (limits cfg)
              end) (call_buckets c).
Proof.
  intros H. apply Forall_and. split; [done|].
  destruct c as [| |? ? []| | | | |]; simpl; repeat constructor.
Qed.

Lemma redis_step_sim c l lg :
  redis_sim lg l -> Forall (fun sr => used (hashed sr)) (call_buckets c) ->
  (tokens l + length (call_buckets c) <= budget)%nat ->
  let t := call_time c l in
  (redis_step c l).1 = (spec_step (limits cfg) t c lg).1
  /\ redis_sim (spec_step (limits cfg) t c lg).2 (redis_step c l).2
  /\ ks_now (view (client l)) <= t <= ks_now (view (client (redis_step c l).2))
  /\ (tokens (redis_step c l).2 <= tokens l + length (call_buckets c))%nat.
Proof.
  intros Hsim Hu Hn t. pose proof (bucket_windows c Hu) as Hw. set (c0 := c) in Hw.
  assert (forall name g, let p := run_check_operation breaker_clock cfg name
      (fun l => op_bind _ _ (fun counts => op_ret _ (g counts)) (count_active (map key_of (call_buckets c0)) _) l) l in _)
    as Hcheck by (intros name g; exact (run_check_sim name g _ _ l lg Hsim Hw)).
  pose proof (fun name => run_record_sim name _ _ l lg Hsim Hw Hn) as Hrecord.
  subst t. destruct c as [ip em|ip em|ip em i|ip em|ip|ip|ip|ip]; simpl in Hw.
  - destruct (Hcheck "is_allowed"%string (fun counts =>
      (nth 0 counts 0 <? InMemory.max_failures_per_email_ip (limits cfg))
      && (nth 1 counts 0 <? InMemory.max_failures_per_ip (limits cfg))
      && (nth 2 counts 0 <? InMemory.max_failures_per_email (limits cfg)))) as (H1 & H2 & H3).
    exact (conj (f_equal Some H1) (conj H2 H3)).
  - destruct (Hcheck "is_account_deletion_reauth_allowed"%string (fun counts =>
      (nth 0 counts 0 <? InMemory.max_failures_per_email_ip (limits cfg))
      && (nth 1 counts 0 <? InMemory.max_failures_per_ip (limits cfg)))) as (H1 & H2 & H3).
    exact (conj (f_equal Some H1) (conj H2 H3)).
  - destruct (Hrecord "record_failure"%string) as (H1 & H2). destruct lg, i; exact (conj eq_refl (conj H1 H2)).
  - destruct (delete_ok (EmailIp, InMemory.email_ip_key ip em) l lg Hsim) as (n & s' & Hd & Hst & Ht);
      [by apply Forall_cons in Hu as [? _]|done|].
    simpl. unfold record_success, run_record_operation.
    rewrite (run_operation_ok _ _ l n (set_client s' l) (rs_closed _ _ Hsim) Hd).
    split_and!; [done|by split|lia|done|simpl; lia].
  - destruct (Hcheck "is_registration_allowed"%string (fun counts =>
      nth 0 counts 0 <? InMemory.max_registrations_per_ip (limits cfg))) as (H1 & H2 & H3).
    exact (conj (f_equal Some H1) (conj H2 H3)).
  - destruct (Hrecord "record_registration"%string) as (H1 & H2). destruct lg; exact (conj eq_refl (conj H1 H2)).
  - destruct (Hcheck "is_oidc_authorization_allowed"%string (fun counts =>
      nth 0 counts 0 <? InMemory.max_oidc_authorizations_per_ip (limits cfg))) as (H1 & H2 & H3).
    exact (conj (f_equal Some H1) (conj H2 H3)).
  - destruct (Hrecord "record_oidc_authorization"%string) as (H1 & H2). destruct lg; exact (conj eq_refl (conj H1 H2)).
Qed.

Lemma redis_trace_calls calls l : (redis_trace calls l).*2 = calls.
Proof. revert l. induction calls as [|c calls IH]; intros l; simpl; [done|]. by rewrite IH. Qed.

Lemma redis_run_sim calls l lg t :
  redis_sim lg l -> Forall (fun c => Forall (fun sr => used (hashed sr)) (call_buckets c)) calls ->
  t <= ks_now (view (client l)) ->
  (tokens l + length (concat (map call_buckets calls)) <= budget)%nat ->
  let tr := redis_trace calls l in
  monotonic t tr
  /\ (run (fun _ => redis_step) tr l).1 = (run (spec_step (limits cfg)) tr lg).1.
Proof.
  revert l lg t. induction calls as [|c calls IH]; intros l lg t Hsim Hall Ht Hn; simpl in Hn |- *; [done|].
  rewrite length_app in Hn.
  apply Forall_cons in Hall as [Hc Hall].
  destruct (redis_step_sim c l lg Hsim Hc) as (H1 & H2 & [H3 H4] & H5); [lia|].
  destruct (redis_step c l) as [a l'], (spec_step _ _ c lg) as [a' lg']. simpl in *. subst a'.
  destruct (IH l' lg' (call_time c l) H2 Hall H4) as [IH1 IH2]; [lia|].
  split; [split; [lia|done]|].
  destruct (run (fun _ => redis_step) _ l'), (run _ _ lg'). simpl in *. by rewrite IH2.
Qed.
End Contract.

(** C22. The two limiters are interchangeable.  While Redis serves, the Redis limiter
    answers every sequence of calls exactly as the sliding-window contract, at the
    times Redis reports; and so exactly as the in-memory limiter does at these
    times, as long as that one has room for its buckets. *)
Theorem redis_equivalent_to_memory {S : Type} `{RC : RedisClient S} (view : S -> keyspace)
    `{RS : !RedisServes S view} breaker_clock token_hex sha256_hex (cfg : Redis.config)
    (calls : list call) (s0 : S) :
  let buckets := concat (map call_buckets calls) in
  (forall i j, (i < length buckets)%nat -> (j < length buckets)%nat ->
     token_hex i = token_hex j -> i = j) ->
  (forall n, str_len (token_hex n) = 16) ->
  (forall a b, a ∈ map hashed buckets -> b ∈ map hashed buckets ->
     sha256_hex a = sha256_hex b -> a = b) ->
  (forall k, members k (view s0) = ∅) -> (forall k, ks_deadlines (view s0) !! k = None) ->
  let l0 := Redis.new_limiter s0 in
  let redis := redis_step breaker_clock token_hex sha256_hex cfg in
  let tr := redis_trace view breaker_clock token_hex sha256_hex cfg calls l0 in
  tr.*2 = calls /\ monotonic (ks_now (view s0)) tr
  /\ (run (fun _ => redis) tr l0).1 = (run (spec_step (limits cfg)) tr SlidingWindow.empty).1
  /\ (InMemory.cap_warning_scopes (run (impl_step (limits cfg)) tr InMemory.new_limiter).2 = ∅ ->
      (run (fun _ => redis) tr l0).1 = (run (impl_step (limits cfg)) tr InMemory.new_limiter).1).
Proof.
  intros buckets Htok Hlen Hdig Hm Hd l0 redis tr.
  assert (redis_sim view token_hex sha256_hex cfg (fun a => a ∈ map hashed buckets)
            SlidingWindow.empty l0) as Hsim by (split; [done|by apply st_empty]).
  assert (Forall (fun c => Forall (fun sr => hashed sr ∈ map hashed buckets) (call_buckets c)) calls) as Hall.
  { apply Forall_forall. intros c Hc. apply Forall_forall. intros sr Hsr.
    apply list_elem_of_fmap_2. apply list_elem_of_In, in_concat. exists (call_buckets c).
    split; [apply in_map|]; by apply list_elem_of_In. }
  destruct (redis_run_sim view breaker_clock token_hex sha256_hex cfg (fun a => a ∈ map hashed buckets)
    (length buckets) Htok Hlen Hdig calls l0 SlidingWindow.empty (ks_now (view s0)) Hsim Hall)
    as [Hmono Hrun]; [done|done|].
  split_and!; [apply redis_trace_calls|done|done|]. intros Hw.
  etransitivity; [exact Hrun|]. symmetry. by eapply window_refinement.
Qed.

(** ** The circuit breaker *)

Section Breaker.
Context {S : Type} `{RC : RedisClient S} (breaker_clock : nat -> Z) (cfg : Redis.config).
Implicit Types (l : limiter S).

(** The breaker's part of the state. *)
Definition breaker_of l : Z * option Z * bool * option Z * nat * list string :=
  (consecutive_failures l, circuit_opened_at l, circuit_open_warning_logged l,
   pool_exhaustion_warning_logged_at l, clock_reads l, warnings l).

(** An operation that leaves the breaker alone and fails, not for want of a
    connection in the pool. *)
Definition fails_on {A} (f : op (S:=S) A) l : Prop :=
  exists e l1, f l = (Failed e, l1) /\ is_pool_exhaustion e = false /\ breaker_of l1 = breaker_of l.

(** An operation that was tried and failed. *)
Definition failed_attempt l l' : Prop :=
  exists A name (f : op (S:=S) A), fails_on f l /\ l' = (run_operation breaker_clock cfg name f l).2.

Lemma failed_attempt_closed l l' :
  failed_attempt l l' -> circuit_opened_at l = None ->
  consecutive_failures l' = consecutive_failures l + 1
  /\ circuit_opened_at l'
     = if circuit_breaker_failures cfg <=? consecutive_failures l + 1
       then Some (breaker_clock (clock_reads l)) else None.
Proof.
  intros (A & name & f & (e & l1 & Hf & Hp & Hb) & ->) Hc.
  unfold run_operation, circuit_is_open. rewrite Hc, Hf, Hp. cbn [snd].
  unfold breaker_of in Hb. injection Hb as B1 B2 B3 B4 B5 B6. rewrite Hc in B2.
  unfold mark_failure, log_unavailable, read_clock, set_circuit. simpl. rewrite B1, B2, B5.
  by destruct (_ <=? _).
Qed.

Lemma failed_attempts n l l' :
  nsteps failed_attempt n l l' -> circuit_opened_at l = None ->
  consecutive_failures l = 0 -> Z.of_nat n < circuit_breaker_failures cfg ->
  circuit_opened_at l' = None /\ consecutive_failures l' = Z.of_nat n.
Proof.
  intros Hn. revert Hn. revert l'. induction n as [|n IH]; intros l' Hn Hc H0 Hlt.
  { inversion Hn; subst. by split. }
  apply nsteps_inv_r in Hn as (l1 & Hn & Ha). destruct (IH l1 Hn Hc H0) as [Hc1 H1]; [lia|].
  destruct (failed_attempt_closed _ _ Ha Hc1) as [Hf Ho].
  destruct (Z.leb_spec (circuit_breaker_failures cfg) (consecutive_failures l1 + 1)); [lia|].
  split; [done|lia].
Qed.

(** The circuit breaker keeps a failing Redis alone: after the configured number of
    failures in a row the circuit opens; while it is open and the cooldown has not
    passed, no operation touches the client, a check is answered by the policy, and
    the circuit stays open; after the cooldown one operation is tried, and if it
    fails the circuit opens again at once, with the time of that failure. *)
Theorem circuit_breaker n l l' :
  1 <= circuit_breaker_failures cfg -> Z.of_nat n = circuit_breaker_failures cfg ->
  circuit_opened_at l = None -> consecutive_failures l = 0 -> nsteps failed_attempt n l l' ->
  exists opened_at, circuit_opened_at l' = Some opened_at
    /\ (breaker_clock (clock_reads l') - opened_at < circuit_breaker_cooldown cfg ->
        forall name f, let p := run_check_operation breaker_clock cfg name f l' in
          p.1 = fail_open cfg /\ client p.2 = client l' /\ circuit_opened_at p.2 = Some opened_at)
    /\ (circuit_breaker_cooldown cfg <= breaker_clock (clock_reads l') - opened_at ->
        forall name f,
          let p := run_check_operation breaker_clock cfg name f l' in
          let tried := (circuit_is_open breaker_clock cfg l').2 in
          match f tried with
          | (Reply b, _) => p.1 = b /\ circuit_opened_at p.2 = None /\ consecutive_failures p.2 = 0
          | (Failed e, l1) => is_pool_exhaustion e = false -> breaker_of l1 = breaker_of tried ->
              p.1 = fail_open cfg /\ circuit_opened_at p.2 = Some (breaker_clock (clock_reads tried))
          end).
Proof.
  intros H1 Hn Hc H0 Hsteps. destruct n as [|n]; [lia|].
  apply nsteps_inv_r in Hsteps as (l1 & Hsteps & Ha).
  destruct (failed_attempts n l l1 Hsteps Hc H0) as [Hc1 Hf1]; [lia|].
  destruct (failed_attempt_closed _ _ Ha Hc1) as [Hf Ho].
  destruct (Z.leb_spec (circuit_breaker_failures cfg) (consecutive_failures l1 + 1)); [|lia].
  eexists. split; [exact Ho|]. split.
  - intros Hcool name f p. unfold p, run_check_operation, run_operation, circuit_is_open. rewrite Ho.
    unfold read_clock. destruct (Z.ltb_spec (breaker_clock (clock_reads l') - breaker_clock (clock_reads l1))
      (circuit_breaker_cooldown cfg)); [|lia]. cbv beta iota.
    unfold log_unavailable, set_circuit. simpl. rewrite Ho. simpl.
    destruct (circuit_open_warning_logged l'); simpl; done.
  - intros Hcool name f p tried. assert (circuit_is_open breaker_clock cfg l' = (false, tried)) as Ht.
    { unfold tried, circuit_is_open. rewrite Ho. unfold read_clock.
      destruct (Z.ltb_spec (breaker_clock (clock_reads l') - breaker_clock (clock_reads l1))
        (circuit_breaker_cooldown cfg)); [lia|done]. }
    assert (consecutive_failures tried = consecutive_failures l1 + 1) as Hft.
    { rewrite <- Hf. unfold tried, circuit_is_open. rewrite Ho. unfold read_clock. by destruct (_ <? _). }
    unfold p, run_check_operation, run_operation. rewrite Ht.
    destruct (f tried) as [[b|e] l2] eqn:Ef; [done|]. intros Hp Hb. rewrite Hp.
    unfold breaker_of in Hb. injection Hb as B1 B2 B3 B4 B5 B6.
    unfold mark_failure, log_unavailable, read_clock, set_circuit. simpl. rewrite B1, B5, Hft.
    destruct (Z.leb_spec (circuit_breaker_failures cfg) (consecutive_failures l1 + 1 + 1)); [|lia].
    done.
Qed.
End Breaker.

(** ** Concrete clients *)

(** A Redis that runs the commands at once and ticks at each question for the time. *)
Definition tick (d : keyspace) : keyspace :=
  Keyspace (ks_now d + 100000) (ks_zsets d) (ks_deadlines d).
Fixpoint exec_all (cmds : list redis_command) (d : keyspace) : list Z * keyspace :=
  match cmds with
  | [] => ([], d)
  | c :: cmds' => let (z, d1) := exec c d in let (zs, d2) := exec_all cmds' d1 in (z :: zs, d2)
  end.
#[local] Instance demo_redis : RedisClient keyspace := {|
  redis_time d := (Reply (ks_now (tick d) / 1000000, ks_now (tick d) mod 1000000), tick d);
  redis_execute _ cmds d := let (zs, d') := exec_all cmds d in (Reply zs, d');
  redis_delete k d := (Reply 1, set_members k ∅ d);
|}.

Lemma exec_all_runs cmds d :
  runs d cmds (exec_all cmds d).1 (exec_all cmds d).2 /\ ks_now (exec_all cmds d).2 = ks_now d.
Proof.
  revert d. induction cmds as [|c cmds IH]; intros d; simpl.
  { split; [|done]. constructor. intros k. apply aged_at_refl. }
  pose proof (exec_now c d) as Hn. destruct (exec c d) as [z d1] eqn:Ee. destruct (IH d1) as [H1 H2].
  destruct (exec_all cmds d1) as [zs d2]. simpl in *. split; [|lia].
  eapply runs_cons; [intros k; apply aged_at_refl|done|done].
Qed.

#[local] Instance demo_redis_serves : RedisServes keyspace id.
Proof.
  split.
  - intros d. do 3 eexists. split; [reflexivity|]. split.
    + intros k. split; [simpl; lia|by left].
    + unfold id, seconds. pose proof (Z.div_mod (ks_now (tick d)) 1000000). lia.
  - intros t cmds d. destruct (exec_all_runs cmds d) as [H1 H2]. simpl.
    destruct (exec_all cmds d) as [zs d']. exists zs, d'. split_and!; [done|done|].
    simpl in H2. unfold id, seconds. lia.
  - intros k d. do 3 eexists. split; [reflexivity|]. split; [|reflexivity].
    intros j. apply aged_at_refl.
Qed.

Lemma zero_padded_length w n : str_len (zero_padded w n) = Z.of_nat w.
Proof.
  unfold str_len. rewrite <- chars_length. revert n. induction w as [|w IH]; intros n; [done|].
  cbn [zero_padded]. rewrite chars_app, length_app, Nat2Z.inj_add, IH.
  change (length (chars (String _ ""))) with 1%nat. lia.
Qed.

Lemma zero_padded_distinct i j :
  (i < 16)%nat -> (j < 16)%nat -> zero_padded 16 i = zero_padded 16 j -> i = j.
Proof.
  assert (forallb (fun i => forallb (fun j =>
      negb (zero_padded 16 i =? zero_padded 16 j)%string || (i =? j)%nat) (seq 0 16)) (seq 0 16) = true) as H
    by (vm_compute; reflexivity).
  intros Hi Hj Heq. rewrite forallb_forall in H. specialize (H i ltac:(apply in_seq; lia)).
  rewrite forallb_forall in H. specialize (H j ltac:(apply in_seq; lia)).
  apply orb_true_iff in H as [H%negb_true_iff%String.eqb_neq|H]; [done|by apply Nat.eqb_eq].
Qed.

Definition demo_redis_config : Redis.config := Redis.Config demo_config "auth" false 2 (seconds 5).
Definition demo_calls : list call :=
  [ IsAllowed "10.0.0.1" "a@example.com"; RecordFailure "10.0.0.1" "a@example.com" true;
    RecordFailure "10.0.0.1" "a@example.com" true; IsAllowed "10.0.0.1" "a@example.com";
    RecordSuccess "10.0.0.1" "a@example.com"; IsAllowed "10.0.0.1" "a@example.com" ].

Lemma redis_equivalent_to_memory_witness :
  (run (fun _ => redis_step (fun n => Z.of_nat n) (zero_padded 16) (String.append "sha256:") demo_redis_config)
    (redis_trace id (fun n => Z.of_nat n) (zero_padded 16) (String.append "sha256:") demo_redis_config demo_calls
       (Redis.new_limiter (Keyspace 0 ∅ ∅))) (Redis.new_limiter (Keyspace 0 ∅ ∅))).1
  = (run (spec_step demo_config)
      (redis_trace id (fun n => Z.of_nat n) (zero_padded 16) (String.append "sha256:") demo_redis_config demo_calls
         (Redis.new_limiter (Keyspace 0 ∅ ∅))) SlidingWindow.empty).1.
Proof.
  refine (proj1 (proj2 (proj2 (redis_equivalent_to_memory id (fun n => Z.of_nat n) (zero_padded 16)
    (String.append "sha256:") demo_redis_config demo_calls (Keyspace 0 ∅ ∅) _ _ _ _ _)))).
  - intros i j Hi Hj Heq. by apply (zero_padded_distinct i j).
  - intros n. apply zero_padded_length.
  - intros a b _ _ H. injection H as H. exact H.
  - reflexivity.
  - reflexivity.
Defined.

(** A Redis that is down. *)
#[local] Instance redis_down : RedisClient unit := {|
  redis_time s := (Failed TimeoutError, s);
  redis_execute _ _ s := (Failed TimeoutError, s);
  redis_delete _ s := (Failed TimeoutError, s);
|}.

Lemma circuit_breaker_witness : exists opened_at,
  circuit_opened_at
    (run_operation (fun n => Z.of_nat n) (Redis.Config demo_config "auth" false 1 (seconds 5)) "is_allowed"
       (call_client redis_time) (Redis.new_limiter tt)).2 = Some opened_at.
Proof.
  destruct (circuit_breaker (fun n => Z.of_nat n) (Redis.Config demo_config "auth" false 1 (seconds 5)) 1
    (Redis.new_limiter tt)
    (run_operation (fun n => Z.of_nat n) (Redis.Config demo_config "auth" false 1 (seconds 5)) "is_allowed"
       (call_client redis_time) (Redis.new_limiter tt)).2) as (t & Ht & _); [reflexivity..| |].
  - apply nsteps_once. exists (Z * Z)%type, "is_allowed"%string, (call_client redis_time).
    split; [|reflexivity]. eexists _, _. split_and!; reflexivity.
  - exists t. exact Ht.
Defined.
