(* ===== verification/Http.v ===== *)
(** * Requests, responses and cookies

    What the web layer sees of a request and what it builds of a response (the
    Starlette objects), the cookies of src/backend/app/libraries/auth_cookies.py, and
    the outcome of code that may raise an HTTP error. *)

From S2P Require Import Prelude PyStr Errors Time Tables Effects Settings.

(** ** Requests *)

(** [request.client.host], [request.url.path], the ASGI path and root path, and the
    headers with their names in lower case, as ASGI has them. *)
Record Request := mkRequest {
  rq_method : string;
  rq_path : string;
  rq_root_path : string;
  rq_url_path : string;
  rq_client : option string;
  rq_cookies : gmap string string;
  rq_headers : list (string * string);
}.

(** [request.headers.getlist] and [request.headers.get] *)
Definition headers_getlist (name : string) (headers : list (string * string)) : list string :=
  map snd (filter (fun h => h.1 = lower name) headers).
Definition headers_get (name : string) (headers : list (string * string)) : option string :=
  head (headers_getlist name headers).

(** ** Responses *)

Record Cookie := mkCookie {
  ck_key : string;
  ck_value : string;
  ck_httponly : bool;
  ck_samesite : string;
  ck_secure : bool;
  ck_path : string;
  ck_max_age : Z;
}.

(** The body is what is serialised; [JNull] for none. *)
Record Response := mkResponse {
  rs_status : Z;
  rs_headers : list (string * string);
  rs_cookies : list Cookie;
  rs_body : json;
}.

(** [response.headers[name] = value] and [headers.setdefault(name, value)] *)
Fixpoint header_set (name value : string) (headers : list (string * string)) : list (string * string) :=
  match headers with
  | [] => [(name, value)]
  | (n, v) :: headers' =>
      if decide (n = name) then (n, value) :: headers' else (n, v) :: header_set name value headers'
  end.
Definition header_setdefault (name value : string) (headers : list (string * string))
  : list (string * string) :=
  if existsb (fun h => (h.1 =? name)%string) headers then headers else headers ++ [(name, value)].

Definition set_header (name value : string) (r : Response) : Response :=
  mkResponse (rs_status r) (header_set name value (rs_headers r)) (rs_cookies r) (rs_body r).
Definition set_cookie (c : Cookie) (r : Response) : Response :=
  mkResponse (rs_status r) (rs_headers r) (rs_cookies r ++ [c]) (rs_body r).
Definition with_status (status : Z) (r : Response) : Response :=
  mkResponse status (rs_headers r) (rs_cookies r) (rs_body r).
Definition with_body (body : json) (r : Response) : Response :=
  mkResponse (rs_status r) (rs_headers r) (rs_cookies r) body.

(** The injected response of a handler, before anything is set. *)
Definition empty_response : Response := mkResponse 200 [] [] JNull.

(** [RedirectResponse(target, status_code=303)] *)
(* src: backend/app/controllers/auth_controller.py:221-222 oidc_redirect *)
Definition oidc_redirect (redirect_path : string) : Response :=
  mkResponse 303 [("location"%string, redirect_path)] [] JNull.

(** ** Cookies *)

(* src: backend/app/libraries/auth_cookies.py:5-6 SESSION_COOKIE_BASE_NAME *)
Definition SESSION_COOKIE_BASE_NAME : string := "session_token".
Definition CSRF_COOKIE_NAME : string := "csrf_token".

(* src: backend/app/libraries/auth_cookies.py:9-10 session_cookie_name *)
Definition session_cookie_name (settings : AuthSettings) : string :=
  (AUTH_SESSION_COOKIE_PREFIX settings ++ SESSION_COOKIE_BASE_NAME)%string.

(* src: backend/app/libraries/auth_cookies.py:13-14 csrf_cookie_name *)
Definition csrf_cookie_name : string := CSRF_COOKIE_NAME.

(* src: backend/app/libraries/auth_cookies.py:55-57 _validate_host_prefix *)
Definition cookie_host_prefix (key : string) (secure : bool) : result unit :=
  if startswith key "__Host-" && negb secure
  then Raise (ValueError "__Host- cookies must use Secure=True, Path=/, and no Domain.")
  else Ok tt.

(* src: backend/app/libraries/auth_cookies.py:17-34 set_auth_cookie *)
Definition set_auth_cookie (key value : string) (httponly secure : bool) (max_age_seconds : Z)
    (response : Response) : result Response :=
  _ ← cookie_host_prefix key secure;
  Ok (set_cookie (mkCookie key value httponly "lax" secure "/" max_age_seconds) response).

(* src: backend/app/libraries/auth_cookies.py:37-52 clear_auth_cookie *)
Definition clear_auth_cookie (key : string) (httponly secure : bool) (response : Response)
  : result Response :=
  _ ← cookie_host_prefix key secure;
  Ok (set_cookie (mkCookie key "" httponly "lax" secure "/" 0) response).

(** ** Outcomes *)

(** [HTTPException]: the detail is what [api_error] builds or the text of Starlette. *)
Inductive http_detail :=
| DetailDict (d : list (string * json))
| DetailText (s : string)
| DetailOther.

Record HTTPException := HttpException {
  he_status_code : Z;
  he_detail : http_detail;
  he_headers : list (string * string);
}.

(** What a handler raises: an HTTP error of its own, or an exception it lets through. *)
Inductive web_exn := HttpError (e : HTTPException) | Uncaught (e : exn).

Inductive outcome (A : Type) := Done (a : A) | Failed (e : web_exn).
Arguments Done {A} a.
Arguments Failed {A} e.

(** Handlers run in the world of the use cases. *)
Definition Web (L A : Type) : Type := World L -> outcome A * World L.

#[export] Instance web_ret L : MRet (Web L) := fun A a w => (Done a, w).
#[export] Instance web_bind L : MBind (Web L) := fun A B f m w =>
  match m w with
  | (Done a, w') => f a w'
  | (Failed e, w') => (Failed e, w')
  end.

Section Web.
Context {L : Type}.

Definition web_raise {A} (e : HTTPException) : Web L A := fun w => (Failed (HttpError e), w).

(** [try: await call except E as error: raise api_error(...) from error]; [to_http] is
    [None] where no clause matches. *)
Definition calling {A} (call : M L A) (to_http : exn -> option HTTPException) : Web L A := fun w =>
  match call w with
  | (Ok a, w') => (Done a, w')
  | (Raise e, w') =>
      (Failed (match to_http e with Some h => HttpError h | None => Uncaught e end), w')
  end.

(** A call outside any [try]. *)
Definition awaiting {A} (call : M L A) : Web L A := calling call (fun _ => None).

Definition pure_web {A} (r : result A) : Web L A := fun w =>
  (match r with Ok a => Done a | Raise e => Failed (Uncaught e) end, w).
End Web.

(** ** Laws *)

Section Laws.
Context {L : Type}.

Lemma web_bind_inv {A B} (m : Web L A) (f : A -> Web L B) w o w' :
  (m ≫= f) w = (o, w') ->
  (exists e, m w = (Failed e, w') /\ o = Failed e)
  \/ (exists a w1, m w = (Done a, w1) /\ f a w1 = (o, w')).
Proof.
  unfold mbind, web_bind. destruct (m w) as [[a|e] w1]; intros H.
  - right. by exists a, w1.
  - left. exists e. by injection H as <- <-.
Qed.

Lemma web_bind_done {A B} (m : Web L A) (f : A -> Web L B) w b w' :
  (m ≫= f) w = (Done b, w') -> exists a w1, m w = (Done a, w1) /\ f a w1 = (Done b, w').
Proof. by intros [(e & _ & ?)|?]%web_bind_inv. Qed.

Lemma calling_done {A} (call : M L A) to_http w a w' :
  calling call to_http w = (Done a, w') -> call w = (Ok a, w').
Proof. unfold calling. destruct (call w) as [[x|e] w1]; [|done]. by intros [= -> ->]. Qed.

Lemma pure_web_done {A} (r : result A) (w : World L) a w' :
  pure_web r w = (Done a, w') -> r = Ok a /\ w' = w.
Proof. unfold pure_web. destruct r; [|done]. by intros [= -> ->]. Qed.
End Laws.
