(* ===== verification/ErrorHandlers.v ===== *)
(** * Problem details

    Models src/backend/app/models/problem_types.py and
    src/backend/app/bootstrap/error_handlers.py: the registry of problem types, HTTP
    errors, and the problem document each exception handler answers with.  Logging is
    left out; a document is the JSON object that is serialised.
    At the end, what a problem document says. *)

From S2P Require Import Prelude PyStr Errors Time Tables Settings Effects Http Url UrlQuery.

(** ** Problem types *)

(* src: backend/app/models/problem_types.py:4-9 ProblemType *)
Record ProblemType := mkProblemType {
  pt_code : string;
  pt_type : string;
  pt_title : string;
  pt_status : Z;
}.

#[export] Instance problem_type_eq_dec : EqDecision ProblemType.
Proof. solve_decision. Defined.

(* src: backend/app/models/problem_types.py:12-18 _problem_type *)
Definition problem_type (code title : string) (status : Z) : ProblemType :=
  mkProblemType code ("/problems/" ++ code) title status.

(* src: backend/app/models/problem_types.py:21-126 PROBLEM_TYPES *)
Definition PROBLEM_TYPES : gmap string ProblemType :=
  list_to_map (map (fun p => (pt_code p, p)) [
    problem_type "bad_request" "Bad request" 400;
    problem_type "unauthorized" "Unauthorized" 401;
    problem_type "forbidden" "Forbidden" 403;
    problem_type "permission_denied" "Permission denied" 403;
    problem_type "not_found" "Not found" 404;
    problem_type "method_not_allowed" "Method not allowed" 405;
    problem_type "not_acceptable" "Not acceptable" 406;
    problem_type "conflict" "Conflict" 409;
    problem_type "unsupported_media_type" "Unsupported media type" 415;
    problem_type "validation_error" "Validation error" 422;
    problem_type "rate_limited" "Rate limited" 429;
    problem_type "internal_server_error" "Internal server error" 500;
    problem_type "csrf_validation_failed" "CSRF validation failed" 403;
    problem_type "invalid_admin_user_query" "Invalid admin user query" 422;
    problem_type "email_already_registered" "Email already registered" 409;
    problem_type "weak_password" "Weak password" 422;
    problem_type "role_not_found" "Role not found" 422;
    problem_type "user_not_found" "User not found" 404;
    problem_type "sample_item_invalid_cursor" "Invalid sample item cursor" 400;
    problem_type "sample_item_not_found" "Sample item not found" 404;
    problem_type "account_deletion_confirmation_mismatch" "Account deletion confirmation mismatch" 400;
    problem_type "account_deletion_reauth_required" "Account deletion reauthentication required" 400;
    problem_type "account_deletion_invalid_password" "Account deletion invalid password" 400;
    problem_type "account_deletion_oidc_reauth_required"
      "Account deletion OIDC reauthentication required" 400;
    problem_type "account_deletion_reauth_rate_limited"
      "Account deletion reauthentication rate limited" 429;
    problem_type "invalid_credentials" "Invalid credentials" 401;
    problem_type "register_rate_limited" "Register rate limited" 429;
    problem_type "login_rate_limited" "Login rate limited" 429
  ]%string).

(* src: backend/app/models/problem_types.py:128-140 _STATUS_DEFAULT_CODES *)
Definition STATUS_DEFAULT_CODES : list (Z * string) :=
  [(400, "bad_request"); (401, "unauthorized"); (403, "forbidden"); (404, "not_found");
   (405, "method_not_allowed"); (406, "not_acceptable"); (409, "conflict");
   (415, "unsupported_media_type"); (422, "validation_error"); (429, "rate_limited");
   (500, "internal_server_error")]%string.

(* src: backend/app/models/problem_types.py:143-144 normalize_problem_code *)
Definition normalize_problem_code (code : string) : string := lower code.

Definition http_error_type (status_code : Z) : ProblemType :=
  mkProblemType "http_error" "/problems/http_error" "HTTP error" status_code.

(* src: backend/app/models/problem_types.py:154-163 problem_type_for_status *)
Definition problem_type_for_status (status_code : Z) : ProblemType :=
  match find (fun p => p.1 =? status_code) STATUS_DEFAULT_CODES with
  | Some (_, default_code) => default (http_error_type status_code) (PROBLEM_TYPES !! default_code)
  | None => http_error_type status_code
  end.

(* src: backend/app/models/problem_types.py:147-151 problem_type_for_code *)
Definition problem_type_for_code (code : string) (fallback_status : Z) : ProblemType :=
  default (problem_type_for_status fallback_status) (PROBLEM_TYPES !! normalize_problem_code code).

(** ** [str] and the truth of a value *)

Definition json_truthy (j : json) : bool :=
  match j with
  | JNull => false
  | JBool b => b
  | JInt n => negb (n =? 0)
  | JStr s => truthy s
  | JArr l => negb (match l with [] => true | _ => false end)
  | JObj d => negb (match d with [] => true | _ => false end)
  end.

(** [repr] of a string: quotes, escapes, and the codes that do not print. *)
Definition hex2 (c : ascii) : string := of_chars (hex_digits 2 (code c)).
Definition printable (c : ascii) : bool :=
  let n := code c in
  (32 <=? n) && (n <=? 126) || (161 <=? n) && negb (n =? 173).
Definition repr_char (quote c : ascii) : string :=
  if Ascii.eqb c quote || (c =? "\")%char then String "\" (String c "")
  else if code c =? 10 then "\n"
  else if code c =? 13 then "\r"
  else if code c =? 9 then "\t"
  else if printable c then String c ""
  else "\x" ++ hex2 c.
Definition py_repr_str (s : string) : string :=
  let quote := if contains_char "'" s && negb (contains_char "034" s) then "034"%char else "'"%char in
  String quote (String.concat "" (map (repr_char quote) (chars s)) ++ String quote "").

Fixpoint py_repr (j : json) : string :=
  match j with
  | JNull => "None"
  | JBool b => if b then "True" else "False"
  | JInt n => pretty n
  | JStr s => py_repr_str s
  | JArr l => "[" ++ join ", " (map py_repr l) ++ "]"
  | JObj d => "{" ++ join ", " (map (fun p => py_repr_str p.1 ++ ": " ++ py_repr p.2) d) ++ "}"
  end%string.
Definition py_str (j : json) : string := match j with JStr s => s | _ => py_repr j end.

(** ** HTTP errors *)

(* src: backend/app/bootstrap/error_handlers.py:17-25 RESERVED_PROBLEM_DETAILS_MEMBERS *)
Definition RESERVED_PROBLEM_DETAILS_MEMBERS : list string :=
  ["type"; "title"; "status"; "detail"; "instance"; "code"; "errors"]%string.

(** [detail.update(extensions)] *)
Definition dict_update (d changes : list (string * json)) : list (string * json) :=
  fold_left (fun d p => json_set p.1 p.2 d) changes d.

(* src: backend/app/bootstrap/error_handlers.py:28-48 api_error *)
Definition api_error_with (status_code : Z) (code message : string) (headers : list (string * string))
    (errors : list json) (extensions : list (string * json)) : HTTPException :=
  let detail := [("code", JStr code); ("detail", JStr message)]%string in
  let detail := match errors with [] => detail | _ => json_set "errors" (JArr errors) detail end in
  HttpException status_code (DetailDict (dict_update detail extensions)) headers.
Definition api_error (status_code : Z) (code message : string) : HTTPException :=
  api_error_with status_code code message [] [] [].

(* src: backend/app/bootstrap/error_handlers.py:198-201 _default_detail *)
Definition default_detail (status_code : Z) : string :=
  if status_code =? 500 then "Internal server error" else "HTTP error".

(* src: backend/app/bootstrap/error_handlers.py:108-125 _error_parts *)
Definition error_parts (status_code : Z) (detail : http_detail)
  : string * string * list json * list (string * json) :=
  match detail with
  | DetailDict d =>
      let got k := default JNull (json_get k d) in
      let code := if json_truthy (got "code"%string) then py_str (got "code"%string)
                  else pt_code (problem_type_for_status status_code) in
      let message := if json_truthy (got "detail"%string) then py_str (got "detail"%string)
                     else default_detail status_code in
      let raw_errors := if json_truthy (got "errors"%string) then got "errors"%string else JArr [] in
      let errors := match raw_errors with JArr l => l | e => [e] end in
      (code, message, errors,
       filter (fun p => p.1 ∉ ["code"; "detail"; "errors"]%string) d)
  | DetailText s => (pt_code (problem_type_for_status status_code), s, [], [])
  | DetailOther =>
      (pt_code (problem_type_for_status status_code), default_detail status_code, [], [])
  end.

(* src: backend/app/bootstrap/error_handlers.py:183-191 _safe_problem_extensions *)
Definition safe_problem_extensions (extensions : list (string * json)) : list (string * json) :=
  filter (fun p => p.1 ∉ RESERVED_PROBLEM_DETAILS_MEMBERS) extensions.

#[export] Instance json_not_null_dec (p : string * json) : Decision (p.2 <> JNull).
Proof. destruct p as [k []]; simpl; (left; discriminate) || (right; by intros H). Defined.

(** [model_dump(exclude_none=True)] of the members in their order: those that are
    [None] are left out. *)
Definition exclude_none (members : list (string * json)) : list (string * json) :=
  filter (fun p => p.2 <> JNull) members.

(** The document and its media type. *)
(* src: backend/app/bootstrap/error_handlers.py:128-164 problem_response *)
Definition problem_response (status_code : Z) (code detail : string) (errors : list json)
    (extensions : list (string * json)) (request_path : option string)
    (headers : list (string * string)) : Response :=
  let response_headers :=
    if status_code =? 401 then header_setdefault "Cache-Control" "no-store" headers else headers in
  let problem := problem_type_for_code code status_code in
  let payload :=
    [("type", JStr (pt_type problem)); ("title", JStr (pt_title problem));
     ("status", JInt status_code); ("detail", JStr detail);
     ("instance", json_opt_str request_path); ("code", JStr (pt_code problem));
     ("errors", match errors with [] => JNull | _ => JArr errors end)]%string
    ++ safe_problem_extensions extensions in
  mkResponse status_code (header_setdefault "content-type" "application/problem+json" response_headers) []
    (JObj (exclude_none payload)).

(* src: backend/app/bootstrap/error_handlers.py:57-72 http_exception_handler *)
Definition http_exception_handler (request : Request) (exc : HTTPException) : Response :=
  let '(code, detail, errors, extensions) := error_parts (he_status_code exc) (he_detail exc) in
  problem_response (he_status_code exc) code detail errors extensions (Some (rq_url_path request))
    (he_headers exc).

(* src: backend/app/bootstrap/error_handlers.py:91-105 unhandled_exception_handler *)
Definition unhandled_exception_handler (request : Request) : Response :=
  problem_response 500 "internal_server_error" "Internal server error" [] []
    (Some (rq_url_path request)) [].

(** ** Validation errors *)

(** A part of the location of an error, as Pydantic reports it. *)
Inductive loc_part := LocStr (s : string) | LocInt (n : Z).
Definition loc_str (p : loc_part) : string := match p with LocStr s => s | LocInt n => pretty n end.

Record validation_error := ValidationError {
  ve_loc : list loc_part;
  ve_msg : option string;
  ve_type : option string;
}.

(** [str(part).replace("~", "~0").replace("/", "~1")] *)
(* src: backend/app/bootstrap/error_handlers.py:193-195 _json_pointer *)
Definition escape_part (part : string) : string :=
  replace_char "/" "~1" (replace_char "~" "~0" part).
Definition json_pointer (parts : list loc_part) : string :=
  "#/" ++ join "/" (map (fun p => escape_part (loc_str p)) parts).

(* src: backend/app/bootstrap/error_handlers.py:167-178 _validation_error_item *)
Definition validation_error_item (error : validation_error) : json :=
  let location := match ve_loc error with [] => None | p :: _ => Some (loc_str p) end in
  let field_path := tail (ve_loc error) in
  let pointer :=
    if bool_decide (location = Some "body"%string) && negb (match field_path with [] => true | _ => false end)
    then Some (json_pointer field_path) else None in
  let parameter :=
    match location, field_path with
    | Some l, p :: _ => if existsb (String.eqb l) ["query"; "path"; "header"; "cookie"]%string
                        then Some (loc_str p) else None
    | _, _ => None
    end in
  JObj (exclude_none
    [("location", json_opt_str location); ("pointer", json_opt_str pointer);
     ("parameter", json_opt_str parameter); ("detail", JStr (default "Invalid input" (ve_msg error)));
     ("code", JStr (default "value_error" (ve_type error)))]%string).

(* src: backend/app/bootstrap/error_handlers.py:75-88 validation_exception_handler *)
Definition validation_exception_handler (request : Request) (errors : list validation_error) : Response :=
  problem_response 422 "validation_error" "Request validation failed."
    (map validation_error_item errors) [] (Some (rq_url_path request)) [].

(** ** What a problem document says

    The members of the documents the exception handlers answer with: no extension can
    forge them, and the JSON pointers of validation errors can be read back. *)

(** ** The registry *)

Lemma problem_types_keys : map_Forall (fun k p => lower k = k /\ k <> "" /\ pt_code p = k) PROBLEM_TYPES.
Proof. apply (bool_decide_unpack _). vm_compute. exact I. Qed.

Lemma default_codes_registered :
  forallb (fun p => match PROBLEM_TYPES !! p.2 with Some t => pt_status t =? p.1 | None => false end)
    STATUS_DEFAULT_CODES = true.
Proof. vm_compute. reflexivity. Qed.

Lemma problem_type_for_registered code p status :
  PROBLEM_TYPES !! code = Some p -> problem_type_for_code code status = p.
Proof.
  intros Hp. destruct (problem_types_keys _ _ Hp) as (Hl & _).
  unfold problem_type_for_code, normalize_problem_code. by rewrite Hl, Hp.
Qed.

(** ** Members of a document *)

Lemma json_get_filter (f : string * json -> Prop) `{forall p, Decision (f p)} k d v :
  json_get k d = Some v -> f (k, v) -> json_get k (filter f d) = Some v.
Proof.
  induction d as [|[k' v'] d IH]; [done|]. simpl. intros Hg Hf. rewrite filter_cons.
  destruct (decide (k' = k)) as [->|Hk].
  - injection Hg as ->. rewrite decide_True by done. simpl. by rewrite decide_True.
  - destruct (decide (f (k', v'))); [|by apply IH]. simpl. rewrite decide_False by done. by apply IH.
Qed.

Lemma json_get_filter_None (f : string * json -> Prop) `{forall p, Decision (f p)} k d :
  (forall v, ~ f (k, v)) -> json_get k (filter f d) = None.
Proof.
  intros Hn. induction d as [|[k' v'] d IH]; [done|]. rewrite filter_cons.
  destruct (decide (f (k', v'))) as [Hf|]; [|done]. simpl.
  rewrite decide_False by (intros ->; by apply (Hn v')). done.
Qed.

Lemma json_get_app k d d' :
  json_get k (d ++ d') = match json_get k d with Some v => Some v | None => json_get k d' end.
Proof. induction d as [|[k' v'] d IH]; [done|]. simpl. by destruct (decide (k' = k)). Qed.

Lemma json_get_not_in k d : k ∉ map fst d -> json_get k d = None.
Proof.
  induction d as [|[k' v'] d IH]; [done|]. simpl. intros [Hk Hd]%not_elem_of_cons.
  rewrite decide_False by congruence. by apply IH.
Qed.

(** What an extension member must satisfy to appear. *)
Lemma json_get_safe k extensions :
  json_get k (safe_problem_extensions extensions)
  = if decide (k ∈ RESERVED_PROBLEM_DETAILS_MEMBERS) then None else json_get k extensions.
Proof.
  unfold safe_problem_extensions. destruct (decide _) as [Hk|Hk].
  - apply json_get_filter_None. by intros v Hv.
  - destruct (json_get k extensions) as [v|] eqn:Eg; [by apply json_get_filter|].
    induction extensions as [|[k' v'] l IH]; [done|]. simpl in Eg. rewrite filter_cons.
    destruct (decide (k' = k)) as [->|Hne]; [done|]. destruct (decide _); [|by apply IH].
    simpl. rewrite decide_False by done. by apply IH.
Qed.

Lemma problem_members status code detail errors extensions path headers :
  let problem := problem_type_for_code code status in
  exists body, rs_body (problem_response status code detail errors extensions path headers) = JObj body
    /\ json_get "type" body = Some (JStr (pt_type problem))
    /\ json_get "title" body = Some (JStr (pt_title problem))
    /\ json_get "status" body = Some (JInt status)
    /\ json_get "detail" body = Some (JStr detail)
    /\ json_get "code" body = Some (JStr (pt_code problem))
    /\ forall k v, k ∉ RESERVED_PROBLEM_DETAILS_MEMBERS -> v <> JNull ->
         json_get k extensions = Some v -> json_get k body = Some v.
Proof.
  cbv zeta. unfold problem_response. set (problem := problem_type_for_code code status).
  clearbody problem. cbv zeta. cbn [rs_status rs_body]. eexists. split; [reflexivity|].
  split_and!; try (apply json_get_filter; [reflexivity|discriminate]).
  intros k v Hk Hv Hg. apply json_get_filter; [|done]. rewrite json_get_app.
  assert (json_get k (safe_problem_extensions extensions) = Some v) as Hs
    by (rewrite json_get_safe, decide_False by done; done).
  by rewrite json_get_not_in.
Qed.

(** The members of a problem document cannot be forged: whatever the extensions,
    the type, title and code are those of the registered problem type of the code (or
    of the status), the status is the response's, the detail is the given one; an
    extension member that is neither reserved nor [None] appears with its value. *)
Theorem problem_document_members status code detail errors extensions path headers :
  let problem := problem_type_for_code code status in
  exists body, rs_body (problem_response status code detail errors extensions path headers) = JObj body
    /\ json_get "type" body = Some (JStr (pt_type problem))
    /\ json_get "title" body = Some (JStr (pt_title problem))
    /\ json_get "status" body = Some (JInt status)
    /\ json_get "detail" body = Some (JStr detail)
    /\ json_get "code" body = Some (JStr (pt_code problem))
    /\ rs_status (problem_response status code detail errors extensions path headers) = status
    /\ forall k v, k ∉ RESERVED_PROBLEM_DETAILS_MEMBERS -> v <> JNull ->
         json_get k extensions = Some v -> json_get k body = Some v.
Proof.
  cbv zeta. destruct (problem_members status code detail errors extensions path headers)
    as (body & ? & ? & ? & ? & ? & ? & ?). by exists body.
Qed.

(** ** JSON pointers *)

(** The reader of RFC 6901: split at slashes, then [~1] and [~0] are unescaped. *)
Fixpoint unescape_chars (l : list ascii) : list ascii :=
  match l with
  | "~"%char :: "1"%char :: l' => "/"%char :: unescape_chars l'
  | "~"%char :: "0"%char :: l' => "~"%char :: unescape_chars l'
  | c :: l' => c :: unescape_chars l'
  | [] => []
  end.
Definition read_pointer (pointer : string) : option (list string) :=
  match chars pointer with
  | "#"%char :: "/"%char :: l => Some (map (fun p => of_chars (unescape_chars p)) (split_chars "/" l))
  | _ => None
  end.

Definition pointer_escape (c : ascii) : list ascii :=
  if Ascii.eqb c "~" then ["~"; "0"]%char else if Ascii.eqb c "/" then ["~"; "1"]%char else [c].

Lemma chars_escape_part s : chars (escape_part s) = flat_map pointer_escape (chars s).
Proof.
  unfold escape_part. rewrite !chars_replace. induction (chars s) as [|c l IH]; [done|].
  cbn [flat_map]. rewrite flat_map_app, IH. f_equal. unfold pointer_escape.
  destruct c as [[] [] [] [] [] [] [] []]; reflexivity.
Qed.

Lemma unescape_escape l : unescape_chars (flat_map pointer_escape l) = l.
Proof.
  induction l as [|c l IH]; [done|]. simpl. unfold pointer_escape at 1.
  destruct (Ascii.eqb_spec c "~") as [->|H1]; [simpl; by rewrite IH|].
  destruct (Ascii.eqb_spec c "/") as [->|H2]; [simpl; by rewrite IH|].
  simpl. rewrite IH. destruct c as [[] [] [] [] [] [] [] []]; done.
Qed.

Lemma escape_no_slash l : mem_char "/" (flat_map pointer_escape l) = false.
Proof.
  induction l as [|c l IH]; [done|]. cbn [flat_map]. unfold mem_char in *. rewrite existsb_app, IH, orb_false_r.
  destruct c as [[] [] [] [] [] [] [] []]; reflexivity.
Qed.

Lemma chars_join c parts : chars (join (String c "") parts) = join_chars c (map chars parts).
Proof.
  unfold join. induction parts as [|p [|q parts] IH]; [done|done|].
  change (String.concat (String c "") (p :: q :: parts))
    with (p ++ String c "" ++ String.concat (String c "") (q :: parts))%string.
  rewrite !chars_app, IH. done.
Qed.

(** The pointer of a validation error names the field it is about: read back by the
    rules of JSON Pointer it gives the parts of the location, whatever characters
    they have. *)
Theorem json_pointer_round_trip parts :
  parts <> [] -> read_pointer (json_pointer parts) = Some (map loc_str parts).
Proof.
  intros Hne. unfold json_pointer, read_pointer. rewrite chars_app, chars_join.
  cbn [chars app]. rewrite split_join.
  - rewrite !map_map. f_equal. apply map_ext. intros p.
    by rewrite chars_escape_part, unescape_escape, of_chars_chars.
  - by destruct parts.
  - apply Forall_forall. intros p Hp. apply list_elem_of_In, in_map_iff in Hp as (q & <- & Hq).
    apply in_map_iff in Hq as (r & <- & _). rewrite chars_escape_part. apply escape_no_slash.
Qed.

Lemma json_pointer_round_trip_witness :
  read_pointer (json_pointer [LocStr "a/b~"; LocInt 3]) = Some ["a/b~"; "3"]%string.
Proof. apply (json_pointer_round_trip [LocStr "a/b~"; LocInt 3]). discriminate. Defined.
