(* ===== verification/ClientIp.v ===== *)
(** * The client's address

    Models src/backend/app/libraries/client_ip.py: the address of the peer, or the
    one that trusted proxies report in [X-Forwarded-For]; and the user agent.
    At the end, which address a request is attributed to. *)

From S2P Require Import Prelude PyStr Errors Time Url Ipaddress Tables Settings Effects Http.

(* src: backend/app/libraries/client_ip.py:7-15 parse_trusted_proxy_networks *)
Fixpoint parse_networks (values : list string) : result (list network) :=
  match values with
  | [] => Ok []
  | raw_value :: values' =>
      let value := strip raw_value in
      if negb (truthy value) then parse_networks values'
      else match ip_network value with
           | None => Raise (ValueError "does not appear to be an IPv4 or IPv6 network")
           | Some n => networks ← parse_networks values'; Ok (n :: networks)
           end
  end.
Definition parse_trusted_proxy_networks (trusted_proxy_ips : string) : result (list network) :=
  parse_networks (split "," trusted_proxy_ips).

(* src: backend/app/libraries/client_ip.py:90-92 _normalize_ip_address *)
Definition normalize_ip_address (candidate : address) : address :=
  default candidate (ipv4_mapped candidate).

(* src: backend/app/libraries/client_ip.py:95-96 _is_trusted *)
Definition is_trusted (candidate : address) (trusted_networks : list network) : bool :=
  existsb (in_network candidate) trusted_networks.

(* src: backend/app/libraries/client_ip.py:43-49 _parse_direct_client_ip *)
Definition parse_direct_client_ip (request : Request) : option address :=
  host ← rq_client request; normalize_ip_address <$> ip_address host.

(** [str.isdigit] on Latin-1 text: the superscripts are digits, too. *)
Definition py_isdigit (l : list ascii) : bool :=
  match l with
  | [] => false
  | _ => forallb (fun c => is_digit c || existsb (Z.eqb (code c)) [178; 179; 185]) l
  end.

(** [value.rsplit(":", 1)] for a value with one colon; [value.index("]")] cuts at the
    first. *)
(* src: backend/app/libraries/client_ip.py:52-67 _parse_forwarded_for_ip *)
Definition parse_forwarded_for_ip (value : string) : option address :=
  match ip_address value with
  | Some a => Some (normalize_ip_address a)
  | None =>
      if startswith value "[" && contains_char "]" value then
        normalize_ip_address
          <$> ip_address (of_chars (drop 1 (partition_at "]" (chars value)).1))
      else if (length (split_chars ":" (chars value)) =? 2)%nat then
        match partition_at ":" (chars value) with
        | (host, Some port) =>
            if py_isdigit port then normalize_ip_address <$> ip_address (of_chars host) else None
        | _ => None
        end
      else None
  end.

(** The loop over the entries from the right. *)
(* src: backend/app/libraries/client_ip.py:70-87 _resolve_forwarded_for_client_ip *)
Fixpoint scan_forwarded (trusted_networks : list network) (direct_ip leftmost_candidate : address)
    (reversed : list string) : address :=
  match reversed with
  | [] => leftmost_candidate
  | raw_value :: rest =>
      let value := strip raw_value in
      if negb (truthy value) then direct_ip
      else match parse_forwarded_for_ip value with
           | None => direct_ip
           | Some candidate =>
               if negb (is_trusted candidate trusted_networks) then candidate
               else scan_forwarded trusted_networks direct_ip candidate rest
           end
  end.
Definition resolve_forwarded_for_client_ip (forwarded_for : string)
    (trusted_networks : list network) (direct_ip : address) : address :=
  scan_forwarded trusted_networks direct_ip direct_ip (rev (split "," forwarded_for)).

(* src: backend/app/libraries/client_ip.py:18-35 resolve_client_ip *)
Definition resolve_client_ip (request : Request) (trusted_proxy_ips : string)
  : result (option string) :=
  match parse_direct_client_ip request with
  | None => Ok None
  | Some direct_ip =>
      trusted_networks ← parse_trusted_proxy_networks trusted_proxy_ips;
      if match trusted_networks with [] => true | _ => false end
         || negb (is_trusted direct_ip trusted_networks)
      then Ok (Some (address_str direct_ip))
      else
        let forwarded_for := join "," (headers_getlist "x-forwarded-for" (rq_headers request)) in
        if negb (truthy forwarded_for) then Ok (Some (address_str direct_ip))
        else Ok (Some (address_str
               (resolve_forwarded_for_client_ip forwarded_for trusted_networks direct_ip)))
  end.

(* src: backend/app/libraries/client_ip.py:38-40 get_user_agent *)
Definition get_user_agent (request : Request) : option string :=
  match headers_get "user-agent" (rq_headers request) with
  | Some user_agent => if truthy user_agent then Some (take_str 512 user_agent) else None
  | None => None
  end.

(** ** Which address a request is attributed to

    Rate limits and audit rows are keyed by the client's address.  The theorems say
    where it comes from: a client cannot choose it by sending its own
    [X-Forwarded-For], and accepted settings never make the resolution fail. *)

Implicit Types (nets : list network) (request : Request).

(** The text of all [X-Forwarded-For] headers of a request. *)
Definition forwarded request : string :=
  join "," (headers_getlist "x-forwarded-for" (rq_headers request)).

(** An entry that names a trusted proxy. *)
Definition trusted_entry nets (raw_value : string) : bool :=
  truthy (strip raw_value)
  && match parse_forwarded_for_ip (strip raw_value) with
     | Some a => is_trusted a nets
     | None => false
     end.

(** ** The scan *)

Lemma split_chars_concat c a k : split_chars c (a ++ c :: k) = split_chars c a ++ split_chars c k.
Proof.
  induction a as [|x a IH]; simpl; [by rewrite Ascii.eqb_refl|]. rewrite IH.
  destruct (Ascii.eqb c x); [done|]. pose proof (split_chars_ne c a).
  by destruct (split_chars c a).
Qed.

Lemma split_concat s t : split "," (s ++ "," ++ t) = split "," s ++ split "," t.
Proof.
  unfold split. rewrite chars_app. change (chars ("," ++ t)) with (","%char :: chars t).
  by rewrite split_chars_concat, map_app.
Qed.

Lemma scan_stops nets direct left1 left2 l k1 k2 :
  existsb (fun e => negb (trusted_entry nets e)) l = true ->
  scan_forwarded nets direct left1 (l ++ k1) = scan_forwarded nets direct left2 (l ++ k2).
Proof.
  revert left1 left2. induction l as [|e l IH]; intros left1 left2; simpl; [done|].
  unfold trusted_entry at 1. destruct (truthy (strip e)); simpl; [|done].
  destruct (parse_forwarded_for_ip (strip e)) as [a|]; [|done].
  destruct (is_trusted a nets); simpl; [|done]. apply IH.
Qed.

(** What the scan returns, and how far to the left it went. *)
Lemma scan_result nets direct left0 l a :
  scan_forwarded nets direct left0 l = a ->
  a = direct \/ (l = [] /\ a = left0) \/ (forallb (trusted_entry nets) l = true /\ l <> [] /\
     exists e, List.last l ""%string = e /\ parse_forwarded_for_ip (strip e) = Some a)
  \/ exists post e pre, l = post ++ e :: pre /\ forallb (trusted_entry nets) post = true
       /\ parse_forwarded_for_ip (strip e) = Some a /\ is_trusted a nets = false.
Proof.
  revert left0. induction l as [|e l IH]; intros left0; simpl; [intros <-; right; left; done|].
  destruct (truthy (strip e)) eqn:Et; simpl; [|by left].
  destruct (parse_forwarded_for_ip (strip e)) as [c|] eqn:Ep; [|by left].
  destruct (is_trusted c nets) eqn:Ei; simpl.
  - assert (trusted_entry nets e = true) as Ht by (unfold trusted_entry; by rewrite Et, Ep, Ei).
    intros [->|[[-> ->]|[(Hf & Hne & Hl)|(post & x & pre & -> & Hf & Hx & Hi)]]]%IH.
    + by left.
    + right; right; left. simpl. rewrite Ht. split_and!; try done. by exists e.
    + right; right; left. rewrite Ht, Hf. split_and!; try done. by destruct l.
    + right; right; right. exists (e :: post), x, pre. simpl. by rewrite Ht, Hf.
  - intros <-. right; right; right. by exists [], e, l.
Qed.

Lemma existsb_rev_negb {A} (f : A -> bool) l :
  forallb f l = false -> existsb (fun x => negb (f x)) (rev l) = true.
Proof.
  intros H. apply existsb_exists. induction l as [|x l IH]; [done|]. simpl in *.
  destruct (f x) eqn:Ex.
  - destruct (IH H) as (y & Hy & Hf). exists y. split; [apply in_or_app; by left|done].
  - exists x. split; [apply in_or_app; right; by left|by rewrite Ex].
Qed.

(** ** Resolution *)

Lemma resolve_forwarded request v direct nets :
  parse_direct_client_ip request = Some direct -> parse_trusted_proxy_networks v = Ok nets ->
  resolve_client_ip request v
  = Ok (Some (address_str (
      if is_trusted direct nets && truthy (forwarded request)
      then resolve_forwarded_for_client_ip (forwarded request) nets direct else direct))).
Proof.
  intros Hd Hn. unfold resolve_client_ip. rewrite Hd, Hn. cbn [mbind result_bind].
  fold (forwarded request). destruct nets as [|n nets]; [done|]. cbn [orb].
  destruct (is_trusted direct (n :: nets)); [|done]. simpl.
  by destruct (truthy (forwarded request)).
Qed.

(** C26. A client cannot choose its own address: when the forwarded entries ending in
    [tail] contain one that is not a trusted proxy, what stands before [tail], which
    the client may have sent, does not influence the resolved address. *)
Theorem forwarded_prefix_ignored r1 r2 spoofed1 spoofed2 tail v :
  rq_client r1 = rq_client r2 ->
  forwarded r1 = (spoofed1 ++ "," ++ tail)%string -> forwarded r2 = (spoofed2 ++ "," ++ tail)%string ->
  (forall nets, parse_trusted_proxy_networks v = Ok nets ->
     forallb (trusted_entry nets) (split "," tail) = false) ->
  resolve_client_ip r1 v = resolve_client_ip r2 v.
Proof.
  intros Hc H1 H2 Hstop.
  assert (parse_direct_client_ip r1 = parse_direct_client_ip r2) as Hd
    by (unfold parse_direct_client_ip; by rewrite Hc).
  destruct (parse_direct_client_ip r2) as [direct|] eqn:E2;
    [|unfold resolve_client_ip; by rewrite Hd, E2].
  destruct (parse_trusted_proxy_networks v) as [nets|e] eqn:En;
    [|unfold resolve_client_ip; by rewrite Hd, E2, En].
  rewrite (resolve_forwarded r1 v direct nets), (resolve_forwarded r2 v direct nets) by done.
  assert (truthy (forwarded r1) = true /\ truthy (forwarded r2) = true) as [-> ->].
  { rewrite H1, H2. split; apply truthy_spec; [by destruct spoofed1|by destruct spoofed2]. }
  destruct (is_trusted direct nets); [|done]. simpl. do 3 f_equal.
  unfold resolve_forwarded_for_client_ip. rewrite H1, H2, !split_concat, !rev_app_distr.
  apply scan_stops. specialize (Hstop nets eq_refl).
  by apply existsb_rev_negb.
Qed.

Lemma forwarded_prefix_ignored_witness :
  let peer := Some "10.0.0.1"%string in
  let request headers := mkRequest "POST" "/api/auth/login" "" "/api/auth/login" peer ∅ headers in
  let r1 := request [("x-forwarded-for", "1.2.3.4, 198.51.100.7, 10.0.0.2")]%string in
  let r2 := request [("x-forwarded-for", "spoofed"); ("x-forwarded-for", " 198.51.100.7, 10.0.0.2")]%string in
  resolve_client_ip r1 "10.0.0.0/8" = resolve_client_ip r2 "10.0.0.0/8"
  /\ resolve_client_ip r1 "10.0.0.0/8" = Ok (Some "198.51.100.7"%string).
Proof.
  cbv zeta. split.
  - apply (forwarded_prefix_ignored _ _ "1.2.3.4" "spoofed" " 198.51.100.7, 10.0.0.2"); [reflexivity..|].
    intros nets Hn. vm_compute in Hn. injection Hn as <-. vm_compute. reflexivity.
  - vm_compute. reflexivity.
Defined.

(** The resolved address is the peer's, or one that trusted proxies report: the peer
    and every entry to the right are trusted proxies. *)
Lemma resolved_address_provenance request v direct nets :
  parse_direct_client_ip request = Some direct -> parse_trusted_proxy_networks v = Ok nets ->
  resolve_client_ip request v = Ok (Some (address_str direct))
  \/ is_trusted direct nets = true
     /\ exists pre e post a, split "," (forwarded request) = pre ++ e :: post
          /\ forallb (trusted_entry nets) post = true
          /\ parse_forwarded_for_ip (strip e) = Some a
          /\ resolve_client_ip request v = Ok (Some (address_str a)).
Proof.
  intros Hd Hn. rewrite (resolve_forwarded _ _ _ _ Hd Hn).
  destruct (is_trusted direct nets); [|by left]. destruct (truthy (forwarded request)); [|by left]. simpl.
  unfold resolve_forwarded_for_client_ip.
  pose proof (scan_result nets direct direct (rev (split "," (forwarded request))) _ eq_refl) as H.
  set (a := scan_forwarded _ _ _ _) in *.
  destruct H as [->|[[H ->]|[(Hf & Hne & e & He & Ha)|(post & e & pre & H & Hf & Ha & _)]]]; [by left|by left| |];
    right; (split; [done|]).
  - destruct (rev (split "," (forwarded request))) as [|x l] eqn:Er; [done|].
    rewrite (app_removelast_last ""%string Hne), He in Er.
    apply (f_equal (@rev string)) in Er. rewrite rev_involutive, rev_app_distr in Er.
    exists [], e, (rev (removelast (x :: l))), a. split_and!; try done.
    apply forallb_forall. intros y Hy%in_rev. rewrite forallb_forall in Hf. apply Hf.
    rewrite (app_removelast_last ""%string Hne). apply in_or_app. by left.
  - apply (f_equal (@rev string)) in H. rewrite rev_involutive, rev_app_distr in H. simpl in H.
    rewrite <- app_assoc in H. exists (rev pre), e, (rev post), a. split_and!; try done.
    apply forallb_forall. intros y Hy%in_rev. rewrite forallb_forall in Hf. auto.
Qed.

(** ** Accepted settings *)

(** What [ip_network] gives the settings validator. *)
Definition network_prefixlen (s : string) : option Z := net_prefixlen <$> ip_network s.

Lemma accepted_proxies_parse v :
  validate_trusted_proxy_ips network_prefixlen v = Ok tt ->
  exists nets, parse_trusted_proxy_networks v = Ok nets /\ Forall (fun n => net_prefixlen n <> 0) nets.
Proof.
  unfold validate_trusted_proxy_ips, parse_trusted_proxy_networks.
  induction (split "," v) as [|x l IH]; simpl; [by exists []|].
  destruct (truthy (strip x)); simpl; [|done]. unfold network_prefixlen at 1.
  destruct (ip_network (strip x)) as [n|]; simpl; [|done].
  destruct (Z.eqb_spec (net_prefixlen n) 0); [done|]. intros (nets & -> & Hf)%IH.
  exists (n :: nets). split; [done|]. by constructor.
Qed.

(** With accepted settings the resolution never fails. *)
Lemma resolve_total request v :
  validate_trusted_proxy_ips network_prefixlen v = Ok tt ->
  exists ip, resolve_client_ip request v = Ok ip.
Proof.
  intros (nets & Hn & _)%accepted_proxies_parse.
  destruct (parse_direct_client_ip request) as [direct|] eqn:Ed.
  - rewrite (resolve_forwarded _ _ _ _ Ed Hn). eauto.
  - unfold resolve_client_ip. rewrite Ed. eauto.
Qed.
