(* ===== verification/Interfaces.v ===== *)
(** * Interfaces between components

    The abstract classes of src/backend/app/interfaces behind which a use case does
    not know the implementation, as type classes over the state outside the
    database: the login rate limiter (in memory or in Redis) and the OIDC provider
    client.  [InMemoryLoginRateLimiter] and [OidcProviderClient] discharge them. *)

From S2P Require Import Prelude PyStr Errors Time Tables Effects RateLimiter RedisRateLimiter.


(** The methods change only the limiter's own state [L], which for an
    implementation holds its clock or connection, and do not raise. *)
(* src: backend/app/interfaces/libraries/rate_limiter_interface.py:4-49 LoginRateLimiterInterface *)
Class LoginRateLimiter (L : Type) := {
  lim_is_allowed : string -> string -> L -> bool * L;
  lim_is_account_deletion_reauth_allowed : string -> string -> L -> bool * L;
  lim_record_failure : string -> string -> bool -> L -> unit * L;
  lim_record_success : string -> string -> L -> unit * L;
  lim_is_registration_allowed : string -> L -> bool * L;
  lim_record_registration : string -> L -> unit * L;
  lim_is_oidc_authorization_allowed : string -> L -> bool * L;
  lim_record_oidc_authorization : string -> L -> unit * L;
}.

Section Calls.
Context {L : Type} `{R : LoginRateLimiter L}.

Definition is_allowed (ip_address normalized_email : string) : M L bool :=
  call_ext (lim_is_allowed ip_address normalized_email).
Definition is_account_deletion_reauth_allowed (ip_address normalized_email : string) : M L bool :=
  call_ext (lim_is_account_deletion_reauth_allowed ip_address normalized_email).
Definition record_failure (ip_address normalized_email : string) (include_email_bucket : bool)
  : M L unit := call_ext (lim_record_failure ip_address normalized_email include_email_bucket).
Definition record_success (ip_address normalized_email : string) : M L unit :=
  call_ext (lim_record_success ip_address normalized_email).
Definition is_registration_allowed (ip_address : string) : M L bool :=
  call_ext (lim_is_registration_allowed ip_address).
Definition record_registration (ip_address : string) : M L unit :=
  call_ext (lim_record_registration ip_address).
Definition is_oidc_authorization_allowed (ip_address : string) : M L bool :=
  call_ext (lim_is_oidc_authorization_allowed ip_address).
Definition record_oidc_authorization (ip_address : string) : M L unit :=
  call_ext (lim_record_oidc_authorization ip_address).
End Calls.

(** The in-memory limiter with the readings of its monotonic clock: the state is
    the limiter and the number of readings made. *)
Section InMemory.
Context (cfg : InMemory.config) (monotonic : nat -> Z).

Notation state := (InMemory.limiter * nat)%type.

Definition ask (f : Z -> InMemory.limiter -> bool * InMemory.limiter) (s : state)
  : bool * state :=
  let (b, l) := f (monotonic s.2) s.1 in (b, (l, S s.2)).
Definition tell (f : Z -> InMemory.limiter -> InMemory.limiter) (s : state) : unit * state :=
  (tt, (f (monotonic s.2) s.1, S s.2)).

(* src: backend/app/libraries/auth_rate_limiter.py:11-156 InMemoryLoginRateLimiter *)
Definition InMemoryLoginRateLimiter : LoginRateLimiter state := {|
  lim_is_allowed ip em := ask (fun now => InMemory.is_allowed cfg now ip em);
  lim_is_account_deletion_reauth_allowed ip em :=
    ask (fun now => InMemory.is_account_deletion_reauth_allowed cfg now ip em);
  lim_record_failure ip em inc := tell (fun now => InMemory.record_failure cfg now ip em inc);
  lim_record_success ip em := fun s => (tt, (InMemory.record_success ip em s.1, s.2));
  lim_is_registration_allowed ip := ask (fun now => InMemory.is_registration_allowed cfg now ip);
  lim_record_registration ip := tell (fun now => InMemory.record_registration cfg now ip);
  lim_is_oidc_authorization_allowed ip :=
    ask (fun now => InMemory.is_oidc_authorization_allowed cfg now ip);
  lim_record_oidc_authorization ip :=
    tell (fun now => InMemory.record_oidc_authorization cfg now ip);
|}.
End InMemory.

(** The Redis limiter, whose state is its own with the client's in it. *)
Section InRedis.
Context {S : Type} `{RC : RedisClient S} (breaker_clock : nat -> Z) (token_hex : nat -> string)
  (sha256_hex : string -> string) (cfg : Redis.config).

Notation state := (Redis.limiter S).
Definition silently (f : state -> state) (s : state) : unit * state := (tt, f s).

(* src: backend/app/libraries/redis_login_rate_limiter.py:56-56 RedisLoginRateLimiter *)
Definition RedisLoginRateLimiter : LoginRateLimiter state := {|
  lim_is_allowed ip em := Redis.is_allowed breaker_clock sha256_hex cfg ip em;
  lim_is_account_deletion_reauth_allowed ip em :=
    Redis.is_account_deletion_reauth_allowed breaker_clock sha256_hex cfg ip em;
  lim_record_failure ip em inc :=
    silently (Redis.record_failure breaker_clock token_hex sha256_hex cfg ip em inc);
  lim_record_success ip em := silently (Redis.record_success breaker_clock sha256_hex cfg ip em);
  lim_is_registration_allowed ip := Redis.is_registration_allowed breaker_clock sha256_hex cfg ip;
  lim_record_registration ip :=
    silently (Redis.record_registration breaker_clock token_hex sha256_hex cfg ip);
  lim_is_oidc_authorization_allowed ip :=
    Redis.is_oidc_authorization_allowed breaker_clock sha256_hex cfg ip;
  lim_record_oidc_authorization ip :=
    silently (Redis.record_oidc_authorization breaker_clock token_hex sha256_hex cfg ip);
|}.
End InRedis.

(** ** The OIDC provider client *)

(* src: backend/app/models/oidc.py:10-18 OidcAuthorizationRequest *)
Record OidcAuthorizationRequest := AuthorizationRequest {
  rq_provider_id : string;
  rq_state : string;
  rq_nonce : string;
  rq_code_challenge : string;
  rq_prompt : option string;
  rq_max_age : option Z;
  rq_login_hint : option string;
}.

(* src: backend/app/models/oidc.py:48-59 OidcVerifiedClaims *)
Record OidcVerifiedClaims := VerifiedClaims {
  cl_provider_id : string;
  cl_issuer : string;
  cl_audience : string;
  cl_subject : string;
  cl_email : option string;
  cl_email_verified : bool;
  cl_issued_at : Z;
  cl_expires_at : Z;
  cl_auth_time : option Z;
  cl_claims_json : json;
}.

(* src: backend/app/interfaces/services/oidc_provider_client_interface.py:6-41 OidcProviderClientInterface *)
Class OidcProviderClient (L : Type) := {
  oc_build_authorization_url : OidcAuthorizationRequest -> L -> result string * L;
  (** provider, code, code verifier; the ID token *)
  oc_exchange_code : string -> string -> string -> L -> result string * L;
  (** provider, ID token, expected nonce hash, whether [auth_time] is required *)
  oc_validate_id_token : string -> string -> string -> bool -> L -> result OidcVerifiedClaims * L;
}.

Section ClientCalls.
Context {L : Type} `{P : OidcProviderClient L}.
Definition build_authorization_url (rq : OidcAuthorizationRequest) : M L string :=
  call_ext_raising (oc_build_authorization_url rq).
Definition exchange_code (pid code verifier : string) : M L string :=
  call_ext_raising (oc_exchange_code pid code verifier).
Definition validate_id_token (pid id_token nonce_hash : string) (require_auth_time : bool)
  : M L OidcVerifiedClaims :=
  call_ext_raising (oc_validate_id_token pid id_token nonce_hash require_auth_time).
End ClientCalls.

(** ** Both components side by side *)

Section Pairing.
Context {L1 L2 : Type}.

Definition on_fst {A} (f : L1 -> A * L1) (l : L1 * L2) : A * (L1 * L2) :=
  let (a, l1) := f l.1 in (a, (l1, l.2)).
Definition on_snd {A} (f : L2 -> A * L2) (l : L1 * L2) : A * (L1 * L2) :=
  let (a, l2) := f l.2 in (a, (l.1, l2)).

#[export] Instance limiter_of_pair `{LoginRateLimiter L1} : LoginRateLimiter (L1 * L2) := {|
  lim_is_allowed ip em := on_fst (lim_is_allowed ip em);
  lim_is_account_deletion_reauth_allowed ip em :=
    on_fst (lim_is_account_deletion_reauth_allowed ip em);
  lim_record_failure ip em b := on_fst (lim_record_failure ip em b);
  lim_record_success ip em := on_fst (lim_record_success ip em);
  lim_is_registration_allowed ip := on_fst (lim_is_registration_allowed ip);
  lim_record_registration ip := on_fst (lim_record_registration ip);
  lim_is_oidc_authorization_allowed ip := on_fst (lim_is_oidc_authorization_allowed ip);
  lim_record_oidc_authorization ip := on_fst (lim_record_oidc_authorization ip);
|}.

#[export] Instance client_of_pair `{OidcProviderClient L2} : OidcProviderClient (L1 * L2) := {|
  oc_build_authorization_url rq := on_snd (oc_build_authorization_url rq);
  oc_exchange_code p c v := on_snd (oc_exchange_code p c v);
  oc_validate_id_token p t n b := on_snd (oc_validate_id_token p t n b);
|}.
End Pairing.

(** ** Conversions that are Pydantic's *)

(** [None] where the value is refused. *)
Class Pydantic := {
  bool_of_json : json -> option bool;
  bool_of_text : string -> option bool;
  int_of_text : string -> option Z;
  uuid_of_text : string -> option Z;
  email_of_text : string -> option string;    (* [EmailStr]: the normalised address *)
  error_message : string -> string;           (* the text of an error of a type *)
}.
