(* ===== verification/OidcProviderClient.v ===== *)
(** * The client of an OpenID Connect provider

    Models src/backend/app/services/oidc_provider_client.py: discovery and key
    documents behind positive and negative caches, the authorization request, the
    code exchange and the validation of an ID token.  What the code imports is a
    parameter: the HTTP and OAuth clients ([OidcTransport]), the metadata check of
    [authlib], the signature check of [joserfc], and [json.loads] after
    [base64.urlsafe_b64decode] of a header.  A Python dict is an association list; a
    number that is not an integer is no number of [json]. *)

From S2P Require Import Prelude PyStr Errors Time Url Settings Tables Effects Interfaces.

Notation dict := (list (string * json)).

(* src: backend/app/services/oidc_provider_client.py:24-28 DISCOVERY_CACHE_TTL_SECONDS *)
Definition DISCOVERY_CACHE_TTL_SECONDS : Z := 3600.
Definition JWKS_CACHE_TTL_SECONDS : Z := 3600.
Definition NEGATIVE_CACHE_TTL_SECONDS : Z := 60.
Definition JWKS_REFRESH_COOLDOWN_SECONDS : Z := 60.
(* src: backend/app/services/oidc_provider_client.py:29-39 SAFE_ID_TOKEN_ALGORITHMS *)
Definition SAFE_ID_TOKEN_ALGORITHMS : list string :=
  ["RS256"; "RS384"; "RS512"; "ES256"; "ES384"; "ES512"; "PS256"; "PS384"; "PS512"]%string.

(** ** What the client talks to *)

(** [client.get(url)] with [raise_for_status] and [response.json()], and the methods of
    [OAuth2ClientProtocol] on the client the factory builds for a provider. *)
(* src: backend/app/services/oidc_provider_client.py:42-57 OidcHttpClient *)
Class OidcTransport (H : Type) := {
  http_get : string -> H -> result json * H;
  create_authorization_url : OidcProviderSettings -> string -> string -> dict -> H -> result string * H;
  fetch_token : OidcProviderSettings -> string -> string -> string -> H -> result dict * H;
  oauth_aclose : OidcProviderSettings -> H -> result unit * H;
}.

(* src: backend/app/services/oidc_provider_client.py:72-75 _CacheEntry *)
Record cache_entry := CacheEntry { ce_value : dict; ce_expires_at : Z }.
(* src: backend/app/services/oidc_provider_client.py:78-81 _NegativeCacheEntry *)
Record negative_entry := NegativeEntry { ne_error : exn; ne_expires_at : Z }.

(** The attributes, the state of what is behind the transport, and how often the clock
    was read. *)
(* src: backend/app/services/oidc_provider_client.py:87-103 OidcProviderClient.__init__ *)
Record client (H : Type) := Client {
  transport : H;
  discovery_cache : gmap string cache_entry;
  discovery_negative_cache : gmap string negative_entry;
  jwks_cache : gmap string cache_entry;
  jwks_negative_cache : gmap string negative_entry;
  jwks_refresh_at : gmap string Z;
  now_reads : nat;
}.
#[global] Arguments Client {H}.
#[global] Arguments transport {H}.
#[global] Arguments discovery_cache {H}.
#[global] Arguments discovery_negative_cache {H}.
#[global] Arguments jwks_cache {H}.
#[global] Arguments jwks_negative_cache {H}.
#[global] Arguments jwks_refresh_at {H}.
#[global] Arguments now_reads {H}.

(* src: backend/app/services/oidc_provider_client.py:99-103 OidcProviderClient.__init__ *)
Definition new_client {H} (h : H) : client H := Client h ∅ ∅ ∅ ∅ ∅ 0.

(** ** Pure helpers *)

(** [mapping.get(key)] with [None] for a missing key. *)
Definition get (mapping : dict) (key : string) : json := default JNull (json_get key mapping).

(* src: backend/app/services/oidc_provider_client.py:354-358 _required_str *)
Definition required_str (mapping : dict) (key : string) : result string :=
  match get mapping key with
  | JStr value => if truthy value then Ok value else Raise (OidcError OidcClaimsValidationError)
  | _ => Raise (OidcError OidcClaimsValidationError)
  end.

(* src: backend/app/services/oidc_provider_client.py:361-365 _required_metadata_str *)
Definition required_metadata_str (mapping : dict) (key : string) : result string :=
  match get mapping key with
  | JStr value => if truthy value then Ok value else Raise (OidcError OidcProviderMetadataError)
  | _ => Raise (OidcError OidcProviderMetadataError)
  end.

Definition is_json_str (s : string) (j : json) : bool :=
  match j with JStr t => (t =? s)%string | _ => false end.

(* src: backend/app/services/oidc_provider_client.py:368-373 _audience_contains *)
Definition audience_contains (audience : json) (client_id : string) : bool :=
  match audience with
  | JStr a => (a =? client_id)%string
  | JArr l => existsb (is_json_str client_id) l
  | _ => false
  end.

(* src: backend/app/services/oidc_provider_client.py:376-383 _id_token_algorithms *)
Definition safe_algorithms (l : list json) : list string :=
  omap (fun a => match a with
                 | JStr s => if existsb (String.eqb s) SAFE_ID_TOKEN_ALGORITHMS then Some s else None
                 | _ => None
                 end) l.
Definition id_token_algorithms (metadata : dict) : result (list string) :=
  match get metadata "id_token_signing_alg_values_supported" with
  | JArr algorithms =>
      match safe_algorithms algorithms with
      | [] => Raise (OidcError OidcProviderMetadataError)
      | supported => Ok supported
      end
  | _ => Raise (OidcError OidcProviderMetadataError)
  end.

(** [datetime.fromtimestamp(value, UTC)]; out of the range of [datetime] it raises. *)
Definition fromtimestamp (value : Z) : result Z :=
  let us := value * 1000000 in
  if (datetime_min_us <=? us) && (us <=? datetime_max_us) then Ok us
  else Raise (ValueError "year is out of range").

(* src: backend/app/services/oidc_provider_client.py:386-390 _datetime_claim *)
Definition datetime_claim (claims : dict) (key : string) : result Z :=
  match get claims key with
  | JInt value => fromtimestamp value
  | _ => Raise (OidcError OidcClaimsValidationError)
  end.

(* src: backend/app/services/oidc_provider_client.py:393-399 _optional_datetime_claim *)
Definition optional_datetime_claim (claims : dict) (key : string) : result (option Z) :=
  match get claims key with
  | JNull => Ok None
  | JInt value => t ← fromtimestamp value; Ok (Some t)
  | _ => Raise (OidcError OidcClaimsValidationError)
  end.

(* src: backend/app/services/oidc_provider_client.py:402-406 _optional_normalized_email *)
Definition optional_normalized_email (value : json) : option string :=
  match value with
  | JStr s => let email := normalize_email s in if truthy email then Some email else None
  | _ => None
  end.

(* src: backend/app/services/oidc_provider_client.py:409-429 _claims_json *)
Definition claims_json (provider : OidcProviderSettings) (claims : dict) (issuer subject : string)
    (email : option string) (email_verified : bool) (auth_time : option Z) : dict :=
  let persisted_claims :=
    [("iss", JStr issuer); ("sub", JStr subject); ("email", json_opt_str email);
     ("email_verified", JBool email_verified)]%string
    ++ match auth_time with Some t => [("auth_time", JInt (t / 1000000))]%string | None => [] end in
  fold_left (fun persisted claim_name =>
    match json_get claim_name claims, json_get claim_name persisted with
    | Some v, None => json_set claim_name v persisted
    | _, _ => persisted
    end) (claims_allowlist provider) persisted_claims.

(* src: backend/app/services/oidc_provider_client.py:445-449 _jwks_has_kid *)
Definition jwks_has_kid (jwks : dict) (kid : string) : bool :=
  match get jwks "keys" with
  | JArr keys => existsb (fun key => match key with
                                     | JObj k => is_json_str kid (get k "kid")
                                     | _ => false
                                     end) keys
  | _ => false
  end.

(** ** The client *)

Module ProviderClient.
Section Client.
Context `{E : Env} {H : Type} `{T : OidcTransport H}.
Context (oidc_settings : OidcSettings) (now : nat -> Z).
(** [OpenIDProviderMetadata(metadata).validate()], [jwt.decode] with the imported key
    set, and [json.loads(base64.urlsafe_b64decode(segment))]. *)
Context (metadata_validate : dict -> result unit).
Context (jwt_decode : string -> dict -> list string -> result dict).
Context (b64_json : string -> result json).

(** Methods run on the attributes; an exception keeps the state reached. *)
Definition method (A : Type) : Type := client H -> result A * client H.
#[local] Instance method_ret : MRet method := fun A a c => (Ok a, c).
#[local] Instance method_bind : MBind method := fun A B f m c =>
  match m c with
  | (Ok a, c') => f a c'
  | (Raise e, c') => (Raise e, c')
  end.
Definition pure {A} (r : result A) : method A := fun c => (r, c).
Definition throw {A} (e : exn) : method A := pure (Raise e).
(** [try: m except Exception as e: handler] *)
Definition try_any {A} (m : method A) (handler : exn -> method A) : method A := fun c =>
  match m c with (Raise e, c') => handler e c' | r => r end.
(** [try: m finally: cleanup] *)
Definition try_finally {A} (m : method A) (cleanup : method unit) : method A := fun c =>
  let (r, c1) := m c in
  match cleanup c1 with
  | (Ok _, c2) => (r, c2)
  | (Raise e, c2) => (Raise e, c2)
  end.

Definition read_now : method Z := fun c =>
  (Ok (now (now_reads c)),
   Client (transport c) (discovery_cache c) (discovery_negative_cache c) (jwks_cache c)
     (jwks_negative_cache c) (jwks_refresh_at c) (S (now_reads c))).
Definition call_transport {A} (f : H -> result A * H) : method A := fun c =>
  let (r, h) := f (transport c) in
  (r, Client h (discovery_cache c) (discovery_negative_cache c) (jwks_cache c)
        (jwks_negative_cache c) (jwks_refresh_at c) (now_reads c)).

(** The two pairs of caches, so that one method serves both. *)
Inductive cache_name := Discovery | Jwks.
Definition caches (n : cache_name) (c : client H)
  : gmap string cache_entry * gmap string negative_entry :=
  match n with
  | Discovery => (discovery_cache c, discovery_negative_cache c)
  | Jwks => (jwks_cache c, jwks_negative_cache c)
  end.
Definition set_caches (n : cache_name) (cache : gmap string cache_entry)
    (negative : gmap string negative_entry) (c : client H) : client H :=
  match n with
  | Discovery => Client (transport c) cache negative (jwks_cache c) (jwks_negative_cache c)
                   (jwks_refresh_at c) (now_reads c)
  | Jwks => Client (transport c) (discovery_cache c) (discovery_negative_cache c) cache negative
              (jwks_refresh_at c) (now_reads c)
  end.
Definition get_state {A} (f : client H -> A) : method A := fun c => (Ok (f c), c).
Definition modify (f : client H -> client H) : method unit := fun c => (Ok tt, f c).

(* src: backend/app/services/oidc_provider_client.py:246-250 OidcProviderClient._provider *)
Definition provider_ (provider_id : string) : method OidcProviderSettings :=
  match get_provider oidc_settings provider_id with
  | Ok p => pure (Ok p)
  | Raise _ => throw (OidcError OidcProviderNotConfiguredError)
  end.

(* src: backend/app/services/oidc_provider_client.py:62-69 HttpxOidcHttpClient.get_json *)
Definition get_json (url : string) : method dict :=
  value ← call_transport (http_get url);
  match value with
  | JObj d => mret d
  | _ => throw (OidcError OidcProviderUnavailableError)
  end.

(** An entry that has not expired. *)
Definition fresh {A} (expires_at : A -> Z) (now : Z) (entry : option A) : option A :=
  match entry with Some e => if now <? expires_at e then Some e else None | None => None end.

(* src: backend/app/services/oidc_provider_client.py:284-313 OidcProviderClient._cached_json *)
Definition cached_json (cache_key : string) (n : cache_name) (loader : method dict)
    (ttl_seconds : Z) : method dict :=
  now ← read_now;
  ((fun c =>
  match fresh ce_expires_at now ((caches n c).1 !! cache_key) with
  | Some cached => (Ok (ce_value cached), c)
  | None =>
      match fresh ne_expires_at now ((caches n c).2 !! cache_key) with
      | Some failed => (Raise (OidcError OidcProviderUnavailableError), c)
      | None =>
          match loader c with
          | (Raise exc, c) =>
              let entry := NegativeEntry exc (now + timedelta_seconds NEGATIVE_CACHE_TTL_SECONDS) in
              (Raise (OidcError OidcProviderUnavailableError),
               set_caches n (caches n c).1 (<[cache_key := entry]> (caches n c).2) c)
          | (Ok value, c) =>
              let entry := CacheEntry value (now + timedelta_seconds ttl_seconds) in
              (Ok value,
               set_caches n (<[cache_key := entry]> (caches n c).1) (delete cache_key (caches n c).2) c)
          end
      end
  end) : method dict).

(* src: backend/app/services/oidc_provider_client.py:327-338 OidcProviderClient._validate_discovery_metadata *)
Definition validate_discovery_metadata (provider : OidcProviderSettings) (metadata : dict)
  : result unit :=
  match metadata_validate metadata with
  | Raise _ => Raise (OidcError OidcProviderMetadataError)
  | Ok _ =>
      if is_json_str (issuer provider) (get metadata "issuer")
      then _ ← id_token_algorithms metadata; Ok tt
      else Raise (OidcError OidcProviderMetadataError)
  end.

(* src: backend/app/services/oidc_provider_client.py:252-263 OidcProviderClient._discovery *)
Definition discovery (provider : OidcProviderSettings) : method dict :=
  let url := (rstrip_char "/" (issuer provider) ++ "/.well-known/openid-configuration")%string in
  metadata ← cached_json (provider_id provider) Discovery (get_json url) DISCOVERY_CACHE_TTL_SECONDS;
  _ ← pure (validate_discovery_metadata provider metadata);
  mret metadata.

(* src: backend/app/services/oidc_provider_client.py:265-282 OidcProviderClient._jwks *)
Definition forget_jwks (provider_id : string) : method unit :=
  _ ← modify (fun c => set_caches Jwks (delete provider_id (jwks_cache c)) (jwks_negative_cache c) c);
  now ← read_now;
  modify (fun c => Client (transport c) (discovery_cache c) (discovery_negative_cache c)
    (jwks_cache c) (jwks_negative_cache c) (<[provider_id := now]> (jwks_refresh_at c)) (now_reads c)).
Definition jwks (provider : OidcProviderSettings) (metadata : dict) (force_refresh : bool)
  : method dict :=
  jwks_uri ← pure (required_metadata_str metadata "jwks_uri");
  _ ← (if force_refresh then forget_jwks (provider_id provider) else mret tt);
  cached_json (provider_id provider) Jwks (get_json jwks_uri) JWKS_CACHE_TTL_SECONDS.

(* src: backend/app/services/oidc_provider_client.py:238-244 OidcProviderClient._decode_id_token *)
Definition decode_id_token (id_token : string) (jwks metadata : dict) : result dict :=
  algorithms ← id_token_algorithms metadata;
  jwt_decode id_token jwks algorithms.

(** The header that is JSON but no object has no [get]. *)
(* src: backend/app/services/oidc_provider_client.py:432-442 _jwt_kid *)
Definition jwt_kid (id_token : string) : result (option string) :=
  let header_segment := of_chars (partition_at "." (chars id_token)).1 in
  let padding := repeat "="%char (Z.to_nat ((- str_len header_segment) mod 4)) in
  match b64_json (header_segment ++ of_chars padding) with
  | Raise _ => Ok None
  | Ok (JObj header) =>
      match get header "kid" with
      | JStr kid => Ok (if truthy kid then Some kid else None)
      | _ => Ok None
      end
  | Ok _ => Raise (AttributeError "object has no attribute 'get'")
  end.

(* src: backend/app/services/oidc_provider_client.py:340-351 OidcProviderClient._should_refresh_jwks *)
Definition should_refresh_jwks (provider_id id_token : string) (jwks : dict) : method bool :=
  kid ← pure (jwt_kid id_token);
  match kid with
  | None => mret false
  | Some kid =>
      if jwks_has_kid jwks kid then mret false
      else
        refresh_at ← get_state (fun c => jwks_refresh_at c !! provider_id);
        match refresh_at with
        | None => mret true
        | Some refreshed_at =>
            now ← read_now;
            mret (timedelta_seconds JWKS_REFRESH_COOLDOWN_SECONDS <=? now - refreshed_at)
        end
  end.

(* src: backend/app/services/oidc_provider_client.py:452-455 _close_oauth_client *)
Definition close_oauth_client (provider : OidcProviderSettings) : method unit :=
  call_transport (oauth_aclose provider).

(** ** Public methods *)

(* src: backend/app/services/oidc_provider_client.py:105-138 OidcProviderClient.build_authorization_url *)
Definition build_authorization_url (rq : OidcAuthorizationRequest) : method string :=
  provider ← provider_ (rq_provider_id rq);
  metadata ← discovery provider;
  let params : dict :=
    [("nonce"%string, JStr (rq_nonce rq)); ("code_challenge"%string, JStr (rq_code_challenge rq));
     ("code_challenge_method"%string, JStr "S256")]
    ++ match rq_prompt rq with Some p => [("prompt"%string, JStr p)] | None => [] end
    ++ match rq_max_age rq with Some n => [("max_age"%string, JInt n)] | None => [] end
    ++ match rq_login_hint rq with Some h => [("login_hint"%string, JStr h)] | None => [] end in
  try_finally
    (endpoint ← pure (required_metadata_str metadata "authorization_endpoint");
     call_transport (create_authorization_url provider endpoint (rq_state rq) params))
    (close_oauth_client provider).

(* src: backend/app/services/oidc_provider_client.py:140-164 OidcProviderClient.exchange_code *)
Definition exchange_code (pid code code_verifier : string) : method string :=
  provider ← provider_ pid;
  metadata ← discovery provider;
  token_endpoint ← pure (required_metadata_str metadata "token_endpoint");
  token ← try_finally
    (try_any (call_transport (fetch_token provider token_endpoint code code_verifier))
       (fun _ => throw (OidcError OidcTokenExchangeError)))
    (close_oauth_client provider);
  match get token "id_token" with
  | JStr id_token => if truthy id_token then mret id_token
                     else throw (OidcError OidcTokenExchangeError)
  | _ => throw (OidcError OidcTokenExchangeError)
  end.

(** The claims of a token whose signature verifies, with one refresh of the keys. *)
(* src: backend/app/services/oidc_provider_client.py:179-191 OidcProviderClient.validate_id_token *)
Definition verified_token (provider : OidcProviderSettings) (id_token : string) (metadata : dict)
  : method dict :=
  keys ← jwks provider metadata false;
  match decode_id_token id_token keys metadata with
  | Ok claims => mret claims
  | Raise first_error =>
      refresh ← should_refresh_jwks (provider_id provider) id_token keys;
      if negb refresh then throw (OidcError OidcClaimsValidationError)
      else
        keys ← jwks provider metadata true;
        match decode_id_token id_token keys metadata with
        | Ok claims => mret claims
        | Raise _ => throw (OidcError OidcClaimsValidationError)
        end
  end.

Definition guard (ok : bool) (e : oidc_error) : result unit :=
  if ok then Ok tt else Raise (OidcError e).

(** The checks on the claims at a time. *)
(* src: backend/app/services/oidc_provider_client.py:192-236 OidcProviderClient.validate_id_token *)
Definition check_claims (provider : OidcProviderSettings) (claims : dict)
    (expected_nonce expected_nonce_hash : option string) (require_auth_time : bool) (now : Z)
  : result OidcVerifiedClaims :=
  let leeway := timedelta_seconds (AUTH_OIDC_AUTH_TIME_FUTURE_LEEWAY_SECONDS oidc_settings) in
  issuer_claim ← required_str claims "iss";
  _ ← guard (issuer_claim =? issuer provider)%string OidcClaimsValidationError;
  _ ← guard (audience_contains (get claims "aud") (client_id provider)) OidcClaimsValidationError;
  sub ← required_str claims "sub";
  let subject := strip sub in
  _ ← guard (truthy subject) OidcClaimsValidationError;
  nonce ← required_str claims "nonce";
  _ ← guard (match expected_nonce with Some n => (nonce =? n)%string | None => true end)
        OidcClaimsValidationError;
  _ ← guard (match expected_nonce_hash with
             | Some h => (hash_token nonce =? h)%string | None => true end) OidcClaimsValidationError;
  expires_at ← datetime_claim claims "exp";
  _ ← guard (negb (expires_at <=? now)) OidcClaimsValidationError;
  issued_at ← datetime_claim claims "iat";
  _ ← guard (negb (now + leeway <? issued_at)) OidcClaimsValidationError;
  auth_time ← optional_datetime_claim claims "auth_time";
  _ ← (if require_auth_time then
         match auth_time with
         | None => Raise (OidcError OidcReauthAuthTimeRequiredError)
         | Some t => guard (negb (now + leeway <? t)) OidcReauthStaleError
         end
       else Ok tt);
  let email := optional_normalized_email (get claims "email") in
  let email_verified := match get claims "email_verified" with JBool true => true | _ => false end in
  Ok (VerifiedClaims (provider_id provider) issuer_claim (client_id provider) subject email
        email_verified issued_at expires_at auth_time
        (JObj (claims_json provider claims issuer_claim subject email email_verified auth_time))).

(* src: backend/app/services/oidc_provider_client.py:166-236 OidcProviderClient.validate_id_token *)
Definition validate_id_token (pid id_token : string) (expected_nonce expected_nonce_hash : option string)
    (require_auth_time : bool) : method OidcVerifiedClaims :=
  if is_none expected_nonce && is_none expected_nonce_hash
  then throw (OidcError OidcClaimsValidationError)
  else
    provider ← provider_ pid;
    metadata ← discovery provider;
    claims ← verified_token provider id_token metadata;
    now ← read_now;
    pure (check_claims provider claims expected_nonce expected_nonce_hash require_auth_time now).

(** The implementation of the interface the use case is proved against. *)
(* src: backend/app/services/oidc_provider_client.py:84-84 OidcProviderClient *)
Definition OidcProviderClient : Interfaces.OidcProviderClient (client H) := {|
  oc_build_authorization_url rq := build_authorization_url rq;
  oc_exchange_code pid code verifier := exchange_code pid code verifier;
  oc_validate_id_token pid id_token nonce_hash require_auth_time :=
    validate_id_token pid id_token None (Some nonce_hash) require_auth_time;
|}.
End Client.
End ProviderClient.
