(* ===== verification/AuthUsecase.v ===== *)
(** * Sessions and password authentication

    Models src/backend/app/libraries/auth_session_issuer.py and
    src/backend/app/usecases/auth_usecase.py: issuing and replacing sessions, the
    CSRF token of a session, registration, profile update, login, authentication of
    a session and logout.  Logging is left out. *)

From S2P Require Import Prelude PyStr Errors Time Tables Effects UnitOfWork Settings.
From S2P Require Import Authorization Interfaces AuthRepository AuthorizationRepository.

(* src: backend/app/models/auth_context.py:7-12 AuthenticatedSessionContext *)
Record AuthenticatedSessionContext := AuthContext {
  ctx_user : User;
  ctx_session : AuthSession;
  ctx_roles : gset string;
  ctx_permissions : gset string;
}.

(* src: backend/app/models/auth_context.py:15-22 IssuedAuthSession *)
Record IssuedAuthSession := Issued {
  is_user : User;
  is_session : AuthSession;
  is_session_token : string;
  is_csrf_token : string;
  is_roles : gset string;
  is_permissions : gset string;
}.

(* src: backend/app/models/auth_csrf.py:4-7 SessionCsrfStatus *)
Inductive SessionCsrfStatus := NO_SESSION | MISMATCH | VALID.

(* src: backend/app/models/user.py:13-16 AuthUserUpdateChanges *)
Record AuthUserUpdateChanges := UserUpdate {
  up_language_code : option string;
  up_fields_set : gset string;
}.

(* src: backend/app/usecases/auth_usecase.py:31-32 DUMMY_PASSWORD_HASH *)
Definition DUMMY_PASSWORD_HASH : string :=
  "$argon2id$v=19$m=65536,t=3,p=4$TO8J42R39QBv7pem26bDUQ$TsSlSgdcZ3mv06Gl9wQ7WaBhED0WIbQhcLhG35aHQd4".

(* src: backend/app/usecases/auth_usecase.py:33-33 SESSION_REJECTED_AUDIT_WINDOW_SECONDS *)
Definition SESSION_REJECTED_AUDIT_WINDOW_SECONDS : Z := 300.


Section AuthUsecase.
Context `{E : Env} {L : Type} `{R : LoginRateLimiter L}.
Context (auth_settings : AuthSettings).
Notation uow := unit_of_work.

(** ** Issuing a session *)

(* src: backend/app/libraries/auth_session_issuer.py:11-20 calculate_session_expiry *)
Definition calculate_session_expiry (issued_at last_seen_at : Z) : Z :=
  let absolute_expires_at :=
    issued_at + timedelta_seconds (AUTH_SESSION_ABSOLUTE_TTL_SECONDS auth_settings) in
  let idle_expires_at :=
    last_seen_at + timedelta_seconds (AUTH_SESSION_IDLE_TTL_SECONDS auth_settings) in
  Z.min absolute_expires_at idle_expires_at.

(* src: backend/app/libraries/auth_session_issuer.py:31-35 replace_auth_session *)
Definition revoke_current (current_session_token : option string) : M L unit :=
  if truthy_opt current_session_token then
    existing_session ← find_active_session_by_token_hash
                         (hash_token (default "" current_session_token));
    match existing_session with
    | Some s => revoke_session (s_id s)
    | None => mret tt
    end
  else mret tt.

(* src: backend/app/libraries/auth_session_issuer.py:23-51 replace_auth_session *)
Definition replace_auth_session (user : User) (current_session_token ip_address user_agent : option string)
  : M L (AuthSession * string * string) :=
  revoke_current current_session_token ;;
  session_token ← generate_token;
  csrf_token ← generate_token;
  issued_at ← utcnow;
  let expires_at := calculate_session_expiry issued_at issued_at in
  session ← create_session (u_id user) (hash_token session_token) (hash_token csrf_token)
              issued_at issued_at expires_at ip_address user_agent;
  mret (session, session_token, csrf_token).

(** ** Helpers of the use case *)

Definition event (user_id session_id : option Z) (event_type : AuthEventType)
    (ip_address user_agent : option string) : audit_event :=
  AuditEvent user_id session_id event_type ip_address user_agent None None.

(* src: backend/app/usecases/auth_usecase.py:57-72 AuthUsecase._audit_known_rejected_session *)
Definition audit_known_rejected_session (token_hash : string) (ip_address user_agent : option string)
  : M L unit :=
  rejected_session ← find_session_by_token_hash token_hash;
  match rejected_session with
  | None => mret tt
  | Some s =>
      replayed_at ← utcnow;
      record_rejected_session_replay s ip_address user_agent replayed_at
        SESSION_REJECTED_AUDIT_WINDOW_SECONDS
  end.

(* src: backend/app/usecases/auth_usecase.py:370-372 AuthUsecase._authorization_for_existing_user *)
Definition authorization_for_existing_user (user_id : Z) : M L UserAuthorization :=
  role_codes ← get_user_role_codes user_id;
  mret (resolve_user_authorization user_id role_codes).

(* src: backend/app/usecases/auth_usecase.py:374-390 AuthUsecase._reject_session *)
Definition reject_session (auth_session : AuthSession) (event_type : AuthEventType)
    (user_id : option Z) (ip_address user_agent : option string) : M L unit :=
  revoke_session (s_id auth_session) ;;
  create_audit_log (event user_id (Some (s_id auth_session)) event_type ip_address user_agent).

(* src: backend/app/usecases/auth_usecase.py:392-410 AuthUsecase._reject_user_sessions *)
Definition reject_user_sessions (auth_session : AuthSession) (event_type : AuthEventType)
    (user_id : Z) (ip_address user_agent : option string) : M L unit :=
  revoked_at ← utcnow;
  revoke_sessions_for_user user_id revoked_at ;;
  create_audit_log (AuditEvent (Some user_id) (Some (s_id auth_session)) event_type ip_address
                      user_agent None (Some revoked_at)).

(** ** CSRF tokens *)

(* src: backend/app/usecases/auth_usecase.py:74-88 AuthUsecase.issue_csrf_token *)
Definition issue_csrf_token (session_token : option string) : M L string :=
  csrf_token ← generate_token;
  if negb (truthy_opt session_token) then mret csrf_token
  else
    auth_session ← find_active_session_by_token_hash (hash_token (default "" session_token));
    match auth_session with
    | None => mret csrf_token
    | Some s =>
        update_session_csrf_token_hash (s_id s) (hash_token csrf_token) ;;
        mret csrf_token
    end.

(* src: backend/app/usecases/auth_usecase.py:90-109 AuthUsecase.validate_session_csrf *)
Definition validate_session_csrf (session_token csrf_token : string)
    (ip_address user_agent : option string) : M L SessionCsrfStatus :=
  let session_token_hash := hash_token session_token in
  auth_session ← find_active_session_by_token_hash session_token_hash;
  match auth_session with
  | None =>
      audit_known_rejected_session session_token_hash ip_address user_agent ;;
      mret NO_SESSION
  | Some s =>
      if (s_csrf_token_hash s =? hash_token csrf_token)%string then mret VALID else mret MISMATCH
  end.

(** ** Registration *)

(** The checks before anything is created. *)
(* src: backend/app/usecases/auth_usecase.py:120-153 AuthUsecase.register *)
Definition register_checks (normalized_email rate_limit_ip password : string)
    (ip_address user_agent : option string) : M L unit :=
  allowed ← is_allowed rate_limit_ip normalized_email;
  if negb allowed then
    raise (RateLimitExceededError (Some (AUTH_RATE_LIMIT_WINDOW_SECONDS auth_settings)))
  else
    registration_allowed ← is_registration_allowed rate_limit_ip;
    if negb registration_allowed then
      raise (RateLimitExceededError
        (Some (AUTH_RATE_LIMIT_REGISTRATION_WINDOW_SECONDS auth_settings)))
    else
      let (is_valid_password, error_message) := validate_password_policy password in
      if negb is_valid_password then
        record_failure rate_limit_ip normalized_email false ;;
        raise (WeakPasswordError (or_else error_message "Invalid password"))
      else
        existing_user ← find_user_by_email normalized_email;
        match existing_user with
        | Some u =>
            record_failure rate_limit_ip normalized_email false ;;
            create_audit_log (event (Some (u_id u)) None REGISTER_FAILED ip_address user_agent) ;;
            raise EmailAlreadyRegisteredError
        | None => mret tt
        end.

(** The transaction that creates the account. *)
(* src: backend/app/usecases/auth_usecase.py:156-179 AuthUsecase.register *)
Definition register_transaction (normalized_email password language_code : string)
    (current_session_token ip_address user_agent : option string)
  : M L (User * (AuthSession * string * string)) :=
  transaction uow (
    password_hash ← hash_password password;
    user ← create_user normalized_email (Some password_hash) language_code;
    login_at ← utcnow;
    user ← record_user_login (u_id user) login_at;
    issued ← replace_auth_session user current_session_token ip_address user_agent;
    create_audit_log (event (Some (u_id user)) (Some (s_id issued.1.1)) REGISTER_SUCCESS
                        ip_address user_agent) ;;
    mret (user, issued)).

(* src: backend/app/usecases/auth_usecase.py:111-203 AuthUsecase.register *)
Definition register (email password language_code : string)
    (current_session_token ip_address user_agent : option string) : M L IssuedAuthSession :=
  let normalized_email := normalize_email email in
  let rate_limit_ip := or_else ip_address "unknown" in
  register_checks normalized_email rate_limit_ip password ip_address user_agent ;;
  result ← try_except
    (register_transaction normalized_email password language_code current_session_token
       ip_address user_agent)
    (fun error => match error with
     | EmailAlreadyRegisteredError => Some (
         record_failure rate_limit_ip normalized_email false ;;
         create_audit_log (event None None REGISTER_FAILED ip_address user_agent) ;;
         raise EmailAlreadyRegisteredError)
     | _ => None
     end);
  record_registration rate_limit_ip ;;
  let '(user, (session, session_token, csrf_token)) := result in
  mret (Issued user session session_token csrf_token ∅ ∅).

(** ** Profile update *)

(* src: backend/app/usecases/auth_usecase.py:205-228 AuthUsecase.update_current_user *)
Definition update_current_user (auth_context : AuthenticatedSessionContext)
    (changes : AuthUserUpdateChanges) : M L AuthenticatedSessionContext :=
  if bool_decide (up_fields_set changes = ∅) then mret auth_context
  else if bool_decide (("language_code" : string) ∉ up_fields_set changes) then mret auth_context
  else match up_language_code changes with
       | None => mret auth_context
       | Some language_code =>
           user ← transaction uow (
             modified_at ← utcnow;
             update_user_language (u_id (ctx_user auth_context)) language_code modified_at);
           mret (AuthContext user (ctx_session auth_context) (ctx_roles auth_context)
                   (ctx_permissions auth_context))
       end.

(** ** Login *)

(** The password hash to verify against, and whether it is the user's. *)
(* src: backend/app/usecases/auth_usecase.py:244-248 AuthUsecase.login *)
Definition login_password_hash (user : option User) : string * bool :=
  match user with
  | Some u => match u_password_hash u with
              | Some h => (h, true)
              | None => (DUMMY_PASSWORD_HASH, false)
              end
  | None => (DUMMY_PASSWORD_HASH, false)
  end.

(* src: backend/app/usecases/auth_usecase.py:262-280 AuthUsecase.login *)
Definition login_transaction (user_id : Z) (current_session_token ip_address user_agent : option string)
  : M L (User * (AuthSession * string * string)) :=
  transaction uow (
    login_at ← utcnow;
    user ← record_user_login user_id login_at;
    issued ← replace_auth_session user current_session_token ip_address user_agent;
    create_audit_log (event (Some (u_id user)) (Some (s_id issued.1.1)) LOGIN_SUCCESS
                        ip_address user_agent) ;;
    mret (user, issued)).

(* src: backend/app/usecases/auth_usecase.py:230-290 AuthUsecase.login *)
Definition login (email password : string) (current_session_token ip_address user_agent : option string)
  : M L IssuedAuthSession :=
  let normalized_email := normalize_email email in
  let rate_limit_ip := or_else ip_address "unknown" in
  allowed ← is_allowed rate_limit_ip normalized_email;
  if negb allowed then
    raise (RateLimitExceededError (Some (AUTH_RATE_LIMIT_WINDOW_SECONDS auth_settings)))
  else
    user ← find_user_by_email normalized_email;
    let (password_hash, has_password_hash) := login_password_hash user in
    password_matches ← verify_password password password_hash;
    match user with
    | Some u =>
        if negb (u_is_active u) || negb has_password_hash || negb password_matches then
          record_failure rate_limit_ip normalized_email true ;;
          create_audit_log (event (Some (u_id u)) None LOGIN_FAILED ip_address user_agent) ;;
          raise InvalidCredentialsError
        else
          result ← login_transaction (u_id u) current_session_token ip_address user_agent;
          let '(user, (session, session_token, csrf_token)) := result in
          record_success rate_limit_ip normalized_email ;;
          authorization ← authorization_for_existing_user (u_id user);
          mret (Issued user session session_token csrf_token (ua_roles authorization)
                  (ua_permissions authorization))
    | None =>
        record_failure rate_limit_ip normalized_email true ;;
        create_audit_log (event None None LOGIN_FAILED ip_address user_agent) ;;
        raise InvalidCredentialsError
    end.

(** ** Authentication of a session *)

(* src: backend/app/usecases/auth_usecase.py:343-361 AuthUsecase.authenticate_session *)
Definition refresh_session (auth_session : AuthSession) : M L AuthSession :=
  now ← utcnow;
  let touch_interval_seconds := effective_session_touch_interval_seconds auth_settings in
  if (touch_interval_seconds <=? 0)
     || (timedelta_seconds touch_interval_seconds <=? now - s_last_seen_at auth_session)
  then touch_session (s_id auth_session) now
         (calculate_session_expiry (s_issued_at auth_session) now)
  else mret auth_session.

(* src: backend/app/usecases/auth_usecase.py:292-368 AuthUsecase.authenticate_session *)
Definition authenticate_session (session_token ip_address user_agent : option string)
  : M L (option AuthenticatedSessionContext) :=
  if negb (truthy_opt session_token) then mret None
  else
    let session_token_hash := hash_token (default "" session_token) in
    transaction uow (
      found ← find_active_session_by_token_hash session_token_hash;
      match found with
      | None =>
          audit_known_rejected_session session_token_hash ip_address user_agent ;;
          mret None
      | Some auth_session =>
          user ← find_user_by_id_for_authentication (s_user_id auth_session);
          match user with
          | None =>
              reject_session auth_session SESSION_REJECTED None ip_address user_agent ;;
              mret None
          | Some user =>
              if is_some (u_deleted_at user) then
                reject_user_sessions auth_session SESSION_REVOKED_DELETED_USER (u_id user)
                  ip_address user_agent ;;
                mret None
              else if negb (u_is_active user) then
                reject_user_sessions auth_session SESSION_REVOKED_INACTIVE_USER (u_id user)
                  ip_address user_agent ;;
                mret None
              else
                refreshed_session ← refresh_session auth_session;
                authorization ← authorization_for_existing_user (u_id user);
                mret (Some (AuthContext user refreshed_session (ua_roles authorization)
                              (ua_permissions authorization)))
          end
      end).

(** ** Logout *)

(* src: backend/app/usecases/auth_usecase.py:412-435 AuthUsecase.logout *)
Definition logout (session_token ip_address user_agent : option string) : M L unit :=
  if negb (truthy_opt session_token) then mret tt
  else
    found ← find_active_session_by_token_hash (hash_token (default "" session_token));
    match found with
    | None => mret tt
    | Some auth_session =>
        transaction uow (
          revoke_session (s_id auth_session) ;;
          create_audit_log (event (Some (s_user_id auth_session)) (Some (s_id auth_session))
                              LOGOUT ip_address user_agent))
    end.
End AuthUsecase.
