(* ===== verification/Guards.v ===== *)
(** * What a request passes before its handler

    The CSRF middleware: models src/backend/app/bootstrap/csrf.py: which requests need a token, and the
    check that the cookie, the header and the session agree before the application
    sees the request.  Then the dependencies of the handlers (controllers/auth_dependencies.py). *)

From S2P Require Import Prelude PyStr Errors Time Tables Settings Effects Http ErrorHandlers.
From S2P Require Import ClientIp AuthUsecase.

(** An application answers every request. *)
Definition App (L : Type) : Type := Request -> World L -> Response * World L.

(* src: backend/app/bootstrap/csrf.py:17-17 UNSAFE_METHODS *)
Definition UNSAFE_METHODS : list string := ["POST"; "PUT"; "PATCH"; "DELETE"]%string.

(* src: backend/app/bootstrap/csrf.py:92-93 _csrf_exempt_paths *)
Definition csrf_exempt_paths (raw_paths : string) : list string :=
  List.filter truthy (map strip (split "," raw_paths)).

(** [path[len(root_path):]] below a root path. *)
(* src: backend/app/bootstrap/csrf.py:96-105 _route_path *)
Definition route_path (request : Request) : string :=
  let path := rq_path request in
  let root_path := rq_root_path request in
  if negb (truthy root_path) then path
  else if (path =? root_path)%string then ""
  else if startswith path (root_path ++ "/") then drop_str (String.length root_path) path
  else path.

(* src: backend/app/bootstrap/csrf.py:108-114 _csrf_error_response *)
Definition csrf_error_response (request_path : string) : Response :=
  problem_response 403 "csrf_validation_failed" "CSRF validation failed" [] [] (Some request_path) [].

Section Csrf.
Context `{E : Env} {L : Type} (auth_settings : AuthSettings).

(* src: backend/app/bootstrap/csrf.py:49-58 CSRFMiddleware._requires_csrf *)
Definition requires_csrf (request : Request) : bool :=
  let path := route_path request in
  existsb (String.eqb (upper (rq_method request))) UNSAFE_METHODS
  && ((path =? "/api")%string || startswith path "/api/")
  && negb (existsb (String.eqb path) (csrf_exempt_paths (AUTH_CSRF_EXEMPT_PATHS auth_settings))).

(** [None] lets the request through. *)
(* src: backend/app/bootstrap/csrf.py:60-86 CSRFMiddleware._validate *)
Definition validate_csrf (request : Request) : M L (option Response) :=
  let cookie_token := rq_cookies request !! csrf_cookie_name in
  let header_token := headers_get "X-CSRF-Token" (rq_headers request) in
  let refuse := Some (csrf_error_response (rq_url_path request)) in
  if negb (truthy_opt cookie_token) || negb (truthy_opt header_token) then mret refuse
  else if negb (bool_decide (cookie_token = header_token)) then mret refuse
  else
    let session_token := rq_cookies request !! session_cookie_name auth_settings in
    if negb (truthy_opt session_token) then mret None
    else
      ip_address ← lift (resolve_client_ip request (AUTH_TRUSTED_PROXY_IPS auth_settings));
      csrf_status ← validate_session_csrf (default "" session_token) (default "" header_token)
                      ip_address (get_user_agent request);
      match csrf_status with
      | MISMATCH => mret refuse
      | NO_SESSION | VALID => mret None
      end.

(* src: backend/app/bootstrap/csrf.py:25-47 CSRFMiddleware.__call__ *)
Definition CSRFMiddleware (app : App L) : App L := fun request w =>
  if negb (requires_csrf request) then app request w
  else
    match validate_csrf request w with
    | (Raise _, w1) =>
        (problem_response 500 "internal_server_error" "Internal server error" [] []
           (Some (rq_url_path request)) [], w1)
    | (Ok (Some error_response), w1) => (error_response, w1)
    | (Ok None, w1) => app request w1
    end.
End Csrf.

(** ** The dependencies of the controllers

    Models src/backend/app/controllers/auth_dependencies.py: the client's address, the
    current session and permissions, as the handlers get them from a request. *)

Section AuthDependencies.
Context `{E : Env} {L : Type} (auth_settings : AuthSettings).

(* src: backend/app/controllers/auth_dependencies.py:27-28 get_client_ip *)
Definition get_client_ip (request : Request) : result (option string) :=
  resolve_client_ip request (AUTH_TRUSTED_PROXY_IPS auth_settings).

(** [request.cookies.get(session_cookie_name(auth_settings))] *)
Definition session_cookie (request : Request) : option string :=
  rq_cookies request !! session_cookie_name auth_settings.

(** A call with the address and agent of the client, which are arguments of it. *)
Definition with_client {A} (request : Request)
    (call : option string -> option string -> M L A) : M L A :=
  ip_address ← lift (get_client_ip request);
  call ip_address (get_user_agent request).

(* src: backend/app/controllers/auth_dependencies.py:35-47 require_current_session *)
Definition require_current_session (request : Request) : Web L AuthenticatedSessionContext :=
  auth_context ← awaiting (with_client request
                   (authenticate_session auth_settings (session_cookie request)));
  match auth_context with
  | None => web_raise (api_error 401 "unauthorized" "Unauthorized")
  | Some c => mret c
  end.

Definition permission_denied : HTTPException :=
  api_error 403 "permission_denied" "Permission denied".

(* src: backend/app/controllers/auth_dependencies.py:53-62 require_permission *)
Definition require_permission (permission_code : string) (request : Request)
  : Web L AuthenticatedSessionContext :=
  auth_context ← require_current_session request;
  if decide (permission_code ∈ ctx_permissions auth_context) then mret auth_context
  else web_raise permission_denied.

(** [ValueError] when the dependency is built without a permission. *)
(* src: backend/app/controllers/auth_dependencies.py:65-77 require_any_permission *)
Definition require_any_permission (permission_codes : list string)
  : result (Request -> Web L AuthenticatedSessionContext) :=
  let required_permissions : gset string := list_to_set permission_codes in
  if decide (required_permissions = ∅) then Raise (ValueError "permission_codes must not be empty")
  else Ok (fun request =>
    auth_context ← require_current_session request;
    if decide (ctx_permissions auth_context ∩ required_permissions = ∅)
    then web_raise permission_denied
    else mret auth_context).
End AuthDependencies.
