(* ===== verification/Demo.v ===== *)
(** * A concrete instance

    A small environment, limiter and database on which the theorems with hypotheses
    are instantiated: identifiers and tokens are numbered, hashing tags its
    argument, the clock advances one second per reading. *)

From S2P Require Import Prelude PyStr Codecs Errors Time Tables Effects UnitOfWork Settings.
From S2P Require Import RateLimiter Interfaces AuthRepository Runs Integrity AuthUsecase.

#[export] Instance demo_env : Env := {|
  env_now n := 1786000000000000 + 1000000 * Z.of_nat n;
  env_uuid n := 1000 + Z.of_nat n;
  env_token n := ("token" ++ pretty (N.of_nat n))%string;
  env_sha256 s := ("sha256:" ++ s)%string;
  env_pw_hash n p := ("argon2:" ++ p)%string;
  env_pw_verify p h := (h =? "argon2:" ++ p)%string;
  env_ip_address s := Some s;
  env_try_lock _ := true;
|}.

Definition demo_limiter_config : InMemory.config := InMemory.Config 900 3600 5 20 20 10 20 10000.

(** The provider client of the demonstration always answers with one identity. *)
Definition demo_claims : OidcVerifiedClaims :=
  VerifiedClaims "acme" "https://id.example" "client" "subject-1" (Some "Ann@Example.com") true
    1785999990000000 1786009999000000 (Some 1785999990000000) (JObj []).

#[export] Instance demo_limiter : LoginRateLimiter (InMemory.limiter * nat) :=
  InMemoryLoginRateLimiter demo_limiter_config (fun n => 1000000 * Z.of_nat n).
#[export] Instance demo_client : OidcProviderClient (InMemory.limiter * nat) := {|
  oc_build_authorization_url rq l := (Ok ("https://id.example/auth?state=" ++ rq_state rq)%string, l);
  oc_exchange_code _ _ _ l := (Ok "id-token"%string, l);
  oc_validate_id_token _ _ _ _ l := (Ok demo_claims, l);
|}.

Definition demo_provider : OidcProviderSettings :=
  mkProvider "acme" "Acme" "https://id.example" "client" "secret" ["openid"; "email"] true true
    LinkAuto "/api/auth/oidc/acme/callback" [].
Definition demo_oidc_settings : OidcSettings :=
  mkOidcSettings [demo_provider] (Some "https://app.example"%string) 300 20 300 60.

(** Two users, one with a live session; the session expires in a day. *)
Definition ann : User :=
  mkUser 1 "ann@example.com" (Some "argon2:correct horse battery") true "en" 1785000000000000
    1785000000000000 None None.
Definition root : User :=
  mkUser 2 "root@example.com" (Some "argon2:root password 123") true "ja" 1785000000000000
    1785000000000000 None None.
Definition ann_session : AuthSession :=
  mkSession 10 1 "sha256:ann-token" "sha256:ann-csrf" 1785999000000000 1785999000000000
    1786085400000000 None (Some 1785999990000000) (Some "10.0.0.1") None.

Definition demo_db : DB :=
  with_sessions <[10 := store_session (Some "10.0.0.1"%string) ann_session]>
    (with_users <[2 := store_user root]> (with_users <[1 := store_user ann]> empty_db)).

Lemma demo_db_ok : db_ok demo_db.
Proof.
  apply db_ok_sessions_insert; [|done|vm_compute; done].
  apply db_ok_users_insert; [|done|vm_compute; done].
  apply db_ok_users_insert; [|done|vm_compute; done].
  apply empty_db_ok.
Qed.

(** The same after ann was deactivated. *)
Definition ann_inactive : User :=
  mkUser 1 "ann@example.com" (Some "argon2:correct horse battery") false "en" 1785000000000000
    1785000000000000 None None.
Definition demo_db_inactive : DB := with_users <[1 := store_user ann_inactive]> demo_db.
Lemma demo_db_inactive_ok : db_ok demo_db_inactive.
Proof. apply db_ok_users_insert; [apply demo_db_ok|done|vm_compute; done]. Qed.

(** Authorization states of the demonstration provider, one per purpose, and ann's
    identity there. *)
Definition login_state : AuthOidcState :=
  mkOidcState 20 "sha256:st" "sha256:bind" "sha256:nonce" "verifier" "acme" PurposeLogin None None
    "/app" None (Some "en"%string) 1786000300000000 None.
Definition reauth_state : AuthOidcState :=
  mkOidcState 21 "sha256:re" "sha256:bind" "sha256:nonce" "verifier" "acme"
    PurposeAccountDeletionReauth (Some 1) (Some 10) "/app/settings" (Some "ann@example.com"%string)
    None 1786000300000000 None.
Definition ann_identity : AuthIdentity :=
  mkIdentity 30 1 "acme" "subject-1" (Some "ann@example.com"%string) true (JObj [])
    1785000000000000 None.

Definition demo_states_db : DB :=
  with_oidc_states <[21 := store_oidc_state reauth_state]>
    (with_oidc_states <[20 := store_oidc_state login_state]> demo_db).
Definition demo_identity_db : DB := with_identities <[30 := store_identity ann_identity]> demo_states_db.

Lemma demo_states_db_ok : db_ok demo_states_db.
Proof.
  apply db_ok_states_insert; [|done|vm_compute; done].
  apply db_ok_states_insert; [|done|vm_compute; done]. apply demo_db_ok.
Qed.
Lemma demo_identity_db_ok : db_ok demo_identity_db.
Proof. apply db_ok_identities_insert; [apply demo_states_db_ok|done|vm_compute; done]. Qed.

(** The request context of ann's session. *)
Definition ann_context : AuthenticatedSessionContext :=
  AuthContext (store_user ann) (store_session (Some "10.0.0.1"%string) ann_session) ∅ ∅.

Definition world_of (d : DB) : World (InMemory.limiter * nat) :=
  mkWorld d None None (InMemory.new_limiter, 0%nat) 0 0 0 0 0 [].
Definition demo_world : World (InMemory.limiter * nat) := world_of demo_db.

Lemma world_of_idle d : idle (world_of d).
Proof. done. Qed.

Lemma run_eq {A} (m : M (InMemory.limiter * nat) A) w a :
  (m w).1 = Ok a -> m w = (Ok a, (m w).2).
Proof. destruct (m w); simpl. by intros ->. Qed.

Lemma run_raise {A} (m : M (InMemory.limiter * nat) A) w e :
  (m w).1 = Raise e -> m w = (Raise e, (m w).2).
Proof. destruct (m w); simpl. by intros ->. Qed.

(** ** Conversions *)

(** Decimal digits, and an e-mail address that is any text with an at-sign. *)
Fixpoint decimal (acc : Z) (l : list ascii) : option Z :=
  match l with
  | [] => Some acc
  | c :: l' => if is_digit c then decimal (acc * 10 + (code c - 48)) l' else None
  end.
Definition decimal_int (s : string) : option Z :=
  match chars s with
  | [] => None
  | c :: l => if Ascii.eqb c "-" then Z.opp <$> decimal 0 l else decimal 0 (c :: l)
  end.

#[export] Instance demo_pydantic : Pydantic := {|
  bool_of_json v := match v with JBool b => Some b | _ => None end;
  bool_of_text s := if (s =? "true")%string then Some true else if (s =? "false")%string then Some false else None;
  int_of_text := decimal_int;
  uuid_of_text := uuid_of_hex;
  email_of_text s := if contains_char "@" s then Some s else None;
  error_message type := type;
|}.
