(* ===== verification/AccountDeletionUsecase.v ===== *)
(** * Account deletion

    Models src/backend/app/usecases/account_deletion_usecase.py. *)

From S2P Require Import Prelude PyStr Errors Time Tables Effects UnitOfWork Settings.
From S2P Require Import Authorization Interfaces AuthRepository AuthorizationRepository.
From S2P Require Import SampleItemRepository AuthUsecase.

Section AccountDeletionUsecase.
Context `{E : Env} {L : Type} `{R : LoginRateLimiter L}.
Context (auth_settings : AuthSettings) (oidc_settings : OidcSettings).
Notation uow := unit_of_work.

(** The loop over the identities: one entry per provider, in order, and only for
    configured providers; [providers_by_id] keeps the last provider of an id. *)
(* src: backend/app/usecases/account_deletion_usecase.py:120-137 AccountDeletionUsecase._linked_provider_details *)
Fixpoint provider_details (by_id : gmap string OidcProviderSettings) (seen : gset string)
    (l : list AuthIdentity) : list (string * string) :=
  match l with
  | [] => []
  | identity :: l' =>
      if decide (i_provider_id identity ∈ seen) then provider_details by_id seen l'
      else match by_id !! i_provider_id identity with
           | None => provider_details by_id seen l'
           | Some provider =>
               (provider_id provider, display_name provider)
               :: provider_details by_id ({[i_provider_id identity]} ∪ seen) l'
           end
  end.

(* src: backend/app/usecases/account_deletion_usecase.py:118-137 AccountDeletionUsecase._linked_provider_details *)
Definition linked_provider_details (user_id : Z) : M L (list (string * string)) :=
  identities ← find_identities_by_user_id user_id;
  mret (provider_details (dict_by provider_id (providers oidc_settings)) ∅ identities).

(* src: backend/app/usecases/account_deletion_usecase.py:105-116 AccountDeletionUsecase._require_fresh_oidc_reauth *)
Definition require_fresh_oidc_reauth (auth_context : AuthenticatedSessionContext) : M L unit :=
  let required :=
    details ← linked_provider_details (u_id (ctx_user auth_context));
    raise (AccountDeletionOidcReauthRequiredError details) in
  match s_last_oidc_authenticated_at (ctx_session auth_context) with
  | None => required
  | Some auth_time =>
      now ← utcnow;
      if timedelta_seconds (AUTH_OIDC_REAUTH_FRESHNESS_SECONDS oidc_settings) <? now - auth_time
      then required else mret tt
  end.

(** Proof of possession of the account: the password, or a fresh OIDC login. *)
(* src: backend/app/usecases/account_deletion_usecase.py:58-90 AccountDeletionUsecase.delete_account *)
Definition reauthenticate (auth_context : AuthenticatedSessionContext) (confirm_email : string)
    (password ip_address user_agent : option string) : M L unit :=
  let user := ctx_user auth_context in
  let normalized_user_email := normalize_email (u_email user) in
  let normalized_confirm_email := normalize_email confirm_email in
  if negb (normalized_user_email =? normalized_confirm_email)%string then
    raise AccountDeletionConfirmationMismatchError
  else
    let rate_limit_ip := or_else ip_address "unknown" in
    match u_password_hash user with
    | Some password_hash =>
        allowed ← is_account_deletion_reauth_allowed rate_limit_ip normalized_user_email;
        if negb allowed then
          raise (RateLimitExceededError (Some (AUTH_RATE_LIMIT_WINDOW_SECONDS auth_settings)))
        else if negb (truthy_opt password) then raise AccountDeletionReauthRequiredError
        else
          password_matches ← verify_password (default "" password) password_hash;
          if negb password_matches then
            record_failure rate_limit_ip normalized_user_email false ;;
            create_audit_log (event (Some (u_id user)) (Some (s_id (ctx_session auth_context)))
                                ACCOUNT_DELETION_REAUTH_FAILED ip_address user_agent) ;;
            raise AccountDeletionInvalidPasswordError
          else mret tt
    | None => require_fresh_oidc_reauth auth_context
    end.

(* src: backend/app/usecases/account_deletion_usecase.py:92-103 AccountDeletionUsecase.delete_account *)
Definition delete_account_transaction (user_id session_id : Z) (deleted_at : Z)
    (ip_address : option string) : M L unit :=
  transaction uow (
    delete_all_for_owner user_id ;;
    delete_roles_for_user user_id ;;
    delete_auth_identities_for_user user_id ;;
    mark_user_deleted user_id deleted_at (Some session_id) ip_address ;;
    revoke_sessions_for_user user_id deleted_at ;;
    mret tt).

(* src: backend/app/usecases/account_deletion_usecase.py:50-103 AccountDeletionUsecase.delete_account *)
Definition delete_account (auth_context : AuthenticatedSessionContext) (confirm_email : string)
    (password ip_address user_agent : option string) : M L unit :=
  reauthenticate auth_context confirm_email password ip_address user_agent ;;
  deleted_at ← utcnow;
  delete_account_transaction (u_id (ctx_user auth_context)) (s_id (ctx_session auth_context))
    deleted_at ip_address.
End AccountDeletionUsecase.
