(* ===== verification/AuthorizationUsecase.v ===== *)
(** * Role administration

    Models src/backend/app/usecases/authorization_usecase.py and
    src/backend/app/usecases/authorization_audit.py. *)

From S2P Require Import Prelude PyStr Errors Time Tables Effects UnitOfWork Authorization.
From S2P Require Import AuthRepository AuthorizationRepository AuthUsecase.

(* src: backend/app/usecases/authorization_audit.py:4-21 role_audit_detail *)
Definition role_audit_detail (source : option string) (actor_user_id : option Z)
    (target_user_id : Z) (role_code : string) (resulting_roles : list string) : json :=
  let detail := [
    ("actorUserId", match actor_user_id with Some a => JStr (uuid_str a) | None => JNull end);
    ("targetUserId", JStr (uuid_str target_user_id));
    ("roleCode", JStr role_code);
    ("resultingRoles", JArr (map JStr resulting_roles))]%string in
  JObj (match source with
        | Some s => ("source"%string, JStr s) :: detail
        | None => detail
        end).

(** The role codes the catalog does not know. *)
Definition missing_role_codes (role_codes : list string) : gset string :=
  list_to_set role_codes ∖ dom default_role_catalog.

Section AuthorizationUsecase.
Context `{E : Env} {L : Type}.
Notation uow := unit_of_work.

(* src: backend/app/usecases/authorization_usecase.py:37-38 AuthorizationUsecase.list_roles *)
Definition list_roles : list RoleWithPermissions := roles_with_permissions.

(** [sorted(dict.items())]: by code, which is unique. *)
(* src: backend/app/usecases/authorization_usecase.py:40-41 AuthorizationUsecase.list_permissions *)
Definition list_permissions : list PermissionDefinition :=
  omap (fun code => default_permission_catalog !! code)
    (sorted (elements (dom default_permission_catalog : gset string))).

(* src: backend/app/usecases/authorization_usecase.py:43-48 AuthorizationUsecase.get_user_authorization *)
Definition get_user_authorization (user_id : Z) : M L UserAuthorization :=
  user ← find_user_by_id_for_authentication user_id;
  match user with
  | Some u =>
      if is_some (u_deleted_at u) then raise (AuthorizationUserNotFoundError user_id)
      else
        role_codes ← get_user_role_codes user_id;
        mret (resolve_user_authorization user_id role_codes)
  | None => raise (AuthorizationUserNotFoundError user_id)
  end.

(* src: backend/app/usecases/authorization_usecase.py:93-117 AuthorizationUsecase._record_role_audit *)
Definition record_role_audit (actor_context : AuthenticatedSessionContext) (target_user_id : Z)
    (event_type : AuthEventType) (resulting_roles : list string)
    (ip_address user_agent : option string) (role_code : string) : M L unit :=
  let actor := u_id (ctx_user actor_context) in
  create_audit_log (AuditEvent (Some actor) (Some (s_id (ctx_session actor_context))) event_type
    ip_address user_agent
    (Some (role_audit_detail None (Some actor) target_user_id role_code resulting_roles)) None).

(** The audits of a role replacement: the grants, then the revocations. *)
(* src: backend/app/usecases/authorization_usecase.py:71-90 AuthorizationUsecase.replace_user_roles *)
Definition audit_role_replacement (actor_context : AuthenticatedSessionContext)
    (target_user_id : Z) (result : UserRoleReplacementResult)
    (ip_address user_agent : option string) : M L unit :=
  let audit ty := record_role_audit actor_context target_user_id ty (current_role_codes result)
                    ip_address user_agent in
  for_each (granted_role_codes result) (audit ROLE_GRANTED) ;;
  for_each (revoked_role_codes result) (audit ROLE_REVOKED).

(* src: backend/app/usecases/authorization_usecase.py:50-91 AuthorizationUsecase.replace_user_roles *)
Definition replace_roles (actor_context : AuthenticatedSessionContext) (target_user_id : Z)
    (role_codes : list string) (ip_address user_agent : option string)
  : M L UserRoleReplacementResult :=
  let normalized_role_codes := dict_fromkeys role_codes in
  let missing := missing_role_codes normalized_role_codes in
  if bool_decide (missing = ∅) then
    transaction uow (
      user ← find_user_by_id_for_authentication target_user_id;
      match user with
      | Some u =>
          if is_some (u_deleted_at u) then raise (AuthorizationUserNotFoundError target_user_id)
          else
            result ← replace_user_roles target_user_id normalized_role_codes
                       (Some (u_id (ctx_user actor_context)));
            audit_role_replacement actor_context target_user_id result ip_address user_agent ;;
            mret result
      | None => raise (AuthorizationUserNotFoundError target_user_id)
      end)
  else raise (RoleNotFoundError missing).
End AuthorizationUsecase.
