(* ===== verification/AdminUserUsecase.v ===== *)
(** * User administration

    Models src/backend/app/usecases/admin_user_usecase.py.  Where the code returns a
    [User] object that a later UPDATE of the same session has also changed, the
    model reads the row again: SQLAlchemy keeps the objects of a session in step
    with its UPDATEs. *)

From S2P Require Import Prelude PyStr Errors Time Tables Effects UnitOfWork Authorization.
From S2P Require Import AuthRepository AuthorizationRepository AdminUserRepository.
From S2P Require Import SampleItemRepository AuthUsecase AuthorizationUsecase.

Section AdminUserUsecase.
Context `{E : Env} {L : Type}.
Notation uow := unit_of_work.

(* src: backend/app/usecases/admin_user_usecase.py:228-230 AdminUserUsecase._known_role_codes *)
Definition known_role_codes (user_id : Z) (role_codes : list string) : list string :=
  sorted (elements (ua_roles (resolve_user_authorization user_id role_codes))).

(* src: backend/app/usecases/admin_user_usecase.py:289-292 AdminUserUsecase._validate_roles *)
Definition validate_roles (role_codes : list string) : result unit :=
  let missing := missing_role_codes role_codes in
  if bool_decide (missing = ∅) then Ok tt else Raise (RoleNotFoundError missing).

(* src: backend/app/usecases/admin_user_usecase.py:284-287 AdminUserUsecase._normalize_and_validate_roles *)
Definition normalize_and_validate_roles (role_codes : list string) : result (list string) :=
  let normalized := dict_fromkeys role_codes in
  validate_roles normalized ≫= (fun _ => Ok normalized).

(* src: backend/app/usecases/admin_user_usecase.py:232-236 AdminUserUsecase._hash_valid_password *)
Definition hash_valid_password (password : string) : M L string :=
  let (is_valid_password, error_message) := validate_password_policy password in
  if negb is_valid_password then raise (WeakPasswordError (or_else error_message "Invalid password"))
  else hash_password password.

(* src: backend/app/usecases/admin_user_usecase.py:294-301 AdminUserUsecase._audit_fields *)
Definition audit_fields (fields_set : gset string) : list string :=
  base.filter (fun f => f ∈ fields_set) ["email"; "password"; "is_active"; "roles"]%string.

(* src: backend/app/usecases/admin_user_usecase.py:219-226 AdminUserUsecase._detail_for_user *)
Definition detail_for_user (user : User) : M L AdminUserDetail :=
  role_codes ← get_user_role_codes (u_id user);
  let authorization := resolve_user_authorization (u_id user) role_codes in
  mret (UserDetail user (sorted (elements (ua_roles authorization)))
          (sorted (elements (ua_permissions authorization)))).

(* src: backend/app/usecases/admin_user_usecase.py:238-282 AdminUserUsecase._replace_roles_with_audit *)
Definition replace_roles_with_audit (actor_context : AuthenticatedSessionContext)
    (target_user_id : Z) (role_codes : list string) (ip_address user_agent : option string)
  : M L unit :=
  result ← replace_user_roles target_user_id role_codes (Some (u_id (ctx_user actor_context)));
  audit_role_replacement actor_context target_user_id result ip_address user_agent.

(** The object of a user after the session's later UPDATEs. *)
Definition current_user_object (user : User) : M L User :=
  row ← get_row users (u_id user);
  mret (default user row).

Definition actor_event (actor_context : AuthenticatedSessionContext) (event_type : AuthEventType)
    (ip_address user_agent : option string) (detail : list (string * json)) : audit_event :=
  AuditEvent (Some (u_id (ctx_user actor_context))) (Some (s_id (ctx_session actor_context)))
    event_type ip_address user_agent
    (Some (JObj (("actor_user_id"%string, JStr (uuid_str (u_id (ctx_user actor_context))))
                 :: detail))) None.

(* src: backend/app/usecases/admin_user_usecase.py:49-71 AdminUserUsecase.list_users *)
Definition list_admin_users (query : AdminUserListQuery) (offset limit : Z)
  : M L (AdminOffsetPageResult AdminUserRecord) :=
  (match q_role query with
   | Some role => lift (validate_roles [role])
   | None => mret tt
   end) ;;
  result ← list_users query offset limit;
  mret (OffsetPage
    (map (fun record => UserRecord (rec_user record)
            (known_role_codes (u_id (rec_user record)) (rec_roles record))) (page_items result))
    (page_total result) (page_offset result) (page_limit result)).

(* src: backend/app/usecases/admin_user_usecase.py:73-113 AdminUserUsecase.create_user *)
Definition create_admin_user (actor_context : AuthenticatedSessionContext) (email password : string)
    (is_active : bool) (roles : list string) (ip_address user_agent : option string)
  : M L AdminUserDetail :=
  let normalized_email := normalize_email email in
  normalized_roles ← lift (normalize_and_validate_roles roles);
  password_hash ← hash_valid_password password;
  transaction uow (
    user ← AdminUserRepository.create_user normalized_email password_hash is_active;
    create_audit_log (actor_event actor_context USER_CREATED_BY_ADMIN ip_address user_agent
      [("target_user_id", JStr (uuid_str (u_id user)));
       ("changed_fields", JArr (map JStr ["email"; "password"; "is_active"; "roles"]))]%string) ;;
    replace_roles_with_audit actor_context (u_id user) normalized_roles ip_address user_agent ;;
    user ← current_user_object user;
    detail_for_user user).

(* src: backend/app/usecases/admin_user_usecase.py:115-119 AdminUserUsecase.get_user *)
Definition get_admin_user (user_id : Z) : M L AdminUserDetail :=
  user ← get_user user_id;
  match user with
  | None => raise (UserNotFoundError user_id)
  | Some u => detail_for_user u
  end.

(* src: backend/app/usecases/admin_user_usecase.py:131-149 AdminUserUsecase.update_user *)
Definition normalize_changes (changes : AdminUserUpdateChanges)
  : M L (option (list string) * option string * AdminUserUpdateChanges) :=
  normalized_roles ← (if decide (("roles" : string) ∈ ch_fields_set changes) then
    match ch_roles changes with
    | None => raise (ValueError "roles cannot be None when included in fields_set")
    | Some roles => normalized ← lift (normalize_and_validate_roles roles); mret (Some normalized)
    end else mret None : M L (option (list string)));
  password_hash ← (if decide (("password" : string) ∈ ch_fields_set changes) then
    match ch_password changes with
    | None => raise (ValueError "password cannot be None when included in fields_set")
    | Some password => h ← hash_valid_password password; mret (Some h)
    end else mret None : M L (option string));
  mret (normalized_roles, password_hash,
    UserChanges (option_map normalize_email (ch_email changes)) (ch_password changes)
      (ch_is_active changes) normalized_roles (ch_fields_set changes)).

(** Whether the sessions of the user end with the update. *)
(* src: backend/app/usecases/admin_user_usecase.py:165-166 AdminUserUsecase.update_user *)
Definition revokes_sessions (changes : AdminUserUpdateChanges) : bool :=
  bool_decide (("password" : string) ∈ ch_fields_set changes)
  || (bool_decide (("is_active" : string) ∈ ch_fields_set changes)
      && bool_decide (ch_is_active changes = Some false)).

(* src: backend/app/usecases/admin_user_usecase.py:121-181 AdminUserUsecase.update_user *)
Definition update_admin_user (actor_context : AuthenticatedSessionContext) (user_id : Z)
    (changes : AdminUserUpdateChanges) (ip_address user_agent : option string)
  : M L AdminUserDetail :=
  if bool_decide (ch_fields_set changes = ∅) then get_admin_user user_id
  else
    normalized ← normalize_changes changes;
    let '(normalized_roles, password_hash, normalized_changes) := normalized in
    revoked_at ← utcnow;
    transaction uow (
      user ← AdminUserRepository.update_user user_id normalized_changes password_hash;
      (match normalized_roles with
       | Some roles => replace_roles_with_audit actor_context (u_id user) roles ip_address user_agent
       | None => mret tt
       end) ;;
      (if revokes_sessions changes
       then revoke_sessions_for_user (u_id user) revoked_at ;; mret tt else mret tt) ;;
      create_audit_log (actor_event actor_context USER_UPDATED_BY_ADMIN ip_address user_agent
        [("target_user_id", JStr (uuid_str (u_id user)));
         ("changed_fields", JArr (map JStr (audit_fields (ch_fields_set changes))))]%string) ;;
      user ← current_user_object user;
      detail_for_user user).

(* src: backend/app/usecases/admin_user_usecase.py:183-217 AdminUserUsecase.delete_user *)
Definition delete_admin_user (actor_context : AuthenticatedSessionContext) (user_id : Z)
    (ip_address user_agent : option string) : M L unit :=
  user ← get_user user_id;
  match user with
  | None => raise (UserNotFoundError user_id)
  | Some u =>
      deleted_at ← utcnow;
      transaction uow (
        delete_all_for_owner (u_id u) ;;
        delete_roles_for_user (u_id u) ;;
        delete_auth_identities_for_user (u_id u) ;;
        mark_user_deleted (u_id u) deleted_at (Some (s_id (ctx_session actor_context))) ip_address ;;
        revoke_sessions_for_user (u_id u) deleted_at ;;
        create_audit_log (actor_event actor_context USER_DELETED_BY_ADMIN ip_address user_agent
          [("target_user_id"%string, JStr (uuid_str (u_id u)))]))
  end.
End AdminUserUsecase.
