(* ===== verification/Process.v ===== *)
(** * The process around the requests

    What starts, configures and ends the application talks to libraries and to the
    operating system rather than to the database.  Such code is a computation
    [Proc S A] over the state [S] of what is outside, which may also end with an
    exception that [except Exception] does not catch: a cancellation, an interrupt. *)

From S2P Require Import Prelude PyStr Errors.

(** [Exception]s of the program and of libraries, and the other [BaseException]s. *)
Inductive base_exception :=
| AnException (e : exn)
| LibraryException (name message : string)
| NotAnException (name : string).

Definition is_exception (e : base_exception) : bool :=
  match e with NotAnException _ => false | _ => true end.

Inductive ending (A : Type) := Returned (a : A) | Raised (e : base_exception).
#[global] Arguments Returned {A} a.
#[global] Arguments Raised {A} e.

Definition Proc (S A : Type) : Type := S -> ending A * S.
#[export] Instance proc_ret {S} : MRet (Proc S) := fun A a s => (Returned a, s).
#[export] Instance proc_bind {S} : MBind (Proc S) := fun A B f m s =>
  match m s with
  | (Returned a, s') => f a s'
  | (Raised e, s') => (Raised e, s')
  end.

Definition proc_raise {S A} (e : base_exception) : Proc S A := fun s => (Raised e, s).

(** A call without effects. *)
Definition from_result {S A} (r : result A) : Proc S A :=
  match r with Ok a => mret a | Raise e => proc_raise (AnException e) end.

Definition from_ending {S A} (o : ending A) : Proc S A := fun s => (o, s).

(** [try: p except Exception as error: handler(error)] *)
Definition except_exception {S A} (p : Proc S A) (handler : base_exception -> Proc S A) : Proc S A :=
  fun s =>
    match p s with
    | (Raised e, s') => if is_exception e then handler e s' else (Raised e, s')
    | other => other
    end.

(** [try: p finally: q]: what [q] raises replaces the ending of [p]. *)
Definition finally {S A} (p : Proc S A) (q : Proc S unit) : Proc S A := fun s =>
  let (r, s1) := p s in
  match q s1 with
  | (Returned _, s2) => (r, s2)
  | (Raised e, s2) => (Raised e, s2)
  end.

Section Laws.
Context {S A : Type}.
Implicit Types (p : Proc S A) (q : Proc S unit) (s : S).

Lemma proc_bind_returned {B} p (f : A -> Proc S B) a s s' :
  p s = (Returned a, s') -> (p ≫= f) s = f a s'.
Proof. unfold mbind, proc_bind. by intros ->. Qed.

Lemma proc_bind_raised {B} p (f : A -> Proc S B) e s s' :
  p s = (Raised e, s') -> (p ≫= f) s = (Raised e, s').
Proof. unfold mbind, proc_bind. by intros ->. Qed.

Lemma finally_returned p q s r s1 s2 :
  p s = (r, s1) -> q s1 = (Returned tt, s2) -> finally p q s = (r, s2).
Proof. unfold finally. by intros -> ->. Qed.

Lemma except_exception_caught p h e s s' :
  p s = (Raised e, s') -> is_exception e = true -> except_exception p h s = h e s'.
Proof. unfold except_exception. by intros -> ->. Qed.

Lemma except_exception_returned p h a s s' :
  p s = (Returned a, s') -> except_exception p h s = (Returned a, s').
Proof. unfold except_exception. by intros ->. Qed.

Lemma except_exception_escapes p h e s s' :
  p s = (Raised e, s') -> is_exception e = false -> except_exception p h s = (Raised e, s').
Proof. unfold except_exception. by intros -> ->. Qed.
End Laws.
