(* ===== verification/Container.v ===== *)
(** * The dependency container

    Models src/backend/app/bootstrap/modules.py and container.py and the constructors
    they call: what is injected, how each interface is bound, which arguments each
    class asks for, and what the providers return.  The library that resolves the
    bindings (injector) is the class [Injector], of which only the documented rules
    [injector_laws] are used: what is bound with the singleton scope is made once, and
    an object is made by a constructor or a provider whose parameters are the objects
    of their interfaces. *)

From Stdlib Require Import QArith.
From S2P Require Import Prelude PyStr Errors Tables Settings RateLimiter RedisRateLimiter Process.
From S2P Require Import DatabaseConfig.
Local Open Scope Z_scope.

(** ** Interfaces and bindings *)

(** The types that are injected. *)
Inductive interface :=
| IConfig | IAuthSettings | IOidcSettings | ILogger
| IAsyncEngine | ISessionFactory
| IUnitOfWork | IAdminUserRepository | IAuthRepository | IAuthorizationRepository
| IOidcProviderClient | IAuthUsecase | IAdminUserUsecase | IAuthorizationUsecase
| IOAuthOidcUsecase | ILoginRateLimiter | IPasswordHashExecutor
| ISampleItemRepository | ISampleItemUsecase
| IAccountDeletionUsecase.

#[export] Instance interface_eq_dec : EqDecision interface.
Proof. solve_decision. Defined.

(** The classes the container instantiates. *)
Inductive class :=
| UnitOfWorkClass | AdminUserRepositoryClass | AuthRepositoryClass | AuthorizationRepositoryClass
| OidcProviderClientClass | AuthUsecaseClass | AdminUserUsecaseClass | AuthorizationUsecaseClass
| OAuthOidcUsecaseClass | SampleItemRepositoryClass | SampleItemUsecaseClass
| AccountDeletionUsecaseClass.

#[export] Instance class_eq_dec : EqDecision class.
Proof. solve_decision. Defined.

(** The provider methods. *)
Inductive provider :=
| provide_config | provide_auth_settings | provide_oidc_settings | provide_logger
| provide_async_engine | provide_session_factory
| provide_rate_limiter | provide_password_hash_executor.

(** How an interface is provided, and with which scope: an object of singleton scope is
    kept, without a scope every request makes a new one. *)
Inductive target := To (c : class) | Provided (p : provider).
Inductive scope := NoScope | Singleton.
Record binding := Binding { bound_to : target; bound_scope : scope }.

#[export] Instance scope_eq_dec : EqDecision scope.
Proof. solve_decision. Defined.

(** [binder.bind(k, to=c, scope=singleton)], and a [@singleton @provider] method. *)
Definition bind (k : interface) (c : class) (s : scope) : interface * binding := (k, Binding (To c) s).
Definition provided (k : interface) (p : provider) (s : scope) : interface * binding :=
  (k, Binding (Provided p) s).

(* src: backend/app/bootstrap/modules.py:51-71 CoreModule *)
Definition CoreModule : list (interface * binding) :=
  [provided IConfig provide_config Singleton; provided IAuthSettings provide_auth_settings Singleton;
   provided IOidcSettings provide_oidc_settings Singleton; provided ILogger provide_logger Singleton].

(* src: backend/app/bootstrap/modules.py:74-88 DatabaseModule *)
Definition DatabaseModule : list (interface * binding) :=
  [provided IAsyncEngine provide_async_engine Singleton;
   provided ISessionFactory provide_session_factory Singleton].

(** The bindings of [configure], then those of the two provider methods. *)
(* src: backend/app/bootstrap/modules.py:91-106 AuthModule *)
Definition AuthModule : list (interface * binding) :=
  [bind IUnitOfWork UnitOfWorkClass Singleton;
   bind IAdminUserRepository AdminUserRepositoryClass Singleton;
   bind IAuthRepository AuthRepositoryClass Singleton;
   bind IAuthorizationRepository AuthorizationRepositoryClass Singleton;
   bind IOidcProviderClient OidcProviderClientClass Singleton;
   bind IAuthUsecase AuthUsecaseClass Singleton;
   bind IAdminUserUsecase AdminUserUsecaseClass Singleton;
   bind IAuthorizationUsecase AuthorizationUsecaseClass Singleton;
   bind IOAuthOidcUsecase OAuthOidcUsecaseClass Singleton;
   provided ILoginRateLimiter provide_rate_limiter Singleton;
   provided IPasswordHashExecutor provide_password_hash_executor Singleton].

(* src: backend/app/bootstrap/modules.py:163-167 SampleModule *)
Definition SampleModule : list (interface * binding) :=
  [bind ISampleItemRepository SampleItemRepositoryClass Singleton;
   bind ISampleItemUsecase SampleItemUsecaseClass Singleton].

(* src: backend/app/bootstrap/modules.py:170-173 AccountDeletionModule *)
Definition AccountDeletionModule : list (interface * binding) :=
  [bind IAccountDeletionUsecase AccountDeletionUsecaseClass Singleton].

(* src: backend/app/bootstrap/container.py:7-14 build_container *)
Definition container_bindings : list (interface * binding) :=
  CoreModule ++ DatabaseModule ++ AuthModule ++ SampleModule ++ AccountDeletionModule.

Fixpoint find_binding (k : interface) (l : list (interface * binding)) : option binding :=
  match l with
  | [] => None
  | (k', b) :: l' => if decide (k' = k) then Some b else find_binding k l'
  end.
Definition target_of (k : interface) (l : list (interface * binding)) : option target :=
  bound_to <$> find_binding k l.
Definition scope_of (k : interface) (l : list (interface * binding)) : option scope :=
  bound_scope <$> find_binding k l.

(** ** Constructors

    The injected parameters of each class, in their order. *)

(* src: backend/app/services/unit_of_work.py:25-32 UnitOfWork.__init__ *)
Definition UnitOfWork_init : list interface := [ISessionFactory].
(* src: backend/app/services/admin_user_repository.py:22-24 AdminUserRepository.__init__ *)
Definition AdminUserRepository_init : list interface := [IUnitOfWork].
(* src: backend/app/services/auth_repository.py:30-32 AuthRepository.__init__ *)
Definition AuthRepository_init : list interface := [IUnitOfWork].
(* src: backend/app/services/authorization_repository.py:18-20 AuthorizationRepository.__init__ *)
Definition AuthorizationRepository_init : list interface := [IUnitOfWork].
(* src: backend/app/services/sample_item_repository.py:16-18 SampleItemRepository.__init__ *)
Definition SampleItemRepository_init : list interface := [IUnitOfWork].

(** The other parameters are marked [NoInject]. *)
(* src: backend/app/services/oidc_provider_client.py:86-103 OidcProviderClient.__init__ *)
Definition OidcProviderClient_init : list interface := [IOidcSettings].

(* src: backend/app/usecases/auth_usecase.py:39-55 AuthUsecase.__init__ *)
Definition AuthUsecase_init : list interface :=
  [IAuthRepository; IAuthorizationRepository; IUnitOfWork; ILoginRateLimiter; IAuthSettings;
   IPasswordHashExecutor; ILogger].

(* src: backend/app/usecases/admin_user_usecase.py:31-47 AdminUserUsecase.__init__ *)
Definition AdminUserUsecase_init : list interface :=
  [IAdminUserRepository; IAuthRepository; IAuthorizationRepository; ISampleItemRepository;
   IUnitOfWork; IPasswordHashExecutor; ILogger].

(* src: backend/app/usecases/authorization_usecase.py:25-35 AuthorizationUsecase.__init__ *)
Definition AuthorizationUsecase_init : list interface :=
  [IAuthRepository; IAuthorizationRepository; IUnitOfWork; ILogger].

(* src: backend/app/usecases/oauth_oidc_usecase.py:53-71 OAuthOidcUsecase.__init__ *)
Definition OAuthOidcUsecase_init : list interface :=
  [IAuthRepository; IAuthorizationRepository; IUnitOfWork; ILoginRateLimiter; IAuthSettings;
   IOidcSettings; IOidcProviderClient; ILogger].

(* src: backend/app/usecases/sample_item_usecase.py:20-26 SampleItemUsecase.__init__ *)
Definition SampleItemUsecase_init : list interface := [ISampleItemRepository; IUnitOfWork].

(* src: backend/app/usecases/account_deletion_usecase.py:30-48 AccountDeletionUsecase.__init__ *)
Definition AccountDeletionUsecase_init : list interface :=
  [IAuthRepository; IAuthorizationRepository; ISampleItemRepository; IUnitOfWork;
   ILoginRateLimiter; IAuthSettings; IOidcSettings; IPasswordHashExecutor].

Definition constructor (c : class) : list interface :=
  match c with
  | UnitOfWorkClass => UnitOfWork_init
  | AdminUserRepositoryClass => AdminUserRepository_init
  | AuthRepositoryClass => AuthRepository_init
  | AuthorizationRepositoryClass => AuthorizationRepository_init
  | OidcProviderClientClass => OidcProviderClient_init
  | AuthUsecaseClass => AuthUsecase_init
  | AdminUserUsecaseClass => AdminUserUsecase_init
  | AuthorizationUsecaseClass => AuthorizationUsecase_init
  | OAuthOidcUsecaseClass => OAuthOidcUsecase_init
  | SampleItemRepositoryClass => SampleItemRepository_init
  | SampleItemUsecaseClass => SampleItemUsecase_init
  | AccountDeletionUsecaseClass => AccountDeletionUsecase_init
  end.

Definition provider_parameters (p : provider) : list interface :=
  match p with
  | provide_rate_limiter => [IAuthSettings; IOidcSettings]
  | provide_password_hash_executor => [IAuthSettings]
  | _ => []
  end.

Definition parameters (t : target) : list interface :=
  match t with To c => constructor c | Provided p => provider_parameters p end.

(** ** What the providers make *)

(** The arguments of [BlockingConnectionPool.from_url]. *)
Record redis_pool := RedisPool {
  pool_url : string;
  pool_socket_timeout : Q;
  pool_socket_connect_timeout : Q;
  pool_max_connections : Z;
  pool_timeout : Q;
}.

Inductive rate_limiter :=
| InMemoryBacked (cfg : InMemory.config)
| RedisBacked (pool : redis_pool) (cfg : Redis.config) (operation_deadline : Q).

(** An object is known by its number; a class instance keeps its arguments. *)
Inductive instance :=
| AConfig (c : Config)
| SomeAuthSettings (s : AuthSettings)
| SomeOidcSettings (s : OidcSettings)
| ALogger (name : string)
| AnEngine (options : engine_options)
| ASessionFactory (f : session_factory)
| ARateLimiter (l : rate_limiter)
| APasswordHashExecutor (max_workers : Z)
| AnObject (c : class) (arguments : list nat).

(** The limits both limiters share; only the in-memory one has
    [max_buckets_per_scope]. *)
Definition shared_limits (settings : AuthSettings) (oidc_settings : OidcSettings) : InMemory.config :=
  InMemory.Config
    (AUTH_RATE_LIMIT_WINDOW_SECONDS settings) (AUTH_RATE_LIMIT_REGISTRATION_WINDOW_SECONDS settings)
    (AUTH_RATE_LIMIT_FAILURES_PER_EMAIL_IP settings) (AUTH_RATE_LIMIT_FAILURES_PER_IP settings)
    (AUTH_RATE_LIMIT_FAILURES_PER_EMAIL settings) (AUTH_RATE_LIMIT_REGISTRATIONS_PER_IP settings)
    (AUTH_OIDC_AUTHORIZATION_STARTS_PER_IP oidc_settings)
    (AUTH_RATE_LIMIT_MAX_BUCKETS_PER_SCOPE settings).

(* src: backend/app/bootstrap/modules.py:104-152 AuthModule.provide_rate_limiter *)
Definition rate_limiter_for (settings : AuthSettings) (oidc_settings : OidcSettings) : rate_limiter :=
  if (AUTH_RATE_LIMIT_BACKEND settings =? "redis")%string then
    let half := (AUTH_RATE_LIMIT_REDIS_OPERATION_DEADLINE_SECONDS settings / (2 # 1))%Q in
    let pool_timeout_seconds := if Qle_bool half (1 # 20) then 1 # 20 else half in
    RedisBacked
      (RedisPool (AUTH_RATE_LIMIT_REDIS_URL settings)
         (AUTH_RATE_LIMIT_REDIS_SOCKET_TIMEOUT_SECONDS settings)
         (AUTH_RATE_LIMIT_REDIS_SOCKET_CONNECT_TIMEOUT_SECONDS settings)
         (AUTH_RATE_LIMIT_REDIS_MAX_CONNECTIONS settings) pool_timeout_seconds)
      (Redis.Config (shared_limits settings oidc_settings) (AUTH_RATE_LIMIT_REDIS_KEY_PREFIX settings)
         (AUTH_RATE_LIMIT_REDIS_UNAVAILABLE_POLICY settings =? "fail_open")%string
         (AUTH_RATE_LIMIT_REDIS_CIRCUIT_BREAKER_FAILURES settings)
         (seconds (AUTH_RATE_LIMIT_REDIS_CIRCUIT_BREAKER_COOLDOWN_SECONDS settings)))
      (AUTH_RATE_LIMIT_REDIS_OPERATION_DEADLINE_SECONDS settings)
  else InMemoryBacked (shared_limits settings oidc_settings).

(** The pool of threads that hash passwords. *)
(* src: backend/app/bootstrap/modules.py:154-160 AuthModule.provide_password_hash_executor *)
Definition password_hash_executor_for (settings : AuthSettings) : instance :=
  APasswordHashExecutor (AUTH_PASSWORD_HASH_CONCURRENCY settings).

(** What the process reads when it starts: the environment, as pydantic-settings and
    [get_oidc_settings] read it. *)
Record environment := Environment {
  read_config : ending Config;
  read_auth_settings : AuthSettings;              (* before its validators *)
  read_oidc_environment : gmap string string;
  read_database_settings : ending DatabaseSettings;
}.

Definition ending_of {A} (r : result A) : ending A :=
  match r with Ok a => Returned a | Raise e => Raised (AnException e) end.
Definition ending_map {A B} (f : A -> B) (o : ending A) : ending B :=
  match o with Returned a => Returned (f a) | Raised e => Raised e end.

Section Providers.
Context (network_prefixlen : string -> option Z) (is_ipv6 : string -> bool).
Context (env : environment).

(* src: backend/app/config/auth.py:143-144 get_auth_settings *)
Definition get_auth_settings : ending AuthSettings :=
  ending_map (fun _ => read_auth_settings env)
    (ending_of (validate_auth_settings network_prefixlen (read_auth_settings env))).

(** [DatabaseModule()] makes the engine and the session factory at once. *)
(* src: backend/app/bootstrap/modules.py:45-78 DatabaseModule.__init__ *)
Definition database_resources : ending (engine_options * session_factory) :=
  ending_map (fun s => build_engine_and_session_factory s None) (read_database_settings env).

(** A provider on the objects of its parameters. *)
(* src: backend/app/bootstrap/modules.py:53-88 CoreModule *)
Definition provide (resources : engine_options * session_factory) (p : provider)
    (arguments : list instance) : ending instance :=
  match p, arguments with
  | provide_config, [] => ending_map AConfig (read_config env)
  | provide_auth_settings, [] => ending_map SomeAuthSettings get_auth_settings
  | provide_oidc_settings, [] =>
      ending_map SomeOidcSettings (ending_of (get_oidc_settings is_ipv6 (read_oidc_environment env)))
  | provide_logger, [] => Returned (ALogger "app")
  | provide_async_engine, [] => Returned (AnEngine resources.1)
  | provide_session_factory, [] => Returned (ASessionFactory resources.2)
  | provide_rate_limiter, [SomeAuthSettings settings; SomeOidcSettings oidc_settings] =>
      Returned (ARateLimiter (rate_limiter_for settings oidc_settings))
  | provide_password_hash_executor, [SomeAuthSettings settings] =>
      Returned (password_hash_executor_for settings)
  | _, _ => Raised (AnException (TypeError "unexpected arguments"))
  end.
End Providers.

(** ** The injector *)

(** [inj_get] returns the number of the object, [inj_object] what it is. *)
Class Injector (I : Type) := {
  inj_get : interface -> Proc I nat;
  inj_object : I -> nat -> option instance;
}.

Section Rules.
Context {I : Type} `{J : Injector I}.

(** Any sequence of calls of [injector.get]. *)
Definition asks (i i' : I) : Prop := exists k r, inj_get k i = (r, i').
Notation later := (rtc asks).

(** An argument for a parameter of type [k] in an object that exists now: what the
    injector returns for [k], which is known to be one object only where the binding of
    [k] has the singleton scope. *)
Definition argument_for (bindings : list (interface * binding)) (i : I) (k : interface) (a : nat) : Prop :=
  scope_of k bindings = Some Singleton -> inj_get k i = (Returned a, i).

(** What the library documents, for the injector [start] made of the bindings; [make]
    are the providers.  Only an interface that is bound with the singleton scope is
    always answered with the object it was first answered with. *)
Record injector_laws (bindings : list (interface * binding))
    (make : provider -> list instance -> ending instance) (start : I) : Prop := {
  singleton_scope : forall k i o i' i'', scope_of k bindings = Some Singleton ->
    later start i -> inj_get k i = (Returned o, i') -> later i' i'' -> inj_get k i'' = (Returned o, i'');
  objects_stay : forall i i' o x, later start i -> inj_object i o = Some x -> later i i' ->
    inj_object i' o = Some x;
  made_by_class : forall k c i o i', later start i -> inj_get k i = (Returned o, i') ->
    target_of k bindings = Some (To c) ->
    exists arguments, inj_object i' o = Some (AnObject c arguments)
      /\ Forall2 (argument_for bindings i') (constructor c) arguments;
  made_by_provider : forall k p i o i', later start i -> inj_get k i = (Returned o, i') ->
    target_of k bindings = Some (Provided p) ->
    exists arguments objects x, inj_object i' o = Some x
      /\ Forall2 (argument_for bindings i') (provider_parameters p) arguments
      /\ Forall2 (fun a y => inj_object i' a = Some y) arguments objects
      /\ make p objects = Returned x;
  raised_by_provider : forall k p i e i', later start i -> inj_get k i = (Raised e, i') ->
    target_of k bindings = Some (Provided p) -> provider_parameters p = [] -> make p [] = Raised e;
}.

(** [o'] is [o], an argument of [o], an argument of an argument, ... *)
Definition argument_of (i : I) (o o' : nat) : Prop :=
  exists c arguments, inj_object i o = Some (AnObject c arguments) /\ o' ∈ arguments.
Definition part_of (i : I) : nat -> nat -> Prop := rtc (argument_of i).
End Rules.
Notation later := (rtc asks).

(* src: backend/app/bootstrap/dependencies.py:9-14 inject *)
Definition inject {I} `{Injector I} (k : interface) : Proc I nat := inj_get k.
