(* ===== verification/ContainerSpec.v ===== *)
(** * What the container shares

    Whatever is asked of the container in whatever order, every component exists once:
    in particular all repositories and use cases work on one unit of work, which is
    why UnitOfWork.v has a single [unit_of_work].  A simple injector that follows the
    documented rules shows that they can hold. *)

From Stdlib Require Import QArith.
From S2P Require Import Prelude PyStr Errors Tables Settings RateLimiter RedisRateLimiter Process.
From S2P Require Import DatabaseConfig Container.
Local Open Scope Z_scope.

(** ** The bindings *)

(** No interface is bound twice, and none needs itself: parameters have a lower rank. *)
Definition rank (k : interface) : nat :=
  match k with
  | IUnitOfWork | ILoginRateLimiter | IPasswordHashExecutor | IOidcProviderClient => 1
  | IAdminUserRepository | IAuthRepository | IAuthorizationRepository | ISampleItemRepository => 2
  | IAuthUsecase | IAdminUserUsecase | IAuthorizationUsecase | IOAuthOidcUsecase
  | ISampleItemUsecase | IAccountDeletionUsecase => 3
  | _ => 0
  end.

Lemma bindings_distinct : NoDup (map fst container_bindings).
Proof. apply (bool_decide_unpack _). vm_compute. exact I. Qed.

Lemma every_interface_bound k : is_Some (target_of k container_bindings).
Proof. destruct k; by eexists. Qed.

(** Every binding of the modules has the singleton scope. *)
Lemma every_scope_singleton k : scope_of k container_bindings = Some Singleton.
Proof. by destruct k. Qed.

Lemma bindings_acyclic k t :
  target_of k container_bindings = Some t -> Forall (fun k' => (rank k' < rank k)%nat) (parameters t).
Proof. destruct k; intros [= <-]; repeat constructor. Qed.

(** A target serves one interface. *)
Lemma target_injective k k' t :
  target_of k container_bindings = Some t -> target_of k' container_bindings = Some t -> k = k'.
Proof. destruct k; intros [= <-]; destruct k'; intros [=]; done. Qed.

(** What makes an object. *)
Definition maker (x : instance) : target :=
  match x with
  | AConfig _ => Provided provide_config
  | SomeAuthSettings _ => Provided provide_auth_settings
  | SomeOidcSettings _ => Provided provide_oidc_settings
  | ALogger _ => Provided provide_logger
  | AnEngine _ => Provided provide_async_engine
  | ASessionFactory _ => Provided provide_session_factory
  | ARateLimiter _ => Provided provide_rate_limiter
  | APasswordHashExecutor _ => Provided provide_password_hash_executor
  | AnObject c _ => To c
  end.

Section Shared.
Context (network_prefixlen : string -> option Z) (is_ipv6 : string -> bool) (env : environment).
Context (resources : engine_options * session_factory).
Notation provide := (provide network_prefixlen is_ipv6 env resources).

Lemma provide_maker p l x : provide p l = Returned x -> maker x = Provided p.
Proof.
  destruct p; simpl; repeat case_match; try done; unfold ending_map; repeat case_match; by intros [= <-].
Qed.

Context {I : Type} `{J : Injector I} (start : I).
Context (Hlaws : injector_laws container_bindings provide start).

(** What was returned once for an interface is returned from then on: its binding has
    the singleton scope. *)
Lemma stays_asked k i o i' i'' :
  later start i -> inj_get k i = (Returned o, i') -> later i' i'' -> inj_get k i'' = (Returned o, i'').
Proof. apply (singleton_scope _ _ _ Hlaws), every_scope_singleton. Qed.

Lemma object_maker k i o x :
  later start i -> inj_get k i = (Returned o, i) -> inj_object i o = Some x ->
  target_of k container_bindings = Some (maker x).
Proof.
  intros Hi Hg Hx. destruct (every_interface_bound k) as [[c|p] Hb].
  - destruct (made_by_class _ _ _ Hlaws k c i o i Hi Hg Hb) as (args & Ho & _).
    rewrite Hx in Ho. by injection Ho as ->.
  - destruct (made_by_provider _ _ _ Hlaws k p i o i Hi Hg Hb) as (args & xs & y & Ho & _ & _ & Hm).
    rewrite Hx in Ho. injection Ho as ->. by rewrite (provide_maker _ _ _ Hm).
Qed.

(** Every part of an object the injector returned is what some interface names. *)
Lemma part_is_asked i o u :
  later start i -> part_of i o u -> (exists k, inj_get k i = (Returned o, i)) ->
  exists k, inj_get k i = (Returned u, i).
Proof.
  intros Hi Hp. induction Hp as [o|o o' u (c & args & Ho & Hin) _ IH]; [done|].
  intros [k Hg]. apply IH. pose proof (object_maker _ _ _ _ Hi Hg Ho) as Hb.
  destruct (made_by_class _ _ _ Hlaws k c i o i Hi Hg Hb) as (args' & Ho' & Hall).
  rewrite Ho in Ho'. injection Ho' as <-.
  apply list_elem_of_lookup_1 in Hin as [n Hn].
  destruct (Forall2_lookup_r _ _ _ _ _ Hall Hn) as (k' & _ & Hk'). exists k'.
  apply Hk', every_scope_singleton.
Qed.

(** C18. Every component of the application exists once, because every binding of its
    modules has the singleton scope.  Two objects the container returns at any two
    moments may have parts, at any depth, that the same class or provider made (two
    repositories' units of work, two use cases' rate limiters): these are one object. *)
Theorem components_are_shared k1 k2 o1 o2 i i1 j j1 u1 u2 x1 x2 :
  later start i -> inj_get k1 i = (Returned o1, i1) ->
  later i1 j -> inj_get k2 j = (Returned o2, j1) ->
  part_of j1 o1 u1 -> part_of j1 o2 u2 ->
  inj_object j1 u1 = Some x1 -> inj_object j1 u2 = Some x2 -> maker x1 = maker x2 ->
  u1 = u2.
Proof.
  intros Hi H1 Hj H2 P1 P2 X1 X2 Hm.
  assert (later i1 j1) as Hij by (eapply rtc_r; [done|by eexists _, _]).
  assert (later start i1) as Hs by (eapply rtc_r; [done|by eexists _, _]).
  assert (later start j1) as Hj1 by (by transitivity i1).
  assert (later start j) as Hsj by (by transitivity i1).
  destruct (part_is_asked j1 o1 u1 Hj1 P1) as [k Hk].
  { exists k1. by apply (stays_asked k1 i o1 i1 j1). }
  destruct (part_is_asked j1 o2 u2 Hj1 P2) as [k' Hk'].
  { exists k2. by apply (stays_asked k2 j o2 j1 j1). }
  pose proof (object_maker _ _ _ _ Hj1 Hk X1) as B1.
  pose proof (object_maker _ _ _ _ Hj1 Hk' X2) as B2.
  rewrite Hm in B1. assert (k = k') as -> by (by eapply target_injective).
  rewrite Hk in Hk'. by injection Hk'.
Qed.
End Shared.

(** ** The rate limiter the settings choose *)

(** Whichever backend is chosen, the limits are the same. *)
Definition limits_of (l : rate_limiter) : InMemory.config :=
  match l with InMemoryBacked cfg => cfg | RedisBacked _ cfg _ => Redis.limits cfg end.

Lemma backends_share_limits settings oidc_settings :
  limits_of (rate_limiter_for settings oidc_settings) = shared_limits settings oidc_settings.
Proof. unfold rate_limiter_for. by case_match. Qed.

(** ** An injector *)

Section Simple.
Context (bindings : list (interface * binding)).
Context (make : provider -> list instance -> ending instance).

(** The objects that were made, and the singletons. *)
Record registry := Registry {
  objects : list instance;
  singletons : list (interface * nat);
}.

Fixpoint singleton (k : interface) (l : list (interface * nat)) : option nat :=
  match l with
  | [] => None
  | (k', o) :: l' => if decide (k' = k) then Some o else singleton k l'
  end.

(** What a request returns: a new object, kept where the scope is the singleton's. *)
Definition store (k : interface) (sc : scope) (x : instance) : Proc registry nat := fun s =>
  let o := length (objects s) in
  match sc with
  | NoScope => (Returned o, Registry (objects s ++ [x]) (singletons s))
  | Singleton =>
      match singleton k (singletons s) with
      | Some o' => (Returned o', s)
      | None => (Returned o, Registry (objects s ++ [x]) ((k, o) :: singletons s))
      end
  end.

Fixpoint all {A} (l : list (Proc registry A)) : Proc registry (list A) :=
  match l with
  | [] => mret []
  | p :: l' => a ← p; rest ← all l'; mret (a :: rest)
  end.

Definition objects_of (arguments : list nat) : Proc registry (list instance) := fun s =>
  (match mapM (fun o => objects s !! o) arguments with
   | Some l => Returned l
   | None => Raised (AnException (KeyError "object"))
   end, s).

Definition construct (t : target) (arguments : list nat) : Proc registry instance :=
  match t with
  | To c => mret (AnObject c arguments)
  | Provided p => l ← objects_of arguments; from_ending (make p l)
  end.

Fixpoint resolve (fuel : nat) (k : interface) : Proc registry nat := fun s =>
  match singleton k (singletons s), find_binding k bindings, fuel with
  | Some o, _, _ => (Returned o, s)
  | None, Some b, S fuel' =>
      (arguments ← all (map (resolve fuel') (parameters (bound_to b)));
       x ← construct (bound_to b) arguments;
       store k (bound_scope b) x : Proc registry nat) s
  | None, _, _ => (Raised (LibraryException "RecursionError" ""), s)
  end.

(** An argument is the kept object of its interface, where that is kept. *)
Definition kept (s : registry) (k : interface) (a : nat) : Prop :=
  scope_of k bindings = Some Singleton -> singleton k (singletons s) = Some a.
Definition made (s : registry) (t : target) (x : instance) : Prop :=
  exists arguments, Forall2 (kept s) (parameters t) arguments
    /\ match t with
       | To c => x = AnObject c arguments
       | Provided p => exists l, Forall2 (fun a y => objects s !! a = Some y) arguments l
                                 /\ make p l = Returned x
       end.

(** An object that was returned for [k] is what its binding makes. *)
Definition answers (s : registry) (k : interface) (o : nat) : Prop :=
  kept s k o /\ exists t x, target_of k bindings = Some t /\ objects s !! o = Some x /\ made s t x.
Definition good (s : registry) : Prop := forall k o, singleton k (singletons s) = Some o -> answers s k o.

Definition grows (s s' : registry) : Prop :=
  objects s `prefix_of` objects s'
  /\ forall k o, singleton k (singletons s) = Some o -> singleton k (singletons s') = Some o.

#[local] Instance grows_preorder : PreOrder grows.
Proof.
  split; [by intros s|]. intros s1 s2 s3 [P1 S1] [P2 S2]. split; [by transitivity (objects s2)|eauto].
Qed.

Lemma kept_grows s s' k a : grows s s' -> kept s k a -> kept s' k a.
Proof. intros [_ S] H Hk. by apply S, H. Qed.
Lemma object_grows s s' o x : grows s s' -> objects s !! o = Some x -> objects s' !! o = Some x.
Proof. intros [[l ->] _]. apply lookup_app_l_Some. Qed.

Lemma made_grows s s' t x : grows s s' -> made s t x -> made s' t x.
Proof.
  intros Hg (args & Ha & Hm). exists args. split.
  - eapply Forall2_impl; [exact Ha|]. intros k a. by apply kept_grows.
  - destruct t as [c|p]; [done|]. destruct Hm as (l & Hl & Hm). exists l. split; [|done].
    eapply Forall2_impl; [exact Hl|]. intros a y. by apply object_grows.
Qed.

Lemma answers_grows s s' k o : grows s s' -> answers s k o -> answers s' k o.
Proof.
  intros Hg (Hk & t & x & Ht & Hx & Hm). split; [by eapply kept_grows|].
  exists t, x. split_and!; [done|by eapply object_grows|by eapply made_grows].
Qed.

(** What a request keeps, and what it returns. *)
Definition sound {A} (post : registry -> A -> Prop) (p : Proc registry A) : Prop := forall s r s',
  good s -> p s = (r, s') -> good s' /\ grows s s' /\ forall a, r = Returned a -> post s' a.

Lemma sound_store k b x s r s' :
  find_binding k bindings = Some b -> made s (bound_to b) x -> good s ->
  store k (bound_scope b) x s = (r, s') ->
  good s' /\ grows s s' /\ forall o, r = Returned o -> answers s' k o.
Proof.
  unfold store. intros Hb Hx Hg.
  assert (target_of k bindings = Some (bound_to b)) as Ht by (unfold target_of; by rewrite Hb).
  assert (scope_of k bindings = Some (bound_scope b)) as Hsc by (unfold scope_of; by rewrite Hb).
  assert ((objects s ++ [x]) !! length (objects s) = Some x) as Hnew
    by (by rewrite lookup_app_r, Nat.sub_diag by done).
  destruct (bound_scope b).
  - intros [= <- <-]. set (s' := Registry _ _). assert (grows s s') as Hgr by (split; [by eexists|done]).
    split_and!; [|done|].
    + intros k' o Ho. by apply (answers_grows s), Hg.
    + intros ? [= <-]. split; [unfold kept; by rewrite Hsc|].
      exists (bound_to b), x. split_and!; [done..|by eapply made_grows].
  - destruct (singleton k (singletons s)) as [o|] eqn:Es; intros [= <- <-].
    { split_and!; [done|done|]. intros ? [= <-]. by apply Hg. }
    set (s' := Registry _ _). assert (grows s s') as Hgr.
    { split; simpl; [by eexists|]. intros k' o Ho. rewrite decide_False; [done|]. intros ->. congruence. }
    assert (answers s' k (length (objects s))) as Ha.
    { split; [intros _; simpl; by rewrite decide_True|].
      exists (bound_to b), x. split_and!; [done..|by eapply made_grows]. }
    split_and!; [|done|by intros ? [= <-]].
    intros k' o. simpl. case_decide as Hk; [subst k'; by intros [= <-]|]. intros Ho.
    by apply (answers_grows s), Hg.
Qed.

Lemma sound_all (get : interface -> Proc registry nat) ks :
  (forall k, sound (fun s o => answers s k o) (get k)) ->
  sound (fun s l => Forall2 (answers s) ks l) (all (map get ks)).
Proof.
  intros Hget. induction ks as [|k ks IH]; intros s r s' Hg; simpl.
  { intros [= <- <-]. split_and!; [done|done|by intros ? [= <-]]. }
  unfold mbind, proc_bind. destruct (get k s) as [[a|e] s1] eqn:E1.
  - destruct (Hget k _ _ _ Hg E1) as (G1 & R1 & P1).
    destruct (all (map get ks) s1) as [[l|e] s2] eqn:E2; intros [= <- <-];
      destruct (IH _ _ _ G1 E2) as (G2 & R2 & P2); (split_and!; [done|by etrans|]); [|done].
    intros ? [= <-]. constructor; [|by apply P2]. eapply answers_grows; [done|]. by apply P1.
  - intros [= <- <-]. destruct (Hget k _ _ _ Hg E1) as (G1 & R1 & _). split_and!; [done|done|done].
Qed.

Lemma construct_made t arguments s r s' :
  Forall2 (answers s) (parameters t) arguments ->
  construct t arguments s = (r, s') -> s' = s /\ forall x, r = Returned x -> made s t x.
Proof.
  intros Ha.
  assert (Forall2 (kept s) (parameters t) arguments) as Hk by (eapply Forall2_impl; [exact Ha|]; by intros k a []).
  destruct t as [c|p]; simpl.
  - intros [= <- <-]. split; [done|]. intros x [= <-]. by exists arguments.
  - unfold mbind, proc_bind, from_ending, objects_of. destruct (mapM _ arguments) as [l|] eqn:El; intros [= <- <-];
      (split; [done|]); [|done].
    intros x Hx. exists arguments. split; [done|]. exists l. split; [|done]. by apply mapM_Some.
Qed.

Lemma sound_resolve fuel k : sound (fun s o => answers s k o) (resolve fuel k).
Proof.
  revert k. induction fuel as [|fuel IH]; intros k s r s' Hg; simpl;
    (destruct (singleton k (singletons s)) as [o|] eqn:Es;
     [intros [= <- <-]; split_and!; [done|done|intros ? [= <-]; by apply Hg]|]);
    destruct (find_binding k bindings) as [b|] eqn:Eb;
    try (intros [= <- <-]; split_and!; [done|done|by intros ?]).
  unfold mbind, proc_bind. destruct (all _ s) as [[args|e] s1] eqn:E1;
    destruct (sound_all _ (parameters (bound_to b)) IH _ _ _ Hg E1) as (G1 & R1 & P1).
  - destruct (construct (bound_to b) args s1) as [rx s2] eqn:E2.
    destruct (construct_made _ _ _ _ _ (P1 _ eq_refl) E2) as [-> Hx].
    destruct rx as [x|e]; [|intros [= <- <-]; by split_and!].
    intros Hst. destruct (sound_store _ _ _ _ _ _ Eb (Hx _ eq_refl) G1 Hst) as (G2 & R2 & P2).
    split_and!; [done|by etrans|done].
  - intros [= <- <-]. by split_and!.
Qed.

Definition simple_injector (fuel : nat) : Injector registry := {|
  inj_get := resolve fuel;
  inj_object s o := objects s !! o;
|}.

Lemma later_good fuel s s' :
  rtc (@asks _ (simple_injector fuel)) s s' -> good s -> good s' /\ grows s s'.
Proof.
  intros H. induction H as [s|s s1 s2 (k & r & Hr) _ IH]; intros Hg; [done|].
  destruct (sound_resolve _ _ _ _ _ Hg Hr) as (G1 & R1 & _). destruct (IH G1) as [G2 R2].
  split; [done|by etrans].
Qed.

Lemma resolve_singleton fuel k s o : singleton k (singletons s) = Some o -> resolve fuel k s = (Returned o, s).
Proof. intros H. destruct fuel; simpl; by rewrite H. Qed.

Lemma kept_argument fuel s k a :
  kept s k a -> @argument_for _ (simple_injector fuel) bindings s k a.
Proof. intros H Hk. apply resolve_singleton. by apply H. Qed.

(** The rules hold of the simple injector, whatever the scopes. *)
Lemma simple_injector_laws fuel :
  (0 < fuel)%nat -> @injector_laws _ (simple_injector fuel) bindings make (Registry [] []).
Proof.
  intros Hfuel.
  assert (good (Registry [] [])) as H0 by (by intros k o).
  assert (forall k o i i', rtc (@asks _ (simple_injector fuel)) (Registry [] []) i ->
    resolve fuel k i = (Returned o, i') -> good i' /\ answers i' k o) as Hget.
  { intros k o i i' Hi Hr. destruct (later_good _ _ _ Hi H0) as [Hg _].
    destruct (sound_resolve _ _ _ _ _ Hg Hr) as (G & _ & P). eauto. }
  split; simpl.
  - intros k i o i' i'' Hk Hi Hr Hl. destruct (Hget _ _ _ _ Hi Hr) as [G [P _]].
    destruct (later_good _ _ _ Hl G) as [_ [_ S]]. by apply resolve_singleton, S, P.
  - intros i i' o x Hi Ho Hl. destruct (later_good _ _ _ Hi H0) as [Hg _].
    destruct (later_good _ _ _ Hl Hg) as [_ Hgr]. by eapply object_grows.
  - intros k c i o i' Hi Hr Hb. destruct (Hget _ _ _ _ Hi Hr) as (_ & _ & t & x & Ht & Ho & args & Ha & Hm).
    rewrite Hb in Ht. injection Ht as <-. subst x. exists args. split; [done|].
    eapply Forall2_impl; [exact Ha|]. intros k' a. apply kept_argument.
  - intros k p i o i' Hi Hr Hb. destruct (Hget _ _ _ _ Hi Hr) as (_ & _ & t & x & Ht & Ho & args & Ha & Hm).
    rewrite Hb in Ht. injection Ht as <-. destruct Hm as (l & Hl & Hm).
    exists args, l, x. split_and!; [done| |done|done].
    eapply Forall2_impl; [exact Ha|]. intros k' a. apply kept_argument.
  - intros k p i e i' Hi Hr Hb Hp. destruct fuel as [|fuel]; [lia|]. revert Hr. simpl.
    unfold target_of in Hb. destruct (find_binding k bindings) as [b|]; [|done]. injection Hb as Hb.
    rewrite Hb. simpl. rewrite Hp. simpl.
    destruct (singleton k (singletons i)) as [o|]; [done|]. unfold mbind, proc_bind, from_ending; simpl.
    destruct (make p []) as [x|e'] eqn:Em; [|by intros [= <- _]].
    unfold store. destruct (bound_scope b); [done|]. by destruct (singleton k (singletons i)).
Qed.
End Simple.

(** The same with what the providers read carried along. *)
Section Carrying.
Context {S : Type} (bindings : list (interface * binding)).
Context (make : S -> provider -> list instance -> ending instance) (fuel : nat).
Notation simple s := (simple_injector bindings (make s) fuel).

Definition carrying_injector : Injector (S * registry) := {|
  inj_get k i := let (r, reg) := @inj_get _ (simple i.1) k i.2 in (r, (i.1, reg));
  inj_object i := @inj_object _ (simple i.1) i.2;
|}.

Lemma carrying_get s k reg r i' :
  @inj_get _ carrying_injector k (s, reg) = (r, i') ->
  exists reg', i' = (s, reg') /\ @inj_get _ (simple s) k reg = (r, reg').
Proof. simpl. destruct (resolve _ _ _ _ _) as [r' reg'] eqn:Hg. intros [= <- <-]. by exists reg'. Qed.

Lemma carrying_asked s k reg r reg' :
  @inj_get _ (simple s) k reg = (r, reg') -> @inj_get _ carrying_injector k (s, reg) = (r, (s, reg')).
Proof. simpl. by intros ->. Qed.

Lemma carrying_later s reg i :
  rtc (@asks _ carrying_injector) (s, reg) i ->
  exists reg', i = (s, reg') /\ rtc (@asks _ (simple s)) reg reg'.
Proof.
  intros H. remember (s, reg) as i0 eqn:E0. revert reg E0.
  induction H as [i|i i1 i2 (k & r & Hr) _ IH]; intros reg ->; [by exists reg|].
  apply carrying_get in Hr as (reg1 & -> & Hr). destruct (IH reg1 eq_refl) as (reg2 & -> & Hl).
  exists reg2. split; [done|]. eapply rtc_l; [by exists k, r|done].
Qed.

Lemma carrying_injector_laws s :
  (0 < fuel)%nat -> @injector_laws _ carrying_injector bindings (make s) (s, Registry [] []).
Proof.
  intros Hf. pose proof (simple_injector_laws bindings (make s) fuel Hf) as Hlaws.
  assert (forall k i r i', rtc (@asks _ carrying_injector) (s, Registry [] []) i ->
    @inj_get _ carrying_injector k i = (r, i') -> exists reg reg', i = (s, reg) /\ i' = (s, reg')
      /\ rtc (@asks _ (simple s)) (Registry [] []) reg /\ @inj_get _ (simple s) k reg = (r, reg')) as Hget.
  { intros k i r i' (reg & -> & Hl)%carrying_later (reg' & -> & Hg)%carrying_get. by exists reg, reg'. }
  split.
  - intros k i o i' i'' Hk Hi Hg Hl. destruct (Hget _ _ _ _ Hi Hg) as (reg & reg' & -> & -> & Hr & Hg').
    apply carrying_later in Hl as (reg'' & -> & Hl). apply carrying_asked.
    by apply (singleton_scope _ _ _ Hlaws k reg o reg' reg'').
  - intros i i' o x (reg & -> & Hr)%carrying_later Ho (reg' & -> & Hl)%carrying_later.
    by apply (objects_stay _ _ _ Hlaws reg reg' o x).
  - intros k c i o i' Hi Hg Hb. destruct (Hget _ _ _ _ Hi Hg) as (reg & reg' & -> & -> & Hr & Hg').
    destruct (made_by_class _ _ _ Hlaws k c reg o reg' Hr Hg' Hb) as (args & Ho & Ha).
    exists args. split; [done|]. eapply Forall2_impl; [exact Ha|]. intros k' a H Hk'.
    by apply carrying_asked, H.
  - intros k p i o i' Hi Hg Hb. destruct (Hget _ _ _ _ Hi Hg) as (reg & reg' & -> & -> & Hr & Hg').
    destruct (made_by_provider _ _ _ Hlaws k p reg o reg' Hr Hg' Hb) as (args & objs & x & Hx & Ha & Ho & Hm).
    exists args, objs, x. split_and!; [done| |done|done].
    eapply Forall2_impl; [exact Ha|]. intros k' a H Hk'. by apply carrying_asked, H.
  - intros k p i e i' Hi Hg. destruct (Hget _ _ _ _ Hi Hg) as (reg & reg' & -> & -> & Hr & Hg').
    by apply (raised_by_provider _ _ _ Hlaws k p reg e reg').
Qed.
End Carrying.

(** ** Instances *)

Definition demo_environment : environment :=
  Environment (Returned default_config) default_auth_settings ∅ (Returned default_database_settings).
Definition demo_resources : engine_options * session_factory :=
  build_engine_and_session_factory default_database_settings None.
Definition demo_provide : provider -> list instance -> ending instance :=
  provide (fun _ => None) (fun _ => false) demo_environment demo_resources.

#[local] Instance demo_injector : Injector registry := simple_injector container_bindings demo_provide 4.

Definition first_asked : registry := (inj_get IAuthUsecase (Registry [] [])).2.
Definition then_asked : registry := (inj_get IAccountDeletionUsecase first_asked).2.

(** Without its scope a binding is not shared: two requests make two objects. *)
Definition unscoped_bindings : list (interface * binding) :=
  [provided ISessionFactory provide_session_factory Singleton; bind IUnitOfWork UnitOfWorkClass NoScope].

Example unscoped_not_shared :
  let get k := @inj_get _ (simple_injector unscoped_bindings demo_provide 4) k in
  let '(r1, i) := get IUnitOfWork (Registry [] []) in
  let '(r2, _) := get IUnitOfWork i in
  r1 = Returned 1%nat /\ r2 = Returned 2%nat.
Proof. vm_compute. done. Qed.

Lemma argument_step (i : registry) o o' c l :
  objects i !! o = Some (AnObject c l) -> o' ∈ l -> argument_of i o o'.
Proof. intros H Hin. by exists c, l. Qed.

(** The unit of work of the repository of items, which the deletion of accounts uses, is
    that of the authentication use case. *)
Lemma components_are_shared_witness :
  exists o1 o2 u1 u2,
    inj_get IAuthUsecase (Registry [] []) = (Returned o1, first_asked)
    /\ inj_get IAccountDeletionUsecase first_asked = (Returned o2, then_asked)
    /\ argument_of then_asked o1 u1 /\ (exists r, argument_of then_asked o2 r /\ r <> u2 /\ argument_of then_asked r u2)
    /\ (exists a, inj_object then_asked u2 = Some (AnObject UnitOfWorkClass a)) /\ u1 = u2.
Proof.
  exists 9%nat, 11%nat, 1%nat, 1%nat.
  assert (argument_of then_asked 9 1) as A1.
  { eapply argument_step; [vm_compute; reflexivity|]. do 2 right. left. }
  assert (argument_of then_asked 11 10) as A2.
  { eapply argument_step; [vm_compute; reflexivity|]. do 2 right. left. }
  assert (argument_of then_asked 10 1) as A3.
  { eapply argument_step; [vm_compute; reflexivity|]. left. }
  assert (inj_get IAuthUsecase (Registry [] []) = (Returned 9%nat, first_asked)) as G1
    by (vm_compute; reflexivity).
  assert (inj_get IAccountDeletionUsecase first_asked = (Returned 11%nat, then_asked)) as G2
    by (vm_compute; reflexivity).
  split; [exact G1|]. split; [exact G2|]. split; [exact A1|]. split.
  { exists 10%nat. split; [exact A2|]. split; [discriminate|exact A3]. }
  split; [eexists; vm_compute; reflexivity|].
  refine (components_are_shared (fun _ => None) (fun _ => false) demo_environment demo_resources
    (Registry [] []) (simple_injector_laws container_bindings demo_provide 4 (Nat.lt_0_succ 3))
    IAuthUsecase IAccountDeletionUsecase 9 11 (Registry [] []) first_asked first_asked then_asked 1 1
    _ _ (rtc_refl _ _) G1 (rtc_refl _ _) G2 (rtc_once _ _ A1)
    (rtc_l _ _ _ _ A2 (rtc_once _ _ A3)) _ _ _); [vm_compute; reflexivity..|reflexivity].
Defined.
