(* ===== verification/Manage.v ===== *)
(** * The maintenance command line

    Models the commands of src/backend/manage.py that work on the policy or the
    database: pruning, the checks of the policy and of the assignments, granting a
    role and seeding the administrator of a development database; and the database
    setting they ask for.  A command returns the lines it prints to the standard
    output; what goes to the standard error is left out.  SQLAlchemy's [make_url] and
    Python's [datetime.fromisoformat] are parameters.  The commands that call Alembic
    and uvicorn are in Commands.v. *)

From S2P Require Import Prelude PyStr Errors Time Authorization Tables Effects UnitOfWork.
From S2P Require Import AuthRepository AuthorizationRepository AdminUserRepository.
From S2P Require Import AuthUsecase AuthorizationUsecase DatabaseConfig.

(** What [get_config] and [get_database_settings] return. *)
Record cli_settings := CliSettings {
  cli_config : Config;
  cli_database : DatabaseSettings;
}.

Section Manage.
Context `{E : Env} {L : Type}.
Context (settings : cli_settings).
Context (make_url : string -> option URL) (set_drivername : string -> URL -> URL).
(** The instant and whether it has an offset, or [None] where it raises. *)
Context (fromisoformat : string -> option (Z * bool)).
Notation uow := unit_of_work.

(** [raise typer.Exit(code=code)] *)
Definition cli_exit {A} (code : Z) : M L A := raise (TyperExit code).

(* src: backend/manage.py:394-408 _get_explicit_database_settings *)
Definition explicit_database_settings : result DatabaseSettings :=
  let database_settings := cli_database settings in
  if negb (database_url_configured database_settings) then Raise (TyperExit 2)
  else match get_alembic_database_url make_url set_drivername database_settings with
       | Ok _ => Ok database_settings
       | Raise _ => Raise (TyperExit 2)
       end.
Definition get_explicit_database_settings : M L DatabaseSettings := lift explicit_database_settings.

(* src: backend/manage.py:372-391 _parse_cli_datetime *)
Definition parse_cli_datetime (value : option string) : M L (option Z) :=
  match value with
  | None => mret None
  | Some v => match fromisoformat v with
              | None => cli_exit 2
              | Some (_, false) => cli_exit 2
              | Some (t, true) => mret (Some t)
              end
  end.

(** ** Pruning *)

(** [if at is not None: deleted = ...; typer.echo(...)] *)
Definition prune_step (before : option Z) (delete : Z -> M L Z) (label : string) : M L (list string) :=
  match before with
  | None => mret []
  | Some t => n ← delete t; mret [(label ++ pretty n)%string]
  end.

(* src: backend/manage.py:117-163 db_prune_auth *)
Definition db_prune_auth (expired_sessions_before audit_logs_before oidc_states_before : option string)
  : M L (list string) :=
  if is_none expired_sessions_before && is_none audit_logs_before && is_none oidc_states_before
  then cli_exit 2
  else
    expired_sessions_before_at ← parse_cli_datetime expired_sessions_before;
    audit_logs_before_at ← parse_cli_datetime audit_logs_before;
    oidc_states_before_at ← parse_cli_datetime oidc_states_before;
    get_explicit_database_settings ;;
    logs ← prune_step audit_logs_before_at delete_audit_logs_occurred_before "Deleted audit logs: ";
    sessions ← prune_step expired_sessions_before_at delete_sessions_expired_before
                 "Deleted expired sessions: ";
    states ← prune_step oidc_states_before_at delete_oidc_states_expired_before
               "Deleted OIDC authorization states: ";
    mret (logs ++ sessions ++ states).

(** ** The policy *)

Notation config_errors :=
  (authorization_config_errors DEFAULT_AUTHORIZATION_PERMISSIONS DEFAULT_AUTHORIZATION_DEFINITIONS).

(* src: backend/manage.py:166-175 authz_check_config *)
Definition authz_check_config : M L (list string) :=
  match config_errors with
  | [] => mret ["Authorization config is valid."%string]
  | _ => cli_exit 1
  end.

Definition valid_config_or_exit : M L unit :=
  match config_errors with [] => mret tt | _ => cli_exit 1 end.

(* src: backend/manage.py:187-187 authz_check_assignments *)
Definition catalog_role_codes : gset string := dom default_role_catalog.

(* src: backend/manage.py:178-204 authz_check_assignments *)
Definition authz_check_assignments : M L (list string) :=
  valid_config_or_exit ;;
  get_explicit_database_settings ;;
  assignments ← list_unknown_role_assignments catalog_role_codes;
  match assignments with
  | [] => mret ["Authorization assignments are valid."%string]
  | _ => cli_exit 1
  end.

(* src: backend/manage.py:242-256 authz_prune_unknown_role_assignments *)
Definition prune_event (assignment : UnknownRoleAssignment) : audit_event :=
  AuditEvent None None ROLE_REVOKED None None
    (Some (JObj [("source", JStr "cli-prune"); ("actorUserId", JNull);
                 ("targetUserId", JStr (uuid_str (ur_user_id assignment)));
                 ("roleCode", JStr (ur_role_code assignment))]%string)) None.

(* src: backend/manage.py:233-257 authz_prune_unknown_role_assignments *)
Definition prune_transaction : M L Z :=
  transaction uow (
    assignments ← list_unknown_role_assignments catalog_role_codes;
    deleted_count ← delete_unknown_role_assignments catalog_role_codes;
    for_each assignments (fun assignment => create_audit_log (prune_event assignment)) ;;
    mret deleted_count).

(* src: backend/manage.py:207-260 authz_prune_unknown_role_assignments *)
Definition authz_prune_unknown_role_assignments (yes : bool) : M L (list string) :=
  if negb yes then cli_exit 1
  else
    valid_config_or_exit ;;
    get_explicit_database_settings ;;
    deleted_count ← prune_transaction;
    mret [("Deleted " ++ pretty deleted_count ++ " unknown role assignment(s).")%string].

(** ** Granting *)

(** Adding a role to those a user has, with an audit row per role that is new. *)
(* src: backend/manage.py:283-303 authz_grant_role *)
Definition add_role (source : string) (user : User) (role : string) : M L unit :=
  codes ← get_user_role_codes (u_id user);
  let existing_roles : gset string := list_to_set codes in
  result ← replace_user_roles (u_id user) (sorted (elements (existing_roles ∪ {[role]}))) None;
  for_each (granted_role_codes result) (fun granted_role_code =>
    create_audit_log (AuditEvent None None ROLE_GRANTED None None
      (Some (role_audit_detail (Some source) None (u_id user) granted_role_code
               (current_role_codes result))) None)).

(* src: backend/manage.py:263-307 authz_grant_role *)
Definition authz_grant_role (email role : string) : M L (list string) :=
  if is_none (default_role_catalog !! role) then cli_exit 1
  else
    get_explicit_database_settings ;;
    let normalized_email := normalize_email email in
    transaction uow (
      user ← find_user_by_email normalized_email;
      match user with
      | None => cli_exit 1
      | Some user => add_role "cli" user role
      end) ;;
    mret [("Granted role " ++ role ++ " to " ++ normalized_email ++ ".")%string].

(** ** Seeding *)

Definition seed_email : string := "admin@example.com".
Definition seed_password : string := "Password@123!".

(* src: backend/manage.py:328-344 seed_admin *)
Definition seed_user (password_hash : string) : M L User :=
  user ← find_user_by_email seed_email;
  match user with
  | None => AdminUserRepository.create_user seed_email password_hash true
  | Some user =>
      AdminUserRepository.update_user (u_id user)
        (UserChanges None None (Some true) None {["password"; "is_active"]}%string) (Some password_hash)
  end.

(* src: backend/manage.py:310-369 seed_admin *)
Definition seed_admin : M L (list string) :=
  let environment := lower (ENVIRONMENT (cli_config settings)) in
  if negb (existsb (String.eqb environment) ["local"; "development"]%string) then cli_exit 1
  else
    get_explicit_database_settings ;;
    password_hash ← hash_password seed_password;
    transaction uow (
      user ← seed_user password_hash;
      add_role "cli-seed-admin" user "admin") ;;
    mret [("Seeded admin user " ++ seed_email ++ ".")%string].
End Manage.
