(* ===== verification/SampleItemUsecase.v ===== *)
(** * Sample items

    Models src/backend/app/usecases/sample_item_usecase.py.  What [json] and
    [datetime] do for the text of a cursor is the class [CursorCodec]; base64 and the
    text of identifiers are those of [Codecs].  At the end, what the text of a cursor reads back as. *)

From S2P Require Import Prelude PyStr Errors Codecs Time Tables Effects UnitOfWork.
From S2P Require Import AuthRepository SampleItemRepository.

(* src: backend/app/models/sample_item.py:18-21 SampleItemListResult *)
Record SampleItemListResult := ItemList {
  list_items_ : list SampleItem;
  next_cursor : option string;
}.

(* src: backend/app/models/sample_item.py:24-29 SampleItemUpdateChanges *)
Record SampleItemUpdateChanges := ItemChanges {
  it_ch_title : option string;
  it_ch_description : option string;
  it_ch_is_completed : option bool;
  it_ch_fields_set : gset string;
}.

(** ** Cursors *)

(** The UTF-8 bytes of [json.dumps], [json.loads] of bytes, [isoformat] of an aware
    datetime in UTC, and [fromisoformat]: the instant and whether it has an offset,
    [None] where it raises [ValueError]. *)
Class CursorCodec := {
  json_dumps : json -> list Z;
  json_loads : list Z -> result json;
  isoformat : Z -> string;
  fromisoformat : string -> option (Z * bool);
}.

Section Cursors.
Context {C : CursorCodec}.

Definition cursor_of (item : SampleItem) : SampleItemCursor :=
  ItemCursor (it_registered_at item) (it_id item).

(* src: backend/app/usecases/sample_item_usecase.py:98-101 SampleItemUsecase.encode_cursor *)
Definition cursor_payload (cursor : SampleItemCursor) : json :=
  JObj [("created_at", JStr (isoformat (c_registered_at cursor))); ("id", JStr (uuid_str (c_id cursor)))]%string.

(* src: backend/app/usecases/sample_item_usecase.py:97-102 SampleItemUsecase.encode_cursor *)
Definition encode_cursor (item : SampleItem) : string :=
  urlsafe_b64encode (json_dumps (cursor_payload (cursor_of item))).

(** [payload[key]] *)
Definition json_item (payload : json) (key : string) : result json :=
  match payload with
  | JObj fields => match json_get key fields with Some v => Ok v | None => Raise (KeyError key) end
  | JArr _ => Raise (TypeError "list indices must be integers or slices, not str")
  | JStr _ => Raise (TypeError "string indices must be integers, not 'str'")
  | JNull | JBool _ | JInt _ => Raise (TypeError "object is not subscriptable")
  end.

(** [datetime.fromisoformat(value)] and [UUID(value)] of a value of any type. *)
Definition datetime_of (value : json) : result (Z * bool) :=
  match value with
  | JStr text => match fromisoformat text with
                 | Some t => Ok t
                 | None => Raise (ValueError "Invalid isoformat string")
                 end
  | _ => Raise (TypeError "fromisoformat: argument must be str")
  end.
Definition uuid_of (value : json) : result Z :=
  match value with
  | JStr text => match uuid_of_hex text with
                 | Some id => Ok id
                 | None => Raise (ValueError "badly formed hexadecimal UUID string")
                 end
  | JNull => Raise (TypeError "one of the hex, bytes, bytes_le, fields, or int arguments must be given")
  | _ => Raise (AttributeError "object has no attribute 'replace'")
  end.

(** [cursor.encode("ascii")] and [base64.urlsafe_b64decode], whose errors are
    [ValueError]s. *)
Definition b64_bytes (cursor : string) : result (list Z) :=
  if forallb (fun c => code c <? 128) (chars cursor) then
    match urlsafe_b64decode cursor with
    | Some bytes => Ok bytes
    | None => Raise (ValueError "Incorrect padding")
    end
  else Raise (ValueError "ordinal not in range(128)").

(* src: backend/app/usecases/sample_item_usecase.py:105-110 SampleItemUsecase.decode_cursor *)
Definition read_cursor (cursor : string) : result SampleItemCursor :=
  bytes ← b64_bytes cursor;
  payload ← json_loads bytes;
  created_at ← json_item payload "created_at";
  registered_at ← datetime_of created_at;
  if negb registered_at.2 then Raise (ValueError "created_at must be timezone-aware")
  else
    id ← json_item payload "id";
    id ← uuid_of id;
    Ok (ItemCursor registered_at.1 id).

(** [binascii.Error] and [UnicodeError] are [ValueError]s. *)
(* src: backend/app/usecases/sample_item_usecase.py:104-112 SampleItemUsecase.decode_cursor *)
Definition decode_cursor (cursor : string) : result SampleItemCursor :=
  match read_cursor cursor with
  | Raise (KeyError _ | TypeError _ | ValueError _) => Raise InvalidSampleItemCursorError
  | r => r
  end.

(** [items[limit - 1]] exists because [items] is longer than [limit >= 1]. *)
(* src: backend/app/usecases/sample_item_usecase.py:92-95 SampleItemUsecase.next_cursor_for_items *)
Definition next_cursor_for_items (items : list SampleItem) (limit : Z) : option string :=
  if Z.of_nat (length items) <=? limit then None
  else encode_cursor <$> items !! Z.to_nat (limit - 1).
End Cursors.

Section SampleItemUsecase.
Context `{E : Env} {L : Type}.
Notation uow := unit_of_work.

(* src: backend/app/usecases/sample_item_usecase.py:28-43 SampleItemUsecase.list_items *)
Definition list_items {C : CursorCodec} (owner_user_id limit : Z) (cursor : option string)
  : M L SampleItemListResult :=
  decoded_cursor ← (if truthy_opt cursor
                    then cursor ← lift (decode_cursor (default "" cursor)); mret (Some cursor)
                    else mret None);
  items ← list_by_owner owner_user_id (limit + 1) decoded_cursor;
  mret (ItemList (take (Z.to_nat limit) items) (next_cursor_for_items items limit)).

(* src: backend/app/usecases/sample_item_usecase.py:45-56 SampleItemUsecase.create_item *)
Definition create_item (owner_user_id : Z) (title : string) (description : option string)
  : M L SampleItem :=
  id ← uuid4;
  create id owner_user_id title description.

(* src: backend/app/usecases/sample_item_usecase.py:58-62 SampleItemUsecase.get_item *)
Definition get_item (owner_user_id item_id : Z) : M L SampleItem :=
  item ← get_by_id_for_owner item_id owner_user_id;
  match item with
  | None => raise SampleItemNotFoundError
  | Some i => mret i
  end.

(* src: backend/app/usecases/sample_item_usecase.py:75-84 SampleItemUsecase.update_item *)
Definition apply_changes (changes : SampleItemUpdateChanges) (item : SampleItem)
  : result SampleItem :=
  let fields_set := it_ch_fields_set changes in
  item ← (if decide (("title" : string) ∈ fields_set) then
            match it_ch_title changes with
            | None => Raise (ValueError "title cannot be None when included in fields_set")
            | Some t => Ok (set_title t item)
            end
          else Ok item : result SampleItem);
  item ← (if decide (("description" : string) ∈ fields_set)
          then Ok (set_description (it_ch_description changes) item)
          else Ok item : result SampleItem);
  if decide (("is_completed" : string) ∈ fields_set) then
    match it_ch_is_completed changes with
    | None => Raise (ValueError "is_completed cannot be None when included in fields_set")
    | Some b => Ok (set_completed b item)
    end
  else Ok item.

(* src: backend/app/usecases/sample_item_usecase.py:64-85 SampleItemUsecase.update_item *)
Definition update_item (owner_user_id item_id : Z) (changes : SampleItemUpdateChanges)
  : M L SampleItem :=
  if bool_decide (it_ch_fields_set changes = ∅) then get_item owner_user_id item_id
  else
    transaction uow (
      item ← get_item owner_user_id item_id;
      item ← lift (apply_changes changes item);
      update item).

(* src: backend/app/usecases/sample_item_usecase.py:87-90 SampleItemUsecase.delete_item *)
Definition delete_item (owner_user_id item_id : Z) : M L unit :=
  transaction uow (
    item ← get_item owner_user_id item_id;
    delete_item_row item).
End SampleItemUsecase.

(** ** The text of a pagination cursor

    The text made for an item reads back as that item's position, and what a text
    that was not made by the program is answered with. *)

(** What [json] and [datetime] promise for the payload of a cursor: the bytes are
    those of a text that is read back, and [fromisoformat] inverts [isoformat]. *)
Definition cursor_ok (c : SampleItemCursor) : Prop :=
  datetime_min_us <= c_registered_at c <= datetime_max_us /\ 0 <= c_id c < 2 ^ 128.

Record codec_laws {C : CursorCodec} : Prop := {
  dumps_bytes c : Forall is_byte (json_dumps (cursor_payload c)) /\ json_dumps (cursor_payload c) <> [];
  loads_dumps c : cursor_ok c -> json_loads (json_dumps (cursor_payload c)) = Ok (cursor_payload c);
  iso_round_trip t : datetime_min_us <= t <= datetime_max_us -> fromisoformat (isoformat t) = Some (t, true);
}.

Section Spec.
Context {C : CursorCodec}.

Lemma b64_char_ascii n : 0 <= n < 64 -> (code (b64_char n) <? 128) = true.
Proof.
  intros Hn. assert (forallb (fun k => code (b64_char (Z.of_nat k)) <? 128) (seq 0 64) = true) as H
    by (vm_compute; reflexivity).
  rewrite forallb_forall in H. specialize (H (Z.to_nat n)). rewrite Z2Nat.id in H by lia.
  apply H, in_seq. lia.
Qed.

Lemma b64_ascii l :
  Forall is_byte l -> forallb (fun c => code c <? 128) (chars (urlsafe_b64encode l)) = true.
Proof.
  unfold urlsafe_b64encode. rewrite chars_of_chars.
  induction l as [|a|a b|a b c l IH] using b64_ind; rewrite ?Forall_cons; [done| | |].
  - intros [Ha _]. cbn [b64_encode forallb].
    by rewrite (b64_char_ascii (a / 4)), (b64_char_ascii (a mod 4 * 16)) by sextets.
  - intros (Ha & Hb & _). cbn [b64_encode forallb].
    by rewrite (b64_char_ascii (a / 4)), (b64_char_ascii (a mod 4 * 16 + b / 16)),
      (b64_char_ascii (b mod 16 * 4)) by sextets.
  - intros (Ha & Hb & Hc & Hl). cbn [b64_encode forallb app].
    rewrite (b64_char_ascii (a / 4)), (b64_char_ascii (a mod 4 * 16 + b / 16)),
      (b64_char_ascii (b mod 16 * 4 + c / 64)), (b64_char_ascii (c mod 64)) by (clear IH Hl; sextets).
    by apply IH.
Qed.

Lemma b64_not_empty l : l <> [] -> truthy (urlsafe_b64encode l) = true.
Proof. intros Hl. apply truthy_spec. by destruct l as [|a [|b [|c l]]]. Qed.

Lemma b64_bytes_encoded l : Forall is_byte l -> b64_bytes (urlsafe_b64encode l) = Ok l.
Proof. intros Hl. unfold b64_bytes. by rewrite b64_ascii, urlsafe_b64_round_trip. Qed.

Lemma read_cursor_steps text bytes created id at_ n :
  b64_bytes text = Ok bytes ->
  json_loads bytes = Ok (JObj [("created_at", JStr created); ("id", JStr id)]%string) ->
  fromisoformat created = Some (at_, true) -> uuid_of_hex id = Some n ->
  read_cursor text = Ok (ItemCursor at_ n).
Proof.
  intros Hb Hl Ht Hn. unfold read_cursor, mbind, result_bind. rewrite Hb, Hl. simpl. rewrite Ht. simpl.
  by rewrite Hn.
Qed.

(** A cursor read back is the position of its item. *)
Lemma cursor_round_trip item :
  codec_laws -> cursor_ok (cursor_of item) ->
  decode_cursor (encode_cursor item) = Ok (cursor_of item) /\ truthy (encode_cursor item) = true.
Proof.
  intros HC Hok. destruct (dumps_bytes HC (cursor_of item)) as [Hb Hne].
  split; [|by apply b64_not_empty]. unfold decode_cursor, encode_cursor.
  rewrite (read_cursor_steps _ _ _ _ _ _ (b64_bytes_encoded _ Hb) (loads_dumps HC _ Hok)
    (iso_round_trip HC _ (proj1 Hok)) (uuid_round_trip _ (proj2 Hok))). done.
Qed.

Lemma b64_bytes_error text e : b64_bytes text = Raise e -> exists m, e = ValueError m.
Proof.
  unfold b64_bytes. destruct (forallb _ _); [destruct (urlsafe_b64decode text)|]; intros [= <-]; eauto.
Qed.

Lemma json_item_error payload key e :
  json_item payload key = Raise e -> exists m, e = KeyError m \/ e = TypeError m.
Proof.
  destruct payload as [| | | | |fields]; simpl; [| | | | |destruct (json_get key fields)];
    intros [= <-]; eauto.
Qed.

(** A text that is no cursor is refused as such, with one exception: where the JSON
    is an object whose [created_at] is an aware time and whose [id] is neither text
    nor null, the constructor of [UUID] fails with an error nobody catches.  (What
    [json.loads] itself raises beside [ValueError]s is passed on.) *)
Theorem cursor_errors text :
  match decode_cursor text with
  | Ok c => exists t, fromisoformat t = Some (c_registered_at c, true)
  | Raise InvalidSampleItemCursorError => True
  | Raise e =>
      exists bytes, b64_bytes text = Ok bytes
      /\ (json_loads bytes = Raise e
          \/ e = AttributeError "object has no attribute 'replace'"
             /\ exists fields t at_ id, json_loads bytes = Ok (JObj fields)
                /\ json_get "created_at" fields = Some (JStr t) /\ fromisoformat t = Some (at_, true)
                /\ json_get "id" fields = Some id /\ (forall s, id <> JStr s) /\ id <> JNull)
  end.
Proof.
  unfold decode_cursor, read_cursor, mbind, result_bind.
  destruct (b64_bytes text) as [bytes|e] eqn:Eb.
  2: { by apply b64_bytes_error in Eb as [m ->]. }
  destruct (json_loads bytes) as [payload|e] eqn:El; [|by destruct e; eauto].
  destruct (json_item payload "created_at") as [created|e] eqn:Ec.
  2: { by apply json_item_error in Ec as [m [-> | ->]]. }
  destruct payload as [| | | | |fields]; try done. simpl in Ec.
  destruct (json_get "created_at" fields) as [v|] eqn:Ev; [|done]. injection Ec as ->.
  destruct created as [| | |t| |]; try done. simpl.
  destruct (fromisoformat t) as [[at_ aware]|] eqn:Et; [|done]. simpl.
  destruct aware; [|done]. simpl.
  destruct (json_get "id" fields) as [id|] eqn:Ei; [|done].
  destruct id as [| | |s| |]; simpl.
  4: { destruct (uuid_of_hex s) as [n|]; simpl; [|done]. by exists t. }
  1: done.
  all: exists bytes; split; [done|]; right; split; [done|]; exists fields, t, at_; eexists; done.
Qed.
End Spec.

(** ** A concrete codec *)

(** Times as 32 hexadecimal digits from a base below all of them, the payload as its
    two texts after one another. *)
Definition string_bytes (s : string) : list Z := map code (chars s).
Definition bytes_chars (l : list Z) : list ascii := map (fun n => ascii_of_N (Z.to_N n)) l.

#[export] Instance demo_codec : CursorCodec := {|
  json_dumps j := match j with
    | JObj [(_, JStr created_at); (_, JStr id)] => string_bytes (created_at ++ id)
    | _ => [] end;
  json_loads l := Ok (JObj [("created_at", JStr (of_chars (take 32 (bytes_chars l))));
                            ("id", JStr (of_chars (drop 32 (bytes_chars l))))]%string);
  isoformat t := of_chars (hex_digits 32 (t + 2 ^ 64));
  fromisoformat s := n ← int_base16 (chars s); Some (n - 2 ^ 64, true);
|}.

Lemma bytes_of_string s : bytes_chars (string_bytes s) = chars s.
Proof.
  unfold bytes_chars, string_bytes. rewrite map_map. rewrite <- (map_id (chars s)) at 2.
  apply map_ext. intros c. unfold code. by rewrite N2Z.id, ascii_N_embedding.
Qed.

Lemma demo_dumps c :
  json_dumps (cursor_payload c)
  = string_bytes (of_chars (hex_digits 32 (c_registered_at c + 2 ^ 64)) ++ uuid_str (c_id c)).
Proof. reflexivity. Qed.

Lemma demo_codec_laws : codec_laws (C := demo_codec).
Proof.
  split.
  - intros c. rewrite demo_dumps. unfold string_bytes. split.
    + apply Forall_fmap, Forall_forall. intros x _. unfold is_byte, code.
      pose proof (N_ascii_bounded x). simpl. lia.
    + destruct (hex_digits_ok 32 (c_registered_at c + 2 ^ 64)) as [_ Hl].
      rewrite chars_app, chars_of_chars. intros H%(f_equal length).
      rewrite length_map, length_app, Hl in H. discriminate H.
  - intros c _. rewrite demo_dumps. unfold json_loads, demo_codec.
    rewrite bytes_of_string, chars_app, chars_of_chars.
    destruct (hex_digits_ok 32 (c_registered_at c + 2 ^ 64)) as [_ Hl].
    rewrite take_app_length', drop_app_length' by done. by rewrite of_chars_chars.
  - intros t Ht. unfold fromisoformat, isoformat, demo_codec. rewrite chars_of_chars.
    destruct (hex_digits_ok 32 (t + 2 ^ 64)) as [Hh _]. rewrite int_base16_hex by done.
    pose proof (int_digits_hex 32 (t + 2 ^ 64) [] 0 false) as H. rewrite app_nil_r in H. rewrite H.
    cbn [int_digits mbind option_bind]. unfold datetime_min_us, datetime_max_us in Ht.
    change (16 ^ Z.of_nat 32) with (2 ^ 128).
    assert (2 ^ 64 = 18446744073709551616) as E1 by reflexivity.
    assert (2 ^ 128 = 340282366920938463463374607431768211456) as E2 by reflexivity.
    rewrite Z.mod_small by lia. do 2 f_equal. lia.
Qed.
