(* ===== verification/OAuthOidcUsecase.v ===== *)
(** * OpenID Connect login and re-authentication

    Models src/backend/app/usecases/oauth_oidc_usecase.py.  The provider client is
    the class [OidcProviderClient]. *)

From S2P Require Import Prelude PyStr Errors Time Url Settings Tables Effects UnitOfWork.
From S2P Require Import Authorization Interfaces AuthRepository AuthorizationRepository.
From S2P Require Import AuthUsecase.

(* src: backend/app/models/oidc.py:27-33 OidcAuthorizationStartResult *)
Record OidcAuthorizationStartResult := StartResult {
  sr_provider_id : string;
  sr_authorization_url : string;
  sr_browser_binding_cookie_name : string;
  sr_browser_binding_cookie_value : string;
  sr_browser_binding_cookie_max_age : Z;
}.

(* src: backend/app/models/oidc.py:62-66 OidcCallbackResult *)
Record OidcCallbackResult := CallbackResult {
  cb_redirect_path : string;
  cb_issued_session : option IssuedAuthSession;
  cb_reauthenticated_context : option AuthenticatedSessionContext;
}.

(* src: backend/app/usecases/oauth_oidc_usecase.py:46-47 AUTH_REDIRECT_PATHS *)
Definition AUTH_REDIRECT_PATHS : list string := ["/login"; "/register"]%string.
(* src: backend/app/usecases/oauth_oidc_usecase.py:47-47 DEFAULT_REDIRECT_PATH *)
Definition DEFAULT_REDIRECT_PATH : string := "/app".

(** ** Pure helpers *)

(* src: backend/app/usecases/oauth_oidc_usecase.py:545-546 _has_ascii_control *)
Definition has_ascii_control (value : string) : bool :=
  existsb (fun c => (code c <=? 31) || (code c =? 127)) (chars value).

(** [f"{mark}{part}" if part else ""] *)
Definition with_mark (mark part : string) : string :=
  if truthy part then (mark ++ part)%string else "".

(* src: backend/app/usecases/oauth_oidc_usecase.py:531-542 _normalize_redirect_path *)
Definition normalize_parsed (parsed : parsed_url) : string :=
  if truthy (scheme parsed) || truthy (netloc parsed) then DEFAULT_REDIRECT_PATH
  else
    let trimmed := rstrip_char "/" (path parsed) in
    let normalized_path := lower (if truthy trimmed then trimmed else "/") in
    if existsb (String.eqb normalized_path) AUTH_REDIRECT_PATHS then DEFAULT_REDIRECT_PATH
    else
      let normalized := ((if truthy (path parsed) then path parsed else "/")
                         ++ with_mark "?" (query parsed)
                         ++ with_mark "#" (fragment parsed))%string in
      if 2048 <? str_len normalized then DEFAULT_REDIRECT_PATH else normalized.

(** [Raise] when [urlparse] rejects the value. *)
(* src: backend/app/usecases/oauth_oidc_usecase.py:522-542 _normalize_redirect_path *)
Definition normalize_redirect_path (is_ipv6 : string -> bool) (value : option string)
  : result string :=
  match value with
  | None => Ok DEFAULT_REDIRECT_PATH
  | Some v =>
      if negb (truthy v) then Ok DEFAULT_REDIRECT_PATH
      else if 2048 <? str_len v then Ok DEFAULT_REDIRECT_PATH
      else if negb (startswith v "/") then Ok DEFAULT_REDIRECT_PATH
      else if contains_char "\" v || has_ascii_control v then Ok DEFAULT_REDIRECT_PATH
      else parsed ← urlparse is_ipv6 v; Ok (normalize_parsed parsed)
  end.

(* src: backend/app/usecases/oauth_oidc_usecase.py:549-558 _trusted_verified_email *)
Definition trusted_verified_email (provider : OidcProviderSettings) (claims : OidcVerifiedClaims)
  : result string :=
  match cl_email claims with
  | None => Raise (OidcError OidcEmailNotVerifiedError)
  | Some email =>
      if negb (trust_verified_email provider) || negb (cl_email_verified claims)
      then Raise (OidcError OidcEmailNotVerifiedError)
      else
        let normalized_email := normalize_email email in
        if negb (truthy normalized_email) then Raise (OidcError OidcEmailNotVerifiedError)
        else Ok normalized_email
  end.

Definition is_login (p : oidc_purpose) : bool := bool_decide (p = PurposeLogin).
Definition is_reauth (p : oidc_purpose) : bool := bool_decide (p = PurposeAccountDeletionReauth).

Section OAuthOidcUsecase.
Context `{E : Env} {L : Type} `{R : LoginRateLimiter L} `{P : OidcProviderClient L}.
Context (auth_settings : AuthSettings) (oidc_settings : OidcSettings) (is_ipv6 : string -> bool).
Notation uow := unit_of_work.

(** The digest's bytes are those of its hexadecimal form. *)
(* src: backend/app/usecases/oauth_oidc_usecase.py:517-519 _s256_code_challenge *)
Definition s256_code_challenge (code_verifier : string) : string :=
  rstrip_char "=" (urlsafe_b64encode (unhex (chars (env_sha256 code_verifier)))).

(* src: backend/app/usecases/oauth_oidc_usecase.py:82-85 OAuthOidcUsecase.start_authorization *)
Definition configured_provider (pid : string) : M L OidcProviderSettings :=
  try_except (lift (get_provider oidc_settings pid)) (fun exc =>
    match exc with
    | KeyError _ => Some (raise (OidcError OidcProviderNotConfiguredError))
    | _ => None
    end).

(** [AuthIdentity(...)] with its default link time, flushed by the repository. *)
(* src: backend/app/usecases/oauth_oidc_usecase.py:561-574 _identity_for_claims *)
Definition create_identity_for_claims (provider : OidcProviderSettings)
    (claims : OidcVerifiedClaims) (user_id : Z) : M L AuthIdentity :=
  id ← uuid4;
  linked_at ← utcnow;
  create_auth_identity (mkIdentity id user_id (provider_id provider) (cl_subject claims)
    (option_map normalize_email (cl_email claims)) (cl_email_verified claims)
    (cl_claims_json claims) linked_at None).

(* src: backend/app/usecases/oauth_oidc_usecase.py:494-514 OAuthOidcUsecase._audit_log *)
Definition oidc_event (event_type : AuthEventType) (user_id session_id : Z) (pid : string)
    (purpose : oidc_purpose) (ip_address user_agent : option string) : audit_event :=
  AuditEvent (Some user_id) (Some session_id) event_type ip_address user_agent
    (Some (JObj [("provider_id", JStr pid); ("purpose", JStr (purpose_str purpose))]%string)) None.

(* src: backend/app/usecases/oauth_oidc_usecase.py:468-492 OAuthOidcUsecase._audit_oidc_failure *)
Definition audit_oidc_failure (event_type : AuthEventType) (pid : string) (purpose : oidc_purpose)
    (error : exn) (ip_address user_agent : option string) (user_id session_id : option Z)
  : M L unit :=
  create_audit_log (AuditEvent user_id session_id event_type ip_address user_agent
    (Some (JObj [("provider_id", JStr pid); ("purpose", JStr (purpose_str purpose));
                 ("error", JStr (exn_name error))]%string)) None).

(** The audit of a failed callback, by purpose. *)
(* src: backend/app/usecases/oauth_oidc_usecase.py:193-216 OAuthOidcUsecase.complete_callback *)
Definition audit_callback_failure (pid : string) (oidc_state : AuthOidcState) (error : exn)
    (current_session : option AuthenticatedSessionContext) (ip_address user_agent : option string)
  : M L unit :=
  let purpose := o_purpose oidc_state in
  if is_reauth purpose then
    let user_id := match current_session with
                   | Some c => Some (u_id (ctx_user c))
                   | None => o_expected_user_id oidc_state
                   end in
    let session_id := match current_session with
                      | Some c => Some (s_id (ctx_session c))
                      | None => o_expected_session_id oidc_state
                      end in
    audit_oidc_failure OIDC_REAUTH_FAILED pid purpose error ip_address user_agent user_id session_id
  else
    audit_oidc_failure OIDC_LOGIN_FAILED pid purpose error ip_address user_agent None None.

(** ** Start *)

(* src: backend/app/usecases/oauth_oidc_usecase.py:73-139 OAuthOidcUsecase.start_authorization *)
Definition start_authorization (pid : string) (redirect_path : option string)
    (purpose : oidc_purpose) (current_session : option AuthenticatedSessionContext)
    (ip_address : option string) (language_code : option string)
  : M L OidcAuthorizationStartResult :=
  provider ← configured_provider pid;
  if is_reauth purpose && is_none current_session then
    raise (OidcError OidcReauthAuthenticationRequiredError)
  else
    let rate_limit_ip := or_else ip_address "unknown" in
    allowed ← is_oidc_authorization_allowed rate_limit_ip;
    if negb allowed then raise (OidcError OidcAuthorizationRateLimitedError)
    else
      state ← generate_token;
      browser_binding ← generate_token;
      nonce ← generate_token;
      pkce_verifier ← generate_token;
      let state_hash := hash_token state in
      now ← utcnow;
      let login_hint :=
        if is_reauth purpose
        then (fun c => normalize_email (u_email (ctx_user c))) <$> current_session else None in
      authorization_url ← build_authorization_url (AuthorizationRequest (provider_id provider)
        state nonce (s256_code_challenge pkce_verifier)
        (if is_reauth purpose then Some "login"%string else None)
        (if is_reauth purpose then Some 0 else None) login_hint);
      transaction uow (
        id ← uuid4;
        redirect ← lift (normalize_redirect_path is_ipv6 redirect_path);
        create_oidc_authorization_state (mkOidcState id state_hash (hash_token browser_binding)
          (hash_token nonce) pkce_verifier (provider_id provider) purpose
          ((fun c => u_id (ctx_user c)) <$> current_session)
          ((fun c => s_id (ctx_session c)) <$> current_session)
          redirect login_hint (if is_login purpose then language_code else None)
          (now + timedelta_seconds (AUTH_OIDC_STATE_TTL_SECONDS oidc_settings)) None) ;;
        record_oidc_authorization rate_limit_ip) ;;
      mret (StartResult (provider_id provider) authorization_url
              ("oidc_binding_" ++ take_str 16 state_hash) browser_binding
              (AUTH_OIDC_STATE_TTL_SECONDS oidc_settings)).

(** ** Callback *)

(* src: backend/app/usecases/oauth_oidc_usecase.py:271-296 OAuthOidcUsecase._consume_callback_state *)
Definition consume_callback_state (provider : OidcProviderSettings) (state : string)
    (browser_binding_cookie_value : option string) : M L AuthOidcState :=
  match browser_binding_cookie_value with
  | None => raise (OidcError OidcBrowserBindingMismatchError)
  | Some cookie =>
      let state_hash := hash_token state in
      consumed_at ← utcnow;
      consume_result ← transaction uow
        (consume_oidc_authorization_state state_hash (hash_token cookie) consumed_at);
      match cr_status consume_result with
      | state_mismatch | expired | already_consumed => raise (OidcError OidcStateMismatchError)
      | browser_binding_mismatch => raise (OidcError OidcBrowserBindingMismatchError)
      | consumed =>
          match cr_state consume_result with
          | Some oidc_state =>
              if (o_provider_id oidc_state =? provider_id provider)%string then mret oidc_state
              else raise (OidcError OidcStateMismatchError)
          | None => raise (OidcError OidcStateMismatchError)
          end
      end
  end.

(* src: backend/app/usecases/oauth_oidc_usecase.py:404-416 OAuthOidcUsecase._resolve_login_user_and_identity *)
Definition provision_user (provider : OidcProviderSettings) (claims : OidcVerifiedClaims)
    (normalized_email : string) (language_code : option string)
  : M L (User * AuthIdentity * list AuthEventType) :=
  if negb (allows_auto_provision provider) then raise (OidcError OidcProvisioningDisabledError)
  else
    user ← try_except (create_user normalized_email None (or_else language_code "ja"))
             (fun exc => match exc with
              | EmailAlreadyRegisteredError => Some (raise (OidcError OidcIdentityUnavailableError))
              | _ => None
              end);
    identity ← create_identity_for_claims provider claims (u_id user);
    mret (user, identity, [OIDC_USER_PROVISIONED]).

(* src: backend/app/usecases/oauth_oidc_usecase.py:371-416 OAuthOidcUsecase._resolve_login_user_and_identity *)
Definition resolve_login_user_and_identity (provider : OidcProviderSettings)
    (claims : OidcVerifiedClaims) (language_code : option string)
  : M L (User * AuthIdentity * list AuthEventType) :=
  found ← find_identity_by_provider_subject (provider_id provider) (cl_subject claims);
  match found with
  | Some identity =>
      user ← find_user_by_id_for_authentication (i_user_id identity);
      match user with
      | Some u =>
          if is_some (u_deleted_at u) || negb (u_is_active u)
          then raise (OidcError OidcIdentityUnavailableError)
          else mret (u, identity, [])
      | None => raise (OidcError OidcIdentityUnavailableError)
      end
  | None =>
      normalized_email ← lift (trusted_verified_email provider claims);
      linked_user ← find_user_by_verified_email_for_oidc_link normalized_email;
      match linked_user with
      | Some u =>
          match provider_link_mode provider with
          | LinkDisabled => raise (OidcError OidcIdentityLinkDisabledError)
          | LinkManual => raise (OidcError OidcIdentityLinkRequiredError)
          | LinkAuto =>
              identity ← create_identity_for_claims provider claims (u_id u);
              mret (u, identity, [OIDC_IDENTITY_LINKED])
          end
      | None =>
          colliding_user ← find_user_by_email_for_oidc_collision normalized_email;
          match colliding_user with
          | Some _ => raise (OidcError OidcIdentityUnavailableError)
          | None => provision_user provider claims normalized_email language_code
          end
      end
  end.

(* src: backend/app/usecases/oauth_oidc_usecase.py:310-353 OAuthOidcUsecase._complete_login_callback *)
Definition login_callback_transaction (provider : OidcProviderSettings) (oidc_state : AuthOidcState)
    (claims : OidcVerifiedClaims) (language_code current_session_token ip_address user_agent : option string)
  : M L (User * (AuthSession * string * string)) :=
  transaction uow (
    resolved ← resolve_login_user_and_identity provider claims language_code;
    let '(user, identity, setup_audits) := resolved in
    login_at ← utcnow;
    user ← record_user_login (u_id user) login_at;
    issued ← replace_auth_session auth_settings user current_session_token ip_address user_agent;
    let session := issued.1.1 in
    record_oidc_login (u_id user) (i_id identity) (s_id session) login_at (cl_auth_time claims) ;;
    for_each setup_audits (fun event_type =>
      create_audit_log (oidc_event event_type (u_id user) (s_id session) (provider_id provider)
                          (o_purpose oidc_state) ip_address user_agent)) ;;
    create_audit_log (oidc_event OIDC_LOGIN_SUCCESS (u_id user) (s_id session)
                        (provider_id provider) (o_purpose oidc_state) ip_address user_agent) ;;
    mret (user, issued)).

(* src: backend/app/usecases/oauth_oidc_usecase.py:298-365 OAuthOidcUsecase._complete_login_callback *)
Definition complete_login_callback (provider : OidcProviderSettings) (oidc_state : AuthOidcState)
    (claims : OidcVerifiedClaims) (current_session_token ip_address user_agent : option string)
  : M L OidcCallbackResult :=
  let language_code := match o_language_code oidc_state with
                       | Some c => if supported_language c then Some c else None
                       | None => None
                       end in
  result ← login_callback_transaction provider oidc_state claims language_code
             current_session_token ip_address user_agent;
  let '(user, (session, session_token, csrf_token)) := result in
  authorization ← authorization_for_existing_user (u_id user);
  mret (CallbackResult (o_redirect_path oidc_state)
          (Some (Issued user session session_token csrf_token (ua_roles authorization)
                   (ua_permissions authorization))) None).

(* src: backend/app/usecases/oauth_oidc_usecase.py:418-466 OAuthOidcUsecase._complete_reauth_callback *)
Definition complete_reauth_callback (provider : OidcProviderSettings) (oidc_state : AuthOidcState)
    (claims : OidcVerifiedClaims) (current_session : option AuthenticatedSessionContext)
    (ip_address user_agent : option string) : M L OidcCallbackResult :=
  match current_session with
  | None => raise (OidcError OidcReauthAuthenticationRequiredError)
  | Some c =>
      let user_id := u_id (ctx_user c) in
      let session_id := s_id (ctx_session c) in
      if negb (bool_decide (o_expected_user_id oidc_state = Some user_id))
         || negb (bool_decide (o_expected_session_id oidc_state = Some session_id))
      then raise (OidcError OidcReauthSubjectMismatchError)
      else
        found ← find_identity_by_provider_subject (provider_id provider) (cl_subject claims);
        match found with
        | None => raise (OidcError OidcReauthSubjectMismatchError)
        | Some identity =>
            if negb (i_user_id identity =? user_id)
            then raise (OidcError OidcReauthSubjectMismatchError)
            else match cl_auth_time claims with
                 | None => raise (OidcError OidcReauthAuthTimeRequiredError)
                 | Some auth_time =>
                     now ← utcnow;
                     if timedelta_seconds (AUTH_OIDC_REAUTH_FRESHNESS_SECONDS oidc_settings)
                        <? now - auth_time
                     then raise (OidcError OidcReauthStaleError)
                     else
                       reauthenticated_at ← utcnow;
                       transaction uow (
                         record_oidc_reauth session_id auth_time ;;
                         create_audit_log (oidc_event OIDC_REAUTH_SUCCESS user_id session_id
                           (provider_id provider) (o_purpose oidc_state) ip_address user_agent)) ;;
                       mret (CallbackResult (o_redirect_path oidc_state) None (Some c))
                 end
        end
  end.

(** What follows the consumption of the state; every exception is audited and
    wrapped with the purpose and redirect path of the flow. *)
(* src: backend/app/usecases/oauth_oidc_usecase.py:162-221 OAuthOidcUsecase.complete_callback *)
Definition run_callback (provider : OidcProviderSettings) (oidc_state : AuthOidcState)
    (code : string) (current_session : option AuthenticatedSessionContext)
    (current_session_token ip_address user_agent : option string) : M L OidcCallbackResult :=
  let purpose := o_purpose oidc_state in
  try_except (
    id_token ← exchange_code (provider_id provider) code (o_pkce_verifier oidc_state);
    claims ← validate_id_token (provider_id provider) id_token (o_nonce_hash oidc_state)
               (is_reauth purpose);
    if is_reauth purpose then
      complete_reauth_callback provider oidc_state claims current_session ip_address user_agent
    else
      complete_login_callback provider oidc_state claims current_session_token ip_address user_agent)
    (fun exc => Some (
      audit_callback_failure (provider_id provider) oidc_state exc current_session
        ip_address user_agent ;;
      raise (OidcCallbackFlowError exc purpose (o_redirect_path oidc_state)))).

(* src: backend/app/usecases/oauth_oidc_usecase.py:141-221 OAuthOidcUsecase.complete_callback *)
Definition complete_callback (pid state code : string) (browser_binding_cookie_value : option string)
    (current_session : option AuthenticatedSessionContext)
    (current_session_token ip_address user_agent : option string) : M L OidcCallbackResult :=
  provider ← configured_provider pid;
  oidc_state ← consume_callback_state provider state browser_binding_cookie_value;
  run_callback provider oidc_state code current_session current_session_token ip_address user_agent.

(* src: backend/app/usecases/oauth_oidc_usecase.py:223-269 OAuthOidcUsecase.complete_error_callback *)
Definition complete_error_callback (pid state : string)
    (browser_binding_cookie_value : option string) (provider_error : exn)
    (current_session : option AuthenticatedSessionContext) (ip_address user_agent : option string)
  : M L unit :=
  provider ← configured_provider pid;
  oidc_state ← consume_callback_state provider state browser_binding_cookie_value;
  audit_callback_failure (provider_id provider) oidc_state provider_error current_session
    ip_address user_agent ;;
  raise (OidcCallbackFlowError provider_error (o_purpose oidc_state) (o_redirect_path oidc_state)).
End OAuthOidcUsecase.
