(* ===== verification/ComponentInterfaces.v ===== *)
(** * The interfaces of the components

    The abstract classes of src/backend/app/interfaces behind which the container puts
    the repositories and the use cases: each is a class of operations over a monad [F],
    and the component is its instance over [M L].  (The limiter and the provider client,
    which a use case calls without knowing the implementation, are in Interfaces.v.)
    The unit of work's session is implicit in [M]. *)

From S2P Require Import Prelude PyStr Errors Authorization Settings Tables Effects UnitOfWork AuthRepository.
From S2P Require Import AuthorizationRepository AdminUserRepository SampleItemRepository Interfaces.
From S2P Require Import AuthUsecase AuthorizationUsecase AdminUserUsecase SampleItemUsecase OAuthOidcUsecase.
From S2P Require Import AccountDeletionUsecase Container.

(** ** Repositories *)

(* src: backend/app/interfaces/services/unit_of_work_interface.py:7-19 UnitOfWorkInterface *)
Class UnitOfWorkInterface (F : Type -> Type) := {
  if_transaction : forall {A}, F A -> F A;
  if_session_scope : forall {A}, F A -> F A;
  if_is_transaction_session : F bool;
}.

(** Accounts and identities. *)
(* src: backend/app/interfaces/services/auth_repository_interface.py:15-67 AuthRepositoryInterface *)
Class AuthAccountOperations (F : Type -> Type) := {
  if_create_user (email : string) (password_hash : option string) (language_code : string) : F User;
  if_update_user_language (user_id : Z) (language_code : string) (modified_at : Z) : F User;
  if_find_user_by_email (normalized_email : string) : F (option User);
  if_find_user_by_verified_email_for_oidc_link (email : string) : F (option User);
  if_find_user_by_email_for_oidc_collision (email : string) : F (option User);
  if_find_user_by_id_for_authentication (user_id : Z) : F (option User);
  if_find_identity_by_provider_subject (provider_id provider_subject : string) : F (option AuthIdentity);
  if_find_identities_by_user_id (user_id : Z) : F (list AuthIdentity);
  if_create_auth_identity (identity : AuthIdentity) : F AuthIdentity;
  if_delete_auth_identities_for_user (user_id : Z) : F Z;
}.

(** Sessions and logins.  [reauthenticated_at] is not used. *)
(* src: backend/app/interfaces/services/auth_repository_interface.py:69-149 AuthRepositoryInterface *)
Class AuthSessionOperations (F : Type -> Type) := {
  if_create_session (user_id : Z) (session_token_hash csrf_token_hash : string)
    (issued_at last_seen_at expires_at : Z) (ip_address user_agent : option string) : F AuthSession;
  if_find_active_session_by_token_hash (token_hash : string) : F (option AuthSession);
  if_find_session_by_token_hash (token_hash : string) : F (option AuthSession);
  if_update_session_csrf_token_hash (session_id : Z) (csrf_token_hash : string) : F AuthSession;
  if_revoke_session (session_id : Z) : F unit;
  if_touch_session (session_id last_seen_at expires_at : Z) : F AuthSession;
  if_record_user_login (user_id login_at : Z) : F User;
  if_record_oidc_login (user_id identity_id session_id login_at : Z) (provider_auth_time : option Z) : F unit;
  if_record_oidc_reauth (session_id auth_time reauthenticated_at : Z) : F unit;
  if_mark_user_deleted (user_id deleted_at : Z) (session_id : option Z) (ip_address : option string) : F User;
  if_revoke_sessions_for_user (user_id revoked_at : Z) : F Z;
}.

(** Authorization states, the audit log, and pruning. *)
(* src: backend/app/interfaces/services/auth_repository_interface.py:151-189 AuthRepositoryInterface *)
Class AuthRecordOperations (F : Type -> Type) := {
  if_delete_sessions_expired_before (expired_before : Z) : F Z;
  if_delete_audit_logs_occurred_before (occurred_before : Z) : F Z;
  if_create_oidc_authorization_state (state : AuthOidcState) : F AuthOidcState;
  if_consume_oidc_authorization_state (state_hash browser_binding_hash : string) (consumed_at : Z)
    : F AuthOidcStateConsumeResult;
  if_delete_oidc_states_expired_before (expired_before : Z) : F Z;
  if_create_audit_log (audit_log : audit_event) : F unit;
  if_record_rejected_session_replay (auth_session : AuthSession) (ip_address user_agent : option string)
    (replayed_at window_seconds : Z) : F unit;
}.

(* src: backend/app/interfaces/services/auth_repository_interface.py:13-13 AuthRepositoryInterface *)
Class AuthRepositoryInterface (F : Type -> Type) := {
  #[global] if_accounts :: AuthAccountOperations F;
  #[global] if_sessions :: AuthSessionOperations F;
  #[global] if_records :: AuthRecordOperations F;
}.

(* src: backend/app/interfaces/services/authorization_repository_interface.py:7-35 AuthorizationRepositoryInterface *)
Class AuthorizationRepositoryInterface (F : Type -> Type) := {
  if_get_user_role_codes (user_id : Z) : F (list string);
  if_list_unknown_role_assignments (known_role_codes : gset string) : F (list UnknownRoleAssignment);
  if_delete_unknown_role_assignments (known_role_codes : gset string) : F Z;
  if_replace_user_roles (user_id : Z) (role_codes : list string) (assigned_by_user_id : option Z)
    : F UserRoleReplacementResult;
  if_delete_roles_for_user (user_id : Z) : F Z;
}.

(** A page request is an offset and a limit. *)
(* src: backend/app/interfaces/services/admin_user_repository_interface.py:9-34 AdminUserRepositoryInterface *)
Class AdminUserRepositoryInterface (F : Type -> Type) := {
  if_list_users (query : AdminUserListQuery) (offset limit : Z) : F (AdminOffsetPageResult AdminUserRecord);
  if_get_user (user_id : Z) : F (option User);
  if_create_managed_user (email password_hash : string) (is_active : bool) : F User;
  if_update_user (user_id : Z) (changes : AdminUserUpdateChanges) (password_hash : option string) : F User;
}.

(** An item that is to be created is known by its fields. *)
(* src: backend/app/interfaces/services/sample_item_repository_interface.py:7-40 SampleItemRepositoryInterface *)
Class SampleItemRepositoryInterface (F : Type -> Type) := {
  if_list_by_owner (owner_user_id fetch_limit : Z) (cursor : option SampleItemCursor) : F (list SampleItem);
  if_get_by_id_for_owner (item_id owner_user_id : Z) : F (option SampleItem);
  if_create_row (item_id owner_user_id : Z) (title : string) (description : option string) : F SampleItem;
  if_update_row (item : SampleItem) : F SampleItem;
  if_delete_row (item : SampleItem) : F unit;
  if_delete_all_for_owner (owner_user_id : Z) : F unit;
}.

(** ** Use cases *)

(* src: backend/app/interfaces/usecases/auth_usecase_interface.py:9-72 AuthUsecaseInterface *)
Class AuthUsecaseInterface (F : Type -> Type) := {
  if_issue_csrf_token (session_token : option string) : F string;
  if_validate_session_csrf (session_token csrf_token : string) (ip_address user_agent : option string)
    : F SessionCsrfStatus;
  if_register (email password language_code : string)
    (current_session_token ip_address user_agent : option string) : F IssuedAuthSession;
  if_update_current_user (auth_context : AuthenticatedSessionContext) (changes : AuthUserUpdateChanges)
    : F AuthenticatedSessionContext;
  if_login (email password : string) (current_session_token ip_address user_agent : option string)
    : F IssuedAuthSession;
  if_authenticate_session (session_token ip_address user_agent : option string)
    : F (option AuthenticatedSessionContext);
  if_logout (session_token ip_address user_agent : option string) : F unit;
}.

(* src: backend/app/interfaces/usecases/admin_user_usecase_interface.py:10-57 AdminUserUsecaseInterface *)
Class AdminUserUsecaseInterface (F : Type -> Type) := {
  if_list_admin_users (query : AdminUserListQuery) (offset limit : Z)
    : F (AdminOffsetPageResult AdminUserRecord);
  if_create_admin_user (actor_context : AuthenticatedSessionContext) (email password : string)
    (is_active : bool) (roles : list string) (ip_address user_agent : option string) : F AdminUserDetail;
  if_get_admin_user (user_id : Z) : F AdminUserDetail;
  if_update_admin_user (actor_context : AuthenticatedSessionContext) (user_id : Z)
    (changes : AdminUserUpdateChanges) (ip_address user_agent : option string) : F AdminUserDetail;
  if_delete_admin_user (actor_context : AuthenticatedSessionContext) (user_id : Z)
    (ip_address user_agent : option string) : F unit;
}.

(* src: backend/app/interfaces/usecases/authorization_usecase_interface.py:9-32 AuthorizationUsecaseInterface *)
Class AuthorizationUsecaseInterface (F : Type -> Type) := {
  if_list_roles : F (list RoleWithPermissions);
  if_list_permissions : F (list PermissionDefinition);
  if_get_user_authorization (user_id : Z) : F UserAuthorization;
  if_replace_roles (actor_context : AuthenticatedSessionContext) (target_user_id : Z)
    (role_codes : list string) (ip_address user_agent : option string) : F UserRoleReplacementResult;
}.

(** [complete_error_callback] never returns. *)
(* src: backend/app/interfaces/usecases/oauth_oidc_usecase_interface.py:10-49 OAuthOidcUsecaseInterface *)
Class OAuthOidcUsecaseInterface (F : Type -> Type) := {
  if_start_authorization (provider_id : string) (redirect_path : option string) (purpose : oidc_purpose)
    (current_session : option AuthenticatedSessionContext) (ip_address language_code : option string)
    : F OidcAuthorizationStartResult;
  if_complete_callback (provider_id state code : string) (browser_binding_cookie_value : option string)
    (current_session : option AuthenticatedSessionContext)
    (current_session_token ip_address user_agent : option string) : F OidcCallbackResult;
  if_complete_error_callback (provider_id state : string) (browser_binding_cookie_value : option string)
    (provider_error : exn) (current_session : option AuthenticatedSessionContext)
    (ip_address user_agent : option string) : F unit;
}.

(* src: backend/app/interfaces/usecases/sample_item_usecase_interface.py:7-42 SampleItemUsecaseInterface *)
Class SampleItemUsecaseInterface (F : Type -> Type) := {
  if_list_items (owner_user_id limit : Z) (cursor : option string) : F SampleItemListResult;
  if_create_item (owner_user_id : Z) (title : string) (description : option string) : F SampleItem;
  if_get_item (owner_user_id item_id : Z) : F SampleItem;
  if_update_item (owner_user_id item_id : Z) (changes : SampleItemUpdateChanges) : F SampleItem;
  if_delete_item (owner_user_id item_id : Z) : F unit;
}.

(* src: backend/app/interfaces/usecases/account_deletion_usecase_interface.py:6-17 AccountDeletionUsecaseInterface *)
Class AccountDeletionUsecaseInterface (F : Type -> Type) := {
  if_delete_account (auth_context : AuthenticatedSessionContext) (confirm_email : string)
    (password ip_address user_agent : option string) : F unit;
}.

(** ** The implementations *)

Section Implementations.
Context `{E : Env} {L : Type} `{R : LoginRateLimiter L} `{P : OidcProviderClient L} {C : CursorCodec}.
Context (auth_settings : AuthSettings) (oidc_settings : OidcSettings) (is_ipv6 : string -> bool).

Definition UnitOfWork_implements : UnitOfWorkInterface (M L) :=
  @Build_UnitOfWorkInterface (M L) (fun A => transaction unit_of_work)
    (fun A => session_scope unit_of_work) (is_transaction_session unit_of_work).

Definition AuthRepository_implements : AuthRepositoryInterface (M L) := {|
  if_accounts := {|
    if_create_user := AuthRepository.create_user;
    if_update_user_language := update_user_language;
    if_find_user_by_email := find_user_by_email;
    if_find_user_by_verified_email_for_oidc_link := find_user_by_verified_email_for_oidc_link;
    if_find_user_by_email_for_oidc_collision := find_user_by_email_for_oidc_collision;
    if_find_user_by_id_for_authentication := find_user_by_id_for_authentication;
    if_find_identity_by_provider_subject := find_identity_by_provider_subject;
    if_find_identities_by_user_id := find_identities_by_user_id;
    if_create_auth_identity := create_auth_identity;
    if_delete_auth_identities_for_user := delete_auth_identities_for_user;
  |};
  if_sessions := {|
    if_create_session := create_session;
    if_find_active_session_by_token_hash := find_active_session_by_token_hash;
    if_find_session_by_token_hash := find_session_by_token_hash;
    if_update_session_csrf_token_hash := update_session_csrf_token_hash;
    if_revoke_session := revoke_session;
    if_touch_session := touch_session;
    if_record_user_login := record_user_login;
    if_record_oidc_login := record_oidc_login;
    if_record_oidc_reauth session_id auth_time _ := record_oidc_reauth session_id auth_time;
    if_mark_user_deleted := mark_user_deleted;
    if_revoke_sessions_for_user := revoke_sessions_for_user;
  |};
  if_records := {|
    if_delete_sessions_expired_before := delete_sessions_expired_before;
    if_delete_audit_logs_occurred_before := delete_audit_logs_occurred_before;
    if_create_oidc_authorization_state := create_oidc_authorization_state;
    if_consume_oidc_authorization_state := consume_oidc_authorization_state;
    if_delete_oidc_states_expired_before := delete_oidc_states_expired_before;
    if_create_audit_log := create_audit_log;
    if_record_rejected_session_replay := record_rejected_session_replay;
  |};
|}.

Definition AuthorizationRepository_implements : AuthorizationRepositoryInterface (M L) := {|
  if_get_user_role_codes := get_user_role_codes;
  if_list_unknown_role_assignments := list_unknown_role_assignments;
  if_delete_unknown_role_assignments := delete_unknown_role_assignments;
  if_replace_user_roles := replace_user_roles;
  if_delete_roles_for_user := delete_roles_for_user;
|}.

Definition AdminUserRepository_implements : AdminUserRepositoryInterface (M L) := {|
  if_list_users := AdminUserRepository.list_users;
  if_get_user := AdminUserRepository.get_user;
  if_create_managed_user := AdminUserRepository.create_user;
  if_update_user := AdminUserRepository.update_user;
|}.

Definition SampleItemRepository_implements : SampleItemRepositoryInterface (M L) := {|
  if_list_by_owner := list_by_owner;
  if_get_by_id_for_owner := get_by_id_for_owner;
  if_create_row := SampleItemRepository.create;
  if_update_row := SampleItemRepository.update;
  if_delete_row := delete_item_row;
  if_delete_all_for_owner := delete_all_for_owner;
|}.

Definition AuthUsecase_implements : AuthUsecaseInterface (M L) := {|
  if_issue_csrf_token := issue_csrf_token;
  if_validate_session_csrf := validate_session_csrf;
  if_register := register auth_settings;
  if_update_current_user := update_current_user;
  if_login := login auth_settings;
  if_authenticate_session := authenticate_session auth_settings;
  if_logout := logout;
|}.

Definition AdminUserUsecase_implements : AdminUserUsecaseInterface (M L) := {|
  if_list_admin_users := list_admin_users;
  if_create_admin_user := create_admin_user;
  if_get_admin_user := get_admin_user;
  if_update_admin_user := update_admin_user;
  if_delete_admin_user := delete_admin_user;
|}.

Definition AuthorizationUsecase_implements : AuthorizationUsecaseInterface (M L) := {|
  if_list_roles := mret list_roles;
  if_list_permissions := mret list_permissions;
  if_get_user_authorization := get_user_authorization;
  if_replace_roles := replace_roles;
|}.

Definition OAuthOidcUsecase_implements : OAuthOidcUsecaseInterface (M L) := {|
  if_start_authorization := start_authorization oidc_settings is_ipv6;
  if_complete_callback := complete_callback auth_settings oidc_settings;
  if_complete_error_callback := complete_error_callback oidc_settings;
|}.

Definition SampleItemUsecase_implements : SampleItemUsecaseInterface (M L) := {|
  if_list_items := list_items;
  if_create_item := create_item;
  if_get_item := get_item;
  if_update_item := update_item;
  if_delete_item := delete_item;
|}.

Definition AccountDeletionUsecase_implements : AccountDeletionUsecaseInterface (M L) := {|
  if_delete_account := delete_account auth_settings oidc_settings;
|}.

(** ** What is bound *)

(** The operations an injected interface promises; other injected types are values. *)
Definition operations (k : interface) : Type :=
  match k with
  | IUnitOfWork => UnitOfWorkInterface (M L)
  | IAuthRepository => AuthRepositoryInterface (M L)
  | IAuthorizationRepository => AuthorizationRepositoryInterface (M L)
  | IAdminUserRepository => AdminUserRepositoryInterface (M L)
  | ISampleItemRepository => SampleItemRepositoryInterface (M L)
  | IOidcProviderClient => OidcProviderClient L
  | IAuthUsecase => AuthUsecaseInterface (M L)
  | IAdminUserUsecase => AdminUserUsecaseInterface (M L)
  | IAuthorizationUsecase => AuthorizationUsecaseInterface (M L)
  | IOAuthOidcUsecase => OAuthOidcUsecaseInterface (M L)
  | ISampleItemUsecase => SampleItemUsecaseInterface (M L)
  | IAccountDeletionUsecase => AccountDeletionUsecaseInterface (M L)
  | ILoginRateLimiter => LoginRateLimiter L
  | IConfig | IAuthSettings | IOidcSettings | ILogger | IAsyncEngine | ISessionFactory
  | IPasswordHashExecutor => unit
  end.

(** A class and the operations it is written for. *)
Definition implementation (c : class) : {k : interface & operations k} :=
  match c with
  | UnitOfWorkClass => existT IUnitOfWork UnitOfWork_implements
  | AdminUserRepositoryClass => existT IAdminUserRepository AdminUserRepository_implements
  | AuthRepositoryClass => existT IAuthRepository AuthRepository_implements
  | AuthorizationRepositoryClass => existT IAuthorizationRepository AuthorizationRepository_implements
  | OidcProviderClientClass => existT IOidcProviderClient P
  | AuthUsecaseClass => existT IAuthUsecase AuthUsecase_implements
  | AdminUserUsecaseClass => existT IAdminUserUsecase AdminUserUsecase_implements
  | AuthorizationUsecaseClass => existT IAuthorizationUsecase AuthorizationUsecase_implements
  | OAuthOidcUsecaseClass => existT IOAuthOidcUsecase OAuthOidcUsecase_implements
  | SampleItemRepositoryClass => existT ISampleItemRepository SampleItemRepository_implements
  | SampleItemUsecaseClass => existT ISampleItemUsecase SampleItemUsecase_implements
  | AccountDeletionUsecaseClass => existT IAccountDeletionUsecase AccountDeletionUsecase_implements
  end.

(** Every class is bound to the interface it implements, and so are the classes its
    constructor asks for. *)
Lemma bound_to_implemented k c :
  target_of k container_bindings = Some (To c) <-> projT1 (implementation c) = k.
Proof. split; [|intros <-; by destruct c]. by destruct k; intros [= <-]. Qed.
End Implementations.
