(* ===== verification/Interleaved.v ===== *)
(** * Transactions that run at the same time

    Requests are coroutines of one event loop (and of several worker processes): while
    one awaits a statement, the others run.  A coroutine is here a program of
    statements ([Prog]); a configuration holds the committed database and the
    coroutines, each with the row versions its open transaction has written and the
    locks it holds, and a step is one statement of one coroutine.

    The steps are those of PostgreSQL at its default level READ COMMITTED, as it is
    documented: a statement sees what is committed when it starts and the writes of its
    own transaction; a statement that writes or locks a row, or enters a key into a
    unique index, waits for the transaction that holds it, and then looks at the newest
    version; locks are held until the transaction ends; an advisory lock is taken or
    refused at once. *)

From S2P Require Import Prelude PyStr Errors Time Tables Effects UnitOfWork.

(** ** Row versions and locks *)

Inductive table :=
| TUsers | TSessions | TIdentities | TStates | TAudit | TRoles | TItems.

#[export] Instance table_eq_dec : EqDecision table.
Proof. solve_decision. Defined.

(** A new version of one row; [None] when the row is deleted. *)
Inductive version :=
| VUser (k : Z) (r : option User)
| VSession (k : Z) (r : option AuthSession)
| VIdentity (k : Z) (r : option AuthIdentity)
| VState (k : Z) (r : option AuthOidcState)
| VAudit (k : Z) (r : option AuthAuditLog)
| VRole (k : Z) (r : option UserRole)
| VItem (k : Z) (r : option SampleItem).

(** A row, a key of the unique index of a table, an advisory lock. *)
Inductive lock :=
| LRow (t : table) (k : Z)
| LUnique (t : table) (key : string)
| LAdvisory (class_id object_id : Z).

#[export] Instance lock_eq_dec : EqDecision lock.
Proof. solve_decision. Defined.

Definition version_row (v : version) : lock :=
  match v with
  | VUser k _ => LRow TUsers k
  | VSession k _ => LRow TSessions k
  | VIdentity k _ => LRow TIdentities k
  | VState k _ => LRow TStates k
  | VAudit k _ => LRow TAudit k
  | VRole k _ => LRow TRoles k
  | VItem k _ => LRow TItems k
  end.

Definition put {A} (k : Z) (r : option A) : gmap Z A -> gmap Z A := partial_alter (fun _ => r) k.

Definition apply_version (d : DB) (v : version) : DB :=
  match v with
  | VUser k r => with_users (put k r) d
  | VSession k r => with_sessions (put k r) d
  | VIdentity k r => with_identities (put k r) d
  | VState k r => with_oidc_states (put k r) d
  | VAudit k r => with_audit_logs (put k r) d
  | VRole k r => with_user_roles (put k r) d
  | VItem k r => with_sample_items (put k r) d
  end.

(** The database with the versions of a transaction, oldest first. *)
Definition apply_versions (d : DB) (vs : list version) : DB := foldl apply_version d vs.

(** ** Programs *)

Section Programs.
Context {L : Type}.

(** [Outside]: what is not a statement (clock, random sources, hashing), with the
    sequential model's meaning.  [Statement]: the locks it waits for, its answer, and
    the versions it writes, all from the database as the transaction sees it. *)
Inductive Prog (A : Type) : Type :=
| Return (a : A)
| Throw (e : exn)
| Outside {B : Type} (m : M L B) (k : result B -> Prog A)
| Statement {B : Type} (locks : DB -> list lock) (answer : DB -> result B)
    (versions : DB -> list version) (k : result B -> Prog A)
| TryLock (l : lock) (k : bool -> Prog A)
| Commit (k : Prog A)
| Rollback (k : Prog A).

Arguments Return {A}.
Arguments Throw {A}.
Arguments Outside {A B}.
Arguments Statement {A B}.
Arguments TryLock {A}.
Arguments Commit {A}.
Arguments Rollback {A}.

Definition of_result {A} (r : result A) : Prog A :=
  match r with Ok a => Return a | Raise e => Throw e end.

(** [p], and then [f] of how it ended. *)
Fixpoint afterwards {A B} (p : Prog A) (f : result A -> Prog B) : Prog B :=
  match p with
  | Return a => f (Ok a)
  | Throw e => f (Raise e)
  | Outside m k => Outside m (fun r => afterwards (k r) f)
  | Statement ls ans vs k => Statement ls ans vs (fun r => afterwards (k r) f)
  | TryLock l k => TryLock l (fun b => afterwards (k b) f)
  | Commit k => Commit (afterwards k f)
  | Rollback k => Rollback (afterwards k f)
  end.

#[export] Instance Prog_ret : MRet Prog := fun A a => Return a.
#[export] Instance Prog_bind : MBind Prog := fun A B f p =>
  afterwards p (fun r => match r with Ok a => f a | Raise e => Throw e end).

Definition try_except {A} (p : Prog A) (handler : exn -> option (Prog A)) : Prog A :=
  afterwards p (fun r =>
    match r with
    | Ok a => Return a
    | Raise e => match handler e with Some h => h | None => Throw e end
    end).

(** ** Statements *)

Definition statement {B} (locks : DB -> list lock) (answer : DB -> result B)
    (versions : DB -> list version) : Prog B :=
  Statement locks answer versions of_result.

(** A plain SELECT waits for nothing. *)
Definition query {B} (answer : DB -> result B) : Prog B :=
  statement (fun _ => []) answer (fun _ => []).

Definition outside {B} (m : M L B) : Prog B := Outside m of_result.
Definition raise {A} (e : exn) : Prog A := Throw e.
Definition lift {A} (r : result A) : Prog A := of_result r.

Definition entries_where {A} (p : A -> bool) (t : gmap Z A) : list (Z * A) :=
  List.filter (fun kr => p kr.2) (map_to_list t).

Definition exec_select {A} (get : DB -> gmap Z A) (p : A -> bool) : Prog (list A) :=
  query (fun d => Ok (select p (get d))).
Definition get_row {A} (get : DB -> gmap Z A) (k : Z) : Prog (option A) :=
  query (fun d => Ok (get d !! k)).
Definition refresh {A} (get : DB -> gmap Z A) (k : Z) : Prog A :=
  query (fun d => match get d !! k with Some r => Ok r | None => Raise InvalidRequestError end).

(** [select(Table).where(p).with_for_update()] *)
Definition exec_select_for_update {A} (t : table) (get : DB -> gmap Z A) (p : A -> bool)
  : Prog (list A) :=
  statement (fun d => map (fun kr => LRow t kr.1) (entries_where p (get d)))
    (fun d => Ok (select p (get d))) (fun _ => []).

Definition one_or_none {A} (rows : list A) : Prog (option A) :=
  match rows with
  | [] => mret None
  | [r] => mret (Some r)
  | _ => raise MultipleResultsFound
  end.

(** The UPDATE of one changed object, and the INSERT of a new one. *)
Definition update_row {A} (t : table) (get : DB -> gmap Z A) (ok : DB -> A -> bool)
    (ver : Z -> option A -> version) (k : Z) (f : A -> A) : Prog unit :=
  statement (fun _ => [LRow t k])
    (fun d => match get d !! k with
              | None => Raise StaleDataError
              | Some r => if ok d (f r) then Ok tt else Raise IntegrityError
              end)
    (fun d => match get d !! k with Some r => [ver k (Some (f r))] | None => [] end).

Definition insert_row {A} (t : table) (get : DB -> gmap Z A) (ok : DB -> A -> bool)
    (ver : Z -> option A -> version) (keys : list string) (k : Z) (r stored_row : A) : Prog unit :=
  statement (fun _ => LRow t k :: map (LUnique t) keys)
    (fun d => if is_none (get d !! k) && ok d r then Ok tt else Raise IntegrityError)
    (fun _ => [ver k (Some stored_row)]).

(** [update(Table).where(p).values(f)] or [delete(Table).where(p)], with its row count.
    [freed]: the keys of a unique index that a row leaves, for which an INSERT of the
    same key waits. *)
Definition exec_where {A} (t : table) (get : DB -> gmap Z A) (ver : Z -> option A -> version)
    (freed : A -> list string) (p : A -> bool) (f : A -> option A) : Prog Z :=
  statement (fun d => flat_map (fun kr => LRow t kr.1 :: map (LUnique t) (freed kr.2))
                        (entries_where p (get d)))
    (fun d => Ok (row_count p (get d)))
    (fun d => map (fun kr => ver kr.1 (f kr.2)) (entries_where p (get d))).

(** ** Transactions and sessions

    [session_scope] and [persist] know whether they run inside a transaction. *)

(* src: backend/app/services/unit_of_work.py:34-50 UnitOfWork.transaction *)
Definition transaction {A} (p : Prog A) : Prog A :=
  afterwards p (fun r => match r with Ok a => Commit (Return a) | Raise e => Rollback (Throw e) end).

(* src: backend/app/services/unit_of_work.py:52-63 UnitOfWork.session_scope *)
Definition session_scope (in_transaction : bool) {A} (p : Prog A) : Prog A :=
  if in_transaction then p else afterwards p (fun r => Rollback (of_result r)).

(* src: backend/app/services/auth_repository.py:34-38 AuthRepository._persist *)
Definition persist (in_transaction : bool) (flush : Prog unit) : Prog unit :=
  flush ≫= fun _ => if in_transaction then mret tt else Commit (mret tt).

(** ** Configurations *)

Inductive thread (A : Type) :=
| Running (p : Prog A) (held : list lock) (pending : list version)
| Finished (r : result A).
Arguments Running {A}.
Arguments Finished {A}.

Definition held_by {A} (t : thread A) : list lock :=
  match t with Running _ held _ => held | Finished _ => [] end.

(** The committed database and, oldest first, who committed which versions. *)
Record shared := Shared {
  committed : DB;
  commits : list (nat * list version);
}.

Definition commit_by (i : nat) (vs : list version) (s : shared) : shared :=
  Shared (apply_versions (committed s) vs) (commits s ++ [(i, vs)]).

Record config (A : Type) := Config { cf_shared : shared; cf_threads : list (thread A) }.
Arguments Config {A}.
Arguments cf_shared {A}.
Arguments cf_threads {A}.

(** No other thread holds the lock. *)
Definition available {A} (i : nat) (ts : list (thread A)) (l : lock) : Prop :=
  forall j t, ts !! j = Some t -> j <> i -> l ∉ held_by t.

(** One step of thread [i].  A statement that fails aborts its transaction. *)
Inductive thread_step {A} (i : nat) (ts : list (thread A)) :
    shared -> thread A -> shared -> thread A -> Prop :=
| StepReturn s a held pending :
    thread_step i ts s (Running (Return a) held pending) s (Finished (Ok a))
| StepThrow s e held pending :
    thread_step i ts s (Running (Throw e) held pending) s (Finished (Raise e))
| StepOutside s B (m : M L B) k held pending w r w' :
    m w = (r, w') ->
    thread_step i ts s (Running (Outside m k) held pending) s (Running (k r) held pending)
| StepStatement s B (locks : DB -> list lock) (answer : DB -> result B) versions k held pending d b :
    d = apply_versions (committed s) pending ->
    Forall (available i ts) (locks d) ->
    answer d = Ok b ->
    thread_step i ts s (Running (Statement locks answer versions k) held pending)
      s (Running (k (Ok b)) (locks d ++ held) (pending ++ versions d))
| StepFailed s B (locks : DB -> list lock) (answer : DB -> result B) versions k held pending d e :
    d = apply_versions (committed s) pending ->
    Forall (available i ts) (locks d) ->
    answer d = Raise e ->
    thread_step i ts s (Running (Statement locks answer versions k) held pending)
      s (Running (k (Raise e)) [] [])
| StepLocked s l k held pending :
    available i ts l ->
    thread_step i ts s (Running (TryLock l k) held pending) s (Running (k true) (l :: held) pending)
| StepRefused s l k held pending :
    ~ available i ts l ->
    thread_step i ts s (Running (TryLock l k) held pending) s (Running (k false) held pending)
| StepCommit s k held pending :
    thread_step i ts s (Running (Commit k) held pending) (commit_by i pending s) (Running k [] [])
| StepRollback s k held pending :
    thread_step i ts s (Running (Rollback k) held pending) s (Running k [] []).

Inductive step {A} : config A -> config A -> Prop :=
| Step s ts i t s' t' :
    ts !! i = Some t -> thread_step i ts s t s' t' ->
    step (Config s ts) (Config s' (<[i := t']> ts)).

(** Programs about to start on a database. *)
Definition start_all {A} (d : DB) (ps : list (Prog A)) : config A :=
  Config (Shared d []) ((fun p => Running p [] []) <$> ps).

Definition result_of {A} (c : config A) (i : nat) : option (result A) :=
  match cf_threads c !! i with Some (Finished r) => Some r | _ => None end.

(** ** A program that runs alone

    is a computation of the sequential model. *)

Fixpoint run `{E : Env} {A} (p : Prog A) : M L A :=
  match p with
  | Return a => mret a
  | Throw e => Effects.raise e
  | Outside m k => fun w => let (r, w') := m w in run (k r) w'
  | Statement _ answer versions k => fun w =>
      match answer (view w) with
      | Ok b => run (k (Ok b)) (set_view (apply_versions (view w) (versions (view w))) w)
      | Raise e => run (k (Raise e)) w
      end
  | TryLock _ k => try_advisory_lock ≫= fun b => run (k b)
  | Commit k => commit ≫= fun _ => run k
  | Rollback k => rollback ≫= fun _ => run k
  end.
End Programs.

Arguments Prog L A : clear implicits.
Arguments thread L A : clear implicits.
Arguments config L A : clear implicits.
Arguments Return {L A}.
Arguments Throw {L A}.
Arguments Outside {L A B}.
Arguments Statement {L A B}.
Arguments TryLock {L A}.
Arguments Commit {L A}.
Arguments Rollback {L A}.
Arguments Running {L A}.
Arguments Finished {L A}.
Arguments Config {L A}.
Arguments cf_shared {L A}.
Arguments cf_threads {L A}.

(** ** The rows of a WHERE clause *)

Lemma entries_where_spec {A} (p : A -> bool) (t : gmap Z A) k r :
  (k, r) ∈ entries_where p t <-> t !! k = Some r /\ p r = true.
Proof.
  unfold entries_where. rewrite list_elem_of_In, filter_In, <- list_elem_of_In, elem_of_map_to_list.
  done.
Qed.

Lemma NoDup_entries_where {A} (p : A -> bool) (t : gmap Z A) : NoDup (entries_where p t).*1.
Proof.
  unfold entries_where. pose proof (NoDup_fst_map_to_list t) as H.
  induction (map_to_list t) as [|[k r] l IH]; simpl; [constructor|].
  apply NoDup_cons in H as [Hk H]. destruct (p r); [|by apply IH].
  simpl. constructor; [|by apply IH]. intros (kr & E1 & Hkr)%list_elem_of_fmap.
  apply Hk. apply list_elem_of_fmap. exists kr. split; [done|].
  apply list_elem_of_In, filter_In in Hkr as [Hkr _]. by apply list_elem_of_In.
Qed.

(** ** A scheduler

    Runs the threads in a given order, one step a turn, the outside calls from the world
    [w]; a thread that has to wait, or has finished, loses its turn. *)

Definition availableb {L A} (i : nat) (ts : list (thread L A)) (l : lock) : bool :=
  forallb (fun j => (j =? i)%nat || match ts !! j with
                                    | Some t => negb (bool_decide (l ∈ held_by t))
                                    | None => true
                                    end) (seq 0 (length ts)).

Lemma availableb_spec {L A} i (ts : list (thread L A)) l : availableb i ts l = true <-> available i ts l.
Proof.
  unfold availableb, available. rewrite forallb_forall. split.
  - intros H j t Ht Hj. assert (In j (seq 0 (length ts))) as Hin.
    { apply in_seq. pose proof (lookup_lt_Some _ _ _ Ht). lia. }
    specialize (H j Hin). rewrite Ht in H. apply orb_true_iff in H as [H|H].
    + by apply Nat.eqb_eq in H.
    + by apply negb_true_iff, bool_decide_eq_false in H.
  - intros H j _. destruct (decide (j = i)) as [->|Hne]; [by rewrite Nat.eqb_refl|].
    apply orb_true_iff. right. destruct (ts !! j) as [t|] eqn:Ht; [|done].
    by apply negb_true_iff, bool_decide_eq_false, (H j t).
Qed.

Definition turn {L A} (i : nat) (ts : list (thread L A)) (s : shared) (t : thread L A) (w : World L)
  : option (shared * thread L A * World L) :=
  match t with
  | Finished _ => None
  | Running p held pending =>
      match p with
      | Return a => Some (s, Finished (Ok a), w)
      | Throw e => Some (s, Finished (Raise e), w)
      | Outside m k => let (r, w') := m w in Some (s, Running (k r) held pending, w')
      | Statement locks answer versions k =>
          let d := apply_versions (committed s) pending in
          if forallb (availableb i ts) (locks d) then
            match answer d with
            | Ok b => Some (s, Running (k (Ok b)) (locks d ++ held) (pending ++ versions d), w)
            | Raise e => Some (s, Running (k (Raise e)) [] [], w)
            end
          else None
      | TryLock l k =>
          if availableb i ts l then Some (s, Running (k true) (l :: held) pending, w)
          else Some (s, Running (k false) held pending, w)
      | Commit k => Some (commit_by i pending s, Running k [] [], w)
      | Rollback k => Some (s, Running k [] [], w)
      end
  end.

Lemma turn_step {L A} i (ts : list (thread L A)) s t w s' t' w' :
  turn i ts s t w = Some (s', t', w') -> thread_step i ts s t s' t'.
Proof.
  destruct t as [p held pending|r]; [|done]. simpl. destruct p.
  - intros [= <- <- <-]. constructor.
  - intros [= <- <- <-]. constructor.
  - destruct (m w) as [r w1] eqn:E. intros [= <- <- <-]. by eapply StepOutside.
  - destruct (forallb _ _) eqn:Ef; [|done].
    assert (Forall (available i ts) (locks (apply_versions (committed s) pending))) as Hf.
    { apply Forall_forall. intros l Hl. apply availableb_spec.
      rewrite forallb_forall in Ef. by apply Ef, list_elem_of_In. }
    destruct (answer _) as [b|e] eqn:Ea; intros [= <- <- <-].
    + by eapply StepStatement.
    + by eapply StepFailed.
  - destruct (availableb i ts l) eqn:El; intros [= <- <- <-].
    + by apply StepLocked, availableb_spec.
    + apply StepRefused. by rewrite <- availableb_spec, El.
  - intros [= <- <- <-]. constructor.
  - intros [= <- <- <-]. constructor.
Qed.

Fixpoint schedule {L A} (order : list nat) (c : config L A) (w : World L) : config L A :=
  match order with
  | [] => c
  | i :: order' =>
      match cf_threads c !! i with
      | Some t =>
          match turn i (cf_threads c) (cf_shared c) t w with
          | Some (s', t', w') => schedule order' (Config s' (<[i := t']> (cf_threads c))) w'
          | None => schedule order' c w
          end
      | None => schedule order' c w
      end
  end.

Lemma schedule_runs {L A} order (c : config L A) w : rtc step c (schedule order c w).
Proof.
  revert c w. induction order as [|i order IH]; intros c w; simpl; [constructor|].
  destruct (cf_threads c !! i) as [t|] eqn:Ht; [|done].
  destruct (turn _ _ _ _ _) as [[[s' t'] w']|] eqn:Hs; [|done].
  eapply rtc_l; [|by eapply IH]. destruct c as [s ts]. apply Step with t; [done|].
  by eapply turn_step.
Qed.
