(* ===== verification/Concurrent.v ===== *)
(** * The transactions of the backend as programs of statements

    The repository methods that authentication, OpenID Connect callbacks and account
    deletion call inside their transactions, and those transactions, statement by
    statement (Interleaved.v).  The text follows AuthRepository.v, AuthUsecase.v and
    AccountDeletionUsecase.v, which model the same code run alone; ConcurrentAlone.v
    proves that the two agree.  [in_transaction] tells a method whether a transaction
    is open. *)

From S2P Require Import Prelude PyStr Errors Time Tables Effects UnitOfWork Settings.
From S2P Require Import AuthRepository AuthorizationRepository Authorization AuthUsecase.
From S2P Require Import Interfaces OAuthOidcUsecase Interleaved.

Section Concurrent.
Context `{E : Env} {L : Type}.
Notation Prog := (Prog L).
Notation outside := (@outside L _).

(** ** Statements on the tables *)

Definition insert_user (u : User) : Prog unit :=
  insert_row TUsers users user_row_ok VUser [lower (u_email u)] (u_id u) u (store_user u).
Definition insert_session (s : AuthSession) : Prog unit :=
  ip ← lift (inet_bind (s_ip_address s));
  insert_row TSessions sessions session_row_ok VSession [s_session_token_hash s] (s_id s) s
    (store_session ip s).
Definition insert_oidc_state (o : AuthOidcState) : Prog unit :=
  insert_row TStates oidc_states oidc_state_row_ok VState [o_state_hash o] (o_id o) o
    (store_oidc_state o).
Definition insert_audit (a : AuthAuditLog) : Prog unit :=
  ip ← lift (inet_bind (a_ip_address a));
  insert_row TAudit audit_logs audit_row_ok VAudit [] (a_id a) a (store_audit ip a).

Definition update_user_row := @update_row L _ TUsers users user_row_ok VUser.
Definition update_session_row := @update_row L _ TSessions sessions session_row_ok VSession.
Definition update_oidc_state_row := @update_row L _ TStates oidc_states oidc_state_row_ok VState.
Definition update_audit_row := @update_row L _ TAudit audit_logs audit_row_ok VAudit.

Definition nothing_pending : Prog unit := mret tt.

(** ** Repository methods *)

(* src: backend/app/services/auth_repository.py:49-54 AuthRepository.create_user *)
Definition persist_unique_email (in_transaction : bool) (flush : Prog unit) : Prog unit :=
  try_except (persist in_transaction flush) (fun error =>
    match error with
    | IntegrityError => Some (
        (if in_transaction then mret tt else Rollback (mret tt)) ≫= fun _ : unit =>
        raise EmailAlreadyRegisteredError)
    | _ => None
    end).

(* src: backend/app/services/auth_repository.py:40-56 AuthRepository.create_user *)
Definition create_user (in_transaction : bool) (email : string) (password_hash : option string)
    (language_code : string) : Prog User :=
  session_scope in_transaction (
    id ← outside uuid4;
    persist_unique_email in_transaction (
      registered_at ← outside utcnow;
      modified_at ← outside utcnow;
      insert_user (mkUser id email password_hash true language_code registered_at modified_at
                     None None)) ;;
    refresh users id).

(* src: backend/app/services/auth_repository.py:58-73 AuthRepository.update_user_language *)
Definition update_user_language (in_transaction : bool) (user_id : Z) (language_code : string)
    (modified_at : Z) : Prog User :=
  session_scope in_transaction (
    user ← get_row users user_id;
    match user with
    | Some u =>
        if is_some (u_deleted_at u) then raise (UserNotFoundError user_id)
        else
          persist in_transaction (update_user_row user_id
            (fun r => set_user_modified (stored modified_at) (set_language language_code r))) ;;
          refresh users user_id
    | None => raise (UserNotFoundError user_id)
    end).

(* src: backend/app/services/auth_repository.py:105-109 AuthRepository.find_user_by_id_for_authentication *)
Definition find_user_by_id_for_authentication (in_transaction : bool) (user_id : Z)
  : Prog (option User) :=
  session_scope in_transaction (
    rows ← exec_select users (id_is user_id);
    one_or_none rows).

(* src: backend/app/services/auth_repository.py:235-244 AuthRepository.record_user_login *)
Definition record_user_login (in_transaction : bool) (user_id : Z) (login_at : Z) : Prog User :=
  session_scope in_transaction (
    user ← get_row users user_id;
    match user with
    | Some u =>
        if is_some (u_deleted_at u) then raise (UserNotFoundError user_id)
        else
          persist in_transaction (update_user_row user_id (set_last_login (stored login_at))) ;;
          refresh users user_id
    | None => raise (UserNotFoundError user_id)
    end).

(* src: backend/app/services/auth_repository.py:151-176 AuthRepository.create_session *)
Definition create_session (in_transaction : bool) (user_id : Z)
    (session_token_hash csrf_token_hash : string) (issued_at last_seen_at expires_at : Z)
    (ip_address user_agent : option string) : Prog AuthSession :=
  session_scope in_transaction (
    id ← outside uuid4;
    persist in_transaction (insert_session (mkSession id user_id session_token_hash
      csrf_token_hash issued_at last_seen_at expires_at None None ip_address user_agent)) ;;
    refresh sessions id).

(* src: backend/app/services/auth_repository.py:178-187 AuthRepository.find_active_session_by_token_hash *)
Definition find_active_session_by_token_hash (in_transaction : bool) (token_hash : string)
  : Prog (option AuthSession) :=
  now ← outside utcnow;
  session_scope in_transaction (
    rows ← exec_select sessions (active_session token_hash now);
    one_or_none rows).

(* src: backend/app/services/auth_repository.py:189-193 AuthRepository.find_session_by_token_hash *)
Definition find_session_by_token_hash (in_transaction : bool) (token_hash : string)
  : Prog (option AuthSession) :=
  session_scope in_transaction (
    rows ← exec_select sessions (fun s => (s_session_token_hash s =? token_hash)%string);
    one_or_none rows).

(* src: backend/app/services/auth_repository.py:195-208 AuthRepository.update_session_csrf_token_hash *)
Definition update_session_csrf_token_hash (in_transaction : bool) (session_id : Z)
    (csrf_token_hash : string) : Prog AuthSession :=
  session_scope in_transaction (
    auth_session ← get_row sessions session_id;
    match auth_session with
    | None => raise (AuthSessionNotFoundError session_id)
    | Some _ =>
        persist in_transaction (update_session_row session_id (set_csrf_hash csrf_token_hash)) ;;
        refresh sessions session_id
    end).

(* src: backend/app/services/auth_repository.py:210-217 AuthRepository.revoke_session *)
Definition revoke_session (in_transaction : bool) (session_id : Z) : Prog unit :=
  session_scope in_transaction (
    auth_session ← get_row sessions session_id;
    match auth_session with
    | None => mret tt
    | Some _ =>
        revoked_at ← outside utcnow;
        persist in_transaction (update_session_row session_id (set_revoked (stored revoked_at)))
    end).

(** [session.get] gives an object the transaction has loaded already, here its row is
    read anew: the statement that writes is the same, and only the other columns of the
    returned object can differ, when another transaction has committed in between. *)
(* src: backend/app/services/auth_repository.py:219-233 AuthRepository.touch_session *)
Definition touch_session (in_transaction : bool) (session_id : Z) (last_seen_at expires_at : Z)
  : Prog AuthSession :=
  session_scope in_transaction (
    auth_session ← get_row sessions session_id;
    match auth_session with
    | None => raise (AuthSessionNotFoundError session_id)
    | Some s =>
        persist in_transaction (update_session_row session_id
          (set_last_seen (stored last_seen_at) (stored expires_at))) ;;
        mret (set_last_seen last_seen_at expires_at s)
    end).

(* src: backend/app/services/auth_repository.py:274-287 AuthRepository.record_oidc_reauth *)
Definition record_oidc_reauth (in_transaction : bool) (session_id : Z) (auth_time : Z)
  : Prog unit :=
  session_scope in_transaction (
    auth_session ← get_row sessions session_id;
    match auth_session with
    | None => raise (AuthSessionNotFoundError session_id)
    | Some _ =>
        persist in_transaction
          (update_session_row session_id (set_oidc_authenticated (stored auth_time)))
    end).

(* src: backend/app/services/auth_repository.py:325-334 AuthRepository.revoke_sessions_for_user *)
Definition revoke_sessions_for_user (in_transaction : bool) (user_id : Z) (revoked_at : Z)
  : Prog Z :=
  session_scope in_transaction (
    rowcount ← exec_where TSessions sessions VSession (fun _ => [])
                 (fun s => (s_user_id s =? user_id) && is_none (s_revoked_at s))
                 (fun s => Some (set_revoked (stored revoked_at) s));
    persist in_transaction nothing_pending ;;
    mret rowcount).

Definition flush_audit (id : Z) (e : audit_event) : Prog unit :=
  occurred_at ← match ev_occurred_at e with Some t => mret t | None => outside utcnow end;
  insert_audit (audit_row id e occurred_at).

(* src: backend/app/services/auth_repository.py:393-396 AuthRepository.create_audit_log *)
Definition create_audit_log (in_transaction : bool) (audit_log : audit_event) : Prog unit :=
  id ← outside uuid4;
  session_scope in_transaction (persist in_transaction (flush_audit id audit_log)).

(* src: backend/app/services/auth_repository.py:289-323 AuthRepository.mark_user_deleted *)
Definition mark_user_deleted (in_transaction : bool) (user_id : Z) (deleted_at : Z)
    (session_id : option Z) (ip_address : option string) : Prog User :=
  session_scope in_transaction (
    rowcount ← exec_where TUsers users VUser (fun u => [lower (u_email u)])
                 (fun u => id_is user_id u && is_none (u_deleted_at u))
                 (fun u => Some (set_user_modified (stored deleted_at)
                                   (set_deleted (stored deleted_at) u)));
    if rowcount =? 0 then
      existing_user ← get_row users user_id;
      match existing_user with
      | None => raise (UserNotFoundError user_id)
      | Some u => mret u
      end
    else
      id ← outside uuid4;
      persist in_transaction (flush_audit id (AuditEvent (Some user_id) session_id
        USER_MARKED_DELETED ip_address None None (Some deleted_at))) ;;
      deleted_user ← get_row users user_id;
      match deleted_user with
      | None => raise (UserNotFoundError user_id)
      | Some u => mret u
      end).

(* src: backend/app/services/auth_repository.py:24-24 REJECTED_SESSION_REPLAY_LOCK_CLASS_ID *)
Definition REJECTED_SESSION_REPLAY_LOCK_CLASS_ID : Z := 0x41555253.

(* src: backend/app/services/auth_repository.py:458-459 _rejected_session_replay_lock_object_id *)
Definition rejected_session_replay_lock_object_id (session_id : Z) : Z :=
  Z.land session_id 0x7fffffff.

(* src: backend/app/services/auth_repository.py:398-455 AuthRepository.record_rejected_session_replay *)
Definition record_rejected_session_replay (in_transaction : bool) (auth_session : AuthSession)
    (ip_address user_agent : option string) (replayed_at window_seconds : Z) : Prog unit :=
  session_scope in_transaction (TryLock
    (LAdvisory REJECTED_SESSION_REPLAY_LOCK_CLASS_ID
       (rejected_session_replay_lock_object_id (s_id auth_session)))
    (fun locked =>
      if negb locked then mret tt
      else
        let window_started_at := replayed_at - window_seconds * 1000000 in
        rows ← exec_select audit_logs (fun a =>
          bool_decide (a_session_id a = Some (s_id auth_session))
          && bool_decide (a_event_type a = SESSION_REJECTED)
          && (stored window_started_at <=? a_occurred_at a)
          && jsonb_has_key "replay_count" (a_detail_json a));
        match order_by_desc a_occurred_at a_id rows with
        | [] =>
            id ← outside uuid4;
            persist in_transaction (flush_audit id (AuditEvent (Some (s_user_id auth_session))
              (Some (s_id auth_session)) SESSION_REJECTED ip_address user_agent
              (Some (JObj (replay_detail_json [] ip_address user_agent replayed_at window_seconds)))
              (Some replayed_at)))
        | audit_log :: _ =>
            detail ← lift (dict_or_empty (a_detail_json audit_log));
            persist in_transaction (update_audit_row (a_id audit_log) (set_detail (JObj
              (replay_detail_json detail ip_address user_agent replayed_at window_seconds))))
        end)).

(* src: backend/app/services/auth_repository.py:350-355 AuthRepository.create_oidc_authorization_state *)
Definition create_oidc_authorization_state (in_transaction : bool) (state : AuthOidcState)
  : Prog AuthOidcState :=
  session_scope in_transaction (
    persist in_transaction (insert_oidc_state state) ;;
    refresh oidc_states (o_id state)).

(* src: backend/app/services/auth_repository.py:357-383 AuthRepository.consume_oidc_authorization_state *)
Definition consume_oidc_authorization_state (in_transaction : bool)
    (state_hash browser_binding_hash : string) (consumed_at : Z)
  : Prog AuthOidcStateConsumeResult :=
  session_scope in_transaction (
    rows ← exec_select_for_update TStates oidc_states
             (fun o => (o_state_hash o =? state_hash)%string);
    found ← one_or_none rows;
    match found with
    | None => mret (ConsumeResult state_mismatch None)
    | Some state =>
        if is_some (o_consumed_at state) then mret (ConsumeResult already_consumed (Some state))
        else if o_expires_at state <=? consumed_at then mret (ConsumeResult expired (Some state))
        else if negb (o_browser_binding_hash state =? browser_binding_hash)%string then
          mret (ConsumeResult browser_binding_mismatch (Some state))
        else
          persist in_transaction
            (update_oidc_state_row (o_id state) (set_consumed (stored consumed_at))) ;;
          state ← refresh oidc_states (o_id state);
          mret (ConsumeResult consumed (Some state))
    end).

(* src: backend/app/services/authorization_repository.py:28-30 AuthorizationRepository.get_user_role_codes *)
Definition get_user_role_codes (in_transaction : bool) (user_id : Z) : Prog (list string) :=
  session_scope in_transaction (
    rows ← exec_select user_roles (role_of user_id);
    mret (sorted (map r_role_code rows))).

(* src: backend/app/services/authorization_repository.py:96-100 AuthorizationRepository.delete_roles_for_user *)
Definition delete_roles_for_user (in_transaction : bool) (user_id : Z) : Prog Z :=
  session_scope in_transaction (
    rowcount ← exec_where TRoles user_roles VRole (fun _ => []) (role_of user_id) (fun _ => None);
    persist in_transaction nothing_pending ;;
    mret rowcount).

(* src: backend/app/services/auth_repository.py:144-149 AuthRepository.delete_auth_identities_for_user *)
Definition delete_auth_identities_for_user (in_transaction : bool) (user_id : Z) : Prog Z :=
  session_scope in_transaction (
    rowcount ← exec_where TIdentities identities VIdentity (fun _ => [])
                 (fun i => i_user_id i =? user_id) (fun _ => None);
    persist in_transaction nothing_pending ;;
    mret rowcount).

(* src: backend/app/services/sample_item_repository.py:80-84 SampleItemRepository.delete_all_for_owner *)
Definition delete_all_for_owner (in_transaction : bool) (owner_user_id : Z) : Prog unit :=
  session_scope in_transaction (
    exec_where TItems sample_items VItem (fun _ => [])
      (fun i => it_owner_user_id i =? owner_user_id) (fun _ => None) ;;
    persist in_transaction nothing_pending).

(** ** The transactions of the use cases *)

Context (auth_settings : AuthSettings).

(* src: backend/app/libraries/auth_session_issuer.py:31-35 replace_auth_session *)
Definition revoke_current (current_session_token : option string) : Prog unit :=
  if truthy_opt current_session_token then
    existing_session ← find_active_session_by_token_hash true
                         (hash_token (default "" current_session_token));
    match existing_session with
    | Some s => revoke_session true (s_id s)
    | None => mret tt
    end
  else mret tt.

(* src: backend/app/libraries/auth_session_issuer.py:23-51 replace_auth_session *)
Definition replace_auth_session (user : User)
    (current_session_token ip_address user_agent : option string)
  : Prog (AuthSession * string * string) :=
  revoke_current current_session_token ;;
  session_token ← outside generate_token;
  csrf_token ← outside generate_token;
  issued_at ← outside utcnow;
  let expires_at := calculate_session_expiry auth_settings issued_at issued_at in
  session ← create_session true (u_id user) (hash_token session_token) (hash_token csrf_token)
              issued_at issued_at expires_at ip_address user_agent;
  mret (session, session_token, csrf_token).

(* src: backend/app/usecases/auth_usecase.py:57-72 AuthUsecase._audit_known_rejected_session *)
Definition audit_known_rejected_session (token_hash : string) (ip_address user_agent : option string)
  : Prog unit :=
  rejected_session ← find_session_by_token_hash true token_hash;
  match rejected_session with
  | None => mret tt
  | Some s =>
      replayed_at ← outside utcnow;
      record_rejected_session_replay true s ip_address user_agent replayed_at
        SESSION_REJECTED_AUDIT_WINDOW_SECONDS
  end.

(* src: backend/app/usecases/auth_usecase.py:370-372 AuthUsecase._authorization_for_existing_user *)
Definition authorization_for_existing_user (user_id : Z) : Prog UserAuthorization :=
  role_codes ← get_user_role_codes true user_id;
  mret (resolve_user_authorization user_id role_codes).

(* src: backend/app/usecases/auth_usecase.py:374-390 AuthUsecase._reject_session *)
Definition reject_session (auth_session : AuthSession) (event_type : AuthEventType)
    (user_id : option Z) (ip_address user_agent : option string) : Prog unit :=
  revoke_session true (s_id auth_session) ;;
  create_audit_log true
    (event user_id (Some (s_id auth_session)) event_type ip_address user_agent).

(* src: backend/app/usecases/auth_usecase.py:392-410 AuthUsecase._reject_user_sessions *)
Definition reject_user_sessions (auth_session : AuthSession) (event_type : AuthEventType)
    (user_id : Z) (ip_address user_agent : option string) : Prog unit :=
  revoked_at ← outside utcnow;
  revoke_sessions_for_user true user_id revoked_at ;;
  create_audit_log true (AuditEvent (Some user_id) (Some (s_id auth_session)) event_type
                           ip_address user_agent None (Some revoked_at)).

(* src: backend/app/usecases/auth_usecase.py:156-179 AuthUsecase.register *)
Definition register_body (normalized_email password language_code : string)
    (current_session_token ip_address user_agent : option string)
  : Prog (User * (AuthSession * string * string)) :=
  password_hash ← outside (hash_password password);
  user ← create_user true normalized_email (Some password_hash) language_code;
  login_at ← outside utcnow;
  user ← record_user_login true (u_id user) login_at;
  issued ← replace_auth_session user current_session_token ip_address user_agent;
  create_audit_log true (event (Some (u_id user)) (Some (s_id issued.1.1)) REGISTER_SUCCESS
                           ip_address user_agent) ;;
  mret (user, issued).

(* src: backend/app/usecases/auth_usecase.py:220-225 AuthUsecase.update_current_user *)
Definition update_language_body (user_id : Z) (language_code : string) : Prog User :=
  modified_at ← outside utcnow;
  update_user_language true user_id language_code modified_at.

(* src: backend/app/usecases/auth_usecase.py:262-280 AuthUsecase.login *)
Definition login_body (user_id : Z) (current_session_token ip_address user_agent : option string)
  : Prog (User * (AuthSession * string * string)) :=
  login_at ← outside utcnow;
  user ← record_user_login true user_id login_at;
  issued ← replace_auth_session user current_session_token ip_address user_agent;
  create_audit_log true (event (Some (u_id user)) (Some (s_id issued.1.1)) LOGIN_SUCCESS
                           ip_address user_agent) ;;
  mret (user, issued).

(* src: backend/app/usecases/auth_usecase.py:343-361 AuthUsecase.authenticate_session *)
Definition refresh_session (auth_session : AuthSession) : Prog AuthSession :=
  now ← outside utcnow;
  let touch_interval_seconds := effective_session_touch_interval_seconds auth_settings in
  if (touch_interval_seconds <=? 0)
     || (timedelta_seconds touch_interval_seconds <=? now - s_last_seen_at auth_session)
  then touch_session true (s_id auth_session) now
         (calculate_session_expiry auth_settings (s_issued_at auth_session) now)
  else mret auth_session.

(* src: backend/app/usecases/auth_usecase.py:303-368 AuthUsecase.authenticate_session *)
Definition authenticate_body (session_token_hash : string) (ip_address user_agent : option string)
  : Prog (option AuthenticatedSessionContext) :=
  found ← find_active_session_by_token_hash true session_token_hash;
  match found with
  | None =>
      audit_known_rejected_session session_token_hash ip_address user_agent ;;
      mret None
  | Some auth_session =>
      user ← find_user_by_id_for_authentication true (s_user_id auth_session);
      match user with
      | None =>
          reject_session auth_session SESSION_REJECTED None ip_address user_agent ;;
          mret None
      | Some user =>
          if is_some (u_deleted_at user) then
            reject_user_sessions auth_session SESSION_REVOKED_DELETED_USER (u_id user)
              ip_address user_agent ;;
            mret None
          else if negb (u_is_active user) then
            reject_user_sessions auth_session SESSION_REVOKED_INACTIVE_USER (u_id user)
              ip_address user_agent ;;
            mret None
          else
            refreshed_session ← refresh_session auth_session;
            authorization ← authorization_for_existing_user (u_id user);
            mret (Some (AuthContext user refreshed_session (ua_roles authorization)
                          (ua_permissions authorization)))
      end
  end.

(* src: backend/app/usecases/auth_usecase.py:425-435 AuthUsecase.logout *)
Definition logout_body (auth_session : AuthSession) (ip_address user_agent : option string)
  : Prog unit :=
  revoke_session true (s_id auth_session) ;;
  create_audit_log true (event (Some (s_user_id auth_session)) (Some (s_id auth_session))
                           LOGOUT ip_address user_agent).

(* src: backend/app/usecases/account_deletion_usecase.py:93-103 AccountDeletionUsecase.delete_account *)
Definition delete_account_body (user_id session_id : Z) (deleted_at : Z)
    (ip_address : option string) : Prog unit :=
  delete_all_for_owner true user_id ;;
  delete_roles_for_user true user_id ;;
  delete_auth_identities_for_user true user_id ;;
  mark_user_deleted true user_id deleted_at (Some session_id) ip_address ;;
  revoke_sessions_for_user true user_id deleted_at ;;
  mret tt.

(** The callback of an OpenID Connect flow, up to the state it may use. *)
(* src: backend/app/usecases/oauth_oidc_usecase.py:271-296 OAuthOidcUsecase._consume_callback_state *)
Definition consume_callback_state (provider : OidcProviderSettings) (state : string)
    (browser_binding_cookie_value : option string) : Prog AuthOidcState :=
  match browser_binding_cookie_value with
  | None => raise (OidcError OidcBrowserBindingMismatchError)
  | Some cookie =>
      let state_hash := hash_token state in
      consumed_at ← outside utcnow;
      consume_result ← transaction
        (consume_oidc_authorization_state true state_hash (hash_token cookie) consumed_at);
      match cr_status consume_result with
      | state_mismatch | expired | already_consumed => raise (OidcError OidcStateMismatchError)
      | browser_binding_mismatch => raise (OidcError OidcBrowserBindingMismatchError)
      | consumed =>
          match cr_state consume_result with
          | Some oidc_state =>
              if (o_provider_id oidc_state =? provider_id provider)%string then mret oidc_state
              else raise (OidcError OidcStateMismatchError)
          | None => raise (OidcError OidcStateMismatchError)
          end
      end
  end.

(** ** Requests

    What clients may have running at the same time. *)

(* src: backend/app/usecases/auth_usecase.py:74-88 AuthUsecase.issue_csrf_token *)
Definition issue_csrf_token (session_token : option string) : Prog string :=
  csrf_token ← outside generate_token;
  if negb (truthy_opt session_token) then mret csrf_token
  else
    auth_session ← find_active_session_by_token_hash false
                     (hash_token (default "" session_token));
    match auth_session with
    | None => mret csrf_token
    | Some s =>
        update_session_csrf_token_hash false (s_id s) (hash_token csrf_token) ;;
        mret csrf_token
    end.

(* src: backend/app/usecases/auth_usecase.py:292-368 AuthUsecase.authenticate_session *)
Definition authenticate_session (session_token ip_address user_agent : option string)
  : Prog (option AuthenticatedSessionContext) :=
  if negb (truthy_opt session_token) then mret None
  else transaction (authenticate_body (hash_token (default "" session_token))
                      ip_address user_agent).

(* src: backend/app/usecases/auth_usecase.py:412-435 AuthUsecase.logout *)
Definition logout (session_token ip_address user_agent : option string) : Prog unit :=
  if negb (truthy_opt session_token) then mret tt
  else
    found ← find_active_session_by_token_hash false (hash_token (default "" session_token));
    match found with
    | None => mret tt
    | Some auth_session => transaction (logout_body auth_session ip_address user_agent)
    end.
(** [AuthOidcState(...)] as [start_authorization] makes it, without a [consumed_at];
    [state_of] gives its fields for the identifier drawn. *)
Definition unconsumed (o : AuthOidcState) : AuthOidcState :=
  mkOidcState (o_id o) (o_state_hash o) (o_browser_binding_hash o) (o_nonce_hash o)
    (o_pkce_verifier o) (o_provider_id o) (o_purpose o) (o_expected_user_id o)
    (o_expected_session_id o) (o_redirect_path o) (o_login_hint o) (o_language_code o)
    (o_expires_at o) None.

(* src: backend/app/usecases/oauth_oidc_usecase.py:112-131 OAuthOidcUsecase.start_authorization *)
Definition start_body (state_of : Z -> AuthOidcState) : Prog AuthOidcState :=
  id ← outside uuid4;
  create_oidc_authorization_state true (unconsumed (state_of id)).

(* src: backend/app/usecases/oauth_oidc_usecase.py:447-462 OAuthOidcUsecase._complete_reauth_callback *)
Definition reauth_body (session_id : Z) (auth_time : Z) (audit_log : audit_event) : Prog unit :=
  record_oidc_reauth true session_id auth_time ;;
  create_audit_log true audit_log.

Inductive request :=
| Callback (provider : OidcProviderSettings) (state : string) (browser_binding : option string)
| StartAuthorization (state_of : Z -> AuthOidcState)
| CompleteReauth (session_id auth_time user_id : Z) (pid : string) (ip ua : option string)
| DeleteAccount (user_id session_id deleted_at : Z) (ip : option string)
| Register (email password language : string) (session_token ip ua : option string)
| Login (user_id : Z) (session_token ip ua : option string)
| UpdateLanguage (user_id : Z) (language : string)
| Authenticate (session_token ip ua : option string)
| Logout (session_token ip ua : option string)
| IssueCsrf (session_token : option string).

Inductive reply :=
| RCallback (o : AuthOidcState)
| RState (o : AuthOidcState)
| RUser (u : User)
| RIssued (u : User) (s : AuthSession) (session_token csrf_token : string)
| RContext (c : option AuthenticatedSessionContext)
| RToken (csrf_token : string)
| RDone.

Definition serve (r : request) : Prog reply :=
  match r with
  | Callback provider state cookie =>
      o ← consume_callback_state provider state cookie; mret (RCallback o)
  | StartAuthorization state_of => o ← transaction (start_body state_of); mret (RState o)
  | CompleteReauth sid t uid pid ip ua =>
      transaction (reauth_body sid t (oidc_event OIDC_REAUTH_SUCCESS uid sid pid
                                        PurposeAccountDeletionReauth ip ua)) ;;
      mret RDone
  | DeleteAccount uid sid t ip => transaction (delete_account_body uid sid t ip) ;; mret RDone
  | Register email password language tok ip ua =>
      r ← transaction (register_body email password language tok ip ua);
      mret (RIssued r.1 r.2.1.1 r.2.1.2 r.2.2)
  | Login uid tok ip ua =>
      r ← transaction (login_body uid tok ip ua); mret (RIssued r.1 r.2.1.1 r.2.1.2 r.2.2)
  | UpdateLanguage uid language =>
      u ← transaction (update_language_body uid language); mret (RUser u)
  | Authenticate tok ip ua => c ← authenticate_session tok ip ua; mret (RContext c)
  | Logout tok ip ua => logout tok ip ua ;; mret RDone
  | IssueCsrf tok => t ← issue_csrf_token tok; mret (RToken t)
  end.
End Concurrent.
