(* ===== verification/ConcurrentAlone.v ===== *)
(** * Run alone, a concurrent program is the sequential model

    Concurrent.v writes the repository methods and transactions a second time, as
    programs of statements.  Here each of them is shown to be, when nothing runs beside
    it, the computation of AuthRepository.v, AuthUsecase.v and AccountDeletionUsecase.v:
    [agrees], which is compositional, by the tactic [agree]; and a transaction that runs
    alone through the steps of Interleaved.v ends as the sequential model says. *)

From S2P Require Import Prelude PyStr Errors Time Tables Effects UnitOfWork Settings.
From S2P Require Import AuthRepository AuthorizationRepository SampleItemRepository.
From S2P Require Import Authorization Interfaces AuthUsecase AccountDeletionUsecase.
From S2P Require Import OAuthOidcUsecase Interleaved Concurrent Runs.

From Stdlib Require Import FunctionalExtensionality.

Create HintDb agree.

Section Agrees.
Context `{E : Env} {L : Type}.
Implicit Types (w : World L).

(** ** Row versions are the statements of the sequential model *)

(** Writing a list of rows of one table, keys without repetition. *)
Definition put_all {A} (f : A -> option A) (l : list (Z * A)) (t : gmap Z A) : gmap Z A :=
  foldl (fun t kr => put kr.1 (f kr.2) t) t l.

Lemma lookup_put_all {A} (f : A -> option A) l (t : gmap Z A) k :
  NoDup l.*1 ->
  put_all f l t !! k = match list_find (fun kr => kr.1 = k) l with
                       | Some (_, kr) => f kr.2
                       | None => t !! k
                       end.
Proof.
  revert t. induction l as [|[j r] l IH]; intros t H; simpl; [done|].
  apply NoDup_cons in H as [Hj H]. unfold put_all in *. simpl. rewrite IH by done.
  destruct (decide (j = k)) as [->|Hne]; simpl.
  - destruct (list_find _ l) as [[n kr]|] eqn:F; simpl.
    + apply list_find_Some in F as (Hn & Hk & _). destruct Hj. apply list_elem_of_fmap.
      exists kr. split; [done|]. by eapply list_elem_of_lookup_2.
    + unfold put. by rewrite lookup_partial_alter_eq.
  - destruct (list_find _ l) as [[n kr]|] eqn:F; simpl; [done|].
    unfold put. by rewrite lookup_partial_alter_ne.
Qed.

Lemma put_all_entries {A} (p : A -> bool) (f : A -> option A) (t : gmap Z A) k :
  put_all f (entries_where p t) t !! k
  = match t !! k with Some r => if p r then f r else Some r | None => None end.
Proof.
  rewrite lookup_put_all by apply NoDup_entries_where.
  destruct (list_find _ _) as [[n kr]|] eqn:F.
  - apply list_find_Some in F as (Hn & Hk & _). apply list_elem_of_lookup_2 in Hn.
    destruct kr as [k' r]. simpl in *. subst k'. apply entries_where_spec in Hn as [-> ->]. done.
  - apply list_find_None in F. destruct (t !! k) as [r|] eqn:Hk; [|done].
    destruct (p r) eqn:Hp; [|done]. rewrite Forall_forall in F.
    destruct (F (k, r)); [by apply entries_where_spec|done].
Qed.

Lemma put_all_update {A} (p : A -> bool) (f : A -> A) (t : gmap Z A) :
  put_all (fun r => Some (f r)) (entries_where p t) t = update_where p f t.
Proof.
  apply map_eq. intros k. rewrite put_all_entries, lookup_update_where.
  destruct (t !! k) as [r|]; simpl; [|done]. by destruct (p r).
Qed.

Lemma put_all_delete {A} (p : A -> bool) (t : gmap Z A) :
  put_all (fun _ => None) (entries_where p t) t = delete_where p t.
Proof.
  apply map_eq. intros k. rewrite put_all_entries.
  destruct (delete_where p t !! k) as [r|] eqn:Hd.
  - apply lookup_delete_where in Hd as [-> ->]. done.
  - rewrite lookup_delete_where_None in Hd. destruct (t !! k) as [r|]; [|done].
    by rewrite (Hd r eq_refl).
Qed.

(** ** Agreement *)

Definition in_tx w : Prop := exists d, w_tx w = Some (context_owner unit_of_work, d).

(** What a step inside the transaction leaves as it is. *)
Definition stays w w' : Prop :=
  in_tx w -> in_tx w' /\ w_committed w' = w_committed w /\ w_local w' = w_local w.

Lemma stays_refl w : stays w w.
Proof. by intros H. Qed.
Lemma stays_trans w1 w2 w3 : stays w1 w2 -> stays w2 w3 -> stays w1 w3.
Proof. intros H1 H2 H. destruct (H1 H) as (? & <- & <-). by apply H2. Qed.

Lemma stays_set_view d w : stays w (set_view d w).
Proof.
  intros [d0 H]. unfold in_tx. rewrite w_tx_set_view. unfold set_view. rewrite H. simpl.
  split_and!; [by eexists|done..].
Qed.

(** Nothing else than a statement changes the database, no transaction ends inside, and
    a statement that fails ends the program. *)
Fixpoint sequential {A} (p : Prog L A) : Prop :=
  match p with
  | Return _ | Throw _ => True
  | Outside m k => (forall w, view (m w).2 = view w /\ stays w (m w).2)
                   /\ forall r, sequential (k r)
  | Statement _ _ _ k => (forall e, exists e', k (Raise e) = Throw e')
                         /\ forall b, sequential (k (Ok b))
  | TryLock _ k => forall b, sequential (k b)
  | Commit _ | Rollback _ => False
  end.

Record agrees {A} (p : Prog L A) (m : M L A) : Prop := {
  agrees_sequential : sequential p;
  agrees_run w : in_tx w -> run p w = m w;
  agrees_stays w : stays w (m w).2;
}.

Lemma run_afterwards {A B} (p : Prog L A) (f : result A -> Prog L B) w :
  run (afterwards p f) w = let (r, w') := run p w in run (f r) w'.
Proof.
  revert w. induction p; intros w; simpl; try done.
  - destruct (m w) as [r w']. apply H.
  - destruct (answer _); apply H.
  - rewrite !bind_run. destruct (try_advisory_lock w) as [[b|e] w'] eqn:T; [apply H|].
    unfold try_advisory_lock in T. done.
  - rewrite !bind_run. unfold commit. destruct (w_local w); apply IHp.
  - rewrite !bind_run. unfold rollback. destruct (w_local w); apply IHp.
Qed.

Lemma run_of_result {A} (r : result A) w : run (of_result r : Prog L A) w = (r, w).
Proof. by destruct r. Qed.

Lemma sequential_afterwards {A B} (p : Prog L A) (f : result A -> Prog L B) :
  sequential p -> (forall a, sequential (f (Ok a))) -> (forall e, exists e', f (Raise e) = Throw e') ->
  sequential (afterwards p f).
Proof.
  intros Hp Ha He. induction p as [a|e|T m k IH|T ls an vs k IH|l k IH|k IH|k IH]; simpl in *.
  - apply Ha.
  - by destruct (He e) as [e' ->].
  - destruct Hp as [Hm Hk]. split; [done|]. intros r. by apply IH.
  - destruct Hp as [Hf Hk]. split.
    + intros e. destruct (Hf e) as [e' ->]. simpl. apply He.
    + intros b. by apply IH.
  - intros b. by apply IH.
  - done.
  - done.
Qed.

Lemma agrees_ext {A} (p : Prog L A) m m' : (forall w, m w = m' w) -> agrees p m -> agrees p m'.
Proof.
  intros H [Hs Hr Hi]. split; [done|..]; [intros w Hw|intros w]; rewrite <- H; auto.
Qed.

Lemma agrees_ret {A} (a : A) : agrees (mret a) (mret a).
Proof. split; [done..|]. intros w. apply stays_refl. Qed.
Lemma agrees_raise {A} e : agrees (raise e : Prog L A) (Effects.raise e).
Proof. split; [done..|]. intros w. apply stays_refl. Qed.
Lemma agrees_lift {A} (r : result A) : agrees (lift r) (Effects.lift r).
Proof. destruct r; split; try done; intros w; apply stays_refl. Qed.

Lemma agrees_bind {A B} (p : Prog L A) m (f : A -> Prog L B) (g : A -> M L B) :
  agrees p m -> (forall a, agrees (f a) (g a)) -> agrees (p ≫= f) (m ≫= g).
Proof.
  intros [Hs Hr Hi] Hf. split.
  - apply sequential_afterwards; [done|intros a; apply Hf|eauto].
  - intros w Hw. unfold mbind at 1, Prog_bind. rewrite run_afterwards, bind_run, Hr by done.
    destruct (Hi w Hw) as [Hw' _]. destruct (m w) as [[a|e] w']; [|done]. by apply Hf.
  - intros w. rewrite bind_run. specialize (Hi w). destruct (m w) as [[a|e] w']; [|done].
    eapply stays_trans; [done|]. apply Hf.
Qed.

Lemma agrees_outside {A} (m : M L A) :
  (forall w, view (m w).2 = view w /\ stays w (m w).2) -> agrees (outside m) m.
Proof.
  intros H. split.
  - split; [done|by intros []].
  - intros w _. simpl. destruct (m w) as [r w']. apply run_of_result.
  - intros w. apply H.
Qed.

Lemma agrees_scope {A} (p : Prog L A) m :
  agrees p m -> agrees (session_scope true p) (UnitOfWork.session_scope unit_of_work m).
Proof.
  intros [Hs Hr Hi]. assert (forall w, in_tx w -> UnitOfWork.session_scope unit_of_work m w = m w) as Hc.
  { intros w [d Hw]. unfold UnitOfWork.session_scope. by rewrite Hw, decide_True. }
  split; [done| |]; [intros w Hw|intros w Hw]; rewrite Hc by done; auto. by apply Hi.
Qed.

Lemma agrees_persist (p : Prog L unit) m :
  agrees p m -> agrees (persist true p) (UnitOfWork.persist unit_of_work m).
Proof.
  intros H. apply agrees_bind; [done|]. intros [].
  assert (forall w, in_tx w -> is_transaction_session (L:=L) unit_of_work w = (Ok true, w)) as Hc.
  { intros w [d Hw]. unfold is_transaction_session. by rewrite Hw, bool_decide_true. }
  split; [done| |]; intros w Hw; rewrite (bind_ok _ _ _ _ _ (Hc w Hw)); [done|by apply stays_refl].
Qed.

Lemma agrees_try {A} (p : Prog L A) m h h' :
  agrees p m ->
  (forall e, match h e, h' e with
             | Some q, Some n => (exists e', q = Throw e') /\ agrees q n
             | None, None => True
             | _, _ => False
             end) ->
  agrees (try_except p h) (Effects.try_except m h').
Proof.
  intros [Hs Hr Hi] He. split.
  - apply sequential_afterwards; [done..|]. intros e. specialize (He e).
    destruct (h e), (h' e); try done; [by destruct He as [[e' ->] _]; eexists|by eexists].
  - intros w Hw. unfold try_except, Effects.try_except. rewrite run_afterwards, Hr by done.
    destruct (Hi w Hw) as [Hw' _]. destruct (m w) as [[a|e] w']; [done|]. specialize (He e).
    destruct (h e), (h' e); try done. by apply He.
  - intros w. unfold Effects.try_except. specialize (Hi w).
    destruct (m w) as [[a|e] w']; [done|]. specialize (He e).
    destruct (h e), (h' e); try done. eapply stays_trans; [done|]. by apply He.
Qed.

(** *** Statements *)

Lemma agrees_statement {B} ls (answer : DB -> result B) versions m :
  (forall w, m w = match answer (view w) with
                   | Ok b => (Ok b, set_view (apply_versions (view w) (versions (view w))) w)
                   | Raise e => (Raise e, w)
                   end) ->
  agrees (statement ls answer versions) m.
Proof.
  intros Hm. split.
  - split; [by eexists|done].
  - intros w _. simpl. rewrite Hm. by destruct (answer _).
  - intros w. rewrite Hm. destruct (answer _); [apply stays_set_view|apply stays_refl].
Qed.

Lemma agrees_select {A} (get : DB -> gmap Z A) p :
  agrees (exec_select get p) (UnitOfWork.exec_select get p).
Proof. apply agrees_statement. intros w. simpl. by rewrite set_view_view. Qed.

Lemma agrees_select_for_update {A} t (get : DB -> gmap Z A) p :
  agrees (exec_select_for_update t get p) (UnitOfWork.exec_select get p).
Proof. apply agrees_statement. intros w. simpl. by rewrite set_view_view. Qed.

Lemma agrees_get_row {A} (get : DB -> gmap Z A) k :
  agrees (get_row get k) (UnitOfWork.get_row get k).
Proof. apply agrees_statement. intros w. simpl. by rewrite set_view_view. Qed.

Lemma agrees_refresh {A} (get : DB -> gmap Z A) k :
  agrees (refresh get k) (UnitOfWork.refresh get k).
Proof.
  apply agrees_statement. intros w. unfold UnitOfWork.refresh. rewrite bind_run. simpl.
  destruct (get (view w) !! k); [|done]. by rewrite set_view_view.
Qed.

Lemma agrees_one_or_none {A} (rows : list A) :
  agrees (one_or_none rows) (UnitOfWork.one_or_none rows).
Proof. destruct rows as [|r [|]]; [apply agrees_ret..|apply agrees_raise]. Qed.

(** The tables, as [with_users] and the like change them. *)
Record changes {A} (get : DB -> gmap Z A) (ver : Z -> option A -> version) (upd : (gmap Z A -> gmap Z A) -> DB -> DB)
  : Prop := {
  changes_version d k r : apply_version d (ver k r) = upd (put k r) d;
  changes_twice g h d : upd g (upd h d) = upd (fun t => g (h t)) d;
  changes_nothing d : upd (fun t => t) d = d;
  changes_get g d : upd g d = upd (fun _ => g (get d)) d;
}.

Lemma apply_put_all {A} get ver upd (f : A -> option A) l d :
  changes get ver upd ->
  apply_versions d (map (fun kr => ver kr.1 (f kr.2)) l) = upd (put_all f l) d.
Proof.
  intros Hc. revert d. unfold put_all, apply_versions.
  induction l as [|[k r] l IH]; intros d; simpl; [by rewrite (changes_nothing _ _ _ Hc)|].
  rewrite IH, (changes_version _ _ _ Hc), (changes_twice _ _ _ Hc). done.
Qed.

Lemma agrees_update_row {A} t (get : DB -> gmap Z A) ok ver upd k f :
  changes get ver upd ->
  agrees (update_row t get ok ver k f) (UnitOfWork.update_row get ok upd k f).
Proof.
  intros Hc. apply agrees_statement. intros w. unfold UnitOfWork.update_row. rewrite bind_run. simpl.
  destruct (get (view w) !! k) as [r|]; [|done]. destruct (ok _ _); [|done].
  simpl. by rewrite (changes_version _ _ _ Hc).
Qed.

Lemma agrees_insert_row {A} t (get : DB -> gmap Z A) ok ver upd keys k r r' :
  changes get ver upd ->
  agrees (insert_row t get ok ver keys k r r')
    (checked (fun d => is_none (get d !! k) && ok d r) (upd <[k := r']>)).
Proof.
  intros Hc. apply agrees_statement. intros w. unfold checked. rewrite bind_run. simpl.
  destruct (is_none _ && _); [|done]. simpl.
  by rewrite (changes_version _ _ _ Hc).
Qed.

Lemma agrees_exec_where {A} t (get : DB -> gmap Z A) ver upd freed p f g :
  changes get ver upd -> (forall t, put_all f (entries_where p t) t = g t) ->
  agrees (exec_where t get ver freed p f) (exec_counting get p (upd g)).
Proof.
  intros Hc Hfg.
  assert (forall d, upd (put_all f (entries_where p (get d))) d = upd g d) as Hd.
  { intros d. rewrite (changes_get _ _ _ Hc), Hfg. by rewrite <- (changes_get _ _ _ Hc). }
  apply agrees_statement. intros w. unfold exec_counting. rewrite bind_run.
  simpl. unfold write_db. rewrite bind_run. simpl. by rewrite (apply_put_all get ver upd), Hd.
Qed.

Lemma changes_users : changes users VUser with_users.
Proof. by split; intros; try destruct d. Qed.
Lemma changes_sessions : changes sessions VSession with_sessions.
Proof. by split; intros; try destruct d. Qed.
Lemma changes_identities : changes identities VIdentity with_identities.
Proof. by split; intros; try destruct d. Qed.
Lemma changes_states : changes oidc_states VState with_oidc_states.
Proof. by split; intros; try destruct d. Qed.
Lemma changes_audits : changes audit_logs VAudit with_audit_logs.
Proof. by split; intros; try destruct d. Qed.
Lemma changes_roles : changes user_roles VRole with_user_roles.
Proof. by split; intros; try destruct d. Qed.
Lemma changes_items : changes sample_items VItem with_sample_items.
Proof. by split; intros; try destruct d. Qed.

Lemma agrees_utcnow : agrees (outside utcnow) utcnow.
Proof. by apply agrees_outside. Qed.
Lemma agrees_uuid4 : agrees (outside uuid4) uuid4.
Proof. by apply agrees_outside. Qed.
Lemma agrees_token : agrees (outside generate_token) generate_token.
Proof. by apply agrees_outside. Qed.
Lemma agrees_hash p : agrees (outside (hash_password p)) (hash_password p).
Proof. by apply agrees_outside. Qed.

Lemma agrees_try_lock {A} l (f : bool -> Prog L A) g :
  (forall b, agrees (f b) (g b)) -> agrees (TryLock l f) (try_advisory_lock ≫= g).
Proof.
  intros H. split.
  - intros b. apply H.
  - intros w Hw. simpl. rewrite !bind_run. simpl. by apply H.
  - intros w. rewrite bind_run. simpl. eapply (stays_trans _ (tick_lock w)); [by intros ?|apply H].
Qed.
End Agrees.

#[export] Hint Resolve agrees_ret agrees_raise agrees_lift agrees_select agrees_get_row
  agrees_refresh agrees_one_or_none agrees_select_for_update agrees_utcnow agrees_uuid4
  agrees_token agrees_hash : agree.
#[export] Hint Resolve changes_users changes_sessions changes_identities changes_states
  changes_audits changes_roles changes_items : agree.

(** Follows the two texts side by side. *)
Ltac agree_step :=
  lazymatch goal with
  | |- changes _ _ _ => solve [eauto with agree]
  | |- agrees (match ?x with _ => _ end) _ => destruct x
  | |- agrees (session_scope true _) _ => apply agrees_scope
  | |- agrees (persist true _) _ => apply agrees_persist
  | |- agrees (TryLock _ _) _ => apply agrees_try_lock; intros []
  | |- agrees (update_row _ _ _ _ _ _) _ => apply agrees_update_row
  | |- agrees (insert_row _ _ _ _ _ _ _ _) _ => apply agrees_insert_row
  | |- agrees (exec_where _ _ _ _ _ _) _ => apply agrees_exec_where
  | |- agrees (_ ≫= _) _ =>
      first [solve [eauto with agree nocore] | apply agrees_bind; [|intros ?]]
  | |- agrees _ _ => solve [eauto with agree nocore]
  end.
Ltac agree := repeat (progress cbv beta zeta iota || agree_step).

(** ** The repository methods *)

Section Methods.
Context `{E : Env} {L : Type}.
Notation agrees := (@agrees E L _).

Lemma agrees_update_user k f :
  agrees (update_user_row k f) (UnitOfWork.update_user_row k f).
Proof. apply agrees_update_row. agree. Qed.
Lemma agrees_update_session k f :
  agrees (update_session_row k f) (UnitOfWork.update_session_row k f).
Proof. apply agrees_update_row. agree. Qed.
Lemma agrees_update_state k f :
  agrees (update_oidc_state_row k f) (UnitOfWork.update_oidc_state_row k f).
Proof. apply agrees_update_row. agree. Qed.
Lemma agrees_update_audit k f :
  agrees (update_audit_row k f) (UnitOfWork.update_audit_row k f).
Proof. apply agrees_update_row. agree. Qed.
Hint Resolve agrees_update_user agrees_update_session agrees_update_state agrees_update_audit : agree.
Lemma agrees_insert_user u :
  agrees (insert_user u) (UnitOfWork.insert_user u).
Proof. unfold insert_user, UnitOfWork.insert_user. agree. Qed.
Lemma agrees_insert_session s :
  agrees (insert_session s) (UnitOfWork.insert_session s).
Proof. unfold insert_session, UnitOfWork.insert_session. agree. Qed.
Lemma agrees_insert_state o :
  agrees (insert_oidc_state o) (UnitOfWork.insert_oidc_state o).
Proof. unfold insert_oidc_state, UnitOfWork.insert_oidc_state. agree. Qed.
Lemma agrees_insert_audit a :
  agrees (insert_audit a) (UnitOfWork.insert_audit a).
Proof. unfold insert_audit, UnitOfWork.insert_audit. agree. Qed.
Lemma agrees_nothing_pending : agrees nothing_pending UnitOfWork.nothing_pending.
Proof. apply agrees_ret. Qed.
Hint Resolve agrees_insert_user agrees_insert_session agrees_insert_state agrees_insert_audit
  agrees_nothing_pending : agree.

Lemma agrees_flush_audit id e :
  agrees (flush_audit id e) (AuthRepository.flush_audit id e).
Proof. unfold flush_audit, AuthRepository.flush_audit. agree. Qed.
Hint Resolve agrees_flush_audit : agree.

Lemma agrees_persist_unique_email p m :
  agrees p m ->
  agrees (persist_unique_email true p) (UnitOfWork.persist_unique_email unit_of_work m).
Proof.
  intros H. apply agrees_try; [by apply agrees_persist|]. intros []; try done.
  split; [by eexists|]. split; [done|intros w Hw..]; destruct Hw as [d Hw];
    unfold is_transaction_session; rewrite bind_run, Hw, bool_decide_true by done; [done|].
  apply stays_refl. by exists d.
Qed.

Lemma agrees_create_user email h lang :
  agrees (create_user true email h lang) (AuthRepository.create_user email h lang).
Proof.
  unfold create_user, AuthRepository.create_user. agree. apply agrees_persist_unique_email. agree.
Qed.

Lemma agrees_update_user_language uid lang t :
  agrees (update_user_language true uid lang t) (AuthRepository.update_user_language uid lang t).
Proof. unfold update_user_language, AuthRepository.update_user_language. agree. Qed.

Lemma agrees_find_user_by_id uid :
  agrees (find_user_by_id_for_authentication true uid)
    (AuthRepository.find_user_by_id_for_authentication uid).
Proof.
  unfold find_user_by_id_for_authentication, AuthRepository.find_user_by_id_for_authentication. agree.
Qed.

Lemma agrees_record_user_login uid t :
  agrees (record_user_login true uid t) (AuthRepository.record_user_login uid t).
Proof. unfold record_user_login, AuthRepository.record_user_login. agree. Qed.

Lemma agrees_create_session uid h1 h2 t1 t2 t3 ip ua :
  agrees (create_session true uid h1 h2 t1 t2 t3 ip ua)
    (AuthRepository.create_session uid h1 h2 t1 t2 t3 ip ua).
Proof. unfold create_session, AuthRepository.create_session. agree. Qed.

Lemma agrees_find_active_session h :
  agrees (find_active_session_by_token_hash true h)
    (AuthRepository.find_active_session_by_token_hash h).
Proof.
  unfold find_active_session_by_token_hash, AuthRepository.find_active_session_by_token_hash. agree.
Qed.

Lemma agrees_find_session h :
  agrees (find_session_by_token_hash true h) (AuthRepository.find_session_by_token_hash h).
Proof. unfold find_session_by_token_hash, AuthRepository.find_session_by_token_hash. agree. Qed.

Lemma agrees_update_session_csrf sid h :
  agrees (update_session_csrf_token_hash true sid h)
    (AuthRepository.update_session_csrf_token_hash sid h).
Proof. unfold update_session_csrf_token_hash, AuthRepository.update_session_csrf_token_hash. agree. Qed.

Lemma agrees_revoke_session sid :
  agrees (revoke_session true sid) (AuthRepository.revoke_session sid).
Proof. unfold revoke_session, AuthRepository.revoke_session. agree. Qed.

Lemma agrees_touch_session sid t1 t2 :
  agrees (touch_session true sid t1 t2) (AuthRepository.touch_session sid t1 t2).
Proof. unfold touch_session, AuthRepository.touch_session. agree. Qed.

Lemma agrees_record_oidc_reauth sid t :
  agrees (record_oidc_reauth true sid t) (AuthRepository.record_oidc_reauth sid t).
Proof. unfold record_oidc_reauth, AuthRepository.record_oidc_reauth. agree. Qed.

Lemma agrees_revoke_sessions_for_user uid t :
  agrees (revoke_sessions_for_user true uid t) (AuthRepository.revoke_sessions_for_user uid t).
Proof.
  unfold revoke_sessions_for_user, AuthRepository.revoke_sessions_for_user. agree.
  apply put_all_update.
Qed.

Lemma agrees_create_audit_log e :
  agrees (create_audit_log true e) (AuthRepository.create_audit_log e).
Proof. unfold create_audit_log, AuthRepository.create_audit_log. agree. Qed.

Lemma agrees_mark_user_deleted uid t sid ip :
  agrees (mark_user_deleted true uid t sid ip) (AuthRepository.mark_user_deleted uid t sid ip).
Proof. unfold mark_user_deleted, AuthRepository.mark_user_deleted. agree. apply put_all_update. Qed.

Lemma agrees_record_replay s ip ua t n :
  agrees (record_rejected_session_replay true s ip ua t n)
    (AuthRepository.record_rejected_session_replay s ip ua t n).
Proof.
  unfold record_rejected_session_replay, AuthRepository.record_rejected_session_replay. agree.
Qed.

Lemma agrees_create_state o :
  agrees (create_oidc_authorization_state true o) (AuthRepository.create_oidc_authorization_state o).
Proof. unfold create_oidc_authorization_state, AuthRepository.create_oidc_authorization_state. agree. Qed.

Lemma agrees_consume_state sh bh t :
  agrees (consume_oidc_authorization_state true sh bh t)
    (AuthRepository.consume_oidc_authorization_state sh bh t).
Proof.
  unfold consume_oidc_authorization_state, AuthRepository.consume_oidc_authorization_state. agree.
Qed.

Lemma agrees_get_user_role_codes uid :
  agrees (get_user_role_codes true uid) (AuthorizationRepository.get_user_role_codes uid).
Proof.
  unfold get_user_role_codes, AuthorizationRepository.get_user_role_codes, role_codes_for_user. agree.
Qed.

Lemma agrees_delete_roles uid :
  agrees (delete_roles_for_user true uid) (AuthorizationRepository.delete_roles_for_user uid).
Proof.
  unfold delete_roles_for_user, AuthorizationRepository.delete_roles_for_user. agree.
  apply put_all_delete.
Qed.

Lemma agrees_delete_identities uid :
  agrees (delete_auth_identities_for_user true uid)
    (AuthRepository.delete_auth_identities_for_user uid).
Proof.
  unfold delete_auth_identities_for_user, AuthRepository.delete_auth_identities_for_user. agree.
  apply put_all_delete.
Qed.

Lemma agrees_delete_items uid :
  agrees (delete_all_for_owner true uid) (SampleItemRepository.delete_all_for_owner uid).
Proof.
  unfold delete_all_for_owner, SampleItemRepository.delete_all_for_owner. agree_step.
  apply (agrees_ext _ (exec_counting sample_items (fun i => it_owner_user_id i =? uid)
    (with_sample_items (delete_where (fun i => it_owner_user_id i =? uid))) ≫= fun _ =>
    UnitOfWork.persist unit_of_work UnitOfWork.nothing_pending)); [done|].
  agree. apply put_all_delete.
Qed.
End Methods.

#[export] Hint Resolve agrees_create_user agrees_update_user_language agrees_find_user_by_id
  agrees_record_user_login agrees_create_session agrees_find_active_session agrees_find_session
  agrees_update_session_csrf agrees_revoke_session agrees_touch_session agrees_record_oidc_reauth
  agrees_revoke_sessions_for_user agrees_create_audit_log agrees_mark_user_deleted
  agrees_record_replay agrees_create_state agrees_consume_state agrees_get_user_role_codes
  agrees_delete_roles agrees_delete_identities agrees_delete_items : agree.

(** ** The transactions *)

Section Bodies.
Context `{E : Env} {L : Type} `{R : LoginRateLimiter L} (auth_settings : AuthSettings).
Notation agrees := (@agrees E L _).

Lemma agrees_revoke_current tok :
  agrees (revoke_current tok) (AuthUsecase.revoke_current tok).
Proof. unfold revoke_current, AuthUsecase.revoke_current. agree. Qed.
Hint Resolve agrees_revoke_current : agree.

Lemma agrees_replace_auth_session u tok ip ua :
  agrees (replace_auth_session auth_settings u tok ip ua)
    (AuthUsecase.replace_auth_session auth_settings u tok ip ua).
Proof. unfold replace_auth_session, AuthUsecase.replace_auth_session. agree. Qed.
Hint Resolve agrees_replace_auth_session : agree.

Lemma agrees_audit_known_rejected h ip ua :
  agrees (audit_known_rejected_session h ip ua) (AuthUsecase.audit_known_rejected_session h ip ua).
Proof. unfold audit_known_rejected_session, AuthUsecase.audit_known_rejected_session. agree. Qed.

Lemma agrees_authorization uid :
  agrees (authorization_for_existing_user uid) (AuthUsecase.authorization_for_existing_user uid).
Proof. unfold authorization_for_existing_user, AuthUsecase.authorization_for_existing_user. agree. Qed.

Lemma agrees_reject_session s ev uid ip ua :
  agrees (reject_session s ev uid ip ua) (AuthUsecase.reject_session s ev uid ip ua).
Proof. unfold reject_session, AuthUsecase.reject_session. agree. Qed.

Lemma agrees_reject_user_sessions s ev uid ip ua :
  agrees (reject_user_sessions s ev uid ip ua) (AuthUsecase.reject_user_sessions s ev uid ip ua).
Proof. unfold reject_user_sessions, AuthUsecase.reject_user_sessions. agree. Qed.

Lemma agrees_refresh_session s :
  agrees (refresh_session auth_settings s) (AuthUsecase.refresh_session auth_settings s).
Proof. unfold refresh_session, AuthUsecase.refresh_session. agree. Qed.
End Bodies.

#[export] Hint Resolve agrees_revoke_current agrees_replace_auth_session
  agrees_audit_known_rejected agrees_authorization agrees_reject_session
  agrees_reject_user_sessions agrees_refresh_session : agree.

(** ** A thread that runs alone *)

Section Alone.
Context `{E : Env} {L : Type}.
Context (lock_free : forall n, env_try_lock n = true).
Implicit Types (w : World L) (s : shared).

Lemma available_alone {A} (t : thread L A) l : available 0 [t] l.
Proof. intros [|j] t' Ht Hj; [lia|]. by destruct j. Qed.

Lemma step_alone {A} s s' (t t' : thread L A) :
  thread_step 0 [t] s t s' t' -> step (Config s [t]) (Config s' [t']).
Proof. intros H. by apply (Step s [t] 0 t). Qed.

(** A program inside its transaction. *)
Lemma sequential_steps {A B} (p : Prog L A) (f : result A -> Prog L B) s held pending w :
  sequential p -> in_tx w -> view w = apply_versions (committed s) pending ->
  exists held' pending',
    rtc step (Config s [Running (afterwards p f) held pending])
      (Config s [Running (f (run p w).1) held' pending'])
    /\ (forall a, (run p w).1 = Ok a -> view (run p w).2 = apply_versions (committed s) pending').
Proof.
  revert held pending w.
  induction p as [a|e|T m k IH|T ls an vs k IH|l k IH|k IH|k IH]; intros held pending w Hp Hw Hv; simpl in *.
  - exists held, pending. by split; [constructor|].
  - exists held, pending. by split; [constructor|].
  - destruct Hp as [Hm Hk]. destruct (Hm w) as [Hv' Hs]. destruct (m w) as [r w'] eqn:Em. simpl in *.
    destruct (IH r held pending w') as (h' & p' & Hr & Ho); [by apply Hk|by apply Hs|by rewrite Hv'|].
    exists h', p'. split; [|done]. eapply rtc_l; [|apply Hr].
    by apply step_alone, (StepOutside 0 _ s T m (fun r => afterwards (k r) f) held pending w r w').
  - destruct Hp as [Hf Hk]. destruct (an (view w)) as [b|e] eqn:Ea.
    + destruct (IH (Ok b) (ls (view w) ++ held) (pending ++ vs (view w))
                  (set_view (apply_versions (view w) (vs (view w))) w)) as (h' & p' & Hr & Ho).
      { apply Hk. } { by apply stays_set_view. }
      { rewrite view_set_view. unfold apply_versions at 2. rewrite foldl_app. by rewrite Hv. }
      exists h', p'. split; [|done]. eapply rtc_l; [|apply Hr]. apply step_alone.
      apply (StepStatement 0 _ s T ls an vs (fun r => afterwards (k r) f) held pending (view w));
        [done| |done]. apply Forall_true, available_alone.
    + destruct (Hf e) as [e' He']. exists [], []. rewrite He'. simpl. split; [|done].
      apply rtc_once. pose proof (StepFailed 0 [Running (Statement ls an vs (fun r => afterwards (k r) f))
        held pending] s T ls an vs (fun r => afterwards (k r) f) held pending (view w) e) as Hst.
      cbv beta in Hst. rewrite He' in Hst. apply step_alone, Hst; [done| |done]. apply Forall_true, available_alone.
  - rewrite bind_run. unfold try_advisory_lock. rewrite lock_free.
    destruct (IH true (l :: held) pending (tick_lock w)) as (h' & p' & Hr & Ho); [done..|].
    exists h', p'. split; [|done]. eapply rtc_l; [|apply Hr].
    apply step_alone, StepLocked, available_alone.
  - done.
  - done.
Qed.

(** Between transactions: [p] takes the committed database where [m] does. *)
Definition alone {A} (p : Prog L A) (m : M L A) : Prop :=
  forall B (f : result A -> Prog L B) w log, idle w ->
    idle (m w).2 /\
    exists log', rtc step (Config (Shared (w_committed w) log) [Running (afterwards p f) [] []])
      (Config (Shared (w_committed (m w).2) log') [Running (f (m w).1) [] []]).

Lemma alone_ret {A} (a : A) : alone (mret a) (mret a).
Proof. intros B f w log Hw. split; [done|]. exists log. constructor. Qed.
Lemma alone_raise {A} e : alone (raise e : Prog L A) (Effects.raise e).
Proof. intros B f w log Hw. split; [done|]. exists log. constructor. Qed.

Lemma afterwards_assoc {A B C} (p : Prog L A) (f : result A -> Prog L B) (g : result B -> Prog L C) :
  afterwards (afterwards p f) g = afterwards p (fun r => afterwards (f r) g).
Proof.
  induction p as [a|e|T m k IH|T ls an vs k IH|l k IH|k IH|k IH]; simpl; try done; f_equal; try done.
  all: apply functional_extensionality; intros r; apply IH.
Qed.

Lemma alone_bind {A B} (p : Prog L A) m (f : A -> Prog L B) (g : A -> M L B) :
  alone p m -> (forall a, alone (f a) (g a)) -> alone (p ≫= f) (m ≫= g).
Proof.
  intros Hp Hf C h w log Hw. rewrite bind_run. unfold mbind at 1, Prog_bind. rewrite afterwards_assoc.
  destruct (Hp C (fun r => afterwards (match r with Ok a => f a | Raise e => Throw e end) h) w log Hw)
    as (Hi & log1 & Hr). destruct (m w) as [[a|e] w1]; simpl in *.
  - destruct (Hf a C h w1 log1 Hi) as (Hi2 & log2 & Hr2). split; [done|]. exists log2. by etrans.
  - split; [done|]. by exists log1.
Qed.

Lemma alone_outside {A} (m : M L A) :
  (forall w, idle w -> idle (m w).2 /\ w_committed (m w).2 = w_committed w) -> alone (outside m) m.
Proof.
  intros H B f w log Hw. destruct (H w Hw) as [Hi Hc]. split; [done|]. exists log. rewrite Hc.
  destruct (m w) as [r w'] eqn:Em. simpl. apply rtc_once, step_alone.
  replace (f r) with (afterwards (of_result r) f) by (by destruct r).
  by apply (StepOutside 0 _ _ A m (fun r => afterwards (of_result r) f) [] [] w r w').
Qed.

(** The transaction of the program is the transaction of the computation. *)
Lemma alone_transaction {A} (p : Prog L A) m :
  agrees p m -> alone (transaction p) (UnitOfWork.transaction unit_of_work m).
Proof.
  intros [Hs Hr Hi] B f w log Hw. rewrite (idle_at w Hw). set (c := w_committed w).
  unfold UnitOfWork.transaction, transaction. rewrite afterwards_assoc.
  set (w0 := set_tx (Some (context_owner unit_of_work, c)) (at_db false c c w)).
  assert (in_tx w0) as Hw0 by (by eexists).
  destruct (sequential_steps p (fun r => afterwards
    (match r with Ok a => Commit (Return a) | Raise e => Rollback (Throw e) end) f)
    (Shared c log) [] [] w0 Hs Hw0 eq_refl) as (h' & p' & Hst & Ho).
  rewrite Hr in Hst, Ho by done. destruct (Hi w0 Hw0) as ([d1 Hd1] & Hc1 & Hl1).
  change (w_tx (at_db false c c w)) with (@None (Z * DB)). cbv iota.
  change (w_committed (at_db false c c w)) with c. fold w0.
  destruct (m w0) as [[a|e] w1]; simpl in *.
  - rewrite Hd1. specialize (Ho a eq_refl). unfold view in Ho. rewrite Hd1 in Ho. subst d1.
    split; [by split|]. exists (log ++ [(0%nat, p')]). eapply rtc_r; [exact Hst|].
    apply step_alone, (StepCommit 0 _ (Shared c log)).
  - split; [by split|]. exists log. simpl. rewrite Hc1. eapply rtc_r; [exact Hst|].
    apply step_alone, StepRollback.
Qed.

(** The next statement of a thread that runs alone. *)
Ltac statement_alone :=
  eapply rtc_l;
  [apply step_alone; eapply StepStatement; [reflexivity|apply Forall_true, available_alone|reflexivity]
  |cbv beta iota].

(** A plain session that reads. *)
Lemma alone_find_active_session h :
  alone (find_active_session_by_token_hash false h)
    (AuthRepository.find_active_session_by_token_hash h).
Proof.
  intros B f w log Hw. rewrite (idle_at w Hw). set (c := w_committed w).
  rewrite find_active_session_at. split; [done|]. exists log. simpl.
  eapply rtc_l; [apply step_alone; by eapply (StepOutside 0 _ _ _ _ _ _ _ w)|]. simpl.
  statement_alone. cbn.
  destruct (select _ (sessions c)) as [|s1 [|]]; apply rtc_once, step_alone, StepRollback.
Qed.

(** A plain session that changes one session row. *)
Lemma alone_update_session sid h :
  alone (update_session_csrf_token_hash false sid h)
    (AuthRepository.update_session_csrf_token_hash sid h).
Proof.
  intros B f w log Hw. rewrite (idle_at w Hw). set (c := w_committed w).
  rewrite update_session_csrf_at. cbv zeta. change (w_committed (at_db false c c w)) with c.
  destruct (sessions c !! sid) as [s|] eqn:Es;
    [destruct (session_row_ok c (set_csrf_hash h s)) eqn:Eok|]; (split; [done|]).
  - exists (log ++ [(0%nat, [VSession sid (Some (set_csrf_hash h s))])]).
    statement_alone. cbn. rewrite Es. cbn.
    eapply rtc_l; [apply step_alone; eapply (StepStatement 0 _ _ unit);
      [reflexivity|apply Forall_true, available_alone|cbn; by rewrite Es, Eok]|].
    cbn. rewrite Es. eapply rtc_l; [apply step_alone, StepCommit|]. cbn.
    eapply rtc_l; [apply step_alone; eapply (StepStatement 0 _ _ AuthSession);
      [reflexivity|apply Forall_true, available_alone|cbn; unfold put;
       by rewrite lookup_partial_alter_eq]|].
    cbn. apply rtc_once, step_alone, StepRollback.
  - exists log. statement_alone. cbn. rewrite Es. cbn.
    eapply rtc_l; [apply step_alone; eapply (StepFailed 0 _ _ unit);
      [reflexivity|apply Forall_true, available_alone|cbn; by rewrite Es, Eok]|].
    cbn. apply rtc_once, step_alone, StepRollback.
  - exists log. statement_alone. cbn. rewrite Es. cbn. apply rtc_once, step_alone, StepRollback.
Qed.
End Alone.

(** ** Requests that run alone *)

Section Requests.
Context `{E : Env} {L : Type} `{R : LoginRateLimiter L} (auth_settings : AuthSettings).
Context (lock_free : forall n, env_try_lock n = true).
Notation uow := unit_of_work.

(** The sequential model of a request. *)
Definition serve_alone (r : request) : M L reply :=
  match r with
  | Callback provider state cookie =>
      o ← OAuthOidcUsecase.consume_callback_state provider state cookie; mret (RCallback o)
  | StartAuthorization state_of =>
      o ← UnitOfWork.transaction uow (
        id ← uuid4; AuthRepository.create_oidc_authorization_state (unconsumed (state_of id)));
      mret (RState o)
  | CompleteReauth sid t uid pid ip ua =>
      UnitOfWork.transaction uow (
        AuthRepository.record_oidc_reauth sid t ;;
        AuthRepository.create_audit_log (oidc_event OIDC_REAUTH_SUCCESS uid sid pid
                                           PurposeAccountDeletionReauth ip ua)) ;;
      mret RDone
  | DeleteAccount uid sid t ip => delete_account_transaction uid sid t ip ;; mret RDone
  | Register email password language tok ip ua =>
      r ← register_transaction auth_settings email password language tok ip ua;
      mret (RIssued r.1 r.2.1.1 r.2.1.2 r.2.2)
  | Login uid tok ip ua =>
      r ← login_transaction auth_settings uid tok ip ua;
      mret (RIssued r.1 r.2.1.1 r.2.1.2 r.2.2)
  | UpdateLanguage uid language =>
      u ← UnitOfWork.transaction uow (
        modified_at ← utcnow; AuthRepository.update_user_language uid language modified_at);
      mret (RUser u)
  | Authenticate tok ip ua =>
      c ← AuthUsecase.authenticate_session auth_settings tok ip ua; mret (RContext c)
  | Logout tok ip ua => AuthUsecase.logout tok ip ua ;; mret RDone
  | IssueCsrf tok => t ← AuthUsecase.issue_csrf_token tok; mret (RToken t)
  end.

Ltac alone_step :=
  lazymatch goal with
  | |- alone (match ?x with _ => _ end) _ => destruct x
  | |- alone (transaction _) _ => apply alone_transaction; [done|agree]
  | |- alone (outside _) _ => by apply alone_outside
  | |- alone (mret _) _ => apply alone_ret
  | |- alone (raise _) _ => apply alone_raise
  | |- alone (find_active_session_by_token_hash _ _) _ => apply alone_find_active_session
  | |- alone (update_session_csrf_token_hash _ _ _) _ => apply alone_update_session
  | |- alone (_ ≫= _) _ => apply alone_bind; [|intros ?]
  end.

Lemma serve_alone_ok r : alone (serve auth_settings r) (serve_alone r).
Proof.
  destruct r; unfold serve, serve_alone;
    unfold consume_callback_state, OAuthOidcUsecase.consume_callback_state, start_body, reauth_body,
      delete_account_body, delete_account_transaction, register_body, register_transaction,
      login_body, login_transaction, update_language_body, authenticate_session,
      AuthUsecase.authenticate_session, authenticate_body, logout, AuthUsecase.logout, logout_body,
      issue_csrf_token, AuthUsecase.issue_csrf_token;
    repeat (progress cbv beta zeta || alone_step).
Qed.
End Requests.
