(* ===== verification/Interference.v ===== *)
(** * Reasoning about programs beside others

    A thread-local way to prove what holds of every run of a pool of programs
    (Interleaved.v).  A [Protocol] says which versions a transaction may write with the
    locks it holds, and keeps an invariant of the database and of the record of commits.
    [wp i p held pending s Q]: the program [p] of thread [i], whatever the others commit
    in between under the protocol and under other locks, writes what it may and ends as
    [Q] says.  [pool_sound]: threads that are each proved so run together soundly. *)

From S2P Require Import Prelude PyStr Errors Time Tables Effects Interleaved.

Definition disjoint_locks (h1 h2 : list lock) : Prop := forall l, l ∈ h1 -> l ∉ h2.

Lemma disjoint_locks_sym h1 h2 : disjoint_locks h1 h2 -> disjoint_locks h2 h1.
Proof. intros H l H2 H1. by apply (H l). Qed.

(** ** Versions of different rows commute *)

Lemma put_commute {A} (k k' : Z) (r r' : option A) t :
  k <> k' -> put k r (put k' r' t) = put k' r' (put k r t).
Proof. intros H. unfold put. by apply partial_alter_partial_alter_ne. Qed.

Lemma apply_version_commute d v v' :
  version_row v <> version_row v' ->
  apply_version (apply_version d v) v' = apply_version (apply_version d v') v.
Proof.
  intros H. destruct v, v'; try done; simpl in *;
    unfold with_users, with_sessions, with_identities, with_oidc_states, with_audit_logs,
      with_user_roles, with_sample_items; simpl; f_equal; apply put_commute; congruence.
Qed.

(** ** Protocols *)

Class Protocol := {
  may_write : list lock -> DB -> version -> Prop;
  db_invariant : DB -> Prop;
  may_write_locked held d v : may_write held d v -> version_row v ∈ held;
  may_write_more held held' d v :
    may_write held d v -> (forall l, l ∈ held -> l ∈ held') -> may_write held' d v;
  may_write_stable h1 h2 d v1 v2 :
    db_invariant d -> may_write h1 d v1 -> may_write h2 d v2 -> disjoint_locks h1 h2 ->
    may_write h1 (apply_version d v2) v1;
  may_write_invariant held d v :
    db_invariant d -> may_write held d v -> db_invariant (apply_version d v);
}.

#[global] Arguments apply_versions : simpl never.

Section Protocol.
Context `{P : Protocol}.

(** The versions of a transaction, oldest first. *)
Fixpoint writes (held : list lock) (d : DB) (vs : list version) : Prop :=
  match vs with
  | [] => True
  | v :: vs' => may_write held d v /\ writes held (apply_version d v) vs'
  end.

Lemma apply_versions_cons d v vs : apply_versions d (v :: vs) = apply_versions (apply_version d v) vs.
Proof. done. Qed.
Lemma apply_versions_app d vs vs' :
  apply_versions d (vs ++ vs') = apply_versions (apply_versions d vs) vs'.
Proof. apply foldl_app. Qed.

Lemma writes_app held d vs vs' :
  writes held d (vs ++ vs') <-> writes held d vs /\ writes held (apply_versions d vs) vs'.
Proof.
  revert d. induction vs as [|v vs IH]; intros d; simpl; [tauto|].
  rewrite IH, apply_versions_cons. tauto.
Qed.

Lemma writes_more held held' d vs :
  writes held d vs -> (forall l, l ∈ held -> l ∈ held') -> writes held' d vs.
Proof.
  intros H Hh. revert d H. induction vs as [|v vs IH]; intros d; simpl; [done|].
  intros [Hv H]. split; [by eapply may_write_more|by apply IH].
Qed.

Lemma writes_invariant held d vs :
  db_invariant d -> writes held d vs -> db_invariant (apply_versions d vs).
Proof.
  revert d. induction vs as [|v vs IH]; intros d Hd; simpl; [done|]. intros [Hv H].
  apply IH; [by eapply may_write_invariant|done].
Qed.

Lemma disjoint_rows h1 h2 d1 d2 v1 v2 :
  may_write h1 d1 v1 -> may_write h2 d2 v2 -> disjoint_locks h1 h2 ->
  version_row v1 <> version_row v2.
Proof.
  intros H1 H2 Hd E. apply (Hd (version_row v1)); [by eapply may_write_locked|].
  rewrite E. by eapply may_write_locked.
Qed.

(** One version of a transaction beside all of another's. *)
Lemma may_write_beside h1 h2 d v1 vs2 :
  db_invariant d -> may_write h1 d v1 -> writes h2 d vs2 -> disjoint_locks h1 h2 ->
  may_write h1 (apply_versions d vs2) v1 /\ writes h2 (apply_version d v1) vs2
  /\ apply_version (apply_versions d vs2) v1 = apply_versions (apply_version d v1) vs2.
Proof.
  intros Hi H1 H2 Hd. revert d Hi H1 H2. induction vs2 as [|v2 vs2 IH]; intros d Hi H1 H2; [done|].
  destruct H2 as [Hv2 H2]. simpl.
  assert (apply_version (apply_version d v1) v2 = apply_version (apply_version d v2) v1) as Hc.
  { apply apply_version_commute. by eapply disjoint_rows. }
  destruct (IH (apply_version d v2)) as (Ha & Hb & Hab).
  { by eapply may_write_invariant. }
  { by eapply may_write_stable. } { done. }
  rewrite !apply_versions_cons, Hc. split_and!; [done| |done|done].
  eapply may_write_stable; [done|exact Hv2|exact H1|by apply disjoint_locks_sym].
Qed.

Lemma writes_stable h1 h2 d vs1 vs2 :
  db_invariant d -> writes h1 d vs1 -> writes h2 d vs2 -> disjoint_locks h1 h2 ->
  writes h1 (apply_versions d vs2) vs1.
Proof.
  intros Hi H1 H2 Hd. revert d Hi H1 H2. induction vs1 as [|v1 vs1 IH]; intros d Hi H1 H2; [done|].
  destruct H1 as [Hv1 H1]. destruct (may_write_beside h1 h2 d v1 vs2) as (Ha & Hb & Hab); [done..|].
  split; [done|]. rewrite Hab. apply IH; [by eapply may_write_invariant|done|done].
Qed.

(** ** Interference *)

(** [s'] after commits of threads other than [i], under locks that [held] excludes. *)
Definition other_commit (i : nat) (held : list lock) (s s' : shared) : Prop :=
  exists j h vs, j <> i /\ disjoint_locks h held /\ writes h (committed s) vs /\ s' = commit_by j vs s.
Definition env (i : nat) (held : list lock) : relation shared := rtc (other_commit i held).

Lemma env_less i held held' s s' :
  (forall l, l ∈ held' -> l ∈ held) -> env i held s s' -> env i held' s s'.
Proof.
  intros Hh H. induction H as [|s1 s2 s3 H12 _ IH]; [constructor|]. eapply rtc_l; [|exact IH].
  destruct H12 as (j & h & vs & Hj & Hd & Hw & ->). exists j, h, vs. split_and!; try done.
  intros l Hl Hl'. apply (Hd l); auto.
Qed.

Lemma env_commits i held s s' e : env i held s s' -> e ∈ commits s -> e ∈ commits s'.
Proof.
  induction 1 as [|s1 s2 s3 H12 _ IH]; [done|]. intros He. apply IH.
  destruct H12 as (j & h & vs & _ & _ & _ & ->). simpl. apply elem_of_app. by left.
Qed.

Lemma env_invariant i held s s' :
  env i held s s' -> db_invariant (committed s) -> db_invariant (committed s').
Proof.
  induction 1 as [|s1 s2 s3 H12 _ IH]; [done|]. intros He. apply IH.
  destruct H12 as (j & h & vs & _ & _ & Hw & ->). by eapply writes_invariant.
Qed.

Lemma env_writes i held s s' vs :
  env i held s s' -> db_invariant (committed s) -> writes held (committed s) vs ->
  writes held (committed s') vs.
Proof.
  induction 1 as [|s1 s2 s3 H12 _ IH]; [done|]. intros Hi Hw. apply IH;
    destruct H12 as (j & h & vs' & _ & Hd & Hw' & ->).
  - by eapply writes_invariant.
  - eapply writes_stable; [done..|]. by apply disjoint_locks_sym.
Qed.

(** What a transaction sees evolves by the writes of others only. *)
Definition other_writes (held : list lock) (d d' : DB) : Prop :=
  exists h vs, disjoint_locks h held /\ db_invariant d /\ writes h d vs /\ d' = apply_versions d vs.
Definition evolves (held : list lock) : relation DB := rtc (other_writes held).

Lemma writes_commute h1 h2 d vs1 vs2 :
  db_invariant d -> writes h1 d vs1 -> writes h2 d vs2 -> disjoint_locks h1 h2 ->
  apply_versions (apply_versions d vs2) vs1 = apply_versions (apply_versions d vs1) vs2.
Proof.
  intros Hi H1 H2 Hd. revert d Hi H1 H2. induction vs1 as [|v1 vs1 IH]; intros d Hi H1 H2; [done|].
  destruct H1 as [Hv1 H1]. destruct (may_write_beside h1 h2 d v1 vs2) as (Ha & Hb & Hab); [done..|].
  rewrite !apply_versions_cons, Hab. apply IH; [by eapply may_write_invariant|done|done].
Qed.

Lemma env_view i held s s' pending :
  env i held s s' -> db_invariant (committed s) -> writes held (committed s) pending ->
  evolves held (apply_versions (committed s) pending) (apply_versions (committed s') pending).
Proof.
  induction 1 as [|s1 s2 s3 H12 H23 IH]; [intros; constructor|]. intros Hi Hw.
  assert (env i held s1 s2) as He by (by apply rtc_once).
  eapply rtc_l; [|apply IH; [by eapply env_invariant|by eapply env_writes]].
  destruct H12 as (j & h & vs & _ & Hd & Hw' & ->). exists h, vs. split_and!; [done| | |].
  - by eapply writes_invariant.
  - eapply writes_stable; done.
  - simpl. eapply writes_commute; [done..|]. by apply disjoint_locks_sym.
Qed.

Lemma evolves_less held held' d d' :
  (forall l, l ∈ held' -> l ∈ held) -> evolves held d d' -> evolves held' d d'.
Proof.
  intros Hh H. induction H as [|d1 d2 d3 H12 _ IH]; [constructor|]. eapply rtc_l; [|exact IH].
  destruct H12 as (h & vs & Hd & Hi & Hw & ->). exists h, vs. split_and!; try done.
  intros l Hl Hl'. apply (Hd l); auto.
Qed.

(** A property that every write of others keeps. *)
Lemma evolves_keeps (I : DB -> Prop) held d d' :
  (forall h d v, disjoint_locks h held -> db_invariant d -> may_write h d v -> I d ->
     I (apply_version d v)) ->
  evolves held d d' -> I d -> I d'.
Proof.
  intros HI H. induction H as [|d1 d2 d3 H12 _ IH]; [done|]. intros Hd. apply IH. clear IH.
  destruct H12 as (h & vs & Hdis & Hi & Hw & ->). revert d1 Hi Hw Hd.
  induction vs as [|v vs IH]; intros d1 Hi Hw Hd; [done|]. destruct Hw as [Hv Hw].
  rewrite apply_versions_cons. apply IH; [by eapply may_write_invariant|done|by eapply HI].
Qed.

(** ** Programs *)

Section Programs.
Context {L : Type}.

Fixpoint wp (i : nat) {A} (p : Prog L A) (held : list lock) (pending : list version) (s : shared)
    (Q : result A -> list lock -> list version -> shared -> Prop) : Prop :=
  forall s', env i held s s' -> db_invariant (committed s') ->
  writes held (committed s') pending ->
  match p with
  | Return a => Q (Ok a) held pending s'
  | Throw e => Q (Raise e) held pending s'
  | Outside m k => forall w r w', m w = (r, w') -> wp i (k r) held pending s' Q
  | Statement locks answer versions k =>
      let d := apply_versions (committed s') pending in
      match answer d with
      | Ok b => writes (locks d ++ held) d (versions d)
                /\ wp i (k (Ok b)) (locks d ++ held) (pending ++ versions d) s' Q
      | Raise e => wp i (k (Raise e)) [] [] s' Q
      end
  | TryLock l k => wp i (k true) (l :: held) pending s' Q /\ wp i (k false) held pending s' Q
  | Commit k => wp i k [] [] (commit_by i pending s') Q
  | Rollback k => wp i k [] [] s' Q
  end.

Lemma wp_env i {A} (p : Prog L A) held pending s s' Q :
  env i held s s' -> wp i p held pending s Q -> wp i p held pending s' Q.
Proof. intros He. destruct p; simpl; intros H s2 He2; apply H; by etrans. Qed.

Lemma wp_mono i {A} (p : Prog L A) held pending s (Q Q' : _ -> _ -> _ -> _ -> Prop) :
  wp i p held pending s Q -> (forall r h vs s', Q r h vs s' -> Q' r h vs s') ->
  wp i p held pending s Q'.
Proof.
  intros H HQ. revert held pending s H.
  induction p as [a|e|T m k IH|T ls an vs k IH|l k IH|k IH|k IH]; intros held pending s H s' He Hi Hw;
    specialize (H s' He Hi Hw).
  - by apply HQ.
  - by apply HQ.
  - intros w r w' Hm. apply IH. by eapply H.
  - simpl in H |- *. destruct (an _); [destruct H|]; auto.
  - destruct H. auto.
  - auto.
  - auto.
Qed.

Lemma wp_afterwards i {A B} (p : Prog L A) (f : result A -> Prog L B) held pending s Q :
  wp i p held pending s (fun r h vs s' => wp i (f r) h vs s' Q) ->
  wp i (afterwards p f) held pending s Q.
Proof.
  revert held pending s.
  induction p as [a|e|T m k IH|T ls an vs k IH|l k IH|k IH|k IH]; intros held pending s H; simpl.
  - simpl in H. destruct (f (Ok a)) eqn:E; simpl; intros s' He Hi Hw; specialize (H s' He Hi Hw);
      simpl in H; by apply H.
  - simpl in H. destruct (f (Raise e)) eqn:E; simpl; intros s' He Hi Hw; specialize (H s' He Hi Hw);
      simpl in H; by apply H.
  - intros s' He Hi Hw w r w' Hm. apply IH. by eapply H.
  - intros s' He Hi Hw. specialize (H s' He Hi Hw). simpl in H.
    destruct (an _); [destruct H|]; auto.
  - intros s' He Hi Hw. destruct (H s' He Hi Hw). auto.
  - intros s' He Hi Hw. apply IH. by apply H.
  - intros s' He Hi Hw. apply IH. by apply H.
Qed.

Lemma wp_bind i {A B} (p : Prog L A) (f : A -> Prog L B) held pending s Q :
  wp i p held pending s (fun r h vs s' =>
    wp i (match r with Ok a => f a | Raise e => Throw e end) h vs s' Q) ->
  wp i (p ≫= f) held pending s Q.
Proof. apply wp_afterwards. Qed.

Lemma wp_outside i {A B} (m : M L A) (f : A -> Prog L B) held pending s
    (Q : _ -> _ -> _ -> _ -> Prop) :
  (forall a s', wp i (f a) held pending s' Q) -> (forall e h vs s', Q (Raise e) h vs s') ->
  wp i (outside m ≫= f) held pending s Q.
Proof.
  intros Ha He s1 _ _ _ w r w' _. destruct r as [a|e]; [apply Ha|]. intros s2 _ _ _. apply He.
Qed.

(** ** Programs that need no postcondition *)

(** Whatever the transaction did so far, the program writes only what it may. *)
Definition fine {A} (p : Prog L A) : Prop :=
  forall i held pending s, wp i p held pending s (fun _ _ _ _ => True).

Lemma fine_wp i {A} (p : Prog L A) held pending s (Q : _ -> _ -> _ -> _ -> Prop) :
  fine p -> (forall r h vs s', Q r h vs s') -> wp i p held pending s Q.
Proof. intros H HQ. eapply wp_mono; [apply H|]. intros. apply HQ. Qed.

Lemma fine_ret {A} (a : A) : fine (mret a).
Proof. done. Qed.
Lemma fine_raise {A} e : fine (raise e : Prog L A).
Proof. done. Qed.
Lemma fine_of_result {A} (r : result A) : fine (of_result r : Prog L A).
Proof. by destruct r. Qed.
Lemma fine_lift {A} (r : result A) : fine (lift r : Prog L A).
Proof. apply fine_of_result. Qed.
Lemma fine_outside {A} (m : M L A) : fine (outside m).
Proof. intros i held pending s s' He Hi Hw w r w' Hm. apply fine_of_result. Qed.

Lemma fine_afterwards {A B} (p : Prog L A) (f : result A -> Prog L B) :
  fine p -> (forall r, fine (f r)) -> fine (afterwards p f).
Proof.
  intros Hp Hf i held pending s. apply wp_afterwards. apply fine_wp; [done|]. intros. apply Hf.
Qed.

Lemma fine_bind {A B} (p : Prog L A) (f : A -> Prog L B) :
  fine p -> (forall a, fine (f a)) -> fine (p ≫= f).
Proof. intros Hp Hf. apply fine_afterwards; [done|]. by intros []. Qed.

Lemma fine_commit {A} (p : Prog L A) : fine p -> fine (Commit p).
Proof. intros H i held pending s s' He Hi Hw. apply H. Qed.
Lemma fine_rollback {A} (p : Prog L A) : fine p -> fine (Rollback p).
Proof. intros H i held pending s s' He Hi Hw. apply H. Qed.
Lemma fine_transaction {A} (p : Prog L A) : fine p -> fine (transaction p).
Proof.
  intros H. apply fine_afterwards; [done|]. intros [a|e]; [by apply fine_commit|by apply fine_rollback].
Qed.
Lemma fine_scope b {A} (p : Prog L A) : fine p -> fine (session_scope b p).
Proof.
  intros H. destruct b; [done|]. apply fine_afterwards; [done|]. intros r.
  apply fine_rollback, fine_of_result.
Qed.
Lemma fine_persist b (p : Prog L unit) : fine p -> fine (persist b p).
Proof. intros H. apply fine_bind; [done|]. intros _. destruct b; [done|by apply fine_commit]. Qed.
Lemma fine_try {A} (p : Prog L A) h :
  fine p -> (forall e q, h e = Some q -> fine q) -> fine (try_except p h).
Proof.
  intros H Hh. apply fine_afterwards; [done|]. intros [a|e]; [done|].
  destruct (h e) eqn:He; [by eapply Hh|done].
Qed.

(** A statement is fine when the protocol lets it write what it writes. *)
Lemma fine_statement {B} locks (answer : DB -> result B) versions :
  (forall d b held, db_invariant d -> answer d = Ok b ->
     (forall l, l ∈ locks d -> l ∈ held) -> writes held d (versions d)) ->
  fine (statement locks answer versions : Prog L B).
Proof.
  intros H i held pending s s' He Hi Hw. simpl.
  destruct (answer _) as [b|e] eqn:Ha; [|done]. split; [|done].
  eapply H; [by eapply writes_invariant|done|]. intros l Hl. apply elem_of_app. by left.
Qed.

Lemma fine_select {A} (get : DB -> gmap Z A) p : fine (exec_select get p : Prog L _).
Proof. by apply fine_statement. Qed.
Lemma fine_get_row {A} (get : DB -> gmap Z A) k : fine (get_row get k : Prog L _).
Proof. by apply fine_statement. Qed.
Lemma fine_refresh {A} (get : DB -> gmap Z A) k : fine (refresh get k : Prog L _).
Proof. by apply fine_statement. Qed.
Lemma fine_one_or_none {A} (rows : list A) : fine (one_or_none rows : Prog L _).
Proof. by destruct rows as [|r [|]]. Qed.

(** ** Programs under an assertion

    [when held0 J p]: [p] is fine where the transaction holds [held0] and sees a database
    with [J], which those locks keep. *)

Definition kept (held0 : list lock) (J : DB -> Prop) : Prop :=
  forall d d', evolves held0 d d' -> J d -> J d'.

Definition when {A} (held0 : list lock) (J : DB -> Prop) (p : Prog L A) : Prop :=
  forall i held pending s, (forall l, l ∈ held0 -> l ∈ held) ->
    db_invariant (committed s) -> writes held (committed s) pending ->
    J (apply_versions (committed s) pending) -> wp i p held pending s (fun _ _ _ _ => True).

Lemma kept_true held0 : kept held0 (fun _ => True).
Proof. done. Qed.

Lemma fine_when {A} held0 J (p : Prog L A) : fine p -> when held0 J p.
Proof. intros H i held pending s _ _ _ _. apply H. Qed.

Lemma kept_view held0 J i held s s' pending :
  kept held0 J -> (forall l, l ∈ held0 -> l ∈ held) -> env i held s s' ->
  db_invariant (committed s) -> writes held (committed s) pending ->
  J (apply_versions (committed s) pending) -> J (apply_versions (committed s') pending).
Proof.
  intros HJ Hh He Hi Hw. apply HJ. apply (evolves_less held); [done|]. by eapply env_view.
Qed.

Lemma when_bind {A B} held0 J (p : Prog L A) (f : A -> Prog L B) :
  when held0 J p -> (forall a, fine (f a)) -> when held0 J (p ≫= f).
Proof.
  intros Hp Hf i held pending s Hh Hi Hw HJ. apply wp_afterwards. eapply wp_mono; [by apply Hp|].
  intros [a|e] h vs s' _; [apply Hf|done].
Qed.

Lemma when_outside {A B} held0 J (m : M L A) (f : A -> Prog L B) :
  kept held0 J -> (forall a, when held0 J (f a)) -> when held0 J (outside m ≫= f).
Proof.
  intros HK Hf i held pending s Hh Hi Hw HJ s' He Hi' Hw' w r w' Hm.
  destruct r as [a|e]; [|done]. simpl. apply Hf; [done..|]. by eapply (kept_view held0 J i held s s').
Qed.

Lemma when_lift {A B} held0 J (r : result A) (f : A -> Prog L B) :
  (forall a, when held0 J (f a)) -> when held0 J (lift r ≫= f).
Proof. intros Hf. destruct r as [a|e]; [apply Hf|by apply fine_when]. Qed.

Lemma when_persist held0 J (p : Prog L unit) : when held0 J p -> when held0 J (persist true p).
Proof. intros H. by apply when_bind. Qed.

(** A statement, and what it lets the rest assume. *)
Lemma when_statement {A B} held0 J locks (answer : DB -> result A) versions (f : A -> Prog L B) :
  kept held0 J ->
  (forall d a held, db_invariant d -> J d -> answer d = Ok a ->
     (forall l, l ∈ held0 -> l ∈ held) -> (forall l, l ∈ locks d -> l ∈ held) ->
     writes held d (versions d)
     /\ exists held1 J1, (forall l, l ∈ held1 -> l ∈ held0 \/ l ∈ locks d)
        /\ J1 (apply_versions d (versions d)) /\ when held1 J1 (f a)) ->
  when held0 J (statement locks answer versions ≫= f).
Proof.
  intros HK H i held pending s Hh Hi Hw HJ s' He Hi' Hw'. simpl.
  assert (J (apply_versions (committed s') pending)) as HJ' by (by eapply (kept_view held0 J i held s s')).
  assert (db_invariant (apply_versions (committed s') pending)) as Hid by (by eapply writes_invariant).
  destruct (answer _) as [a|e] eqn:Ea; [|done].
  destruct (H _ a (locks (apply_versions (committed s') pending) ++ held) Hid HJ' Ea)
    as (Hv & held1 & J1 & Hh1 & HJ1 & Hf).
  { intros l Hl. apply elem_of_app. auto. }
  { intros l Hl. apply elem_of_app. auto. }
  split; [done|]. simpl. apply Hf.
  - intros l Hl. apply elem_of_app. destruct (Hh1 l Hl); auto.
  - done.
  - apply writes_app. split; [|done]. eapply writes_more; [done|]. intros l Hl. apply elem_of_app. auto.
  - by rewrite apply_versions_app.
Qed.

Lemma when_last {A} held0 J locks (answer : DB -> result A) versions :
  kept held0 J ->
  (forall d a held, db_invariant d -> J d -> answer d = Ok a ->
     (forall l, l ∈ held0 -> l ∈ held) -> (forall l, l ∈ locks d -> l ∈ held) ->
     writes held d (versions d)) ->
  when held0 J (statement locks answer versions : Prog L A).
Proof.
  intros HK H i held pending s Hh Hi Hw HJ s' He Hi' Hw'. simpl.
  destruct (answer _) as [a|e] eqn:Ea; [|done]. split; [|done].
  eapply H; [by eapply writes_invariant|by eapply (kept_view held0 J i held s s')|done|..].
  - intros l Hl. apply elem_of_app. auto.
  - intros l Hl. apply elem_of_app. auto.
Qed.

Lemma fine_try_lock {A} l (k : bool -> Prog L A) :
  when [l] (fun _ => True) (k true) -> fine (k false) -> fine (TryLock l k).
Proof.
  intros Ht Hf i held pending s s' He Hi Hw. split; [|apply Hf].
  apply Ht; [|done| |done].
  - intros l' [->|H]%elem_of_cons; [by left|by apply not_elem_of_nil in H].
  - eapply writes_more; [done|]. intros l' Hl. by right.
Qed.

Lemma fine_from_when {A} (p : Prog L A) : when [] (fun _ => True) p -> fine p.
Proof.
  intros H i held pending s.
  assert (forall s', env i held s s' -> db_invariant (committed s') -> writes held (committed s') pending ->
    wp i p held pending s' (fun _ _ _ _ => True)) as Hs.
  { intros s' He Hi Hw. apply H; [|done..]. intros l Hl. by apply not_elem_of_nil in Hl. }
  destruct p; simpl in *; intros s' He Hi Hw; eapply (Hs s' He Hi Hw); done || constructor.
Qed.

(** ** Pools of threads *)

Section Pool.
Context {A : Type} (post : nat -> result A -> shared -> Prop).
Implicit Types (c : config L A) (ts : list (thread L A)).

(** A result that stays right whatever the others do. *)
Definition final (i : nat) (r : result A) (s : shared) : Prop :=
  forall s', env i [] s s' -> db_invariant (committed s') -> post i r s'.

Definition thread_ok (s : shared) (i : nat) (t : thread L A) : Prop :=
  match t with
  | Running p held pending =>
      writes held (committed s) pending /\ wp i p held pending s (fun r _ _ s' => final i r s')
  | Finished r => final i r s
  end.

Record pool_ok c : Prop := PoolOk {
  pool_invariant : db_invariant (committed (cf_shared c));
  pool_threads i t : cf_threads c !! i = Some t -> thread_ok (cf_shared c) i t;
  pool_locks i j t t' :
    cf_threads c !! i = Some t -> cf_threads c !! j = Some t' -> i <> j ->
    disjoint_locks (held_by t) (held_by t');
}.

Lemma thread_ok_env s s' i t :
  db_invariant (committed s) -> env i (held_by t) s s' -> thread_ok s i t -> thread_ok s' i t.
Proof.
  intros Hi He. destruct t as [p held pending|r]; simpl in *.
  - intros [Hw Hp]. split; [by eapply env_writes|by eapply wp_env].
  - intros Hf s2 He2. apply Hf. by etrans.
Qed.

(** What one step does: the shared state stays, or the thread commits what it may. *)
Lemma thread_step_ok i ts s t s' t' :
  db_invariant (committed s) -> thread_ok s i t -> thread_step i ts s t s' t' ->
  thread_ok s' i t'
  /\ (s' = s \/ exists vs, s' = commit_by i vs s /\ writes (held_by t) (committed s) vs)
  /\ (forall l, l ∈ held_by t' -> l ∈ held_by t \/ available i ts l).
Proof.
  intros Hi Ht Hs. destruct Hs; simpl in Ht; destruct Ht as [Hw Hp]; specialize (Hp s (rtc_refl _ _) Hi Hw); simpl in *.
  - split_and!; [done|by left|]. intros l Hl. by apply not_elem_of_nil in Hl.
  - split_and!; [done|by left|]. intros l Hl. by apply not_elem_of_nil in Hl.
  - split_and!; [done|by eapply Hp|by left|by left].
  - subst d. rewrite H1 in Hp. destruct Hp as [Hv Hp]. split_and!; [|done|by left|].
    + apply writes_app. split; [|done]. eapply writes_more; [done|]. intros l Hl.
      apply elem_of_app. by right.
    + intros l [Hl|Hl]%elem_of_app; [|by left]. right. by eapply Forall_forall in Hl.
  - subst d. rewrite H1 in Hp. split_and!; [done|done|by left|].
    intros l Hl. by apply not_elem_of_nil in Hl.
  - split_and!; [|apply Hp|by left|].
    + eapply writes_more; [done|]. intros l' Hl. by right.
    + intros l' [->|Hl]%elem_of_cons; [by right|by left].
  - split_and!; [done|apply Hp|by left|by left].
  - split_and!; [done|done|right; by eexists|]. intros l Hl. by apply not_elem_of_nil in Hl.
  - split_and!; [done|done|by left|]. intros l Hl. by apply not_elem_of_nil in Hl.
Qed.

Lemma step_pool_ok c c' : pool_ok c -> step c c' -> pool_ok c'.
Proof.
  intros [Hi Ht Hl] Hs. destruct Hs as [s ts i t s' t' Hti Hst]. simpl in *.
  destruct (thread_step_ok i ts s t s' t') as (Hok & Hsh & Hnew); [done|by apply Ht|done|].
  assert (db_invariant (committed s')) as Hi'.
  { destruct Hsh as [->|(vs & -> & Hw)]; [done|by eapply writes_invariant]. }
  assert (forall j u, ts !! j = Some u -> j <> i -> disjoint_locks (held_by t') (held_by u)) as Hd.
  { intros j u Hu Hj l H1 H2. destruct (Hnew l H1) as [H|H].
    - by apply (Hl i j t u Hti Hu (not_eq_sym Hj) l).
    - by apply (H j u Hu Hj). }
  split; simpl; [done| |].
  - intros j u. intros [(-> & -> & _)|[Hj Hu]]%list_lookup_insert_Some; [done|].
    apply (thread_ok_env s); [done| |by apply Ht].
    destruct Hsh as [->|(vs & -> & Hw)]; [constructor|]. apply rtc_once.
    exists i, (held_by t), vs. split_and!; [done| |done|done]. by apply (Hl i j).
  - intros j k u u'.
    intros [(-> & -> & _)|[Hj Hu]]%list_lookup_insert_Some
           [(-> & -> & _)|[Hk Hu']]%list_lookup_insert_Some Hjk; [done|..].
    + by apply (Hd k).
    + apply disjoint_locks_sym. by apply (Hd j).
    + by apply (Hl j k).
Qed.

(** Threads that are each proved run together soundly. *)
Lemma pool_sound d (ps : list (Prog L A)) c :
  db_invariant d ->
  (forall i p, ps !! i = Some p -> wp i p [] [] (Shared d []) (fun r _ _ s' => final i r s')) ->
  rtc step (start_all d ps) c -> pool_ok c.
Proof.
  intros Hd Hp Hr. assert (pool_ok (start_all d ps)) as H0.
  { split; simpl; [done| |].
    - intros i t. rewrite list_lookup_fmap. intros (p & Hi & ->)%fmap_Some.
      split; [done|]. by apply Hp.
    - intros i j t t'. rewrite !list_lookup_fmap. intros (p & _ & ->)%fmap_Some _ _ l Hl.
      by apply not_elem_of_nil in Hl. }
  induction Hr as [|c1 c2 c3 H12 _ IH]; [done|]. apply IH. by eapply step_pool_ok.
Qed.

(** What every commit keeps or passes on, every run does. *)
Lemma run_relates (R : relation shared) (HR : PreOrder R) c c' :
  (forall i vs h s, db_invariant (committed s) -> writes h (committed s) vs -> R s (commit_by i vs s)) ->
  pool_ok c -> rtc step c c' -> R (cf_shared c) (cf_shared c').
Proof.
  intros HS Hc Hr. induction Hr as [|c1 c2 c3 H12 _ IH]; [done|].
  etrans; [|apply IH; by eapply step_pool_ok]. destruct Hc as [Hi Ht _].
  destruct H12 as [s ts i t s' t' Hti Hst]. simpl in *.
  destruct (thread_step_ok i ts s t s' t') as (_ & [->|(vs & -> & Hw)] & _);
    [done|by apply Ht|done|done|]. by eapply HS.
Qed.
End Pool.
End Programs.
End Protocol.
