(* ===== verification/ConcurrentProtocol.v ===== *)
(** * What the backend's transactions may do to each other

    The protocol that the programs of Concurrent.v follow: e-mails are entered under the
    key of their unique index, a deletion is recorded under the lock of the user's row, a
    replay under the session's advisory lock, an authorization state is consumed once
    under the lock of its row, and no write takes back a revocation or a deletion. *)

From S2P Require Import Prelude PyStr Errors Time Tables Effects UnitOfWork AuthRepository.
From S2P Require Import AuthUsecase Interleaved Concurrent Interference.

Lemma lookup_put {A} k (r : option A) t j :
  put k r t !! j = if decide (k = j) then r else t !! j.
Proof. apply lookup_partial_alter. Qed.

Lemma lookup_put_ne {A} k (r : option A) t j : k <> j -> put k r t !! j = t !! j.
Proof. intros H. by rewrite lookup_put, decide_False. Qed.

Definition is_replay (a : AuthAuditLog) : bool :=
  bool_decide (a_event_type a = SESSION_REJECTED) && jsonb_has_key "replay_count" (a_detail_json a).
Definition is_marking (a : AuthAuditLog) : bool :=
  bool_decide (a_event_type a = USER_MARKED_DELETED).

Definition replay_lock (session_id : Z) : lock :=
  LAdvisory REJECTED_SESSION_REPLAY_LOCK_CLASS_ID (rejected_session_replay_lock_object_id session_id).

(** The window of replays, in microseconds. *)
Definition replay_window : Z := SESSION_REJECTED_AUDIT_WINDOW_SECONDS * 1000000.

Definition live (u : User) : Prop := u_deleted_at u = None.
Definition revoked (s : AuthSession) : Prop := is_some (s_revoked_at s) = true.
Definition used (o : AuthOidcState) : Prop := is_some (o_consumed_at o) = true.

(** ** The protocol *)

Definition user_write (held : list lock) (d : DB) (k : Z) (u : User) : Prop :=
  u_id u = k /\
  match users d !! k with
  | Some u0 => u_email u = u_email u0 /\ (live u -> live u0)
  | None =>
      LUnique TUsers (lower (u_email u)) ∈ held /\ live u
      /\ forall k' u', users d !! k' = Some u' -> live u' -> lower (u_email u') <> lower (u_email u)
  end.

Definition session_write (d : DB) (k : Z) (s : AuthSession) : Prop :=
  match sessions d !! k with
  | Some s0 => s_session_token_hash s = s_session_token_hash s0 /\ s_user_id s = s_user_id s0
               /\ (revoked s0 -> revoked s)
  | None => True
  end.

Definition state_write (d : DB) (k : Z) (o : AuthOidcState) : Prop :=
  match oidc_states d !! k with
  | Some o0 => o_consumed_at o0 = None /\ exists t, o = set_consumed t o0
  | None => o_consumed_at o = None
  end.

Definition audit_write (held : list lock) (d : DB) (k : Z) (a : AuthAuditLog) : Prop :=
  a_id a = k /\
  match audit_logs d !! k with
  | Some a0 => a_event_type a = a_event_type a0 /\ a_session_id a = a_session_id a0
               /\ a_user_id a = a_user_id a0 /\ a_occurred_at a = a_occurred_at a0
               /\ is_replay a = is_replay a0
  | None =>
      (is_marking a = true -> forall uid, a_user_id a = Some uid ->
         LRow TUsers uid ∈ held
         /\ (exists u, users d !! uid = Some u /\ ~ live u)
         /\ forall k' a', audit_logs d !! k' = Some a' -> is_marking a' = true ->
              a_user_id a' <> Some uid)
      /\ (is_replay a = true -> forall sid, a_session_id a = Some sid ->
         replay_lock sid ∈ held
         /\ forall k' a', audit_logs d !! k' = Some a' -> is_replay a' = true ->
              a_session_id a' = Some sid -> a_occurred_at a' < a_occurred_at a - replay_window)
  end.

Definition backend_may_write (held : list lock) (d : DB) (v : version) : Prop :=
  version_row v ∈ held /\
  match v with
  | VUser k (Some u) => user_write held d k u
  | VSession k (Some s) => session_write d k s
  | VState k (Some o) => o_id o = k /\ state_write d k o
  | VAudit k (Some a) => audit_write held d k a
  | VUser _ None | VSession _ None | VState _ None | VAudit _ None => False
  | VIdentity _ _ | VRole _ _ | VItem _ _ => True
  end.

Record backend_invariant (d : DB) : Prop := {
  inv_users_keyed k u : users d !! k = Some u -> u_id u = k;
  inv_audits_keyed k a : audit_logs d !! k = Some a -> a_id a = k;
  inv_states_keyed k o : oidc_states d !! k = Some o -> o_id o = k;
  inv_emails k1 u1 k2 u2 :
    users d !! k1 = Some u1 -> users d !! k2 = Some u2 -> live u1 -> live u2 ->
    lower (u_email u1) = lower (u_email u2) -> k1 = k2;
  inv_marked k a uid :
    audit_logs d !! k = Some a -> is_marking a = true -> a_user_id a = Some uid ->
    exists u, users d !! uid = Some u /\ ~ live u;
  inv_marked_once k1 a1 k2 a2 uid :
    audit_logs d !! k1 = Some a1 -> audit_logs d !! k2 = Some a2 ->
    is_marking a1 = true -> is_marking a2 = true ->
    a_user_id a1 = Some uid -> a_user_id a2 = Some uid -> k1 = k2;
  inv_replays k1 a1 k2 a2 sid :
    audit_logs d !! k1 = Some a1 -> audit_logs d !! k2 = Some a2 -> k1 <> k2 ->
    is_replay a1 = true -> is_replay a2 = true ->
    a_session_id a1 = Some sid -> a_session_id a2 = Some sid ->
    replay_window < Z.abs (a_occurred_at a1 - a_occurred_at a2);
}.

(** ** It is a protocol *)

Lemma backend_may_write_more held held' d v :
  backend_may_write held d v -> (forall l, l ∈ held -> l ∈ held') -> backend_may_write held' d v.
Proof.
  intros [Hr H] Hh. split; [auto|].
  destruct v as [k [u|]|k [s|]|k r|k [o|]|k [a|]|k r|k r]; try done.
  - unfold user_write in *. destruct (users d !! k); [done|]. naive_solver.
  - unfold audit_write in *. destruct (audit_logs d !! k); [done|].
    destruct H as (Hk & H1 & H2). split; [done|]. split; intros Hm uid Hu.
    + destruct (H1 Hm uid Hu) as (? & ? & ?). auto.
    + destruct (H2 Hm uid Hu) as (? & ?). auto.
Qed.

(** The rows of a user beside a write to another row. *)
Lemma user_write_stable h1 h2 d k u v2 :
  version_row v2 <> LRow TUsers k -> user_write h1 d k u -> backend_may_write h2 d v2 ->
  disjoint_locks h1 h2 -> user_write h1 (apply_version d v2) k u.
Proof.
  intros Hne H1 [_ H2] Hd.
  destruct v2 as [k2 [u2|]|k2 [s|]|k2 r|k2 [o|]|k2 [a|]|k2 r|k2 r]; try done.
  assert (k2 <> k) as Hk by (intros ->; done). unfold user_write in *. simpl.
  rewrite lookup_put_ne by done. destruct (users d !! k) as [u0|]; [done|].
  destruct H1 as (Hid & Hl & Hn & Ho). split_and!; [done..|]. intros k' u'.
  rewrite lookup_put. case_decide as E; [|apply Ho]. intros [= <-] Hu2. subst k'.
  destruct (users d !! k2) as [u0|] eqn:E2.
  - destruct H2 as (_ & -> & Hlive). by eapply Ho; [|apply Hlive].
  - destruct H2 as (_ & Hl2 & _ & _). intros Heq. rewrite Heq in Hl2. by apply (Hd _ Hl).
Qed.

Lemma audit_write_stable h1 h2 d k a v2 :
  version_row v2 <> LRow TAudit k -> audit_write h1 d k a -> backend_may_write h2 d v2 ->
  disjoint_locks h1 h2 -> audit_write h1 (apply_version d v2) k a.
Proof.
  intros Hne H1 [Hr2 H2] Hd. unfold audit_write in *.
  destruct v2 as [k2 [u2|]|k2 [s|]|k2 r|k2 [o|]|k2 [a2|]|k2 r|k2 r]; try done; simpl in *.
  - destruct (audit_logs d !! k) as [a0|]; [done|]. destruct H1 as (Hid & Hm & Hrep).
    split; [done|]. split; [|done].
    intros Hma uid Hu. destruct (Hm Hma uid Hu) as (Hl & (u0 & Hu0 & Hdel) & Ho).
    split_and!; [done| |done]. exists u0. split; [|done].
    rewrite lookup_put_ne; [done|]. intros ->. by apply (Hd _ Hl).
  - rewrite lookup_put_ne by congruence.
    destruct (audit_logs d !! k) as [a0|]; [done|]. destruct H1 as (Hid & Hm & Hrep).
    split; [done|]. split.
    + intros Hma uid Hu. destruct (Hm Hma uid Hu) as (Hl & Hdel & Ho). split_and!; [done..|].
      intros k' a'. rewrite lookup_put. case_decide as E; [|apply Ho]. subst k'. intros [= <-] Hm2 Hu2.
      destruct (audit_logs d !! k2) as [a0|] eqn:E2.
      * destruct H2 as (_ & He & _ & Hus & _). apply (Ho k2 a0); [done| |by rewrite <- Hus].
        unfold is_marking in *. by rewrite <- He.
      * destruct H2 as (_ & H2 & _). destruct (H2 Hm2 uid Hu2) as (Hl2 & _). by apply (Hd _ Hl).
    + intros Hra sid Hs. destruct (Hrep Hra sid Hs) as (Hl & Ho). split; [done|].
      intros k' a'. rewrite lookup_put. case_decide as E; [|apply Ho]. subst k'. intros [= <-] Hr2' Hs2.
      destruct (audit_logs d !! k2) as [a0|] eqn:E2.
      * destruct H2 as (_ & He & Hse & _ & Hoc & Hre). rewrite Hoc.
        apply (Ho k2 a0); [done|by rewrite <- Hre|by rewrite <- Hse].
      * destruct H2 as (_ & _ & H2). destruct (H2 Hr2' sid Hs2) as (Hl2 & _). by destruct (Hd _ Hl).
Qed.

Lemma backend_may_write_stable h1 h2 d v1 v2 :
  backend_invariant d -> backend_may_write h1 d v1 -> backend_may_write h2 d v2 ->
  disjoint_locks h1 h2 -> backend_may_write h1 (apply_version d v2) v1.
Proof.
  intros _ H1 H2 Hd.
  assert (version_row v2 <> version_row v1) as Hne.
  { intros E. apply (Hd (version_row v1)); [apply H1|]. rewrite <- E. apply H2. }
  destruct H1 as [Hr1 H1]. split; [done|].
  destruct v1 as [k [u|]|k [s|]|k r|k [o|]|k [a|]|k r|k r]; try done.
  - by eapply user_write_stable.
  - destruct H2 as [_ H2]. destruct v2; try done. unfold session_write in *. simpl.
    by rewrite lookup_put_ne by (simpl in Hne; congruence).
  - destruct H1 as [Ho H1]. split; [done|]. destruct H2 as [_ H2]. destruct v2; try done.
    unfold state_write in *. simpl. by rewrite lookup_put_ne by (simpl in Hne; congruence).
  - by eapply audit_write_stable.
Qed.

Lemma user_write_invariant held d k u :
  backend_invariant d -> user_write held d k u -> backend_invariant (with_users (put k (Some u)) d).
Proof.
  intros [Iu Ia Is Ie Im Io Ir] H. destruct H as [Hid H].
  assert (forall k' u', users d !! k' = Some u' -> k' <> k -> live u -> live u' ->
            lower (u_email u') <> lower (u_email u)) as Hother.
  { intros k' u' Hk' Hne Hl Hl' Heq. destruct (users d !! k) as [u0|] eqn:E.
    - destruct H as [He Hlive]. apply Hne. rewrite He in Heq. apply (Ie k' u' k u0); auto.
    - destruct H as (_ & _ & H). by eapply H. }
  split; simpl; [|done|done| | |done|done].
  - intros k' u'. rewrite lookup_put. case_decide; [|apply Iu]. by intros [= <-]; subst.
  - intros k1 u1 k2 u2. rewrite !lookup_put. repeat case_decide; subst; [by intros|..].
    + intros [= <-] H2 Hl1 Hl2 Heq. destruct (Hother k2 u2); auto.
    + intros H1 [= <-] Hl1 Hl2 Heq. destruct (Hother k1 u1); auto.
    + apply Ie.
  - intros k' a uid Ha Hm Hu. destruct (Im k' a uid Ha Hm Hu) as (u0 & Hu0 & Hdel).
    rewrite lookup_put. case_decide; [|by exists u0]. subst uid. exists u. split; [done|].
    rewrite Hu0 in H. destruct H as [_ H]. auto.
Qed.

Lemma audit_write_invariant held d k a :
  backend_invariant d -> audit_write held d k a ->
  backend_invariant (with_audit_logs (put k (Some a)) d).
Proof.
  intros [Iu Ia Is Ie Im Io Ir] H. destruct H as [Hid H]. split; simpl; [done| |done|done|..].
  - intros k' a'. rewrite lookup_put. case_decide; [|apply Ia]. by intros [= <-]; subst.
  - intros k' a' uid. rewrite lookup_put. case_decide; [|apply Im]. subst k'. intros [= <-] Hm Hu.
    destruct (audit_logs d !! k) as [a0|] eqn:E.
    + destruct H as (He & _ & Hus & _). apply (Im k a0); [done| |by rewrite <- Hus].
      unfold is_marking in *. by rewrite <- He.
    + destruct H as [H _]. by destruct (H Hm uid Hu) as (_ & ? & _).
  - assert (forall k' a' uid, k' <> k -> audit_logs d !! k' = Some a' -> is_marking a' = true ->
      is_marking a = true -> a_user_id a' = Some uid -> a_user_id a = Some uid -> False) as Hone.
    { intros k' a' uid Hne Hk' Hm' Hm Hu' Hu. destruct (audit_logs d !! k) as [a0|] eqn:E.
      - destruct H as (He & _ & Hus & _). apply Hne. eapply (Io k' a' k a0 uid); try done; [|congruence].
        unfold is_marking in *. by rewrite <- He.
      - destruct H as [H _]. destruct (H Hm uid Hu) as (_ & _ & Ho). by apply (Ho k' a'). }
    intros k1 a1 k2 a2 uid. rewrite !lookup_put. repeat case_decide; subst; [by intros|..].
    + intros [= <-] H2 Hm1 Hm2 Hu1 Hu2. by destruct (Hone k2 a2 uid).
    + intros H1 [= <-] Hm1 Hm2 Hu1 Hu2. by destruct (Hone k1 a1 uid).
    + apply Io.
  - assert (forall k' a' sid, k' <> k -> audit_logs d !! k' = Some a' -> is_replay a' = true ->
      is_replay a = true -> a_session_id a' = Some sid -> a_session_id a = Some sid ->
      replay_window < Z.abs (a_occurred_at a' - a_occurred_at a)) as Hgap.
    { intros k' a' sid Hne Hk' Hm' Hm Hu' Hu. destruct (audit_logs d !! k) as [a0|] eqn:E.
      - destruct H as (He & Hse & _ & Hoc & Hre). rewrite Hoc.
        apply (Ir k' a' k a0 sid); try done; congruence.
      - destruct H as [_ H]. destruct (H Hm sid Hu) as (_ & Ho). specialize (Ho k' a' Hk' Hm' Hu').
        unfold replay_window in *. lia. }
    intros k1 a1 k2 a2 sid. rewrite !lookup_put. repeat case_decide; subst; [by intros|..].
    + intros [= <-] H2 Hne Hm1 Hm2 Hu1 Hu2.
      rewrite <- Z.abs_opp, Z.opp_sub_distr, Z.add_comm. by apply (Hgap k2 a2 sid); auto.
    + intros H1 [= <-] Hne Hm1 Hm2 Hu1 Hu2. by apply (Hgap k1 a1 sid).
    + apply Ir.
Qed.

Lemma backend_may_write_invariant held d v :
  backend_invariant d -> backend_may_write held d v -> backend_invariant (apply_version d v).
Proof.
  intros Hi [_ H].
  destruct v as [k [u|]|k [s|]|k r|k [o|]|k [a|]|k r|k r]; try done;
    [by eapply user_write_invariant| | | |by eapply audit_write_invariant| |];
    destruct Hi; split; try done.
  intros k' o'. simpl. rewrite lookup_put. case_decide; [|auto]. intros [= <-]. subst. by destruct H.
Qed.

#[export] Instance backend_protocol : Protocol := {
  may_write := backend_may_write;
  db_invariant := backend_invariant;
  may_write_locked held d v H := proj1 H;
  may_write_more := backend_may_write_more;
  may_write_stable := backend_may_write_stable;
  may_write_invariant := backend_may_write_invariant;
}.
