(* ===== verification/ConcurrentFine.v ===== *)
(** * Every transaction follows the protocol

    The repository methods and transactions of Concurrent.v write only what
    ConcurrentProtocol.v lets them, whatever runs beside them: [fine], compositional, by
    the tactic [fine]. *)

From S2P Require Import Prelude PyStr Errors Time Tables Effects UnitOfWork Settings.
From S2P Require Import AuthRepository AuthorizationRepository Authorization Interfaces.
From S2P Require Import AuthUsecase OAuthOidcUsecase Interleaved Concurrent Interference.
From S2P Require Import ConcurrentProtocol ConcurrentAlone.

Create HintDb fine.
#[export] Hint Resolve fine_ret fine_raise fine_lift fine_outside fine_of_result fine_select
  fine_get_row fine_refresh fine_one_or_none : fine.

Ltac fine_step :=
  lazymatch goal with
  | |- fine (match ?x with _ => _ end) => destruct x
  | |- fine (session_scope _ _) => apply fine_scope
  | |- fine (persist _ _) => apply fine_persist
  | |- fine (transaction _) => apply fine_transaction
  | |- fine (_ ≫= _) =>
      first [solve [eauto with fine nocore] | apply fine_bind; [|intros ?]]
  | |- fine _ => solve [eauto with fine nocore]
  end.
Ltac fine := repeat (progress cbv beta zeta iota || fine_step).


Section Statements.
Context `{E : Env} {L : Type}.
Notation Prog := (Prog L).
Notation fine p := (@fine backend_protocol L _ p).
Implicit Types (held : list lock) (d : DB).

Lemma fine_update_user k f :
  (forall u, u_id (f u) = u_id u /\ u_email (f u) = u_email u /\ u_deleted_at (f u) = u_deleted_at u) ->
  fine (update_user_row k f).
Proof.
  intros Hf. apply fine_statement. intros d [] held Hd Ha Hl. simpl in Ha |- *.
  destruct (users d !! k) as [u|] eqn:Hu; [|done]. simpl. split; [|done]. split; simpl.
  - apply Hl. by left.
  - destruct (Hf u) as (Hi & He & Hx). split; [rewrite Hi; by eapply inv_users_keyed|].
    rewrite Hu. split; [done|]. unfold live. by rewrite Hx.
Qed.

Lemma fine_update_session k f :
  (forall s, s_session_token_hash (f s) = s_session_token_hash s /\ s_user_id (f s) = s_user_id s
             /\ (revoked s -> revoked (f s))) ->
  fine (update_session_row k f).
Proof.
  intros Hf. apply fine_statement. intros d [] held Hd Ha Hl. simpl in Ha |- *.
  destruct (sessions d !! k) as [s|] eqn:Hs; [|done]. simpl. split; [|done]. split; simpl.
  - apply Hl. by left.
  - unfold session_write. rewrite Hs. apply Hf.
Qed.

Lemma fine_insert_user u : u_deleted_at u = None -> fine (insert_user u).
Proof.
  intros Hn. apply fine_statement. intros d [] held Hd Ha Hl. simpl in Ha |- *.
  destruct (is_none (users d !! u_id u)) eqn:Hk; [|done]. apply is_none_true in Hk.
  destruct (user_row_ok d u) eqn:Hok; [|done]. split; [|done]. split; simpl.
  { apply Hl. by left. }
  split; [done|]. rewrite Hk. split_and!; [apply Hl; right; by left| |].
  - unfold live. simpl. by rewrite Hn.
  - intros k' u' Hu' Hlive. unfold user_row_ok in Hok. rewrite Hn in Hok. simpl in Hok.
    apply andb_true_iff in Hok as [_ Hok]. apply negb_true_iff in Hok. rewrite exists_row_false in Hok.
    specialize (Hok k' u' Hu'). unfold same_active_email in Hok. unfold live in Hlive.
    rewrite Hlive in Hok. simpl in Hok. rewrite andb_true_r in Hok.
    apply andb_false_iff in Hok as [Hok|Hok].
    + apply negb_false_iff, Z.eqb_eq in Hok. rewrite (inv_users_keyed _ Hd _ _ Hu') in Hok. congruence.
    + simpl. by apply String.eqb_neq.
Qed.

Lemma fine_insert_session s : fine (insert_session s).
Proof.
  apply fine_bind; [apply fine_lift|]. intros ip. apply fine_statement.
  intros d [] held Hd Ha Hl. simpl in Ha |- *.
  destruct (is_none (sessions d !! s_id s)) eqn:Hk; [|done]. apply is_none_true in Hk.
  split; [|done]. split; simpl; [apply Hl; by left|]. unfold session_write. by rewrite Hk.
Qed.

Lemma fine_insert_state o : o_consumed_at o = None -> fine (insert_oidc_state o).
Proof.
  intros Hn. apply fine_statement. intros d [] held Hd Ha Hl. simpl in Ha |- *.
  destruct (is_none (oidc_states d !! o_id o)) eqn:Hk; [|done]. apply is_none_true in Hk.
  split; [|done]. split; simpl; [apply Hl; by left|]. split; [done|].
  unfold state_write. rewrite Hk. simpl. by rewrite Hn.
Qed.

(** Neither the record of a deletion nor of a replay. *)
Definition plain_event (e : audit_event) : Prop :=
  ev_event_type e <> USER_MARKED_DELETED
  /\ (ev_event_type e = SESSION_REJECTED -> jsonb_has_key "replay_count" (ev_detail_json e) = false).

Lemma fine_flush_audit id e : plain_event e -> fine (flush_audit id e).
Proof.
  intros [Hm Hr]. apply fine_bind; [destruct (ev_occurred_at e); fine|]. intros t.
  apply fine_bind; [apply fine_lift|]. intros ip. apply fine_statement.
  intros d [] held Hd Ha Hl. simpl in Ha |- *.
  destruct (is_none (audit_logs d !! id)) eqn:Hk; [|done]. apply is_none_true in Hk.
  split; [|done]. split; simpl; [apply Hl; by left|]. split; [done|]. rewrite Hk. split.
  - unfold is_marking. simpl. intros H%bool_decide_eq_true. done.
  - unfold is_replay. simpl. intros [H%bool_decide_eq_true H2]%andb_true_iff. rewrite Hr in H2; done.
Qed.

Lemma fine_create_audit_log b e : plain_event e -> fine (create_audit_log b e).
Proof. intros H. unfold create_audit_log. fine. by apply fine_flush_audit. Qed.

(** The versions of an UPDATE or DELETE with a WHERE clause. *)
Lemma writes_entries {A} (get : DB -> gmap Z A) ver f held l d :
  (forall d k x j, get (apply_version d (ver k x)) !! j = if decide (k = j) then x else get d !! j) ->
  (forall d k r, (k, r) ∈ l -> db_invariant d -> get d !! k = Some r -> may_write held d (ver k (f r))) ->
  NoDup l.*1 -> db_invariant d -> (forall k r, (k, r) ∈ l -> get d !! k = Some r) ->
  writes held d (map (fun kr => ver kr.1 (f kr.2)) l).
Proof.
  intros Hget Hmay. revert d. induction l as [|[k r] l IH]; intros d Hn Hd Hr; [done|].
  apply NoDup_cons in Hn as [Hk Hn].
  assert (may_write held d (ver k (f r))) as Hv by (apply Hmay; [by left|done|apply Hr; by left]).
  split; [done|]. apply IH; [|done|by eapply may_write_invariant|].
  - intros d' k' r' Hin. apply Hmay. by right.
  - intros k' r' Hin. simpl. rewrite Hget, decide_False; [apply Hr; by right|]. intros ->.
    apply Hk. apply list_elem_of_fmap. by exists (k', r').
Qed.

Lemma exec_where_writes {A} t (get : DB -> gmap Z A) ver (freed : A -> list string) p f held d :
  (forall d k x j, get (apply_version d (ver k x)) !! j = if decide (k = j) then x else get d !! j) ->
  (forall held d k r, db_invariant d -> get d !! k = Some r -> p r = true -> LRow t k ∈ held ->
     may_write held d (ver k (f r))) ->
  db_invariant d ->
  (forall l, l ∈ flat_map (fun kr => LRow t kr.1 :: map (LUnique t) (freed kr.2))
                   (entries_where p (get d)) -> l ∈ held) ->
  writes held d (map (fun kr => ver kr.1 (f kr.2)) (entries_where p (get d))).
Proof.
  intros Hget Hmay Hd Hl.
  apply (writes_entries get); [done| |apply NoDup_entries_where|done|].
  - intros d' k r Hin Hd' Hr. pose proof Hin as [_ Hp]%entries_where_spec. apply Hmay; [done..|].
    apply Hl, list_elem_of_In, in_flat_map. exists (k, r). split; [by apply list_elem_of_In|by left].
  - intros k r Hin. by apply entries_where_spec in Hin as [? _].
Qed.

Lemma fine_exec_where {A} t (get : DB -> gmap Z A) ver freed p f :
  (forall d k x j, get (apply_version d (ver k x)) !! j = if decide (k = j) then x else get d !! j) ->
  (forall held d k r, db_invariant d -> get d !! k = Some r -> p r = true -> LRow t k ∈ held ->
     may_write held d (ver k (f r))) ->
  fine (exec_where t get ver freed p f).
Proof. intros Hget Hmay. apply fine_statement. intros d n held Hd _. by apply exec_where_writes. Qed.

Lemma fine_create_user b email h lang : fine (create_user b email h lang).
Proof.
  unfold create_user. fine. apply fine_try; [fine; by apply fine_insert_user|].
  intros [] q; try done. intros [= <-]. destruct b; [fine|]. apply fine_bind; [by apply fine_rollback|].
  intros ?. fine.
Qed.

Lemma fine_update_user_language b uid lang t : fine (update_user_language b uid lang t).
Proof. unfold update_user_language. fine. by apply fine_update_user. Qed.
Lemma fine_find_user_by_id b uid : fine (find_user_by_id_for_authentication b uid).
Proof. unfold find_user_by_id_for_authentication. fine. Qed.
Lemma fine_record_user_login b uid t : fine (record_user_login b uid t).
Proof. unfold record_user_login. fine. by apply fine_update_user. Qed.
Lemma fine_create_session b uid h1 h2 t1 t2 t3 ip ua :
  fine (create_session b uid h1 h2 t1 t2 t3 ip ua).
Proof. unfold create_session. fine. apply fine_insert_session. Qed.
Lemma fine_find_active_session b h : fine (find_active_session_by_token_hash b h).
Proof. unfold find_active_session_by_token_hash. fine. Qed.
Lemma fine_find_session b h : fine (find_session_by_token_hash b h).
Proof. unfold find_session_by_token_hash. fine. Qed.
Lemma fine_update_session_csrf b sid h : fine (update_session_csrf_token_hash b sid h).
Proof. unfold update_session_csrf_token_hash. fine. by apply fine_update_session. Qed.
Lemma fine_revoke_session b sid : fine (revoke_session b sid).
Proof. unfold revoke_session. fine. by apply fine_update_session. Qed.
Lemma fine_touch_session b sid t1 t2 : fine (touch_session b sid t1 t2).
Proof. unfold touch_session. fine. by apply fine_update_session. Qed.
Lemma fine_record_oidc_reauth b sid t : fine (record_oidc_reauth b sid t).
Proof. unfold record_oidc_reauth. fine. by apply fine_update_session. Qed.

Lemma fine_revoke_sessions_for_user b uid t : fine (revoke_sessions_for_user b uid t).
Proof.
  unfold revoke_sessions_for_user. fine. apply fine_exec_where.
  - intros. apply lookup_put.
  - intros held d k s Hd Hs _ Hl. split; [done|]. simpl. unfold session_write. by rewrite Hs.
Qed.
Lemma fine_create_state b o : o_consumed_at o = None -> fine (create_oidc_authorization_state b o).
Proof. intros H. unfold create_oidc_authorization_state. fine. by apply fine_insert_state. Qed.
Lemma fine_get_user_role_codes b uid : fine (get_user_role_codes b uid).
Proof. unfold get_user_role_codes. fine. Qed.
Lemma fine_delete_roles b uid : fine (delete_roles_for_user b uid).
Proof.
  unfold delete_roles_for_user. fine. apply fine_exec_where; [|by split].
  intros. apply lookup_put.
Qed.
Lemma fine_delete_identities b uid : fine (delete_auth_identities_for_user b uid).
Proof.
  unfold delete_auth_identities_for_user. fine. apply fine_exec_where; [|by split].
  intros. apply lookup_put.
Qed.
Lemma fine_delete_items b uid : fine (delete_all_for_owner b uid).
Proof.
  unfold delete_all_for_owner. fine. apply fine_exec_where; [|by split].
  intros. apply lookup_put.
Qed.
End Statements.

#[export] Hint Resolve fine_create_user fine_update_user_language fine_find_user_by_id
  fine_record_user_login fine_create_session fine_find_active_session fine_find_session
  fine_update_session_csrf fine_revoke_session fine_touch_session fine_record_oidc_reauth
  fine_revoke_sessions_for_user fine_get_user_role_codes fine_delete_roles fine_delete_identities
  fine_delete_items : fine.

(** ** Deletion marks and replays *)

Section Marks.
Context `{E : Env} {L : Type}.
Notation Prog := (Prog L).
Notation fine p := (@fine backend_protocol L _ p).

(** The account is deleted, and nobody has recorded it yet. *)
Definition unrecorded (uid : Z) (d : DB) : Prop :=
  (exists u, users d !! uid = Some u /\ ~ live u)
  /\ forall k a, audit_logs d !! k = Some a -> is_marking a = true -> a_user_id a <> Some uid.

Lemma kept_unrecorded uid : kept [LRow TUsers uid] (unrecorded uid).
Proof.
  intros d d' He. apply (evolves_keeps _ [LRow TUsers uid]); [|done]. clear d d' He.
  intros h d v Hdis Hi [Hr H] [(u & Hu & Hdel) Hno].
  assert (version_row v <> LRow TUsers uid) as Hne.
  { intros Heq. apply (Hdis (version_row v) Hr). rewrite Heq. by left. }
  destruct v as [k [u'|]|k [s|]|k r|k [o|]|k [a|]|k r|k r]; try done; simpl in *; split; try done.
  - exists u. split; [|done]. simpl. rewrite lookup_put_ne; [done|]. intros ->. done.
  - by exists u.
  - by exists u.
  - by exists u.
  - by exists u.
  - intros k' a'. simpl. rewrite lookup_put. case_decide; [|apply Hno]. subst k'.
    intros [= <-] Hm Hus. destruct H as [_ H]. destruct (audit_logs d !! k) as [a0|] eqn:E0.
    + destruct H as (Hev & _ & Hu0 & _). apply (Hno k a0); [done| |congruence].
      unfold is_marking in *. by rewrite <- Hev.
    + destruct H as [H _]. destruct (H Hm uid Hus) as (Hl & _). apply (Hdis _ Hl). by left.
  - by exists u.
  - by exists u.
Qed.

Lemma select_entries {A} (p : A -> bool) (t : gmap Z A) r :
  r ∈ select p t -> exists k, (k, r) ∈ entries_where p t.
Proof. intros [Hp [k Hk]]%elem_of_select. exists k. by apply entries_where_spec. Qed.

Lemma fine_mark_user_deleted uid t sid ip : fine (mark_user_deleted true uid t sid ip).
Proof.
  apply fine_from_when. unfold mark_user_deleted, session_scope, exec_where.
  apply when_statement; [apply kept_true|]. intros d n held Hd _ [= <-] _ Hl. split.
  { apply (exec_where_writes TUsers users VUser (fun u => [lower (u_email u)])
             _ (fun u => Some (set_user_modified (stored t) (set_deleted (stored t) u)))); [|..]; try done.
    - intros. apply lookup_put.
    - intros held' d' k u Hd' Hu [_ Hp]%andb_true_iff Hin. split; [done|]. split; simpl.
      + by eapply inv_users_keyed.
      + rewrite Hu. split; [done|]. intros H. done. }
  destruct (row_count _ (users d) =? 0) eqn:En.
  { exists [], (fun _ => True). split_and!; [by left|done|]. apply fine_when. fine. }
  apply Z.eqb_neq in En. rewrite row_count_zero in En.
  destruct (select _ (users d)) as [|u rows] eqn:Es; [done|].
  destruct (select_entries (fun u => id_is uid u && is_none (u_deleted_at u)) (users d) u) as [k Hk].
  { rewrite Es. by left. }
  pose proof Hk as [Hu [Hid Hn]%andb_true_iff]%entries_where_spec.
  apply Z.eqb_eq in Hid. pose proof (inv_users_keyed _ Hd _ _ Hu) as Hkey. rewrite Hid in Hkey. subst k.
  exists [LRow TUsers uid], (unrecorded uid). split_and!.
  - intros l Hin. right. apply list_elem_of_singleton in Hin as ->.
    apply list_elem_of_In, in_flat_map. exists (uid, u). split; [by apply list_elem_of_In|by left].
  - refine (eq_ind_r (unrecorded uid) _ (apply_put_all users VUser with_users
      (fun u => Some (set_user_modified (stored t) (set_deleted (stored t) u))) _ d changes_users)).
    split; simpl.
    + rewrite put_all_entries, Hu. unfold id_is. rewrite Hid, Z.eqb_refl, Hn. by eexists.
    + intros k a Ha Hm Hus. destruct (inv_marked _ Hd k a uid Ha Hm Hus) as (u' & Hu' & Hdel).
      apply Hdel. unfold live. apply is_none_true. congruence.
  - apply when_outside; [apply kept_unrecorded|]. intros id. apply when_bind; [|intros []; fine].
    apply when_persist. unfold flush_audit. simpl. apply when_lift. intros ip'.
    apply when_last; [apply kept_unrecorded|]. clear. intros d [] held Hd [Hdel Hno] Ha Hh Hl.
    simpl in Ha |- *. destruct (is_none (audit_logs d !! id)) eqn:Hk; [|done].
    apply is_none_true in Hk. split; [|done]. split; simpl; [apply Hl; by left|]. split; [done|].
    rewrite Hk. split; [|done]. intros _ uid' [= <-]. split_and!; [apply Hh; by left|done..].
Qed.

(** No replay of the session since [start]. *)
Definition no_replay_since (sid start : Z) (d : DB) : Prop :=
  forall k a, audit_logs d !! k = Some a -> is_replay a = true -> a_session_id a = Some sid ->
    a_occurred_at a < start.

Lemma kept_no_replay sid start : kept [replay_lock sid] (no_replay_since sid start).
Proof.
  intros d d' He. apply (evolves_keeps _ [replay_lock sid]); [|done]. clear d d' He.
  intros h d v Hdis Hi [Hr H] Hno.
  destruct v as [k [u'|]|k [s|]|k r|k [o|]|k [a|]|k r|k r]; try done; simpl in *.
  intros k' a'. simpl. rewrite lookup_put. case_decide; [|apply Hno]. subst k'.
  intros [= <-] Hm Hs. destruct H as [_ H]. destruct (audit_logs d !! k) as [a0|] eqn:E0.
  - destruct H as (_ & Hse & _ & Hoc & Hre). rewrite Hoc. apply (Hno k a0); congruence.
  - destruct H as [_ H]. destruct (H Hm sid Hs) as (Hl & _). destruct (Hdis _ Hl). by left.
Qed.

(** The row of a replay stays one. *)
Definition replay_row (k : Z) (d : DB) : Prop :=
  exists a, audit_logs d !! k = Some a /\ is_replay a = true.

Lemma kept_replay_row k : kept [] (replay_row k).
Proof.
  intros d d' He. apply (evolves_keeps _ []); [|done]. clear d d' He.
  intros h d v Hdis Hi [Hr H] (a0 & Ha0 & Hre).
  destruct v as [k' [u'|]|k' [s|]|k' r|k' [o|]|k' [a|]|k' r|k' r]; try done; simpl in *; try by exists a0.
  unfold replay_row. simpl. rewrite lookup_put. case_decide; [|by exists a0]. subst k'. exists a.
  split; [done|]. destruct H as [_ H]. rewrite Ha0 in H. destruct H as (_ & _ & _ & _ & H). congruence.
Qed.

Lemma replay_detail_has_key detail ip ua t n :
  jsonb_has_key "replay_count" (Some (JObj (replay_detail_json detail ip ua t n))) = true.
Proof.
  unfold replay_detail_json, jsonb_has_key.
  destruct (match ip with Some _ => _ | None => _ end) as [distinct recent].
  rewrite !json_get_set. done.
Qed.

Lemma stored_window t : stored (t - SESSION_REJECTED_AUDIT_WINDOW_SECONDS * 1000000) = stored t - replay_window.
Proof.
  unfold replay_window, SESSION_REJECTED_AUDIT_WINDOW_SECONDS.
  replace (t - 300 * 1000000) with (t + - 300000 * millisecond) by (unfold millisecond; lia).
  rewrite stored_add. unfold millisecond. lia.
Qed.

Lemma order_by_desc_nil {A} (f g : A -> Z) l : order_by_desc f g l = [] -> l = [].
Proof.
  unfold order_by_desc. intros H. apply Permutation_nil_r. rewrite <- H. symmetry.
  apply merge_sort_Permutation.
Qed.

Lemma order_by_desc_in {A} (f g : A -> Z) l x l' : order_by_desc f g l = x :: l' -> x ∈ l.
Proof.
  unfold order_by_desc. intros H.
  rewrite <- (merge_sort_Permutation (lex_le (fun x => - f x) (fun x => - g x)) l), H. by left.
Qed.

Lemma fine_record_replay s ip ua t :
  fine (record_rejected_session_replay true s ip ua t SESSION_REJECTED_AUDIT_WINDOW_SECONDS).
Proof.
  unfold record_rejected_session_replay, session_scope. apply fine_try_lock; [|apply fine_ret].
  change (LAdvisory _ _) with (replay_lock (s_id s)). simpl negb. cbv iota zeta.
  apply when_statement; [apply kept_true|]. intros d rows held Hd _ [= <-] Hh _. split; [done|].
  destruct (order_by_desc _ _ _) as [|a rows'] eqn:Eo.
  - apply order_by_desc_nil in Eo. rewrite select_nil in Eo.
    exists [replay_lock (s_id s)], (no_replay_since (s_id s) (stored t - replay_window)).
    split_and!; [by left| |].
    + intros k a Ha Hre Hs. specialize (Eo k a Ha). apply andb_true_iff in Hre as [He Hk].
      rewrite Hk, He, Hs, bool_decide_true in Eo by done. simpl in Eo.
      rewrite andb_true_r in Eo. apply Z.leb_gt in Eo. by rewrite stored_window in Eo.
    + apply when_outside; [apply kept_no_replay|]. intros id. apply when_persist.
      unfold flush_audit. simpl. apply when_lift. intros ip'.
      apply when_last; [apply kept_no_replay|]. clear. intros d [] held Hd Hno Ha Hh Hl.
      simpl in Ha |- *. destruct (is_none (audit_logs d !! id)) eqn:Hk; [|done].
      apply is_none_true in Hk. split; [|done]. split; simpl; [apply Hl; by left|]. split; [done|].
      rewrite Hk. split; [done|]. intros _ sid [= <-]. split; [apply Hh; by left|].
      intros k' a' Ha' Hre Hs. simpl. by apply (Hno k' a').
  - apply order_by_desc_in in Eo. apply elem_of_select in Eo as [Hp [k Ha]].
    pose proof (inv_audits_keyed _ Hd _ _ Ha) as Hk. subst k.
    exists [], (replay_row (a_id a)). split_and!; [intros l Hl; by apply not_elem_of_nil in Hl| |].
    + exists a. split; [done|]. apply andb_true_iff in Hp as [Hp Hk].
      apply andb_true_iff in Hp as [Hp _]. apply andb_true_iff in Hp as [_ He].
      unfold is_replay. by rewrite He, Hk.
    + apply when_lift. intros detail. apply when_persist. apply when_last; [apply kept_replay_row|].
      clear. intros d [] held Hd (a0 & Ha0 & Hre) Hok Hh Hl. simpl in Hok |- *.
      rewrite Ha0 in Hok |- *. split; [|done]. split; simpl; [apply Hl; by left|].
      split; [exact (inv_audits_keyed _ Hd _ _ Ha0)|]. rewrite Ha0. split_and!; [done..|].
      rewrite Hre. unfold is_replay in *. apply andb_true_iff in Hre as [He _]. simpl.
      rewrite He. simpl. apply (replay_detail_has_key detail).
Qed.
End Marks.

#[export] Hint Resolve fine_mark_user_deleted fine_record_replay : fine.

(** ** The transactions and requests *)

Section Requests.
Context `{E : Env} {L : Type} `{R : LoginRateLimiter L} (auth_settings : AuthSettings).
Notation fine p := (@fine backend_protocol L _ p).

Lemma plain_event_event uid sid ev ip ua :
  ev <> USER_MARKED_DELETED -> plain_event (event uid sid ev ip ua).
Proof. by split. Qed.
Hint Extern 1 (Interference.fine (create_audit_log _ _)) =>
  apply fine_create_audit_log; by split : fine.

Lemma fine_revoke_current tok : fine (revoke_current tok).
Proof. unfold revoke_current. fine. Qed.
Hint Resolve fine_revoke_current : fine.
Lemma fine_replace_auth_session u tok ip ua : fine (replace_auth_session auth_settings u tok ip ua).
Proof. unfold replace_auth_session. fine. Qed.
Hint Resolve fine_replace_auth_session : fine.
Lemma fine_audit_known_rejected h ip ua : fine (audit_known_rejected_session h ip ua).
Proof. unfold audit_known_rejected_session. fine. Qed.
Lemma fine_authorization uid : fine (authorization_for_existing_user uid).
Proof. unfold authorization_for_existing_user. fine. Qed.
Lemma fine_reject_session s uid ip ua : fine (reject_session s SESSION_REJECTED uid ip ua).
Proof. unfold reject_session. fine. Qed.
Lemma fine_reject_user_sessions s ev uid ip ua :
  ev <> USER_MARKED_DELETED -> ev <> SESSION_REJECTED -> fine (reject_user_sessions s ev uid ip ua).
Proof. intros H1 H2. unfold reject_user_sessions. fine. Qed.
Lemma fine_refresh_session s : fine (refresh_session auth_settings s).
Proof. unfold refresh_session. fine. Qed.
Hint Resolve fine_audit_known_rejected fine_authorization fine_reject_session fine_refresh_session
  : fine.

Lemma fine_authenticate tok ip ua : fine (authenticate_session auth_settings tok ip ua).
Proof. unfold authenticate_session, authenticate_body. fine; by apply fine_reject_user_sessions. Qed.
Hint Resolve fine_authenticate : fine.
Hint Extern 1 (Interference.fine (create_oidc_authorization_state _ _)) =>
  by apply fine_create_state : fine.

Lemma fine_start state_of : fine (start_body state_of).
Proof. unfold start_body. fine. Qed.
Lemma fine_reauth sid t uid pid p ip ua :
  fine (reauth_body sid t (oidc_event OIDC_REAUTH_SUCCESS uid sid pid p ip ua)).
Proof. unfold reauth_body. fine. Qed.
Lemma fine_delete_account uid sid t ip : fine (delete_account_body uid sid t ip).
Proof. unfold delete_account_body. fine. Qed.
Lemma fine_register em pw lang tok ip ua :
  fine (register_body auth_settings em pw lang tok ip ua).
Proof. unfold register_body. fine. Qed.
Lemma fine_login uid tok ip ua : fine (login_body auth_settings uid tok ip ua).
Proof. unfold login_body. fine. Qed.
Lemma fine_update_language uid lang : fine (update_language_body uid lang).
Proof. unfold update_language_body. fine. Qed.
Lemma fine_logout tok ip ua : fine (logout tok ip ua).
Proof. unfold logout, logout_body. fine. Qed.
Lemma fine_issue_csrf tok : fine (issue_csrf_token tok).
Proof. unfold issue_csrf_token. fine. Qed.
End Requests.

#[export] Hint Resolve fine_authenticate fine_start fine_reauth fine_delete_account fine_register
  fine_login fine_update_language fine_logout fine_issue_csrf : fine.
