(* ===== verification/ConcurrentSpec.v ===== *)
(** * Requests that run at the same time

    What holds of every interleaving of the statements of any number of requests:
    callbacks, logins, registrations, authentications, logouts, deletions. *)

From Stdlib Require Import FunctionalExtensionality.
From S2P Require Import Prelude PyStr Errors Time Tables Effects UnitOfWork Settings.
From S2P Require Import AuthRepository AuthorizationRepository Authorization Interfaces.
From S2P Require Import RateLimiter AuthUsecase OAuthOidcUsecase Runs Integrity Demo Interleaved.
From S2P Require Import Concurrent.
From S2P Require Import ConcurrentAlone Interference ConcurrentProtocol ConcurrentFine.

Section Consumption.
Context `{E : Env} {L : Type}.

(** Thread [i] has committed the consumption of a state, which it got back. *)
Definition consumed_by (i : nat) (o : AuthOidcState) (s : shared) : Prop :=
  exists vs, (i, vs) ∈ commits s /\ VState (o_id o) (Some o) ∈ vs /\ used o.

Lemma consumed_by_env i held o s s' : env i held s s' -> consumed_by i o s -> consumed_by i o s'.
Proof. intros He (vs & Hin & H). exists vs. split; [by eapply env_commits|done]. Qed.

Lemma kept_state k o : kept [LRow TStates k] (fun d => oidc_states d !! k = Some o).
Proof.
  intros d d' He. apply (evolves_keeps (fun d => oidc_states d !! k = Some o) [LRow TStates k]); [|done]. clear d d' He.
  intros h d v Hdis Hi [Hr H] Ho.
  assert (version_row v <> LRow TStates k) as Hne.
  { intros Heq. apply (Hdis (version_row v) Hr). rewrite Heq. by left. }
  destruct v as [k' [u'|]|k' [s|]|k' r|k' r|k' [a|]|k' r|k' r]; try done; simpl in *.
  rewrite lookup_put_ne; [done|congruence].
Qed.

Definition consume_post (i : nat) (r : result AuthOidcStateConsumeResult) (s : shared) : Prop :=
  forall res, r = Ok res -> cr_status res = consumed ->
    exists o, cr_state res = Some o /\ consumed_by i o s.

Lemma wp_not_consumed i (r : result AuthOidcStateConsumeResult) held pending s :
  (forall res, r = Ok res -> cr_status res <> consumed) ->
  wp i (match r with
        | Ok a => Commit (Return a)
        | Raise e => Rollback (Throw e)
        end : Prog L _) held pending s (fun r _ _ s' => consume_post i r s').
Proof. intros H. destruct r as [a|e]; intros s1 _ _ _ s2 _ _ _ res [= <-] Hr. by destruct (H a eq_refl). Qed.

Lemma wp_refused i res held pending s :
  cr_status res <> consumed ->
  wp i (mret res : Prog L _) held pending s (fun r h vs s' =>
    wp i (match r with
          | Ok a => Commit (Return a)
          | Raise e => Rollback (Throw e)
          end : Prog L _) h vs s' (fun r _ _ s' => consume_post i r s')).
Proof. intros H s1 _ _ _. apply (wp_not_consumed i (Ok res)). by intros ? [= <-]. Qed.

(** After the SELECT ... FOR UPDATE that returned [o]. *)
Lemma wp_consume_row i t o h pending s :
  LRow TStates (o_id o) ∈ h ->
  db_invariant (committed s) -> writes h (committed s) pending ->
  oidc_states (apply_versions (committed s) pending) !! o_id o = Some o ->
  o_consumed_at o = None ->
  wp i (persist true (update_oidc_state_row (o_id o) (set_consumed (stored t))) ≫= fun _ =>
        refresh oidc_states (o_id o) ≫= fun state =>
        mret (ConsumeResult consumed (Some state)) : Prog L _) h pending s
    (fun r h vs s' =>
       wp i (match r with
             | Ok a => Commit (Return a)
             | Raise e => Rollback (Throw e)
             end : Prog L _) h vs s' (fun r _ _ s' => consume_post i r s')).
Proof.
  intros Hl Hi Hw Ho Hn s1 He1 Hi1 Hw1. simpl.
  assert (oidc_states (apply_versions (committed s1) pending) !! o_id o = Some o) as Ho1.
  { apply (kept_view [LRow TStates (o_id o)] (fun d => oidc_states d !! o_id o = Some o) i h s s1);
      [apply kept_state| |done..]. intros l ->%list_elem_of_singleton. done. }
  rewrite Ho1. destruct (oidc_state_row_ok _ _); [|by intros s2 _ _ _ s3 _ _ _ s4 _ _ _ res].
  split.
  { split; [|done]. split; simpl; [by left|]. split; [done|]. unfold state_write. rewrite Ho1.
    split; [done|]. by exists (stored t). }
  intros s2 _ _ _. simpl. rewrite apply_versions_app, apply_versions_cons. simpl.
  rewrite lookup_put, decide_True by done. split; [done|].
  intros s3 _ _ _ s4 _ _ _ s5 He5 _ _ res [= <-] _. exists (set_consumed (stored t) o).
  split; [done|]. eapply consumed_by_env; [exact He5|]. eexists. split; [|split].
  - simpl. apply elem_of_app. right. by apply list_elem_of_singleton.
  - rewrite app_nil_r. apply elem_of_app. right. by left.
  - done.
Qed.

Lemma wp_consume i sh bh t s :
  wp i (transaction (consume_oidc_authorization_state (L:=L) true sh bh t)) [] [] s
    (fun r _ _ s' => consume_post i r s').
Proof.
  unfold consume_oidc_authorization_state, session_scope, transaction.
  apply wp_afterwards, wp_afterwards. intros s1 He1 Hi1 _. cbv zeta.
  set (d1 := apply_versions (committed s1) []). split; [done|].
  intros s2 He2 Hi2 _. cbn [app].
  destruct (select _ (oidc_states d1)) as [|o [|]] eqn:Es.
  - by apply wp_refused.
  - match goal with |- wp _ _ ?h ?pe ?s' ?Q => change (wp i (
      if is_some (o_consumed_at o) then mret (ConsumeResult already_consumed (Some o))
      else if o_expires_at o <=? t then mret (ConsumeResult expired (Some o))
      else if negb (o_browser_binding_hash o =? bh)%string then
        mret (ConsumeResult browser_binding_mismatch (Some o))
      else persist true (update_oidc_state_row (o_id o) (set_consumed (stored t))) ≫= fun _ =>
           refresh oidc_states (o_id o) ≫= fun state =>
           mret (ConsumeResult consumed (Some state)) : Prog L _) h pe s' Q) end.
    destruct (is_some (o_consumed_at o)) eqn:Ec; [by apply wp_refused|].
    destruct (o_expires_at o <=? t); [by apply wp_refused|].
    destruct (negb _); [by apply wp_refused|].
    destruct (select_entries (fun o => (o_state_hash o =? sh)%string) (oidc_states d1) o) as [k Hk].
    { rewrite Es. by left. }
    pose proof Hk as [Ho _]%entries_where_spec. pose proof (inv_states_keyed _ Hi1 _ _ Ho). subst k.
    assert (LRow TStates (o_id o) ∈ map (fun kr : Z * AuthOidcState => LRow TStates kr.1)
      (entries_where (fun o => (o_state_hash o =? sh)%string) (oidc_states d1)) ++ []) as Hl.
    { apply elem_of_app. left. apply list_elem_of_In, in_map_iff. exists (o_id o, o).
      split; [done|]. by apply list_elem_of_In. }
    apply wp_consume_row; [done|done|done| |by destruct (o_consumed_at o)].
    change (oidc_states (committed s2) !! o_id o = Some o).
    eapply (kept_view [LRow TStates (o_id o)] (fun d => oidc_states d !! o_id o = Some o) i _ s1 s2 []);
      [apply kept_state| |exact He2|done|done|exact Ho].
    by intros l ->%list_elem_of_singleton.
  - intros s3 _ _ _. by apply (wp_not_consumed i (Raise MultipleResultsFound)).
Qed.
End Consumption.

(** ** Pools of requests *)

Section Requests.
Context `{E : Env} {L : Type} `{R : LoginRateLimiter L} (auth_settings : AuthSettings).
Notation serve := (serve (L:=L) auth_settings).
Implicit Types (d : DB) (c : config L reply).

(** A callback that went on has consumed the state it goes on with. *)
Definition served (i : nat) (r : result reply) (s : shared) : Prop :=
  forall o, r = Ok (RCallback o) -> consumed_by i o s.

Lemma final_served i r s :
  (forall o, r = Ok (RCallback o) -> consumed_by i o s) -> final served i r s.
Proof. intros H s' He _ o Hr. eapply consumed_by_env; [exact He|]. by apply H. Qed.

Lemma wp_reply {A} i (p : Prog L A) (g : A -> reply) s :
  fine p -> (forall a o, g a <> RCallback o) ->
  wp i (p ≫= fun a => mret (g a)) [] [] s (fun r _ _ s' => final served i r s').
Proof.
  intros Hp Hg. apply wp_afterwards. apply fine_wp; [done|]. intros [a|e] h vs s1 s2 _ _ _;
    apply final_served; intros o [=]. by destruct (Hg a o).
Qed.

Lemma wp_callback i provider state cookie s :
  wp i (serve (Callback provider state cookie)) [] [] s (fun r _ _ s' => final served i r s').
Proof.
  unfold Concurrent.serve. apply wp_bind. unfold consume_callback_state.
  destruct cookie as [cookie|]; [|intros s1 _ _ _ s2 _ _ _; by apply final_served].
  apply wp_outside; [|intros e h vs s1 s2 _ _ _; by apply final_served].
  intros t s1. apply wp_bind.
  eapply wp_mono; [apply wp_consume|].
  intros [res|e] h vs s3 Hpost; [|by intros s4 _ _ _ s5 _ _ _; apply final_served].
  destruct (cr_status res) eqn:Hs; try by (intros s4 _ _ _ s5 _ _ _; apply final_served).
  destruct (Hpost res eq_refl Hs) as (o & -> & Hc).
  destruct (_ =? _)%string; intros s4 He4 _ _ s5 He5 _ _; apply final_served; [|done].
  intros o' [= <-]. eapply consumed_by_env; [exact He5|]. by eapply consumed_by_env.
Qed.

(** ** What commits keep *)

(** The versions of a transaction never take back a deletion, a revocation, or the use
    of an authorization state. *)
Definition keeps (d d' : DB) : Prop :=
  (forall k u, users d !! k = Some u -> ~ live u -> exists u', users d' !! k = Some u' /\ ~ live u')
  /\ (forall k s, sessions d !! k = Some s -> revoked s ->
        exists s', sessions d' !! k = Some s' /\ revoked s'
                   /\ s_session_token_hash s' = s_session_token_hash s)
  /\ (forall k o, oidc_states d !! k = Some o -> used o ->
        exists o', oidc_states d' !! k = Some o' /\ used o').

#[export] Instance keeps_preorder : PreOrder keeps.
Proof.
  split.
  - intros d. split_and!; [intros k u Hu Hl; by exists u|intros k s Hs Hr; by exists s|
      intros k o Ho Hus; by exists o].
  - intros d1 d2 d3 (A1 & A2 & A3) (B1 & B2 & B3). split_and!.
    + intros k u Hu Hl. destruct (A1 k u Hu Hl) as (u' & Hu' & Hl'). eauto.
    + intros k s Hs Hr. destruct (A2 k s Hs Hr) as (s' & Hs' & Hr' & <-). eauto.
    + intros k o Ho Hus. destruct (A3 k o Ho Hus) as (o' & Ho' & Hus'). eauto.
Qed.

Lemma keeps_version held d v : may_write held d v -> keeps d (apply_version d v).
Proof.
  intros [_ H]. destruct v as [k [u|]|k [s|]|k r|k [o|]|k [a|]|k r|k r]; try done;
    split_and!; simpl; intros j x Hx Hp; try rewrite lookup_put; try case_decide; eauto; subst j.
  - exists u. split; [done|]. destruct H as [_ H]. rewrite Hx in H. destruct H as [_ H]. auto.
  - exists s. unfold session_write in H. rewrite Hx in H. destruct H as (-> & _ & H). auto.
  - unfold state_write in H. rewrite Hx in H. destruct H as (_ & H & _). unfold used in Hp.
    by rewrite H in Hp.
Qed.

Lemma keeps_writes held d vs : writes held d vs -> keeps d (apply_versions d vs).
Proof.
  revert d. induction vs as [|v vs IH]; intros d; [done|]. intros [Hv H]. rewrite apply_versions_cons.
  etrans; [by eapply keeps_version|by apply IH].
Qed.

(** What a transaction writes of a used state: before, the state was not used. *)
Lemma writes_use held d vs k o :
  writes held d vs -> VState k (Some o) ∈ vs -> used o ->
  (forall o0, oidc_states d !! k = Some o0 -> ~ used o0)
  /\ exists o', oidc_states (apply_versions d vs) !! k = Some o' /\ used o'.
Proof.
  revert d. induction vs as [|v vs IH]; intros d Hw Hin Hus; [by apply not_elem_of_nil in Hin|].
  destruct Hw as [Hv Hw]. rewrite apply_versions_cons. apply elem_of_cons in Hin as [<-|Hin].
  - destruct Hv as [_ [_ H]]. split.
    + intros o0 Ho. unfold state_write in H. rewrite Ho in H. destruct H as [H _].
      unfold used. by rewrite H.
    + destruct (keeps_writes _ _ _ Hw) as (_ & _ & Hk). apply (Hk k o); [|done]. simpl.
      by rewrite lookup_put, decide_True.
  - destruct (IH (apply_version d v) Hw Hin Hus) as [Hno Hex]. split; [|done].
    intros o0 Ho Hu0. destruct (keeps_version _ _ _ Hv) as (_ & _ & Hk).
    destruct (Hk k o0 Ho Hu0) as (o' & Ho' & Hu'). by apply (Hno o').
Qed.

Definition uses (k : Z) (vs : list version) : Prop := exists o, VState k (Some o) ∈ vs /\ used o.

(** One transaction at most has used a state, and its row says so. *)
Definition used_once (s : shared) : Prop :=
  (forall n1 n2 e1 e2 k, commits s !! n1 = Some e1 -> commits s !! n2 = Some e2 ->
     uses k e1.2 -> uses k e2.2 -> n1 = n2)
  /\ (forall n e k, commits s !! n = Some e -> uses k e.2 ->
        exists o, oidc_states (committed s) !! k = Some o /\ used o).

Lemma used_once_commit i vs held s :
  writes held (committed s) vs -> used_once s -> used_once (commit_by i vs s).
Proof.
  intros Hw [H1 H2].
  assert (forall n e k, commits s !! n = Some e -> uses k e.2 -> uses k vs -> False) as Hx.
  { intros n e k Hn Hu (o & Hin & Hus). destruct (H2 n e k Hn Hu) as (o' & Ho' & Hu').
    by apply (proj1 (writes_use _ _ _ _ _ Hw Hin Hus) o'). }
  split; simpl.
  - intros n1 n2 e1 e2 k [Hn1|(Hl1 & Hn1)]%lookup_app_Some [Hn2|(Hl2 & Hn2)]%lookup_app_Some Hu1 Hu2.
    + by eapply H1.
    + apply list_lookup_singleton_Some in Hn2 as [_ <-]. by destruct (Hx n1 e1 k).
    + apply list_lookup_singleton_Some in Hn1 as [_ <-]. by destruct (Hx n2 e2 k).
    + apply list_lookup_singleton_Some in Hn1 as [? _], Hn2 as [? _]. lia.
  - intros n e k [Hn|(Hl & Hn)]%lookup_app_Some Hu.
    + destruct (H2 n e k Hn Hu) as (o & Ho & Hus).
      destruct (keeps_writes _ _ _ Hw) as (_ & _ & Hk). by apply (Hk k o).
    + apply list_lookup_singleton_Some in Hn as [_ <-]. destruct Hu as (o & Hin & Hus).
      by eapply writes_use.
Qed.

Lemma serve_ok i r s : wp i (serve r) [] [] s (fun r _ _ s' => final served i r s').
Proof.
  destruct r; [apply wp_callback|..]; unfold Concurrent.serve; apply wp_reply; try done;
    fine; by eauto with fine.
Qed.

Lemma requests_sound d rs c :
  backend_invariant d -> rtc step (start_all d (serve <$> rs)) c -> pool_ok served c.
Proof.
  intros Hd. apply pool_sound; [done|]. intros i p. rewrite list_lookup_fmap.
  intros (r & _ & ->)%fmap_Some. apply serve_ok.
Qed.

Lemma runs_keep d rs c c' :
  backend_invariant d -> rtc step (start_all d (serve <$> rs)) c -> rtc step c c' ->
  keeps (committed (cf_shared c)) (committed (cf_shared c')).
Proof.
  intros Hd Hr Hr'. apply (run_relates served (fun s s' => keeps (committed s) (committed s')));
    [by split; [intros ?|intros ???; apply transitivity]| |by eapply requests_sound|done].
  intros i vs h s _ Hw. by apply (keeps_writes h).
Qed.

Lemma runs_use_once d rs c :
  backend_invariant d -> rtc step (start_all d (serve <$> rs)) c -> used_once (cf_shared c).
Proof.
  intros Hd Hr.
  assert (PreOrder (fun s s' => used_once s -> used_once s')) as HP.
  { split; [by intros s|intros s1 s2 s3; auto]. }
  apply (run_relates served _ HP (start_all d (serve <$> rs)) c).
  - intros i vs h s _ Hw. by apply (used_once_commit i vs h).
  - apply (requests_sound d rs); [done|constructor].
  - done.
  - by split.
Qed.

(** C5. An authorization state serves one callback: of any number of callbacks
    that run at the same time, beside any other requests and interleaved statement by
    statement, no two go on with the same state. *)
Theorem callbacks_consume_once d rs c i j o o' :
  backend_invariant d -> rtc step (start_all d (serve <$> rs)) c -> i <> j ->
  result_of c i = Some (Ok (RCallback o)) -> result_of c j = Some (Ok (RCallback o')) ->
  o_id o <> o_id o'.
Proof.
  intros Hd Hr Hij Hi Hj Hid.
  pose proof (requests_sound d rs c Hd Hr) as [Hinv Hth _].
  destruct (runs_use_once d rs c Hd Hr) as [H1 _].
  unfold result_of in Hi, Hj. destruct (cf_threads c !! i) as [[|ri]|] eqn:Ei; try done.
  destruct (cf_threads c !! j) as [[|rj]|] eqn:Ej; try done. simplify_eq.
  destruct (Hth i _ Ei (cf_shared c) (rtc_refl _ _) Hinv o eq_refl) as (vs & Hin & Hv & Hu).
  destruct (Hth j _ Ej (cf_shared c) (rtc_refl _ _) Hinv o' eq_refl) as (vs' & Hin' & Hv' & Hu').
  apply list_elem_of_lookup_1 in Hin as [n Hn], Hin' as [n' Hn'].
  assert (n = n') as ->.
  { eapply (H1 n n' _ _ (o_id o)); [done|done|by exists o|exists o'; by rewrite Hid]. }
  rewrite Hn in Hn'. by injection Hn' as ? ?.
Qed.

(** C6. Requests that run at the same time leave the database in order: two live
    accounts never have the same e-mail, a deletion is recorded once and only of a deleted
    account, and the replays of one session are recorded more than a window apart. *)
Theorem interleaving_keeps_order d rs c :
  backend_invariant d -> rtc step (start_all d (serve <$> rs)) c ->
  backend_invariant (committed (cf_shared c)).
Proof. intros Hd Hr. apply (requests_sound d rs c Hd Hr). Qed.

(** C7. A session that is revoked, an account that is deleted and an authorization
    state that is used stay so while requests run at the same time, although each of
    them reads a row before it writes it. *)
Theorem interleaving_keeps_ends d rs c c' :
  backend_invariant d -> rtc step (start_all d (serve <$> rs)) c -> rtc step c c' ->
  keeps (committed (cf_shared c)) (committed (cf_shared c')).
Proof. apply runs_keep. Qed.

(** C23. Refinement of the sequential model: a request that runs alone, statement by
    statement, ends with the result and the database of the use case. *)
Theorem alone_is_sequential r (w w' : World L) res :
  (forall n, env_try_lock n = true) -> idle w ->
  serve_alone auth_settings r w = (res, w') ->
  exists log, rtc step (start_all (w_committed w) [serve r])
                (Config (Shared (w_committed w') log) [Finished res]).
Proof.
  intros Hl Hw Hr. destruct (serve_alone_ok auth_settings Hl r reply of_result w [] Hw)
    as (_ & log & Hst). rewrite Hr in Hst. simpl in Hst. exists log.
  assert (forall p : Prog L reply, afterwards p of_result = p) as Hid.
  { intros p. induction p as [a|e|T m k IH|T ls an vs k IH|l k IH|k IH|k IH]; simpl; try done;
      f_equal; try done; apply functional_extensionality; intros x; apply IH. }
  rewrite Hid in Hst. eapply rtc_r; [exact Hst|]. apply step_alone.
  destruct res; constructor.
Qed.
End Requests.

(** ** Two requests in turns *)

Lemma backend_invariant_start d : db_ok d -> audit_logs d = ∅ -> backend_invariant d.
Proof.
  intros Hd Ha. split; rewrite ?Ha; try done.
  - apply (ok_users_keyed _ Hd).
  - apply (ok_states_keyed _ Hd).
  - intros k1 u1 k2 u2 H1 H2 L1 L2 He. pose proof (ok_users_unique _ Hd k1 u1 k2 u2 H1 H2) as Hc.
    unfold email_conflict, same_active_email, live in *. rewrite L1, L2, He, String.eqb_refl in Hc.
    simpl in Hc. rewrite !andb_true_r in Hc. apply negb_false_iff, Z.eqb_eq in Hc.
    rewrite <- (ok_users_keyed _ Hd _ _ H1), <- (ok_users_keyed _ Hd _ _ H2). congruence.
Qed.

Notation demo_limit := (InMemory.limiter * nat)%type.
Definition in_turns (d : DB) (order : list nat) (rs : list request) : config demo_limit reply :=
  schedule order (start_all d (serve default_auth_settings <$> rs)) (world_of d).

Lemma in_turns_run d order rs : rtc step (start_all d (serve default_auth_settings <$> rs)) (in_turns d order rs).
Proof. apply schedule_runs. Qed.

Definition turns (n threads : nat) : list nat := concat (repeat (seq 0 threads) n).

Definition both_callbacks : list request :=
  [Callback demo_provider "st" (Some "bind"%string); Callback demo_provider "re" (Some "bind"%string)].
Definition two_callbacks : config demo_limit reply := in_turns demo_states_db (turns 6 2) both_callbacks.

Lemma demo_states_in_order : backend_invariant demo_states_db.
Proof. apply backend_invariant_start; [apply demo_states_db_ok|done]. Qed.
Lemma demo_in_order : backend_invariant demo_db.
Proof. apply backend_invariant_start; [apply demo_db_ok|done]. Qed.

Lemma callbacks_consume_once_witness :
  exists o o', result_of two_callbacks 0 = Some (Ok (RCallback o))
    /\ result_of two_callbacks 1 = Some (Ok (RCallback o')) /\ o_id o <> o_id o'.
Proof.
  eexists _, _. split; [vm_compute; reflexivity|]. split; [vm_compute; reflexivity|].
  apply (callbacks_consume_once default_auth_settings demo_states_db both_callbacks two_callbacks 0 1);
    [apply demo_states_in_order|apply in_turns_run|done|vm_compute; reflexivity..].
Defined.

(** Two callbacks for the same state, the second of which waits for the lock: one goes
    on, the other is refused. *)
Example second_callback_refused :
  let c := in_turns demo_states_db (turns 10 2)
    [Callback demo_provider "st" (Some "bind"%string); Callback demo_provider "st" (Some "bind"%string)] in
  (exists o, result_of c 0 = Some (Ok (RCallback o)))
  /\ result_of c 1 = Some (Raise (OidcError OidcStateMismatchError)).
Proof. split; [eexists|]; vm_compute; reflexivity. Qed.

(** Two requests to delete the same account and a login in turns. *)
Definition deletions : list request :=
  [DeleteAccount 1 10 1786000000000000 None; DeleteAccount 1 10 1786000000000000 None;
   Login 1 None None None].
Definition two_deletions : config demo_limit reply := in_turns demo_db (turns 30 3) deletions.

Lemma two_deletions_run :
  rtc step (start_all demo_db (serve default_auth_settings <$> deletions)) two_deletions.
Proof. apply in_turns_run. Qed.

(** All three were answered, the deletion was recorded once, and the account's e-mail is
    free. *)
Lemma interleaving_keeps_order_witness :
  (map is_some (map (result_of two_deletions) [0; 1; 2]%nat) = [true; true; true]
   /\ length (select (fun a => bool_decide (a_event_type a = USER_MARKED_DELETED))
                (audit_logs (committed (cf_shared two_deletions)))) = 1%nat)
  /\ backend_invariant (committed (cf_shared two_deletions)).
Proof.
  split; [split; vm_compute; reflexivity|].
  exact (interleaving_keeps_order default_auth_settings demo_db deletions two_deletions
           demo_in_order two_deletions_run).
Defined.

(** The deletions revoke a session that was open when they began, and it stays revoked
    while the login goes on. *)
Definition halfway : config demo_limit reply := in_turns demo_db (turns 25 2) deletions.
Definition afterwards_login : config demo_limit reply :=
  schedule (turns 30 3) halfway (world_of demo_db).

Lemma halfway_run : rtc step (start_all demo_db (serve default_auth_settings <$> deletions)) halfway.
Proof. apply in_turns_run. Qed.
Lemma afterwards_login_run : rtc step halfway afterwards_login.
Proof. apply schedule_runs. Qed.

Lemma interleaving_keeps_ends_witness :
  exists s s', sessions (committed (cf_shared halfway)) !! 10 = Some s /\ revoked s
    /\ result_of afterwards_login 2 = Some (Raise (UserNotFoundError 1))
    /\ sessions (committed (cf_shared afterwards_login)) !! 10 = Some s' /\ revoked s'.
Proof.
  eexists.
  destruct (interleaving_keeps_ends default_auth_settings demo_db deletions halfway
              afterwards_login demo_in_order halfway_run afterwards_login_run)
    as (_ & Hs & _).
  destruct (Hs 10 _ ltac:(vm_compute; reflexivity) ltac:(vm_compute; reflexivity))
    as (s' & Hs' & Hr & _).
  exists s'. split; [vm_compute; reflexivity|]. split; [vm_compute; reflexivity|].
  split; [vm_compute; reflexivity|]. exact (conj Hs' Hr).
Defined.

(** A login alone. *)
Lemma alone_is_sequential_witness :
  let out := serve_alone default_auth_settings (Login 1 None None None) (world_of demo_db) in
  (exists user session, out.1 = Ok (RIssued user session "token0" "token1") /\ u_id user = 1)
  /\ exists log, rtc step
       (start_all demo_db [serve default_auth_settings (Login 1 None None None) : Prog demo_limit reply])
       (Config (Shared (w_committed out.2) log) [Finished out.1]).
Proof.
  cbv zeta. split; [eexists _, _; vm_compute; split; reflexivity|].
  apply (alone_is_sequential default_auth_settings (Login 1 None None None) (world_of demo_db));
    [done|by vm_compute|apply surjective_pairing].
Defined.
