(* ===== verification/AuthController.v ===== *)
(** * The authentication endpoints

    Models src/backend/app/controllers/auth_controller.py: cookies, redirects of the
    OpenID Connect flows, and the handlers, each from its dependencies to the response
    it returns or the HTTP error it raises.  Request bodies are the values Pydantic
    accepted; logging is left out. *)

From S2P Require Import Prelude PyStr Errors Time Url UrlQuery Settings Tables Effects Interfaces.
From S2P Require Import Http ErrorHandlers AuthUsecase Guards AccountDeletionUsecase.
From S2P Require Import OAuthOidcUsecase.

(** ** Cookies *)

(* src: backend/app/controllers/auth_controller.py:87-93 is_secure_request *)
Definition is_secure_request (auth_settings : AuthSettings) : bool :=
  default true (AUTH_COOKIE_SECURE auth_settings).

(* src: backend/app/controllers/auth_controller.py:96-110 set_session_cookie *)
Definition set_session_cookie (auth_settings : AuthSettings) (session_token : string) (secure : bool)
    (max_age_seconds : Z) (response : Response) : result Response :=
  set_auth_cookie (session_cookie_name auth_settings) session_token true secure max_age_seconds response.

(* src: backend/app/controllers/auth_controller.py:113-126 set_csrf_cookie *)
Definition set_csrf_cookie (csrf_token : string) (secure : bool) (max_age_seconds : Z)
    (response : Response) : result Response :=
  set_auth_cookie csrf_cookie_name csrf_token false secure max_age_seconds response.

(* src: backend/app/controllers/auth_controller.py:129-139 clear_session_cookie *)
Definition clear_session_cookie (auth_settings : AuthSettings) (secure : bool) (response : Response)
  : result Response := clear_auth_cookie (session_cookie_name auth_settings) true secure response.

(* src: backend/app/controllers/auth_controller.py:142-148 clear_csrf_cookie *)
Definition clear_csrf_cookie (secure : bool) (response : Response) : result Response :=
  clear_auth_cookie csrf_cookie_name false secure response.

(* src: backend/app/controllers/auth_controller.py:151-152 oidc_binding_cookie_name_for_state *)
Definition oidc_binding_cookie_name_for_state `{Env} (state : string) : string :=
  ("oidc_binding_" ++ take_str 16 (hash_token state))%string.

(* src: backend/app/controllers/auth_controller.py:155-169 set_oidc_binding_cookie *)
Definition set_oidc_binding_cookie (key value : string) (secure : bool) (max_age_seconds : Z)
    (response : Response) : result Response :=
  set_auth_cookie key value true secure max_age_seconds response.

(* src: backend/app/controllers/auth_controller.py:172-178 clear_oidc_binding_cookie *)
Definition clear_oidc_binding_cookie (key : string) (secure : bool) (response : Response)
  : result Response := clear_auth_cookie key true secure response.

(** ** Redirects *)

(** A dict of texts, in insertion order. *)
Notation text_dict := (list (string * string)).
Fixpoint dict_set (k v : string) (d : text_dict) : text_dict :=
  match d with
  | [] => [(k, v)]
  | (k', v') :: d' => if decide (k' = k) then (k, v) :: d' else (k', v') :: dict_set k v d'
  end.
Definition dict_pop (k : string) (d : text_dict) : text_dict := filter (fun p => p.1 <> k) d.
Definition dict_of (items : list (string * string)) : text_dict :=
  fold_left (fun d p => dict_set p.1 p.2 d) items [].

(** [for key, value in updates.items(): ...] *)
Definition update_query (query_items : text_dict) (updates : list (string * option string))
  : text_dict :=
  fold_left (fun d u => match u.2 with None => dict_pop u.1 d | Some v => dict_set u.1 v d end)
    updates query_items.

Section Redirects.
Context (is_ipv6 : string -> bool) (utf8_decode : list ascii -> list ascii).

(* src: backend/app/controllers/auth_controller.py:181-196 merge_redirect_query *)
Definition merge_redirect_query (redirect_path : string) (updates : list (string * option string))
  : result string :=
  parsed ← urlparse is_ipv6 redirect_path;
  let query_items := dict_of (parse_qsl utf8_decode (query parsed)) in
  Ok (urlunparse_local (if truthy (path parsed) then path parsed else "/")
        (urlencode (update_query query_items updates)) (fragment parsed)).

(* src: backend/app/controllers/auth_controller.py:236-239 unwrap_oidc_error *)
Definition unwrap_oidc_error (error : exn) : exn :=
  match error with OidcCallbackFlowError e _ _ => e | e => e end.

(** [OIDC_KNOWN_ERRORS] lists every OIDC exception but [OidcCallbackFlowError]. *)
(* src: backend/app/controllers/auth_controller.py:199-218 OIDC_KNOWN_ERRORS *)
Definition is_known_oidc_error (error : exn) : bool :=
  match unwrap_oidc_error error with OidcError _ => true | _ => false end.

(* src: backend/app/controllers/auth_controller.py:246-270 oidc_error_code_for_exception *)
Definition oidc_error_code_for_exception (error : exn) : string :=
  match unwrap_oidc_error error with
  | OidcError OidcProviderNotConfiguredError => "OIDC_PROVIDER_NOT_CONFIGURED"
  | OidcError OidcAuthorizationRateLimitedError => "OIDC_AUTHORIZATION_RATE_LIMITED"
  | OidcError OidcStateMismatchError => "OIDC_STATE_MISMATCH"
  | OidcError OidcBrowserBindingMismatchError => "OIDC_BROWSER_BINDING_MISMATCH"
  | OidcError OidcTokenExchangeError => "OIDC_TOKEN_EXCHANGE_FAILED"
  | OidcError OidcProviderAccessDeniedError => "OIDC_PROVIDER_ACCESS_DENIED"
  | OidcError OidcClaimsValidationError => "OIDC_CLAIMS_VALIDATION_FAILED"
  | OidcError OidcEmailNotVerifiedError => "OIDC_EMAIL_NOT_VERIFIED"
  | OidcError OidcProvisioningDisabledError => "OIDC_PROVISIONING_DISABLED"
  | OidcError OidcIdentityLinkRequiredError => "OIDC_IDENTITY_LINK_REQUIRED"
  | OidcError OidcIdentityLinkDisabledError => "OIDC_IDENTITY_LINK_DISABLED"
  | OidcError OidcIdentityUnavailableError => "OIDC_IDENTITY_UNAVAILABLE"
  | OidcError OidcReauthAuthenticationRequiredError => "OIDC_REAUTH_AUTHENTICATION_REQUIRED"
  | OidcError OidcReauthSubjectMismatchError => "OIDC_REAUTH_SUBJECT_MISMATCH"
  | OidcError OidcReauthAuthTimeRequiredError => "OIDC_REAUTH_AUTH_TIME_REQUIRED"
  | OidcError OidcReauthStaleError => "OIDC_REAUTH_STALE"
  | OidcError OidcProviderUnavailableError => "OIDC_PROVIDER_UNAVAILABLE"
  | OidcError OidcProviderMetadataError => "OIDC_PROVIDER_METADATA_INVALID"
  | _ => "OIDC_UNEXPECTED_ERROR"
  end.

Definition failure_updates (error : exn) : list (string * option string) :=
  [("oidc_error", Some (oidc_error_code_for_exception error)); ("oidc_reauth", None)]%string.

(* src: backend/app/controllers/auth_controller.py:225-233 oidc_start_failure_redirect *)
Definition oidc_start_failure_redirect (redirect_path : string) (error : exn) : result Response :=
  target ← merge_redirect_query redirect_path (failure_updates error);
  Ok (oidc_redirect target).

(* src: backend/app/controllers/auth_controller.py:282-313 oidc_callback_failure_redirect *)
Definition oidc_callback_failure_redirect (error : exn) (binding_cookie_name : option string)
    (secure : bool) : result Response :=
  let '(purpose, redirect_path) :=
    match error with
    | OidcCallbackFlowError _ purpose redirect_path => (purpose, redirect_path)
    | _ => (PurposeLogin, "/app"%string)
    end in
  target ← merge_redirect_query
             (if is_reauth purpose then redirect_path else "/login") (failure_updates error);
  let response := oidc_redirect target in
  match binding_cookie_name with
  | Some name => clear_oidc_binding_cookie name secure response
  | None => Ok response
  end.
End Redirects.

(** ** Bodies of responses *)

(* src: backend/app/models/language.py:8-9 is_supported_language_code *)
Definition is_supported_language_code (value : string) : bool :=
  existsb (String.eqb value) ["en"; "ja"]%string.
(* src: backend/app/models/language.py:5-5 DEFAULT_LANGUAGE_CODE *)
Definition DEFAULT_LANGUAGE_CODE : string := "ja".

Section Bodies.
Context {V : Pydantic}.

(** The model validates what it is made of: an [EmailStr] and a [LanguageCode]. *)
(* src: backend/app/models/auth_schemas.py:42-47 AuthUserResponse *)
Definition AuthUserResponse (id : Z) (email language_code : string) (roles permissions : list string)
  : result json :=
  match email_of_text email with
  | None => Raise (ValueError "validation error for AuthUserResponse")
  | Some email =>
      if is_supported_language_code language_code then
        Ok (JObj [("id", JStr (uuid_str id)); ("email", JStr email);
                  ("language_code", JStr language_code); ("roles", JArr (map JStr roles));
                  ("permissions", JArr (map JStr permissions))]%string)
      else Raise (ValueError "validation error for AuthUserResponse")
  end.

(* src: backend/app/controllers/auth_controller.py:802-810 _auth_user_response *)
Definition auth_user_response (user : User) (roles permissions : gset string) : result json :=
  AuthUserResponse (u_id user) (u_email user) (u_language_code user) (sorted (elements roles))
    (sorted (elements permissions)).
Definition context_response (c : AuthenticatedSessionContext) : result json :=
  auth_user_response (ctx_user c) (ctx_roles c) (ctx_permissions c).
Definition issued_response (i : IssuedAuthSession) : result json :=
  auth_user_response (is_user i) (is_roles i) (is_permissions i).
End Bodies.

Definition csrf_token_response (token : string) : json := JObj [("csrf_token"%string, JStr token)].

(** ** Handlers *)

Section AuthController.
Context `{E : Env} {L : Type} `{R : LoginRateLimiter L} `{P : OidcProviderClient L} {V : Pydantic}.
Context (auth_settings : AuthSettings) (oidc_settings : OidcSettings).
Context (is_ipv6 : string -> bool) (utf8_decode : list ascii -> list ascii).

Notation secure := (is_secure_request auth_settings).
Notation session_max_age := (AUTH_SESSION_ABSOLUTE_TTL_SECONDS auth_settings).
Notation start_failure := (oidc_start_failure_redirect is_ipv6 utf8_decode).
Notation callback_failure := (oidc_callback_failure_redirect is_ipv6 utf8_decode).
Notation merge := (merge_redirect_query is_ipv6 utf8_decode).

Definition no_store (r : Response) : Response := set_header "Cache-Control" "no-store" r.

(** Both cookies of an issued session. *)
Definition set_session_cookies (session_token csrf_token : string) (r : Response) : result Response :=
  r ← set_session_cookie auth_settings session_token secure session_max_age r;
  set_csrf_cookie csrf_token secure session_max_age r.
Definition clear_session_cookies (r : Response) : result Response :=
  r ← clear_session_cookie auth_settings secure r;
  clear_csrf_cookie secure r.

(** [try: result = ...; except Exception as error: return handler(error)] *)
Definition catching {A} (call : M L A) (handler : exn -> result Response)
    (continue : A -> Web L Response) : Web L Response := fun w =>
  match call w with
  | (Ok a, w') => continue a w'
  | (Raise e, w') => pure_web (handler e) w'
  end.

(* src: backend/app/controllers/auth_controller.py:316-327 list_oidc_providers *)
Definition list_oidc_providers : Response :=
  with_body (JObj [("data"%string, JArr (map (fun provider =>
      JObj [("provider_id", JStr (provider_id provider));
            ("display_name", JStr (display_name provider))]%string) (providers oidc_settings)))])
    (no_store empty_response).

Definition start_redirect (result : OidcAuthorizationStartResult) : Web L Response :=
  pure_web (set_oidc_binding_cookie (sr_browser_binding_cookie_name result)
    (sr_browser_binding_cookie_value result) secure (sr_browser_binding_cookie_max_age result)
    (oidc_redirect (sr_authorization_url result))).

(* src: backend/app/controllers/auth_controller.py:330-365 start_oidc_login *)
Definition start_oidc_login (pid : string) (redirect language_code_param : option string)
    (request : Request) : Web L Response :=
  let language_code :=
    (fun code => if is_supported_language_code code then code else DEFAULT_LANGUAGE_CODE)
      <$> language_code_param in
  catching
    (ip_address ← lift (get_client_ip auth_settings request);
     start_authorization oidc_settings is_ipv6 pid redirect PurposeLogin None ip_address language_code)
    (start_failure "/login") start_redirect.

(* src: backend/app/controllers/auth_controller.py:368-409 start_oidc_reauth *)
Definition start_oidc_reauth (pid : string) (redirect : option string) (request : Request)
  : Web L Response :=
  auth_context ← awaiting (with_client auth_settings request
                   (authenticate_session auth_settings (session_cookie auth_settings request)));
  match auth_context with
  | None => pure_web (start_failure "/login" (OidcError OidcReauthAuthenticationRequiredError))
  | Some _ =>
      catching
        (ip_address ← lift (get_client_ip auth_settings request);
         start_authorization oidc_settings is_ipv6 pid redirect PurposeAccountDeletionReauth
           auth_context ip_address None)
        (start_failure "/app/settings") start_redirect
  end.

(** The call of the use case when the provider returned an error. *)
(* src: backend/app/controllers/auth_controller.py:444-458 complete_oidc_callback *)
Definition error_callback (pid state : string) (request : Request) : M L unit :=
  current_session ← with_client auth_settings request
                      (authenticate_session auth_settings (session_cookie auth_settings request));
  with_client auth_settings request
    (complete_error_callback oidc_settings pid state
       (rq_cookies request !! oidc_binding_cookie_name_for_state state)
       (OidcError OidcProviderAccessDeniedError) current_session).

(* src: backend/app/controllers/auth_controller.py:474-489 complete_oidc_callback *)
Definition code_callback (pid state code : string) (request : Request) : M L OidcCallbackResult :=
  current_session ← with_client auth_settings request
                      (authenticate_session auth_settings (session_cookie auth_settings request));
  with_client auth_settings request
    (complete_callback auth_settings oidc_settings pid state code
       (rq_cookies request !! oidc_binding_cookie_name_for_state state) current_session
       (session_cookie auth_settings request)).

(** The redirect after a completed flow. *)
(* src: backend/app/controllers/auth_controller.py:498-535 complete_oidc_callback *)
Definition callback_success (state : string) (request : Request) (result : OidcCallbackResult)
  : Web L Response :=
  response ← match cb_issued_session result with
    | Some issued =>
        target ← pure_web (merge (cb_redirect_path result) [("oidc_error", None); ("oidc_reauth", None)]%string);
        pure_web (set_session_cookies (is_session_token issued) (is_csrf_token issued)
                    (oidc_redirect target))
    | None =>
        csrf_token ← awaiting (issue_csrf_token (session_cookie auth_settings request));
        target ← pure_web (merge (cb_redirect_path result)
                             [("oidc_error", None); ("oidc_reauth", Some "success")]%string);
        pure_web (set_csrf_cookie csrf_token secure session_max_age (oidc_redirect target))
    end;
  pure_web (clear_oidc_binding_cookie (oidc_binding_cookie_name_for_state state) secure response).

(* src: backend/app/controllers/auth_controller.py:466-535 complete_oidc_callback *)
Definition callback_with_code (pid : string) (state code : option string) (request : Request)
    (binding_cookie_name : option string) : Web L Response :=
  match state, code with
  | Some state, Some code =>
      catching (code_callback pid state code request)
        (fun e => callback_failure e (Some (oidc_binding_cookie_name_for_state state)) secure)
        (callback_success state request)
  | _, _ => pure_web (callback_failure (OidcError OidcStateMismatchError) binding_cookie_name secure)
  end.

(** [complete_error_callback] always raises; the code below it is reached only if it
    did not. *)
(* src: backend/app/controllers/auth_controller.py:412-535 complete_oidc_callback *)
Definition complete_oidc_callback (pid : string) (state code error : option string)
    (request : Request) : Web L Response :=
  let binding_cookie_name :=
    if truthy_opt state then Some (oidc_binding_cookie_name_for_state (default "" state)) else None in
  match error, state with
  | Some _, None =>
      pure_web (callback_failure (OidcError OidcStateMismatchError) binding_cookie_name secure)
  | Some _, Some s =>
      let binding_cookie_name := Some (oidc_binding_cookie_name_for_state s) in
      catching (error_callback pid s request)
        (fun e => callback_failure e binding_cookie_name secure)
        (fun _ => callback_with_code pid state code request binding_cookie_name)
  | None, _ => callback_with_code pid state code request binding_cookie_name
  end.

(* src: backend/app/controllers/auth_controller.py:564-572 get_csrf *)
Definition issue_csrf (request : Request) : Web L Response :=
  csrf_token ← awaiting (issue_csrf_token (session_cookie auth_settings request));
  pure_web (set_csrf_cookie csrf_token secure session_max_age
    (with_body (csrf_token_response csrf_token) (no_store empty_response))).

(* src: backend/app/controllers/auth_controller.py:538-572 get_csrf *)
Definition get_csrf (request : Request) : Web L Response :=
  let existing_csrf_token := rq_cookies request !! csrf_cookie_name in
  let session_token := session_cookie auth_settings request in
  if truthy_opt existing_csrf_token then
    let keep := with_body (csrf_token_response (default "" existing_csrf_token)) (no_store empty_response) in
    if negb (truthy_opt session_token) then mret keep
    else
      csrf_status ← awaiting (with_client auth_settings request
        (validate_session_csrf (default "" session_token) (default "" existing_csrf_token)));
      match csrf_status with
      | VALID | NO_SESSION => mret keep
      | MISMATCH => issue_csrf request
      end
  else issue_csrf request.

(* src: backend/app/controllers/auth_controller.py:575-581 get_me *)
Definition get_me (request : Request) : Web L Response :=
  auth_context ← require_current_session auth_settings request;
  body ← pure_web (context_response auth_context);
  mret (with_body body (no_store empty_response)).

(* src: backend/app/controllers/auth_controller.py:584-599 update_me *)
Definition update_me (changes : AuthUserUpdateChanges) (request : Request) : Web L Response :=
  auth_context ← require_current_session auth_settings request;
  updated_context ← awaiting (update_current_user auth_context changes);
  body ← pure_web (context_response updated_context);
  mret (with_body body (no_store empty_response)).

(** [str(error.retry_after_seconds or auth_settings.AUTH_RATE_LIMIT_WINDOW_SECONDS)] *)
Definition retry_after (retry_after_seconds : option Z) : list (string * string) :=
  let seconds := default 0 retry_after_seconds in
  [("Retry-After"%string,
    pretty (if seconds =? 0 then AUTH_RATE_LIMIT_WINDOW_SECONDS auth_settings else seconds))].

(* src: backend/app/controllers/auth_controller.py:624-658 delete_me *)
Definition delete_me_error (error : exn) : option HTTPException :=
  match error with
  | AccountDeletionConfirmationMismatchError => Some (api_error 400
      "account_deletion_confirmation_mismatch" "Account deletion confirmation did not match")
  | AccountDeletionReauthRequiredError => Some (api_error 400
      "account_deletion_reauth_required" "Password confirmation is required")
  | AccountDeletionInvalidPasswordError => Some (api_error 400
      "account_deletion_invalid_password" "Password confirmation failed")
  | AccountDeletionOidcReauthRequiredError linked_providers => Some (api_error_with 400
      "account_deletion_oidc_reauth_required" "OIDC reauthentication is required" [] []
      [("providers"%string, JArr (map (fun p => JObj [("provider_id", JStr p.1);
          ("display_name", JStr p.2)]%string) linked_providers))])
  | RateLimitExceededError seconds => Some (api_error_with 429
      "account_deletion_reauth_rate_limited" "Too many account deletion confirmation attempts"
      (retry_after seconds) [] [])
  | _ => None
  end.

(* src: backend/app/controllers/auth_controller.py:602-664 delete_me *)
Definition delete_me (confirm_email : string) (password : option string) (request : Request)
  : Web L Response :=
  auth_context ← require_current_session auth_settings request;
  _ ← calling (with_client auth_settings request
        (delete_account auth_settings oidc_settings auth_context confirm_email password))
      delete_me_error;
  response ← pure_web (clear_session_cookies empty_response);
  mret (with_status 204 response).

(* src: backend/app/controllers/auth_controller.py:689-706 register *)
Definition register_error (error : exn) : option HTTPException :=
  match error with
  | EmailAlreadyRegisteredError =>
      Some (api_error 409 "email_already_registered" "Email already registered")
  | RateLimitExceededError seconds => Some (api_error_with 429 "register_rate_limited"
      "Too many register attempts" (retry_after seconds) [] [])
  | WeakPasswordError _ => Some (api_error 422 "weak_password" "Password does not meet requirements")
  | _ => None
  end.

(** [status_code=201] is the decorator's. *)
(* src: backend/app/controllers/auth_controller.py:667-722 register *)
Definition register_endpoint (email password language_code : string) (request : Request)
  : Web L Response :=
  issued_session ← calling (with_client auth_settings request
      (register auth_settings email password language_code (session_cookie auth_settings request)))
    register_error;
  response ← pure_web (set_session_cookies (is_session_token issued_session)
               (is_csrf_token issued_session) (with_status 201 empty_response));
  body ← pure_web (issued_response issued_session);
  mret (with_body body response).

(* src: backend/app/controllers/auth_controller.py:745-760 login *)
Definition login_error (error : exn) : option HTTPException :=
  match error with
  | InvalidCredentialsError =>
      Some (api_error 401 "invalid_credentials" "The email or password is incorrect.")
  | RateLimitExceededError seconds => Some (api_error_with 429 "login_rate_limited"
      "Too many login attempts" (retry_after seconds) [] [])
  | _ => None
  end.

(* src: backend/app/controllers/auth_controller.py:725-776 login *)
Definition login_endpoint (email password : string) (request : Request) : Web L Response :=
  issued_session ← calling (with_client auth_settings request
      (login auth_settings email password (session_cookie auth_settings request)))
    login_error;
  response ← pure_web (set_session_cookies (is_session_token issued_session)
               (is_csrf_token issued_session) empty_response);
  body ← pure_web (issued_response issued_session);
  mret (with_body body response).

(* src: backend/app/controllers/auth_controller.py:779-799 logout *)
Definition logout_endpoint (request : Request) : Web L Response :=
  _ ← awaiting (with_client auth_settings request (logout (session_cookie auth_settings request)));
  response ← pure_web (clear_session_cookies empty_response);
  mret (with_status 204 response).
End AuthController.
