(* ===== verification/AdminControllers.v ===== *)
(** * The administration and sample endpoints

    Models src/backend/app/controllers/authorization_controller.py,
    admin_user_controller.py, sample_controller.py and healthz_controller.py, with the response schemas they fill.  Query and
    body values are those FastAPI and Pydantic accepted. *)

From S2P Require Import Prelude PyStr Errors Time Settings Authorization Tables Effects.
From S2P Require Import Http ErrorHandlers AuthorizationRepository AdminUserRepository.
From S2P Require Import SampleItemRepository AuthUsecase Guards AuthorizationUsecase.
From S2P Require Import AdminUserUsecase SampleItemUsecase.

(** ** Bodies *)

(* src: backend/app/models/time_serialization.py:5-8 unix_timestamp_seconds *)
Definition unix_timestamp_seconds (value : Z) : Z := value / 1000000.

Definition json_strs (l : list string) : json := JArr (map JStr l).
Definition json_opt_time (t : option Z) : json :=
  match t with Some t => JInt (unix_timestamp_seconds t) | None => JNull end.

(* src: backend/app/controllers/authorization_controller.py:100-106 _role_response *)
Definition role_response (role : RoleWithPermissions) : json :=
  JObj [("code", JStr (rv_code role)); ("display_name", JStr (rv_display_name role));
        ("description", json_opt_str (rv_description role));
        ("permissions", json_strs (rv_permissions role))]%string.

(* src: backend/app/controllers/authorization_controller.py:109-114 _permission_response *)
Definition permission_response (permission : PermissionDefinition) : json :=
  JObj [("code", JStr (perm_code permission)); ("display_name", JStr (perm_display_name permission));
        ("description", json_opt_str (perm_description permission))]%string.

(* src: backend/app/controllers/authorization_controller.py:117-122 _user_role_list_response *)
Definition user_role_list_response (authorization : UserAuthorization) : json :=
  JObj [("user_id", JStr (uuid_str (ua_user_id authorization)));
        ("roles", json_strs (sorted (elements (ua_roles authorization))));
        ("permissions", json_strs (sorted (elements (ua_permissions authorization))))]%string.

(* src: backend/app/controllers/authorization_controller.py:125-132 _user_role_replace_response *)
Definition user_role_replace_response (result : UserRoleReplacementResult) : json :=
  JObj [("user_id", JStr (uuid_str (rr_user_id result)));
        ("roles", json_strs (current_role_codes result));
        ("permissions", json_strs (sorted (elements (permissions_for_role_codes (current_role_codes result)))));
        ("granted_roles", json_strs (granted_role_codes result));
        ("revoked_roles", json_strs (revoked_role_codes result))]%string.

Definition user_members (user : User) (roles : list string) : list (string * json) :=
  [("id", JStr (uuid_str (u_id user))); ("email", JStr (u_email user));
   ("is_active", JBool (u_is_active user));
   ("created_at", JInt (unix_timestamp_seconds (u_registered_at user)));
   ("updated_at", JInt (unix_timestamp_seconds (u_modified_at user)));
   ("last_login_at", json_opt_time (u_last_logged_in_at user));
   ("roles", json_strs roles)]%string.

(* src: backend/app/models/admin_user_schemas.py:37-66 AdminUserListItemResponse *)
Definition admin_user_list_item_response (record : AdminUserRecord) : json :=
  JObj (user_members (rec_user record) (rec_roles record)).

(* src: backend/app/models/admin_user_schemas.py:69-83 AdminUserResponse *)
Definition admin_user_response (detail : AdminUserDetail) : json :=
  JObj (user_members (det_user detail) (det_roles detail)
        ++ [("permissions"%string, json_strs (det_permissions detail))]).

(* src: backend/app/models/sample_item_schemas.py:34-55 SampleItemResponse *)
Definition sample_item_response (item : SampleItem) : json :=
  JObj [("id", JStr (uuid_str (it_id item))); ("title", JStr (it_title item));
        ("description", json_opt_str (it_description item));
        ("is_completed", JBool (it_is_completed item));
        ("created_at", JInt (unix_timestamp_seconds (it_registered_at item)));
        ("updated_at", JInt (unix_timestamp_seconds (it_modified_at item)))]%string.

(* src: backend/app/controllers/healthz_controller.py:14-16 healthz *)
Definition healthz : Response :=
  with_body (JObj [("success", JBool true); ("message", JStr "ok")]%string) empty_response.

(** ** Errors *)

(* src: backend/app/controllers/admin_user_controller.py:174-175 _user_not_found_error *)
Definition user_not_found_error : HTTPException := api_error 404 "user_not_found" "User not found".

(* src: backend/app/controllers/admin_user_controller.py:178-184 _role_not_found_error *)
Definition role_not_found_error (role_codes : gset string) : HTTPException :=
  api_error_with 422 "role_not_found" "Role not found" [] []
    [("role_codes"%string, json_strs (sorted (elements role_codes)))].

(* src: backend/app/controllers/sample_controller.py:135-140 _not_found_error *)
Definition item_not_found_error : HTTPException :=
  api_error 404 "sample_item_not_found" "Sample item not found".

(** The [except] clauses, which differ in which of these they catch. *)
Definition http_of_user_missing (error : exn) : option HTTPException :=
  match error with UserNotFoundError _ => Some user_not_found_error | _ => None end.
Definition http_of_authorization (error : exn) : option HTTPException :=
  match error with AuthorizationUserNotFoundError _ => Some user_not_found_error | _ => None end.
Definition http_of_item_missing (error : exn) : option HTTPException :=
  match error with SampleItemNotFoundError => Some item_not_found_error | _ => None end.

(* src: backend/app/controllers/admin_user_controller.py:96-101 create_admin_user *)
Definition http_of_creation (error : exn) : option HTTPException :=
  match error with
  | EmailAlreadyRegisteredError =>
      Some (api_error 409 "email_already_registered" "Email already registered")
  | WeakPasswordError _ => Some (api_error 422 "weak_password" "Password does not meet requirements")
  | RoleNotFoundError role_codes => Some (role_not_found_error role_codes)
  | _ => None
  end.

(* src: backend/app/controllers/admin_user_controller.py:143-150 update_admin_user *)
Definition http_of_update (error : exn) : option HTTPException :=
  match error with
  | UserNotFoundError _ => Some user_not_found_error
  | e => http_of_creation e
  end.

Section Controllers.
Context `{E : Env} {L : Type}.
Context (auth_settings : AuthSettings).

Definition no_content : Response := with_status 204 empty_response.

(* src: backend/app/controllers/authorization_controller.py:32-32 require_admin_access *)
Definition require_admin_access (request : Request) : Web L AuthenticatedSessionContext :=
  require_permission auth_settings "admin:access" request.

(** ** Roles *)

(* src: backend/app/controllers/authorization_controller.py:37-47 list_roles *)
Definition list_roles_endpoint (request : Request) : Web L Response :=
  _ ← require_admin_access request;
  mret (with_body (JObj [("data", JArr (map role_response list_roles));
                         ("permissions", JArr (map permission_response list_permissions))]%string)
          empty_response).

(* src: backend/app/controllers/authorization_controller.py:50-64 get_user_roles *)
Definition get_user_roles_endpoint (user_id : Z) (request : Request) : Web L Response :=
  _ ← require_admin_access request;
  authorization ← calling (get_user_authorization user_id) http_of_authorization;
  mret (with_body (user_role_list_response authorization) empty_response).

(* src: backend/app/controllers/authorization_controller.py:67-97 replace_user_roles *)
Definition replace_user_roles_endpoint (user_id : Z) (roles : list string) (request : Request)
  : Web L Response :=
  auth_context ← require_admin_access request;
  result ← calling (with_client auth_settings request (replace_roles auth_context user_id roles))
    (fun error => match error with
     | RoleNotFoundError role_codes => Some (role_not_found_error role_codes)
     | e => http_of_authorization e
     end);
  mret (with_body (user_role_replace_response result) empty_response).

(** ** Users *)

(* src: backend/app/controllers/admin_user_controller.py:38-69 list_admin_users *)
Definition list_admin_users_endpoint (offset limit : Z) (query role : option string)
    (is_active : option bool) (request : Request) : Web L Response :=
  _ ← require_admin_access request;
  result ← calling
    (search ← lift (normalize_admin_search query 320);
     list_admin_users (ListQuery search is_active role) offset limit)
    (fun error => match error with
     | ValueError _ => Some (api_error 422 "invalid_admin_user_query" "Invalid admin user query")
     | RoleNotFoundError role_codes => Some (role_not_found_error role_codes)
     | _ => None
     end);
  mret (with_body (JObj [("data", JArr (map admin_user_list_item_response (page_items result)));
                         ("count", JInt (page_total result)); ("offset", JInt (page_offset result));
                         ("limit", JInt (page_limit result))]%string) empty_response).

(* src: backend/app/controllers/admin_user_controller.py:72-103 create_admin_user *)
Definition create_admin_user_endpoint (email password : string) (is_active : bool)
    (roles : list string) (request : Request) : Web L Response :=
  auth_context ← require_admin_access request;
  detail ← calling (with_client auth_settings request
             (create_admin_user auth_context email password is_active roles)) http_of_creation;
  mret (with_body (admin_user_response detail)
    (set_header "Location" ("/api/admin/users/" ++ uuid_str (u_id (det_user detail)))
      (with_status 201 empty_response))).

(* src: backend/app/controllers/admin_user_controller.py:106-116 get_admin_user *)
Definition get_admin_user_endpoint (user_id : Z) (request : Request) : Web L Response :=
  _ ← require_admin_access request;
  detail ← calling (get_admin_user user_id) http_of_user_missing;
  mret (with_body (admin_user_response detail) empty_response).

(* src: backend/app/controllers/admin_user_controller.py:119-151 update_admin_user *)
Definition update_admin_user_endpoint (user_id : Z) (changes : AdminUserUpdateChanges)
    (request : Request) : Web L Response :=
  auth_context ← require_admin_access request;
  detail ← calling (with_client auth_settings request (update_admin_user auth_context user_id changes))
             http_of_update;
  mret (with_body (admin_user_response detail) empty_response).

(* src: backend/app/controllers/admin_user_controller.py:154-171 delete_admin_user *)
Definition delete_admin_user_endpoint (user_id : Z) (request : Request) : Web L Response :=
  auth_context ← require_admin_access request;
  _ ← calling (with_client auth_settings request (delete_admin_user auth_context user_id))
        http_of_user_missing;
  mret no_content.

(** ** Sample items *)

(** [limit] is between 1 and 100. *)
(* src: backend/app/controllers/sample_controller.py:47-65 list_sample_items *)
Definition list_sample_items {C : CursorCodec} (limit : Z) (cursor : option string) (request : Request)
  : Web L Response :=
  auth_context ← require_current_session auth_settings request;
  result ← calling (list_items (u_id (ctx_user auth_context)) limit cursor)
    (fun error => match error with
     | InvalidSampleItemCursorError =>
         Some (api_error 400 "sample_item_invalid_cursor" "Invalid sample item cursor")
     | _ => None
     end);
  mret (with_body (JObj [("data", JArr (map sample_item_response (list_items_ result)));
                         ("next_cursor", json_opt_str (next_cursor result))]%string) empty_response).

(* src: backend/app/controllers/sample_controller.py:68-86 create_sample_item *)
Definition create_sample_item (title : string) (description : option string) (request : Request)
  : Web L Response :=
  auth_context ← require_current_session auth_settings request;
  item ← awaiting (create_item (u_id (ctx_user auth_context)) title description);
  mret (with_body (sample_item_response item)
    (set_header "Location" ("/api/samples/" ++ uuid_str (it_id item)) (with_status 201 empty_response))).

(* src: backend/app/controllers/sample_controller.py:89-99 get_sample_item *)
Definition get_sample_item (item_id : Z) (request : Request) : Web L Response :=
  auth_context ← require_current_session auth_settings request;
  item ← calling (get_item (u_id (ctx_user auth_context)) item_id) http_of_item_missing;
  mret (with_body (sample_item_response item) empty_response).

(* src: backend/app/controllers/sample_controller.py:102-119 update_sample_item *)
Definition update_sample_item (item_id : Z) (changes : SampleItemUpdateChanges) (request : Request)
  : Web L Response :=
  auth_context ← require_current_session auth_settings request;
  item ← calling (update_item (u_id (ctx_user auth_context)) item_id changes) http_of_item_missing;
  mret (with_body (sample_item_response item) empty_response).

(* src: backend/app/controllers/sample_controller.py:122-132 delete_sample_item *)
Definition delete_sample_item (item_id : Z) (request : Request) : Web L Response :=
  auth_context ← require_current_session auth_settings request;
  _ ← calling (delete_item (u_id (ctx_user auth_context)) item_id) http_of_item_missing;
  mret no_content.
End Controllers.
