(* ===== verification/Application.v ===== *)
(** * The application

    The endpoints behind the CSRF middleware and the exception handlers, as
    src/backend/app/bootstrap/create_app.py and route.py put them together, and the
    files the catch-all route serves.  A call names an endpoint and carries its
    validated arguments; Routes.v says which call a request makes. *)

From S2P Require Import Prelude PyStr Errors Time Settings Tables Effects Interfaces Http ErrorHandlers.
From S2P Require Import AdminUserRepository AuthUsecase SampleItemUsecase Guards.
From S2P Require Import AuthController AdminControllers.

(** ** Endpoints *)

Inductive auth_call :=
| ListOidcProviders
| StartOidcLogin (pid : string) (redirect language_code : option string)
| StartOidcReauth (pid : string) (redirect : option string)
| CompleteOidcCallback (pid : string) (state code error : option string)
| GetCsrf
| GetMe
| UpdateMe (changes : AuthUserUpdateChanges)
| DeleteMe (confirm_email : string) (password : option string)
| Register (email password language_code : string)
| Login (email password : string)
| Logout.

Inductive admin_call :=
| ListRoles
| GetUserRoles (user_id : Z)
| ReplaceUserRoles (user_id : Z) (roles : list string)
| ListAdminUsers (offset limit : Z) (query role : option string) (is_active : option bool)
| CreateAdminUser (email password : string) (is_active : bool) (roles : list string)
| GetAdminUser (user_id : Z)
| UpdateAdminUser (user_id : Z) (changes : AdminUserUpdateChanges)
| DeleteAdminUser (user_id : Z).

Inductive sample_call :=
| ListSampleItems (limit : Z) (cursor : option string)
| CreateSampleItem (title : string) (description : option string)
| GetSampleItem (item_id : Z)
| UpdateSampleItem (item_id : Z) (changes : SampleItemUpdateChanges)
| DeleteSampleItem (item_id : Z).

Inductive api_call :=
| AuthCall (c : auth_call)
| AdminCall (c : admin_call)
| SampleCall (c : sample_call)
| Healthz.

Section Application.
Context `{E : Env} {L : Type} `{R : LoginRateLimiter L} `{P : OidcProviderClient L} {C : CursorCodec} {V : Pydantic}.
Context (auth_settings : AuthSettings) (oidc_settings : OidcSettings).
Context (is_ipv6 : string -> bool) (utf8_decode : list ascii -> list ascii).

Definition auth_endpoint (c : auth_call) (request : Request) : Web L Response :=
  match c with
  | ListOidcProviders => mret (list_oidc_providers oidc_settings)
  | StartOidcLogin pid redirect language_code =>
      start_oidc_login auth_settings oidc_settings is_ipv6 utf8_decode pid redirect language_code request
  | StartOidcReauth pid redirect =>
      start_oidc_reauth auth_settings oidc_settings is_ipv6 utf8_decode pid redirect request
  | CompleteOidcCallback pid state code error =>
      complete_oidc_callback auth_settings oidc_settings is_ipv6 utf8_decode pid state code error request
  | GetCsrf => get_csrf auth_settings request
  | GetMe => get_me auth_settings request
  | UpdateMe changes => update_me auth_settings changes request
  | DeleteMe confirm_email password =>
      delete_me auth_settings oidc_settings confirm_email password request
  | Register email password language_code =>
      register_endpoint auth_settings email password language_code request
  | Login email password => login_endpoint auth_settings email password request
  | Logout => logout_endpoint auth_settings request
  end.

Definition admin_endpoint (c : admin_call) (request : Request) : Web L Response :=
  match c with
  | ListRoles => list_roles_endpoint auth_settings request
  | GetUserRoles user_id => get_user_roles_endpoint auth_settings user_id request
  | ReplaceUserRoles user_id roles => replace_user_roles_endpoint auth_settings user_id roles request
  | ListAdminUsers offset limit query role is_active =>
      list_admin_users_endpoint auth_settings offset limit query role is_active request
  | CreateAdminUser email password is_active roles =>
      create_admin_user_endpoint auth_settings email password is_active roles request
  | GetAdminUser user_id => get_admin_user_endpoint auth_settings user_id request
  | UpdateAdminUser user_id changes => update_admin_user_endpoint auth_settings user_id changes request
  | DeleteAdminUser user_id => delete_admin_user_endpoint auth_settings user_id request
  end.

Definition sample_endpoint (c : sample_call) (request : Request) : Web L Response :=
  match c with
  | ListSampleItems limit cursor => list_sample_items auth_settings limit cursor request
  | CreateSampleItem title description => create_sample_item auth_settings title description request
  | GetSampleItem item_id => get_sample_item auth_settings item_id request
  | UpdateSampleItem item_id changes => update_sample_item auth_settings item_id changes request
  | DeleteSampleItem item_id => delete_sample_item auth_settings item_id request
  end.

(* src: backend/app/bootstrap/route.py:120-128 _setup_api_routes *)
Definition api_endpoint (c : api_call) (request : Request) : Web L Response :=
  match c with
  | AuthCall c => auth_endpoint c request
  | AdminCall c => admin_endpoint c request
  | SampleCall c => sample_endpoint c request
  | Healthz => mret healthz
  end.

(** An exception of a handler becomes a problem document.  (An exception that no
    handler expects is also re-raised to the server after the response.) *)
(* src: backend/app/bootstrap/error_handlers.py:51-54 register_error_handlers *)
Definition handled (handler : Request -> Web L Response) : App L := fun request w =>
  match handler request w with
  | (Done response, w') => (response, w')
  | (Failed (HttpError exc), w') => (http_exception_handler request exc, w')
  | (Failed (Uncaught _), w') => (unhandled_exception_handler request, w')
  end.

(* src: backend/app/bootstrap/create_app.py:67-70 create_app *)
Definition backend (c : api_call) : App L :=
  CSRFMiddleware auth_settings (handled (api_endpoint c)).
End Application.

(** ** The single-page application *)

(* src: backend/app/bootstrap/route.py:20-50 API_PREFIX *)
Definition API_PREFIX : string := "/api".
Definition STATIC_API_PREFIX : string := lower (strip_char "/" API_PREFIX).
Definition RESERVED_BACKEND_PATHS : list string := ["docs"; "redoc"; "openapi.json"]%string.
Definition STATIC_ASSET_EXTENSIONS : list string :=
  [".avif"; ".css"; ".eot"; ".gif"; ".ico"; ".jpeg"; ".jpg"; ".js"; ".json"; ".map"; ".otf"; ".pdf";
   ".png"; ".svg"; ".ttf"; ".txt"; ".wasm"; ".webmanifest"; ".webp"; ".woff"; ".woff2"; ".xml"]%string.

(* src: backend/app/bootstrap/route.py:131-134 _is_api_path *)
Definition is_api_path (path : string) : bool :=
  let normalized_path := lower (strip_char "/" path) in
  (normalized_path =? STATIC_API_PREFIX)%string || startswith normalized_path (STATIC_API_PREFIX ++ "/").

(* src: backend/app/bootstrap/route.py:137-138 _is_reserved_backend_path *)
Definition is_reserved_backend_path (path : string) : bool :=
  existsb (String.eqb (lower (strip_char "/" path))) RESERVED_BACKEND_PATHS.

(* src: backend/app/bootstrap/route.py:151-155 _is_static_asset_path *)
Definition is_static_asset_path (path : string) : bool :=
  let normalized_path := lower (strip_char "/" path) in
  (normalized_path =? "assets")%string || startswith normalized_path "assets/"
  || existsb (endswith normalized_path) STATIC_ASSET_EXTENSIONS.

(* src: backend/app/bootstrap/route.py:141-148 _is_spa_navigation *)
Definition is_spa_navigation (path : string) (request : Request) : bool :=
  if negb (existsb (String.eqb (rq_method request)) ["GET"; "HEAD"]%string) then false
  else if is_static_asset_path path then false
  else
    let normalized_accept := lower (default "" (headers_get "accept" (rq_headers request))) in
    contains normalized_accept "text/html" || contains normalized_accept "*/*".

(** [super().get_response], which serves a file or raises, is Starlette's. *)
(* src: backend/app/bootstrap/route.py:52-60 SPAStaticFiles.get_response *)
Definition get_response (static_file : string -> outcome Response) (path : string) (request : Request)
  : outcome Response :=
  if is_api_path path || is_reserved_backend_path path
  then Failed (HttpError (HttpException 404 (DetailText "Not Found") []))
  else
    match static_file path with
    | Failed (HttpError error) =>
        if negb (he_status_code error =? 404) || negb (is_spa_navigation path request)
        then Failed (HttpError error) else static_file "index.html"
    | r => r
    end.
