(* ===== verification/Schemas.v ===== *)
(** * Request bodies and parameters

    Models the request schemas of src/backend/app/models/auth_schemas.py,
    admin_user_schemas.py, authorization_schemas.py and sample_item_schemas.py, field by
    field with their constraints and validators, and the query parameters the
    handlers declare.  A schema accepts a value or lists its errors; how Pydantic
    turns texts and JSON values into booleans, integers, identifiers and e-mail
    addresses is the class [Pydantic].  A body is given as FastAPI reads it: none,
    text that is no JSON, bytes that cannot be read at all, no JSON by its content
    type, or a JSON value. *)

From S2P Require Import Prelude PyStr Errors Tables Settings ErrorHandlers Interfaces UnitOfWork.
From S2P Require Import AdminUserRepository AuthUsecase SampleItemUsecase AuthController.

(** ** Validation that collects errors *)

Definition Validated (A : Type) : Type := list validation_error + A.
Definition accept {A} (a : A) : Validated A := inr a.

(** Both sides are validated; their errors add up. *)
Definition both {A B} (f : Validated (A -> B)) (x : Validated A) : Validated B :=
  match f, x with
  | inr f, inr a => inr (f a)
  | inl e, inr _ => inl e
  | inr _, inl e => inl e
  | inl e, inl e' => inl (e ++ e')
  end.
Infix "<*>" := both (at level 61, left associativity).
Definition validated_map {A B} (f : A -> B) (x : Validated A) : Validated B := both (accept f) x.

Notation location := (list loc_part).

Section Schemas.
Context {P : Pydantic}.

Definition refuse {A} (loc : location) (type : string) : Validated A :=
  inl [ValidationError loc (Some (error_message type)) (Some type)].

(** A type of field: how its JSON value, found at a location, is validated. *)
Definition field_type (A : Type) : Type := location -> json -> Validated A.

Definition any_str : field_type string := fun loc v =>
  match v with JStr s => accept s | _ => refuse loc "string_type" end.

(** [Field(min_length=..., max_length=...)] of a [str]. *)
Definition bounded_str (min_length max_length : Z) : field_type string := fun loc v =>
  match v with
  | JStr s =>
      if str_len s <? min_length then refuse loc "string_too_short"
      else if max_length <? str_len s then refuse loc "string_too_long"
      else accept s
  | _ => refuse loc "string_type"
  end.

Definition email_str : field_type string := fun loc v =>
  match v with
  | JStr s => match email_of_text s with
              | Some address => accept address
              | None => refuse loc "value_error"
              end
  | _ => refuse loc "string_type"
  end.

Definition boolean : field_type bool := fun loc v =>
  match bool_of_json v with Some b => accept b | None => refuse loc "bool_parsing" end.

(* src: backend/app/models/language.py:3-3 LanguageCode *)
Definition LanguageCode : field_type string := fun loc v =>
  match v with
  | JStr s => if is_supported_language_code s then accept s else refuse loc "literal_error"
  | _ => refuse loc "literal_error"
  end.

(** [T | None] *)
Definition optional {A} (t : field_type A) : field_type (option A) := fun loc v =>
  match v with JNull => accept None | _ => validated_map Some (t loc v) end.

(** [list[str]] with a [max_length]. *)
Fixpoint each {A} (t : field_type A) (loc : location) (i : Z) (l : list json) : Validated (list A) :=
  match l with
  | [] => accept []
  | v :: l' => accept cons <*> t (loc ++ [LocInt i]) v <*> each t loc (i + 1) l'
  end.
Definition str_list (max_length : Z) : field_type (list string) := fun loc v =>
  match v with
  | JArr l => if max_length <? Z.of_nat (length l) then refuse loc "too_long"
              else each any_str loc 0 l
  | _ => refuse loc "list_type"
  end.

(* src: backend/app/models/sample_item_schemas.py:26-31 SampleItemUpdateRequest.reject_null_for_non_nullable_patch_fields *)
Definition reject_null {A} (t : field_type A) : field_type A := fun loc v =>
  match v with JNull => refuse loc "value_error" | _ => t loc v end.

(** A field of a body: a default stands for a field that is not sent. *)
Definition body_field {A} (name : string) (dflt : option A) (t : field_type A)
    (body : list (string * json)) : Validated A :=
  match json_get name body, dflt with
  | Some v, _ => t [LocStr "body"; LocStr name] v
  | None, Some a => accept a
  | None, None => refuse [LocStr "body"; LocStr name] "missing"
  end.

(** [extra="forbid"]: an error for every other key. *)
Fixpoint forbid_extra (names : list string) (body : list (string * json)) : Validated unit :=
  match body with
  | [] => accept tt
  | (k, _) :: body' =>
      (if existsb (String.eqb k) names then accept (fun _ => tt)
       else refuse [LocStr "body"; LocStr k] "extra_forbidden") <*> forbid_extra names body'
  end.

(** [model_fields_set] *)
Definition fields_set (body : list (string * json)) : gset string := list_to_set (map fst body).

(** The body of a request as FastAPI reads it for a route that takes one: none, a text
    that is no JSON (with the position of the error), bytes whose reading fails in
    another way (a text that is no UTF-8), bytes of a content type that is not JSON, a
    JSON value. *)
Inductive http_body :=
| NoBody
| InvalidJson (position : Z)
| UnparsableBody
| RawBody
| JsonBody (v : json).

(** A body parameter of the type of a schema.  A JSON [null] counts as no body.  The
    bodies that cannot be parsed do not come here: [run_route] of Routes.v answers
    them before it looks at any parameter. *)
Definition parse_body {A} (names : list string) (schema : list (string * json) -> Validated A)
    (body : http_body) : Validated A :=
  match body with
  | NoBody | UnparsableBody | JsonBody JNull => refuse [LocStr "body"] "missing"
  | InvalidJson position => refuse [LocStr "body"; LocInt position] "json_invalid"
  | JsonBody (JObj fields) =>
      validated_map fst (accept pair <*> schema fields <*> forbid_extra names fields)
  | RawBody | JsonBody _ => refuse [LocStr "body"] "model_attributes_type"
  end.

(** ** Schemas *)

(* src: backend/app/models/auth_schemas.py:14-18 RegisterRequest *)
Record RegisterRequest := mkRegisterRequest {
  rg_email : string;
  rg_password : string;
  rg_language_code : string;
}.
(* src: backend/app/models/auth_schemas.py:10-18 RegisterRequest *)
Definition register_request : http_body -> Validated RegisterRequest :=
  parse_body ["email"; "password"; "language_code"]%string (fun body =>
    accept mkRegisterRequest
    <*> body_field "email" None email_str body
    <*> body_field "password" None (bounded_str 12 128) body
    <*> body_field "language_code" (Some DEFAULT_LANGUAGE_CODE) LanguageCode body).

(* src: backend/app/models/auth_schemas.py:21-23 LoginRequest *)
Record LoginRequest := mkLoginRequest {
  lg_email : string;
  lg_password : string;
}.
(* src: backend/app/models/auth_schemas.py:21-23 LoginRequest *)
Definition login_request : http_body -> Validated LoginRequest :=
  parse_body ["email"; "password"]%string (fun body =>
    accept mkLoginRequest
    <*> body_field "email" None email_str body
    <*> body_field "password" None (bounded_str 0 128) body).

(* src: backend/app/models/auth_schemas.py:26-28 AccountDeletionRequest *)
Record AccountDeletionRequest := mkAccountDeletionRequest {
  ad_confirm_email : string;
  ad_password : option string;
}.
(* src: backend/app/models/auth_schemas.py:26-28 AccountDeletionRequest *)
Definition account_deletion_request : http_body -> Validated AccountDeletionRequest :=
  parse_body ["confirm_email"; "password"]%string (fun body =>
    accept mkAccountDeletionRequest
    <*> body_field "confirm_email" None email_str body
    <*> body_field "password" (Some None) (optional (bounded_str 0 128)) body).

(** The schema of a PATCH with what the handler makes of it. *)
(* src: backend/app/models/auth_schemas.py:31-39 UpdateAuthUserRequest *)
Definition update_auth_user_request : http_body -> Validated AuthUserUpdateChanges :=
  parse_body ["language_code"]%string (fun body =>
    accept (fun language_code => UserUpdate language_code (fields_set body))
    <*> body_field "language_code" (Some None) (reject_null (optional LanguageCode)) body).

(* src: backend/app/models/admin_user_schemas.py:16-20 AdminUserCreateRequest *)
Record AdminUserCreateRequest := mkAdminUserCreateRequest {
  ac_email : string;
  ac_password : string;
  ac_is_active : bool;
  ac_roles : list string;
}.
(* src: backend/app/models/admin_user_schemas.py:12-20 AdminUserCreateRequest *)
Definition admin_user_create_request : http_body -> Validated AdminUserCreateRequest :=
  parse_body ["email"; "password"; "is_active"; "roles"]%string (fun body =>
    accept mkAdminUserCreateRequest
    <*> body_field "email" None email_str body
    <*> body_field "password" None (bounded_str 12 128) body
    <*> body_field "is_active" (Some true) boolean body
    <*> body_field "roles" (Some []) (str_list 100) body).

(* src: backend/app/models/admin_user_schemas.py:23-34 AdminUserUpdateRequest *)
Definition admin_user_update_request : http_body -> Validated AdminUserUpdateChanges :=
  parse_body ["email"; "password"; "is_active"; "roles"]%string (fun body =>
    accept (fun email password is_active roles =>
      UserChanges email password is_active roles (fields_set body))
    <*> body_field "email" (Some None) (reject_null (optional email_str)) body
    <*> body_field "password" (Some None) (reject_null (optional (bounded_str 12 128))) body
    <*> body_field "is_active" (Some None) (reject_null (optional boolean)) body
    <*> body_field "roles" (Some None) (reject_null (optional (str_list 100))) body).

(* src: backend/app/models/authorization_schemas.py:36-37 UserRoleReplaceRequest *)
Definition user_role_replace_request : http_body -> Validated (list string) :=
  parse_body ["roles"]%string (fun body => body_field "roles" None (str_list 100) body).

(* src: backend/app/models/sample_item_schemas.py:16-18 SampleItemCreateRequest *)
Record SampleItemCreateRequest := mkSampleItemCreateRequest {
  sc_title : string;
  sc_description : option string;
}.
(* src: backend/app/models/sample_item_schemas.py:12-18 SampleItemCreateRequest *)
Definition sample_item_create_request : http_body -> Validated SampleItemCreateRequest :=
  parse_body ["title"; "description"]%string (fun body =>
    accept mkSampleItemCreateRequest
    <*> body_field "title" None (bounded_str 1 120) body
    <*> body_field "description" (Some None) (optional (bounded_str 0 1000)) body).

(* src: backend/app/models/sample_item_schemas.py:21-31 SampleItemUpdateRequest *)
Definition sample_item_update_request : http_body -> Validated SampleItemUpdateChanges :=
  parse_body ["title"; "description"; "is_completed"]%string (fun body =>
    accept (fun title description is_completed =>
      ItemChanges title description is_completed (fields_set body))
    <*> body_field "title" (Some None) (reject_null (optional (bounded_str 1 120))) body
    <*> body_field "description" (Some None) (optional (bounded_str 0 1000)) body
    <*> body_field "is_completed" (Some None) (reject_null (optional boolean)) body).

(** ** Query and path parameters *)

(** The last of the values of a name. *)
Definition query_get (name : string) (query : list (string * string)) : option string :=
  last (map snd (base.filter (fun q => q.1 = name) query)).

(** [name: int = Query(default=..., ge=..., le=...)] *)
Definition query_int (name : string) (dflt : Z) (ge : Z) (le : option Z)
    (query : list (string * string)) : Validated Z :=
  match query_get name query with
  | None => accept dflt
  | Some text =>
      match int_of_text text with
      | None => refuse [LocStr "query"; LocStr name] "int_parsing"
      | Some n =>
          if n <? ge then refuse [LocStr "query"; LocStr name] "greater_than_equal"
          else if from_option (fun m => m <? n) false le
          then refuse [LocStr "query"; LocStr name] "less_than_equal"
          else accept n
      end
  end.

(** [name: str | None = Query(default=None, max_length=...)] *)
Definition query_str (name : string) (max_length : option Z) (query : list (string * string))
  : Validated (option string) :=
  match query_get name query with
  | None => accept None
  | Some text =>
      if from_option (fun m => m <? str_len text) false max_length
      then refuse [LocStr "query"; LocStr name] "string_too_long" else accept (Some text)
  end.

(** [name: bool | None = Query(default=None)] *)
Definition query_bool (name : string) (query : list (string * string)) : Validated (option bool) :=
  match query_get name query with
  | None => accept None
  | Some text => match bool_of_text text with
                 | Some b => accept (Some b)
                 | None => refuse [LocStr "query"; LocStr name] "bool_parsing"
                 end
  end.

(** [name: UUID] in the path. *)
Definition path_uuid (name : string) (text : string) : Validated Z :=
  match uuid_of_text text with
  | Some id => accept id
  | None => refuse [LocStr "path"; LocStr name] "uuid_parsing"
  end.
End Schemas.
