(* ===== verification/Routes.v ===== *)
(** * The routes

    Every route the controllers declare, with the method, the path, the status of its
    responses and the errors it documents, and how its parameters and body become the
    call of an endpoint; the order in which bootstrap/route.py includes them; and the
    application as a function of a request with its query and body.  A route is found
    as Starlette documents it: the first whose method and path fit, where a parameter
    stands for one non-empty segment.  FastAPI resolves the dependencies of a route
    (the session, the permission) before it reports the errors of its parameters. *)

From S2P Require Import Prelude PyStr Errors Tables Settings Effects Interfaces Http ErrorHandlers.
From S2P Require Import AdminUserRepository AuthUsecase SampleItemUsecase Guards.
From S2P Require Import AuthController AdminControllers Application Schemas.

Inductive segment := Lit (s : string) | Param (name : string).
#[export] Instance segment_eq_dec : EqDecision segment.
Proof. solve_decision. Defined.

(** What a route asks for before its handler runs. *)
Inductive access := Public | CurrentSession | AdminAccess.

(** The values of the path's parameters. *)
Notation captures := (list (string * string)).
Definition captured (name : string) (c : captures) : string :=
  default "" (snd <$> List.find (fun p => (p.1 =? name)%string) c).

Record route := mkRoute {
  rt_method : string;
  rt_path : list segment;
  rt_statuses : list Z;          (* of the responses that are no errors *)
  rt_errors : list Z;            (* the documented error responses *)
  rt_access : access;
  rt_takes_body : bool;
  rt_call : captures -> list (string * string) -> http_body -> Validated api_call;
}.

(** ** Documented errors *)

(* src: backend/app/controllers/auth_controller.py:55-59 ME_ERROR_RESPONSES *)
Definition ME_ERROR_RESPONSES : list Z := [401; 403; 422].
(* src: backend/app/controllers/auth_controller.py:60-62 OIDC_REDIRECT_ERROR_RESPONSES *)
Definition OIDC_REDIRECT_ERROR_RESPONSES : list Z := [422].
(* src: backend/app/controllers/auth_controller.py:63-68 REGISTER_ERROR_RESPONSES *)
Definition REGISTER_ERROR_RESPONSES : list Z := [403; 409; 422; 429].
(* src: backend/app/controllers/auth_controller.py:69-74 LOGIN_ERROR_RESPONSES *)
Definition LOGIN_ERROR_RESPONSES : list Z := [401; 403; 422; 429].
(* src: backend/app/controllers/auth_controller.py:75-77 LOGOUT_ERROR_RESPONSES *)
Definition LOGOUT_ERROR_RESPONSES : list Z := [403].
(* src: backend/app/controllers/auth_controller.py:78-84 DELETE_ACCOUNT_ERROR_RESPONSES *)
Definition DELETE_ACCOUNT_ERROR_RESPONSES : list Z := [400; 401; 403; 422; 429].
(* src: backend/app/controllers/admin_user_controller.py:22-30 ADMIN_USER_ERROR_RESPONSES *)
Definition ADMIN_USER_ERROR_RESPONSES : list Z := [401; 403; 404; 409; 422].
(* src: backend/app/controllers/authorization_controller.py:22-29 ADMIN_ERROR_RESPONSES *)
Definition ADMIN_ERROR_RESPONSES : list Z := [401; 403; 404; 422].
(* src: backend/app/controllers/sample_controller.py:17-23 LIST_ERROR_RESPONSES *)
Definition LIST_ERROR_RESPONSES : list Z := [400; 401; 422].
(* src: backend/app/controllers/sample_controller.py:24-28 CREATE_ERROR_RESPONSES *)
Definition CREATE_ERROR_RESPONSES : list Z := [401; 403; 422].
(* src: backend/app/controllers/sample_controller.py:29-33 GET_ITEM_ERROR_RESPONSES *)
Definition GET_ITEM_ERROR_RESPONSES : list Z := [401; 404; 422].
(* src: backend/app/controllers/sample_controller.py:34-39 UPDATE_ERROR_RESPONSES *)
Definition UPDATE_ERROR_RESPONSES : list Z := [401; 403; 404; 422].
(* src: backend/app/controllers/sample_controller.py:40-40 DELETE_ERROR_RESPONSES *)
Definition DELETE_ERROR_RESPONSES : list Z := UPDATE_ERROR_RESPONSES.

Section Routes.
Context {P : Pydantic}.

(** A route without parameters, query or body that can be refused. *)
Definition constant (c : api_call) : captures -> list (string * string) -> http_body -> Validated api_call :=
  fun _ _ _ => accept c.

(** ** The authentication routes *)

Definition provider_id_of (c : captures) : string := captured "provider_id" c.

(* src: backend/app/controllers/auth_controller.py:316-316 list_oidc_providers *)
Definition list_oidc_providers_route : route :=
  mkRoute "GET" [Lit "oidc"; Lit "providers"] [200] [] Public false (constant (AuthCall ListOidcProviders)).

(* src: backend/app/controllers/auth_controller.py:330-335 start_oidc_login *)
Definition start_oidc_login_route : route :=
  mkRoute "GET" [Lit "oidc"; Param "provider_id"; Lit "start"] [303] OIDC_REDIRECT_ERROR_RESPONSES Public false
    (fun c query _ =>
      accept (fun redirect language_code =>
        AuthCall (StartOidcLogin (provider_id_of c) redirect language_code))
      <*> query_str "redirect" None query
      <*> query_str "language_code" None query).

(* src: backend/app/controllers/auth_controller.py:368-372 start_oidc_reauth *)
Definition start_oidc_reauth_route : route :=
  mkRoute "GET" [Lit "oidc"; Param "provider_id"; Lit "reauth"] [303] OIDC_REDIRECT_ERROR_RESPONSES Public false
    (fun c query _ =>
      accept (fun redirect => AuthCall (StartOidcReauth (provider_id_of c) redirect))
      <*> query_str "redirect" None query).

(** [error_description] is only logged. *)
(* src: backend/app/controllers/auth_controller.py:412-419 complete_oidc_callback *)
Definition complete_oidc_callback_route : route :=
  mkRoute "GET" [Lit "oidc"; Param "provider_id"; Lit "callback"] [303] OIDC_REDIRECT_ERROR_RESPONSES Public false
    (fun c query _ =>
      accept (fun state code error => AuthCall (CompleteOidcCallback (provider_id_of c) state code error))
      <*> query_str "state" None query
      <*> query_str "code" None query
      <*> query_str "error" None query).

(* src: backend/app/controllers/auth_controller.py:538-538 get_csrf *)
Definition get_csrf_route : route :=
  mkRoute "GET" [Lit "csrf"] [200] [] Public false (constant (AuthCall GetCsrf)).

(* src: backend/app/controllers/auth_controller.py:575-578 get_me *)
Definition get_me_route : route :=
  mkRoute "GET" [Lit "me"] [200] ME_ERROR_RESPONSES CurrentSession false (constant (AuthCall GetMe)).

(* src: backend/app/controllers/auth_controller.py:584-590 update_me *)
Definition update_me_route : route :=
  mkRoute "PATCH" [Lit "me"] [200] ME_ERROR_RESPONSES CurrentSession true
    (fun _ _ body => validated_map (fun changes => AuthCall (UpdateMe changes)) (update_auth_user_request body)).

(* src: backend/app/controllers/auth_controller.py:602-611 delete_me *)
Definition delete_me_route : route :=
  mkRoute "DELETE" [Lit "me"] [204] DELETE_ACCOUNT_ERROR_RESPONSES CurrentSession true
    (fun _ _ body =>
      validated_map (fun payload => AuthCall (DeleteMe (ad_confirm_email payload) (ad_password payload)))
        (account_deletion_request body)).

(* src: backend/app/controllers/auth_controller.py:667-679 register *)
Definition register_route : route :=
  mkRoute "POST" [Lit "register"] [201] REGISTER_ERROR_RESPONSES Public true
    (fun _ _ body =>
      validated_map (fun payload =>
        AuthCall (Register (rg_email payload) (rg_password payload) (rg_language_code payload)))
        (register_request body)).

(* src: backend/app/controllers/auth_controller.py:725-736 login *)
Definition login_route : route :=
  mkRoute "POST" [Lit "login"] [200] LOGIN_ERROR_RESPONSES Public true
    (fun _ _ body =>
      validated_map (fun payload => AuthCall (Login (lg_email payload) (lg_password payload)))
        (login_request body)).

(* src: backend/app/controllers/auth_controller.py:779-789 logout *)
Definition logout_route : route :=
  mkRoute "POST" [Lit "logout"] [204] LOGOUT_ERROR_RESPONSES Public false (constant (AuthCall Logout)).

(** A router's routes in the order of its module, behind its prefix. *)
Definition behind (prefix : list segment) (routes : list route) : list route :=
  map (fun r => mkRoute (rt_method r) (prefix ++ rt_path r) (rt_statuses r) (rt_errors r)
                  (rt_access r) (rt_takes_body r) (rt_call r)) routes.

(* src: backend/app/controllers/auth_controller.py:51-51 router *)
Definition auth_router : list route :=
  behind [Lit "auth"]
    [list_oidc_providers_route; start_oidc_login_route; start_oidc_reauth_route;
     complete_oidc_callback_route; get_csrf_route; get_me_route; update_me_route; delete_me_route;
     register_route; login_route; logout_route].

(** ** The administration routes *)

Definition with_user_id (f : Z -> admin_call) (c : captures) : Validated api_call :=
  validated_map (fun user_id => AdminCall (f user_id)) (path_uuid "user_id" (captured "user_id" c)).

(* src: backend/app/controllers/admin_user_controller.py:38-46 list_admin_users *)
Definition list_admin_users_route : route :=
  mkRoute "GET" [] [200] ADMIN_USER_ERROR_RESPONSES AdminAccess false
    (fun _ query _ =>
      accept (fun offset limit text role is_active =>
        AdminCall (ListAdminUsers offset limit text role is_active))
      <*> query_int "offset" 0 0 None query
      <*> query_int "limit" 20 1 (Some 100) query
      <*> query_str "query" (Some 320) query
      <*> query_str "role" (Some 64) query
      <*> query_bool "is_active" query).

(* src: backend/app/controllers/admin_user_controller.py:72-85 create_admin_user *)
Definition create_admin_user_route : route :=
  mkRoute "POST" [] [201] ADMIN_USER_ERROR_RESPONSES AdminAccess true
    (fun _ _ body =>
      validated_map (fun payload =>
        AdminCall (CreateAdminUser (ac_email payload) (ac_password payload) (ac_is_active payload)
                     (ac_roles payload))) (admin_user_create_request body)).

(* src: backend/app/controllers/admin_user_controller.py:106-111 get_admin_user *)
Definition get_admin_user_route : route :=
  mkRoute "GET" [Param "user_id"] [200] ADMIN_USER_ERROR_RESPONSES AdminAccess false
    (fun c _ _ => with_user_id GetAdminUser c).

(* src: backend/app/controllers/admin_user_controller.py:119-127 update_admin_user *)
Definition update_admin_user_route : route :=
  mkRoute "PATCH" [Param "user_id"] [200] ADMIN_USER_ERROR_RESPONSES AdminAccess true
    (fun c _ body =>
      accept (fun user_id changes => AdminCall (UpdateAdminUser user_id changes))
      <*> path_uuid "user_id" (captured "user_id" c)
      <*> admin_user_update_request body).

(* src: backend/app/controllers/admin_user_controller.py:154-161 delete_admin_user *)
Definition delete_admin_user_route : route :=
  mkRoute "DELETE" [Param "user_id"] [204] ADMIN_USER_ERROR_RESPONSES AdminAccess false
    (fun c _ _ => with_user_id DeleteAdminUser c).

(* src: backend/app/controllers/admin_user_controller.py:35-35 router *)
Definition admin_user_router : list route :=
  behind [Lit "admin"; Lit "users"]
    [list_admin_users_route; create_admin_user_route; get_admin_user_route; update_admin_user_route;
     delete_admin_user_route].

(* src: backend/app/controllers/authorization_controller.py:37-41 list_roles *)
Definition list_roles_route : route :=
  mkRoute "GET" [Lit "roles"] [200] ADMIN_ERROR_RESPONSES AdminAccess false (constant (AdminCall ListRoles)).

(* src: backend/app/controllers/authorization_controller.py:50-59 get_user_roles *)
Definition get_user_roles_route : route :=
  mkRoute "GET" [Lit "users"; Param "user_id"; Lit "roles"] [200] ADMIN_ERROR_RESPONSES AdminAccess false
    (fun c _ _ => with_user_id GetUserRoles c).

(* src: backend/app/controllers/authorization_controller.py:67-79 replace_user_roles *)
Definition replace_user_roles_route : route :=
  mkRoute "PUT" [Lit "users"; Param "user_id"; Lit "roles"] [200] ADMIN_ERROR_RESPONSES AdminAccess true
    (fun c _ body =>
      accept (fun user_id roles => AdminCall (ReplaceUserRoles user_id roles))
      <*> path_uuid "user_id" (captured "user_id" c)
      <*> user_role_replace_request body).

(* src: backend/app/controllers/authorization_controller.py:34-34 router *)
Definition authorization_router : list route :=
  behind [Lit "admin"] [list_roles_route; get_user_roles_route; replace_user_roles_route].

(** ** The sample routes *)

Definition with_item_id (f : Z -> sample_call) (c : captures) : Validated api_call :=
  validated_map (fun item_id => SampleCall (f item_id)) (path_uuid "item_id" (captured "item_id" c)).

(* src: backend/app/controllers/sample_controller.py:47-53 list_sample_items *)
Definition list_sample_items_route : route :=
  mkRoute "GET" [] [200] LIST_ERROR_RESPONSES CurrentSession false
    (fun _ query _ =>
      accept (fun limit cursor => SampleCall (ListSampleItems limit cursor))
      <*> query_int "limit" 20 1 (Some 100) query
      <*> query_str "cursor" None query).

(* src: backend/app/controllers/sample_controller.py:68-79 create_sample_item *)
Definition create_sample_item_route : route :=
  mkRoute "POST" [] [201] CREATE_ERROR_RESPONSES CurrentSession true
    (fun _ _ body =>
      validated_map (fun payload => SampleCall (CreateSampleItem (sc_title payload) (sc_description payload)))
        (sample_item_create_request body)).

(* src: backend/app/controllers/sample_controller.py:89-94 get_sample_item *)
Definition get_sample_item_route : route :=
  mkRoute "GET" [Param "item_id"] [200] GET_ITEM_ERROR_RESPONSES CurrentSession false
    (fun c _ _ => with_item_id GetSampleItem c).

(* src: backend/app/controllers/sample_controller.py:102-108 update_sample_item *)
Definition update_sample_item_route : route :=
  mkRoute "PATCH" [Param "item_id"] [200] UPDATE_ERROR_RESPONSES CurrentSession true
    (fun c _ body =>
      accept (fun item_id changes => SampleCall (UpdateSampleItem item_id changes))
      <*> path_uuid "item_id" (captured "item_id" c)
      <*> sample_item_update_request body).

(* src: backend/app/controllers/sample_controller.py:122-127 delete_sample_item *)
Definition delete_sample_item_route : route :=
  mkRoute "DELETE" [Param "item_id"] [204] DELETE_ERROR_RESPONSES CurrentSession false
    (fun c _ _ => with_item_id DeleteSampleItem c).

(* src: backend/app/controllers/sample_controller.py:44-44 router *)
Definition sample_router : list route :=
  behind [Lit "samples"]
    [list_sample_items_route; create_sample_item_route; get_sample_item_route; update_sample_item_route;
     delete_sample_item_route].

(** ** All routes *)

(* src: backend/app/controllers/healthz_controller.py:6-15 healthz *)
Definition healthz_router : list route :=
  [mkRoute "GET" [Lit "healthz"] [200] [404] Public false (constant Healthz)].

(* src: backend/app/bootstrap/route.py:120-128 _setup_api_routes *)
Definition api_routes : list route :=
  behind [Lit "api"]
    (admin_user_router ++ authorization_router ++ auth_router ++ healthz_router ++ sample_router).

(* src: backend/app/bootstrap/route.py:67-68 setup_routes *)
Definition app_routes : list route := healthz_router ++ api_routes.
End Routes.

(** ** Finding a route *)

(** The segments of a path below its leading slash; without one it fits no route. *)
Definition path_segments (path : string) : list string :=
  match split "/" path with
  | s :: segments => if truthy s then ""%string :: s :: segments else segments
  | [] => []
  end.

Fixpoint match_path (template : list segment) (segments : list string) : option captures :=
  match template, segments with
  | [], [] => Some []
  | Lit s :: template', s' :: segments' =>
      if (s =? s')%string then match_path template' segments' else None
  | Param name :: template', s' :: segments' =>
      if truthy s' then cons (name, s') <$> match_path template' segments' else None
  | _, _ => None
  end.

Fixpoint find_route (routes : list route) (method : string) (segments : list string)
  : option (route * captures) :=
  match routes with
  | [] => None
  | r :: routes' =>
      match (if (rt_method r =? method)%string then match_path (rt_path r) segments else None) with
      | Some c => Some (r, c)
      | None => find_route routes' method segments
      end
  end.

(** ** The application *)

Section Application.
Context `{E : Env} {L : Type} `{R : LoginRateLimiter L} `{PC : OidcProviderClient L} {C : CursorCodec}.
Context {P : Pydantic}.
Context (auth_settings : AuthSettings) (oidc_settings : OidcSettings).
Context (is_ipv6 : string -> bool) (utf8_decode : list ascii -> list ascii).
(** What answers where no route fits: the files of the single-page application, or
    Starlette's own responses. *)
Context (no_route : App L).

Definition dependency (a : access) (request : Request) : Web L unit :=
  match a with
  | Public => mret tt
  | CurrentSession => _ ← require_current_session auth_settings request; mret tt
  | AdminAccess => _ ← require_admin_access auth_settings request; mret tt
  end.

(** Parameters that are refused: the dependencies may fail before. *)
(* src: backend/app/bootstrap/error_handlers.py:51-54 register_error_handlers *)
Definition refused (a : access) (errors : list validation_error) : App L := fun request w =>
  match dependency a request w with
  | (Done _, w') => (validation_exception_handler request errors, w')
  | (Failed (HttpError exc), w') => (http_exception_handler request exc, w')
  | (Failed (Uncaught _), w') => (unhandled_exception_handler request, w')
  end.

(** What FastAPI raises for a body whose reading fails otherwise than as JSON: an
    [HTTPException] with a text, which the application's handler answers. *)
Definition body_parse_error : HTTPException :=
  HttpException 400 (DetailText "There was an error parsing the body") [].

(** A route that takes a body reads it before anything else: a text that is no JSON is a
    validation error, a body that cannot be read at all is [body_parse_error]. *)
Definition run_route (r : route) (c : captures) (query : list (string * string)) (body : http_body) : App L :=
  fun request w =>
    match body, rt_takes_body r with
    | InvalidJson position, true =>
        (validation_exception_handler request
           [ValidationError [LocStr "body"; LocInt position] (Some (error_message "json_invalid"))
              (Some "json_invalid"%string)], w)
    | UnparsableBody, true => (http_exception_handler request body_parse_error, w)
    | _, _ =>
        match rt_call r c query body with
        | inl errors => refused (rt_access r) errors request w
        | inr call => handled (api_endpoint auth_settings oidc_settings is_ipv6 utf8_decode call) request w
        end
    end.

(* src: backend/app/bootstrap/create_app.py:67-70 create_app *)
Definition application (query : list (string * string)) (body : http_body) : App L :=
  CSRFMiddleware auth_settings (fun request =>
    match find_route app_routes (rq_method request) (path_segments (route_path request)) with
    | Some (r, c) => run_route r c query body request
    | None => no_route request
    end).
End Application.
