(* ===== verification/RoutesSpec.v ===== *)
(** * What the routes accept and answer

    Which calls of the endpoints a request over HTTP can make, and what the application
    answers: a call arrives exactly when its arguments are within the declared limits,
    refused parameters change nothing, every route that writes needs a CSRF token, and
    every status is documented. *)

From S2P Require Import Prelude PyStr Errors Codecs Url UrlQuery Tables Settings Effects Interfaces Http.
From S2P Require Import ErrorHandlers AdminUserRepository AuthUsecase SampleItemUsecase Guards.
From S2P Require Import AuthController AdminControllers Application Schemas Routes Demo.

(** ** Validation *)

Section Validation.
Context {P : Pydantic}.

Lemma both_accepts {A B} (f : Validated (A -> B)) x b :
  f <*> x = inr b <-> exists g a, f = inr g /\ x = inr a /\ b = g a.
Proof.
  split.
  - destruct f as [e|g], x as [e'|a]; try done. intros [= <-]. by exists g, a.
  - by intros (g & a & -> & -> & ->).
Qed.

Lemma map_accepts {A B} (f : A -> B) x b : validated_map f x = inr b <-> exists a, x = inr a /\ b = f a.
Proof.
  unfold validated_map. rewrite both_accepts. split.
  - intros (g & a & [= <-] & Hx & Hb). by exists a.
  - intros (a & Hx & Hb). by exists f, a.
Qed.

(** Every value that is accepted satisfies [Q]. *)
Definition yields {A} (Q : A -> Prop) (x : Validated A) : Prop := forall a, x = inr a -> Q a.

Lemma yields_accept {A} (Q : A -> Prop) a : Q a -> yields Q (accept a).
Proof. by intros H ? [= <-]. Qed.
Lemma yields_refuse {A} (Q : A -> Prop) loc t : yields Q (refuse (A := A) loc t).
Proof. by intros ? [=]. Qed.
Lemma yields_both {A B} (Q : (A -> B) -> Prop) (R : A -> Prop) (S : B -> Prop) f x :
  yields Q f -> yields R x -> (forall g a, Q g -> R a -> S (g a)) -> yields S (f <*> x).
Proof. intros Hf Hx H b (g & a & Eg & Ea & ->)%both_accepts. eauto. Qed.
Lemma yields_map {A B} (Q : B -> Prop) (f : A -> B) x : yields (fun a => Q (f a)) x -> yields Q (validated_map f x).
Proof. intros H b (a & Ha & ->)%map_accepts. eauto. Qed.
Lemma yields_impl {A} (Q R : A -> Prop) x : yields Q x -> (forall a, Q a -> R a) -> yields R x.
Proof. intros H HQ a Ha. eauto. Qed.

(** ** Fields *)

Definition len_within (lo hi : Z) (s : string) : Prop := lo <= str_len s <= hi.
Definition supported (s : string) : Prop := is_supported_language_code s = true.

Lemma bounded_str_yields lo hi loc v : yields (len_within lo hi) (bounded_str lo hi loc v).
Proof.
  destruct v; try apply yields_refuse. unfold bounded_str. destruct (_ <? _) eqn:E1; [apply yields_refuse|].
  destruct (hi <? _) eqn:E2; [apply yields_refuse|]. apply yields_accept. unfold len_within. bool_to_prop. lia.
Qed.
Lemma language_yields loc v : yields supported (LanguageCode loc v).
Proof.
  destruct v; try apply yields_refuse. unfold LanguageCode. destruct (is_supported_language_code s) eqn:E;
    [by apply yields_accept|apply yields_refuse].
Qed.

Lemma each_length {A} (t : field_type A) loc i l : yields (fun r => length r = length l) (each t loc i l).
Proof.
  revert i. induction l as [|v l IH]; intros i; cbn [each]; [by apply yields_accept|].
  intros r (g & a & (g' & b & [= <-] & _ & ->)%both_accepts & Ha & ->)%both_accepts.
  simpl. f_equal. by apply (IH (i + 1)).
Qed.
Lemma str_list_yields n loc v : yields (fun l => Z.of_nat (length l) <= n) (str_list n loc v).
Proof.
  destruct v; try apply yields_refuse. unfold str_list. destruct (_ <? _) eqn:E; [apply yields_refuse|].
  intros r Hr%each_length. bool_to_prop. lia.
Qed.

Definition if_some {A} (Q : A -> Prop) (o : option A) : Prop := forall a, o = Some a -> Q a.
Lemma optional_yields {A} (Q : A -> Prop) (t : field_type A) loc v :
  yields Q (t loc v) -> yields (if_some Q) (optional t loc v).
Proof.
  intros H. destruct v; try (by apply yields_accept); simpl; apply yields_map; intros a Ha a' [= <-]; by apply H.
Qed.

Lemma body_field_yields {A} (Q : A -> Prop) name dflt (t : field_type A) body :
  (forall loc v, yields Q (t loc v)) -> (forall a, dflt = Some a -> Q a) ->
  yields Q (body_field name dflt t body).
Proof.
  intros Ht Hd. unfold body_field. destruct (json_get name body) as [v|]; [apply Ht|].
  destruct dflt; [apply yields_accept; by apply Hd|apply yields_refuse].
Qed.

(** A field of a PATCH that may not be null: sent, or absent. *)
Lemma patch_field_yields {A} (Q : A -> Prop) name (t : field_type A) body :
  (forall loc v, yields Q (t loc v)) ->
  yields (fun o => if_some Q o /\ (is_Some o <-> name ∈ map fst body))
    (body_field name (Some None) (reject_null (optional t)) body).
Proof.
  intros Ht o. unfold body_field.
  assert (is_Some (json_get name body) <-> name ∈ map fst body) as Hget.
  { clear. induction body as [|[k v] body IH]; simpl.
    - rewrite elem_of_nil. split; [by intros [? [=]]|done].
    - case_decide; subst; rewrite elem_of_cons; [split; [by left|by eexists]|]. rewrite IH.
      split; [by right|]. intros [->|?]; done. }
  destruct (json_get name body) as [v|] eqn:Ev.
  - intros H. split.
    + destruct v; try done; revert H; by apply optional_yields.
    + rewrite <- Hget. split; [by eexists|]. intros _. destruct v; simpl in H; try done;
        apply map_accepts in H as (a & _ & ->); by eexists.
  - intros [= <-]. split; [done|]. rewrite <- Hget. split; by intros [? [=]].
Qed.
End Validation.

(** Splits what was accepted into its parts. *)
Ltac accepted := repeat match goal with
  | H : _ <*> _ = inr _ |- _ => apply both_accepts in H as (? & ? & ? & ? & ->)
  | H : validated_map _ _ = inr _ |- _ => apply map_accepts in H as (? & ? & ->)
  | H : accept _ = inr _ |- _ => injection H as <-
  end.

(** ** Calls within the limits *)

(** What the conversions are relied on for. *)
Class PydanticLaws (P : Pydantic) : Prop := {
  email_normalised : forall s a, email_of_text s = Some a -> email_of_text a = Some a;
  json_booleans : forall b, bool_of_json (JBool b) = Some b;
  text_booleans : forall b : bool, bool_of_text (if b then "true" else "false") = Some b;
  text_integers : forall n, int_of_text (pretty n) = Some n;
  text_uuids : forall id, 0 <= id < 2 ^ 128 -> uuid_of_text (uuid_str id) = Some id;
  uuids_bounded : forall s id, uuid_of_text s = Some id -> 0 <= id < 2 ^ 128;
}.

Section Limits.
Context {P : Pydantic}.

Definition address (s : string) : Prop := email_of_text s = Some s.
Definition identifier (id : Z) : Prop := 0 <= id < 2 ^ 128.
(** A text that is one segment of a path. *)
Definition one_segment (s : string) : Prop := s <> ""%string /\ mem_char "/" (chars s) = false.

(** A field that was sent has a value, and no other field was sent. *)
Definition sent {A} (set : gset string) (name : string) (v : option A) : Prop := is_Some v <-> name ∈ set.
Definition only (set : gset string) (names : list string) : Prop := forall k, k ∈ set -> k ∈ names.

Definition changes_fit (ch : AdminUserUpdateChanges) : Prop :=
  if_some address (ch_email ch) /\ if_some (len_within 12 128) (ch_password ch)
  /\ if_some (fun l => Z.of_nat (length l) <= 100) (ch_roles ch)
  /\ sent (ch_fields_set ch) "email" (ch_email ch) /\ sent (ch_fields_set ch) "password" (ch_password ch)
  /\ sent (ch_fields_set ch) "is_active" (ch_is_active ch) /\ sent (ch_fields_set ch) "roles" (ch_roles ch)
  /\ only (ch_fields_set ch) ["email"; "password"; "is_active"; "roles"]%string.

Definition item_changes_fit (ch : SampleItemUpdateChanges) : Prop :=
  if_some (len_within 1 120) (it_ch_title ch) /\ if_some (len_within 0 1000) (it_ch_description ch)
  /\ sent (it_ch_fields_set ch) "title" (it_ch_title ch)
  /\ sent (it_ch_fields_set ch) "is_completed" (it_ch_is_completed ch)
  /\ (is_Some (it_ch_description ch) -> "description"%string ∈ it_ch_fields_set ch)
  /\ only (it_ch_fields_set ch) ["title"; "description"; "is_completed"]%string.

Definition auth_call_fits (c : auth_call) : Prop :=
  match c with
  | StartOidcLogin pid _ _ | StartOidcReauth pid _ | CompleteOidcCallback pid _ _ _ => one_segment pid
  | UpdateMe ch => if_some supported (up_language_code ch)
      /\ sent (up_fields_set ch) "language_code" (up_language_code ch)
      /\ only (up_fields_set ch) ["language_code"%string]
  | DeleteMe email password => address email /\ if_some (len_within 0 128) password
  | Register email password language_code =>
      address email /\ len_within 12 128 password /\ supported language_code
  | Login email password => address email /\ len_within 0 128 password
  | _ => True
  end.

Definition admin_call_fits (c : admin_call) : Prop :=
  match c with
  | ListRoles => True
  | GetUserRoles id | GetAdminUser id | DeleteAdminUser id => identifier id
  | ReplaceUserRoles id roles => identifier id /\ Z.of_nat (length roles) <= 100
  | ListAdminUsers offset limit text role _ =>
      0 <= offset /\ 1 <= limit <= 100
      /\ if_some (fun s => str_len s <= 320) text /\ if_some (fun s => str_len s <= 64) role
  | CreateAdminUser email password _ roles =>
      address email /\ len_within 12 128 password /\ Z.of_nat (length roles) <= 100
  | UpdateAdminUser id ch => identifier id /\ changes_fit ch
  end.

Definition sample_call_fits (c : sample_call) : Prop :=
  match c with
  | ListSampleItems limit _ => 1 <= limit <= 100
  | CreateSampleItem title description => len_within 1 120 title /\ if_some (len_within 0 1000) description
  | GetSampleItem id | DeleteSampleItem id => identifier id
  | UpdateSampleItem id ch => identifier id /\ item_changes_fit ch
  end.

Definition call_fits (c : api_call) : Prop :=
  match c with
  | AuthCall c => auth_call_fits c
  | AdminCall c => admin_call_fits c
  | SampleCall c => sample_call_fits c
  | Healthz => True
  end.

(** ** What arrives is within the limits *)

Context {Laws : PydanticLaws P}.

Lemma email_yields loc v : yields address (email_str loc v).
Proof.
  destruct v; try apply yields_refuse. unfold email_str. destruct (email_of_text s) as [a|] eqn:E;
    [|apply yields_refuse]. apply yields_accept. by eapply email_normalised.
Qed.
Lemma uuid_yields name text : yields identifier (path_uuid name text).
Proof.
  unfold path_uuid. destruct (uuid_of_text text) as [id|] eqn:E; [|apply yields_refuse].
  apply yields_accept. by eapply uuids_bounded.
Qed.
Lemma query_int_yields name dflt ge le query :
  ge <= dflt -> from_option (fun m => dflt <= m) True le ->
  yields (fun n => ge <= n /\ from_option (fun m => n <= m) True le) (query_int name dflt ge le query).
Proof.
  intros H1 H2. unfold query_int. destruct (query_get name query); [|by apply yields_accept].
  destruct (int_of_text s) as [n|]; [|apply yields_refuse]. destruct (n <? ge) eqn:E1; [apply yields_refuse|].
  destruct le as [m|]; simpl in *; [destruct (m <? n) eqn:E2; [apply yields_refuse|]|];
    apply yields_accept; bool_to_prop; split; done || lia.
Qed.
Lemma query_str_yields name m query :
  yields (if_some (fun s => str_len s <= m)) (query_str name (Some m) query).
Proof.
  unfold query_str. destruct (query_get name query); [|by apply yields_accept]. simpl.
  destruct (_ <? _) eqn:E; [apply yields_refuse|]. apply yields_accept. intros ? [= <-]. bool_to_prop. lia.
Qed.

Lemma forbid_extra_yields names body :
  yields (fun _ => forall k, k ∈ map fst body -> k ∈ names) (forbid_extra names body).
Proof.
  induction body as [|[k v] body IH]; cbn [forbid_extra map fst].
  - apply yields_accept. intros k Hk. by apply not_elem_of_nil in Hk.
  - intros u (g & a & Hg & Ha & _)%both_accepts k'. destruct (existsb _ names) eqn:Ee; [|done].
    intros [->|Hk]%elem_of_cons; [|by eapply IH].
    apply existsb_exists in Ee as (x & Hx & ->%String.eqb_eq). by apply list_elem_of_In.
Qed.
Lemma parse_body_yields {A} (Q : A -> Prop) names schema body :
  (forall fields, (forall k, k ∈ map fst fields -> k ∈ names) -> yields Q (schema fields)) ->
  yields Q (parse_body names schema body).
Proof.
  intros H. destruct body as [| | | |v]; try apply yields_refuse.
  destruct v as [| | | | |fields]; try apply yields_refuse.
  intros a ([x u] & Hx & ->)%map_accepts.
  apply both_accepts in Hx as (g & u' & (g' & x' & [= <-] & Hx & ->)%both_accepts & Hu & [= -> ->]).
  eapply H; [|exact Hx]. by eapply forbid_extra_yields.
Qed.

(** What a field that was accepted satisfies. *)
Lemma boolean_yields loc v : yields (fun _ => True) (boolean loc v).
Proof. done. Qed.
Ltac value_fits := match goal with
  | |- yields _ (optional _ _ _) => apply optional_yields; value_fits
  | |- _ => first [ apply email_yields | apply bounded_str_yields | apply str_list_yields
                  | apply language_yields | apply boolean_yields ]
  end.
Ltac field_fits := match goal with
  | H : body_field ?n (Some None) (reject_null (optional ?t)) ?b = inr _ |- _ =>
      eapply (patch_field_yields _ n t b ltac:(intros ? ?; value_fits)) in H; destruct H
  | H : body_field ?n ?d ?t ?b = inr _ |- _ =>
      eapply (body_field_yields _ n d t b ltac:(intros ? ?; value_fits)
        ltac:(intros ? [=]; subst; first [done | by intros ? [=]])) in H
  end.

Lemma keys_set names (fields : list (string * json)) :
  (forall k, k ∈ map fst fields -> k ∈ names) -> only (fields_set fields) names.
Proof. intros H k Hk%elem_of_list_to_set. by apply H. Qed.
Lemma sent_set {A} fields name (v : option A) :
  (is_Some v <-> name ∈ map fst fields) -> sent (fields_set fields) name v.
Proof. intros H. unfold sent, fields_set. by rewrite elem_of_list_to_set. Qed.

Lemma register_fits body : yields (fun r => address (rg_email r) /\ len_within 12 128 (rg_password r)
  /\ supported (rg_language_code r)) (register_request body).
Proof.
  apply parse_body_yields. intros fields _ r H. accepted. by repeat field_fits.
Qed.
Lemma login_fits body :
  yields (fun r => address (lg_email r) /\ len_within 0 128 (lg_password r)) (login_request body).
Proof. apply parse_body_yields. intros fields _ r H. accepted. by repeat field_fits. Qed.
Lemma account_deletion_fits body :
  yields (fun r => address (ad_confirm_email r) /\ if_some (len_within 0 128) (ad_password r))
    (account_deletion_request body).
Proof.
  apply parse_body_yields. intros fields _ r H. accepted. by repeat field_fits.
Qed.
Lemma update_auth_user_fits body :
  yields (fun ch => auth_call_fits (UpdateMe ch)) (update_auth_user_request body).
Proof.
  apply parse_body_yields. intros fields Hk r H. accepted. repeat field_fits. simpl.
  split_and!; [done|by apply sent_set|by apply keys_set].
Qed.
Lemma admin_user_create_fits body :
  yields (fun r => address (ac_email r) /\ len_within 12 128 (ac_password r)
    /\ Z.of_nat (length (ac_roles r)) <= 100) (admin_user_create_request body).
Proof.
  apply parse_body_yields. intros fields _ r H. accepted. by repeat field_fits.
Qed.
Lemma admin_user_update_fits body : yields changes_fit (admin_user_update_request body).
Proof.
  apply parse_body_yields. intros fields Hk r H. accepted. repeat field_fits. unfold changes_fit. simpl.
  split_and!; try done; try (by apply sent_set). by apply keys_set.
Qed.
Lemma role_replace_fits body :
  yields (fun l => Z.of_nat (length l) <= 100) (user_role_replace_request body).
Proof. apply parse_body_yields. intros fields _ r H. by field_fits. Qed.
Lemma item_create_fits body :
  yields (fun r => len_within 1 120 (sc_title r) /\ if_some (len_within 0 1000) (sc_description r))
    (sample_item_create_request body).
Proof. apply parse_body_yields. intros fields _ r H. accepted. by repeat field_fits. Qed.

(** [description] may be null. *)
Lemma description_sent {A} (t : field_type A) name body o :
  body_field name (Some None) (optional t) body = inr o -> is_Some o -> name ∈ map fst body.
Proof.
  unfold body_field. destruct (json_get name body) as [v|] eqn:Ev; [|by intros [= <-] [? [=]]].
  intros _ _. clear -Ev. induction body as [|[k x] body IH]; simpl in *; [done|].
  case_decide; [subst; left|right; by apply IH].
Qed.

Lemma item_update_fits body : yields item_changes_fit (sample_item_update_request body).
Proof.
  apply parse_body_yields. intros fields Hk r H. accepted.
  match goal with H : body_field "description" _ _ _ = _ |- _ => pose proof (description_sent _ _ _ _ H) end.
  repeat field_fits. unfold item_changes_fit. simpl. split_and!; try done; try (by apply sent_set).
  - intros Hd. apply elem_of_list_to_set. auto.
  - by apply keys_set.
Qed.

(** ** Routes *)

Definition route_sound (r : route) : Prop := forall c query body,
  (forall name, Param name ∈ rt_path r -> one_segment (captured name c)) ->
  yields call_fits (rt_call r c query body).

Lemma match_captured template segments c name :
  match_path template segments = Some c -> Param name ∈ template ->
  captured name c <> ""%string /\ captured name c ∈ segments.
Proof.
  revert segments c. induction template as [|[s|n] t IH]; intros segments c;
    [intros _ H; by apply not_elem_of_nil in H|..]; destruct segments as [|x segments]; simpl; try done.
  - destruct (s =? x)%string; [|done]. intros Hm [[=]|Hin]%elem_of_cons.
    destruct (IH _ _ Hm Hin). split; [done|by right].
  - destruct (truthy x) eqn:Hx; [|done]. intros (c' & Hm & ->)%fmap_Some Hin. unfold captured. simpl.
    destruct (n =? name)%string eqn:En; simpl.
    + split; [by apply truthy_spec|by left].
    + apply String.eqb_neq in En. apply elem_of_cons in Hin as [[= ->]|Hin]; [done|].
      destruct (IH _ _ Hm Hin). split; [done|by right].
Qed.

Lemma captured_one_segment template segments c name :
  Forall (fun s => mem_char "/" (chars s) = false) segments ->
  match_path template segments = Some c -> Param name ∈ template -> one_segment (captured name c).
Proof.
  intros Hs Hm Hin. destruct (match_captured _ _ _ _ Hm Hin) as [Hne Hc]. split; [done|].
  by eapply (proj1 (Forall_forall _ _) Hs).
Qed.

Ltac call_fits := match goal with
  | H : register_request _ = _ |- _ => by apply register_fits in H
  | H : login_request _ = _ |- _ => by apply login_fits in H
  | H : account_deletion_request _ = _ |- _ => by apply account_deletion_fits in H
  | H : update_auth_user_request _ = _ |- _ => by apply update_auth_user_fits in H
  | H : admin_user_create_request _ = _ |- _ => by apply admin_user_create_fits in H
  | H : path_uuid _ _ = _, H2 : admin_user_update_request _ = _ |- _ =>
      by apply uuid_yields in H; apply admin_user_update_fits in H2
  | H : path_uuid _ _ = _, H2 : user_role_replace_request _ = _ |- _ =>
      by apply uuid_yields in H; apply role_replace_fits in H2
  | H : path_uuid _ _ = _, H2 : sample_item_update_request _ = _ |- _ =>
      by apply uuid_yields in H; apply item_update_fits in H2
  | H : sample_item_create_request _ = _ |- _ => by apply item_create_fits in H
  | H : path_uuid _ _ = _ |- _ => by apply uuid_yields in H
  | _ => done
  end.

Lemma behind_sound prefix routes : Forall route_sound routes -> Forall route_sound (behind prefix routes).
Proof.
  intros H. apply Forall_map. eapply Forall_impl; [exact H|]. intros r Hr c query body Hc. apply Hr.
  intros name Hin. apply Hc. apply elem_of_app. by right.
Qed.

Ltac route_fits :=
  match goal with |- route_sound ?r => let r' := eval hnf in r in change r with r' end;
  intros c query body Hc a H; cbn [rt_call rt_path] in H, Hc;
  unfold constant, with_user_id, with_item_id in H; accepted; try call_fits;
  try (apply Hc; set_solver).

Lemma routes_sound : Forall route_sound app_routes.
Proof.
  unfold app_routes, api_routes, admin_user_router, authorization_router, auth_router, sample_router.
  repeat first [apply Forall_app_2 | apply behind_sound | apply Forall_nil_2 | apply Forall_cons_2];
    try route_fits.
  - repeat match goal with
    | H : query_int _ _ _ _ _ = inr _ |- _ => apply query_int_yields in H; [destruct H|simpl; lia..]
    | H : query_str _ (Some _) _ = inr _ |- _ => apply query_str_yields in H
    end. simpl in *. by split_and!.
  - match goal with H : query_int _ _ _ _ _ = inr _ |- _ =>
      apply query_int_yields in H; [done|simpl; lia..] end.
Qed.

Lemma path_segments_plain path : Forall (fun s => mem_char "/" (chars s) = false) (path_segments path).
Proof.
  apply Forall_forall. intros s Hs.
  assert (s = ""%string \/ s ∈ split "/" path) as [->|Hs'].
  { unfold path_segments in Hs. destruct (split "/" path) as [|x l]; [by right|].
    destruct (truthy x); [|by right; right]. apply elem_of_cons in Hs as [->|Hs]; [by left|by right]. }
  { done. }
  clear Hs. rename Hs' into Hs. unfold split in Hs. apply list_elem_of_fmap in Hs as (l & -> & Hl%elem_of_split_chars).
  rewrite chars_of_chars. apply not_true_is_false. intros (x & Hx & Hc)%existsb_exists.
  apply Ascii.eqb_eq in Hc. subst x. apply Hl. by apply list_elem_of_In.
Qed.

Lemma find_route_found routes method segments r c :
  find_route routes method segments = Some (r, c) ->
  r ∈ routes /\ rt_method r = method /\ match_path (rt_path r) segments = Some c.
Proof.
  induction routes as [|r' routes IH]; simpl; [done|].
  destruct (if (rt_method r' =? method)%string then _ else None) as [c'|] eqn:E.
  - intros [= <- <-]. destruct (String.eqb_spec (rt_method r') method) as [Heq|]; [|done].
    by split_and!; [left|..].
  - intros (Hin & H)%IH. split; [by right|done].
Qed.

Lemma found_call_fits method path r c query body call :
  find_route app_routes method (path_segments path) = Some (r, c) ->
  rt_call r c query body = inr call -> call_fits call.
Proof.
  intros (Hin & _ & Hm)%find_route_found Hc.
  refine (proj1 (Forall_forall _ _) routes_sound r Hin c query body _ call Hc).
  intros name Hname. by eapply captured_one_segment; [apply path_segments_plain|..].
Qed.

(** ** What is within the limits arrives *)

(** The request of a client that makes a call: the method, the segments of the path,
    the query and the body. *)
Definition given {A} (name : string) (f : A -> string) (o : option A) : list (string * string) :=
  match o with Some v => [(name, f v)] | None => [] end.
Definition patch_field {A} (set : gset string) (name : string) (f : A -> json) (o : option A)
  : list (string * json) :=
  if decide (name ∈ set) then [(name, from_option f JNull o)] else [].
Definition bool_text (b : bool) : string := if b then "true" else "false".

Definition wire_auth (c : auth_call) : string * list string * list (string * string) * http_body :=
  match c with
  | ListOidcProviders => ("GET", ["oidc"; "providers"], [], NoBody)
  | StartOidcLogin pid redirect language_code =>
      ("GET", ["oidc"; pid; "start"],
       (given "redirect" id redirect ++ given "language_code" id language_code)%list, NoBody)
  | StartOidcReauth pid redirect => ("GET", ["oidc"; pid; "reauth"], given "redirect" id redirect, NoBody)
  | CompleteOidcCallback pid state code error =>
      ("GET", ["oidc"; pid; "callback"],
       (given "state" id state ++ given "code" id code ++ given "error" id error)%list, NoBody)
  | GetCsrf => ("GET", ["csrf"], [], NoBody)
  | GetMe => ("GET", ["me"], [], NoBody)
  | UpdateMe ch =>
      ("PATCH", ["me"], [],
       JsonBody (JObj (patch_field (up_fields_set ch) "language_code" JStr (up_language_code ch))))
  | DeleteMe email password =>
      ("DELETE", ["me"], [],
       JsonBody (JObj [("confirm_email", JStr email); ("password", json_opt_str password)]))
  | Register email password language_code =>
      ("POST", ["register"], [],
       JsonBody (JObj [("email", JStr email); ("password", JStr password);
                       ("language_code", JStr language_code)]))
  | Login email password =>
      ("POST", ["login"], [], JsonBody (JObj [("email", JStr email); ("password", JStr password)]))
  | Logout => ("POST", ["logout"], [], NoBody)
  end%string.

Definition wire_admin (c : admin_call) : string * list string * list (string * string) * http_body :=
  match c with
  | ListRoles => ("GET", ["roles"], [], NoBody)
  | GetUserRoles user_id => ("GET", ["users"; uuid_str user_id; "roles"], [], NoBody)
  | ReplaceUserRoles user_id roles =>
      ("PUT", ["users"; uuid_str user_id; "roles"], [], JsonBody (JObj [("roles", JArr (map JStr roles))]))
  | ListAdminUsers offset limit text role is_active =>
      ("GET", ["users"],
       ("offset", pretty offset) :: ("limit", pretty limit) ::
       (given "query" id text ++ given "role" id role ++ given "is_active" bool_text is_active)%list, NoBody)
  | CreateAdminUser email password is_active roles =>
      ("POST", ["users"], [],
       JsonBody (JObj [("email", JStr email); ("password", JStr password); ("is_active", JBool is_active);
                       ("roles", JArr (map JStr roles))]))
  | GetAdminUser user_id => ("GET", ["users"; uuid_str user_id], [], NoBody)
  | UpdateAdminUser user_id ch =>
      let set := ch_fields_set ch in
      ("PATCH", ["users"; uuid_str user_id], [],
       JsonBody (JObj (patch_field set "email" JStr (ch_email ch)
                       ++ patch_field set "password" JStr (ch_password ch)
                       ++ patch_field set "is_active" JBool (ch_is_active ch)
                       ++ patch_field set "roles" (fun l => JArr (map JStr l)) (ch_roles ch))%list))
  | DeleteAdminUser user_id => ("DELETE", ["users"; uuid_str user_id], [], NoBody)
  end%string.

Definition wire_sample (c : sample_call) : string * list string * list (string * string) * http_body :=
  match c with
  | ListSampleItems limit cursor => ("GET", [], ("limit", pretty limit) :: given "cursor" id cursor, NoBody)
  | CreateSampleItem title description =>
      ("POST", [], [], JsonBody (JObj [("title", JStr title); ("description", json_opt_str description)]))
  | GetSampleItem item_id => ("GET", [uuid_str item_id], [], NoBody)
  | UpdateSampleItem item_id ch =>
      let set := it_ch_fields_set ch in
      ("PATCH", [uuid_str item_id], [],
       JsonBody (JObj (patch_field set "title" JStr (it_ch_title ch)
                       ++ patch_field set "description" JStr (it_ch_description ch)
                       ++ patch_field set "is_completed" JBool (it_ch_is_completed ch))%list))
  | DeleteSampleItem item_id => ("DELETE", [uuid_str item_id], [], NoBody)
  end%string.

Definition below (prefix : list string) (w : string * list string * list (string * string) * http_body) :=
  let '(method, segments, query, body) := w in (method, prefix ++ segments, query, body).
Definition wire (c : api_call) : string * list string * list (string * string) * http_body :=
  match c with
  | AuthCall c => below ["api"; "auth"]%string (wire_auth c)
  | AdminCall c => below ["api"; "admin"]%string (wire_admin c)
  | SampleCall c => below ["api"; "samples"]%string (wire_sample c)
  | Healthz => ("GET", ["api"; "healthz"], [], NoBody)%string
  end.
Definition path_text (segments : list string) : string :=
  String.concat "" (map (fun s => "/" ++ s)%string segments).

Lemma path_text_cons s segments : path_text (s :: segments) = ("/" ++ s ++ path_text segments)%string.
Proof. unfold path_text. simpl. destruct segments; [|done]. simpl. f_equal. apply chars_inj. by rewrite chars_app, app_nil_r. Qed.

Lemma path_segments_text segments :
  Forall (fun s => mem_char "/" (chars s) = false) segments -> path_segments (path_text segments) = segments.
Proof.
  intros H. unfold path_segments, split.
  assert (forall s segs, mem_char "/" (chars s) = false -> Forall (fun s => mem_char "/" (chars s) = false) segs ->
    map of_chars (split_chars "/" (chars s ++ chars (path_text segs))) = s :: segs) as Hs.
  { intros s segs. revert s. induction segs as [|s' segs IH]; intros s Hs Hsegs.
    - change (chars (path_text [])) with (@nil ascii). rewrite app_nil_r, split_chars_no by done. simpl.
      by rewrite of_chars_chars.
    - rewrite path_text_cons, !chars_app. change (chars "/") with ["/"%char]. cbn [app].
      apply Forall_cons_1 in Hsegs as [Hs' Hsegs]. rewrite split_chars_app by done. cbn [map].
      rewrite IH by done. by rewrite of_chars_chars. }
  destruct segments as [|s segs]; [done|]. apply Forall_cons_1 in H as [H1 H2].
  rewrite path_text_cons, !chars_app. change (chars "/") with ["/"%char]. cbn [app split_chars].
  change (Ascii.eqb "/" "/") with true. cbv iota. cbn [map tail]. by apply Hs.
Qed.

Lemma uuid_segment id : identifier id -> mem_char "/" (chars (uuid_str id)) = false /\ truthy (uuid_str id) = true.
Proof.
  intros Hid. destruct (hex_digits_ok 32 id) as [Hh Hlen]. split.
  - rewrite chars_uuid_str. apply not_true_is_false. intros (x & Hx & Hc)%existsb_exists.
    apply Ascii.eqb_eq in Hc. subst x. apply list_elem_of_In in Hx.
    assert (Forall (fun c => Ascii.eqb c "/" = false) (dashed (hex_digits 32 id))) as Hf.
    { apply Forall_dashed; [done|]. eapply Forall_impl; [exact Hh|]. intros c Hc.
      apply hex_char_not; [done|set_solver]. }
    by apply (proj1 (Forall_forall _ _) Hf) in Hx.
  - apply truthy_spec. intros H. pose proof (uuid_round_trip id Hid) as Hr. rewrite H in Hr. vm_compute in Hr. done.
Qed.

(** ** Fields of a client are accepted *)

Lemma both_eq {A B} (f : Validated (A -> B)) g x a b :
  f = inr g -> x = inr a -> g a = b -> f <*> x = inr b.
Proof. by intros -> -> <-. Qed.
Lemma map_eq {A B} (f : A -> B) x a b : x = inr a -> f a = b -> validated_map f x = inr b.
Proof. by intros -> <-. Qed.

Lemma forbid_none names body : (forall k, k ∈ map fst body -> k ∈ names) -> forbid_extra names body = inr tt.
Proof.
  induction body as [|[k v] body IH]; intros H; cbn [forbid_extra]; [done|].
  rewrite IH by (intros k' Hk'; apply H; by right).
  assert (existsb (String.eqb k) names = true) as ->; [|done].
  apply existsb_exists. exists k. split; [|by apply String.eqb_refl].
  apply list_elem_of_In, H. by left.
Qed.
Lemma parse_body_eq {A} names (schema : list (string * json) -> Validated A) fields a :
  schema fields = inr a -> (forall k, k ∈ map fst fields -> k ∈ names) ->
  parse_body names schema (JsonBody (JObj fields)) = inr a.
Proof. intros Ha Hk. simpl. by rewrite Ha, forbid_none. Qed.

Lemma field_eq {A} name d (t : field_type A) body v a :
  json_get name body = Some v -> (forall loc, t loc v = inr a) -> body_field name d t body = inr a.
Proof. unfold body_field. by intros -> H. Qed.
Lemma absent_eq {A} name (t : field_type A) body a :
  json_get name body = None -> body_field name (Some a) t body = inr a.
Proof. unfold body_field. by intros ->. Qed.

Lemma bounded_str_eq lo hi loc s : len_within lo hi s -> bounded_str lo hi loc (JStr s) = inr s.
Proof.
  unfold len_within, bounded_str. intros [H1 H2]. destruct (_ <? _) eqn:E1; bool_to_prop; [lia|].
  destruct (hi <? _) eqn:E2; bool_to_prop; [lia|done].
Qed.
Lemma email_str_eq loc s : address s -> email_str loc (JStr s) = inr s.
Proof. unfold address, email_str. by intros ->. Qed.
Lemma language_eq loc s : supported s -> LanguageCode loc (JStr s) = inr s.
Proof. unfold supported, LanguageCode. by intros ->. Qed.
Lemma boolean_eq loc b : boolean loc (JBool b) = inr b.
Proof. unfold boolean. by rewrite json_booleans. Qed.
Lemma str_list_eq n loc l : Z.of_nat (length l) <= n -> str_list n loc (JArr (map JStr l)) = inr l.
Proof.
  intros H. unfold str_list. rewrite length_map. destruct (_ <? _) eqn:E; bool_to_prop; [lia|].
  clear. generalize 0 as i. induction l as [|s l IH]; intros i; [done|]. cbn [map each].
  eapply both_eq; [reflexivity|apply IH|done].
Qed.
Lemma optional_eq {A} (t : field_type A) loc v a :
  (forall loc, t loc v = inr a) -> v <> JNull -> optional t loc v = inr (Some a).
Proof. intros H Hv. destruct v; try done; cbn [optional]; by rewrite H. Qed.
Lemma optional_str_eq lo hi loc o :
  if_some (len_within lo hi) o -> optional (bounded_str lo hi) loc (json_opt_str o) = inr o.
Proof.
  intros H. destruct o as [s|]; [|done]. cbn [json_opt_str optional].
  rewrite bounded_str_eq by (by apply H). done.
Qed.

Lemma path_uuid_eq name id : identifier id -> path_uuid name (uuid_str id) = inr id.
Proof. intros H. unfold path_uuid. by rewrite text_uuids. Qed.
Lemma query_int_eq name d ge le query n :
  query_get name query = Some (pretty n) -> ge <= n -> from_option (fun m => n <= m) True le ->
  query_int name d ge le query = inr n.
Proof.
  intros Hq H1 H2. unfold query_int. rewrite Hq, text_integers. destruct (_ <? _) eqn:E; bool_to_prop; [lia|].
  destruct le as [m|]; simpl in *; [|done]. destruct (_ <? _) eqn:E2; bool_to_prop; [lia|done].
Qed.
Lemma query_str_eq name m query o :
  query_get name query = o -> if_some (fun s => from_option (fun m => str_len s <= m) True m) o ->
  query_str name m query = inr o.
Proof.
  intros Hq Ho. unfold query_str. rewrite Hq. destruct o as [s|]; [|done].
  specialize (Ho s eq_refl). destruct m as [m|]; simpl in *; [|done].
  destruct (_ <? _) eqn:E; bool_to_prop; [lia|done].
Qed.
Lemma query_bool_eq name query o :
  query_get name query = bool_text <$> o -> query_bool name query = inr o.
Proof.
  intros Hq. unfold query_bool. rewrite Hq. destruct o as [b|]; [|done]. simpl.
  unfold bool_text. by rewrite text_booleans.
Qed.

(** ** Finding the route of a call *)

(** The call arrives: its request finds a route, whose parameters give the call back. *)
Definition arrives (w : string * list string * list (string * string) * http_body) (c : api_call) : Prop :=
  let '(method, segments, query, body) := w in
  Forall (fun s => mem_char "/" (chars s) = false) segments
  /\ exists r captures, find_route app_routes method segments = Some (r, captures)
       /\ rt_call r captures query body = inr c.

Lemma find_here r routes method segments c :
  (if (rt_method r =? method)%string then match_path (rt_path r) segments else None) = Some c ->
  find_route (r :: routes) method segments = Some (r, c).
Proof. simpl. by intros ->. Qed.
Lemma find_skip r routes method segments :
  (if (rt_method r =? method)%string then match_path (rt_path r) segments else None) = None ->
  find_route (r :: routes) method segments = find_route routes method segments.
Proof. simpl. by intros ->. Qed.

(** One parameter in a path: its text is not empty. *)
#[local] Arguments String.eqb !_ !_ : simpl nomatch.
Ltac match_here := cbn; repeat match goal with
  | H : truthy ?x = true |- context [truthy ?x] => rewrite H; cbn
  end; reflexivity.
Ltac match_skip := cbn; repeat match goal with
  | H : truthy ?x = true |- context [truthy ?x] => rewrite H; cbn
  | |- context [match String.eqb ?a ?b with _ => _ end] => destruct (String.eqb a b); cbn
  end; reflexivity.
Ltac find_it := repeat (match goal with |- find_route ?l ?m ?s = ?rhs =>
    let l' := eval hnf in l in change (find_route l' m s = rhs);
    first [ apply find_here; match_here | rewrite find_skip by match_skip ] end).

Lemma arrives_intro method segments query body c r captures :
  Forall (fun s => mem_char "/" (chars s) = false) segments ->
  find_route app_routes method segments = Some (r, captures) -> rt_call r captures query body = inr c ->
  arrives (method, segments, query, body) c.
Proof. intros H1 H2 H3. split; [done|]. by exists r, captures. Qed.

Ltac open_route := repeat match goal with
  |- rt_call ?r _ _ _ = _ => let r' := eval hnf in r in change r with r'; cbn [rt_call] end.

(** Applies the lemma of each part of what a client sent. *)
Ltac field_sent := first
  [ eapply field_eq; [reflexivity|]; intros ?; first
      [ by apply email_str_eq | by apply bounded_str_eq | by apply language_eq | apply boolean_eq
      | by apply str_list_eq | by apply optional_str_eq ]
  | by apply absent_eq ].
Ltac all_sent := lazymatch goal with
  | |- _ <*> _ = inr _ => eapply both_eq; [all_sent| |reflexivity]; [field_sent]
  | |- accept _ = inr _ => reflexivity
  end.
Ltac body_sent := eapply map_eq; [apply parse_body_eq; [all_sent|set_solver]|reflexivity].

(** *** The fields of a PATCH *)

Lemma json_get_patch {A} n set m (f : A -> json) o rest :
  json_get n (patch_field set m f o ++ rest)
  = if decide (m = n) then (if decide (m ∈ set) then Some (from_option f JNull o) else json_get n rest)
    else json_get n rest.
Proof.
  unfold patch_field. destruct (decide (m ∈ set)); cbn [app json_get]; [done|]. by case_decide.
Qed.
Lemma elem_of_patch {A} k set m (f : A -> json) o rest :
  k ∈ map fst (patch_field set m f o ++ rest) <-> k = m /\ m ∈ set \/ k ∈ map fst rest.
Proof.
  unfold patch_field. destruct (decide (m ∈ set)); cbn [app map fst]; [rewrite elem_of_cons|]; naive_solver.
Qed.

Lemma patch_sent {A} (set : gset string) name (t : field_type A) (f : A -> json) o body :
  json_get name body = (if decide (name ∈ set) then Some (from_option f JNull o) else None) ->
  sent set name o -> (forall x, o = Some x -> f x <> JNull /\ forall loc, t loc (f x) = inr x) ->
  body_field name (Some None) (reject_null (optional t)) body = inr o.
Proof.
  intros Hg Hs Ht. destruct (decide (name ∈ set)) as [Hin|Hout].
  - apply Hs in Hin as [x ->]. destruct (Ht x eq_refl) as [Hn Hx]. eapply field_eq; [exact Hg|].
    intros loc. simpl. pose proof (optional_eq t loc (f x) x Hx Hn) as Ho.
    destruct (f x); done.
  - destruct o as [x|]; [|by apply absent_eq]. exfalso. apply Hout, Hs. by eexists.
Qed.
(** A field that may be null. *)
Lemma nullable_sent {A} (set : gset string) name (t : field_type A) (f : A -> json) o body :
  json_get name body = (if decide (name ∈ set) then Some (from_option f JNull o) else None) ->
  (is_Some o -> name ∈ set) -> (forall x, o = Some x -> f x <> JNull /\ forall loc, t loc (f x) = inr x) ->
  body_field name (Some None) (optional t) body = inr o.
Proof.
  intros Hg Hs Ht. destruct (decide (name ∈ set)) as [Hin|Hout].
  - eapply field_eq; [exact Hg|]. intros loc. destruct o as [x|]; [|done].
    destruct (Ht x eq_refl) as [Hn Hx]. by apply optional_eq.
  - destruct o as [x|]; [|by apply absent_eq]. exfalso. apply Hout, Hs. by eexists.
Qed.

Lemma fields_set_patch names set fields :
  only set names -> (forall k, k ∈ map fst fields <-> k ∈ names /\ k ∈ set) -> fields_set fields = set.
Proof.
  intros Ho Hk. apply set_eq. intros k. unfold fields_set. rewrite elem_of_list_to_set, Hk. split; [by intros []|].
  intros H. split; [by apply Ho|done].
Qed.

Ltac get_patch := rewrite ?json_get_patch; cbn [json_get]; repeat case_decide; done.
Ltac keys_patch := intros ?; rewrite ?elem_of_patch; cbn [map]; set_solver.

(** Splits a schema into its fields. *)
Ltac spine := lazymatch goal with
  | |- _ <*> _ = inr _ => eapply both_eq; [spine| |reflexivity]
  | |- accept _ = inr _ => reflexivity
  end.

Lemma update_me_body l set :
  auth_call_fits (UpdateMe (UserUpdate l set)) ->
  update_auth_user_request (JsonBody (JObj (patch_field set "language_code" JStr l)))
  = inr (UserUpdate l set).
Proof.
  intros (Hl & Hs & Ho). cbn [up_language_code up_fields_set] in Hl, Hs, Ho.
  rewrite <- (app_nil_r (patch_field _ _ _ _)).
  apply parse_body_eq; [|intros k; rewrite elem_of_patch; set_solver].
  rewrite (fields_set_patch _ set _ Ho) by keys_patch. spine.
  apply (patch_sent set _ _ JStr l); [get_patch|done|]. intros x ->. split; [done|]. intros loc.
  apply language_eq. by apply Hl.
Qed.

Lemma auth_arrives c : auth_call_fits c -> arrives (wire (AuthCall c)) (AuthCall c).
Proof.
  destruct c as [|pid rd lc|pid rd|pid st code er| | |ch|e p|e p l|e p|]; intros Hc;
    try (eapply arrives_intro; [repeat constructor|find_it|reflexivity]).
  1-3: destruct Hc as [Hne Hseg]; apply truthy_spec in Hne;
    (eapply arrives_intro; [by repeat constructor|find_it|]); open_route.
  - by destruct rd, lc.
  - by destruct rd.
  - by destruct st, code, er.
  - destruct Hc as (Hl & Hs & Ho). destruct ch as [l set]. cbn [up_language_code up_fields_set] in *.
    eapply arrives_intro; [repeat constructor|find_it|]. open_route.
    eapply map_eq; [by apply update_me_body|done].
  - destruct Hc as [He Hp]. eapply arrives_intro; [repeat constructor|find_it|]. open_route. body_sent.
  - destruct Hc as (He & Hp & Hl). eapply arrives_intro; [repeat constructor|find_it|]. open_route. body_sent.
  - destruct Hc as [He Hp]. eapply arrives_intro; [repeat constructor|find_it|]. open_route. body_sent.
Qed.

Lemma admin_update_body em pw act rl set :
  changes_fit (UserChanges em pw act rl set) ->
  admin_user_update_request (JsonBody (JObj (patch_field set "email" JStr em
    ++ patch_field set "password" JStr pw ++ patch_field set "is_active" JBool act
    ++ patch_field set "roles" (fun l => JArr (map JStr l)) rl)))
  = inr (UserChanges em pw act rl set).
Proof.
  intros (He & Hp & Hr & S1 & S2 & S3 & S4 & Ho).
  cbn [ch_email ch_password ch_is_active ch_roles ch_fields_set] in *.
  rewrite <- (app_nil_r (patch_field set "roles" _ _)).
  apply parse_body_eq; [|intros k; rewrite !elem_of_patch; set_solver].
  rewrite (fields_set_patch _ set _ Ho) by keys_patch. spine.
  - apply (patch_sent set _ _ JStr em); [get_patch|done|]. intros x ->. split; [done|]. intros loc.
    apply email_str_eq. by apply He.
  - apply (patch_sent set _ _ JStr pw); [get_patch|done|]. intros x ->. split; [done|]. intros loc.
    apply bounded_str_eq. by apply Hp.
  - apply (patch_sent set _ _ JBool act); [get_patch|done|]. intros x ->. split; [done|]. intros loc.
    apply boolean_eq.
  - apply (patch_sent set _ _ (fun l => JArr (map JStr l)) rl); [get_patch|done|]. intros x ->.
    split; [done|]. intros loc. apply str_list_eq. by apply Hr.
Qed.

Lemma item_update_body ti de co set :
  item_changes_fit (ItemChanges ti de co set) ->
  sample_item_update_request (JsonBody (JObj (patch_field set "title" JStr ti
    ++ patch_field set "description" JStr de ++ patch_field set "is_completed" JBool co)))
  = inr (ItemChanges ti de co set).
Proof.
  intros (Ht & Hd & S1 & S2 & S3 & Ho).
  cbn [it_ch_title it_ch_description it_ch_is_completed it_ch_fields_set] in *.
  rewrite <- (app_nil_r (patch_field set "is_completed" _ _)).
  apply parse_body_eq; [|intros k; rewrite !elem_of_patch; set_solver].
  rewrite (fields_set_patch _ set _ Ho) by keys_patch. spine.
  - apply (patch_sent set _ _ JStr ti); [get_patch|done|]. intros x ->. split; [done|]. intros loc.
    apply bounded_str_eq. by apply Ht.
  - apply (nullable_sent set _ _ JStr de); [get_patch|done|]. intros x ->. split; [done|]. intros loc.
    apply bounded_str_eq. by apply Hd.
  - apply (patch_sent set _ _ JBool co); [get_patch|done|]. intros x ->. split; [done|]. intros loc.
    apply boolean_eq.
Qed.

(** The text of an identifier stays a text. *)
Ltac with_uuid id H :=
  let Hu := fresh in let Ht := fresh in let Hp := fresh "Hp" in
  destruct (uuid_segment id H) as [Hu Ht];
  assert (forall name, path_uuid name (uuid_str id) = inr id) as Hp
    by (intros ?; by apply path_uuid_eq);
  cbn [wire below wire_admin wire_sample app]; cbv zeta; revert Hu Ht Hp;
  generalize (uuid_str id); intros ? Hu Ht Hp;
  eapply arrives_intro; [by repeat constructor|find_it|]; open_route;
  unfold with_user_id, with_item_id; change (captured _ [(_, ?x)]) with x.

Lemma admin_arrives c : admin_call_fits c -> arrives (wire (AdminCall c)) (AdminCall c).
Proof.
  destruct c as [|id|id rl|off lim txt role act|em pw act rl|id|id ch|id]; intros Hc.
  - eapply arrives_intro; [repeat constructor|find_it|reflexivity].
  - with_uuid id Hc. eapply map_eq; [apply Hp|done].
  - destruct Hc as [Hid Hr]. with_uuid id Hid.
    spine; [apply Hp|]. apply parse_body_eq; [|set_solver].
    eapply field_eq; [reflexivity|]. intros loc. by apply str_list_eq.
  - destruct Hc as (Ho & Hl & Ht & Hr). eapply arrives_intro; [repeat constructor|find_it|]. open_route.
    spine; [apply query_int_eq|apply query_int_eq|apply query_str_eq|apply query_str_eq|apply query_bool_eq];
      try done; try (by destruct txt, role, act); simpl; lia.
  - destruct Hc as (He & Hp & Hr). eapply arrives_intro; [repeat constructor|find_it|]. open_route. body_sent.
  - with_uuid id Hc. eapply map_eq; [apply Hp|done].
  - destruct Hc as [Hid Hch]. destruct ch as [em pw act rl set]. with_uuid id Hid.
    spine; [apply Hp|by apply admin_update_body].
  - with_uuid id Hc. eapply map_eq; [apply Hp|done].
Qed.

Lemma sample_arrives c : sample_call_fits c -> arrives (wire (SampleCall c)) (SampleCall c).
Proof.
  destruct c as [lim cur|ti de|id|id ch|id]; intros Hc.
  - eapply arrives_intro; [repeat constructor|find_it|]. open_route.
    spine; [apply query_int_eq|apply query_str_eq]; try done; try (by destruct cur); try (by intros ? ?); simpl in *; lia.
  - destruct Hc as [Ht Hd]. eapply arrives_intro; [repeat constructor|find_it|]. open_route. body_sent.
  - with_uuid id Hc. eapply map_eq; [apply Hp|done].
  - destruct Hc as [Hid Hch]. destruct ch as [ti de co set]. with_uuid id Hid.
    spine; [apply Hp|by apply item_update_body].
  - with_uuid id Hc. eapply map_eq; [apply Hp|done].
Qed.

Lemma call_arrives c : call_fits c -> arrives (wire c) c.
Proof.
  destruct c as [c|c|c|]; [apply auth_arrives|apply admin_arrives|apply sample_arrives|].
  intros _. eapply arrives_intro; [repeat constructor|find_it|reflexivity].
Qed.

(** C16. Exactly the calls within the declared limits reach the endpoints.  Whatever the
    method, path, query and body of a request, the call its route makes of them has
    addresses that are normalised, passwords, titles and lists within their lengths,
    supported languages, bounded pages, and changes whose fields were sent; and every
    such call is what the route of some request makes, namely of the client's. *)
Theorem calls_within_limits :
  (forall method path query body r captures c,
     find_route app_routes method (path_segments path) = Some (r, captures) ->
     rt_call r captures query body = inr c -> call_fits c)
  /\ (forall c, call_fits c ->
       let '(method, segments, query, body) := wire c in
       exists r captures,
         find_route app_routes method (path_segments (path_text segments)) = Some (r, captures)
         /\ rt_call r captures query body = inr c).
Proof.
  split; [intros *; apply found_call_fits|]. intros c Hc%call_arrives.
  destruct (wire c) as [[[method segments] query] body]. destruct Hc as [Hs Hr].
  by rewrite path_segments_text.
Qed.
End Limits.

(** ** Instances *)

Lemma decimal_go x s : decimal 0 (chars (pretty_N_go x s)) = decimal (Z.of_N x) (chars s).
Proof.
  revert s. induction (N.lt_wf_0 x) as [x _ IH]; intros s.
  assert (x = 0 \/ 0 < x)%N as [->|Hx] by lia; [by rewrite pretty_N_go_0|].
  rewrite pretty_N_go_step by done. rewrite IH by (apply N.div_lt; lia).
  change (chars (String ?c s)) with (c :: chars s). cbn [decimal].
  assert (is_digit (pretty_N_char (x `mod` 10)) = true
    /\ code (pretty_N_char (x `mod` 10)) - 48 = Z.of_N (x `mod` 10)) as [-> ->].
  { assert (x `mod` 10 < 10)%N as Hm by (apply N.mod_lt; lia).
    destruct (x `mod` 10)%N as [|p]; [done|]. clear -Hm. by do 4 (destruct p as [p|p|]; try done; try lia). }
  f_equal. rewrite N2Z.inj_div, N2Z.inj_mod. pose proof (Z.div_mod (Z.of_N x) 10). lia.
Qed.

Lemma decimal_pretty n : decimal_int (pretty n) = Some n.
Proof.
  unfold decimal_int.
  assert (forall x s, (0 < x)%N -> exists c l, chars (pretty_N_go x s) = c :: l /\ Ascii.eqb c "-" = false) as Hgo.
  { intros x. induction (N.lt_wf_0 x) as [x _ IH]; intros s Hx. rewrite pretty_N_go_step by done.
    assert (x `div` 10 = 0 \/ 0 < x `div` 10)%N as [->|Hd] by (generalize (x `div` 10)%N; intros; lia).
    - rewrite pretty_N_go_0. eexists _, _. split; [reflexivity|].
      assert (x `mod` 10 < 10)%N as Hm by (apply N.mod_lt; lia).
      destruct (x `mod` 10)%N as [|p]; [done|]. clear -Hm. by do 4 (destruct p as [p|p|]; try done; try lia).
    - apply IH; [apply N.div_lt; lia|done]. }
  destruct n as [|p|p]; [done|..].
  - change (pretty (Zpos p)) with (pretty_N_go (Npos p) "").
    destruct (Hgo (Npos p) ""%string) as (c & l & Hc & Hd); [done|]. rewrite Hc, Hd, <- Hc.
    by rewrite decimal_go.
  - change (pretty (Zneg p)) with ("-" ++ pretty_N_go (Npos p) "")%string.
    rewrite chars_app. cbn [chars app]. change (Ascii.eqb "-" "-") with true. cbv iota.
    by rewrite decimal_go.
Qed.

Lemma demo_pydantic_laws : PydanticLaws demo_pydantic.
Proof.
  split; simpl; try done.
  - intros s a. destruct (contains_char "@" s) eqn:E; [|done]. intros [= <-]. by rewrite E.
  - by intros [].
  - apply decimal_pretty.
  - apply uuid_round_trip.
  - intros s id. unfold uuid_of_hex. cbv zeta. destruct (Nat.eqb _ _); [|done].
    intros (n & _ & H)%bind_Some. destruct ((0 <=? n) && (n <? 2 ^ 128)) eqn:E; [|done].
    injection H as <-. by bool_to_prop.
Qed.

(** A registration whose password is too short is refused, and one within the limits
    arrives. *)
Lemma calls_within_limits_witness :
  register_request (P := demo_pydantic)
    (JsonBody (JObj [("email", JStr "a@b.c"); ("password", JStr "short")]%string))
  = inl [ValidationError [LocStr "body"; LocStr "password"] (Some "string_too_short"%string)
           (Some "string_too_short"%string)]
  /\ (exists r captures,
       find_route (app_routes (P := demo_pydantic)) "POST" (path_segments "/api/auth/register") = Some (r, captures)
       /\ rt_call r captures []
            (JsonBody (JObj [("email", JStr "a@b.c"); ("password", JStr "long enough password");
                             ("language_code", JStr "en")]%string))
          = inr (AuthCall (Register "a@b.c" "long enough password" "en"))).
Proof.
  split; [vm_compute; reflexivity|].
  assert (call_fits (P := demo_pydantic) (AuthCall (Register "a@b.c" "long enough password" "en"))) as Hc.
  { split; [reflexivity|]. split; [|reflexivity]. split; vm_compute; discriminate. }
  exact (proj2 (calls_within_limits (P := demo_pydantic) (Laws := demo_pydantic_laws)) _ Hc).
Defined.
