(* ===== verification/ResponseSchemas.v ===== *)
(** * Bodies of responses

    The response schemas of src/backend/app/models/auth_schemas.py,
    admin_user_schemas.py, authorization_schemas.py, sample_item_schemas.py, status.py
    and error.py as the JSON they declare, and when a body conforms to one: a model has
    exactly the declared members, in their order ([extra="forbid"], and none is left
    out), an identifier is the text of one, an [EmailStr] and a [LanguageCode] are
    values Pydantic accepts, and a time serialises as an integer. *)

From S2P Require Import Prelude PyStr Errors Tables Effects Http ErrorHandlers Interfaces.
From S2P Require Import AuthController AdminControllers SampleItemUsecase Application.

Inductive shape :=
| AStr | AUuid | AnEmail | ALanguage | AnInt | ABool
| Nullable (s : shape)
| ListOf (s : shape)
| Model (members : list (string * shape)).

Section Conforms.
Context {V : Pydantic}.

Fixpoint conforms (s : shape) (j : json) {struct s} : Prop :=
  match s, j with
  | AStr, JStr _ => True
  | AUuid, JStr u => exists id, u = uuid_str id
  | AnEmail, JStr e => exists address, email_of_text address = Some e
  | ALanguage, JStr l => is_supported_language_code l = true
  | AnInt, JInt _ => True
  | ABool, JBool _ => True
  | Nullable _, JNull => True
  | Nullable s', _ => conforms s' j
  | ListOf s', JArr l => Forall (conforms s') l
  | Model members, JObj fields =>
      (fix each (members : list (string * shape)) (fields : list (string * json)) : Prop :=
         match members, fields with
         | [], [] => True
         | (k, s') :: members', (k', v) :: fields' => k = k' /\ conforms s' v /\ each members' fields'
         | _, _ => False
         end) members fields
  | _, _ => False
  end.
End Conforms.

(** ** The schemas *)

(* src: backend/app/models/auth_schemas.py:42-47 AuthUserResponse *)
Definition auth_user_schema : shape :=
  Model [("id", AUuid); ("email", AnEmail); ("language_code", ALanguage); ("roles", ListOf AStr);
         ("permissions", ListOf AStr)]%string.
(* src: backend/app/models/auth_schemas.py:50-51 CsrfTokenResponse *)
Definition csrf_token_schema : shape := Model [("csrf_token"%string, AStr)].
(* src: backend/app/models/auth_schemas.py:54-56 OidcProviderResponse *)
Definition oidc_provider_schema : shape := Model [("provider_id", AStr); ("display_name", AStr)]%string.
(* src: backend/app/models/auth_schemas.py:59-60 OidcProviderListResponse *)
Definition oidc_provider_list_schema : shape := Model [("data"%string, ListOf oidc_provider_schema)].

(* src: backend/app/models/authorization_schemas.py:12-16 RoleResponse *)
Definition role_schema : shape :=
  Model [("code", AStr); ("display_name", AStr); ("description", Nullable AStr);
         ("permissions", ListOf AStr)]%string.
(* src: backend/app/models/authorization_schemas.py:19-22 PermissionResponse *)
Definition permission_schema : shape :=
  Model [("code", AStr); ("display_name", AStr); ("description", Nullable AStr)]%string.
(* src: backend/app/models/authorization_schemas.py:25-27 RoleListResponse *)
Definition role_list_schema : shape :=
  Model [("data", ListOf role_schema); ("permissions", ListOf permission_schema)]%string.
(* src: backend/app/models/authorization_schemas.py:30-33 UserRoleListResponse *)
Definition user_role_list_schema : shape :=
  Model [("user_id", AUuid); ("roles", ListOf AStr); ("permissions", ListOf AStr)]%string.
(* src: backend/app/models/authorization_schemas.py:40-45 UserRoleReplaceResponse *)
Definition user_role_replace_schema : shape :=
  Model [("user_id", AUuid); ("roles", ListOf AStr); ("permissions", ListOf AStr);
         ("granted_roles", ListOf AStr); ("revoked_roles", ListOf AStr)]%string.

(* src: backend/app/models/admin_user_schemas.py:37-54 AdminUserListItemResponse *)
Definition admin_user_members : list (string * shape) :=
  [("id", AUuid); ("email", AStr); ("is_active", ABool); ("created_at", AnInt); ("updated_at", AnInt);
   ("last_login_at", Nullable AnInt); ("roles", ListOf AStr)]%string.
(* src: backend/app/models/admin_user_schemas.py:69-70 AdminUserResponse *)
Definition admin_user_schema : shape :=
  Model (admin_user_members ++ [("permissions"%string, ListOf AStr)]).
(* src: backend/app/models/admin_user_schemas.py:86-90 AdminUserListResponse *)
Definition admin_user_list_schema : shape :=
  Model [("data", ListOf (Model admin_user_members)); ("count", AnInt); ("offset", AnInt);
         ("limit", AnInt)]%string.

(* src: backend/app/models/sample_item_schemas.py:34-44 SampleItemResponse *)
Definition sample_item_schema : shape :=
  Model [("id", AUuid); ("title", AStr); ("description", Nullable AStr); ("is_completed", ABool);
         ("created_at", AnInt); ("updated_at", AnInt)]%string.
(* src: backend/app/models/sample_item_schemas.py:58-60 SampleItemListResponse *)
Definition sample_item_list_schema : shape :=
  Model [("data", ListOf sample_item_schema); ("next_cursor", Nullable AStr)]%string.

(* src: backend/app/models/status.py:4-6 Status *)
Definition status_schema : shape := Model [("success", ABool); ("message", AStr)]%string.

(** The [response_model] of the route of a call; [None] for a redirect and for 204. *)
Definition response_model (c : api_call) : option shape :=
  match c with
  | AuthCall ListOidcProviders => Some oidc_provider_list_schema
  | AuthCall (StartOidcLogin _ _ _ | StartOidcReauth _ _ | CompleteOidcCallback _ _ _ _) => None
  | AuthCall GetCsrf => Some csrf_token_schema
  | AuthCall (GetMe | UpdateMe _ | Register _ _ _ | Login _ _) => Some auth_user_schema
  | AuthCall (DeleteMe _ _ | Logout) => None
  | AdminCall ListRoles => Some role_list_schema
  | AdminCall (GetUserRoles _) => Some user_role_list_schema
  | AdminCall (ReplaceUserRoles _ _) => Some user_role_replace_schema
  | AdminCall (ListAdminUsers _ _ _ _ _) => Some admin_user_list_schema
  | AdminCall (CreateAdminUser _ _ _ _ | GetAdminUser _ | UpdateAdminUser _ _) => Some admin_user_schema
  | AdminCall (DeleteAdminUser _) => None
  | SampleCall (ListSampleItems _ _) => Some sample_item_list_schema
  | SampleCall (CreateSampleItem _ _ | GetSampleItem _ | UpdateSampleItem _ _) => Some sample_item_schema
  | SampleCall (DeleteSampleItem _) => None
  | Healthz => Some status_schema
  end.

(** A problem document of a status; further members may follow. *)
(* src: backend/app/models/error.py:16-25 ProblemDetails *)
Definition problem_details (status : Z) (j : json) : Prop :=
  exists members problem_type title detail code, j = JObj members
    /\ json_get "type" members = Some (JStr problem_type) /\ json_get "title" members = Some (JStr title)
    /\ json_get "status" members = Some (JInt status) /\ json_get "detail" members = Some (JStr detail)
    /\ json_get "code" members = Some (JStr code).

Lemma problem_response_details status code detail errors extensions path headers :
  problem_details status (rs_body (problem_response status code detail errors extensions path headers)).
Proof.
  destruct (problem_members status code detail errors extensions path headers)
    as (body & -> & ? & ? & ? & ? & ? & _). by eexists body, _, _, _, _.
Qed.

(** ** The bodies the handlers make *)

Section Bodies.
Context {V : Pydantic}.

Lemma conforms_list {A} (f : A -> json) s l : (forall a, conforms s (f a)) -> conforms (ListOf s) (JArr (map f l)).
Proof. intros H. induction l; simpl; constructor; auto. Qed.
Lemma conforms_strs l : conforms (ListOf AStr) (JArr (map JStr l)).
Proof. by apply conforms_list. Qed.
Lemma conforms_json_strs l : conforms (ListOf AStr) (json_strs l).
Proof. apply conforms_strs. Qed.
Lemma conforms_opt_str o : conforms (Nullable AStr) (json_opt_str o).
Proof. by destruct o. Qed.
Lemma conforms_opt_time o : conforms (Nullable AnInt) (json_opt_time o).
Proof. by destruct o. Qed.
Lemma conforms_uuid id : conforms AUuid (JStr (uuid_str id)).
Proof. by exists id. Qed.
Lemma conforms_model_nil : conforms (Model []) (JObj []).
Proof. done. Qed.
Lemma conforms_model_cons k s members v fields :
  conforms s v -> conforms (Model members) (JObj fields) ->
  conforms (Model ((k, s) :: members)) (JObj ((k, v) :: fields)).
Proof. by split. Qed.
End Bodies.

Create HintDb conforms.
#[export] Hint Resolve conforms_strs conforms_json_strs conforms_opt_str conforms_opt_time conforms_uuid conforms_model_nil
  conforms_model_cons : conforms.

Section Handlers.
Context {V : Pydantic}.

Lemma auth_user_conforms id email language roles permissions body :
  AuthUserResponse id email language roles permissions = Ok body -> conforms auth_user_schema body.
Proof.
  unfold AuthUserResponse. destruct (email_of_text email) as [e|] eqn:He; [|done].
  destruct (is_supported_language_code language) eqn:Hl; [|done]. intros [= <-].
  repeat apply conforms_model_cons; auto with conforms; by exists email.
Qed.
Lemma role_conforms role : conforms role_schema (role_response role).
Proof. repeat apply conforms_model_cons; auto with conforms; done. Qed.
Lemma permission_conforms p : conforms permission_schema (permission_response p).
Proof. repeat apply conforms_model_cons; auto with conforms; done. Qed.
Lemma user_role_list_conforms a : conforms user_role_list_schema (user_role_list_response a).
Proof. repeat apply conforms_model_cons; auto with conforms. Qed.
Lemma user_role_replace_conforms r : conforms user_role_replace_schema (user_role_replace_response r).
Proof. repeat apply conforms_model_cons; auto with conforms. Qed.
Lemma admin_user_item_conforms record :
  conforms (Model admin_user_members) (admin_user_list_item_response record).
Proof. repeat apply conforms_model_cons; auto with conforms; done. Qed.
Lemma admin_user_conforms detail : conforms admin_user_schema (admin_user_response detail).
Proof. repeat apply conforms_model_cons; auto with conforms; done. Qed.
Lemma sample_item_conforms item : conforms sample_item_schema (sample_item_response item).
Proof. repeat apply conforms_model_cons; auto with conforms; done. Qed.
End Handlers.
#[export] Hint Resolve role_conforms permission_conforms user_role_list_conforms user_role_replace_conforms
  admin_user_item_conforms admin_user_conforms sample_item_conforms conforms_list : conforms.

(** ** The OpenAPI document

    Models src/backend/app/models/error.py's references and the part of
    src/backend/app/bootstrap/route.py that adds the schemas of problem documents to
    FastAPI's document.  FastAPI's [get_openapi] and Pydantic's [model_json_schema] are
    parameters. *)

Notation dict := (list (string * json)).

(* src: backend/app/models/error.py:28-28 PROBLEM_DETAILS_SCHEMA_REF *)
Definition PROBLEM_DETAILS_SCHEMA_REF : json := JObj [("$ref", JStr "#/components/schemas/ProblemDetails")]%string.

(* src: backend/app/models/error.py:31-39 problem_response_openapi *)
Definition problem_response_openapi (description : string) : json :=
  JObj [("description", JStr description);
        ("content", JObj [("application/problem+json", JObj [("schema", PROBLEM_DETAILS_SCHEMA_REF)])])]%string.

(** [d.pop(key, None)] *)
Fixpoint json_pop (k : string) (d : dict) : option json * dict :=
  match d with
  | [] => (None, [])
  | (k', v) :: d' =>
      if decide (k' = k) then (Some v, d') else let (r, rest) := json_pop k d' in (r, (k', v) :: rest)
  end.

(** [d.setdefault(key, {})], and the dict in the place of what it returns. *)
Definition setdefault_dict (k : string) (d : dict) : result dict :=
  match json_get k d with
  | None => Ok []
  | Some (JObj fields) => Ok fields
  | Some _ => Raise (AttributeError "setdefault")
  end.

Section Schema.
(** [ProblemDetails.model_json_schema(ref_template="#/components/schemas/{model}")],
    and [get_openapi] on the application. *)
Context (model_json_schema : dict) (get_openapi : dict).

(** [$defs] that are no dict would be a TypeError of [**]. *)
(* src: backend/app/bootstrap/route.py:110-117 _problem_details_schemas *)
Definition problem_details_schemas : result dict :=
  let (definitions, problem_details_schema) := json_pop "$defs" model_json_schema in
  match default (JObj []) definitions with
  | JObj definitions => Ok (dict_update [("ProblemDetails"%string, JObj problem_details_schema)] definitions)
  | _ => Raise (TypeError "argument after ** must be a mapping")
  end.

(** [app.openapi_schema] is the cache; it is returned and kept. *)
(* src: backend/app/bootstrap/route.py:84-105 _install_openapi_schema *)
Definition custom_openapi (openapi_schema : option dict) : result dict :=
  match openapi_schema with
  | Some (p :: schema) => Ok (p :: schema)
  | _ =>
      components ← setdefault_dict "components" get_openapi;
      schemas ← setdefault_dict "schemas" components;
      problem_schemas ← problem_details_schemas;
      let schemas := dict_update schemas problem_schemas in
      Ok (json_set "components" (JObj (json_set "schemas" (JObj schemas) components)) get_openapi)
  end.

(** [schema["components"]["schemas"][name]] *)
Definition schema_named (name : string) (schema : dict) : option json :=
  match json_get "components" schema with
  | Some (JObj components) =>
      match json_get "schemas" components with Some (JObj schemas) => json_get name schemas | _ => None end
  | _ => None
  end.

(** The references in a document. *)
Fixpoint references (j : json) : list string :=
  match j with
  | JArr l => concat (map references l)
  | JObj fields =>
      concat (map (fun p => match p with
        | (k, v) => (match v with JStr s => if (k =? "$ref")%string then [s] else [] | _ => [] end)
                      ++ references v
        end) fields)
  | _ => []
  end.

(** A reference resolves in a document. *)
Definition resolves (schema : dict) (ref : string) : Prop :=
  exists name, ref = ("#/components/schemas/" ++ name)%string /\ is_Some (schema_named name schema).

(** ** What is added *)

Lemma json_get_update k d changes :
  json_get k (dict_update d changes) = match json_get k (rev changes) with Some v => Some v | None => json_get k d end.
Proof.
  unfold dict_update. rewrite <- fold_left_rev_right. induction (rev changes) as [|[k' v] l IH]; simpl; [done|].
  rewrite json_get_set, IH. by destruct (decide (k' = k)).
Qed.

Lemma json_get_In k (d : dict) : is_Some (json_get k d) <-> k ∈ map fst d.
Proof.
  induction d as [|[k' v] d IH]; simpl.
  - split; [by intros []|by intros ?%not_elem_of_nil].
  - rewrite elem_of_cons. destruct (decide (k' = k)) as [->|Hne].
    + split; [by left|by eexists].
    + rewrite IH. split; [by right|]. by intros [->|].
Qed.

Lemma json_get_update_is_Some k d changes :
  is_Some (json_get k (dict_update d changes)) <-> is_Some (json_get k changes) \/ is_Some (json_get k d).
Proof.
  rewrite json_get_update. assert (is_Some (json_get k (rev changes)) <-> is_Some (json_get k changes)) as Hrev.
  { rewrite !json_get_In, map_rev, !list_elem_of_In. symmetry. apply in_rev. }
  rewrite <- Hrev. destruct (json_get k (rev changes)).
  - split; [by left|by eexists].
  - split; [by right|]. by intros [[? [=]]|].
Qed.

Lemma json_pop_get k (d : dict) : (json_pop k d).1 = json_get k d.
Proof.
  induction d as [|[k' v] d IH]; simpl; [done|]. destruct (decide (k' = k)); [done|].
  by destruct (json_pop k d).
Qed.

(** Pydantic's document refers to its own definitions and to the model itself. *)
Definition self_contained : Prop :=
  exists definitions, json_get "$defs" model_json_schema = Some (JObj definitions)
    /\ forall ref, ref ∈ references (JObj model_json_schema) ->
         exists name, ref = ("#/components/schemas/" ++ name)%string
                      /\ (name = "ProblemDetails"%string \/ name ∈ map fst definitions).

Lemma custom_openapi_fresh cache schema :
  cache = None \/ cache = Some [] -> custom_openapi cache = Ok schema ->
  exists components schemas problems, setdefault_dict "components" get_openapi = Ok components
    /\ setdefault_dict "schemas" components = Ok schemas /\ problem_details_schemas = Ok problems
    /\ schema = json_set "components"
                  (JObj (json_set "schemas" (JObj (dict_update schemas problems)) components)) get_openapi.
Proof.
  intros Hcache H. assert (custom_openapi None = Ok schema) as H' by (by destruct Hcache as [->| ->]).
  clear H. unfold custom_openapi in H'.
  destruct (setdefault_dict "components" get_openapi) as [components|]; [|done].
  cbn in H'. destruct (setdefault_dict "schemas" components) as [schemas|] eqn:Es; [|done].
  cbn in H'. destruct problem_details_schemas as [problems|] eqn:Ep; [|done]. injection H' as <-.
  by exists components, schemas, problems.
Qed.

Lemma schema_named_before name components schemas :
  setdefault_dict "components" get_openapi = Ok components -> setdefault_dict "schemas" components = Ok schemas ->
  json_get name schemas = schema_named name get_openapi.
Proof.
  unfold setdefault_dict, schema_named. destruct (json_get "components" get_openapi) as [j|].
  - destruct j as [| | | | |fields]; try done. intros [= ->].
    destruct (json_get "schemas" components) as [j|]; [|by intros [= <-]].
    destruct j; try done. by intros [= ->].
  - intros [= <-]. simpl. by intros [= <-].
Qed.

(** References in the schemas of problems, and in the error responses the routes
    document, resolve in the document that is served; the rest of FastAPI's document
    stays: what is outside [components.schemas], and the schemas of other names. *)
Theorem problem_references_resolve cache schema :
  self_contained -> cache = None \/ cache = Some [] -> custom_openapi cache = Ok schema ->
  (forall description ref, ref ∈ references (problem_response_openapi description) -> resolves schema ref)
  /\ (forall ref, ref ∈ references (JObj model_json_schema) -> resolves schema ref)
  /\ (forall k, k <> "components"%string -> json_get k schema = json_get k get_openapi)
  /\ (forall name, name <> "ProblemDetails"%string ->
        (forall definitions, json_get "$defs" model_json_schema = Some (JObj definitions) ->
           name ∉ map fst definitions) -> schema_named name schema = schema_named name get_openapi).
Proof.
  intros (definitions & Hd & Hrefs) Hcache Hc.
  destruct (custom_openapi_fresh _ _ Hcache Hc) as (components & schemas & ps & H1 & H2 & H3 & ->).
  unfold problem_details_schemas in H3. pose proof (json_pop_get "$defs" model_json_schema) as Hp.
  destruct (json_pop "$defs" model_json_schema) as [popped rest]. cbn [fst] in Hp. rewrite Hd in Hp. subst popped.
  cbn [default] in H3. injection H3 as <-.
  set (problems := dict_update [("ProblemDetails"%string, JObj rest)] definitions).
  assert (forall name, schema_named name (json_set "components"
      (JObj (json_set "schemas" (JObj (dict_update schemas problems)) components)) get_openapi)
    = json_get name (dict_update schemas problems)) as Hnamed.
  { intros name. unfold schema_named. rewrite json_get_set, decide_True by done.
    by rewrite json_get_set, decide_True by done. }
  assert (forall name, name = "ProblemDetails"%string \/ name ∈ map fst definitions ->
    is_Some (json_get name problems)) as Hin.
  { intros name Hn. apply json_get_update_is_Some. destruct Hn as [->|Hn]; [right; by eexists|].
    left. by apply json_get_In. }
  split_and!.
  - intros description ref Hr. change (references (problem_response_openapi description))
      with ["#/components/schemas/ProblemDetails"]%string in Hr. apply list_elem_of_singleton in Hr as ->.
    exists "ProblemDetails"%string. split; [done|]. rewrite Hnamed. apply json_get_update_is_Some. left.
    apply Hin. by left.
  - intros ref Hr. destruct (Hrefs ref Hr) as (name & -> & Hn). exists name. split; [done|].
    rewrite Hnamed. apply json_get_update_is_Some. left. by apply Hin.
  - intros k Hk. rewrite json_get_set. by rewrite decide_False by congruence.
  - intros name Hne Hnot. rewrite Hnamed, json_get_update.
    assert (json_get name (rev problems) = None) as ->.
    { destruct (json_get name (rev problems)) as [v|] eqn:Ev; [|done]. exfalso.
      assert (name ∈ map fst problems) as Hn.
      { rewrite list_elem_of_In, in_rev, <- map_rev, <- list_elem_of_In. apply json_get_In. by eexists. }
      apply json_get_In in Hn. unfold problems in Hn. apply json_get_update_is_Some in Hn as [Hn|Hn].
      - apply (Hnot definitions Hd). by apply json_get_In.
      - simpl in Hn. rewrite decide_False in Hn by congruence. by destruct Hn. }
    by apply (schema_named_before _ components).
Qed.

(** The document is made once: later calls return what the first one left. *)
Lemma custom_openapi_cached cache schema :
  custom_openapi cache = Ok schema -> schema <> [] -> custom_openapi (Some schema) = Ok schema.
Proof. by destruct schema. Qed.
End Schema.
