(* ===== verification/AuthUsecaseSpec.v ===== *)
(** * What the authentication use cases do

    Login on every branch: what one that returns has checked and changed, that the
    refusals cannot be told apart, and that a correct login succeeds. *)

From S2P Require Import Prelude PyStr Errors Time Tables Effects UnitOfWork Settings.
From S2P Require Import Authorization Interfaces AuthRepository AuthorizationRepository.
From S2P Require Import SampleItemRepository Runs Integrity Lookups AuthUsecase Demo.

Section Spec.
Context `{E : Env} {L : Type} `{R : LoginRateLimiter L}.
Context (auth_settings : AuthSettings).
Implicit Types (x : World L) (b : bool) (c d : DB).

(** The rest of a world that a call may change: clock and random streams only. *)
Definition same_rest x x' : Prop :=
  w_ext x' = w_ext x /\ w_verified x' = w_verified x.

(** The live session that the token of the request opens, at the reading [n] of the
    clock. *)
Definition presented_session (t : option string) (n : nat) d : option AuthSession :=
  if truthy_opt t then active_session_of d (hash_token (default "" t)) (env_now n) else None.

(** The database once that session is revoked, at the next reading. *)
Definition revoke_presented (t : option string) (n : nat) d : DB :=
  match presented_session t n d with
  | Some s => with_sessions <[s_id s := set_revoked (stored (env_now (S n))) s]> d
  | None => d
  end.

(** The reading that follows: the clock is read to look for a session, and to revoke one. *)
Definition issue_reading (t : option string) (n : nat) d : nat :=
  if truthy_opt t then if presented_session t n d then S (S n) else S n else n.

Lemma presented_session_Some t n d s :
  db_ok d -> presented_session t n d = Some s -> sessions d !! s_id s = Some s.
Proof.
  unfold presented_session. intros Hd. destruct (truthy_opt t); [|done].
  intros (Hk & _)%active_session_of_Some; done.
Qed.

Lemma revoke_current_ok t b c d x :
  db_ok d ->
  exists x',
    revoke_current t (at_db b c d x) = (Ok tt, at_db b c (revoke_presented t (w_clock x) d) x')
    /\ db_ok (revoke_presented t (w_clock x) d) /\ same_rest x x' /\ w_token x' = w_token x
    /\ w_uuid x' = w_uuid x /\ w_clock x' = issue_reading t (w_clock x) d
    /\ users (revoke_presented t (w_clock x) d) = users d
    /\ audit_logs (revoke_presented t (w_clock x) d) = audit_logs d.
Proof.
  intros Hd. unfold revoke_current, revoke_presented, issue_reading, presented_session.
  destruct (truthy_opt t); [|by exists x].
  rewrite bind_run, (find_active_session_ok _ _ _ _ _ Hd). simpl.
  destruct (active_session_of _ _ _) as [s|] eqn:Es; [|by exists (tick_clock x)].
  destruct (active_session_of_Some _ _ _ _ Hd Es) as (Hk & _).
  destruct (revoke_session_ok (s_id s) s b c d (tick_clock x) Hd Hk) as [Hr Hok].
  exists (tick_clock (tick_clock x)). rewrite Hr. by split_and!.
Qed.

(** A session as [replace_auth_session] creates it. *)
Record fresh_session (uid : Z) (tok csrf : string) (ip ua : option string) (issued : Z)
    (s : AuthSession) : Prop := {
  fs_user : s_user_id s = uid;
  fs_token : s_session_token_hash s = hash_token tok;
  fs_csrf : s_csrf_token_hash s = hash_token csrf;
  fs_issued : s_issued_at s = stored issued;
  fs_seen : s_last_seen_at s = stored issued;
  fs_expires : s_expires_at s = stored (calculate_session_expiry auth_settings issued issued);
  fs_revoked : s_revoked_at s = None;
  fs_oidc : s_last_oidc_authenticated_at s = None;
  fs_ip : inet_bind ip = Ok (s_ip_address s);
  fs_agent : s_user_agent s = ua;
}.

Lemma replace_auth_session_inv user t ip ua b c d x r w' :
  db_ok d -> replace_auth_session auth_settings user t ip ua (at_db b c d x) = (Ok r, w') ->
  exists s x',
    let d1 := revoke_presented t (w_clock x) d in
    let d2 := with_sessions <[s_id s := s]> d1 in
    let tok := env_token (w_token x) in
    let csrf := env_token (S (w_token x)) in
    r = (s, tok, csrf) /\ w' = at_db b c d2 x' /\ same_rest x x'
    /\ fresh_session (u_id user) tok csrf ip ua (env_now (issue_reading t (w_clock x) d)) s
    /\ sessions d1 !! s_id s = None /\ session_row_ok d1 s = true /\ db_ok d1 /\ db_ok d2
    /\ users d2 = users d /\ audit_logs d2 = audit_logs d.
Proof.
  intros Hd. unfold replace_auth_session. rewrite bind_run.
  destruct (revoke_current_ok t b c d x Hd) as (x1 & -> & Hd1 & Hs & Ht & Hu & Hcl & Eu & Ea).
  set (d1 := revoke_presented t (w_clock x) d) in *.
  rewrite !bind_run, generate_token_at, !bind_run, generate_token_at, !bind_run, utcnow_at.
  cbv zeta. rewrite !bind_run, create_session_at. cbv zeta.
  destruct (inet_bind ip) as [ip'|e] eqn:Ei; [|done].
  destruct (is_none _ && _) eqn:Eo; [|done].
  apply andb_true_iff in Eo as [Hn Hr]. rewrite ret_run. intros H.
  assert (r = (store_session ip' (mkSession (env_uuid (w_uuid x1)) (u_id user) (hash_token (env_token (w_token x1)))
     (hash_token (env_token (S (w_token x1)))) (env_now (w_clock x1)) (env_now (w_clock x1))
     (calculate_session_expiry auth_settings (env_now (w_clock x1)) (env_now (w_clock x1))) None None ip ua),
     env_token (w_token x1), env_token (S (w_token x1)))) as -> by (by injection H).
  assert (w' = (at_db b c (with_sessions <[env_uuid (w_uuid x1) := store_session ip' (mkSession (env_uuid (w_uuid x1)) (u_id user) (hash_token (env_token (w_token x1)))
     (hash_token (env_token (S (w_token x1)))) (env_now (w_clock x1)) (env_now (w_clock x1))
     (calculate_session_expiry auth_settings (env_now (w_clock x1)) (env_now (w_clock x1))) None None ip ua)]> d1)
     (tick_uuid (tick_clock (tick_token (tick_token x1)))))) as -> by (by injection H).
  rewrite <- Ht, <- Hcl. eexists _, _. cbv zeta. fold d1.
  split_and!; try done; try (by destruct Hs).
  - by destruct (sessions d1 !! _).
  - by apply db_ok_sessions_insert.
Qed.

(** ** Login *)

(** Effective roles of a user. *)
Definition authorization_of d (uid : Z) : UserAuthorization :=
  resolve_user_authorization uid (sorted (map r_role_code (select (role_of uid) (user_roles d)))).

Lemma authorization_at uid b c d x :
  authorization_for_existing_user uid (at_db b c d x) = (Ok (authorization_of d uid), at_db b c d x).
Proof. unfold authorization_for_existing_user. by rewrite bind_run, get_user_role_codes_at. Qed.

(** What issuing a session leaves in the database, when it starts at the reading [n] of
    the clock: the account with its login time, the presented session revoked, one new
    session and one audit row; nothing else. *)
Record session_issued (ty : AuthEventType) (n : nat) (u' : User) (t ip ua : option string)
    (tok csrf : string) (d d' : DB) (s : AuthSession) : Prop := {
  si_db : exists a,
    d' = with_audit_logs <[a_id a := a]>
           (with_sessions <[s_id s := s]> (revoke_presented t n (with_users <[u_id u' := u']> d)))
    /\ audit_written (event (Some (u_id u')) (Some (s_id s)) ty ip ua) a
    /\ audit_logs d !! a_id a = None
    /\ sessions (revoke_presented t n d) !! s_id s = None;
  si_session : fresh_session (u_id u') tok csrf ip ua (env_now (issue_reading t n d)) s;
}.

Lemma presented_session_users t n f d : presented_session t n (with_users f d) = presented_session t n d.
Proof. done. Qed.
Lemma issue_reading_users t n f d : issue_reading t n (with_users f d) = issue_reading t n d.
Proof. done. Qed.
Lemma revoke_presented_users t n f d :
  revoke_presented t n (with_users f d) = with_users f (revoke_presented t n d).
Proof. unfold revoke_presented. rewrite presented_session_users. by destruct (presented_session t n d). Qed.

Lemma login_transaction_inv u t ip ua c d x r w' :
  db_ok d -> users d !! u_id u = Some u -> u_deleted_at u = None ->
  login_transaction auth_settings (u_id u) t ip ua (at_db false c d x) = (Ok r, w') ->
  exists s d' x',
    let u' := set_last_login (stored (env_now (w_clock x))) u in
    let tok := env_token (w_token x) in
    let csrf := env_token (S (w_token x)) in
    r = (u', (s, tok, csrf)) /\ w' = at_db false c d' x' /\ same_rest x x'
    /\ session_issued LOGIN_SUCCESS (S (w_clock x)) u' t ip ua tok csrf d d' s.
Proof.
  intros Hd Hu Hn. unfold login_transaction. intros (w1 & Hb & Hw)%transaction_ok_inv.
  rewrite bind_run, utcnow_at, bind_run in Hb.
  destruct (record_user_login_ok (u_id u) u (env_now (w_clock x)) true d d (tick_clock x) Hd Hu Hn)
    as [Hl Hd1]. rewrite Hl in Hb. clear Hl. set (u' := set_last_login _ u) in *.
  apply bind_inv in Hb as [(e & _ & ?)|([[s tok] csrf] & w2 & Hi & Hb)]; [done|].
  apply replace_auth_session_inv in Hi as (s' & x2 & Hr & -> & Hs & Hf & Hfree & _ & _ & Hd2 & Eu & Ea);
    [|done]. simplify_eq.
  rewrite bind_run in Hb. destruct (create_audit_log _ _) as [ra w3] eqn:Ec.
  apply create_audit_log_inv in Ec as (x3 & E1 & E2 & E3 & [(-> & a & Haw & Han & ->)|(e & -> & ->)]);
    [|done].
  rewrite ret_run in Hb. injection Hb as <- <-.
  eexists s', _, x3. cbv zeta. split_and!; [done|by apply Hw| |].
  - destruct Hs. split; simpl in *; congruence.
  - split; [|exact Hf]. exists a. split_and!; [done|done|by rewrite Ea in Han|].
    by rewrite revoke_presented_users in Hfree.
Qed.

(** The limiter key of a client address. *)
Definition limiter_ip (ip : option string) : string := or_else ip "unknown".

(** What a login that returns has checked and done. *)
Record login_effect (email pw : string) (t ip ua : option string) d x d' x' (r : IssuedAuthSession)
  (u : User) (h : string) (s : AuthSession) : Prop := {
  le_allowed : (lim_is_allowed (limiter_ip ip) (normalize_email email) (w_ext x)).1 = true;
  le_user : user_by_email d (normalize_email email) = Some u;
  le_active : u_is_active u = true;
  le_hash : u_password_hash u = Some h;
  le_password : env_pw_verify pw h = true;
  le_verified : w_verified x' = w_verified x ++ [(pw, h)];
  le_login : let u' := set_last_login (stored (env_now (w_clock x))) u in
    session_issued LOGIN_SUCCESS (S (w_clock x)) u' t ip ua (is_session_token r) (is_csrf_token r) d d' s
    /\ r = Issued u' s (is_session_token r) (is_csrf_token r)
             (ua_roles (authorization_of d' (u_id u))) (ua_permissions (authorization_of d' (u_id u)));
  le_tokens : is_session_token r = env_token (w_token x) /\ is_csrf_token r = env_token (S (w_token x));
  le_limiter : w_ext x' = (lim_record_success (limiter_ip ip) (normalize_email email)
    (lim_is_allowed (limiter_ip ip) (normalize_email email) (w_ext x)).2).2;
}.

Lemma login_inv email pw t ip ua c d x r w' :
  db_ok d -> login auth_settings email pw t ip ua (at_db false c d x) = (Ok r, w') ->
  exists u h s d' x', w' = at_db false c d' x' /\ login_effect email pw t ip ua d x d' x' r u h s.
Proof.
  intros Hd. unfold login, is_allowed. rewrite bind_run, call_ext_at.
  destruct (lim_is_allowed _ _ _) as [[|] l1] eqn:Ea; cbn [fst snd negb]; [|done].
  rewrite bind_run, find_user_by_email_ok by done.
  destruct (user_by_email d _) as [u|] eqn:Eu; cbn [login_password_hash].
  2: { rewrite bind_run, verify_password_at, bind_run.
       destruct (record_failure _ _ _ _) as [[?|?] ?]; [|done]. rewrite bind_run.
       destruct (create_audit_log _ _) as [[?|?] ?]; [|done]. done. }
  fold (login_password_hash (Some u)).
  destruct (login_password_hash (Some u)) as [h hh] eqn:Eh.
  rewrite bind_run, verify_password_at.
  destruct (negb (u_is_active u) || negb hh || negb (env_pw_verify pw h)) eqn:Eb.
  { rewrite bind_run. destruct (record_failure _ _ _ _) as [[?|?] ?]; [|done]. rewrite bind_run.
    destruct (create_audit_log _ _) as [[?|?] ?]; [|done]. done. }
  bool_to_prop. subst. simpl in Eh. destruct (u_password_hash u) as [h'|] eqn:Eph; simplify_eq.
  destruct (user_by_email_Some _ _ _ Hd Eu) as (Hk & He & Hn).
  intros [(e & _ & ?)|([u0 [[s tok] csrf]] & w2 & Hl & Hr)]%bind_inv; [done|].
  apply login_transaction_inv in Hl as (s' & d' & x' & Hrr & -> & [Hx1 Hx2] & Hsi);
    [|done..]. cbv zeta in Hrr, Hsi. simplify_eq. simpl in Hx1, Hx2.
  rewrite bind_run in Hr. unfold record_success in Hr. rewrite call_ext_at, bind_run, authorization_at, ret_run in Hr.
  injection Hr as <- <-. exists u, h, s', d', (set_ext (lim_record_success (or_else ip "unknown")
    (normalize_email email) (w_ext x')).2 x'). split; [done|].
  split; unfold limiter_ip; rewrite ?Ea; try done.
  - simpl. by rewrite <- Hx1.
Qed.

(** The session a login was presented with is revoked in its result. *)
Lemma issued_revokes ty n u' t ip ua tok csrf d d' s s0 :
  session_issued ty n u' t ip ua tok csrf d d' s -> presented_session t n d = Some s0 ->
  sessions d' !! s_id s0 = Some (set_revoked (stored (env_now (S n))) s0).
Proof.
  intros [(a & -> & _ & _ & Hfree) _] Hp. unfold revoke_presented in *.
  rewrite presented_session_users. rewrite Hp in *. simpl in *.
  rewrite lookup_insert_ne; [by rewrite lookup_insert_eq|].
  intros Heq. rewrite Heq, lookup_insert_eq in Hfree. done.
Qed.

(** C8. A login that returns proves the password: the address was allowed, the
    e-mail belongs to an active, undeleted account, and the one password
    verification made, against that account's hash, succeeded.  Its effect on the
    database is exactly this ([session_issued] gives the whole new database): the
    account's login time is set to the time of the login; the session that the presented
    token opens at the next reading of the clock, if there is one, is revoked at the
    reading after; one session with the account's identifier, new token hashes and the
    expiry of a session issued at the following reading is added; and one audit row
    records it.  The limiter is told of the success; the roles returned are the
    account's. *)
Theorem login_ok email pw t ip ua (w w' : World L) r :
  idle w -> db_ok (w_committed w) ->
  login auth_settings email pw t ip ua w = (Ok r, w') ->
  idle w' /\ exists u h s,
    login_effect email pw t ip ua (w_committed w) w (w_committed w') w' r u h s
    /\ forall s0, presented_session t (S (w_clock w)) (w_committed w) = Some s0 ->
         sessions (w_committed w') !! s_id s0
         = Some (set_revoked (stored (env_now (S (S (w_clock w))))) s0).
Proof.
  intros Hidle Hd. rewrite (idle_at w Hidle). set (d := w_committed w) in *. clearbody d.
  intros (u & h & s & d' & x' & -> & He)%login_inv; [|done]. split; [done|].
  exists u, h, s. split; [by destruct He|]. intros s0. eapply issued_revokes.
  apply (le_login _ _ _ _ _ _ _ _ _ _ _ _ _ He).
Qed.

(** Counting a failure, recording it and raising. *)
Lemma refusal {A} uid sid ty em inc ip ip' ua (err : exn) b c d x :
  inet_bind ip = Ok ip' -> audit_logs d !! env_uuid (w_uuid x) = None ->
  references (users d) uid = true -> references (sessions d) sid = true ->
  exists x' a,
    (record_failure (limiter_ip ip) em inc ;;
     create_audit_log (event uid sid ty ip ua) ;; raise err : M L A) (at_db b c d x)
    = (Raise err, at_db b c (with_audit_logs <[a_id a := a]> d) x')
    /\ w_verified x' = w_verified x /\ audit_written (event uid sid ty ip ua) a
    /\ w_ext x' = (lim_record_failure (limiter_ip ip) em inc (w_ext x)).2.
Proof.
  intros Hip Hf Hu Hs. unfold record_failure. rewrite bind_run, call_ext_at, bind_run.
  set (x1 := set_ext _ x).
  destruct (create_audit_log_live (event uid sid ty ip ua) ip' b c d x1) as [w1 Hc]; [done..|].
  rewrite Hc.
  apply create_audit_log_inv in Hc as (x3 & E1 & E2 & E3 & [(_ & a & Haw & Han & ->)|(e & ? & ->)]); [|done].
  exists x3, a. by rewrite raise_run.
Qed.

(** The credentials do not open an account. *)
Definition bad_credentials d (em pw : string) : bool :=
  match user_by_email d em with
  | Some u => negb (u_is_active u) || negb (login_password_hash (Some u)).2
              || negb (env_pw_verify pw (login_password_hash (Some u)).1)
  | None => true
  end.

(** C9. A refused login looks the same whatever the reason (no such account, an
    inactive one, one without a password, a wrong password): one password
    verification is made, the failure is counted, one audit row is written and
    nothing else changes, and the same exception is raised.  A login over the rate
    limit makes no verification and leaves the database alone. *)
Theorem login_refused email pw t ip ua (w : World L) ip' :
  idle w -> db_ok (w_committed w) -> inet_bind ip = Ok ip' ->
  audit_logs (w_committed w) !! env_uuid (w_uuid w) = None ->
  let em := normalize_email email in
  let asked := lim_is_allowed (limiter_ip ip) em (w_ext w) in
  let window := AUTH_RATE_LIMIT_WINDOW_SECONDS auth_settings in
  (asked.1 = false ->
     login auth_settings email pw t ip ua w
     = (Raise (RateLimitExceededError (Some window)), set_ext asked.2 w))
  /\ (asked.1 = true -> bad_credentials (w_committed w) em pw = true ->
     exists w' h a,
       login auth_settings email pw t ip ua w = (Raise InvalidCredentialsError, w')
       /\ w_verified w' = w_verified w ++ [(pw, h)]
       /\ w_committed w' = with_audit_logs <[a_id a := a]> (w_committed w)
       /\ audit_written (event (u_id <$> user_by_email (w_committed w) em) None LOGIN_FAILED ip ua) a
       /\ w_ext w' = (lim_record_failure (limiter_ip ip) em true asked.2).2
       /\ idle w').
Proof.
  intros Hidle Hd Hip Hfree. rewrite (idle_at w Hidle).
  set (d := w_committed w) in *. clearbody d.
  change (w_committed (at_db false d d w)) with d. change (w_ext (at_db false d d w)) with (w_ext w).
  unfold login, is_allowed. rewrite bind_run, call_ext_at. unfold limiter_ip. cbv zeta.
  destruct (lim_is_allowed _ _ _) as [[|] l1] eqn:Ea; cbn [fst snd negb];
    (split; [try done; by intros _|try done]).
  intros _. rewrite bind_run, find_user_by_email_ok by done. unfold bad_credentials.
  destruct (user_by_email d _) as [u|] eqn:Eu.
  - fold (login_password_hash (Some u)).
    destruct (login_password_hash (Some u)) as [h hh] eqn:Eh. rewrite bind_run, verify_password_at.
    cbn [fst snd]. intros ->.
    destruct (user_by_email_Some _ _ _ Hd Eu) as (Hk & _).
    destruct (@refusal IssuedAuthSession (Some (u_id u)) None LOGIN_FAILED (normalize_email email)
      true ip ip' ua InvalidCredentialsError false d d (log_verify pw h (set_ext l1 w)))
      as (x' & a & Heq & E1 & E2 & E3); [done|done| |done|].
    { apply references_spec. intros k [= <-]. by rewrite Hk. }
    unfold limiter_ip in Heq. rewrite Heq.
    eexists _, h, a. split_and!; [done|done|done|done|exact E3|done].
  - intros _. cbn [login_password_hash]. rewrite bind_run, verify_password_at.
    destruct (@refusal IssuedAuthSession None None LOGIN_FAILED (normalize_email email)
      true ip ip' ua InvalidCredentialsError false d d
      (log_verify pw DUMMY_PASSWORD_HASH (set_ext l1 w)))
      as (x' & a & Heq & E1 & E2 & E3); [done..|].
    unfold limiter_ip in Heq. rewrite Heq.
    eexists _, DUMMY_PASSWORD_HASH, a. split_and!; [done|done|done|done|exact E3|done].
Qed.

(** ** Liveness *)

(** The identifiers and tokens to come are new. *)
Record fresh_streams x d : Prop := {
  fr_users n : (w_uuid x <= n)%nat -> users d !! env_uuid n = None;
  fr_sessions n : (w_uuid x <= n)%nat -> sessions d !! env_uuid n = None;
  fr_audits n : (w_uuid x <= n)%nat -> audit_logs d !! env_uuid n = None;
  fr_tokens n k s : (w_token x <= n)%nat -> sessions d !! k = Some s ->
    s_session_token_hash s <> hash_token (env_token n);
}.

Lemma revoke_presented_sessions t n d k :
  sessions (revoke_presented t n d) !! k = sessions d !! k
  \/ exists s, presented_session t n d = Some s /\ k = s_id s
       /\ sessions (revoke_presented t n d) !! k = Some (set_revoked (stored (env_now (S n))) s).
Proof.
  unfold revoke_presented. destruct (presented_session t n d) as [s|]; [|by left]. simpl.
  destruct (decide (s_id s = k)) as [<-|Hne].
  - right. exists s. by rewrite lookup_insert_eq.
  - left. by rewrite lookup_insert_ne.
Qed.

Lemma replace_auth_session_live user t ip ip' ua b c d x :
  db_ok d -> fresh_streams x d -> is_Some (users d !! u_id user) -> inet_bind ip = Ok ip' ->
  exists r w', replace_auth_session auth_settings user t ip ua (at_db b c d x) = (Ok r, w')
    /\ s_id r.1.1 = env_uuid (w_uuid x) /\ w_uuid w' = S (w_uuid x).
Proof.
  intros Hd Hf Hu Hip. unfold replace_auth_session. rewrite bind_run.
  destruct (revoke_current_ok t b c d x Hd) as (x1 & -> & Hd1 & _ & Ht & Hx & _ & Eu & _).
  set (d1 := revoke_presented t (w_clock x) d) in *.
  rewrite !bind_run, generate_token_at, !bind_run, generate_token_at, !bind_run, utcnow_at.
  cbv zeta. rewrite !bind_run, create_session_at. cbv zeta. rewrite Hip.
  assert (sessions d1 !! env_uuid (w_uuid x1) = None) as Hn.
  { rewrite Hx. destruct (revoke_presented_sessions t (w_clock x) d (env_uuid (w_uuid x))) as [Ek|(s & Hs & Ek & _)].
    - fold d1 in Ek. rewrite Ek. by apply (fr_sessions _ _ Hf).
    - apply presented_session_Some in Hs; [|done]. rewrite <- Ek in Hs.
      by rewrite (fr_sessions _ _ Hf) in Hs. }
  change (w_uuid (tick_clock (tick_token (tick_token x1)))) with (w_uuid x1).
  change (w_clock (tick_token (tick_token x1))) with (w_clock x1).
  change (w_token (tick_token x1)) with (S (w_token x1)).
  rewrite Hn. simpl.
  match goal with |- context [session_row_ok d1 ?s] => assert (session_row_ok d1 s = true) as -> end.
  { apply session_row_ok_spec. simpl. split.
    - rewrite Eu. apply references_spec. by intros k [= <-].
    - apply exists_row_false. intros k s Hk. unfold token_conflict. simpl.
      apply andb_false_iff. right. apply String.eqb_neq. rewrite Ht.
      destruct (revoke_presented_sessions t (w_clock x) d k) as [Ek|(s0 & Hs & E0 & Ek)];
        fold d1 in Ek; rewrite Ek in Hk.
      + by eapply (fr_tokens _ _ Hf).
      + simplify_eq. simpl. apply presented_session_Some in Hs; [|done].
        by eapply (fr_tokens _ _ Hf). }
  eexists _, _. split_and!; [reflexivity|by simpl; rewrite Hx|by simpl; rewrite Hx].
Qed.

(** C30. With new identifiers and tokens, a login with the right credentials of an
    account under the rate limit succeeds. *)
Theorem login_live email pw t ip ip' ua (w : World L) :
  idle w -> db_ok (w_committed w) -> fresh_streams w (w_committed w) -> inet_bind ip = Ok ip' ->
  (lim_is_allowed (limiter_ip ip) (normalize_email email) (w_ext w)).1 = true ->
  bad_credentials (w_committed w) (normalize_email email) pw = false ->
  exists r w', login auth_settings email pw t ip ua w = (Ok r, w').
Proof.
  intros Hidle Hd Hf Hip Ha Hc. rewrite (idle_at w Hidle).
  set (d := w_committed w) in *. clearbody d. unfold login, is_allowed.
  rewrite bind_run, call_ext_at. unfold limiter_ip in Ha. cbv zeta. rewrite Ha. cbn [negb].
  rewrite bind_run, find_user_by_email_ok by done.
  unfold bad_credentials in Hc. destruct (user_by_email d _) as [u|] eqn:Eu; [|done].
  fold (login_password_hash (Some u)). destruct (login_password_hash (Some u)) as [h hh] eqn:Eh.
  rewrite bind_run, verify_password_at. cbn [fst snd] in Hc. rewrite Hc.
  set (x := log_verify _ _ _). rewrite bind_run. unfold login_transaction. rewrite transaction_at.
  rewrite bind_run, utcnow_at, bind_run.
  destruct (user_by_email_Some _ _ _ Hd Eu) as (Hk & _ & Hn).
  destruct (record_user_login_ok (u_id u) u (env_now (w_clock x)) true d d (tick_clock x) Hd Hk Hn)
    as [Hl Hd1]. rewrite Hl, bind_run.
  edestruct (replace_auth_session_live (set_last_login (stored (env_now (w_clock x))) u) t ip ip' ua
    true d (with_users <[u_id u:=set_last_login (stored (env_now (w_clock x))) u]> d) (tick_clock x))
    as ([[s tok] csrf] & w1 & Hr & Hsid & Huu); [done| | |done|].
  { destruct Hf as [Hf1 Hf2 Hf3 Hf4]. split; simpl; try done.
    intros n Hle. rewrite lookup_insert_ne; [by apply Hf1|]. intros E0.
    specialize (Hf1 n Hle). rewrite <- E0 in Hf1. congruence. }
  { simpl. by rewrite lookup_insert_eq. }
  rewrite Hr. apply replace_auth_session_inv in Hr as (s' & x2 & Hrr & -> & _ & Hfs & _ & _ & _ & Hd2 & Eu2 & Ea2);
    [|done]. simplify_eq. rewrite bind_run. simpl in Huu.
  audit_live ip' w2 Hw2; [done| | | |].
  - rewrite Ea2. simpl. rewrite Huu. apply (fr_audits _ _ Hf). simpl. lia.
  - rewrite Eu2. apply references_spec. intros k [= <-]. simpl. by rewrite lookup_insert_eq.
  - apply references_spec. intros k [= <-]. simpl. by rewrite lookup_insert_eq.
  - rewrite Hw2. apply create_audit_log_inv in Hw2 as (x3 & _ & _ & _ & [(_ & a & _ & _ & ->)|(e & ? & ->)]); [|done].
    rewrite ret_run, w_tx_at, commit_at. cbv beta iota. unfold record_success.
    rewrite bind_run, call_ext_at, bind_run, authorization_at, ret_run. eauto.
Qed.

End Spec.

(** ** Instances *)

Lemma demo_fresh : fresh_streams demo_world demo_db.
Proof.
  split; unfold demo_db; simpl.
  - intros n _. rewrite !lookup_insert_ne by (simpl; lia). done.
  - intros n _. rewrite !lookup_insert_ne by (simpl; lia). done.
  - done.
  - intros n k s _ [[<- <-]|[_ H]]%lookup_insert_Some; [|done]. simpl. done.
Qed.

(** The session that Ann presents is revoked. *)
Lemma login_ok_witness : exists r w' s0,
  login default_auth_settings " Ann@Example.com" "correct horse battery" (Some "ann-token"%string)
    (Some "10.0.0.1"%string) None demo_world = (Ok r, w')
  /\ is_session_token r = "token0"%string /\ idle w'
  /\ sessions (w_committed w') !! s_id s0 = Some (set_revoked (stored (env_now 2)) s0).
Proof.
  eexists _, _, _. assert (login default_auth_settings " Ann@Example.com" "correct horse battery"
    (Some "ann-token"%string) (Some "10.0.0.1"%string) None demo_world = (Ok _, _)) as H
    by (apply run_eq; vm_compute; reflexivity).
  split; [exact H|].
  destruct (login_ok default_auth_settings _ _ _ _ _ demo_world _ _ (world_of_idle _) demo_db_ok H)
    as (Hi & u & h & s & He & Hrev).
  split; [rewrite (proj1 (le_tokens _ _ _ _ _ _ _ _ _ _ _ _ _ _ He)); reflexivity|].
  split; [exact Hi|]. apply (Hrev (store_session (Some "10.0.0.1"%string) ann_session)).
  vm_compute. reflexivity.
Defined.

Lemma login_refused_witness : exists w' h a,
  login default_auth_settings "ann@example.com" "wrong" None (Some "10.0.0.1"%string) None demo_world
  = (Raise InvalidCredentialsError, w')
  /\ w_verified w' = [("wrong"%string, h)]
  /\ w_committed w' = with_audit_logs <[a_id a := a]> demo_db.
Proof.
  destruct (login_refused default_auth_settings "ann@example.com" "wrong" None
    (Some "10.0.0.1"%string) None demo_world (Some "10.0.0.1"%string)
    (world_of_idle _) demo_db_ok) as [_ H]; [reflexivity|reflexivity|].
  destruct H as (w' & h & a & H1 & H2 & H3 & _); [vm_compute; reflexivity|vm_compute; reflexivity|].
  exists w', h, a. split; [exact H1|]. split; [exact H2|exact H3].
Defined.

Lemma login_live_witness : exists r w',
  login default_auth_settings "ann@example.com" "correct horse battery" None
    (Some "10.0.0.1"%string) None demo_world = (Ok r, w').
Proof.
  apply (login_live default_auth_settings _ _ _ _ (Some "10.0.0.1"%string) _ demo_world
    (world_of_idle _) demo_db_ok demo_fresh); vm_compute; reflexivity.
Defined.
