(* ===== verification/Closure.v ===== *)
(** * Invariants closed under the statements of the program

    [Closed I]: the property [I] of the database survives every kind of statement
    the repositories issue, under the conditions they issue it; [Steady I]: every
    kind but the two that write the times of a session.  Every method of
    the repositories and of the use cases then preserves [I]; the lemmas are the
    hints of [preserve].  The integrity of the database is an instance;
    [Histories] gives others.  At the end, what
    follows for code in a transaction: all or nothing. *)

From S2P Require Import Prelude PyStr Errors Time Tables Effects UnitOfWork Preserve Url.
From S2P Require Import Settings Authorization Interfaces AuthRepository.
From S2P Require Import AuthorizationRepository AdminUserRepository SampleItemRepository Runs Integrity.
From S2P Require Import AuthUsecase AccountDeletionUsecase AuthorizationUsecase.
From S2P Require Import AdminUserUsecase SampleItemUsecase OAuthOidcUsecase.

(** What an UPDATE of one row may change. *)
Definition user_step (u u' : User) : Prop :=
  u_id u' = u_id u /\ u_registered_at u' = u_registered_at u /\ u_deleted_at u' = u_deleted_at u.
Definition session_step (s s' : AuthSession) : Prop :=
  s_id s' = s_id s /\ s_user_id s' = s_user_id s
  /\ s_session_token_hash s' = s_session_token_hash s /\ s_issued_at s' = s_issued_at s
  /\ s_last_seen_at s' = s_last_seen_at s /\ s_expires_at s' = s_expires_at s
  /\ (is_some (s_revoked_at s) = true -> is_some (s_revoked_at s') = true).
Definition state_step (o o' : AuthOidcState) : Prop :=
  o_id o' = o_id o /\ o_state_hash o' = o_state_hash o /\ o_language_code o' = o_language_code o
  /\ is_some (o_consumed_at o') = true.

Section Closed.
Context `{E : Env}.

(** A hash of a token of the stream from [n0] on. *)
Definition generated (n0 : nat) (h : string) : Prop :=
  exists n, (n0 <= n)%nat /\ h = env_sha256 (env_token n).

Lemma generated_token n0 n : (n0 <= n)%nat -> generated n0 (hash_token (env_token n)).
Proof. intros H. by exists n. Qed.

(** Every statement but the two that write the times of a session. *)
Class Steady (n0 : nat) (I : DB -> Prop) : Prop := {
  cl_user_insert d u : I d -> users d !! u_id u = None -> user_row_ok d u = true ->
    u_deleted_at u = None -> I (with_users <[u_id u := store_user u]> d);
  cl_user_update d k u u' : I d -> users d !! k = Some u -> user_step u u' ->
    user_row_ok d u' = true -> I (with_users <[k := u']> d);
  cl_users_modified d p t : I d -> I (with_users (update_where p (set_user_modified t)) d);
  cl_user_deleted d uid t : I d -> I (mark_deleted uid t d);
  cl_session_update d k s s' : I d -> sessions d !! k = Some s -> session_step s s' ->
    session_row_ok d s' = true -> I (with_sessions <[k := s']> d);
  cl_sessions_revoked d p t : I d -> I (with_sessions (update_where p (set_revoked t)) d);
  cl_sessions_deleted d p : I d -> I (delete_sessions p d);
  cl_identity_insert d i : I d -> identities d !! i_id i = None -> identity_row_ok d i = true ->
    I (with_identities <[i_id i := store_identity i]> d);
  cl_identities_login d p t : I d -> I (with_identities (update_where p (set_identity_login t)) d);
  cl_identities_deleted d p : I d -> I (with_identities (delete_where p) d);
  cl_state_insert d o : I d -> oidc_states d !! o_id o = None -> oidc_state_row_ok d o = true ->
    generated n0 (o_state_hash o) -> I (with_oidc_states <[o_id o := store_oidc_state o]> d);
  cl_state_update d k o o' : I d -> oidc_states d !! k = Some o -> state_step o o' ->
    oidc_state_row_ok d o' = true -> I (with_oidc_states <[k := o']> d);
  cl_states_deleted d p : I d -> I (with_oidc_states (delete_where p) d);
  cl_audit_insert d a ip : I d -> audit_logs d !! a_id a = None -> audit_row_ok d a = true ->
    I (with_audit_logs <[a_id a := store_audit ip a]> d);
  cl_audit_detail d k a j : I d -> audit_logs d !! k = Some a ->
    audit_row_ok d (set_detail j a) = true -> I (with_audit_logs <[k := set_detail j a]> d);
  cl_audits_deleted d p : I d -> I (with_audit_logs (delete_where p) d);
  cl_role_insert d r : I d -> user_roles d !! r_id r = None -> user_role_row_ok d r = true ->
    I (with_user_roles <[r_id r := store_user_role r]> d);
  cl_roles_deleted d p : I d -> I (with_user_roles (delete_where p) d);
  cl_item_insert d i : I d -> sample_items d !! it_id i = None -> sample_item_row_ok d i = true ->
    I (with_sample_items <[it_id i := store_sample_item i]> d);
  cl_item_update d k i i' : I d -> sample_items d !! k = Some i -> it_id i' = k ->
    sample_item_row_ok d i' = true -> I (with_sample_items <[k := i']> d);
  cl_item_deleted d k : I d -> I (with_sample_items (delete k) d);
  cl_items_deleted d p : I d -> I (with_sample_items (delete_where p) d);
}.

(** With the INSERT of a session and the UPDATE of its last use. *)
Class Closed (n0 : nat) (I : DB -> Prop) : Prop := {
  closed_steady :: Steady n0 I;
  cl_session_insert d s ip : I d -> sessions d !! s_id s = None -> session_row_ok d s = true ->
    generated n0 (s_session_token_hash s) -> I (with_sessions <[s_id s := store_session ip s]> d);
  cl_session_seen d k s a b : I d -> sessions d !! k = Some s ->
    session_row_ok d (set_last_seen a b s) = true -> I (with_sessions <[k := set_last_seen a b s]> d);
}.

Section Methods.
Context {L : Type} (n0 : nat) (I : DB -> Prop) `{HI : !Steady n0 I}.

(** ** Statements *)

Lemma pres_insert_user u : u_deleted_at u = None -> preserves n0 I (insert_user u : M L unit).
Proof.
  intros Hu. apply preserves_checked. intros d Hd [Hk%is_none_true Hr]%andb_true_iff.
  by apply cl_user_insert.
Qed.
Lemma pres_update_user k f :
  (forall u, user_step u (f u)) -> preserves n0 I (update_user_row k f : M L unit).
Proof. intros Hf. apply preserves_update_row. intros. eapply cl_user_update; eauto. Qed.
Lemma pres_insert_session `{HC : !Closed n0 I} s :
  generated n0 (s_session_token_hash s) -> preserves n0 I (insert_session s : M L unit).
Proof.
  intros Hs. apply preserves_bind; [apply preserves_lift|]. intros ip.
  apply preserves_checked. intros d Hd [Hk%is_none_true Hr]%andb_true_iff.
  by apply cl_session_insert.
Qed.
Lemma pres_update_session k f :
  (forall s, session_step s (f s)) -> preserves n0 I (update_session_row k f : M L unit).
Proof. intros Hf. apply preserves_update_row. intros. eapply cl_session_update; eauto. Qed.
Lemma pres_session_seen `{HC : !Closed n0 I} k a b :
  preserves n0 I (update_session_row k (set_last_seen a b) : M L unit).
Proof. apply preserves_update_row. intros. eapply cl_session_seen; eauto. Qed.
Lemma pres_insert_identity i : preserves n0 I (insert_identity i : M L unit).
Proof.
  apply preserves_checked. intros d Hd [Hk%is_none_true Hr]%andb_true_iff.
  by apply cl_identity_insert.
Qed.
Lemma pres_insert_state o : generated n0 (o_state_hash o) -> preserves n0 I (insert_oidc_state o : M L unit).
Proof.
  intros Ho. apply preserves_checked. intros d Hd [Hk%is_none_true Hr]%andb_true_iff.
  by apply cl_state_insert.
Qed.
Lemma pres_update_state k f :
  (forall o, state_step o (f o)) -> preserves n0 I (update_oidc_state_row k f : M L unit).
Proof. intros Hf. apply preserves_update_row. intros. eapply cl_state_update; eauto. Qed.
Lemma pres_insert_audit a : preserves n0 I (insert_audit a : M L unit).
Proof.
  apply preserves_bind; [apply preserves_lift|]. intros ip.
  apply preserves_checked. intros d Hd [Hk%is_none_true Hr]%andb_true_iff.
  by apply cl_audit_insert.
Qed.
Lemma pres_update_audit k j : preserves n0 I (update_audit_row k (set_detail j) : M L unit).
Proof. apply preserves_update_row. intros. eapply cl_audit_detail; eauto. Qed.
Lemma pres_insert_role r : preserves n0 I (insert_user_role r : M L unit).
Proof.
  apply preserves_checked. intros d Hd [Hk%is_none_true Hr]%andb_true_iff.
  by apply cl_role_insert.
Qed.
Lemma pres_insert_item i : preserves n0 I (insert_sample_item i : M L unit).
Proof.
  apply preserves_checked. intros d Hd [Hk%is_none_true Hr]%andb_true_iff.
  by apply cl_item_insert.
Qed.
Lemma pres_update_item i :
  preserves n0 I (update_sample_item_row (it_id i) (fun _ => store_sample_item i) : M L unit).
Proof. apply preserves_update_row. intros. eapply cl_item_update; eauto. Qed.

Lemma pres_generate_token {A} (f : string -> M L A) :
  (forall n, (n0 <= n)%nat -> preserves n0 I (f (env_token n))) ->
  preserves n0 I (generate_token ≫= f).
Proof.
  intros H w Hw. rewrite bind_run. simpl. pose proof Hw as [Hc Ht Hl Hn].
  destruct (H (w_token w) Hn (tick_token w)) as [H1 H2]; [|by split].
  split; simpl; try done. lia.
Qed.
Lemma pres_lift {A B} (r : result A) (f : A -> M L B) :
  (forall a, r = Ok a -> preserves n0 I (f a)) -> preserves n0 I (lift r ≫= f).
Proof. intros H w Hw. rewrite bind_run. simpl. destruct r; [by apply H|done]. Qed.

Lemma user_step_language c t u : user_step u (set_user_modified t (set_language c u)).
Proof. done. Qed.
Lemma user_step_login t u : user_step u (set_last_login t u).
Proof. done. Qed.
Lemma session_step_revoked t s : session_step s (set_revoked t s).
Proof. by split_and!. Qed.
Lemma session_step_csrf h s : session_step s (set_csrf_hash h s).
Proof. by split_and!. Qed.
Lemma session_step_oidc t s : session_step s (set_oidc_authenticated t s).
Proof. by split_and!. Qed.
Lemma state_step_consumed t o : state_step o (set_consumed t o).
Proof. by split_and!. Qed.
End Methods.
End Closed.

#[export] Hint Resolve pres_insert_user pres_update_user pres_insert_session pres_update_session
  pres_insert_identity pres_insert_state pres_update_state pres_insert_audit pres_update_audit
  pres_insert_role pres_insert_item pres_update_item user_step_language user_step_login
  pres_session_seen session_step_revoked session_step_csrf session_step_oidc
  state_step_consumed : preserve.
(** A bulk statement. *)
Ltac closed_statement :=
  first [ apply cl_users_modified | apply cl_user_deleted | apply cl_sessions_revoked
        | apply cl_sessions_deleted | apply cl_identities_login | apply cl_identities_deleted
        | apply cl_states_deleted | apply cl_audits_deleted | apply cl_roles_deleted
        | apply cl_item_deleted | apply cl_items_deleted ]; assumption.

(** [preserve] for the methods, which also bind tokens and pure results and issue
    bulk statements. *)
Ltac closed_step :=
  match goal with
  | |- preserves _ _ (mbind _ generate_token) => apply pres_generate_token; intros ? ?
  | |- preserves _ _ (mbind _ (lift _)) => apply pres_lift; intros ? ?
  | |- preserves _ _ (write_db _) => apply preserves_write_db; intros ? ?; try closed_statement
  | |- preserves _ _ (exec_counting _ _ _) =>
      apply preserves_exec_counting; intros ? ?; try closed_statement
  | |- preserves _ _ (flush_audit _ _) => unfold flush_audit
  | H : _ = Some ?m |- preserves _ _ ?m => simpl in H; repeat case_match; simplify_eq/=
  | _ => preserve_step
  end.
Ltac closed := cbv zeta; repeat (closed_step; cbv zeta).

Section Repositories.
Context `{E : Env} {L : Type} (n0 : nat) (I : DB -> Prop) `{HI : !Steady n0 I}.

Lemma pres_create_user e h l : preserves n0 I (AuthRepository.create_user e h l : M L _).
Proof. unfold AuthRepository.create_user. closed. Qed.
Lemma pres_update_user_language k c t : preserves n0 I (update_user_language k c t : M L _).
Proof. unfold update_user_language. closed. Qed.
Lemma pres_find_user_by_email e : preserves n0 I (find_user_by_email e : M L _).
Proof. unfold find_user_by_email. closed. Qed.
Lemma pres_find_user_for_link e : preserves n0 I (find_user_by_verified_email_for_oidc_link e : M L _).
Proof. unfold find_user_by_verified_email_for_oidc_link. closed. Qed.
Lemma pres_find_user_for_collision e : preserves n0 I (find_user_by_email_for_oidc_collision e : M L _).
Proof. unfold find_user_by_email_for_oidc_collision. closed. Qed.
Lemma pres_find_user_by_id k : preserves n0 I (find_user_by_id_for_authentication k : M L _).
Proof. unfold find_user_by_id_for_authentication. closed. Qed.
Lemma pres_record_user_login k t : preserves n0 I (record_user_login k t : M L _).
Proof. unfold record_user_login. closed. Qed.
Lemma pres_find_identity p s : preserves n0 I (find_identity_by_provider_subject p s : M L _).
Proof. unfold find_identity_by_provider_subject. closed. Qed.
Lemma pres_find_identities k : preserves n0 I (find_identities_by_user_id k : M L _).
Proof. unfold find_identities_by_user_id. closed. Qed.
Lemma pres_create_auth_identity i : preserves n0 I (create_auth_identity i : M L _).
Proof. unfold create_auth_identity. closed. Qed.
Lemma pres_delete_identities k : preserves n0 I (delete_auth_identities_for_user k : M L _).
Proof. unfold delete_auth_identities_for_user. closed. Qed.
Lemma pres_create_session `{HC : !Closed n0 I} u h c t1 t2 t3 ip ua :
  generated n0 h -> preserves n0 I (create_session u h c t1 t2 t3 ip ua : M L _).
Proof. intros Hh. unfold create_session. closed. Qed.
Lemma pres_find_active_session h : preserves n0 I (find_active_session_by_token_hash h : M L _).
Proof. unfold find_active_session_by_token_hash. closed. Qed.
Lemma pres_find_session h : preserves n0 I (find_session_by_token_hash h : M L _).
Proof. unfold find_session_by_token_hash. closed. Qed.
Lemma pres_update_csrf k h : preserves n0 I (update_session_csrf_token_hash k h : M L _).
Proof. unfold update_session_csrf_token_hash. closed. Qed.
Lemma pres_revoke_session k : preserves n0 I (revoke_session k : M L _).
Proof. unfold revoke_session. closed. Qed.
Lemma pres_touch_session `{HC : !Closed n0 I} k a b : preserves n0 I (touch_session k a b : M L _).
Proof. unfold touch_session. closed. Qed.
Lemma pres_record_oidc_login u i s t a : preserves n0 I (record_oidc_login u i s t a : M L _).
Proof. unfold record_oidc_login. closed. Qed.
Lemma pres_record_oidc_reauth s a : preserves n0 I (record_oidc_reauth s a : M L _).
Proof. unfold record_oidc_reauth. closed. Qed.
Lemma pres_revoke_sessions_for_user u t : preserves n0 I (revoke_sessions_for_user u t : M L _).
Proof. unfold revoke_sessions_for_user. closed. Qed.
Lemma pres_delete_sessions_expired t : preserves n0 I (delete_sessions_expired_before t : M L _).
Proof. unfold delete_sessions_expired_before. closed. Qed.
Lemma pres_create_audit_log e : preserves n0 I (create_audit_log e : M L _).
Proof. unfold create_audit_log. closed. Qed.
Lemma pres_delete_audit_logs t : preserves n0 I (delete_audit_logs_occurred_before t : M L _).
Proof. unfold delete_audit_logs_occurred_before. closed. Qed.
Lemma pres_mark_user_deleted u t s ip : preserves n0 I (mark_user_deleted u t s ip : M L _).
Proof.
  unfold mark_user_deleted. closed.
  all: change (I (mark_deleted u t d)); by apply cl_user_deleted.
Qed.
Lemma pres_record_replay s ip ua t w :
  preserves n0 I (record_rejected_session_replay s ip ua t w : M L _).
Proof. unfold record_rejected_session_replay. closed. Qed.
Lemma pres_create_oidc_state o :
  generated n0 (o_state_hash o) -> preserves n0 I (create_oidc_authorization_state o : M L _).
Proof. intros Ho. unfold create_oidc_authorization_state. closed. Qed.
Lemma pres_consume_oidc_state h b t :
  preserves n0 I (consume_oidc_authorization_state h b t : M L _).
Proof. unfold consume_oidc_authorization_state. closed. Qed.
Lemma pres_delete_oidc_states t : preserves n0 I (delete_oidc_states_expired_before t : M L _).
Proof. unfold delete_oidc_states_expired_before. closed. Qed.

Lemma pres_get_user_role_codes u : preserves n0 I (get_user_role_codes u : M L _).
Proof. unfold get_user_role_codes, role_codes_for_user. closed. Qed.
Lemma pres_delete_unknown_roles k : preserves n0 I (delete_unknown_role_assignments k : M L _).
Proof. unfold delete_unknown_role_assignments. closed. Qed.
Lemma pres_new_user_roles u l t b : preserves n0 I (new_user_roles u l t b : M L _).
Proof. induction l; simpl; closed. Qed.
Lemma pres_replace_user_roles u l b : preserves n0 I (replace_user_roles u l b : M L _).
Proof.
  unfold replace_user_roles, role_codes_for_user. closed.
  all: eauto using pres_new_user_roles with preserve.
Qed.
Lemma pres_delete_roles_for_user u : preserves n0 I (delete_roles_for_user u : M L _).
Proof. unfold delete_roles_for_user. closed. Qed.

Lemma pres_list_users q o l : preserves n0 I (list_users q o l : M L _).
Proof. unfold list_users. closed. Qed.
Lemma pres_get_user u : preserves n0 I (get_user u : M L _).
Proof. unfold get_user. closed. Qed.
Lemma pres_admin_create_user e h b : preserves n0 I (AdminUserRepository.create_user e h b : M L _).
Proof. unfold AdminUserRepository.create_user. closed. Qed.

Lemma changed_columns_step c h f u : changed_columns c h = Ok f -> user_step u (f u).
Proof.
  unfold changed_columns, mbind, result_bind. repeat case_decide; repeat case_match;
    intros; simplify_eq/=; done.
Qed.
Lemma pres_admin_update_user u c h : preserves n0 I (AdminUserRepository.update_user u c h : M L _).
Proof.
  unfold AdminUserRepository.update_user. closed.
  apply pres_update_user; [done|]. intros u'.
  destruct (changed_columns_step c h a1 u') as (?&?&?); [congruence|]. by split_and!.
Qed.

Lemma pres_list_by_owner u n c : preserves n0 I (list_by_owner u n c : M L _).
Proof. unfold list_by_owner. closed. Qed.
Lemma pres_get_by_id_for_owner i u : preserves n0 I (get_by_id_for_owner i u : M L _).
Proof. unfold get_by_id_for_owner. closed. Qed.
Lemma pres_create_item_row i u t ds : preserves n0 I (create i u t ds : M L _).
Proof. unfold create. closed. Qed.
Lemma pres_update_item_row i : preserves n0 I (update i : M L _).
Proof. unfold update. closed. Qed.
Lemma pres_delete_item_row i : preserves n0 I (delete_item_row i : M L _).
Proof. unfold delete_item_row. closed. Qed.
Lemma pres_delete_all_for_owner u : preserves n0 I (delete_all_for_owner u : M L _).
Proof. unfold delete_all_for_owner. closed. Qed.
End Repositories.

#[export] Hint Resolve pres_create_user pres_update_user_language pres_find_user_by_email
  pres_find_user_for_link pres_find_user_for_collision pres_find_user_by_id pres_record_user_login
  pres_find_identity pres_find_identities pres_create_auth_identity pres_delete_identities
  pres_create_session pres_find_active_session pres_find_session pres_update_csrf
  pres_revoke_session pres_touch_session pres_record_oidc_login pres_record_oidc_reauth
  pres_revoke_sessions_for_user pres_delete_sessions_expired pres_create_audit_log
  pres_delete_audit_logs pres_mark_user_deleted pres_record_replay pres_create_oidc_state
  pres_consume_oidc_state pres_delete_oidc_states pres_get_user_role_codes
  pres_delete_unknown_roles pres_replace_user_roles pres_delete_roles_for_user pres_list_users
  pres_get_user pres_admin_create_user pres_admin_update_user pres_list_by_owner
  pres_get_by_id_for_owner pres_create_item_row pres_update_item_row pres_delete_item_row
  pres_delete_all_for_owner : preserve.

(** ** Use cases *)

Section Usecases.
Context `{E : Env} {L : Type} `{R : LoginRateLimiter L} `{P : OidcProviderClient L}.
Context (auth_settings : AuthSettings) (oidc_settings : OidcSettings) (is_ipv6 : string -> bool).
Context (n0 : nat) (I : DB -> Prop) `{HI : !Steady n0 I}.

Lemma pres_is_allowed ip em : preserves n0 I (is_allowed ip em : M L _).
Proof. apply preserves_call_ext. Qed.
Lemma pres_is_reauth_allowed ip em : preserves n0 I (is_account_deletion_reauth_allowed ip em : M L _).
Proof. apply preserves_call_ext. Qed.
Lemma pres_record_failure ip em b : preserves n0 I (record_failure ip em b : M L _).
Proof. apply preserves_call_ext. Qed.
Lemma pres_record_success ip em : preserves n0 I (record_success ip em : M L _).
Proof. apply preserves_call_ext. Qed.
Lemma pres_is_registration_allowed ip : preserves n0 I (is_registration_allowed ip : M L _).
Proof. apply preserves_call_ext. Qed.
Lemma pres_record_registration ip : preserves n0 I (record_registration ip : M L _).
Proof. apply preserves_call_ext. Qed.
Lemma pres_is_oidc_allowed ip : preserves n0 I (is_oidc_authorization_allowed ip : M L _).
Proof. apply preserves_call_ext. Qed.
Lemma pres_record_oidc ip : preserves n0 I (record_oidc_authorization ip : M L _).
Proof. apply preserves_call_ext. Qed.
Lemma pres_build_url rq : preserves n0 I (build_authorization_url rq : M L _).
Proof. apply preserves_call_ext_raising. Qed.
Lemma pres_exchange_code p c v : preserves n0 I (exchange_code p c v : M L _).
Proof. apply preserves_call_ext_raising. Qed.
Lemma pres_validate_id_token p t n b : preserves n0 I (validate_id_token p t n b : M L _).
Proof. apply preserves_call_ext_raising. Qed.
#[local] Hint Resolve pres_is_allowed pres_is_reauth_allowed pres_record_failure
  pres_record_success pres_is_registration_allowed pres_record_registration pres_is_oidc_allowed
  pres_record_oidc pres_build_url pres_exchange_code pres_validate_id_token : preserve.

Lemma pres_revoke_current t : preserves n0 I (revoke_current t : M L _).
Proof. unfold revoke_current. closed. Qed.
#[local] Hint Resolve pres_revoke_current : preserve.
Lemma pres_replace_auth_session `{HC : !Closed n0 I} u t ip ua :
  preserves n0 I (replace_auth_session auth_settings u t ip ua : M L _).
Proof.
  unfold replace_auth_session. closed. apply pres_create_session; [done|]. by apply generated_token.
Qed.
Lemma pres_audit_rejected h ip ua : preserves n0 I (audit_known_rejected_session h ip ua : M L _).
Proof. unfold audit_known_rejected_session. closed. Qed.
Lemma pres_authorization u : preserves n0 I (authorization_for_existing_user u : M L _).
Proof. unfold authorization_for_existing_user. closed. Qed.
#[local] Hint Resolve pres_replace_auth_session pres_audit_rejected pres_authorization : preserve.

Lemma pres_issue_csrf_token t : preserves n0 I (issue_csrf_token t : M L _).
Proof. unfold issue_csrf_token. closed. Qed.
Lemma pres_validate_session_csrf t c ip ua : preserves n0 I (validate_session_csrf t c ip ua : M L _).
Proof. unfold validate_session_csrf. closed. Qed.
Lemma pres_register `{HC : !Closed n0 I} e p l t ip ua : preserves n0 I (register auth_settings e p l t ip ua : M L _).
Proof.
  unfold register, register_checks, register_transaction. closed.
Qed.
Lemma pres_update_current_user c ch : preserves n0 I (update_current_user c ch : M L _).
Proof. unfold update_current_user. closed. Qed.
Lemma pres_login `{HC : !Closed n0 I} e p t ip ua : preserves n0 I (login auth_settings e p t ip ua : M L _).
Proof. unfold login, login_transaction. closed. Qed.
Lemma pres_authenticate_session `{HC : !Closed n0 I} t ip ua :
  preserves n0 I (authenticate_session auth_settings t ip ua : M L _).
Proof.
  unfold authenticate_session, reject_session, reject_user_sessions, refresh_session. closed.
Qed.
Lemma pres_logout t ip ua : preserves n0 I (logout t ip ua : M L _).
Proof. unfold logout. closed. Qed.

Lemma pres_delete_account c e p ip ua :
  preserves n0 I (delete_account auth_settings oidc_settings c e p ip ua : M L _).
Proof.
  unfold delete_account, reauthenticate, require_fresh_oidc_reauth, linked_provider_details,
    delete_account_transaction. closed.
Qed.

Lemma pres_audit_role_replacement c u r ip ua :
  preserves n0 I (audit_role_replacement c u r ip ua : M L _).
Proof. unfold audit_role_replacement, record_role_audit. closed. Qed.
#[local] Hint Resolve pres_audit_role_replacement : preserve.
Lemma pres_replace_roles c u l ip ua : preserves n0 I (replace_roles c u l ip ua : M L _).
Proof. unfold replace_roles. closed. Qed.
Lemma pres_detail_for_user u : preserves n0 I (detail_for_user u : M L _).
Proof. unfold detail_for_user. closed. Qed.
Lemma pres_hash_valid_password p : preserves n0 I (hash_valid_password p : M L _).
Proof. unfold hash_valid_password. closed. Qed.
#[local] Hint Resolve pres_detail_for_user pres_hash_valid_password : preserve.
Lemma pres_create_admin_user c e p b r ip ua :
  preserves n0 I (create_admin_user c e p b r ip ua : M L _).
Proof. unfold create_admin_user, replace_roles_with_audit, current_user_object. closed. Qed.
Lemma pres_get_admin_user u : preserves n0 I (get_admin_user u : M L _).
Proof. unfold get_admin_user. closed. Qed.
#[local] Hint Resolve pres_get_admin_user : preserve.
Lemma pres_update_admin_user c u ch ip ua : preserves n0 I (update_admin_user c u ch ip ua : M L _).
Proof.
  unfold update_admin_user, normalize_changes, replace_roles_with_audit, current_user_object. closed.
Qed.
Lemma pres_delete_admin_user c u ip ua : preserves n0 I (delete_admin_user c u ip ua : M L _).
Proof. unfold delete_admin_user. closed. Qed.

Lemma pres_create_item u t ds : preserves n0 I (create_item u t ds : M L _).
Proof. unfold create_item. closed. Qed.
Lemma pres_update_item_usecase u i ch : preserves n0 I (update_item u i ch : M L _).
Proof. unfold update_item, get_item. closed. Qed.
Lemma pres_delete_item u i : preserves n0 I (delete_item u i : M L _).
Proof. unfold delete_item, get_item. closed. Qed.

Lemma pres_configured_provider p : preserves n0 I (configured_provider oidc_settings p : M L _).
Proof. unfold configured_provider. closed. Qed.
#[local] Hint Resolve pres_configured_provider : preserve.
Lemma pres_start_authorization p r pu c ip l :
  preserves n0 I (start_authorization oidc_settings is_ipv6 p r pu c ip l : M L _).
Proof.
  unfold start_authorization. closed. apply pres_create_oidc_state; [done|]. by apply generated_token.
Qed.
Lemma pres_consume_callback_state p s b : preserves n0 I (consume_callback_state p s b : M L _).
Proof. unfold consume_callback_state. closed. Qed.
Lemma pres_create_identity p c u : preserves n0 I (create_identity_for_claims p c u : M L _).
Proof. unfold create_identity_for_claims. closed. Qed.
#[local] Hint Resolve pres_create_identity pres_consume_callback_state : preserve.
Lemma pres_resolve_login p c l : preserves n0 I (resolve_login_user_and_identity p c l : M L _).
Proof.
  unfold resolve_login_user_and_identity, provision_user. closed.
Qed.
#[local] Hint Resolve pres_resolve_login : preserve.
Lemma pres_audit_callback_failure p o e c ip ua :
  preserves n0 I (audit_callback_failure p o e c ip ua : M L _).
Proof. unfold audit_callback_failure, audit_oidc_failure. closed. Qed.
#[local] Hint Resolve pres_audit_callback_failure : preserve.
Lemma pres_complete_callback `{HC : !Closed n0 I} p s co b c t ip ua :
  preserves n0 I (complete_callback auth_settings oidc_settings p s co b c t ip ua : M L _).
Proof.
  unfold complete_callback, run_callback, complete_reauth_callback, complete_login_callback,
    login_callback_transaction. closed.
Qed.
Lemma pres_complete_error_callback p s b e c ip ua :
  preserves n0 I (complete_error_callback oidc_settings p s b e c ip ua : M L _).
Proof. unfold complete_error_callback. closed. Qed.
End Usecases.

#[export] Hint Resolve pres_issue_csrf_token pres_validate_session_csrf pres_register
  pres_update_current_user pres_login pres_authenticate_session pres_logout pres_delete_account
  pres_replace_roles pres_create_admin_user pres_get_admin_user pres_update_admin_user
  pres_delete_admin_user pres_create_item pres_update_item_usecase pres_delete_item
  pres_start_authorization pres_complete_callback pres_complete_error_callback pres_is_allowed
  pres_is_reauth_allowed pres_record_failure pres_revoke_current pres_replace_auth_session
  pres_audit_rejected pres_authorization pres_audit_role_replacement pres_detail_for_user
  pres_hash_valid_password pres_configured_provider pres_create_identity pres_consume_callback_state
  pres_resolve_login pres_audit_callback_failure : preserve.

(** ** Integrity *)

#[export] Instance db_ok_closed `{Env} n0 : Closed n0 db_ok.
Proof.
  split; [split|..].
  - intros d u Hd _ Hr Hu. apply db_ok_users_insert; [done..|].
    unfold user_row_ok in *. simpl. rewrite Hu in *. exact Hr.
  - intros d k u u' Hd Hk (Hid & _ & _) Hr. apply db_ok_users_insert; [done| |done].
    rewrite Hid. by eapply ok_users_keyed.
  - intros d p t. by apply db_ok_users_update.
  - intros d uid t. apply db_ok_users_update; [done..|].
    intros x y. unfold email_conflict. simpl. done.
  - intros d k s s' Hd Hk (Hid & _) Hr. apply db_ok_sessions_insert; [done| |done].
    rewrite Hid. by eapply ok_sessions_keyed.
  - intros d p t. by apply db_ok_sessions_update.
  - intros d p. apply db_ok_delete_sessions.
  - intros d i Hd _ Hr. by apply db_ok_identities_insert.
  - intros d p t. by apply db_ok_identities_update.
  - intros d p. apply db_ok_identities_delete.
  - intros d o Hd _ Hr _. by apply db_ok_states_insert.
  - intros d k o o' Hd Hk (Hid & _) Hr. apply db_ok_states_insert; [done| |done].
    rewrite Hid. by eapply ok_states_keyed.
  - intros d p. apply db_ok_states_delete.
  - intros d a ip Hd _ Hr. by apply db_ok_audits_insert.
  - intros d k a j Hd Hk Hr. apply db_ok_audits_insert; [done| |done].
    simpl. by eapply ok_audits_keyed.
  - intros d p. apply db_ok_audits_delete.
  - intros d r Hd _ Hr. by apply db_ok_roles_insert.
  - intros d p. apply db_ok_roles_delete.
  - intros d i Hd _ Hr. by apply db_ok_items_insert.
  - intros d k i i' Hd Hk Hid Hr. by apply db_ok_items_insert.
  - intros d k. apply db_ok_items_delete_key.
  - intros d p. apply db_ok_items_delete.
  - intros d s ip Hd _ Hr _. by apply db_ok_sessions_insert.
  - intros d k s a b Hd Hk Hr. apply db_ok_sessions_insert; [done| |done].
    exact (ok_sessions_keyed _ Hd _ _ Hk).
Qed.

(** ** All or nothing

    Code that runs in a transaction commits nothing when it raises: consequences of
    [Preserve] for the worlds of [Runs].  [quiet m]: from an idle world [m] changes
    at most the audit log.  [atomic m]: if [m] raises, it has changed at most the
    audit log. *)

#[export] Instance trivial_closed `{Env} n0 : Closed n0 (fun _ => True).
Proof. by split; [split|..]. Qed.
#[export] Hint Extern 1 (Closed _ _) => typeclasses eauto : preserve.
#[export] Hint Extern 1 (Steady _ _) => typeclasses eauto : preserve.

(** What changed is at most the audit log. *)
Definition same_but_audit (d d' : DB) : Prop := d' = with_audit_logs (fun _ => audit_logs d') d.

#[export] Instance same_but_audit_preorder : PreOrder same_but_audit.
Proof.
  split; [by intros []|]. unfold same_but_audit.
  intros d1 d2 d3 E1 E2. rewrite E2, E1. done.
Qed.

Lemma same_but_audit_insert d f : same_but_audit d (with_audit_logs f d).
Proof. done. Qed.

Section Atomicity.
Context `{E : Env} {L : Type}.
Implicit Types (x : World L) (b : bool) (c d : DB).

(** Code in a transaction stays in it. *)
Lemma in_transaction {A} (m : M L A) c d x :
  preserves 0 (fun _ => True) m ->
  exists d1 x1, (m (at_db true c d x)).2 = at_db true c d1 x1.
Proof.
  intros Hm. destruct (Hm (at_db true c d x)) as [_ Hs]; [split; try done; lia|].
  destruct (m _) as [r w1]. unfold shape in Hs. simpl in *.
  destruct (w_tx w1) as [[o d1]|] eqn:Et; [|done]. destruct (w_local w1) eqn:El; [done|].
  injection Hs as Ho Hc. exists d1, w1. unfold at_db. simpl. rewrite <- Hc.
  destruct w1; simpl in *. by subst.
Qed.

Lemma run_in_tx {A} (I : DB -> Prop) (m : M L A) c d x r w1 :
  preserves 0 I m -> I c -> I d -> m (at_db true c d x) = (r, w1) ->
  exists d1 x1, w1 = at_db true c d1 x1 /\ I d1.
Proof.
  intros Hm Hc Hd Hr. destruct (Hm (at_db true c d x)) as [[_ Htx _ _] Hs].
  { split; simpl; try done; [by intros o d1 [= _ <-]|lia]. }
  rewrite Hr in Htx, Hs. unfold shape in Hs. simpl in *.
  destruct (w_tx w1) as [[o d1]|] eqn:Et; [|done]. destruct (w_local w1) eqn:El; [done|].
  injection Hs as Ho Hc1. exists d1, w1. split; [|by eapply Htx].
  unfold at_db. simpl. rewrite <- Hc1. destruct w1; simpl in *. by subst.
Qed.

Lemma transaction_raise {A} (m : M L A) c d x e w' :
  preserves 0 (fun _ => True) m ->
  transaction unit_of_work m (at_db false c d x) = (Raise e, w') ->
  exists x', w' = at_db false c d x'.
Proof.
  intros Hm. rewrite transaction_at. destruct (in_transaction m d d x Hm) as (d1 & x1 & Hw).
  destruct (m _) as [[a|e'] w1]; [done|]. simpl in Hw. subst. intros [= <- <-]. by exists x1.
Qed.

Definition quiet {A} (m : M L A) : Prop :=
  forall w, idle w -> idle (m w).2 /\ same_but_audit (w_committed w) (w_committed (m w).2).
Definition atomic {A} (m : M L A) : Prop :=
  forall w e, idle w -> (m w).1 = Raise e ->
    idle (m w).2 /\ same_but_audit (w_committed w) (w_committed (m w).2).
Definition total {A} (m : M L A) : Prop := forall w, idle w -> exists a, (m w).1 = Ok a.

Lemma quiet_atomic {A} (m : M L A) : quiet m -> atomic m.
Proof. intros H w e Hw _. by apply H. Qed.
Lemma total_atomic {A} (m : M L A) : total m -> atomic m.
Proof. intros H w e Hw Hr. destruct (H w Hw) as [a Ha]. congruence. Qed.

Lemma quiet_bind {A B} (m : M L A) (f : A -> M L B) :
  quiet m -> (forall a, quiet (f a)) -> quiet (m ≫= f).
Proof.
  intros Hm Hf w Hw. rewrite bind_run. destruct (Hm w Hw) as [H1 H2].
  destruct (m w) as [[a|e] w1]; simpl in *; [|done].
  destruct (Hf a w1 H1) as [H3 H4]. split; [done|by etrans].
Qed.

Lemma atomic_bind {A B} (m : M L A) (f : A -> M L B) :
  quiet m -> (forall a, atomic (f a)) -> atomic (m ≫= f).
Proof.
  intros Hm Hf w e Hw. rewrite bind_run. destruct (Hm w Hw) as [H1 H2].
  destruct (m w) as [[a|e'] w1]; simpl in *; [|done].
  intros Hr. destruct (Hf a w1 e H1 Hr) as [H3 H4]. split; [done|by etrans].
Qed.

(** After a change, only code that cannot raise. *)
Lemma atomic_bind_total {A B} (m : M L A) (f : A -> M L B) :
  (forall w, idle w -> idle (m w).2) -> atomic m -> (forall a, total (f a)) -> atomic (m ≫= f).
Proof.
  intros Hi Hm Hf w e Hw. rewrite bind_run. specialize (Hm w). specialize (Hi w Hw).
  destruct (m w) as [[a|e'] w1]; simpl in *; [|intros [= <-]; by eapply Hm].
  intros Hr. destruct (Hf a w1 Hi) as [a' Ha]. congruence.
Qed.

Lemma atomic_try {A} (m : M L A) h :
  atomic m -> (forall e m', h e = Some m' -> atomic m') -> atomic (try_except m h).
Proof.
  intros Hm Hh w e Hw. unfold try_except. specialize (Hm w).
  destruct (m w) as [[a|e'] w1]; simpl in *; [done|].
  destruct (Hm e' Hw eq_refl) as [H1 H2]. destruct (h e') as [m'|] eqn:Eh; [|done].
  intros Hr. destruct (Hh e' m' Eh w1 e H1 Hr) as [H3 H4]. split; [done|by etrans].
Qed.

Lemma atomic_transaction {A} (m : M L A) :
  preserves 0 (fun _ => True) m -> atomic (transaction unit_of_work m).
Proof.
  intros Hm w e Hw Hr. rewrite (idle_at w Hw) in *.
  destruct (transaction unit_of_work m _) as [r w'] eqn:Et. simpl in Hr. subst.
  by apply transaction_raise in Et as (x' & ->).
Qed.

(** The coroutine's own invariant makes it idle at the end. *)
Lemma preserves_idle {A} (m : M L A) :
  preserves 0 (fun _ => True) m -> forall w, idle w -> idle (m w).2.
Proof.
  intros Hm w [Hl Ht]. destruct (Hm w) as [_ Hs]; [split; try done; lia|].
  unfold shape in Hs. rewrite Hl, Ht in Hs. injection Hs as H1 H2 _.
  split; [by destruct (w_local (m w).2)|by destruct (w_tx (m w).2)].
Qed.

(** A coroutine that keeps every property closed under new audit rows is quiet. *)
Lemma preserves_quiet {A} (m : M L A) :
  (forall d0, preserves 0 (same_but_audit d0) m) -> quiet m.
Proof.
  intros Hm w [Hl Ht]. destruct (Hm (w_committed w) w) as [[Hc _ _ _] Hs].
  - split; [reflexivity|by rewrite Ht|by rewrite Hl|lia].
  - split; [|done]. unfold shape in Hs. rewrite Hl, Ht in Hs. injection Hs as H1 H2 _.
    split; [by destruct (w_local (m w).2)|by destruct (w_tx (m w).2)].
Qed.

Lemma pres_audit_only d0 e : preserves 0 (same_but_audit d0) (create_audit_log e : M L unit).
Proof.
  unfold create_audit_log. preserve. unfold flush_audit. preserve.
  unfold insert_audit. preserve. apply preserves_checked. intros d -> _. done.
Qed.
End Atomicity.
