(* ===== verification/SessionSpec.v ===== *)
(** * What the session operations do

    Authentication, logout and the CSRF token of a session: the functional
    behaviour of the methods of [AuthUsecase] that read a session token.  At the
    end, how long a session in use lives. *)

From S2P Require Import Prelude PyStr Errors Time Tables Effects UnitOfWork Preserve Settings.
From S2P Require Import Authorization Interfaces AuthRepository AuthorizationRepository.
From S2P Require Import SampleItemRepository Runs Integrity Lookups AuthUsecase AuthUsecaseSpec.
From S2P Require Import Closure Demo.

Section Spec.
Context `{E : Env} {L : Type} `{R : LoginRateLimiter L}.
Context (auth_settings : AuthSettings).
Implicit Types (x : World L) (b : bool) (c d : DB).

(** ** Authentication *)

(** The account may use the application. *)
Definition usable (u : User) : bool := is_none (u_deleted_at u) && u_is_active u.

(** The session and account that a token opens at a time. *)
Definition opens d (tok : string) (now : Z) (s : AuthSession) (u : User) : Prop :=
  tok <> "" /\ active_session_of d (hash_token tok) now = Some s
  /\ users d !! s_user_id s = Some u /\ usable u = true.

(** The session is due for a refresh of its last use. *)
Definition touch_due (s : AuthSession) (now : Z) : bool :=
  let interval := effective_session_touch_interval_seconds auth_settings in
  (interval <=? 0) || (timedelta_seconds interval <=? now - s_last_seen_at s).

(** What the request sees of the session, and what the table keeps. *)
Definition refreshed (s : AuthSession) (now : Z) : AuthSession :=
  if touch_due s now
  then set_last_seen now (calculate_session_expiry auth_settings (s_issued_at s) now) s else s.
Definition refreshed_db d (s : AuthSession) (now : Z) : DB :=
  if touch_due s now
  then with_sessions <[s_id s := set_last_seen (stored now)
         (stored (calculate_session_expiry auth_settings (s_issued_at s) now)) s]> d
  else d.

Lemma refresh_session_ok s b c d x :
  db_ok d -> sessions d !! s_id s = Some s ->
  refresh_session auth_settings s (at_db b c d x)
  = (Ok (refreshed s (env_now (w_clock x))),
     at_db b c (refreshed_db d s (env_now (w_clock x))) (tick_clock x)).
Proof.
  intros Hd Hs. unfold refresh_session, refreshed, refreshed_db, touch_due.
  rewrite bind_run, utcnow_at. cbv zeta. destruct (_ || _); [|done].
  by destruct (touch_session_ok (s_id s) s (env_now (w_clock x))
    (calculate_session_expiry auth_settings (s_issued_at s) (env_now (w_clock x)))
    b c d (tick_clock x) Hd Hs) as [-> _].
Qed.

Lemma refreshed_db_roles d s now : user_roles (refreshed_db d s now) = user_roles d.
Proof. unfold refreshed_db. by destruct (touch_due s now). Qed.

(** The context of a request whose session token opens an account. *)
Definition context_of d (s : AuthSession) (u : User) (now : Z) : AuthenticatedSessionContext :=
  AuthContext u (refreshed s now) (ua_roles (authorization_of d (u_id u)))
    (ua_permissions (authorization_of d (u_id u))).

Lemma authenticate_opens tok ip ua c d x s u :
  db_ok d -> opens d tok (env_now (w_clock x)) s u ->
  authenticate_session auth_settings (Some tok) ip ua (at_db false c d x)
  = (Ok (Some (context_of d s u (env_now (S (w_clock x))))),
     at_db false c (refreshed_db d s (env_now (S (w_clock x)))) (tick_clock (tick_clock x))).
Proof.
  intros Hd (Htok & Hs & Hu & Hok). unfold authenticate_session.
  assert (truthy_opt (Some tok) = true) as -> by (by apply truthy_spec).
  cbn [negb]. cbv zeta. rewrite transaction_at, bind_run, find_active_session_ok by done.
  change (default "" (Some tok)) with tok. rewrite Hs.
  rewrite bind_run, find_user_by_id_ok by done. rewrite Hu.
  unfold usable in Hok. apply andb_true_iff in Hok as [Hn ->].
  destruct (u_deleted_at u) eqn:Edel; [done|].
  change (is_some (@None Z)) with false. cbn [negb]. cbv iota.
  destruct (active_session_of_Some _ _ _ _ Hd Hs) as (Hk & _).
  rewrite bind_run, refresh_session_ok by done.
  rewrite bind_run, authorization_at, ret_run. unfold authorization_of.
  by rewrite w_tx_at, commit_at, refreshed_db_roles.
Qed.

Lemma authenticate_inv t ip ua c d x ctx w' :
  db_ok d ->
  authenticate_session auth_settings t ip ua (at_db false c d x) = (Ok (Some ctx), w') ->
  exists tok s u, t = Some tok /\ opens d tok (env_now (w_clock x)) s u.
Proof.
  intros Hd. unfold authenticate_session. destruct (truthy_opt t) eqn:Et; cbn [negb]; [|done].
  destruct t as [tok|]; [|done]. change (default "" (Some tok)) with tok. cbv zeta.
  intros (w1 & H & _)%transaction_ok_inv.
  rewrite bind_run, find_active_session_ok in H by done.
  destruct (active_session_of _ _ _) as [s|] eqn:Es.
  2: { apply bind_inv in H as [(e & _ & ?)|([] & w2 & _ & H)]; [done|].
       rewrite ret_run in H. done. }
  rewrite bind_run, find_user_by_id_ok in H by done.
  destruct (users d !! s_user_id s) as [u|] eqn:Eu.
  2: { apply bind_inv in H as [(e & _ & ?)|([] & w2 & _ & H)]; [done|].
       rewrite ret_run in H. done. }
  destruct (is_some (u_deleted_at u)) eqn:Edel.
  { apply bind_inv in H as [(e & _ & ?)|([] & w2 & _ & H)]; [done|]. by rewrite ret_run in H. }
  destruct (negb (u_is_active u)) eqn:Ea.
  { apply bind_inv in H as [(e & _ & ?)|([] & w2 & _ & H)]; [done|]. by rewrite ret_run in H. }
  exists tok, s, u. split; [done|]. split_and!; [by apply truthy_spec|done..|].
  unfold usable. apply negb_false_iff in Ea. rewrite Ea. by destruct (u_deleted_at u).
Qed.

(** C10. A request is authenticated exactly when its session token opens a session that is
    neither revoked nor expired, of an account that exists, is not deleted and is
    active; the context then carries that account, its roles and the session, and
    the only change to the database is the refresh of that session's last use. *)
Theorem authenticate_iff tok ip ua (w : World L) :
  idle w -> db_ok (w_committed w) ->
  (forall ctx w', authenticate_session auth_settings (Some tok) ip ua w = (Ok (Some ctx), w') ->
     exists s u, opens (w_committed w) tok (env_now (w_clock w)) s u)
  /\ (forall s u, opens (w_committed w) tok (env_now (w_clock w)) s u ->
     exists w', authenticate_session auth_settings (Some tok) ip ua w
                = (Ok (Some (context_of (w_committed w) s u (env_now (S (w_clock w))))), w')
       /\ w_committed w' = refreshed_db (w_committed w) s (env_now (S (w_clock w))) /\ idle w').
Proof.
  intros Hidle Hd. rewrite (idle_at w Hidle). set (d := w_committed w) in *. clearbody d.
  change (w_committed (at_db false d d w)) with d.
  change (w_clock (at_db false d d w)) with (w_clock w). split.
  - intros ctx w' H. apply authenticate_inv in H as (tok' & s & u & [= <-] & Ho); eauto.
  - intros s u Ho. rewrite (authenticate_opens _ _ _ _ _ _ _ _ Hd Ho).
    eexists. split_and!; done.
Qed.

(** All live sessions of a user revoked at a time. *)
Definition user_sessions_revoked (uid revoked_at : Z) d : DB :=
  with_sessions (update_where (fun s => (s_user_id s =? uid) && is_none (s_revoked_at s))
                   (set_revoked (stored revoked_at))) d.

(** C11. A live session of a deleted or deactivated account is not accepted: every live
    session of that account is revoked and one audit row names the reason. *)
Theorem authenticate_rejects_user tok ip ip' ua (w : World L) s u :
  idle w -> db_ok (w_committed w) -> inet_bind ip = Ok ip' ->
  audit_logs (w_committed w) !! env_uuid (w_uuid w) = None ->
  tok <> "" -> active_session_of (w_committed w) (hash_token tok) (env_now (w_clock w)) = Some s ->
  users (w_committed w) !! s_user_id s = Some u -> usable u = false ->
  let now := env_now (S (w_clock w)) in
  let ty := if is_some (u_deleted_at u) then SESSION_REVOKED_DELETED_USER
            else SESSION_REVOKED_INACTIVE_USER in
  exists w' a, authenticate_session auth_settings (Some tok) ip ua w = (Ok None, w')
    /\ audit_written (AuditEvent (Some (u_id u)) (Some (s_id s)) ty ip ua None (Some now)) a
    /\ w_committed w' = with_audit_logs <[a_id a := a]>
                          (user_sessions_revoked (u_id u) now (w_committed w))
    /\ idle w'.
Proof.
  intros Hidle Hd Hip Hfree Htok Hs Hu Hno. rewrite (idle_at w Hidle).
  set (d := w_committed w) in *. clearbody d.
  change (w_committed (at_db false d d w)) with d in *.
  change (w_clock (at_db false d d w)) with (w_clock w).
  unfold authenticate_session.
  assert (truthy_opt (Some tok) = true) as -> by (by apply truthy_spec).
  cbn [negb]. cbv zeta. rewrite transaction_at, bind_run, find_active_session_ok by done.
  change (default "" (Some tok)) with tok. rewrite Hs.
  rewrite bind_run, find_user_by_id_ok by done. rewrite Hu.
  pose proof (active_session_of_Some _ _ _ _ Hd Hs) as (Hk & _).
  pose proof (ok_users_keyed _ Hd _ _ Hu) as Hid.
  set (ty := if is_some (u_deleted_at u) then SESSION_REVOKED_DELETED_USER
             else SESSION_REVOKED_INACTIVE_USER).
  destruct (create_audit_log_live (AuditEvent (Some (u_id u)) (Some (s_id s)) ty ip ua None
     (Some (env_now (S (w_clock w))))) ip' true d (user_sessions_revoked (u_id u) (env_now (S (w_clock w))) d)
     (tick_clock (tick_clock w))) as [w2 Hc]; [done|done| | |].
  { apply references_spec. intros k [= <-]. simpl. by rewrite Hid, Hu. }
  { simpl. rewrite references_update_where. apply references_spec. intros k [= <-]. by rewrite Hk. }
  pose proof Hc as (x3 & _ & _ & _ & [(_ & a & Haw & _ & Hw2)|(e & ? & _)])%create_audit_log_inv; [|done].
  assert (reject_user_sessions s ty (u_id u) ip ua (at_db true d d (tick_clock w)) = (Ok tt, w2)) as Hr.
  { unfold reject_user_sessions. rewrite bind_run, utcnow_at, bind_run, revoke_sessions_for_user_at.
    cbv zeta. exact Hc. }
  exists (at_db false d (with_audit_logs <[a_id a := a]> (user_sessions_revoked (u_id u) (env_now (S (w_clock w))) d)) x3), a.
  split_and!; [|done..].
  unfold usable in Hno. unfold ty in *. destruct (is_some (u_deleted_at u)) eqn:Edel.
  - rewrite bind_run, Hr, ret_run, Hw2. done.
  - assert (negb (u_is_active u) = true) as ->.
    { destruct (u_deleted_at u); [done|]. simpl in Hno. by rewrite Hno. }
    rewrite bind_run, Hr, ret_run, Hw2. done.
Qed.

(** ** The expiry of a session *)

Lemma stored_seconds t n : stored (t + timedelta_seconds n) = stored t + timedelta_seconds n.
Proof.
  unfold timedelta_seconds. replace (n * 1000000) with (n * 1000 * millisecond) by (unfold millisecond; lia).
  apply stored_add.
Qed.

Lemma stored_expiry i l :
  stored (calculate_session_expiry auth_settings i l)
  = Z.min (stored i + timedelta_seconds (AUTH_SESSION_ABSOLUTE_TTL_SECONDS auth_settings))
          (stored l + timedelta_seconds (AUTH_SESSION_IDLE_TTL_SECONDS auth_settings)).
Proof.
  unfold calculate_session_expiry. rewrite <- !stored_seconds.
  destruct (Z.le_ge_cases (i + timedelta_seconds (AUTH_SESSION_ABSOLUTE_TTL_SECONDS auth_settings))
    (l + timedelta_seconds (AUTH_SESSION_IDLE_TTL_SECONDS auth_settings))) as [H|H];
    pose proof (stored_mono _ _ H).
  - rewrite !Z.min_l; done.
  - rewrite !Z.min_r; lia.
Qed.

(** ** Logout *)

Lemma logout_inv tok ip ua c d x s w' :
  db_ok d -> tok <> "" ->
  active_session_of d (hash_token tok) (env_now (w_clock x)) = Some s ->
  logout (Some tok) ip ua (at_db false c d x) = (Ok tt, w') ->
  exists a x' rev, w_token x' = w_token x /\
    w' = at_db false c (with_audit_logs <[a_id a := a]>
           (with_sessions <[s_id s := set_revoked rev s]> d)) x'.
Proof.
  intros Hd Htok Hs. unfold logout.
  assert (truthy_opt (Some tok) = true) as -> by (by apply truthy_spec). cbn [negb].
  rewrite bind_run, find_active_session_ok by done. change (default "" (Some tok)) with tok. rewrite Hs.
  destruct (active_session_of_Some _ _ _ _ Hd Hs) as (Hk & _).
  intros (w1 & H & Hw)%transaction_ok_inv. rewrite bind_run in H.
  destruct (revoke_session_ok (s_id s) s true d d (tick_clock x) Hd Hk) as [Hr _]. rewrite Hr in H.
  apply create_audit_log_inv in H as (x3 & _ & Ht & _ & [(_ & a & _ & _ & ->)|(e & ? & _)]); [|done].
  eexists a, x3, _. split; [exact Ht|]. apply Hw. reflexivity.
Qed.

(** Logging out revokes the live session of the token and records it, and does
    nothing when the token opens no live session. *)
Theorem logout_effect tok ip ip' ua (w : World L) :
  idle w -> db_ok (w_committed w) -> inet_bind ip = Ok ip' ->
  audit_logs (w_committed w) !! env_uuid (w_uuid w) = None ->
  exists w', logout (Some tok) ip ua w = (Ok tt, w') /\ idle w'
    /\ match active_session_of (w_committed w) (hash_token tok) (env_now (w_clock w)) with
       | Some s => tok <> "" ->
           exists a, audit_written (event (Some (s_user_id s)) (Some (s_id s)) LOGOUT ip ua) a
           /\ w_committed w' = with_audit_logs <[a_id a := a]> (with_sessions
                <[s_id s := set_revoked (stored (env_now (S (w_clock w)))) s]> (w_committed w))
       | None => w_committed w' = w_committed w
       end.
Proof.
  intros Hidle Hd Hip Hfree. rewrite (idle_at w Hidle).
  set (d := w_committed w) in *. clearbody d.
  change (w_committed (at_db false d d w)) with d in *.
  change (w_clock (at_db false d d w)) with (w_clock w).
  unfold logout. destruct (truthy_opt (Some tok)) eqn:Et; cbn [negb].
  2: { exists (at_db false d d w). split_and!; [done..|]. destruct (active_session_of _ _ _) eqn:Ea; [|done].
       intros Hn. apply truthy_spec in Hn. simpl in Et. congruence. }
  rewrite bind_run, find_active_session_ok by done. change (default "" (Some tok)) with tok.
  destruct (active_session_of _ _ _) as [s|] eqn:Es; [|by eexists].
  destruct (active_session_of_Some _ _ _ _ Hd Es) as (Hk & _).
  rewrite transaction_at, bind_run.
  destruct (revoke_session_ok (s_id s) s true d d (tick_clock w) Hd Hk) as [-> Hd1].
  change (w_clock (tick_clock w)) with (S (w_clock w)) in *.
  audit_live ip' w2 Hw2; [done|done| | |rewrite Hw2].
  - by apply (ok_sessions_user _ Hd _ _ Hk).
  - apply references_spec. intros k [= <-]. simpl. by rewrite lookup_insert_eq.
  - apply create_audit_log_inv in Hw2 as (x3 & _ & _ & _ & [(_ & a & Ha & _ & ->)|(e & ? & ->)]); [|done].
    rewrite w_tx_at, commit_at. eexists. split_and!; [done..|]. intros _. eauto.
Qed.

(** ** CSRF tokens *)

(** The CSRF check of a session: it passes exactly when the token opens a live
    session that holds the hash of the presented CSRF token. *)
Lemma csrf_valid_iff tok csrf ip ua (w w' : World L) st :
  idle w -> db_ok (w_committed w) ->
  validate_session_csrf tok csrf ip ua w = (Ok st, w') ->
  (st = VALID <-> exists s,
     active_session_of (w_committed w) (hash_token tok) (env_now (w_clock w)) = Some s
     /\ s_csrf_token_hash s = hash_token csrf)
  /\ (st = NO_SESSION <->
     active_session_of (w_committed w) (hash_token tok) (env_now (w_clock w)) = None)
  /\ (st <> NO_SESSION -> w_committed w' = w_committed w).
Proof.
  intros Hidle Hd. rewrite (idle_at w Hidle). set (d := w_committed w) in *. clearbody d.
  change (w_committed (at_db false d d w)) with d.
  change (w_clock (at_db false d d w)) with (w_clock w).
  unfold validate_session_csrf. cbv zeta. rewrite bind_run, find_active_session_ok by done.
  destruct (active_session_of _ _ _) as [s|] eqn:Es.
  - destruct (String.eqb_spec (s_csrf_token_hash s) (hash_token csrf)) as [He|He];
      rewrite ret_run; intros [= <- <-]; naive_solver.
  - intros [(e & _ & ?)|([] & w2 & _ & H)]%bind_inv; [done|]. rewrite ret_run in H.
    injection H as <- <-. naive_solver.
Qed.

(** C32. The CSRF token issued for a session is the one that session accepts
    afterwards, as long as it lives. *)
Theorem csrf_roundtrip tok ip ua (w : World L) s :
  idle w -> db_ok (w_committed w) -> tok <> "" ->
  active_session_of (w_committed w) (hash_token tok) (env_now (w_clock w)) = Some s ->
  stored (env_now (S (w_clock w))) < s_expires_at s ->
  exists csrf w1 w2, issue_csrf_token (Some tok) w = (Ok csrf, w1)
    /\ csrf = env_token (w_token w)
    /\ w_committed w1 = with_sessions <[s_id s := set_csrf_hash (hash_token csrf) s]> (w_committed w)
    /\ validate_session_csrf tok csrf ip ua w1 = (Ok VALID, w2)
    /\ forall csrf', hash_token csrf' <> hash_token csrf ->
       exists w3, validate_session_csrf tok csrf' ip ua w1 = (Ok MISMATCH, w3).
Proof.
  intros Hidle Hd Htok Hs Hexp. rewrite (idle_at w Hidle).
  set (d := w_committed w) in *. clearbody d.
  change (w_committed (at_db false d d w)) with d in *.
  change (w_clock (at_db false d d w)) with (w_clock w).
  destruct (active_session_of_Some _ _ _ _ Hd Hs) as (Hk & Ht & Hr & _).
  set (d1 := with_sessions <[s_id s := set_csrf_hash (hash_token (env_token (w_token w))) s]> d).
  assert (db_ok d1) as Hd1.
  { apply db_ok_sessions_insert; [done..|by eapply session_row_ok_update]. }
  assert (active_session_of d1 (hash_token tok) (env_now (S (w_clock w)))
          = Some (set_csrf_hash (hash_token (env_token (w_token w))) s)) as Ha.
  { apply (active_session_at_key _ _ _ _ (s_id s)); [done| |].
    - unfold d1. simpl. by rewrite lookup_insert_eq.
    - apply active_session_spec. by split_and!. }
  eexists _, _, _. split; [|split; [reflexivity|split; [|split]]].
  - unfold issue_csrf_token. rewrite bind_run, generate_token_at.
    assert (truthy_opt (Some tok) = true) as -> by (by apply truthy_spec). cbn [negb].
    rewrite bind_run, find_active_session_ok by done. change (default "" (Some tok)) with tok.
    change (w_clock (tick_token w)) with (w_clock w). rewrite Hs.
    rewrite bind_run, (update_session_csrf_ok _ _ _ _ _ _ _ Hd Hk), ret_run. reflexivity.
  - done.
  - unfold validate_session_csrf. cbv zeta. rewrite bind_run, find_active_session_ok by done.
    change (w_clock (tick_clock (tick_token w))) with (S (w_clock w)). fold d1. rewrite Ha.
    simpl. by rewrite String.eqb_refl.
  - intros csrf' Hne. eexists. unfold validate_session_csrf. cbv zeta.
    rewrite bind_run, find_active_session_ok by done.
    change (w_clock (tick_clock (tick_token w))) with (S (w_clock w)). fold d1. rewrite Ha.
    simpl. destruct (String.eqb_spec (hash_token (env_token (w_token w))) (hash_token csrf'));
      [by destruct Hne|done].
Qed.
End Spec.

(** ** Instances *)

Lemma demo_opens : opens demo_db "ann-token" (env_now 0) (store_session (Some "10.0.0.1"%string) ann_session)
  (store_user ann).
Proof. split_and!; [done|vm_compute; reflexivity..]. Qed.

Lemma authenticate_iff_witness : exists ctx w',
  authenticate_session default_auth_settings (Some "ann-token"%string) None None demo_world
  = (Ok (Some ctx), w') /\ ctx_user ctx = store_user ann.
Proof.
  destruct (authenticate_iff default_auth_settings "ann-token" None None demo_world
    (world_of_idle _) demo_db_ok) as [_ H].
  destruct (H _ _ demo_opens) as (w' & H1 & _ & _). eexists _, w'. split; [exact H1|reflexivity].
Defined.

Lemma authenticate_rejects_user_witness : exists w',
  authenticate_session default_auth_settings (Some "ann-token"%string) None None
    (world_of demo_db_inactive) = (Ok None, w') /\ idle w'.
Proof.
  destruct (authenticate_rejects_user default_auth_settings "ann-token" None None None
    (world_of demo_db_inactive) (store_session (Some "10.0.0.1"%string) ann_session)
    (store_user ann_inactive) (world_of_idle _) demo_db_inactive_ok)
    as (w' & a & H1 & _ & _ & H4); try (vm_compute; reflexivity); [discriminate|].
  exists w'. split; [exact H1|exact H4].
Defined.

Lemma logout_effect_witness : exists w',
  logout (Some "ann-token"%string) None None demo_world = (Ok tt, w') /\ idle w'.
Proof.
  destruct (logout_effect "ann-token" None None None demo_world (world_of_idle _) demo_db_ok)
    as (w' & H1 & H2 & _); [reflexivity|reflexivity|]. exists w'. split; [exact H1|exact H2].
Defined.

Lemma csrf_roundtrip_witness : exists csrf w1 w2,
  issue_csrf_token (Some "ann-token"%string) demo_world = (Ok csrf, w1)
  /\ validate_session_csrf "ann-token" csrf None None w1 = (Ok VALID, w2).
Proof.
  destruct (csrf_roundtrip "ann-token" None None demo_world _ (world_of_idle _) demo_db_ok
    ltac:(discriminate) (proj1 (proj2 demo_opens))) as (csrf & w1 & w2 & H1 & _ & _ & H2 & _);
    [vm_compute; reflexivity|].
  exists csrf, w1, w2. split; [exact H1|exact H2].
Defined.

(** ** How long a session in use lives

    With accepted settings, a session that a request has just used has at least half
    its idle period left, up to its absolute limit: the interval at which the last
    use is written never lets an active session run out. *)

Section Spec.
Context `{E : Env} {L : Type} `{R : LoginRateLimiter L}.
Context (auth_settings : AuthSettings) (network_prefixlen : string -> option Z).
Implicit Types (x : World L) (d : DB).

Notation absolute_ttl := (timedelta_seconds (AUTH_SESSION_ABSOLUTE_TTL_SECONDS auth_settings)).
Notation idle_ttl := (timedelta_seconds (AUTH_SESSION_IDLE_TTL_SECONDS auth_settings)).

(** The session's expiry is the one its last use gives it, to the millisecond. *)
Definition session_timed (s : AuthSession) : Prop :=
  stored (s_issued_at s) = s_issued_at s
  /\ s_expires_at s = Z.min (s_issued_at s + absolute_ttl) (s_last_seen_at s + idle_ttl).
Definition sessions_timed d : Prop := map_Forall (fun _ => session_timed) (sessions d).

Lemma positive_idle_ttl :
  validate_auth_settings network_prefixlen auth_settings = Ok tt ->
  1 <= AUTH_SESSION_IDLE_TTL_SECONDS auth_settings.
Proof.
  unfold validate_auth_settings. intros H%check_all_ok. rewrite !Forall_cons in H.
  destruct H as (_ & _ & _ & H & _). apply check_ok in H. lia.
Qed.

(** The interval is never more than half the idle period. *)
Lemma touch_interval_half :
  1 <= AUTH_SESSION_IDLE_TTL_SECONDS auth_settings ->
  2 * effective_session_touch_interval_seconds auth_settings
    <= AUTH_SESSION_IDLE_TTL_SECONDS auth_settings.
Proof.
  intros Hi. unfold effective_session_touch_interval_seconds. cbv zeta.
  pose proof (Z.mul_div_le (AUTH_SESSION_IDLE_TTL_SECONDS auth_settings) 2).
  destruct (Z.leb_spec (AUTH_SESSION_TOUCH_INTERVAL_SECONDS auth_settings) 0); [lia|].
  destruct (Z.leb_spec (AUTH_SESSION_IDLE_TTL_SECONDS auth_settings / 2)
    (AUTH_SESSION_TOUCH_INTERVAL_SECONDS auth_settings)); lia.
Qed.

Lemma session_timed_seen s now :
  session_timed s ->
  session_timed (set_last_seen (stored now)
    (stored (calculate_session_expiry auth_settings (s_issued_at s) now)) s).
Proof.
  intros [Hi _]. split; [done|]. simpl. by rewrite stored_expiry, Hi.
Qed.

Lemma refreshed_db_timed d s now :
  sessions_timed d -> sessions d !! s_id s = Some s -> sessions_timed (refreshed_db auth_settings d s now).
Proof.
  intros Hd Hs. unfold refreshed_db. destruct (touch_due _ s now); [|done].
  apply map_Forall_insert_2; [|done]. apply session_timed_seen. by eapply (map_Forall_lookup_1 _ _ _ _ Hd).
Qed.

Lemma refreshed_db_life d s now :
  1 <= AUTH_SESSION_IDLE_TTL_SECONDS auth_settings ->
  session_timed s -> sessions d !! s_id s = Some s ->
  exists s', sessions (refreshed_db auth_settings d s now) !! s_id s = Some s'
    /\ Z.min (s_issued_at s' + absolute_ttl) (now + idle_ttl / 2) <= s_expires_at s'.
Proof.
  intros Hi [Hst Hexp] Hs. pose proof (touch_interval_half Hi) as Hhalf.
  pose proof (stored_gt now) as Hgt. unfold millisecond in Hgt.
  assert (2 * (idle_ttl / 2) <= idle_ttl) by (apply Z.mul_div_le; lia).
  assert (1000000 <= idle_ttl) by (unfold timedelta_seconds; lia).
  unfold refreshed_db, touch_due in *. cbv zeta in *.
  set (interval := effective_session_touch_interval_seconds auth_settings) in *.
  assert (2 * timedelta_seconds interval <= idle_ttl) by (unfold timedelta_seconds; lia).
  destruct ((interval <=? 0) || _) eqn:Et.
  - eexists. split; [simpl; by rewrite lookup_insert_eq|]. simpl. rewrite stored_expiry, Hst.
    lia.
  - exists s. split; [done|]. apply orb_false_iff in Et as [_ Hn%Z.leb_gt]. lia.
Qed.

(** C39. With accepted settings, a session that is used does not run out: after a request
    is authenticated, its session still has half the idle period to live from that
    moment, unless the absolute limit comes first, although its last use is written
    only once per interval; and the rows keep the expiry that their last use gives
    them. *)
Theorem active_session_survives tok ip ua (w w' : World L) ctx :
  validate_auth_settings network_prefixlen auth_settings = Ok tt ->
  idle w -> db_ok (w_committed w) -> sessions_timed (w_committed w) ->
  authenticate_session auth_settings (Some tok) ip ua w = (Ok (Some ctx), w') ->
  let now := env_now (S (w_clock w)) in
  sessions_timed (w_committed w')
  /\ exists s, sessions (w_committed w') !! s_id (ctx_session ctx) = Some s
       /\ Z.min (s_issued_at s + absolute_ttl) (now + idle_ttl / 2) <= s_expires_at s.
Proof.
  intros Hv%positive_idle_ttl Hidle Hd Ht. rewrite (idle_at w Hidle).
  set (d := w_committed w) in *. clearbody d. intros H.
  pose proof H as (tok' & s & u & [= <-] & Ho)%authenticate_inv; [|done].
  rewrite (authenticate_opens _ _ _ _ _ _ _ _ _ Hd Ho) in H. injection H as <- <-.
  destruct Ho as (_ & Hs & _). destruct (active_session_of_Some _ _ _ _ Hd Hs) as (Hk & _).
  change (w_clock (at_db false d d w)) with (w_clock w). split.
  - by apply refreshed_db_timed.
  - assert (s_id (refreshed auth_settings s (env_now (S (w_clock w)))) = s_id s) as Hid
      by (unfold refreshed; by destruct (touch_due _ _ _)).
    simpl. rewrite Hid. apply refreshed_db_life; [done| |done]. by eapply (map_Forall_lookup_1 _ _ _ _ Ht).
Qed.
End Spec.

(** ** Instance *)

Lemma active_session_survives_witness : exists ctx w',
  authenticate_session default_auth_settings (Some "ann-token"%string) None None demo_world
  = (Ok (Some ctx), w') /\ sessions_timed default_auth_settings (w_committed w').
Proof.
  eexists _, _.
  assert ((authenticate_session default_auth_settings (Some "ann-token"%string) None None demo_world).1
    = Ok (Some _)) as H by (vm_compute; reflexivity).
  apply run_eq in H. split; [exact H|].
  refine (proj1 (active_session_survives default_auth_settings (fun _ => Some 8) _ _ _ _ _ _ _
    (world_of_idle _) demo_db_ok _ H)); [vm_compute; reflexivity|].
  apply map_Forall_insert_2; [split; vm_compute; reflexivity|]. intros k s Hk.
  change ((∅ : gmap Z AuthSession) !! k = Some s) in Hk. by apply lookup_empty_Some in Hk.
Defined.
