(* ===== verification/AccountSpec.v ===== *)
(** * What registration does

    Registration checks before it creates, creates everything or nothing, and ends
    with a session of the new account.  Then the deletion of an account. *)

From S2P Require Import Prelude PyStr Errors Time Tables Effects UnitOfWork Preserve Settings.
From S2P Require Import Authorization RateLimiter Interfaces AuthRepository.
From S2P Require Import AuthorizationRepository SampleItemRepository Runs Integrity Lookups.
From S2P Require Import AuthUsecase AuthUsecaseSpec Closure Demo AccountDeletionUsecase.

Section Spec.
Context `{E : Env} {L : Type} `{R : LoginRateLimiter L}.
Context (auth_settings : AuthSettings).
Implicit Types (x : World L) (b : bool) (c d : DB).

(** The limiter lets the address register this e-mail. *)
Definition registration_open (ip : option string) (em : string) (l : L) : Prop :=
  let asked := lim_is_allowed (limiter_ip ip) em l in
  asked.1 = true /\ (lim_is_registration_allowed (limiter_ip ip) asked.2).1 = true.

Lemma register_checks_inv em pw ip ua c d x w' :
  db_ok d ->
  register_checks auth_settings em (limiter_ip ip) pw ip ua (at_db false c d x) = (Ok tt, w') ->
  registration_open ip em (w_ext x) /\ 12 <= str_len pw <= 128 /\ user_by_email d em = None
  /\ exists x', w' = at_db false c d x' /\ w_token x' = w_token x /\ w_salt x' = w_salt x
      /\ w_clock x' = w_clock x.
Proof.
  intros Hd. unfold register_checks, registration_open, is_allowed, is_registration_allowed.
  rewrite bind_run, call_ext_at. cbv zeta.
  destruct (lim_is_allowed _ _ _) as [[|] l1]; cbn [fst snd negb]; [|done].
  rewrite bind_run, call_ext_at. change (w_ext (set_ext l1 x)) with l1.
  destruct (lim_is_registration_allowed _ _) as [[|] l2]; cbn [fst snd negb]; [|done].
  destruct (validate_password_policy pw) as [[|] m] eqn:Ep; cbn [negb].
  2: { rewrite bind_run. by destruct (record_failure _ _ _ _) as [[?|?] ?]. }
  rewrite bind_run, find_user_by_email_ok by done.
  destruct (user_by_email d em) as [u|].
  { rewrite bind_run. destruct (record_failure _ _ _ _) as [[?|?] ?]; [|done]. rewrite bind_run.
    by destruct (create_audit_log _ _) as [[?|?] ?]. }
  rewrite ret_run. intros [= <-]. split_and!; try done; [| |by eexists].
  all: unfold validate_password_policy in Ep; destruct (Z.ltb_spec (str_len pw) 12); [done|];
    destruct (Z.ltb_spec 128 (str_len pw)); [done|lia].
Qed.

(** The account that registration creates. *)
Record new_account (em pw lang : string) (salt : nat) d (u : User) : Prop := {
  na_email : u_email u = em;
  na_password : u_password_hash u = Some (env_pw_hash salt pw);
  na_active : u_is_active u = true /\ u_deleted_at u = None;
  na_language : u_language_code u = lang;
  na_fresh : users d !! u_id u = None;
}.

Lemma register_transaction_inv em pw lang t ip ua c d x r w' :
  db_ok d ->
  register_transaction auth_settings em pw lang t ip ua (at_db false c d x) = (Ok r, w') ->
  exists u s d' x',
    let u' := set_last_login (stored (env_now (2 + w_clock x))) u in
    let tok := env_token (w_token x) in
    let csrf := env_token (S (w_token x)) in
    r = (u', (s, tok, csrf)) /\ w' = at_db false c d' x'
    /\ new_account em pw lang (w_salt x) d u
    /\ session_issued auth_settings REGISTER_SUCCESS (3 + w_clock x) u' t ip ua tok csrf
         (with_users <[u_id u := u]> d) d' s.
Proof.
  intros Hd. unfold register_transaction. intros (w1 & Hb & Hw)%transaction_ok_inv.
  rewrite bind_run, hash_password_at, bind_run, create_user_at in Hb. cbv zeta in Hb.
  destruct (is_none _ && _) eqn:Eo; [|done]. apply andb_true_iff in Eo as [Hn%is_none_true Hr].
  cbv beta iota in Hb.
  match type of Hb with context [at_db true d (with_users <[?k := ?u0]> d) ?x0] =>
    set (u := u0) in Hb; set (x1 := x0) in Hb; change k with (u_id u) in Hb, Hn end.
  assert (db_ok (with_users <[u_id u := u]> d)) as Hd1 by (by apply db_ok_users_insert).
  assert (u_deleted_at u = None) as Hdel by done.
  assert (new_account em pw lang (w_salt x) d u) as Hna by done.
  assert (w_token x1 = w_token x) as Ht by done. assert (w_clock x1 = S (S (w_clock x))) as Hcl by done.
  clearbody u x1.
  rewrite bind_run, utcnow_at, bind_run in Hb.
  destruct (record_user_login_ok (u_id u) u (env_now (w_clock x1)) true d
    (with_users <[u_id u := u]> d) (tick_clock x1) Hd1) as [Hl Hd2];
    [by simpl; rewrite lookup_insert_eq|done|].
  rewrite Hl in Hb. clear Hl.
  apply bind_inv in Hb as [(e & _ & ?)|([[s tok] csrf] & w2 & Hi & Hb)]; [done|].
  apply replace_auth_session_inv in Hi as (s' & x2 & Hrr & -> & _ & Hf & Hfree & _ & _ & _ & Eu & Ea);
    [|done]. injection Hrr as -> -> ->.
  rewrite bind_run in Hb. destruct (create_audit_log _ _) as [ra w3] eqn:Ec.
  apply create_audit_log_inv in Ec as (x3 & _ & _ & _ & [(-> & a & Haw & Han & ->)|(e & -> & ->)]);
    [|done].
  rewrite ret_run in Hb. injection Hb as <- <-.
  change (w_token (tick_clock x1)) with (w_token x1) in *.
  change (w_clock (tick_clock x1)) with (S (w_clock x1)) in *. rewrite Ht, Hcl in *.
  exists u, s'. eexists _, x3. cbv zeta. split_and!; [done|by apply Hw|done|].
  split; [|exact Hf]. exists a. split_and!; [done|done|by rewrite Ea in Han|].
  by rewrite revoke_presented_users in Hfree.
Qed.

(** C35. A registration that returns was allowed: the address is under both limits, the
    password satisfies the policy, and no undeleted account has the e-mail.  It
    creates that account, active, with the hash of the password and the time of the
    registration as its login time, issues a first session for it, revokes the session
    the request came with, records the registration and changes nothing else; the
    session it returns shows no role. *)
Theorem register_ok email pw lang t ip ua (w w' : World L) r :
  idle w -> db_ok (w_committed w) ->
  register auth_settings email pw lang t ip ua w = (Ok r, w') ->
  let em := normalize_email email in
  exists u s,
    let u' := set_last_login (stored (env_now (2 + w_clock w))) u in
    registration_open ip em (w_ext w) /\ 12 <= str_len pw <= 128
    /\ user_by_email (w_committed w) em = None
    /\ new_account em pw lang (w_salt w) (w_committed w) u
    /\ session_issued auth_settings REGISTER_SUCCESS (3 + w_clock w) u' t ip ua (is_session_token r) (is_csrf_token r)
         (with_users <[u_id u := u]> (w_committed w)) (w_committed w') s
    /\ r = Issued u' s (env_token (w_token w)) (env_token (S (w_token w))) ∅ ∅
    /\ idle w'.
Proof.
  intros Hidle Hd. rewrite (idle_at w Hidle). set (d := w_committed w) in *. clearbody d.
  change (w_committed (at_db false d d w)) with d in *.
  unfold register. intros [(e & _ & ?)|([] & w1 & Hc & H)]%bind_inv; [done|].
  apply register_checks_inv in Hc as (Ho & Hp & Hn & x1 & -> & Ht & Hs & Hcl); [|done].
  apply bind_inv in H as [(e & _ & ?)|([u1 [[s tok] csrf]] & w2 & Hr & H)]; [done|].
  unfold try_except in Hr.
  destruct (register_transaction _ _ _ _ _ _ _ _) as [[res|e] w3] eqn:Et.
  2: { destruct e; try done. rewrite bind_run in Hr.
       destruct (record_failure _ _ _ _) as [[?|?] ?]; [|done]. rewrite bind_run in Hr.
       by destruct (create_audit_log _ _) as [[?|?] ?]. }
  injection Hr as -> ->.
  apply register_transaction_inv in Et as (u & s' & d' & x' & Heq & -> & Hna & Hsi); [|done].
  cbv zeta in Heq, Hsi. injection Heq as -> -> -> ->.
  unfold record_registration in H. rewrite bind_run, call_ext_at, ret_run in H.
  injection H as <- <-. rewrite Ht, Hcl in *. rewrite Hs in Hna. exists u, s'.
  split_and!; try done; lia.
Qed.

(** ** Failure *)

Lemma quiet_register_checks em rip pw ip ua :
  quiet (register_checks auth_settings em rip pw ip ua : M L unit).
Proof.
  apply preserves_quiet. intros d0. pose proof (fun e => pres_audit_only (L:=L) d0 e).
  unfold register_checks, is_allowed, is_registration_allowed, record_failure, find_user_by_email.
  preserve; auto.
Qed.

(** A registration that fails leaves no trace of an account: whatever the reason (a
    limit, a weak password, an e-mail in use, also one taken by a concurrent
    registration), no user or session is created or changed; at most an audit row
    is added. *)
Theorem register_failure email pw lang t ip ua (w w' : World L) e :
  idle w -> register auth_settings email pw lang t ip ua w = (Raise e, w') ->
  same_but_audit (w_committed w) (w_committed w') /\ idle w'.
Proof.
  intros Hidle H.
  assert (atomic (register auth_settings email pw lang t ip ua : M L _)) as Ha.
  { unfold register. cbv zeta. apply atomic_bind; [apply quiet_register_checks|]. intros _.
    apply atomic_bind_total.
    - apply preserves_idle. unfold register_transaction, record_failure. closed.
    - apply atomic_try; [apply atomic_transaction; closed|]. intros e' m' Hm.
      destruct e'; simplify_eq/=. apply atomic_bind.
      { apply preserves_quiet. intros d0. unfold record_failure. preserve. }
      intros _. apply atomic_bind; [apply preserves_quiet; intros d0; apply pres_audit_only|].
      intros _ w0 e0 Hw0 _. by split.
    - intros [u [[s tok] csrf]] w0 Hw0. unfold record_registration. rewrite bind_run.
      rewrite (idle_at w0 Hw0), call_ext_at, ret_run. by eexists. }
  destruct (Ha w e Hidle) as [H1 H2]; [by rewrite H|]. by rewrite H in H1, H2.
Qed.
End Spec.

(** ** Instances *)

Lemma register_ok_witness : exists r w',
  register default_auth_settings "New@Example.com " "a long enough password" "ja" None None None demo_world
  = (Ok r, w') /\ is_session_token r = "token0"%string.
Proof.
  eexists _, _.
  assert ((register default_auth_settings "New@Example.com " "a long enough password" "ja" None None
    None demo_world).1 = Ok _) as H by (vm_compute; reflexivity).
  apply run_eq in H. split; [exact H|].
  destruct (register_ok _ _ _ _ _ _ _ _ _ _ (world_of_idle _) demo_db_ok H)
    as (u & s & _ & _ & _ & _ & _ & Hr & _).
  rewrite Hr. reflexivity.
Defined.

Lemma register_failure_witness : exists e w',
  register default_auth_settings "ann@example.com" "a long enough password" "ja" None None None demo_world
  = (Raise e, w') /\ same_but_audit demo_db (w_committed w').
Proof.
  eexists _, _.
  assert ((register default_auth_settings "ann@example.com" "a long enough password" "ja" None None
    None demo_world).1 = Raise _) as H by (vm_compute; reflexivity).
  apply run_raise in H. split; [exact H|].
  exact (proj1 (register_failure _ _ _ _ _ _ _ _ _ _ (world_of_idle _) H)).
Defined.

(** ** What account deletion does

    The proof of possession that deletion asks for, the state it leaves, and that
    it is all or nothing. *)

Section Spec.
Context `{E : Env} {L : Type} `{R : LoginRateLimiter L}.
Context (auth_settings : AuthSettings) (oidc_settings : OidcSettings).
Implicit Types (x : World L) (b : bool) (c d : DB).

(** A fresh OpenID Connect login of the session. *)
Definition fresh_oidc (s : AuthSession) (now : Z) : bool :=
  match s_last_oidc_authenticated_at s with
  | Some t => now - t <=? timedelta_seconds (AUTH_OIDC_REAUTH_FRESHNESS_SECONDS oidc_settings)
  | None => false
  end.

(** The proof of possession was given. *)
Definition possession_proved (ctx : AuthenticatedSessionContext) (email : string)
    (password ip : option string) (w : World L) : Prop :=
  normalize_email (u_email (ctx_user ctx)) = normalize_email email
  /\ match u_password_hash (ctx_user ctx) with
     | Some h => exists p, password = Some p /\ p <> "" /\ env_pw_verify p h = true
         /\ (lim_is_account_deletion_reauth_allowed (limiter_ip ip)
               (normalize_email (u_email (ctx_user ctx))) (w_ext w)).1 = true
     | None => fresh_oidc (ctx_session ctx) (env_now (w_clock w)) = true
     end.

Lemma reauthenticate_inv ctx email password ip ua c d x w' :
  reauthenticate auth_settings oidc_settings ctx email password ip ua (at_db false c d x) = (Ok tt, w') ->
  possession_proved ctx email password ip x /\ exists x', w' = at_db false c d x'
    /\ w_uuid x' = w_uuid x.
Proof.
  unfold reauthenticate, possession_proved. cbv zeta.
  destruct (String.eqb_spec (normalize_email (u_email (ctx_user ctx))) (normalize_email email))
    as [He|]; cbn [negb]; [|done].
  destruct (u_password_hash (ctx_user ctx)) as [h|].
  - unfold is_account_deletion_reauth_allowed. rewrite bind_run, call_ext_at. unfold limiter_ip.
    destruct (lim_is_account_deletion_reauth_allowed _ _ _) as [[|] l1] eqn:Ea; cbn [fst snd negb]; [|done].
    destruct (truthy_opt password) eqn:Et; cbn [negb]; [|done].
    destruct password as [p|]; [|done]. change (default "" (Some p)) with p.
    rewrite bind_run, verify_password_at. destruct (env_pw_verify p h) eqn:Ev; cbn [negb].
    + rewrite ret_run. intros [= <-].
      split; [|by eexists]. split; [done|]. exists p. split_and!; try done. by apply truthy_spec.
    + unfold record_failure. rewrite bind_run, call_ext_at, bind_run.
      by destruct (create_audit_log _ _) as [[?|?] ?].
  - unfold require_fresh_oidc_reauth, fresh_oidc.
    set (req := linked_provider_details oidc_settings _ ≫= _).
    assert (forall w, (req w).1 = Ok tt -> False) as Hreq.
    { intros w. unfold req. rewrite bind_run.
      by destruct (linked_provider_details oidc_settings _ w) as [[?|?] ?]. }
    destruct (s_last_oidc_authenticated_at _) as [t|].
    2: { intros H. exfalso. apply (Hreq (at_db false c d x)). by rewrite H. }
    rewrite bind_run, utcnow_at. destruct (_ <? _) eqn:El.
    { intros H. exfalso. eapply Hreq. by rewrite H. }
    rewrite ret_run. intros [= <-]. apply Z.ltb_ge in El.
    split; [split; [done|by apply Z.leb_le]|by eexists].
Qed.

(** ** The state after a deletion *)

(** Rows of the account are gone, its live sessions revoked, and the account itself
    marked; everything else is as it was. *)
Definition erased (uid deleted_at : Z) d : DB :=
  with_sessions (update_where (fun s => (s_user_id s =? uid) && is_none (s_revoked_at s))
                   (set_revoked (stored deleted_at)))
    (mark_deleted uid deleted_at
       (with_identities (delete_where (fun i => i_user_id i =? uid))
          (with_user_roles (delete_where (role_of uid))
             (with_sample_items (delete_where (fun i => it_owner_user_id i =? uid)) d)))).

Record account_erased (uid : Z) (sid deleted_at : Z) (ip : option string) d d' : Prop := {
  ae_user : exists u, users d' !! uid = Some u /\ is_some (u_deleted_at u) = true;
  ae_db : exists audits, d' = with_audit_logs (fun _ => audits) (erased uid deleted_at d)
    /\ (row_count (deletable uid) (users d) = 0 -> audits = audit_logs d)
    /\ (row_count (deletable uid) (users d) <> 0 -> exists a,
          audits = <[a_id a := a]> (audit_logs d) /\ audit_logs d !! a_id a = None
          /\ audit_written (AuditEvent (Some uid) (Some sid) USER_MARKED_DELETED ip None None
                              (Some deleted_at)) a);
}.

Lemma mark_deleted_lookup uid t d u :
  users d !! uid = Some u -> u_id u = uid ->
  exists u', users (mark_deleted uid t d) !! uid = Some u' /\ is_some (u_deleted_at u') = true.
Proof.
  intros Hu Hid. unfold mark_deleted. simpl. rewrite (lookup_update_where_Some _ _ _ _ _ Hu).
  unfold deletable, id_is. rewrite Hid, Z.eqb_refl.
  destruct (u_deleted_at u) eqn:Ed; simpl; eexists; (split; [done|]); [by rewrite Ed|done].
Qed.

Lemma delete_account_transaction_inv uid sid t ip c d x w' :
  db_ok d ->
  delete_account_transaction uid sid t ip (at_db false c d x) = (Ok tt, w') ->
  account_erased uid sid t ip d (w_committed w') /\ idle w'.
Proof.
  intros Hd. unfold delete_account_transaction. intros (w1 & H & Hw)%transaction_ok_inv.
  rewrite bind_run, delete_all_for_owner_at, bind_run, delete_roles_for_user_at, bind_run,
    delete_identities_at in H. cbv beta iota zeta in H. rewrite bind_run, mark_user_deleted_at in H.
  cbv beta iota zeta in H. set (d0 := with_identities _ _) in H.
  assert (forall u, users d !! uid = Some u ->
    exists u', users (mark_deleted uid t d0) !! uid = Some u' /\ is_some (u_deleted_at u') = true) as Hm.
  { intros u Hu. apply (mark_deleted_lookup uid t d0 u); [done|by eapply ok_users_keyed]. }
  assert (users (mark_deleted uid t d0) !! uid = None \/ is_Some (users d !! uid)) as Hcase.
  { unfold mark_deleted. simpl. rewrite lookup_update_where. destruct (users d !! uid); [right; eauto|by left]. }
  change (users d0) with (users d) in H. change (audit_logs d0) with (audit_logs d) in H.
  destruct (row_count (deletable uid) (users d) =? 0) eqn:Er.
  - apply Z.eqb_eq in Er. destruct (users (mark_deleted uid t d0) !! uid) as [u'|] eqn:Eu'; [|done].
    destruct Hcase as [?|[u Hu]]; [done|]. destruct (Hm u Hu) as (u2 & ? & Hdel). simplify_eq.
    rewrite bind_run, revoke_sessions_for_user_at in H. cbv beta iota zeta in H.
    rewrite ret_run in H. injection H as <-. rewrite (Hw _ _ eq_refl). split; [|done]. split; [by exists u2|].
    exists (audit_logs d). by split_and!.
  - apply Z.eqb_neq in Er. destruct (inet_bind ip) as [ip'|e] eqn:Eip; [|done].
    destruct (is_none _ && _) eqn:Eo; [|done].
    destruct (users (mark_deleted uid t d0) !! uid) as [u'|] eqn:Eu'; [|done].
    destruct Hcase as [?|[u Hu]]; [done|]. destruct (Hm u Hu) as (u2 & ? & Hdel). simplify_eq.
    rewrite bind_run, revoke_sessions_for_user_at in H. cbv beta iota zeta in H.
    rewrite ret_run in H. injection H as <-. rewrite (Hw _ _ eq_refl). split; [|done]. split; [by exists u2|].
    apply andb_true_iff in Eo as [Hn%is_none_true _].
    set (row := store_audit ip' (mkAudit (env_uuid (w_uuid x)) (Some uid) (Some sid)
      USER_MARKED_DELETED ip None None t)).
    exists (<[env_uuid (w_uuid x) := row]> (audit_logs d)). split_and!; [done|done|].
    intros _. exists row. split_and!; [done|exact Hn|].
    split_and!; try done. by intros t' [= <-].
Qed.

Lemma delete_account_inv ctx email password ip ua c d x w' :
  db_ok d ->
  delete_account auth_settings oidc_settings ctx email password ip ua (at_db false c d x) = (Ok tt, w') ->
  possession_proved ctx email password ip x
  /\ (exists deleted_at, account_erased (u_id (ctx_user ctx)) (s_id (ctx_session ctx)) deleted_at ip
        d (w_committed w'))
  /\ idle w'.
Proof.
  intros Hd. unfold delete_account.
  intros [(e & _ & ?)|([] & w1 & Hr & H)]%bind_inv; [done|].
  apply reauthenticate_inv in Hr as (Hp & x1 & -> & _).
  rewrite bind_run, utcnow_at in H.
  apply delete_account_transaction_inv in H as [He Hi]; [|done]. eauto.
Qed.

(** C27. An account is only deleted by someone who proved to hold it: the e-mail was
    confirmed and the password verified under the rate limit, or, for an account
    without password, the session has a fresh OpenID Connect login.  After a
    deletion that returns, the account is marked deleted, its items, roles and
    identities are gone, its live sessions are revoked, one audit row says so, and
    nothing else in the database changed. *)
Theorem delete_account_ok ctx email password ip ua (w w' : World L) :
  idle w -> db_ok (w_committed w) ->
  delete_account auth_settings oidc_settings ctx email password ip ua w = (Ok tt, w') ->
  possession_proved ctx email password ip w
  /\ (exists deleted_at, account_erased (u_id (ctx_user ctx)) (s_id (ctx_session ctx)) deleted_at ip
        (w_committed w) (w_committed w'))
  /\ idle w'.
Proof.
  intros Hidle Hd. rewrite (idle_at w Hidle). set (d := w_committed w) in *. clearbody d.
  intros (Hp & He & Hi)%delete_account_inv; [|done]. by split_and!.
Qed.
End Spec.

(** ** Instances *)

Lemma delete_account_ok_witness : exists w',
  delete_account default_auth_settings demo_oidc_settings ann_context "ann@example.com"
    (Some "correct horse battery"%string) None None demo_world = (Ok tt, w')
  /\ idle w' /\ exists u, users (w_committed w') !! 1 = Some u /\ is_some (u_deleted_at u) = true.
Proof.
  eexists. assert (delete_account default_auth_settings demo_oidc_settings ann_context
    "ann@example.com" (Some "correct horse battery"%string) None None demo_world = (Ok tt, _)) as H
    by (apply run_eq; vm_compute; reflexivity).
  split; [exact H|].
  destruct (delete_account_ok default_auth_settings demo_oidc_settings _ _ _ _ _ demo_world _
    (world_of_idle _) demo_db_ok H) as (_ & (t & [Hu _]) & Hi).
  split; [exact Hi|exact Hu].
Defined.
