(* ===== verification/AdminUserSpec.v ===== *)
(** * What the administration of users does

    The user list, the replacement of a user's roles, and the end of a user's
    sessions when an administrator changes the password or deactivates the user.  First, the user search. *)

From S2P Require Import Prelude PyStr Errors Time Tables Effects UnitOfWork Preserve Settings.
From S2P Require Import Authorization RateLimiter Interfaces AuthRepository.
From S2P Require Import AuthorizationRepository AdminUserRepository SampleItemRepository Runs.
From S2P Require Import Integrity Lookups AuthUsecase AuthorizationUsecase AdminUserUsecase.
From S2P Require Import AuthUsecaseSpec Closure SessionSpec Demo.

(** ** The user search of the administration

    The LIKE pattern built from a search text matches exactly the texts that contain
    it: the escapes of [escape_like_search] leave no wildcard. *)

(** The pattern characters for one character of the search. *)
Definition escaped (c : ascii) : list ascii :=
  if Ascii.eqb c "%" || Ascii.eqb c "_" || Ascii.eqb c backslash then [backslash; c] else [c].

Lemma flat_map_flat_map {A B C} (f : A -> list B) (g : B -> list C) l :
  flat_map g (flat_map f l) = flat_map (fun x => flat_map g (f x)) l.
Proof. induction l as [|x l IH]; simpl; [done|]. by rewrite flat_map_app, IH. Qed.

(** The three replacements on one character. *)
Definition escape_char (c : ascii) : list ascii :=
  flat_map (fun x =>
    flat_map (fun y => if Ascii.eqb "_" y then chars "\_" else [y])
      (if Ascii.eqb "%" x then chars "\%" else [x]))
    (if Ascii.eqb backslash c then chars "\\" else [c]).

Lemma escape_char_escaped c : escape_char c = escaped c.
Proof.
  assert (forall c, bool_decide (escape_char c = escaped c) = true) as H.
  { apply all_chars_spec. vm_compute. reflexivity. }
  exact (bool_decide_eq_true_1 _ (H c)).
Qed.

Lemma chars_escape s : chars (escape_like_search s) = flat_map escaped (chars s).
Proof.
  unfold escape_like_search. rewrite !chars_replace, !flat_map_flat_map.
  apply flat_map_ext. intros c.
  apply escape_char_escaped.
Qed.

(** ** What a pattern matches *)

Lemma like_percent q s :
  like_chars ("%"%char :: q) s = true <-> exists a b, s = a ++ b /\ like_chars q b = true.
Proof.
  induction s as [|x s IH].
  - simpl. rewrite orb_false_r. split; [intros H; by exists [], []|].
    intros (a & b & E & H). symmetry in E. by apply app_nil in E as [-> ->].
  - change (like_chars ("%"%char :: q) (x :: s))
      with (like_chars q (x :: s) || like_chars ("%"%char :: q) s).
    rewrite orb_true_iff, IH. split.
    + intros [H|(a & b & -> & H)]; [by exists [], (x :: s)|by exists (x :: a), b].
    + intros ([|y a] & b & E & H); simpl in E; [subst; by left|].
      injection E as <- ->. right. by exists a, b.
Qed.

Lemma like_escaped p q s :
  like_chars (flat_map escaped p ++ q) s = true <-> exists s', s = p ++ s' /\ like_chars q s' = true.
Proof.
  revert s. induction p as [|c p IH]; intros s; simpl.
  { split; [intros H; by exists s|]. by intros (s' & -> & H). }
  assert (like_chars ((escaped c ++ flat_map escaped p) ++ q) s = true
    <-> exists s1, s = c :: s1 /\ like_chars (flat_map escaped p ++ q) s1 = true) as ->.
  { unfold escaped. destruct (_ || _) eqn:Ec.
    - simpl. destruct s as [|x s]; [by split; [|intros (? & ? & ?)]|].
      rewrite andb_true_iff, Ascii.eqb_eq. split; [intros [-> H]; eauto|].
      intros (s1 & [= -> ->] & H). done.
    - apply orb_false_iff in Ec as [[E1 E2]%orb_false_iff E3]. cbn [app like_chars].
      rewrite E1, E2, E3. destruct s as [|x s]; [by split; [|intros (? & ? & ?)]|].
      rewrite andb_true_iff, Ascii.eqb_eq. split; [intros [-> H]; eauto|].
      intros (s1 & [= -> ->] & H). done. }
  setoid_rewrite IH. split.
  - intros (s1 & -> & s' & -> & H). eauto.
  - intros (s' & -> & H). eauto.
Qed.

Lemma contains_spec s p : contains s p = true <-> exists a b, chars s = a ++ chars p ++ b.
Proof.
  induction s as [|c s IH]; cbn [contains]; rewrite orb_true_iff, startswith_app.
  - split; [intros [[k H]|]; [by exists [], k|done]|]. intros (a & b & H). left.
    destruct a; [by exists b|done].
  - rewrite IH. split.
    + intros [[k H]|(a & b & H)]; [by exists [], k|exists (c :: a), b; simpl; by rewrite H].
    + intros ([|x a] & b & H); simpl in H; [left; by exists b|]. injection H as <- H. right. eauto.
Qed.

Lemma like_search text search :
  like text ("%" ++ escape_like_search search ++ "%") = contains text search.
Proof.
  apply eq_bool_prop_intro. rewrite !Is_true_true, contains_spec. unfold like.
  rewrite !chars_app, chars_escape. change (chars "%") with ["%"%char]. cbn [app].
  rewrite like_percent. setoid_rewrite like_escaped.
  split; [intros (a & b & E & s' & -> & _); eauto|].
  intros (a & b & E). exists a, (chars search ++ b). split; [done|]. exists b. split; [done|].
  apply like_percent. exists b, []. by rewrite app_nil_r.
Qed.

Section Spec.
Context `{E : Env} {L : Type}.
Implicit Types (x : World L) (b : bool) (c d : DB).

(** ** The user list *)

(** The users a list query asks for. *)
Definition wanted d (query : AdminUserListQuery) (u : User) : bool :=
  is_none (u_deleted_at u)
  && match q_search query with
     | Some search => contains (lower (u_email u)) (lower search)
     | None => true
     end
  && match q_is_active query with Some b => eqb (u_is_active u) b | None => true end
  && match q_role query with
     | Some role => exists_row (fun r => (r_user_id r =? u_id u) && (r_role_code r =? role)%string)
                      (user_roles d)
     | None => true
     end.

Lemma list_filter_wanted d query u : list_filter d query u = wanted d query u.
Proof.
  unfold list_filter, wanted. destruct (q_search query) as [search|]; [|done].
  cbv zeta. by rewrite like_search.
Qed.

Lemma select_ext {A} (p q : A -> bool) t : (forall r, p r = q r) -> select p t = select q t.
Proof. intros H. unfold select. apply List.filter_ext. done. Qed.

(** The users of the query, newest first. *)
Definition listed d (query : AdminUserListQuery) : list User :=
  order_by_desc u_registered_at u_id (select (wanted d query) (users d)).

Lemma listed_length d query : length (listed d query) = length (select (wanted d query) (users d)).
Proof. unfold listed, order_by_desc. by rewrite merge_sort_Permutation. Qed.

(** The user list is what it says: the search text is matched literally, whatever
    wildcards it contains; the total counts every user the query asks for; the page
    is the slice of these users, newest first; deleted users never appear; and each
    user comes with its own roles. *)
Theorem list_users_ok query offset limit (w : World L) :
  idle w ->
  let d := w_committed w in
  exists r, list_users query offset limit w = (Ok r, w)
    /\ page_total r = Z.of_nat (length (listed d query))
    /\ map rec_user (page_items r) = slice offset limit (listed d query)
    /\ (forall u, u ∈ listed d query <->
          wanted d query u = true /\ exists k, users d !! k = Some u)
    /\ (forall record, record ∈ page_items r ->
          rec_roles record
          = sorted (map r_role_code (select (role_of (u_id (rec_user record))) (user_roles d)))).
Proof.
  intros Hidle d. rewrite (idle_at w Hidle). subst d. set (d := w_committed w). clearbody d.
  change (w_committed (at_db false d d w)) with d.
  assert (select (list_filter d query) (users d) = select (wanted d query) (users d)) as Es.
  { apply select_ext. intros u. apply list_filter_wanted. }
  set (page := slice offset limit (listed d query)).
  exists (OffsetPage (map (fun u => UserRecord u (role_codes_for_users d (map u_id page) (u_id u))) page)
            (Z.of_nat (length (listed d query))) offset limit).
  split_and!.
  - unfold list_users. rewrite session_scope_at. unfold at_db, in_scope. run_cbv.
    unfold row_count. by rewrite Es, listed_length.
  - done.
  - simpl. rewrite map_map. apply map_id.
  - intros u. unfold listed, order_by_desc. rewrite merge_sort_Permutation. apply elem_of_select.
  - simpl. intros record Hr. apply list_elem_of_fmap in Hr as (u & -> & Hu). simpl.
    unfold role_codes_for_users. rewrite bool_decide_true; [done|].
    apply list_elem_of_fmap. by exists u.
Qed.

(** ** Roles *)

(** The role codes of a user. *)
Definition roles_of d (uid : Z) : gset string :=
  list_to_set (map r_role_code (select (role_of uid) (user_roles d))).

Lemma elem_of_roles_of d uid code :
  code ∈ roles_of d uid <->
  exists k r, user_roles d !! k = Some r /\ r_user_id r = uid /\ r_role_code r = code.
Proof.
  unfold roles_of. rewrite elem_of_list_to_set, list_elem_of_fmap. split.
  - intros (r & -> & [Hr [k Hk]]%elem_of_select). apply Z.eqb_eq in Hr. eauto.
  - intros (k & r & Hk & <- & <-). exists r. split; [done|]. apply elem_of_select.
    split; [by apply Z.eqb_eq|eauto].
Qed.

Lemma session_scope_tx {A} (body : M L A) c d x :
  session_scope unit_of_work body (at_db true c d x) = body (at_db true c d x).
Proof. done. Qed.

Lemma write_at f c d x :
  write_db f (at_db true c d x) = (Ok tt, at_db true c (f d) x).
Proof. done. Qed.

(** The DELETE of the revoked roles, left out when there is none. *)
Lemma delete_revoked_at uid (revoked : gset string) c d x :
  exists d1, (if bool_decide (sorted (elements revoked) = []) then mret tt
     else write_db (with_user_roles (delete_where (fun r =>
            role_of uid r && bool_decide (r_role_code r ∈ sorted (elements revoked)))))
     : M L unit) (at_db true c d x) = (Ok tt, at_db true c d1 x)
  /\ forall k row, user_roles d1 !! k = Some row <-> user_roles d !! k = Some row
     /\ ~ (r_user_id row = uid /\ r_role_code row ∈ revoked).
Proof.
  destruct (bool_decide _) eqn:Eb.
  - exists d. split; [done|]. intros k row. apply bool_decide_eq_true in Eb.
    split; [|by intros [? _]]. intros Hk. split; [done|]. intros [_ Hr].
    apply (not_elem_of_nil (r_role_code row)). rewrite <- Eb.
    by rewrite elem_of_sorted, elem_of_elements.
  - eexists. rewrite write_at. split; [reflexivity|]. intros k row. simpl.
    rewrite lookup_delete_where. unfold role_of.
    rewrite andb_false_iff, Z.eqb_neq, bool_decide_eq_false, elem_of_sorted, elem_of_elements.
    split; intros [Hk Hr]; (split; [done|]); [tauto|].
    destruct (decide (r_user_id row = uid)); [right|by left]. intros Hin. by apply Hr.
Qed.


Lemma exec_select_at {A} (get : DB -> gmap Z A) p c d x :
  exec_select get p (at_db true c d x) = (Ok (select p (get d)), at_db true c d x).
Proof. done. Qed.

Lemma new_user_roles_at uid codes t by_ c d x rows w' :
  new_user_roles uid codes t by_ (at_db true c d x) = (Ok rows, w') ->
  map r_role_code rows = codes /\ Forall (fun r => r_user_id r = uid) rows
  /\ exists x', w' = at_db true c d x'.
Proof.
  revert x rows w'. induction codes as [|code codes IH]; intros x rows w'; cbn [new_user_roles].
  - rewrite ret_run. intros [= <- <-]. split_and!; [done|constructor|by exists x].
  - rewrite bind_run, uuid4_at.
    intros [(e & _ & ?)|(rows' & w1 & Hr & H)]%bind_inv; [done|].
    apply IH in Hr as (Hc & Hu & x' & ->). rewrite ret_run in H. injection H as <- <-.
    split_and!; [simpl; by rewrite Hc|by constructor|by exists x'].
Qed.

(** Inserting rows adds these rows and nothing else. *)
Lemma insert_roles_inv rows c d x w' :
  for_each rows insert_user_role (at_db true c d x) = (Ok tt, w') ->
  exists f, w' = at_db true c (with_user_roles f d) x
  /\ forall k row, f (user_roles d) !! k = Some row <->
       user_roles d !! k = Some row
       \/ exists r, r ∈ rows /\ k = r_id r /\ row = store_user_role r.
Proof.
  revert d w'. induction rows as [|r rows IH]; intros d w'; simpl.
  - rewrite ret_run. intros [= <-]. exists id. split; [by destruct d|]. intros k row. simpl.
    split; [by left|]. by intros [?|(r & Hr%not_elem_of_nil & _)].
  - intros [(e & _ & ?)|([] & w1 & Hr & H)]%bind_inv; [done|].
    unfold insert_user_role, checked in Hr. rewrite bind_run in Hr.
    change (read_db (at_db true c d x)) with (@Ok DB d, at_db true c d x) in Hr.
    cbv beta iota in Hr. destruct (is_none _ && _) eqn:Eo; [|done].
    apply andb_true_iff in Eo as [Hn%is_none_true _]. rewrite write_at in Hr. injection Hr as <-.
    apply IH in H as (f & -> & Hf). eexists (fun t => f (<[r_id r := store_user_role r]> t)).
    split; [done|]. intros k row. simpl in Hf. rewrite Hf, lookup_insert_Some.
    setoid_rewrite elem_of_cons. split.
    + intros [[[<- <-]|[_ Hk]]|(r' & Hr' & -> & ->)]; [right; exists r; auto|by left|right; exists r'; auto].
    + intros [Hk|(r' & [->|Hr'] & -> & ->)]; [|left; left; done|right; exists r'; done].
      left. right. split; [|done]. intros <-. congruence.
Qed.

(** The outcome of a role replacement: the user has exactly the target roles; the rows
    of the roles it keeps, and every other user's rows, are untouched. *)
Record roles_replaced (uid : Z) (target : gset string) d d' (r : UserRoleReplacementResult) : Prop := {
  rr_target : roles_of d' uid = target;
  rr_others k row : r_user_id row <> uid ->
    user_roles d' !! k = Some row <-> user_roles d !! k = Some row;
  rr_kept k row : user_roles d !! k = Some row -> r_user_id row = uid ->
    r_role_code row ∈ target -> user_roles d' !! k = Some row;
  rr_granted code : code ∈ granted_role_codes r <-> code ∈ target /\ code ∉ roles_of d uid;
  rr_revoked code : code ∈ revoked_role_codes r <-> code ∈ roles_of d uid /\ code ∉ target;
  rr_current : current_role_codes r = sorted (elements target);
}.

Lemma elem_of_sorted_elements (X : gset string) (code : string) : code ∈ sorted (elements X) <-> code ∈ X.
Proof. by rewrite elem_of_sorted, elem_of_elements. Qed.

Lemma roles_replaced_intro uid target d d1 d' r rows :
  let revoked := roles_of d uid ∖ target in
  let granted := target ∖ roles_of d uid in
  (forall k row, user_roles d1 !! k = Some row <-> user_roles d !! k = Some row
     /\ ~ (r_user_id row = uid /\ r_role_code row ∈ revoked)) ->
  (forall k row, user_roles d' !! k = Some row <-> user_roles d1 !! k = Some row
     \/ exists r, r ∈ rows /\ k = r_id r /\ row = store_user_role r) ->
  map r_role_code rows = sorted (elements granted) -> Forall (fun r => r_user_id r = uid) rows ->
  granted_role_codes r = sorted (elements granted) ->
  revoked_role_codes r = sorted (elements revoked) ->
  current_role_codes r = sorted (elements target) ->
  roles_replaced uid target d d' r.
Proof.
  intros revoked granted H1 H2 Hrows Hown Hg Hr Hc.
  assert (forall code, (exists r, r ∈ rows /\ r_role_code r = code) <-> code ∈ granted) as Hin.
  { intros code. rewrite <- (elem_of_sorted_elements granted), <- Hrows, list_elem_of_fmap.
    naive_solver. }
  rewrite Forall_forall in Hown. split; [| | | | |done].
  - apply set_eq. intros code. rewrite elem_of_roles_of. split.
    + intros (k & row & Hk & Hu & Hcode). apply H2 in Hk as [Hk|(r0 & Hr0 & -> & ->)].
      * apply H1 in Hk as [Hk Hno]. destruct (decide (code ∈ target)) as [|Hnt]; [done|].
        exfalso. apply Hno. split; [done|]. apply elem_of_difference.
        split; [apply elem_of_roles_of; eauto|by rewrite Hcode].
      * simpl in Hcode. assert (code ∈ granted) as Hgr by (apply Hin; eauto).
        by apply elem_of_difference in Hgr as [? _].
    + intros Ht. destruct (decide (code ∈ roles_of d uid)) as [Hold|Hnew].
      * apply elem_of_roles_of in Hold as (k & row & Hk & Hu & Hcode). exists k, row.
        split; [|done]. apply H2. left. apply H1. split; [done|]. intros [_ Hrev].
        apply elem_of_difference in Hrev as [_ Hrev]. by rewrite Hcode in Hrev.
      * assert (code ∈ granted) as (r0 & Hr0 & Hcode)%Hin by (by apply elem_of_difference).
        exists (r_id r0), (store_user_role r0). split_and!; [|exact (Hown _ Hr0)|exact Hcode].
        apply H2. right. eauto.
  - intros k row Hne. rewrite H2, H1. split.
    + intros [[? _]|(r0 & Hr0 & -> & ->)]; [done|]. exfalso. apply Hne. exact (Hown _ Hr0).
    + intros Hk. left. split; [done|]. by intros [? _].
  - intros k row Hk Hu Ht. apply H2. left. apply H1. split; [done|]. intros [_ Hrev].
    by apply elem_of_difference in Hrev as [_ Hrev].
  - intros code. rewrite Hg, elem_of_sorted_elements. apply elem_of_difference.
  - intros code. rewrite Hr, elem_of_sorted_elements. apply elem_of_difference.
Qed.

Lemma replace_user_roles_inv uid codes by_ c d x r w' :
  replace_user_roles uid codes by_ (at_db true c d x) = (Ok r, w') ->
  exists d' x', w' = at_db true c d' x' /\ roles_replaced uid (list_to_set codes) d d' r.
Proof.
  unfold replace_user_roles. cbv zeta. rewrite session_scope_tx. rewrite bind_run. unfold role_codes_for_user. rewrite bind_run, exec_select_at, ret_run.
  set (existing := sorted (map r_role_code (select (role_of uid) (user_roles d)))).
  set (target := list_to_set (dict_fromkeys codes) : gset string).
  assert ((list_to_set existing : gset string) = roles_of d uid) as Hex.
  { apply set_eq. intros code. unfold existing, roles_of.
    by rewrite !elem_of_list_to_set, elem_of_sorted. }
  rewrite Hex.
  assert (target = list_to_set codes) as Ht.
  { apply set_eq. intros code. unfold target. by rewrite !elem_of_list_to_set, elem_of_dict_fromkeys. }
  rewrite Ht. clear target Ht. set (target := list_to_set codes : gset string).
  rewrite bind_run, utcnow_at, bind_run.
  destruct (delete_revoked_at uid (roles_of d uid ∖ target) c d (tick_clock x)) as (d1 & Heq & H1).
  rewrite Heq. clear Heq. cbv beta iota.
  intros [(e & _ & ?)|(rows & w1 & Hn & H)]%bind_inv; [done|].
  apply new_user_roles_at in Hn as (Hcodes & Hown & x2 & ->).
  apply bind_inv in H as [(e & _ & ?)|([] & w2 & Hi & H)]; [done|].
  apply insert_roles_inv in Hi as (f & -> & Hf).
  apply bind_inv in H as [(e & _ & ?)|([] & w3 & Hw & H)]; [done|].
  assert (exists d3, w3 = at_db true c d3 x2 /\ user_roles d3 = f (user_roles d1)) as (d3 & -> & Er).
  { destruct (bool_decide _); [rewrite ret_run in Hw|rewrite write_at in Hw];
      injection Hw as <-; eexists; split; reflexivity. }
  injection H as <- <-. exists d3, x2. split; [done|].
  apply (roles_replaced_intro uid target d d1 d3 _ rows); try done. intros k row. by rewrite Er.
Qed.

Lemma list_to_set_fromkeys (codes : list string) :
  (list_to_set (dict_fromkeys codes) : gset string) = list_to_set codes.
Proof. apply set_eq. intros c. by rewrite !elem_of_list_to_set, elem_of_dict_fromkeys. Qed.

Lemma missing_none codes :
  missing_role_codes codes = ∅ -> forall code, code ∈ codes -> is_Some (default_role_catalog !! code).
Proof.
  unfold missing_role_codes. intros H code Hc. apply elem_of_dom.
  destruct (decide (code ∈ dom default_role_catalog)) as [|Hn]; [done|]. exfalso.
  apply (not_elem_of_empty (C := gset string) code). rewrite <- H. apply elem_of_difference.
  by rewrite elem_of_list_to_set.
Qed.

Lemma audit_role_replacement_inv ctx uid r ip ua c d x w' :
  audit_role_replacement ctx uid r ip ua (at_db true c d x) = (Ok tt, w') ->
  exists logs x', w' = at_db true c (with_audit_logs (fun _ => logs) d) x'.
Proof.
  unfold audit_role_replacement, record_role_audit. cbv zeta.
  intros [(e & _ & ?)|([] & w1 & H1 & H2)]%bind_inv; [done|].
  apply (audits_inv _ (fun _ => _)) in H1 as (logs & x1 & -> & _).
  apply (audits_inv _ (fun _ => _)) in H2 as (logs2 & x2 & -> & _).
  by exists logs2, x2.
Qed.

(** Replacing the roles of a user sets exactly the requested roles, all of which the
    catalog knows: what is granted and revoked is the difference, the assignments of
    the roles that stay and of every other user are untouched; the target must be
    an existing account that is not deleted, and any failure changes nothing. *)
Theorem replace_roles_ok ctx uid codes ip ua (w w' : World L) r :
  idle w -> db_ok (w_committed w) ->
  replace_roles ctx uid codes ip ua w = (r, w') ->
  idle w' /\
  match r with
  | Ok result =>
      (forall code, code ∈ codes -> is_Some (default_role_catalog !! code))
      /\ (exists u, users (w_committed w) !! uid = Some u /\ u_deleted_at u = None)
      /\ roles_replaced uid (list_to_set codes) (w_committed w) (w_committed w') result
  | Raise _ => w_committed w' = w_committed w
  end.
Proof.
  intros Hidle Hd. rewrite (idle_at w Hidle). set (d := w_committed w) in *. clearbody d.
  change (w_committed (at_db false d d w)) with d. unfold replace_roles. cbv zeta.
  destruct (bool_decide _) eqn:Em; [|by intros [= <- <-]]. apply bool_decide_eq_true in Em.
  destruct r as [result|e].
  2: { intros (x' & ->)%transaction_raise; [done|]. closed. }
  intros (w1 & H & Hw)%transaction_ok_inv. rewrite bind_run, find_user_by_id_ok in H by done.
  destruct (users d !! uid) as [u|] eqn:Eu; [|done].
  destruct (is_some (u_deleted_at u)) eqn:Edel; [done|].
  apply bind_inv in H as [(e & _ & ?)|(res & w2 & Hr & H)]; [done|].
  apply replace_user_roles_inv in Hr as (d' & x' & -> & Hrr).
  apply bind_inv in H as [(e & _ & ?)|([] & w3 & Ha & H)]; [done|].
  apply audit_role_replacement_inv in Ha as (logs & x2 & ->).
  rewrite ret_run in H. injection H as <- <-. rewrite (Hw _ _ eq_refl). split; [done|].
  rewrite list_to_set_fromkeys in Hrr. split_and!.
  - intros code Hc. apply (missing_none _ Em). by apply elem_of_dict_fromkeys.
  - exists u. split; [done|]. by destruct (u_deleted_at u).
  - destruct Hrr. by split.
Qed.

(** ** Updates *)

(** The sessions, and what a property says of the row of one user, stay as they are. *)
Definition same_account (t : gmap Z AuthSession) (uid : Z) (Q : User -> Prop) d : Prop :=
  sessions d = t /\ exists u, users d !! uid = Some u /\ Q u.

Lemma pres_account_audit t uid Q e : preserves 0 (same_account t uid Q) (create_audit_log e : M L unit).
Proof.
  unfold create_audit_log. preserve. unfold flush_audit. preserve.
  unfold insert_audit. preserve. by apply preserves_checked.
Qed.
#[local] Hint Resolve pres_account_audit : preserve.

Lemma pres_account_new_roles t uid Q u codes at_ by_ :
  preserves 0 (same_account t uid Q) (new_user_roles u codes at_ by_ : M L _).
Proof. induction codes; simpl; preserve. Qed.
#[local] Hint Resolve pres_account_new_roles : preserve.

Lemma pres_account_roles t uid (Q : User -> Prop) ctx u codes ip ua :
  (forall u t, Q u -> Q (set_user_modified t u)) ->
  preserves 0 (same_account t uid Q) (replace_roles_with_audit ctx u codes ip ua : M L _).
Proof.
  intros HQ. unfold replace_roles_with_audit, replace_user_roles, role_codes_for_user,
    audit_role_replacement, record_role_audit. preserve.
  - apply preserves_write_db. intros d Hd. exact Hd.
  - apply preserves_checked. intros d Hd _. exact Hd.
  - apply preserves_write_db. intros d (Hs & u1 & Hu1 & Hq). split; [done|].
    eexists. split; [exact (lookup_update_where_Some _ _ _ _ _ Hu1)|]. destruct (_ =? _); auto.
Qed.

(** The password differs, or the account was active and is not any more. *)
Definition credentials_changed (u u' : User) : Prop :=
  u_password_hash u' <> u_password_hash u \/ u_is_active u = true /\ u_is_active u' = false.

Lemma changed_columns_credentials ch h f u :
  changed_columns ch h = Ok f -> revokes_sessions ch = false ->
  u_password_hash (f u) = u_password_hash u /\ (u_is_active (f u) = false -> u_is_active u = false).
Proof.
  intros Hf (Hp%bool_decide_eq_false & Ha)%orb_false_iff.
  assert (("is_active" : string) ∈ ch_fields_set ch -> ch_is_active ch <> Some false) as Hi.
  { intros Hin. rewrite bool_decide_true in Ha by done. by apply bool_decide_eq_false in Ha. }
  clear Ha. revert Hf. unfold changed_columns, mbind, result_bind.
  rewrite (decide_False (P := ("password" : string) ∈ _)) by done.
  repeat case_decide; repeat case_match; intros; simplify_eq/=; split; try done.
  all: intros ->; by destruct Hi.
Qed.

(** The updated row, when the update does not end sessions. *)
Definition keeps_credentials ch (u u' : User) : Prop :=
  revokes_sessions ch = false -> ~ credentials_changed u u'.

Lemma keeps_credentials_step ch h f t u u1 :
  changed_columns ch h = Ok f -> keeps_credentials ch u u1 ->
  keeps_credentials ch u (set_user_modified t (f u1)).
Proof.
  intros Hf Hk Hr [Hc|[Ha Hc]]; destruct (changed_columns_credentials ch h f u1 Hf Hr) as [Hh Hi];
    apply (Hk Hr); simpl in Hc; [left; by rewrite <- Hh|right; auto].
Qed.

Lemma selected_user d uid u :
  db_ok d -> u ∈ select (fun u => id_is uid u && is_none (u_deleted_at u)) (users d) ->
  users d !! uid = Some u.
Proof.
  intros Hd [(Hid%Z.eqb_eq & _)%andb_true_iff [k Hk]]%elem_of_select.
  by rewrite <- Hid, (ok_users_keyed _ Hd _ _ Hk).
Qed.

Lemma update_user_inv uid ch h d x u w' :
  db_ok d -> AdminUserRepository.update_user uid ch h (at_db true d d x) = (Ok u, w') ->
  exists u0 d' x', w' = at_db true d d' x' /\ users d !! uid = Some u0 /\ u_id u = uid
    /\ same_account (sessions d) uid (keeps_credentials ch u0) d
    /\ same_account (sessions d) uid (keeps_credentials ch u0) d'.
Proof.
  intros Hd. unfold AdminUserRepository.update_user. rewrite session_scope_tx.
  rewrite bind_run, exec_select_at. intros [(e & _ & ?)|(o & w1 & Ho & H)]%bind_inv; [done|].
  assert (w1 = at_db true d d x) as ->.
  { unfold one_or_none in Ho. destruct (select _ _) as [|? [|]]; by injection Ho. }
  destruct o as [u0|]; [|done].
  assert (users d !! uid = Some u0) as Hu0.
  { unfold one_or_none in Ho. destruct (select _ _) as [|r [|]] eqn:Es; try done. injection Ho as ->.
    apply selected_user; [done|]. rewrite Es. by constructor. }
  rewrite bind_run, lift_run in H.
  destruct (changed_columns ch h) as [f|] eqn:Ef; [|done].
  rewrite bind_run, utcnow_at in H.
  apply bind_inv in H as [(e & _ & ?)|([] & w2 & Hp & H)]; [done|].
  assert (same_account (sessions d) uid (keeps_credentials ch u0) d) as Hsame.
  { split; [done|]. exists u0. split; [done|]. intros _ [?|[? ?]]; congruence. }
  apply (run_in_tx (fun d' => db_ok d' /\ same_account (sessions d) uid (keeps_credentials ch u0) d'))
    in Hp as (d2 & x2 & -> & Hd2 & Hs2 & u1 & Hu1 & Hk1); [|clear Hp H|done..].
  - unfold refresh in H. rewrite bind_run in H.
    change (read_db (at_db true d d2 x2)) with (@Ok DB d2, at_db true d d2 x2) in H.
    cbv beta iota in H. rewrite Hu1, ret_run in H. injection H as <- <-.
    exists u0, d2, x2. split_and!; try done; [exact (ok_users_keyed _ Hd2 _ _ Hu1)|].
    split; [done|]. by exists u1.
  - apply preserves_persist_unique_email, preserves_update_row.
    intros d' k (Hd' & Hs & u1 & Hu1 & Hk1) Hk Hr. rewrite Hu1 in Hk. injection Hk as <-.
    destruct (changed_columns_step ch h f u1 Ef) as (Hid & _). split; [|split; [done|]].
    + apply db_ok_users_insert; [done| |done]. simpl. rewrite Hid. exact (ok_users_keyed _ Hd' _ _ Hu1).
    + eexists. simpl. rewrite lookup_insert_eq. split; [done|]. by eapply keeps_credentials_step.
Qed.

Lemma get_admin_user_at uid b c d x :
  db_ok d -> exists res, get_admin_user uid (at_db b c d x) = (res, at_db b c d x)
    /\ match res with Ok _ => is_Some (users d !! uid) | Raise _ => True end.
Proof.
  intros Hd. unfold get_admin_user, get_user. rewrite bind_run.
  assert (session_scope unit_of_work (rows ← exec_select users
            (fun u => id_is uid u && is_none (u_deleted_at u)); one_or_none rows) (at_db b c d x)
    = (one_result (select (fun u => id_is uid u && is_none (u_deleted_at u)) (users d)),
       at_db b c d x)) as -> by run_scope.
  destruct (one_result _) as [[u|]|e] eqn:Eo;
    [|rewrite ?raise_run; by eexists..].
  unfold detail_for_user. rewrite bind_run, get_user_role_codes_at, ret_run.
  eexists. split; [done|]. eexists. eapply selected_user; [done|].
  unfold one_result in Eo. destruct (select _ _) as [|r [|]]; try done. injection Eo as ->. by constructor.
Qed.

Lemma hash_valid_password_at p b c d x :
  exists x', (hash_valid_password p (at_db b c d x)).2 = at_db b c d x'.
Proof.
  unfold hash_valid_password. destruct (validate_password_policy p) as [[|] m]; cbn [negb].
  - rewrite hash_password_at. eauto.
  - rewrite raise_run. eauto.
Qed.

(** Normalizing the changes touches no row. *)
Lemma normalize_changes_at ch b c d x :
  exists x', (normalize_changes ch (at_db b c d x)).2 = at_db b c d x'.
Proof.
  unfold normalize_changes. rewrite bind_run.
  assert (forall w1 : World L, w1 = at_db b c d x -> forall o,
    exists x', ((password_hash ← (if decide (("password" : string) ∈ ch_fields_set ch) then
      match ch_password ch with
      | None => raise (ValueError "password cannot be None when included in fields_set")
      | Some password => h ← hash_valid_password password; mret (Some h)
      end else mret None : M L (option string));
    mret (o, password_hash, UserChanges (option_map normalize_email (ch_email ch)) (ch_password ch)
      (ch_is_active ch) o (ch_fields_set ch)) : M L _) w1).2 = at_db b c d x') as Hpw.
  { intros w1 -> o. rewrite bind_run. destruct (decide _); [|rewrite !ret_run; eauto].
    destruct (ch_password ch) as [p|]; [|rewrite raise_run; eauto]. rewrite bind_run.
    destruct (hash_valid_password_at p b c d x) as [x' Hx].
    destruct (hash_valid_password p _) as [[h|err] w2]; simpl in Hx; subst; [rewrite !ret_run|]; eauto. }
  destruct (decide (("roles" : string) ∈ ch_fields_set ch)); [|rewrite ret_run; by apply Hpw].
  destruct (ch_roles ch) as [roles|]; [|rewrite raise_run; eauto].
  rewrite bind_run, lift_run. destruct (normalize_and_validate_roles roles) as [n|err]; [|eauto].
  rewrite ret_run. by apply Hpw.
Qed.

(** What is normalized keeps what decides whether sessions end. *)
Lemma normalize_changes_inv ch (w w' : World L) nr ph nc :
  normalize_changes ch w = (Ok (nr, ph, nc), w') -> revokes_sessions nc = revokes_sessions ch.
Proof.
  unfold normalize_changes. intros [(e & _ & ?)|(o & w1 & _ & H)]%bind_inv; [done|].
  apply bind_inv in H as [(e & _ & ?)|(p & w2 & _ & H)]; [done|].
  rewrite ret_run in H. by injection H as <- <- <- <-.
Qed.

(** Nobody is authenticated as a user whose sessions are all revoked. *)
Lemma revoked_not_authenticated auth_settings uid tok ip ua (w w' : World L) ctx :
  idle w -> db_ok (w_committed w) ->
  (forall k s, sessions (w_committed w) !! k = Some s -> s_user_id s = uid ->
     is_some (s_revoked_at s) = true) ->
  authenticate_session auth_settings (Some tok) ip ua w = (Ok (Some ctx), w') -> u_id (ctx_user ctx) <> uid.
Proof.
  intros Hidle Hd Hrev. rewrite (idle_at w Hidle). set (d := w_committed w) in *. clearbody d. intros H.
  pose proof H as (tok' & s & u & [= <-] & Ho)%authenticate_inv; [|done].
  rewrite (authenticate_opens _ _ _ _ _ _ _ _ _ Hd Ho) in H. injection H as <- <-. simpl.
  destruct Ho as (_ & Hs & Hu & _). destruct (active_session_of_Some _ _ _ _ Hd Hs) as (Hk & _ & Hn & _).
  rewrite (ok_users_keyed _ Hd _ _ Hu). intros Heq. specialize (Hrev _ _ Hk Heq). by rewrite Hn in Hrev.
Qed.

(** The sessions of one user revoked, and nothing else of any session. *)
Definition only_revokes (uid : Z) d d' : Prop := forall k,
  sessions d' !! k = sessions d !! k
  \/ exists s t, sessions d !! k = Some s /\ s_user_id s = uid /\ s_revoked_at s = None
       /\ sessions d' !! k = Some (set_revoked t s).

(** The sessions after [revoke_sessions_for_user]. *)
Lemma update_where_only_revokes uid t d d' :
  sessions d' = update_where (fun s => (s_user_id s =? uid) && is_none (s_revoked_at s)) (set_revoked t) (sessions d) ->
  only_revokes uid d d'
  /\ forall k s, sessions d' !! k = Some s -> s_user_id s = uid -> is_some (s_revoked_at s) = true.
Proof.
  intros Hs. split; [intros k|intros k s]; rewrite Hs, lookup_update_where;
    (destruct (sessions d !! k) as [s0|] eqn:Ek; [simpl|by (left || done)]);
    destruct ((s_user_id s0 =? uid) && is_none (s_revoked_at s0)) eqn:Eb.
  - right. apply andb_true_iff in Eb as [Hu%Z.eqb_eq Hn%is_none_true]. by eexists _, _.
  - by left.
  - by intros [= <-].
  - intros [= <-] Hu. rewrite Hu, Z.eqb_refl in Eb. simpl in Eb. unfold is_some. by rewrite Eb.
Qed.

(** What the transaction of an update leaves. *)
Lemma update_admin_transaction_inv ctx uid changes nr ph nc ip ua revoked_at d x detail w1 :
  db_ok d -> revokes_sessions nc = revokes_sessions changes ->
  (user ← AdminUserRepository.update_user uid nc ph;
   (match nr with
    | Some roles => replace_roles_with_audit ctx (u_id user) roles ip ua
    | None => mret tt
    end) ;;
   (if revokes_sessions changes
    then revoke_sessions_for_user (u_id user) revoked_at ;; mret tt else mret tt) ;;
   create_audit_log (actor_event ctx USER_UPDATED_BY_ADMIN ip ua
     [("target_user_id", JStr (uuid_str (u_id user)));
      ("changed_fields", JArr (map JStr (audit_fields (ch_fields_set changes))))]%string) ;;
   user ← current_user_object user;
   detail_for_user user : M L _) (at_db true d d x) = (Ok detail, w1) ->
  exists u u' d' x', w1 = at_db true d d' x'
    /\ users d !! uid = Some u /\ users d' !! uid = Some u'
    /\ only_revokes uid d d'
    /\ (revokes_sessions changes = true -> forall k s, sessions d' !! k = Some s -> s_user_id s = uid ->
          is_some (s_revoked_at s) = true)
    /\ keeps_credentials nc u u'.
Proof.
  intros Hd Hn H.
  apply bind_inv in H as [(e & _ & ?)|(u & w2 & Hu & H)]; [done|].
  apply update_user_inv in Hu as (u0 & d2 & x2 & -> & Hu0 & Hid & Hs & Hs2); [|done].
  apply bind_inv in H as [(e & _ & ?)|([] & w3 & Hr & H)]; [done|].
  apply (run_in_tx (same_account (sessions d) uid (keeps_credentials nc u0))) in Hr
    as (d3 & x3 & -> & Hs3 & u' & Hu' & Hk); [|destruct nr; [by apply pres_account_roles|apply preserves_ret]|done..].
  apply bind_inv in H as [(e & _ & ?)|([] & w4 & Hv & H)]; [done|].
  apply bind_inv in H as [(e & _ & ?)|([] & w5 & Ha & H)]; [done|].
  assert (exists d4, w4 = at_db true d d4 x3 /\ users d4 = users d3 /\ sessions d4 = if revokes_sessions changes
    then update_where (fun s => (s_user_id s =? uid) && is_none (s_revoked_at s))
           (set_revoked (stored revoked_at)) (sessions d) else sessions d) as (d4 & -> & Hu4 & Hs4).
  { destruct (revokes_sessions changes).
    - rewrite bind_run, revoke_sessions_for_user_at in Hv. cbv beta iota zeta in Hv.
      rewrite ret_run in Hv. injection Hv as <-. eexists. split_and!; [done..|]. simpl. by rewrite Hs3, Hid.
    - rewrite ret_run in Hv. injection Hv as <-. by exists d3. }
  apply create_audit_log_inv in Ha as (x5 & _ & _ & _ & [(_ & a & _ & _ & ->)|(e & ? & _)]); [|done].
  apply bind_inv in H as [(e & _ & ?)|(u2 & w6 & Ho & H)]; [done|].
  unfold current_user_object, get_row in Ho. injection Ho as <- <-.
  unfold detail_for_user in H. rewrite bind_run, get_user_role_codes_at, ret_run in H.
  injection H as <- <-. exists u0, u'. eexists _, _. split_and!; [reflexivity|done|simpl; by rewrite Hu4| | |done].
  all: destruct (revokes_sessions changes); try done.
  - apply (update_where_only_revokes uid (stored revoked_at) d (with_audit_logs <[a_id a:=a]> d4) Hs4).
  - intros k. left. simpl. by rewrite Hs4.
  - intros _. apply (update_where_only_revokes uid (stored revoked_at) d (with_audit_logs <[a_id a:=a]> d4) Hs4).
Qed.

(** C36. An administrator who changes a user's password or deactivates the user locks out
    whoever uses the account.  After an update that returns, if the stored password hash
    is another than before, or the account was active and is not any more, every session
    of the user is revoked, so that no session token is accepted for the user until
    somebody logs in again.  Whatever is updated, no session of another user changes,
    and of the user's sessions nothing but the revocation.  A failed update changes
    nothing. *)
Theorem update_admin_user_sessions ctx uid changes ip ua (w w' : World L) r :
  idle w -> db_ok (w_committed w) ->
  update_admin_user ctx uid changes ip ua w = (r, w') ->
  idle w' /\
  match r with
  | Ok _ =>
      exists u u', users (w_committed w) !! uid = Some u /\ users (w_committed w') !! uid = Some u'
        /\ only_revokes uid (w_committed w) (w_committed w')
        /\ (credentials_changed u u' ->
              (forall k s, sessions (w_committed w') !! k = Some s -> s_user_id s = uid ->
                 is_some (s_revoked_at s) = true)
              /\ forall auth_settings tok ip ua ctx' w'',
                   authenticate_session auth_settings (Some tok) ip ua w' = (Ok (Some ctx'), w'') ->
                   u_id (ctx_user ctx') <> uid)
  | Raise _ => w_committed w' = w_committed w
  end.
Proof.
  intros Hidle Hd Hrun.
  assert (db_ok (w_committed w')) as Hd'.
  { destruct Hidle as [Hl Ht]. destruct (pres_update_admin_user 0 db_ok ctx uid changes ip ua w) as [[Hc _ _ _] _];
      [split; [done|by rewrite Ht|by rewrite Hl|lia]|]. by rewrite Hrun in Hc. }
  revert Hrun. rewrite (idle_at w Hidle). set (d := w_committed w) in *. clearbody d.
  change (w_committed (at_db false d d w)) with d. unfold update_admin_user.
  destruct (bool_decide (ch_fields_set changes = ∅)) eqn:Ee.
  { destruct (get_admin_user_at uid false d d w Hd) as (res & Hres & Hu). rewrite Hres.
    intros [= <- <-]. split; [done|]. destruct res; [|done]. destruct Hu as [u Hu]. exists u, u.
    split_and!; [done..|by left|]. intros [?|[? ?]]; congruence. }
  rewrite bind_run. pose proof (normalize_changes_inv changes (at_db false d d w)) as Hn.
  destruct (normalize_changes_at changes false d d w) as [x1 Hx1].
  destruct (normalize_changes _ _) as [[[[nr ph] nc]|err] w1]; simpl in Hx1; subst w1.
  2: { by intros [= <- <-]. }
  specialize (Hn _ _ _ _ eq_refl). rewrite bind_run, utcnow_at. destruct r as [detail|err].
  2: { intros (x' & ->)%transaction_raise; [done|]. unfold replace_roles_with_audit, current_user_object. closed. }
  intros (w1 & H & Hw)%transaction_ok_inv.
  destruct (update_admin_transaction_inv ctx uid changes nr ph nc ip ua _ _ _ _ _ Hd Hn H)
    as (u & u' & d' & x' & -> & Hu & Hu' & Hs & Hall & Hk).
  pose proof (Hw _ _ eq_refl) as ->. change (db_ok d') in Hd'. split; [done|]. exists u, u'. split_and!; [done..|]. intros Hc.
  assert (forall k s, sessions d' !! k = Some s -> s_user_id s = uid -> is_some (s_revoked_at s) = true) as Hrev.
  { apply Hall. destruct (revokes_sessions changes) eqn:Er; [done|]. by destruct (Hk Hn). }
  split; [exact Hrev|]. intros auth_settings tok ip' ua' ctx' w'' Ha.
  eapply revoked_not_authenticated; [| | |exact Ha]; done.
Qed.
End Spec.

(** ** Instances *)

Lemma list_users_ok_witness : exists r,
  list_users (ListQuery (Some "ann@"%string) None None) 0 10 demo_world = (Ok r, demo_world)
  /\ page_total r = 1.
Proof.
  destruct (list_users_ok (ListQuery (Some "ann@"%string) None None) 0 10 demo_world (world_of_idle _))
    as (r & H1 & H2 & _). exists r. split; [exact H1|]. rewrite H2. vm_compute. reflexivity.
Defined.

Lemma replace_roles_ok_witness : exists r w',
  replace_roles ann_context 2 ["admin"%string] None None demo_world = (Ok r, w')
  /\ roles_of (w_committed w') 2 = {["admin"%string]}.
Proof.
  eexists _, _.
  assert ((replace_roles ann_context 2 ["admin"%string] None None demo_world).1 = Ok _) as H
    by (vm_compute; reflexivity).
  apply run_eq in H. split; [exact H|].
  destruct (replace_roles_ok _ _ _ _ _ _ _ _ (world_of_idle _) demo_db_ok H) as (_ & _ & _ & Hr).
  rewrite (rr_target _ _ _ _ _ Hr). vm_compute. reflexivity.
Defined.

Definition deactivate : AdminUserUpdateChanges :=
  UserChanges None None (Some false) None {["is_active"%string]}.

Lemma update_admin_user_sessions_witness : exists r w',
  update_admin_user ann_context 1 deactivate None None demo_world = (Ok r, w')
  /\ forall k s, sessions (w_committed w') !! k = Some s -> s_user_id s = 1 ->
       is_some (s_revoked_at s) = true.
Proof.
  eexists _, _.
  assert ((update_admin_user ann_context 1 deactivate None None demo_world).1 = Ok _) as H
    by (vm_compute; reflexivity).
  apply run_eq in H. split; [exact H|].
  destruct (update_admin_user_sessions _ _ _ _ _ _ _ _ (world_of_idle _) demo_db_ok H)
    as (_ & u & u' & Hu & Hu' & _ & Hc).
  refine (proj1 (Hc _)). right. vm_compute in Hu, Hu'. injection Hu as <-. injection Hu' as <-. split; reflexivity.
Defined.
