(* ===== verification/ManageSpec.v ===== *)
(** * What the maintenance commands do

    Pruning leaves assignments the check accepts, and granting changes the roles of one
    account. *)

From S2P Require Import Prelude PyStr Errors Time Authorization Tables Effects UnitOfWork Preserve.
From S2P Require Import AuthRepository AuthorizationRepository AdminUserRepository Runs Integrity Lookups.
From S2P Require Import AuthUsecase AuthorizationUsecase AdminUserUsecase Closure AdminUserSpec.
From S2P Require Import DatabaseConfig Manage RateLimiter Interfaces Demo.

Section Spec.
Context `{E : Env} {L : Type}.
Context (settings : cli_settings).
Context (make_url : string -> option URL) (set_drivername : string -> URL -> URL).
Implicit Types (x : World L) (b : bool) (c d : DB).

Notation unknown := (not_in catalog_role_codes).

Lemma catalog_not_empty : catalog_role_codes <> ∅.
Proof. intros H. apply (f_equal (fun s => bool_decide ("admin"%string ∈ s))) in H. vm_compute in H. discriminate. Qed.

Lemma list_unknown_at b c d x :
  list_unknown_role_assignments catalog_role_codes (at_db b c d x)
  = (Ok (merge_sort unknown_le (map (fun r => UnknownRole (r_user_id r) (r_role_code r))
           (select unknown (user_roles d)))), at_db b c d x).
Proof.
  unfold list_unknown_role_assignments.
  rewrite (bool_decide_eq_false_2 (catalog_role_codes = ∅)) by apply catalog_not_empty.
  rewrite session_scope_at. unfold at_db, in_scope. by destruct b.
Qed.

Lemma delete_unknown_at c d x :
  delete_unknown_role_assignments catalog_role_codes (at_db true c d x)
  = (Ok (row_count unknown (user_roles d)), at_db true c (with_user_roles (delete_where unknown) d) x).
Proof.
  unfold delete_unknown_role_assignments. rewrite bool_decide_eq_false_2 by apply catalog_not_empty.
  cbv zeta. by rewrite session_scope_tx.
Qed.

(** The commands that need a database name it explicitly. *)
Definition database_named : Prop :=
  explicit_database_settings settings make_url set_drivername = Ok (cli_database settings).

Lemma explicit_database_run (w : World L) :
  (database_named
   /\ get_explicit_database_settings settings make_url set_drivername w = (Ok (cli_database settings), w))
  \/ get_explicit_database_settings settings make_url set_drivername w = (Raise (TyperExit 2), w).
Proof.
  unfold get_explicit_database_settings, database_named, explicit_database_settings, lift. cbv zeta.
  destruct (negb _); [by right|]. destruct (get_alembic_database_url _ _ _); [by left|by right].
Qed.

(** Pruning repairs what the check complains about.  When the command returns, the
    assignments of unknown roles, and only those, are gone, as many as it reports, and
    nothing but the audit log has changed besides; the check of the assignments then
    passes.  When it fails, or is not confirmed, the database is unchanged. *)
Theorem prune_then_check yes (w w' : World L) r :
  idle w -> 
  authz_prune_unknown_role_assignments settings make_url set_drivername yes w = (r, w') ->
  idle w' /\
  match r with
  | Ok lines =>
      yes = true
      /\ lines = [("Deleted " ++ pretty (row_count unknown (user_roles (w_committed w)))
                   ++ " unknown role assignment(s).")%string]
      /\ (exists logs, w_committed w' = with_audit_logs (fun _ => logs)
            (with_user_roles (delete_where unknown) (w_committed w)))
      /\ (forall k row, user_roles (w_committed w') !! k = Some row
            <-> user_roles (w_committed w) !! k = Some row /\ is_Some (default_role_catalog !! r_role_code row))
      /\ (authz_check_assignments settings make_url set_drivername w').1
         = Ok ["Authorization assignments are valid."%string]
  | Raise _ => w_committed w' = w_committed w
  end.
Proof.
  intros Hidle. rewrite (idle_at w Hidle). set (d := w_committed w) in *. clearbody d.
  change (w_committed (at_db false d d w)) with d. unfold authz_prune_unknown_role_assignments.
  destruct yes; cbn [negb]; [|by intros [= <- <-]].
  change (valid_config_or_exit (at_db false d d w)) with (Ok tt, at_db false d d w).
  rewrite bind_run. change (valid_config_or_exit (at_db false d d w)) with (@Ok unit tt, at_db false d d w).
  cbv beta iota. rewrite bind_run.
  destruct (explicit_database_run (at_db false d d w)) as [[Hdb ->]| ->]; [|by intros [= <- <-]].
  cbv beta iota. intros [(e & H & ->)|(n & w1 & H & Hr)]%bind_inv.
  { unfold prune_transaction in H. apply transaction_raise in H as (x' & ->); [done|].
    unfold list_unknown_role_assignments, delete_unknown_role_assignments. closed. }
  rewrite ret_run in Hr. injection Hr as <- <-.
  apply transaction_ok_inv in H as (w2 & H & Hw).
  rewrite bind_run, list_unknown_at, bind_run, delete_unknown_at in H.
  apply bind_inv in H as [(e & _ & ?)|([] & w3 & Ha & H)]; [done|].
  apply audits_inv in Ha as (logs & x2 & -> & _). rewrite ret_run in H. injection H as <- <-.
  rewrite (Hw _ _ eq_refl). split; [done|]. rewrite committed_at_db.
  assert (forall k row, delete_where unknown (user_roles d) !! k = Some row
    <-> user_roles d !! k = Some row /\ is_Some (default_role_catalog !! r_role_code row)) as Hrows.
  { intros k row. rewrite lookup_delete_where. unfold not_in. rewrite bool_decide_eq_false.
    unfold catalog_role_codes. rewrite elem_of_dom. split; intros [? Hs]; (split; [done|]).
    - by apply dec_stable.
    - by intros Hn. }
  split_and!; [done|done|by exists logs|exact Hrows|].
  unfold authz_check_assignments. rewrite bind_run.
  match goal with |- context [valid_config_or_exit ?w0] =>
    change (valid_config_or_exit w0) with (@Ok unit tt, w0) end.
  cbv beta iota. rewrite bind_run.
  match goal with |- context [get_explicit_database_settings _ _ _ ?w0] =>
    destruct (explicit_database_run w0) as [[_ ->]|Hno] end.
  2: { unfold database_named in Hdb. unfold get_explicit_database_settings, lift in Hno.
       rewrite Hdb in Hno. done. }
  cbv beta iota. rewrite bind_run, list_unknown_at.
  assert (select unknown (user_roles (with_audit_logs (fun _ => logs)
    (with_user_roles (delete_where unknown) d))) = []) as ->; [|done].
  apply select_nil. intros k row Hk. apply Hrows in Hk as [_ Hs]. unfold not_in.
  apply bool_decide_eq_false. unfold catalog_role_codes. rewrite elem_of_dom. by intros Hn.
Qed.

Lemma roles_replaced_audit uid target d d' r logs :
  roles_replaced uid target d d' r -> roles_replaced uid target d (with_audit_logs (fun _ => logs) d') r.
Proof. intros []. by split. Qed.

(** A role is added to those a user has. *)
Lemma add_role_inv source u role c d x w' :
  add_role source u role (at_db true c d x) = (Ok tt, w') ->
  exists d' x', w' = at_db true c d' x' /\
    exists r, roles_replaced (u_id u) (roles_of d (u_id u) ∪ {[role]}) d d' r.
Proof.
  unfold add_role. rewrite bind_run, get_user_role_codes_at. cbv beta iota zeta.
  intros [(e & _ & ?)|(r & w1 & Hr & H)]%bind_inv; [done|].
  apply replace_user_roles_inv in Hr as (d1 & x1 & -> & Hrr).
  apply (audits_inv _ (fun _ => _)) in H as (logs & x2 & -> & _).
  eexists _, x2. split; [done|]. exists r. apply roles_replaced_audit.
  replace (roles_of d (u_id u) ∪ {[role]}) with
    (list_to_set (sorted (elements (list_to_set (sorted (map r_role_code (select (role_of (u_id u))
       (user_roles d)))) ∪ {[role]} : gset string))) : gset string); [done|].
  apply set_eq. intros code. unfold roles_of.
  by rewrite elem_of_list_to_set, elem_of_sorted_elements, !elem_of_union, !elem_of_list_to_set, elem_of_sorted.
Qed.

Lemma pres_add_role source u role : preserves 0 (fun _ => True) (add_role source u role : M L unit).
Proof.
  unfold add_role, get_user_role_codes, replace_user_roles, role_codes_for_user. closed.
Qed.

(** Granting adds one role the catalog knows to the roles of the account of the
    address, and nothing else: the account keeps the roles it had, on the rows they
    were on, and the rows of every other user are untouched.  When the command fails,
    nothing is changed. *)
Theorem grant_role_adds email role (w w' : World L) r :
  idle w -> db_ok (w_committed w) ->
  authz_grant_role settings make_url set_drivername email role w = (r, w') ->
  idle w' /\
  match r with
  | Ok _ =>
      is_Some (default_role_catalog !! role)
      /\ exists u result, user_by_email (w_committed w) (normalize_email email) = Some u
         /\ roles_replaced (u_id u) (roles_of (w_committed w) (u_id u) ∪ {[role]})
              (w_committed w) (w_committed w') result
         /\ revoked_role_codes result = []
  | Raise _ => w_committed w' = w_committed w
  end.
Proof.
  intros Hidle Hd. rewrite (idle_at w Hidle). set (d := w_committed w) in *. clearbody d.
  change (w_committed (at_db false d d w)) with d. unfold authz_grant_role.
  destruct (default_role_catalog !! role) as [ps|]; cbn [is_none]; [|by intros [= <- <-]].
  rewrite bind_run.
  destruct (explicit_database_run (at_db false d d w)) as [[_ ->]| ->]; [|by intros [= <- <-]].
  cbv beta iota zeta. intros [(e & H & ->)|([] & w1 & H & Hr)]%bind_inv.
  { apply transaction_raise in H as (x' & ->); [done|]. pose proof pres_add_role. closed. }
  rewrite ret_run in Hr. injection Hr as <- <-.
  apply transaction_ok_inv in H as (w2 & H & Hw).
  rewrite bind_run, find_user_by_email_ok in H by done.
  destruct (user_by_email d (normalize_email email)) as [u|] eqn:Eu; [|done].
  apply add_role_inv in H as (d' & x' & -> & result & Hrr). rewrite (Hw _ _ eq_refl).
  split; [done|]. rewrite committed_at_db. split; [by eexists|]. exists u, result.
  split_and!; [done|done|]. destruct (revoked_role_codes result) as [|code l] eqn:El; [done|]. exfalso.
  assert (code ∈ revoked_role_codes result) as [Hin Hout]%(rr_revoked _ _ _ _ _ Hrr) by (rewrite El; left).
  apply Hout. by apply elem_of_union_l.
Qed.
End Spec.

(** ** Concrete instances *)

Definition demo_cli : cli_settings := CliSettings (mkConfig "local" "INFO")
  (mkDatabaseSettings "postgresql+asyncpg://db/app" 10 20 1800 false ["DATABASE_URL"%string]).
Definition demo_make_url (url : string) : option URL :=
  Some (mkURL "postgresql+asyncpg" (Some "db"%string) None (Some "app"%string) url).
Definition demo_set_drivername (driver : string) (url : URL) : URL := url.

(** ann is an administrator, and still has a role that was dropped from the catalog. *)
Definition demo_roles_db : DB :=
  with_user_roles <[41 := mkUserRole 41 1 "retired" 1785000000000000 None]>
    (with_user_roles <[40 := mkUserRole 40 1 "admin" 1785000000000000 None]> demo_db).

Lemma prune_then_check_witness :
  exists lines w', idle (world_of demo_roles_db)
  /\ authz_prune_unknown_role_assignments demo_cli demo_make_url demo_set_drivername true (world_of demo_roles_db)
     = (Ok lines, w')
  /\ lines = ["Deleted 1 unknown role assignment(s)."%string]
  /\ (authz_check_assignments demo_cli demo_make_url demo_set_drivername (world_of demo_roles_db)).1
     = Raise (TyperExit 1)
  /\ (authz_check_assignments demo_cli demo_make_url demo_set_drivername w').1
     = Ok ["Authorization assignments are valid."%string].
Proof.
  assert (exists lines, (authz_prune_unknown_role_assignments demo_cli demo_make_url demo_set_drivername true
    (world_of demo_roles_db)).1 = Ok lines) as [lines Hl] by (eexists; vm_compute; reflexivity).
  apply run_eq in Hl.
  pose proof (prune_then_check demo_cli demo_make_url demo_set_drivername true _ _ _
    (world_of_idle demo_roles_db) Hl) as (_ & _ & Hlines & _ & _ & Hcheck).
  eexists _, _. split; [exact (world_of_idle _)|]. split; [exact Hl|]. split.
  - rewrite Hlines. vm_compute. reflexivity.
  - split; [vm_compute; reflexivity|exact Hcheck].
Defined.

Lemma grant_role_adds_witness :
  exists lines w' result, idle demo_world /\ db_ok demo_db
  /\ authz_grant_role demo_cli demo_make_url demo_set_drivername " Ann@Example.com" "admin" demo_world = (Ok lines, w')
  /\ roles_replaced 1 {["admin"%string]} demo_db (w_committed w') result.
Proof.
  assert (exists lines, (authz_grant_role demo_cli demo_make_url demo_set_drivername " Ann@Example.com" "admin"
    demo_world).1 = Ok lines) as [lines Hl] by (eexists; vm_compute; reflexivity).
  apply run_eq in Hl.
  pose proof (grant_role_adds demo_cli demo_make_url demo_set_drivername _ _ _ _ _
    (world_of_idle demo_db) demo_db_ok Hl) as (_ & _ & u & result & Hu & Hr & _).
  vm_compute in Hu. injection Hu as <-.
  eexists _, _, result. split; [exact (world_of_idle _)|]. split; [exact demo_db_ok|].
  split; [exact Hl|].
  replace ({["admin"%string]} : gset string) with (roles_of demo_db 1 ∪ {["admin"%string]})
    by (vm_compute; reflexivity). exact Hr.
Defined.
