(* ===== verification/Schema.v ===== *)
(** * Schemas and the statements that change them

    A database schema as the relations PostgreSQL keeps in one namespace: tables,
    the indexes behind primary keys, and the other indexes; and the data-definition
    statements Alembic's operations stand for, as a partial function on schemas.  A
    statement is refused where PostgreSQL refuses it: a name that is taken, a column
    that is not there, a reference to columns that are no key, a table others refer
    to.  Types are not compared across references, and the texts of expressions,
    predicates and checks are not interpreted.

    The frame lemmas say that a script leaves alone what it does not name. *)

From S2P Require Import Prelude PyStr.

(** ** Schemas *)

Inductive sql_type := UUID | TEXT | BOOLEAN | BIGINT | TIMESTAMPTZ | INET | JSONB.

Record column := mkColumn {
  c_name : string;
  c_type : sql_type;
  c_nullable : bool;
  c_server_default : option string;
  c_comment : option string;
}.

Inductive ondelete := CASCADE | SET_NULL.

Record foreign_key := mkForeignKey {
  fk_columns : list string;
  fk_table : string;
  fk_referred : list string;
  fk_ondelete : ondelete;
}.

(** Columns, foreign keys and checks by their names. *)
Record table := mkTable {
  t_columns : gmap string column;
  t_foreign_keys : gmap string foreign_key;
  t_checks : gmap string string;
}.

Inductive index_element := ByColumn (name : string) | ByExpression (sql : string).

Record index := mkIndex {
  ix_table : string;
  ix_elements : list index_element;
  ix_unique : bool;
  ix_where : option string;
}.

Inductive relation :=
| Table (t : table)
| PrimaryKey (table : string) (columns : list string)
| Index (i : index).

#[export] Instance sql_type_eq_dec : EqDecision sql_type.
Proof. solve_decision. Defined.
#[export] Instance column_eq_dec : EqDecision column.
Proof. solve_decision. Defined.
#[export] Instance ondelete_eq_dec : EqDecision ondelete.
Proof. solve_decision. Defined.
#[export] Instance foreign_key_eq_dec : EqDecision foreign_key.
Proof. solve_decision. Defined.
#[export] Instance table_eq_dec : EqDecision table.
Proof. solve_decision. Defined.
#[export] Instance index_element_eq_dec : EqDecision index_element.
Proof. solve_decision. Defined.
#[export] Instance index_eq_dec : EqDecision index.
Proof. solve_decision. Defined.
#[export] Instance relation_eq_dec : EqDecision relation.
Proof. solve_decision. Defined.

Notation schema := (gmap string relation).

(** ** Statements *)

Inductive ddl :=
| CreateTable (name : string) (columns : list column) (foreign_keys : list (string * foreign_key))
    (checks : list (string * string)) (pk_name : string) (pk_columns : list string)
| CreateIndex (name table : string) (elements : list index_element) (unique : bool)
    (where_ : option string)
| DropIndex (name table : string)
| DropTable (name : string).

Definition fresh (s : schema) (name : string) : bool := is_none (s !! name).
Definition no_duplicates (l : list string) : bool := bool_decide (NoDup l).

Definition has_column (t : table) (name : string) : bool := is_some (t_columns t !! name).
Definition element_ok (t : table) (e : index_element) : bool :=
  match e with ByColumn c => has_column t c | ByExpression _ => true end.

(** What a foreign key may refer to: the columns of a primary key or of a unique index
    without predicate. *)
Definition key_of (tbl : string) (columns : list string) (r : relation) : bool :=
  match r with
  | Table _ => false
  | PrimaryKey t cs => bool_decide (t = tbl) && bool_decide (cs = columns)
  | Index i => bool_decide (ix_table i = tbl) && ix_unique i && is_none (ix_where i)
               && bool_decide (ix_elements i = map ByColumn columns)
  end.
Definition some_relation (p : relation -> bool) (s : schema) : bool :=
  existsb (fun kr => p kr.2) (map_to_list s).
Definition foreign_key_ok (t : table) (s : schema) (fk : foreign_key) : bool :=
  forallb (has_column t) (fk_columns fk) && some_relation (key_of (fk_table fk) (fk_referred fk)) s.

Definition table_of (columns : list column) (foreign_keys : list (string * foreign_key))
    (checks : list (string * string)) : table :=
  mkTable (list_to_map (map (fun c => (c_name c, c)) columns)) (list_to_map foreign_keys)
    (list_to_map checks).

Definition create_table (name : string) (columns : list column)
    (foreign_keys : list (string * foreign_key)) (checks : list (string * string))
    (pk_name : string) (pk_columns : list string) (s : schema) : option schema :=
  let t := table_of columns foreign_keys checks in
  let s' := <[name := Table t]> (<[pk_name := PrimaryKey name pk_columns]> s) in
  if fresh s name && fresh s pk_name && no_duplicates [name; pk_name]
     && no_duplicates (map c_name columns)
     && no_duplicates (pk_name :: map fst foreign_keys ++ map fst checks)
     && forallb (has_column t) pk_columns
     && forallb (fun fk => foreign_key_ok t s' fk.2) foreign_keys
  then Some s' else None.

Definition create_index (name : string) (i : index) (s : schema) : option schema :=
  match s !! ix_table i with
  | Some (Table t) =>
      if fresh s name && forallb (element_ok t) (ix_elements i) then Some (<[name := Index i]> s) else None
  | _ => None
  end.

(** [DROP INDEX] does not name the table. *)
Definition drop_index (name : string) (s : schema) : option schema :=
  match s !! name with Some (Index _) => Some (delete name s) | _ => None end.

Definition refers_to (name : string) (r : relation) : bool :=
  match r with
  | Table t => existsb (fun kf => bool_decide (fk_table kf.2 = name)) (map_to_list (t_foreign_keys t))
  | _ => false
  end.
(** The indexes of a table go with it. *)
Definition owner (r : relation) : option string :=
  match r with Table _ => None | PrimaryKey t _ => Some t | Index i => Some (ix_table i) end.
Definition part_of (name : string) (kr : string * relation) : Prop :=
  kr.1 = name \/ owner kr.2 = Some name.
#[export] Instance part_of_dec name kr : Decision (part_of name kr).
Proof. unfold part_of. apply _. Defined.

Definition drop_table (name : string) (s : schema) : option schema :=
  match s !! name with
  | Some (Table _) =>
      if some_relation (refers_to name) (delete name s) then None
      else Some (filter (fun kr => ~ part_of name kr) s)
  | _ => None
  end.

Definition step (statement : ddl) (s : schema) : option schema :=
  match statement with
  | CreateTable name columns foreign_keys checks pk_name pk_columns =>
      create_table name columns foreign_keys checks pk_name pk_columns s
  | CreateIndex name tbl elements unique where_ => create_index name (mkIndex tbl elements unique where_) s
  | DropIndex name _ => drop_index name s
  | DropTable name => drop_table name s
  end.

Fixpoint run (script : list ddl) (s : schema) : option schema :=
  match script with
  | [] => Some s
  | statement :: script' => s' ← step statement s; run script' s'
  end.

(** ** Frames *)

(** The names a statement makes. *)
Definition created (statement : ddl) : list string :=
  match statement with
  | CreateTable name _ _ _ pk_name _ => [name; pk_name]
  | CreateIndex name _ _ _ _ => [name]
  | _ => []
  end.
Definition creates (statement : ddl) : bool :=
  match statement with CreateTable _ _ _ _ _ _ | CreateIndex _ _ _ _ _ => true | _ => false end.

(** Nothing in the schema refers to something outside. *)
Definition closed_schema (s : schema) : Prop :=
  forall k r, s !! k = Some r -> forall name, refers_to name r = true \/ owner r = Some name -> is_Some (s !! name).

Section Frames.
Implicit Types (s frame : schema).

Lemma some_relation_true p s :
  some_relation p s = true <-> exists k r, s !! k = Some r /\ p r = true.
Proof.
  unfold some_relation. rewrite existsb_exists. split.
  - intros ([k r] & Hin%list_elem_of_In%elem_of_map_to_list & Hp). eauto.
  - intros (k & r & Hk & Hp). exists (k, r). split; [|done].
    by apply list_elem_of_In, elem_of_map_to_list.
Qed.

Lemma some_relation_mono p s s' : s ⊆ s' -> some_relation p s = true -> some_relation p s' = true.
Proof.
  intros Hs (k & r & Hk & Hp)%some_relation_true. apply some_relation_true. exists k, r.
  split; [by eapply lookup_weaken|done].
Qed.

Lemma create_table_inv name cols fks cks pk pks s s' :
  create_table name cols fks cks pk pks s = Some s' ->
  s !! name = None /\ s !! pk = None
  /\ s' = <[name := Table (table_of cols fks cks)]> (<[pk := PrimaryKey name pks]> s).
Proof.
  unfold create_table, fresh. destruct (_ && _) eqn:Hc; [|done]. intros [= <-].
  rewrite !andb_true_iff in Hc. destruct Hc as ((((((Hn & Hp) & _) & _) & _) & _) & _).
  apply is_none_true in Hn, Hp. done.
Qed.

Lemma create_index_inv name i s s' :
  create_index name i s = Some s' -> s !! name = None /\ s' = <[name := Index i]> s.
Proof.
  unfold create_index, fresh. destruct (s !! ix_table i) as [[t| |]|]; try done.
  destruct (is_none _) eqn:Hn; [|done]. destruct (forallb _ _); [|done]. intros [= <-].
  split; [by apply is_none_true|done].
Qed.

(** A statement that makes something refuses names that are taken, and removes nothing. *)
Lemma creates_fresh statement s s' :
  creates statement = true -> step statement s = Some s' ->
  Forall (fun n => s !! n = None) (created statement) /\ s ⊆ s'.
Proof.
  destruct statement; try done; intros _; simpl.
  - intros (Hn & Hp & ->)%create_table_inv. split; [by repeat constructor|].
    apply map_subseteq_spec. intros k r Hk.
    rewrite !lookup_insert_ne; [done|intros ->; congruence..].
  - intros (Hn & ->)%create_index_inv. split; [by repeat constructor|].
    by apply insert_subseteq.
Qed.

Lemma run_fresh script s s' :
  Forall (fun st => creates st = true) script -> run script s = Some s' ->
  Forall (fun n => s !! n = None) (flat_map created script) /\ s ⊆ s'.
Proof.
  intros Hc. revert s. induction Hc as [|st script Hst _ IH]; intros s; simpl; [by intros [= ->]|].
  destruct (step st s) as [s1|] eqn:E1; [|done]. simpl. intros Hr.
  destruct (creates_fresh _ _ _ Hst E1) as [H1 Hs1]. destruct (IH _ Hr) as [H2 Hs2].
  split; [|by etrans]. apply Forall_app. split; [done|].
  eapply Forall_impl; [exact H2|]. intros n Hn. exact (lookup_weaken_None _ _ _ Hn Hs1).
Qed.

Lemma create_table_frame name cols fks cks pk pks s s' frame :
  s ##ₘ frame -> frame !! name = None -> frame !! pk = None ->
  create_table name cols fks cks pk pks s = Some s' ->
  s' ##ₘ frame /\ create_table name cols fks cks pk pks (s ∪ frame) = Some (s' ∪ frame).
Proof.
  intros Hd Hname Hpk Hc. destruct (create_table_inv _ _ _ _ _ _ _ _ Hc) as (Hn & Hp & ->).
  set (t := table_of cols fks cks) in *.
  set (s' := <[name := Table t]> (<[pk := PrimaryKey name pks]> s)) in *.
  assert (s' ##ₘ frame) as Hd' by (apply map_disjoint_insert_l_2; [done|];
    by apply map_disjoint_insert_l_2).
  split; [done|].
  assert (<[name := Table t]> (<[pk := PrimaryKey name pks]> (s ∪ frame)) = s' ∪ frame) as Es
    by (unfold s'; by rewrite !insert_union_l).
  unfold create_table in *. fold t in Hc |- *. fold s' in Hc. rewrite Es.
  destruct (_ && _) eqn:Hg in Hc; [|done]. clear Hc. rewrite !andb_true_iff in Hg.
  destruct Hg as ((((((_ & _) & ->) & ->) & ->) & ->) & Hf).
  assert (forallb (fun fk => foreign_key_ok t (s' ∪ frame) fk.2) fks = true) as ->.
  { rewrite forallb_forall in Hf |- *. intros fk Hin. specialize (Hf _ Hin). unfold foreign_key_ok in *.
    apply andb_true_iff in Hf as [-> Hf]. eapply some_relation_mono; [|exact Hf].
    apply map_union_subseteq_l. }
  unfold fresh.
  assert (forall n, s !! n = None -> frame !! n = None -> (s ∪ frame) !! n = None) as Hu
    by (intros n H1 H2; by apply lookup_union_None).
  by rewrite !Hu.
Qed.

Lemma create_index_frame name i s s' frame :
  s ##ₘ frame -> frame !! name = None -> create_index name i s = Some s' ->
  s' ##ₘ frame /\ create_index name i (s ∪ frame) = Some (s' ∪ frame).
Proof.
  intros Hd Hname Hc. destruct (create_index_inv _ _ _ _ Hc) as (Hn & ->).
  split; [by apply map_disjoint_insert_l_2|]. unfold create_index in *.
  destruct (s !! ix_table i) as [r|] eqn:Er; [|done].
  rewrite (lookup_union_Some_l _ _ _ _ Er). destruct r as [t| |]; try done.
  unfold fresh. rewrite (proj2 (lookup_union_None _ _ _)) by done. cbn [is_none andb].
  unfold fresh in Hc. rewrite Hn in Hc. cbn [is_none andb] in Hc.
  destruct (forallb _ _); [|done]. by rewrite insert_union_l.
Qed.

Lemma drop_index_frame name s s' frame :
  s ##ₘ frame -> drop_index name s = Some s' ->
  s' ##ₘ frame /\ drop_index name (s ∪ frame) = Some (s' ∪ frame).
Proof.
  intros Hd. unfold drop_index. destruct (s !! name) as [r|] eqn:Er; [|done].
  rewrite (lookup_union_Some_l _ _ _ _ Er). destruct r as [| |i]; try done. intros [= <-].
  split; [by apply map_disjoint_delete_l|]. rewrite delete_union, (delete_id frame); [done|].
  by eapply map_disjoint_Some_l.
Qed.

Lemma drop_table_frame name s s' frame :
  s ##ₘ frame -> closed_schema frame -> drop_table name s = Some s' ->
  s' ##ₘ frame /\ drop_table name (s ∪ frame) = Some (s' ∪ frame).
Proof.
  intros Hd Hcl. unfold drop_table. destruct (s !! name) as [r|] eqn:Er; [|done].
  rewrite (lookup_union_Some_l _ _ _ _ Er). destruct r as [t| |]; try done.
  destruct (some_relation _ _) eqn:Hs; [done|]. intros [= <-].
  assert (frame !! name = None) as Hf by (by eapply map_disjoint_Some_l).
  split; [by apply (map_disjoint_weaken_l _ _ _ Hd), map_filter_subseteq|].
  destruct (some_relation (refers_to name) (delete name (s ∪ frame))) eqn:Hu.
  - exfalso. apply some_relation_true in Hu as (k & r & Hk & Hr).
    apply lookup_delete_Some in Hk as [Hne Hk]. apply lookup_union_Some in Hk as [Hk|Hk]; [| |done].
    + rewrite <- not_true_iff_false in Hs. apply Hs, some_relation_true. exists k, r.
      split; [by apply lookup_delete_Some|done].
    + destruct (Hcl _ _ Hk name) as [x Hx]; [by left|congruence].
  - f_equal. rewrite map_filter_union by done. f_equal. apply map_filter_id.
    intros k r Hk [Hn|Ho]; simpl in *; [congruence|].
    destruct (Hcl _ _ Hk name) as [x Hx]; [by right|congruence].
Qed.

Lemma step_frame statement s s' frame :
  s ##ₘ frame -> closed_schema frame -> Forall (fun n => frame !! n = None) (created statement) ->
  step statement s = Some s' ->
  s' ##ₘ frame /\ step statement (s ∪ frame) = Some (s' ∪ frame).
Proof.
  intros Hd Hcl Hf. destruct statement; simpl in *; rewrite ?Forall_cons in Hf.
  - apply create_table_frame; tauto.
  - apply create_index_frame; tauto.
  - by apply drop_index_frame.
  - by apply drop_table_frame.
Qed.

(** A script works next to a schema whose names it does not use, and leaves it alone. *)
Lemma run_frame script s s' frame :
  s ##ₘ frame -> closed_schema frame ->
  Forall (fun n => frame !! n = None) (flat_map created script) ->
  run script s = Some s' ->
  s' ##ₘ frame /\ run script (s ∪ frame) = Some (s' ∪ frame).
Proof.
  intros Hd Hcl. revert s Hd. induction script as [|st script IH]; intros s Hd; simpl.
  - by intros _ [= <-].
  - intros [H1 H2]%Forall_app. destruct (step st s) as [s1|] eqn:E1; [|done]. simpl. intros Hr.
    destruct (step_frame _ _ _ _ Hd Hcl H1 E1) as [Hd1 ->]. simpl. by apply IH.
Qed.
End Frames.
