(* ===== verification/Migration.v ===== *)
(** * The initial migration and the declared tables

    The script of src/backend/alembic/versions/20260810_0001_initial_schema.py as
    data-definition statements, and the tables of src/backend/app/models as they are
    declared: the fields with their column types, the checks and the indexes of
    [__table_args__], and the schema SQLAlchemy derives from them with the naming
    convention of src/backend/app/models/metadata.py.  A column without a type takes
    that of the column it refers to; a primary key of type [UUID] is a column of its
    own that is never null.  The order of the columns, which depends on when Python
    makes the column objects, is not modelled.  At the
    end, the theorem that the script makes the declared schema. *)

From S2P Require Import Prelude PyStr Schema.

(** ** The script *)

(* src: backend/alembic/versions/20260810_0001_initial_schema.py:24-85 upgrade *)
Definition upgrade_users : list ddl :=
  [CreateTable "users"
     [mkColumn "id" UUID false None None;
      mkColumn "email" TEXT false None None;
      mkColumn "password_hash" TEXT true None
        (Some "NULL means the user can authenticate only through external identity providers.");
      mkColumn "is_active" BOOLEAN false (Some "true") None;
      mkColumn "language_code" TEXT false (Some "'ja'") (Some "User interface language code.");
      mkColumn "registered_at" BIGINT false None
        (Some "Unix timestamp in milliseconds. Business registration time.");
      mkColumn "modified_at" BIGINT false None
        (Some "Unix timestamp in milliseconds. Business time when the user was last modified.");
      mkColumn "created_at" TIMESTAMPTZ false None None;
      mkColumn "updated_at" TIMESTAMPTZ false None None;
      mkColumn "last_logged_in_at" BIGINT true None
        (Some "Unix timestamp in milliseconds. NULL means the user has never completed a login.");
      mkColumn "deleted_at" BIGINT true None
        (Some "Unix timestamp in milliseconds. NULL means the user is not logically deleted.")]
     []
     [("ck_users_language_code_supported", "language_code in ('en', 'ja')")]
     "pk_users" ["id"];
   CreateIndex "uq_users_email_lower_active" "users" [ByExpression "lower(email)"] true
     (Some "deleted_at IS NULL");
   CreateIndex "ix_users_registered_at_id" "users" [ByColumn "registered_at"; ByColumn "id"] false None]%string.

(* src: backend/alembic/versions/20260810_0001_initial_schema.py:87-154 upgrade *)
Definition upgrade_auth_sessions : list ddl :=
  [CreateTable "auth_sessions"
     [mkColumn "id" UUID false None None;
      mkColumn "user_id" UUID false None None;
      mkColumn "session_token_hash" TEXT false None None;
      mkColumn "csrf_token_hash" TEXT false None None;
      mkColumn "created_at" TIMESTAMPTZ false None None;
      mkColumn "issued_at" BIGINT false None
        (Some "Unix timestamp in milliseconds. Business time when the session was issued.");
      mkColumn "updated_at" TIMESTAMPTZ false None None;
      mkColumn "last_seen_at" BIGINT false None
        (Some "Unix timestamp in milliseconds. Business time when the session was last seen.");
      mkColumn "expires_at" BIGINT false None
        (Some "Unix timestamp in milliseconds. Business time when the session expires.");
      mkColumn "revoked_at" BIGINT true None
        (Some "Unix timestamp in milliseconds. NULL means the session has not been revoked.");
      mkColumn "last_oidc_authenticated_at" BIGINT true None
        (Some "Unix timestamp in milliseconds. NULL means no fresh OIDC authentication has been recorded for this session.");
      mkColumn "ip_address" INET true None
        (Some "NULL means the client IP could not be determined or should not be stored. Stored as PostgreSQL INET by intentional schema-guideline deviation.");
      mkColumn "user_agent" TEXT true None (Some "NULL means the request did not include a user agent.")]
     [("fk_auth_sessions_user_id_users", mkForeignKey ["user_id"] "users" ["id"] CASCADE)]
     []
     "pk_auth_sessions" ["id"];
   CreateIndex "ix_auth_sessions_user_id" "auth_sessions" [ByColumn "user_id"] false None;
   CreateIndex "uq_auth_sessions_session_token_hash" "auth_sessions" [ByColumn "session_token_hash"] true None;
   CreateIndex "ix_auth_sessions_expires_at" "auth_sessions" [ByColumn "expires_at"] false None]%string.

(* src: backend/alembic/versions/20260810_0001_initial_schema.py:156-236 upgrade *)
Definition upgrade_auth_audit_logs : list ddl :=
  [CreateTable "auth_audit_logs"
     [mkColumn "id" UUID false None None;
      mkColumn "user_id" UUID true None
        (Some "NULL means the user row was deleted while the audit row is retained.");
      mkColumn "session_id" UUID true None
        (Some "NULL means the session row was deleted while the audit row is retained.");
      mkColumn "event_type" TEXT false None None;
      mkColumn "ip_address" INET true None
        (Some "NULL means the client IP could not be determined or should not be stored. Stored as PostgreSQL INET by intentional schema-guideline deviation.");
      mkColumn "user_agent" TEXT true None (Some "NULL means the request did not include a user agent.");
      mkColumn "detail_json" JSONB true None (Some "NULL means the event has no details.");
      mkColumn "occurred_at" BIGINT false None
        (Some "Unix timestamp in milliseconds. Business occurrence time of the audit event.");
      mkColumn "created_at" TIMESTAMPTZ false None None;
      mkColumn "updated_at" TIMESTAMPTZ false None None]
     [("fk_auth_audit_logs_session_id_auth_sessions", mkForeignKey ["session_id"] "auth_sessions" ["id"] SET_NULL);
      ("fk_auth_audit_logs_user_id_users", mkForeignKey ["user_id"] "users" ["id"] SET_NULL)]
     []
     "pk_auth_audit_logs" ["id"];
   CreateIndex "ix_auth_audit_logs_user_id" "auth_audit_logs" [ByColumn "user_id"] false None;
   CreateIndex "ix_auth_audit_logs_session_id" "auth_audit_logs" [ByColumn "session_id"] false None;
   CreateIndex "ix_auth_audit_logs_event_type" "auth_audit_logs" [ByColumn "event_type"] false None;
   CreateIndex "ix_auth_audit_logs_occurred_at" "auth_audit_logs" [ByColumn "occurred_at"] false None]%string.

(* src: backend/alembic/versions/20260810_0001_initial_schema.py:238-284 upgrade *)
Definition upgrade_sample_items : list ddl :=
  [CreateTable "sample_items"
     [mkColumn "id" UUID false None None;
      mkColumn "owner_user_id" UUID false None None;
      mkColumn "title" TEXT false None None;
      mkColumn "description" TEXT true None (Some "NULL means the item has no description.");
      mkColumn "is_completed" BOOLEAN false (Some "false") None;
      mkColumn "registered_at" BIGINT false None
        (Some "Unix timestamp in milliseconds. Business registration time used for cursor ordering.");
      mkColumn "modified_at" BIGINT false None
        (Some "Unix timestamp in milliseconds. Business time when the item was last modified.");
      mkColumn "created_at" TIMESTAMPTZ false None None;
      mkColumn "updated_at" TIMESTAMPTZ false None None]
     [("fk_sample_items_owner_user_id_users", mkForeignKey ["owner_user_id"] "users" ["id"] CASCADE)]
     []
     "pk_sample_items" ["id"];
   CreateIndex "ix_sample_items_owner_user_id" "sample_items" [ByColumn "owner_user_id"] false None;
   CreateIndex "ix_sample_items_owner_user_id_registered_at_id" "sample_items" [ByColumn "owner_user_id"; ByColumn "registered_at"; ByColumn "id"] false None]%string.

(* src: backend/alembic/versions/20260810_0001_initial_schema.py:286-340 upgrade *)
Definition upgrade_auth_identities : list ddl :=
  [CreateTable "auth_identities"
     [mkColumn "id" UUID false None None;
      mkColumn "user_id" UUID false None None;
      mkColumn "provider_id" TEXT false None None;
      mkColumn "provider_subject" TEXT false None None;
      mkColumn "email" TEXT true None
        (Some "NULL means the identity provider did not return an email address.");
      mkColumn "is_email_verified" BOOLEAN false (Some "false") None;
      mkColumn "claims_json" JSONB false None None;
      mkColumn "linked_at" BIGINT false None
        (Some "Unix timestamp in milliseconds. Business time when the provider identity was linked.");
      mkColumn "created_at" TIMESTAMPTZ false None None;
      mkColumn "updated_at" TIMESTAMPTZ false None None;
      mkColumn "last_logged_in_at" BIGINT true None
        (Some "Unix timestamp in milliseconds. NULL means the identity has never completed a login.")]
     [("fk_auth_identities_user_id_users", mkForeignKey ["user_id"] "users" ["id"] CASCADE)]
     []
     "pk_auth_identities" ["id"];
   CreateIndex "uq_auth_identities_provider_subject" "auth_identities" [ByColumn "provider_id"; ByColumn "provider_subject"] true None;
   CreateIndex "ix_auth_identities_user_id" "auth_identities" [ByColumn "user_id"] false None]%string.

(* src: backend/alembic/versions/20260810_0001_initial_schema.py:342-413 upgrade *)
Definition upgrade_auth_oidc_authorization_states : list ddl :=
  [CreateTable "auth_oidc_authorization_states"
     [mkColumn "id" UUID false None None;
      mkColumn "state_hash" TEXT false None None;
      mkColumn "browser_binding_hash" TEXT false None None;
      mkColumn "nonce_hash" TEXT false None None;
      mkColumn "pkce_verifier" TEXT false None None;
      mkColumn "provider_id" TEXT false None None;
      mkColumn "purpose" TEXT false None None;
      mkColumn "expected_user_id" UUID true None
        (Some "NULL means no authenticated user context was expected for this authorization state.");
      mkColumn "expected_session_id" UUID true None
        (Some "NULL means no authenticated session context was expected for this authorization state.");
      mkColumn "redirect_path" TEXT false None None;
      mkColumn "login_hint" TEXT true None
        (Some "NULL means no login hint was provided to the authorization request.");
      mkColumn "language_code" TEXT true None
        (Some "NULL means no public language preference was captured.");
      mkColumn "expires_at" BIGINT false None
        (Some "Unix timestamp in milliseconds. Business time when the state expires.");
      mkColumn "consumed_at" BIGINT true None
        (Some "Unix timestamp in milliseconds. NULL means the state has not been consumed.");
      mkColumn "created_at" TIMESTAMPTZ false None None;
      mkColumn "updated_at" TIMESTAMPTZ false None None]
     []
     [("ck_auth_oidc_authorization_states_language_code_supported", "language_code is null or language_code in ('en', 'ja')")]
     "pk_auth_oidc_authorization_states" ["id"];
   CreateIndex "uq_auth_oidc_states_state_hash" "auth_oidc_authorization_states" [ByColumn "state_hash"] true None;
   CreateIndex "ix_auth_oidc_states_expires_at" "auth_oidc_authorization_states" [ByColumn "expires_at"] false None;
   CreateIndex "ix_auth_oidc_states_consumed_at" "auth_oidc_authorization_states" [ByColumn "consumed_at"] false None]%string.

(* src: backend/alembic/versions/20260810_0001_initial_schema.py:415-460 upgrade *)
Definition upgrade_user_roles : list ddl :=
  [CreateTable "user_roles"
     [mkColumn "id" UUID false None None;
      mkColumn "user_id" UUID false None None;
      mkColumn "role_code" TEXT false None None;
      mkColumn "assigned_at" BIGINT false None
        (Some "Unix timestamp in milliseconds. Business time when the role was assigned.");
      mkColumn "assigned_by_user_id" UUID true None
        (Some "NULL means the role was assigned by a system process or bootstrap operation.");
      mkColumn "created_at" TIMESTAMPTZ false None None;
      mkColumn "updated_at" TIMESTAMPTZ false None None]
     [("fk_user_roles_assigned_by_user_id_users", mkForeignKey ["assigned_by_user_id"] "users" ["id"] SET_NULL);
      ("fk_user_roles_user_id_users", mkForeignKey ["user_id"] "users" ["id"] CASCADE)]
     []
     "pk_user_roles" ["id"];
   CreateIndex "uq_user_roles_user_id_role_code" "user_roles" [ByColumn "user_id"; ByColumn "role_code"] true None;
   CreateIndex "ix_user_roles_role_code" "user_roles" [ByColumn "role_code"] false None;
   CreateIndex "ix_user_roles_assigned_by_user_id" "user_roles" [ByColumn "assigned_by_user_id"] false None]%string.

(* src: backend/alembic/versions/20260810_0001_initial_schema.py:23-460 upgrade *)
Definition upgrade : list ddl :=
  upgrade_users ++ upgrade_auth_sessions ++ upgrade_auth_audit_logs ++ upgrade_sample_items ++ upgrade_auth_identities ++ upgrade_auth_oidc_authorization_states ++ upgrade_user_roles.

(* src: backend/alembic/versions/20260810_0001_initial_schema.py:463-495 downgrade *)
Definition downgrade : list ddl :=
  [DropIndex "ix_user_roles_assigned_by_user_id" "user_roles";
   DropIndex "ix_user_roles_role_code" "user_roles";
   DropIndex "uq_user_roles_user_id_role_code" "user_roles";
   DropTable "user_roles";
   DropIndex "ix_auth_oidc_states_consumed_at" "auth_oidc_authorization_states";
   DropIndex "ix_auth_oidc_states_expires_at" "auth_oidc_authorization_states";
   DropIndex "uq_auth_oidc_states_state_hash" "auth_oidc_authorization_states";
   DropTable "auth_oidc_authorization_states";
   DropIndex "ix_auth_identities_user_id" "auth_identities";
   DropIndex "uq_auth_identities_provider_subject" "auth_identities";
   DropTable "auth_identities";
   DropIndex "ix_sample_items_owner_user_id_registered_at_id" "sample_items";
   DropIndex "ix_sample_items_owner_user_id" "sample_items";
   DropTable "sample_items";
   DropIndex "ix_auth_audit_logs_occurred_at" "auth_audit_logs";
   DropIndex "ix_auth_audit_logs_event_type" "auth_audit_logs";
   DropIndex "ix_auth_audit_logs_session_id" "auth_audit_logs";
   DropIndex "ix_auth_audit_logs_user_id" "auth_audit_logs";
   DropTable "auth_audit_logs";
   DropIndex "ix_auth_sessions_expires_at" "auth_sessions";
   DropIndex "uq_auth_sessions_session_token_hash" "auth_sessions";
   DropIndex "ix_auth_sessions_user_id" "auth_sessions";
   DropTable "auth_sessions";
   DropIndex "ix_users_registered_at_id" "users";
   DropIndex "uq_users_email_lower_active" "users";
   DropTable "users"]%string.

(** ** The declarations *)

(* src: backend/app/libraries/sqlalchemy_types.py:12-13 InetString *)
Inductive field_type := Native (t : sql_type) | InetString | UnixTimestampMillis.

(** A foreign key names the table, the column and what happens on deletion. *)
Record field := mkField {
  f_name : string;
  f_type : option field_type;
  f_nullable : bool;
  f_server_default : option string;
  f_comment : option string;
  f_foreign_key : option (string * string * ondelete);
  f_index : bool;
}.

Record model := mkModel {
  m_tablename : string;
  m_fields : list field;
  m_checks : list (string * string);
  m_indexes : list (string * index);
}.

(** [Field(default_factory=uuid4, primary_key=True)] *)
Definition primary_key (name : string) : field :=
  mkField name (Some (Native UUID)) false None None None false.

(* src: backend/app/models/user.py:19-94 User *)
Definition user_model : model := mkModel "users"
  [primary_key "id";
   mkField "email" (Some (Native TEXT)) false None None None false;
   mkField "password_hash" (Some (Native TEXT)) true None
     (Some "NULL means the user can authenticate only through external identity providers.") None false;
   mkField "is_active" (Some (Native BOOLEAN)) false (Some "true") None None false;
   mkField "language_code" (Some (Native TEXT)) false
     (Some "'ja'") (Some "User interface language code.") None false;
   mkField "registered_at" (Some UnixTimestampMillis) false None
     (Some "Unix timestamp in milliseconds. Business registration time.") None false;
   mkField "modified_at" (Some UnixTimestampMillis) false None
     (Some "Unix timestamp in milliseconds. Business time when the user was last modified.") None false;
   mkField "created_at" (Some (Native TIMESTAMPTZ)) false None None None false;
   mkField "updated_at" (Some (Native TIMESTAMPTZ)) false None None None false;
   mkField "last_logged_in_at" (Some UnixTimestampMillis) true None
     (Some "Unix timestamp in milliseconds. NULL means the user has never completed a login.") None false;
   mkField "deleted_at" (Some UnixTimestampMillis) true None
     (Some "Unix timestamp in milliseconds. NULL means the user is not logically deleted.") None false]%string
  [("language_code_supported", "language_code in ('en', 'ja')")]%string
  [("uq_users_email_lower_active", mkIndex "users" [ByExpression "lower(email)"] true
     (Some "deleted_at IS NULL"));
   ("ix_users_registered_at_id", mkIndex "users" [ByColumn "registered_at"; ByColumn "id"] false
     None)]%string.

(* src: backend/app/models/auth_session.py:11-88 AuthSession *)
Definition auth_session_model : model := mkModel "auth_sessions"
  [primary_key "id";
   mkField "user_id" (Some (Native UUID)) false None None (Some ("users", "id", CASCADE)) true;
   mkField "session_token_hash" (Some (Native TEXT)) false None None None false;
   mkField "csrf_token_hash" (Some (Native TEXT)) false None None None false;
   mkField "created_at" (Some (Native TIMESTAMPTZ)) false None None None false;
   mkField "issued_at" (Some UnixTimestampMillis) false None
     (Some "Unix timestamp in milliseconds. Business time when the session was issued.") None false;
   mkField "updated_at" (Some (Native TIMESTAMPTZ)) false None None None false;
   mkField "last_seen_at" (Some UnixTimestampMillis) false None
     (Some "Unix timestamp in milliseconds. Business time when the session was last seen.") None false;
   mkField "expires_at" (Some UnixTimestampMillis) false None
     (Some "Unix timestamp in milliseconds. Business time when the session expires.") None false;
   mkField "revoked_at" (Some UnixTimestampMillis) true None
     (Some "Unix timestamp in milliseconds. NULL means the session has not been revoked.") None false;
   mkField "last_oidc_authenticated_at" (Some UnixTimestampMillis) true None
     (Some "Unix timestamp in milliseconds. NULL means no fresh OIDC authentication has been recorded for this session.") None false;
   mkField "ip_address" (Some InetString) true None
     (Some "NULL means the client IP could not be determined or should not be stored. Stored as PostgreSQL INET by intentional schema-guideline deviation.") None false;
   mkField "user_agent" (Some (Native TEXT)) true None
     (Some "NULL means the request did not include a user agent.") None false]%string
  []%string
  [("uq_auth_sessions_session_token_hash", mkIndex "auth_sessions" [ByColumn "session_token_hash"] true None);
   ("ix_auth_sessions_expires_at", mkIndex "auth_sessions" [ByColumn "expires_at"] false None)]%string.

(* src: backend/app/models/auth_audit_log.py:12-74 AuthAuditLog *)
Definition auth_audit_log_model : model := mkModel "auth_audit_logs"
  [primary_key "id";
   mkField "user_id" (Some (Native UUID)) true None
     (Some "NULL means the user row was deleted while the audit row is retained.") (Some ("users", "id", SET_NULL)) true;
   mkField "session_id" (Some (Native UUID)) true None
     (Some "NULL means the session row was deleted while the audit row is retained.") (Some ("auth_sessions", "id", SET_NULL)) true;
   mkField "event_type" (Some (Native TEXT)) false None None None false;
   mkField "ip_address" (Some InetString) true None
     (Some "NULL means the client IP could not be determined or should not be stored. Stored as PostgreSQL INET by intentional schema-guideline deviation.") None false;
   mkField "user_agent" (Some (Native TEXT)) true None
     (Some "NULL means the request did not include a user agent.") None false;
   mkField "detail_json" (Some (Native JSONB)) true None
     (Some "NULL means the event has no details.") None false;
   mkField "occurred_at" (Some UnixTimestampMillis) false None
     (Some "Unix timestamp in milliseconds. Business occurrence time of the audit event.") None false;
   mkField "created_at" (Some (Native TIMESTAMPTZ)) false None None None false;
   mkField "updated_at" (Some (Native TIMESTAMPTZ)) false None None None false]%string
  []%string
  [("ix_auth_audit_logs_event_type", mkIndex "auth_audit_logs" [ByColumn "event_type"] false None);
   ("ix_auth_audit_logs_occurred_at", mkIndex "auth_audit_logs" [ByColumn "occurred_at"] false
     None)]%string.

(* src: backend/app/models/sample_item.py:32-79 SampleItem *)
Definition sample_item_model : model := mkModel "sample_items"
  [primary_key "id";
   mkField "owner_user_id" None false None None (Some ("users", "id", CASCADE)) true;
   mkField "title" (Some (Native TEXT)) false None None None false;
   mkField "description" (Some (Native TEXT)) true None
     (Some "NULL means the item has no description.") None false;
   mkField "is_completed" (Some (Native BOOLEAN)) false (Some "false") None None false;
   mkField "registered_at" (Some UnixTimestampMillis) false None
     (Some "Unix timestamp in milliseconds. Business registration time used for cursor ordering.") None false;
   mkField "modified_at" (Some UnixTimestampMillis) false None
     (Some "Unix timestamp in milliseconds. Business time when the item was last modified.") None false;
   mkField "created_at" (Some (Native TIMESTAMPTZ)) false None None None false;
   mkField "updated_at" (Some (Native TIMESTAMPTZ)) false None None None false]%string
  []%string
  [("ix_sample_items_owner_user_id_registered_at_id", mkIndex "sample_items" [ByColumn "owner_user_id"; ByColumn "registered_at"; ByColumn "id"] false None)]%string.

(* src: backend/app/models/auth_identity.py:12-67 AuthIdentity *)
Definition auth_identity_model : model := mkModel "auth_identities"
  [primary_key "id";
   mkField "user_id" (Some (Native UUID)) false None None (Some ("users", "id", CASCADE)) false;
   mkField "provider_id" (Some (Native TEXT)) false None None None false;
   mkField "provider_subject" (Some (Native TEXT)) false None None None false;
   mkField "email" (Some (Native TEXT)) true None
     (Some "NULL means the identity provider did not return an email address.") None false;
   mkField "is_email_verified" (Some (Native BOOLEAN)) false (Some "false") None None false;
   mkField "claims_json" (Some (Native JSONB)) false None None None false;
   mkField "linked_at" (Some UnixTimestampMillis) false None
     (Some "Unix timestamp in milliseconds. Business time when the provider identity was linked.") None false;
   mkField "created_at" (Some (Native TIMESTAMPTZ)) false None None None false;
   mkField "updated_at" (Some (Native TIMESTAMPTZ)) false None None None false;
   mkField "last_logged_in_at" (Some UnixTimestampMillis) true None
     (Some "Unix timestamp in milliseconds. NULL means the identity has never completed a login.") None false]%string
  []%string
  [("uq_auth_identities_provider_subject", mkIndex "auth_identities" [ByColumn "provider_id"; ByColumn "provider_subject"] true None);
   ("ix_auth_identities_user_id", mkIndex "auth_identities" [ByColumn "user_id"] false None)]%string.

(* src: backend/app/models/auth_oidc_state.py:13-86 AuthOidcState *)
Definition auth_oidc_state_model : model := mkModel "auth_oidc_authorization_states"
  [primary_key "id";
   mkField "state_hash" (Some (Native TEXT)) false None None None false;
   mkField "browser_binding_hash" (Some (Native TEXT)) false None None None false;
   mkField "nonce_hash" (Some (Native TEXT)) false None None None false;
   mkField "pkce_verifier" (Some (Native TEXT)) false None None None false;
   mkField "provider_id" (Some (Native TEXT)) false None None None false;
   mkField "purpose" (Some (Native TEXT)) false None None None false;
   mkField "expected_user_id" (Some (Native UUID)) true None
     (Some "NULL means no authenticated user context was expected for this authorization state.") None false;
   mkField "expected_session_id" (Some (Native UUID)) true None
     (Some "NULL means no authenticated session context was expected for this authorization state.") None false;
   mkField "redirect_path" (Some (Native TEXT)) false None None None false;
   mkField "login_hint" (Some (Native TEXT)) true None
     (Some "NULL means no login hint was provided to the authorization request.") None false;
   mkField "language_code" (Some (Native TEXT)) true None
     (Some "NULL means no public language preference was captured.") None false;
   mkField "expires_at" (Some UnixTimestampMillis) false None
     (Some "Unix timestamp in milliseconds. Business time when the state expires.") None false;
   mkField "consumed_at" (Some UnixTimestampMillis) true None
     (Some "Unix timestamp in milliseconds. NULL means the state has not been consumed.") None false;
   mkField "created_at" (Some (Native TIMESTAMPTZ)) false None None None false;
   mkField "updated_at" (Some (Native TIMESTAMPTZ)) false None None None false]%string
  [("language_code_supported", "language_code is null or language_code in ('en', 'ja')")]%string
  [("uq_auth_oidc_states_state_hash", mkIndex "auth_oidc_authorization_states" [ByColumn "state_hash"] true None);
   ("ix_auth_oidc_states_expires_at", mkIndex "auth_oidc_authorization_states" [ByColumn
     "expires_at"] false None);
   ("ix_auth_oidc_states_consumed_at", mkIndex "auth_oidc_authorization_states" [ByColumn
     "consumed_at"] false None)]%string.

(* src: backend/app/models/authorization.py:12-47 UserRole *)
Definition user_role_model : model := mkModel "user_roles"
  [primary_key "id";
   mkField "user_id" (Some (Native UUID)) false None None (Some ("users", "id", CASCADE)) false;
   mkField "role_code" (Some (Native TEXT)) false None None None false;
   mkField "assigned_at" (Some UnixTimestampMillis) false None
     (Some "Unix timestamp in milliseconds. Business time when the role was assigned.") None false;
   mkField "assigned_by_user_id" (Some (Native UUID)) true None
     (Some "NULL means the role was assigned by a system process or bootstrap operation.") (Some ("users", "id", SET_NULL)) false;
   mkField "created_at" (Some (Native TIMESTAMPTZ)) false None None None false;
   mkField "updated_at" (Some (Native TIMESTAMPTZ)) false None None None false]%string
  []%string
  [("uq_user_roles_user_id_role_code", mkIndex "user_roles" [ByColumn "user_id"; ByColumn "role_code"] true None);
   ("ix_user_roles_role_code", mkIndex "user_roles" [ByColumn "role_code"] false None);
   ("ix_user_roles_assigned_by_user_id", mkIndex "user_roles" [ByColumn "assigned_by_user_id"]
     false None)]%string.

(* src: backend/app/models/__init__.py:5-12 import *)
Definition declared_models : list model :=
  [auth_audit_log_model; auth_identity_model; auth_oidc_state_model; auth_session_model;
   user_role_model; sample_item_model; user_model].

(** ** The derived schema *)

(* src: backend/app/libraries/sqlalchemy_types.py:28-29 UnixTimestampMillis *)
Definition impl (t : field_type) : sql_type :=
  match t with Native t => t | InetString => INET | UnixTimestampMillis => BIGINT end.

(** The type of a column: its own, or that of the column it refers to. *)
Definition find_field (models : list model) (tbl name : string) : option field :=
  m ← List.find (fun m => String.eqb (m_tablename m) tbl) models;
  List.find (fun f => String.eqb (f_name f) name) (m_fields m).
Definition field_sql_type (models : list model) (f : field) : option sql_type :=
  match f_type f, f_foreign_key f with
  | Some t, _ => Some (impl t)
  | None, Some (tbl, name, _) => referred ← find_field models tbl name; impl <$> f_type referred
  | None, None => None
  end.

(* src: backend/app/models/metadata.py:4-4 NAMING_CONVENTION *)
Definition ix_name (tbl columns : string) : string := ("ix_" ++ tbl ++ "_" ++ columns)%string.
(* src: backend/app/models/metadata.py:6-6 NAMING_CONVENTION *)
Definition ck_name (tbl name : string) : string := ("ck_" ++ tbl ++ "_" ++ name)%string.
(* src: backend/app/models/metadata.py:7-7 NAMING_CONVENTION *)
Definition fk_name (tbl columns referred : string) : string :=
  ("fk_" ++ tbl ++ "_" ++ columns ++ "_" ++ referred)%string.
(* src: backend/app/models/metadata.py:8-8 NAMING_CONVENTION *)
Definition pk_name (tbl : string) : string := ("pk_" ++ tbl)%string.

Definition column_of (models : list model) (f : field) : option (string * column) :=
  t ← field_sql_type models f;
  Some (f_name f, mkColumn (f_name f) t (f_nullable f) (f_server_default f) (f_comment f)).

Definition foreign_key_of (tbl : string) (f : field) : option (string * foreign_key) :=
  '(referred, name, action) ← f_foreign_key f;
  Some (fk_name tbl (f_name f) referred, mkForeignKey [f_name f] referred [name] action).

Definition field_index_of (tbl : string) (f : field) : option (string * index) :=
  if f_index f then Some (ix_name tbl (f_name f), mkIndex tbl [ByColumn (f_name f)] false None) else None.

Definition relations_of (models : list model) (m : model) : option (list (string * relation)) :=
  let tbl := m_tablename m in
  columns ← mapM (column_of models) (m_fields m);
  Some ((tbl, Table (mkTable (list_to_map columns)
               (list_to_map (omap (foreign_key_of tbl) (m_fields m)))
               (list_to_map (map (fun ck => (ck_name tbl ck.1, ck.2)) (m_checks m)))))
        :: (pk_name tbl, PrimaryKey tbl ["id"%string])
        :: map (fun ix => (ix.1, Index ix.2)) (m_indexes m ++ omap (field_index_of tbl) (m_fields m))).

(** The schema of the metadata, where every column has a type. *)
Definition metadata_schema (models : list model) : option schema :=
  relations ← mapM (relations_of models) models;
  Some (list_to_map (concat relations)).

(** ** The migration makes the declared schema

    The initial migration, run next to any schema whose names it does not use, makes
    exactly the relations the models declare, and its downgrade removes exactly
    these. *)

Definition declared : schema := default ∅ (metadata_schema declared_models).

Lemma upgrade_empty : run upgrade ∅ = Some declared.
Proof. apply (bool_decide_unpack _). vm_compute. exact I. Qed.
Lemma downgrade_declared : run downgrade declared = Some ∅.
Proof. apply (bool_decide_unpack _). vm_compute. exact I. Qed.
Lemma declared_dom : dom declared = list_to_set (flat_map created upgrade).
Proof. apply (bool_decide_unpack _). vm_compute. exact I. Qed.

Lemma disjoint_names (frame : schema) (names : list string) (s : schema) :
  dom s = list_to_set names -> s ##ₘ frame <-> Forall (fun n => frame !! n = None) names.
Proof.
  intros Hs. rewrite map_disjoint_dom, Hs, Forall_forall. split.
  - intros Hd n Hn. apply not_elem_of_dom. intros Hf. apply (Hd n); [by apply elem_of_list_to_set|done].
  - intros Hf n Hn%elem_of_list_to_set Hin. apply Hf in Hn. by apply not_elem_of_dom in Hn.
Qed.

(** C25. The initial migration and the models agree.  Run next to any schema that is
    closed under its own references, the upgrade goes through exactly when that
    schema uses none of the names; then it adds exactly the tables, columns, keys,
    checks and indexes the models declare, under the names the naming convention
    gives them, and the downgrade gives back exactly the schema there was.  Every
    name is short enough for PostgreSQL to keep it. *)
Theorem migration_matches_models (frame : schema) :
  closed_schema frame ->
  metadata_schema declared_models = Some declared
  /\ (is_Some (run upgrade frame) <-> declared ##ₘ frame)
  /\ (declared ##ₘ frame ->
       run upgrade frame = Some (declared ∪ frame) /\ run downgrade (declared ∪ frame) = Some frame)
  /\ map_Forall (fun name _ => str_len name <= 63) declared.
Proof.
  intros Hcl. split; [|split; [|split]].
  - unfold declared. destruct (metadata_schema _) as [s|] eqn:Es; [done|]. exfalso.
    apply (f_equal is_some) in Es. vm_compute in Es. discriminate.
  - rewrite (disjoint_names _ _ _ declared_dom). split.
    + intros [s Hs]. eapply run_fresh; [|exact Hs]. repeat constructor.
    + intros Hf. destruct (run_frame upgrade ∅ declared frame) as [_ H]; [apply map_disjoint_empty_l|done|done|
        apply upgrade_empty|]. rewrite (left_id ∅ (∪)) in H. by eexists.
  - intros Hd. pose proof (proj1 (disjoint_names _ _ _ declared_dom) Hd) as Hf. split.
    + destruct (run_frame upgrade ∅ declared frame) as [_ H]; [apply map_disjoint_empty_l|done|done|
        apply upgrade_empty|]. by rewrite (left_id ∅ (∪)) in H.
    + destruct (run_frame downgrade declared ∅ frame) as [_ H]; [done|done|constructor|
        apply downgrade_declared|]. by rewrite (left_id ∅ (∪)) in H.
  - apply (bool_decide_unpack _). vm_compute. exact I.
Qed.

(** Alembic's own table of the applied revision, next to which the migration runs. *)
Definition alembic_version : schema :=
  <["alembic_version" := Table (table_of [mkColumn "version_num" TEXT false None None] [] [])]>
    (<["alembic_version_pkc" := PrimaryKey "alembic_version" ["version_num"]]> ∅)%string.

Lemma migration_matches_models_witness :
  closed_schema alembic_version
  /\ run upgrade alembic_version = Some (declared ∪ alembic_version)
  /\ run downgrade (declared ∪ alembic_version) = Some alembic_version.
Proof.
  assert (closed_schema alembic_version) as Hcl.
  { unfold closed_schema, alembic_version. intros k r [[<- <-]|[_ [[<- <-]|[_ H]]%lookup_insert_Some]]%lookup_insert_Some n.
    - vm_compute. intros [?|?]; discriminate.
    - intros [Hr|Ho]; [discriminate|]. injection Ho as <-. by eexists.
    - by rewrite lookup_empty in H. }
  split; [exact Hcl|].
  destruct (migration_matches_models alembic_version Hcl) as (_ & _ & H & _). apply H.
  apply (bool_decide_unpack _). vm_compute. exact I.
Defined.
