(* ===== verification/Commands.v ===== *)
(** * The commands that start the server and Alembic

    Models the commands of src/backend/manage.py that call uvicorn and Alembic, and
    src/backend/alembic/env.py, the script Alembic runs.  Both tools and the terminal
    are the class [Tools], over the state [X] of what is outside; Alembic is given the
    script, which asks whether it runs offline.  The schema of the migrations is in
    Migration.v. *)

From S2P Require Import Prelude PyStr Errors Tables Effects Process DatabaseConfig Manage Schema Migration.
Local Open Scope Z_scope.

(** ** The tools *)

Inductive alembic_command :=
| Upgrade (revision : string)
| Downgrade (revision : string)
| CheckHead                                     (* [check] *)
| Current (check_heads : bool)
| Revision (message : string) (autogenerate : bool) (rev_id : option string).

(** The arguments of [context.configure]; the metadata is that of the models. *)
Record migration_options (Connection : Type) := MigrationOptions {
  mo_target : string + Connection;              (* [url=] or [connection=] *)
  mo_target_metadata : list model;
  mo_literal_binds : bool;
  mo_paramstyle : option string;
  mo_compare_type : bool;
  mo_compare_server_default : bool;
}.
#[global] Arguments MigrationOptions {Connection}.

Record uvicorn_options := UvicornOptions {
  uv_app : string;
  uv_host : string;
  uv_port : Z;
  uv_reload : bool;
  uv_workers : Z;
  uv_log_level : string;
}.

Class Tools (X : Type) := {
  Connection : Type;
  Engine : Type;
  uvicorn_run : uvicorn_options -> Proc X unit;
  print : string -> Proc X unit;
  print_error : string -> Proc X unit;           (* [typer.secho(..., err=True)] *)
  (* [alembic.command] on the configuration of alembic.ini, and the script *)
  alembic : alembic_command -> Proc X unit -> Proc X unit;
  (* [alembic.context] *)
  is_offline_mode : Proc X bool;
  configure : migration_options Connection -> Proc X unit;
  begin_transaction : Proc X unit -> Proc X unit;
  run_migrations : Proc X unit;
  ini_section : option (list (string * string));
  (* SQLAlchemy, with [prefix] and the class of the pool *)
  async_engine_from_config : list (string * string) -> string -> string -> Engine;
  connect : Engine -> (Connection -> Proc X unit) -> Proc X unit;
  engine_dispose : Engine -> Proc X unit;
  read_pyproject : Proc X json;                  (* [tomllib.loads(...)] *)
}.

Section Commands.
Context {X : Type} `{T : Tools X}.
Context (settings : cli_settings).
Context (make_url : string -> option URL) (set_drivername : string -> URL -> URL).
Notation get_alembic_database_url := (get_alembic_database_url make_url set_drivername).
Notation get_database_url := (get_database_url make_url set_drivername (cli_database settings)).

(** ** alembic/env.py *)

(* src: backend/alembic/env.py:35-46 run_migrations_offline *)
Definition run_migrations_offline : Proc X unit :=
  url ← get_database_url;
  configure (MigrationOptions (inl url) declared_models true (Some "named"%string) true true) ;;
  begin_transaction run_migrations.

(* src: backend/alembic/env.py:49-58 do_run_migrations *)
Definition do_run_migrations (connection : Connection) : Proc X unit :=
  configure (MigrationOptions (inr connection) declared_models false None true true) ;;
  begin_transaction run_migrations.

(* src: backend/alembic/env.py:61-71 run_async_migrations *)
Definition run_async_migrations : Proc X unit :=
  url ← get_database_url;
  let connectable :=
    async_engine_from_config (build_alembic_engine_section ini_section url) "sqlalchemy." "NullPool" in
  connect connectable do_run_migrations ;;
  engine_dispose connectable.

(* src: backend/alembic/env.py:74-75 run_migrations_online *)
Definition run_migrations_online : Proc X unit := run_async_migrations.

(* src: backend/alembic/env.py:78-81 module *)
Definition env_script : Proc X unit :=
  offline ← is_offline_mode;
  if offline : bool then run_migrations_offline else run_migrations_online.

(** ** The database's commands *)

Definition explicit_settings : Proc X DatabaseSettings :=
  from_result (explicit_database_settings settings make_url set_drivername).

(* src: backend/manage.py:74-77 db_upgrade *)
Definition db_upgrade (revision : string) : Proc X unit :=
  explicit_settings ;; alembic (Upgrade revision) env_script.

(* src: backend/manage.py:80-88 db_downgrade *)
Definition db_downgrade (revision : string) : Proc X unit :=
  explicit_settings ;; alembic (Downgrade revision) env_script.

(** [make_url] raises [ArgumentError] where it has no URL. *)
(* src: backend/manage.py:415-421 _format_database_target *)
Definition format_database_target (database_url : string) : Proc X string :=
  match make_url database_url with
  | None => proc_raise (LibraryException "ArgumentError" database_url)
  | Some url =>
      mret (if truthy_opt (url_host url) then
              let port := match url_port url with
                          | Some port => if (port =? 0)%Z then "" else ":" ++ pretty port
                          | None => ""
                          end in
              let database := if truthy_opt (url_database url) then "/" ++ default "" (url_database url)
                              else "" in
              url_drivername url ++ "://" ++ default "" (url_host url) ++ port ++ database
            else url_drivername url ++ ":" ++ default "" (url_database url))%string
  end.

(* src: backend/manage.py:91-98 db_check *)
Definition db_check : Proc X unit :=
  database_settings ← explicit_settings;
  url ← from_result (get_alembic_database_url database_settings);
  target ← format_database_target url;
  print_error ("Checking database: " ++ target) ;;
  alembic CheckHead env_script.

(* src: backend/manage.py:411-412 _ensure_database_is_at_head *)
Definition ensure_database_is_at_head : Proc X unit := alembic (Current true) env_script.

(* src: backend/manage.py:101-114 db_revision *)
Definition db_revision (message : string) (autogenerate : bool) (rev_id : option string) : Proc X unit :=
  explicit_settings ;;
  (if autogenerate then ensure_database_is_at_head else mret tt) ;;
  alembic (Revision message autogenerate rev_id) env_script.

(** ** The server *)

(* src: backend/manage.py:70-71 _default_reload *)
Definition default_reload : bool :=
  existsb (String.eqb (lower (ENVIRONMENT (cli_config settings)))) ["local"; "development"]%string.

(* src: backend/manage.py:39-67 serve *)
Definition serve (host : string) (port : Z) (reload : option bool) (workers : Z) (log_level : string)
  : Proc X unit :=
  let effective_reload := match reload with None => default_reload | Some reload => reload end in
  if effective_reload && (1 <? workers) then
    print_error "--reload cannot be used with --workers greater than 1." ;;
    proc_raise (AnException (TyperExit 2))
  else
    uvicorn_run (UvicornOptions "app.main:app" host port effective_reload workers log_level).

(** A missing key raises, as does indexing what is no table. *)
Definition toml_get (k : string) (j : json) : Proc X json :=
  match j with
  | JObj fields => match json_get k fields with
                   | Some v => mret v
                   | None => proc_raise (AnException (KeyError k))
                   end
  | _ => proc_raise (AnException (TypeError k))
  end.

(* src: backend/manage.py:424-427 version *)
Definition version (str : json -> string) : Proc X unit :=
  document ← read_pyproject;
  project ← toml_get "project" document;
  value ← toml_get "version" project;
  print ("Version: " ++ str value).

(** ** What reaches the tools *)

(** The command's part after the check of the settings. *)
Inductive database_command :=
| DbUpgrade (revision : string)
| DbDowngrade (revision : string)
| DbCheck
| DbRevision (message : string) (autogenerate : bool) (rev_id : option string).

Definition run_database_command (c : database_command) : Proc X unit :=
  match c with
  | DbUpgrade revision => db_upgrade revision
  | DbDowngrade revision => db_downgrade revision
  | DbCheck => db_check
  | DbRevision message autogenerate rev_id => db_revision message autogenerate rev_id
  end.

(** The script on a database whose URL is [url]. *)
Definition script_at (url : string) : Proc X unit :=
  offline ← is_offline_mode;
  if offline : bool then
    configure (MigrationOptions (inl url) declared_models true (Some "named"%string) true true) ;;
    begin_transaction run_migrations
  else
    let connectable :=
      async_engine_from_config (build_alembic_engine_section ini_section url) "sqlalchemy." "NullPool" in
    connect connectable do_run_migrations ;; engine_dispose connectable.

Definition run_at (url : string) (c : database_command) : Proc X unit :=
  match c with
  | DbUpgrade revision => alembic (Upgrade revision) (script_at url)
  | DbDowngrade revision => alembic (Downgrade revision) (script_at url)
  | DbCheck =>
      target ← format_database_target url;
      print_error ("Checking database: " ++ target) ;;
      alembic CheckHead (script_at url)
  | DbRevision message autogenerate rev_id =>
      (if autogenerate then alembic (Current true) (script_at url) else mret tt) ;;
      alembic (Revision message autogenerate rev_id) (script_at url)
  end.

Lemma get_database_url_ok url :
  database_url_configured (cli_database settings) = true ->
  get_alembic_database_url (cli_database settings) = Ok url ->
  (get_database_url : Proc X string) = mret url.
Proof. unfold DatabaseConfig.get_database_url. by intros -> ->. Qed.

Lemma env_script_at url :
  database_url_configured (cli_database settings) = true ->
  get_alembic_database_url (cli_database settings) = Ok url -> env_script = script_at url.
Proof.
  intros Hc Hu. unfold env_script, script_at, run_migrations_offline, run_migrations_online, run_async_migrations.
  by rewrite (get_database_url_ok url Hc Hu).
Qed.

Lemma build_section_url section url : ("sqlalchemy.url"%string, url) ∈ build_alembic_engine_section section url.
Proof.
  unfold build_alembic_engine_section. induction (default [] section) as [|[k v] l IH]; [by left|].
  simpl. destruct (k =? "sqlalchemy.url")%string eqn:E; [|by right].
  apply String.eqb_eq in E as ->. by left.
Qed.

(** Alembic is called with an explicit and valid URL, or not at all: without one the
    command ends before it does anything, and with one the script runs on the database
    of that URL, and does not fail for the lack of it. *)
Theorem database_commands_need_url c :
  (exists url, database_url_configured (cli_database settings) = true
     /\ get_alembic_database_url (cli_database settings) = Ok url
     /\ run_database_command c = run_at url c)
  \/ forall x, run_database_command c x = (Raised (AnException (TyperExit 2)), x).
Proof.
  unfold run_database_command, db_upgrade, db_downgrade, db_check, db_revision, explicit_settings,
    explicit_database_settings.
  destruct (database_url_configured (cli_database settings)) eqn:Hc; cbn [negb];
    [|right; intros x; by destruct c].
  destruct (get_alembic_database_url (cli_database settings)) as [url|e] eqn:Hu; [|right; intros x; by destruct c].
  left. exists url. split_and!; [done..|]. pose proof (env_script_at url Hc Hu) as Hs.
  destruct c; simpl; unfold run_at, ensure_database_is_at_head; rewrite ?Hs; try reflexivity.
  change (mret (cli_database settings) : Proc X DatabaseSettings)
    with (fun x : X => (Returned (cli_database settings), x)).
  unfold mbind at 1, proc_bind at 1. by rewrite Hu.
Qed.
End Commands.
