(* ===== verification/SampleItemSpec.v ===== *)
(** * What the sample items do

    Pagination visits every item of the owner once, and an item is only seen and
    changed by its owner. *)

From S2P Require Import Prelude PyStr Errors Time Tables Effects UnitOfWork Preserve Settings.
From S2P Require Import AuthRepository SampleItemRepository Runs Integrity Closure.
From S2P Require Import Codecs SampleItemUsecase AuthUsecase Demo.

(** ** The order of the listing *)

Notation newest_first := (lex_le (fun i => - it_registered_at i) (fun i => - it_id i)).

(** The items of an owner after a cursor, newest first. *)
Definition items_after (d : DB) (owner : Z) (c : option SampleItemCursor) : list SampleItem :=
  order_by_desc it_registered_at it_id
    (select (fun i => (it_owner_user_id i =? owner) && after_cursor c i) (sample_items d)).

(** Every item of an owner. *)
Definition items_of (d : DB) (owner : Z) : list SampleItem := items_after d owner None.

(** Rows hold times as their column stores them. *)
Definition items_stored (d : DB) : Prop :=
  forall k i, sample_items d !! k = Some i -> stored (it_registered_at i) = it_registered_at i.

#[local] Instance newest_first_trans : Transitive newest_first.
Proof. intros x y z. unfold lex_le. lia. Qed.
#[local] Instance newest_first_total : Total newest_first.
Proof. intros x y. unfold lex_le. lia. Qed.

(** The text of its cursor can carry the position of an item. *)
Definition items_readable (d : DB) : Prop :=
  forall k i, sample_items d !! k = Some i -> cursor_ok (cursor_of i).

Section Order.
Context (d : DB) (owner : Z).
Context (Hd : db_ok d) (Hs : items_stored d).

Lemma elem_of_items_after c i :
  i ∈ items_after d owner c <->
  (exists k, sample_items d !! k = Some i) /\ it_owner_user_id i = owner /\ after_cursor c i = true.
Proof.
  unfold items_after, order_by_desc. rewrite merge_sort_Permutation, elem_of_select.
  rewrite andb_true_iff, Z.eqb_eq. tauto.
Qed.

Lemma items_same_id i j k1 k2 :
  sample_items d !! k1 = Some i -> sample_items d !! k2 = Some j -> it_id i = it_id j -> i = j.
Proof.
  intros H1 H2 E. pose proof (ok_items_keyed _ Hd _ _ H1). pose proof (ok_items_keyed _ Hd _ _ H2).
  congruence.
Qed.

Lemma NoDup_items_after c : NoDup (items_after d owner c).
Proof.
  unfold items_after, order_by_desc. rewrite merge_sort_Permutation. unfold select.
  change (map snd (map_to_list (sample_items d))) with (snd <$> map_to_list (sample_items d)).
  apply NoDup_ListNoDup, List.NoDup_filter, NoDup_ListNoDup.
  apply NoDup_fmap_2_strong; [|apply NoDup_map_to_list].
  intros [k1 i] [k2 j] H1%elem_of_map_to_list H2%elem_of_map_to_list E. simpl in E. subst.
  by rewrite <- (ok_items_keyed _ Hd _ _ H1), <- (ok_items_keyed _ Hd _ _ H2).
Qed.

Lemma sorted_items_after c : StronglySorted newest_first (items_after d owner c).
Proof. apply Sorted_StronglySorted, Sorted_merge_sort; apply _. Qed.

(** What follows a listed item in the listing is what its cursor selects. *)
Lemma items_after_cursor c pre z post :
  items_after d owner c = pre ++ z :: post ->
  items_after d owner (Some (cursor_of z)) = post.
Proof.
  intros HR. pose proof (sorted_items_after c) as Hsort. pose proof (NoDup_items_after c) as Hnd.
  rewrite HR in Hsort, Hnd.
  assert (z ∈ items_after d owner c) as Hz by (rewrite HR; set_solver).
  apply elem_of_items_after in Hz as ([kz Hz] & Hoz & Hcz). pose proof (Hs _ _ Hz) as Hsz.
  assert (StronglySorted newest_first (z :: post)) as Hzp by (by eapply StronglySorted_app_1_r).
  assert (forall i, i ∈ pre -> newest_first i z) as Hpre.
  { intros i Hi. eapply StronglySorted_app_1_elem_of; [done..|]. set_solver. }
  apply NoDup_app in Hnd as (_ & _ & [Hzn Hnp]%NoDup_cons).
  apply StronglySorted_inv in Hzp as [Hpost Hall]. rewrite Forall_forall in Hall.
  apply (StronglySorted_unique_strong newest_first).
  - intros x y Hx%elem_of_items_after Hy Hxy Hyx. destruct Hx as ([kx Hx] & _).
    assert (y ∈ items_after d owner c) as ([ky Hy'] & _)%elem_of_items_after by (rewrite HR; set_solver).
    apply (items_same_id _ _ _ _ Hx Hy'). unfold lex_le in *. lia.
  - apply sorted_items_after.
  - done.
  - apply NoDup_Permutation; [apply NoDup_items_after|done|]. intros i.
    rewrite elem_of_items_after. unfold after_cursor at 1, cursor_of. simpl. rewrite Hsz.
    rewrite orb_true_iff, andb_true_iff, !Z.ltb_lt, Z.eqb_eq. split.
    + intros ([k Hk] & Ho & Hlt).
      assert (i ∈ items_after d owner c) as Hin.
      { apply elem_of_items_after. split; [by exists k|]. split; [done|].
        unfold after_cursor in *. destruct c as [c|]; [|done].
        rewrite orb_true_iff, andb_true_iff, !Z.ltb_lt, Z.eqb_eq in *. lia. }
      rewrite HR, elem_of_app, elem_of_cons in Hin. destruct Hin as [Hin|[->|Hin]]; [|lia|done].
      apply Hpre in Hin. unfold lex_le in Hin. lia.
    + intros Hi. assert (i ∈ items_after d owner c) as Hin by (rewrite HR; set_solver).
      apply elem_of_items_after in Hin as ([k Hk] & Ho & _). split_and!; [by exists k|done|].
      specialize (Hall i Hi). unfold lex_le in Hall.
      assert (it_id i <> it_id z) as Hne.
      { intros E. apply Hzn. by rewrite <- (items_same_id _ _ _ _ Hk Hz E). }
      lia.
Qed.
End Order.

Section Spec.
Context `{E : Env} {L : Type}.
Implicit Types (x : World L) (b : bool) (c d : DB).

(** ** Pagination *)

Section Pagination.
Context {C : CursorCodec} (HC : codec_laws).

Lemma list_by_owner_at owner n cur b c d x :
  list_by_owner owner n cur (at_db b c d x)
  = (Ok (take (Z.to_nat n) (items_after d owner cur)), at_db b c d x).
Proof. unfold list_by_owner. run_scope. Qed.

(** A client that follows the cursors until there is none. *)
Fixpoint read_all (fuel : nat) (owner limit : Z) (cur : option string) : M L (list SampleItem) :=
  match fuel with
  | O => mret []
  | S fuel =>
      page ← list_items owner limit cur;
      match next_cursor page with
      | None => mret (list_items_ page)
      | Some next =>
          rest ← read_all fuel owner limit (Some next);
          mret (list_items_ page ++ rest)
      end
  end.

Lemma page_split (l : list SampleItem) limit :
  1 <= limit -> limit < Z.of_nat (length l) ->
  exists z, l !! Z.to_nat (limit - 1) = Some z
  /\ exists pre, take (Z.to_nat limit) l = pre ++ [z] /\ l = pre ++ z :: drop (Z.to_nat limit) l.
Proof.
  intros H1 H2. destruct (lookup_lt_is_Some_2 l (Z.to_nat (limit - 1))) as [z Hz]; [lia|].
  exists z. split; [done|]. exists (take (Z.to_nat (limit - 1)) l).
  replace (Z.to_nat limit) with (S (Z.to_nat (limit - 1))) by lia.
  split; [by apply take_S_r|]. symmetry. by apply take_drop_middle.
Qed.

(** The text of a cursor, or its absence, and the position it stands for. *)
Definition reads (cur : option string) (pos : option SampleItemCursor) : Prop :=
  match pos with
  | None => truthy_opt cur = false
  | Some p => truthy_opt cur = true /\ decode_cursor (default "" cur) = Ok p
  end.

Lemma list_items_at owner limit cur pos b c d x :
  reads cur pos ->
  list_items owner limit cur (at_db b c d x)
  = (let items := take (Z.to_nat (limit + 1)) (items_after d owner pos) in
     Ok (ItemList (take (Z.to_nat limit) items) (next_cursor_for_items items limit)), at_db b c d x).
Proof.
  intros Hr. unfold list_items. destruct pos as [pos|]; simpl in Hr.
  - destruct Hr as [-> Hr]. rewrite bind_run, bind_run, lift_run, Hr, ret_run.
    by rewrite bind_run, list_by_owner_at, ret_run.
  - rewrite Hr, bind_run, ret_run. by rewrite bind_run, list_by_owner_at, ret_run.
Qed.

Lemma read_all_after fuel owner limit cur pos b c d x :
  db_ok d -> items_stored d -> items_readable d -> 1 <= limit ->
  reads cur pos -> (length (items_after d owner pos) < fuel)%nat ->
  read_all fuel owner limit cur (at_db b c d x) = (Ok (items_after d owner pos), at_db b c d x).
Proof.
  intros Hd Hs Hrd Hl. revert cur pos. induction fuel as [|fuel IH]; intros cur pos Hr Hf; [lia|].
  cbn [read_all]. rewrite bind_run, (list_items_at _ _ _ _ _ _ _ _ Hr). cbv zeta.
  cbn [next_cursor list_items_]. set (l := items_after d owner pos) in *.
  rewrite take_take. replace (Z.to_nat limit `min` Z.to_nat (limit + 1))%nat with (Z.to_nat limit) by lia.
  unfold next_cursor_for_items. rewrite length_take.
  destruct (Z.leb_spec (Z.of_nat (Nat.min (Z.to_nat (limit + 1)) (length l))) limit) as [Hle|Hgt].
  - rewrite ret_run. by rewrite take_ge by lia.
  - destruct (page_split l limit) as (z & Hz & pre & Htake & Hsplit); [done|lia|].
    rewrite lookup_take_lt by lia. rewrite Hz. cbn [fmap option_fmap option_map].
    assert (items_after d owner (Some (cursor_of z)) = drop (Z.to_nat limit) l) as Hnext
      by (by eapply items_after_cursor).
    assert (exists k, sample_items d !! k = Some z) as [k Hk].
    { assert (z ∈ l) as (Hk & _)%elem_of_items_after by (rewrite Hsplit; set_solver). done. }
    destruct (cursor_round_trip z HC (Hrd _ _ Hk)) as [Hdec Ht].
    rewrite bind_run, (IH _ (Some (cursor_of z))); [|done|rewrite Hnext, length_drop; lia].
    rewrite ret_run, Hnext, take_drop. done.
Qed.

(** C38. Following the cursors of the item list, as the texts they are, visits every item
    of the owner exactly once, newest first, and changes nothing; every page respects
    its limit, and a text that is no cursor changes nothing either. *)
Theorem pagination_complete owner limit (w : World L) :
  idle w -> db_ok (w_committed w) -> items_stored (w_committed w) -> items_readable (w_committed w) ->
  1 <= limit ->
  let items := items_of (w_committed w) owner in
  (forall fuel, (length items < fuel)%nat -> read_all fuel owner limit None w = (Ok items, w))
  /\ NoDup items /\ StronglySorted (lex_le (fun i => - it_registered_at i) (fun i => - it_id i)) items
  /\ (forall i, i ∈ items <->
        it_owner_user_id i = owner /\ exists k, sample_items (w_committed w) !! k = Some i)
  /\ (forall cur, exists r, list_items owner limit cur w = (r, w)
        /\ forall page, r = Ok page -> Z.of_nat (length (list_items_ page)) <= limit).
Proof.
  intros Hidle Hd Hs Hrd Hl items. subst items. rewrite (idle_at w Hidle).
  set (d := w_committed w) in *. clearbody d. change (w_committed (at_db false d d w)) with d in *.
  split_and!.
  - intros fuel Hf. by apply read_all_after.
  - by apply NoDup_items_after.
  - apply sorted_items_after.
  - intros i. unfold items_of. rewrite elem_of_items_after. simpl. tauto.
  - intros cur. destruct (truthy_opt cur) eqn:Et; [destruct (decode_cursor (default "" cur)) as [pos|e] eqn:Ec|].
    + rewrite (list_items_at _ _ _ (Some pos)) by done. eexists. split; [done|]. intros page [= <-].
      simpl. rewrite length_take. lia.
    + unfold list_items. rewrite Et, !bind_run, lift_run, Ec. by eexists.
    + rewrite (list_items_at _ _ _ None) by done. eexists. split; [done|]. intros page [= <-].
      simpl. rewrite length_take. lia.
Qed.
End Pagination.

(** ** Ownership *)

(** The item, if the owner has it. *)
Definition owned d (owner item : Z) : option SampleItem :=
  match sample_items d !! item with
  | Some i => if it_owner_user_id i =? owner then Some i else None
  | None => None
  end.

Lemma get_by_id_at owner item b c d x :
  db_ok d -> get_by_id_for_owner item owner (at_db b c d x) = (Ok (owned d owner item), at_db b c d x).
Proof.
  intros Hd. unfold get_by_id_for_owner.
  assert (one_result (select (fun i => (it_id i =? item) && (it_owner_user_id i =? owner)) (sample_items d))
          = Ok (owned d owner item)) as <-; [|run_scope].
  unfold owned. destruct (sample_items d !! item) as [i|] eqn:Ei.
  - pose proof (ok_items_keyed _ Hd _ _ Ei) as Hid. destruct (it_owner_user_id i =? owner) eqn:Eo.
    + rewrite (select_unique _ _ item i); [done..|by rewrite Hid, Z.eqb_refl, Eo|].
      intros k r Hk [Hr%Z.eqb_eq _]%andb_true_iff. by rewrite <- (ok_items_keyed _ Hd _ _ Hk).
    + assert (select (fun i => (it_id i =? item) && (it_owner_user_id i =? owner)) (sample_items d) = [])
        as ->; [|done].
      apply select_nil. intros k r Hk. apply andb_false_iff. destruct (Z.eqb_spec (it_id r) item); [|by left].
      right. rewrite (ok_items_keyed _ Hd _ _ Hk) in e. subst. by simplify_eq.
  - assert (select (fun i => (it_id i =? item) && (it_owner_user_id i =? owner)) (sample_items d) = [])
      as ->; [|done].
    apply select_nil. intros k r Hk. apply andb_false_iff. left. apply Z.eqb_neq. intros <-.
    rewrite (ok_items_keyed _ Hd _ _ Hk) in Ei. congruence.
Qed.

Lemma get_item_at owner item b c d x :
  db_ok d -> get_item owner item (at_db b c d x)
  = (match owned d owner item with Some i => Ok i | None => Raise SampleItemNotFoundError end,
     at_db b c d x).
Proof.
  intros Hd. unfold get_item. rewrite bind_run, get_by_id_at by done. by destruct (owned d owner item).
Qed.

Lemma update_at i b c d x :
  update i (at_db b c d x) =
    let i' := set_item_modified (env_now (w_clock x)) i in
    match sample_items d !! it_id i with
    | None => (Raise StaleDataError, at_db b c d (tick_clock x))
    | Some _ =>
        if sample_item_row_ok d (store_sample_item i')
        then (Ok i', at_db b c (with_sample_items <[it_id i := store_sample_item i']> d) (tick_clock x))
        else (Raise IntegrityError, at_db b c d (tick_clock x))
    end.
Proof. unfold update. run_scope. Qed.

Lemma delete_row_at i b c d x :
  delete_item_row i (at_db b c d x)
  = (Ok tt, at_db b c (with_sample_items (delete (it_id i)) d) x).
Proof. unfold delete_item_row. run_scope. Qed.

Lemma apply_changes_keeps ch i j :
  apply_changes ch i = Ok j ->
  it_id j = it_id i /\ it_owner_user_id j = it_owner_user_id i
  /\ it_registered_at j = it_registered_at i.
Proof.
  unfold apply_changes, mbind, result_bind. repeat case_decide; repeat case_match; intros;
    simplify_eq/=; done.
Qed.

Lemma owned_Some d owner item i :
  db_ok d -> owned d owner item = Some i ->
  sample_items d !! item = Some i /\ it_id i = item /\ it_owner_user_id i = owner.
Proof.
  intros Hd. unfold owned. destruct (sample_items d !! item) as [j|] eqn:Ej; [|done].
  destruct (Z.eqb_spec (it_owner_user_id j) owner); [|done]. intros [= <-].
  split_and!; [done|by eapply ok_items_keyed|done].
Qed.

(** C37. An item is only read, changed and deleted by its owner: for anybody else it does
    not exist.  An update applies exactly the named changes to that item, keeps its
    identifier, owner and registration time, and touches no other row; a deletion
    removes that row; whatever fails changes nothing. *)
Theorem items_belong_to_owner owner item ch (w : World L) :
  idle w -> db_ok (w_committed w) ->
  let d := w_committed w in
  (forall r w', update_item owner item ch w = (r, w') ->
     idle w' /\
     match owned d owner item, r with
     | None, _ => r = Raise SampleItemNotFoundError /\ w_committed w' = d
     | Some i, Raise _ => w_committed w' = d
     | Some i, Ok i' =>
         it_id i' = item /\ it_owner_user_id i' = owner /\ it_registered_at i' = it_registered_at i
         /\ (it_ch_fields_set ch = ∅ /\ i' = i /\ w_committed w' = d
             \/ exists j t, apply_changes ch i = Ok j /\ i' = set_item_modified t j
                /\ w_committed w' = with_sample_items <[item := store_sample_item i']> d)
     end)
  /\ (forall r w', delete_item owner item w = (r, w') ->
     idle w' /\
     match owned d owner item with
     | None => r = Raise SampleItemNotFoundError /\ w_committed w' = d
     | Some _ => r = Ok tt /\ w_committed w' = with_sample_items (delete item) d
     end)
  /\ get_item owner item w
     = (match owned d owner item with Some i => Ok i | None => Raise SampleItemNotFoundError end, w).
Proof.
  intros Hidle Hd d. subst d. rewrite (idle_at w Hidle). set (d := w_committed w) in *. clearbody d.
  change (w_committed (at_db false d d w)) with d in *.
  split_and!; [| |by apply get_item_at].
  - intros r w'. unfold update_item. destruct (bool_decide _) eqn:Ee.
    + rewrite get_item_at by done. intros [= <- <-]. split; [done|].
      destruct (owned d owner item) as [i|] eqn:Eo; [|done]. apply bool_decide_eq_true in Ee.
      apply owned_Some in Eo as (_ & Hid & Ho); [|done]. split_and!; try done. by left.
    + rewrite transaction_at, bind_run, get_item_at by done.
      destruct (owned d owner item) as [i|] eqn:Eo; [|by intros [= <- <-]].
      apply owned_Some in Eo as (Hk & Hid & Ho); [|done].
      rewrite bind_run, lift_run. destruct (apply_changes ch i) as [j|e] eqn:Ej; [|by intros [= <- <-]].
      destruct (apply_changes_keeps _ _ _ Ej) as (Hji & Hjo & Hjr).
      rewrite update_at. cbv zeta. rewrite Hji, Hid, Hk.
      destruct (sample_item_row_ok d _); [|by intros [= <- <-]].
      rewrite w_tx_at, commit_at. intros [= <- <-]. split; [done|].
      split_and!; [simpl; congruence..|]. right. by exists j, (env_now (w_clock w)).
  - intros r w'. unfold delete_item. rewrite transaction_at, bind_run, get_item_at by done.
    destruct (owned d owner item) as [i|] eqn:Eo; [|by intros [= <- <-]].
    apply owned_Some in Eo as (_ & Hid & _); [|done].
    rewrite delete_row_at, Hid, w_tx_at, commit_at. by intros [= <- <-].
Qed.
End Spec.

(** ** Instances *)

Definition demo_item (id owner t : Z) : SampleItem := mkSampleItem id owner "title" None false t t.
Definition demo_items_db : DB :=
  with_sample_items <[42 := demo_item 42 2 3000]>
    (with_sample_items <[41 := demo_item 41 1 2000]>
      (with_sample_items <[40 := demo_item 40 1 2000]> demo_db)).
Lemma demo_items_db_ok : db_ok demo_items_db.
Proof.
  apply db_ok_items_insert; [|done|vm_compute; done].
  apply db_ok_items_insert; [|done|vm_compute; done].
  apply db_ok_items_insert; [|done|vm_compute; done]. apply demo_db_ok.
Qed.
Lemma demo_items_stored : items_stored demo_items_db.
Proof.
  intros k i. unfold demo_items_db. simpl.
  intros [[_ <-]|[_ [[_ <-]|[_ [[_ <-]|[_ H]]%lookup_insert_Some]]%lookup_insert_Some]]%lookup_insert_Some;
    done.
Qed.

Lemma demo_items_readable : items_readable demo_items_db.
Proof.
  intros k i. unfold demo_items_db. simpl.
  intros [[_ <-]|[_ [[_ <-]|[_ [[_ <-]|[_ H]]%lookup_insert_Some]]%lookup_insert_Some]]%lookup_insert_Some;
    unfold cursor_ok, datetime_min_us, datetime_max_us; simpl; lia || done.
Qed.

Lemma pagination_complete_witness :
  read_all 3 1 1 None (world_of demo_items_db)
  = (Ok [demo_item 41 1 2000; demo_item 40 1 2000], world_of demo_items_db).
Proof.
  destruct (pagination_complete demo_codec_laws 1 1 (world_of demo_items_db) (world_of_idle _)
    demo_items_db_ok demo_items_stored demo_items_readable) as [H _]; [lia|].
  assert (items_of demo_items_db 1 = [demo_item 41 1 2000; demo_item 40 1 2000]) as Hi
    by (vm_compute; reflexivity).
  change (w_committed (world_of demo_items_db)) with demo_items_db in H. rewrite Hi in H.
  apply H. simpl. lia.
Defined.

Lemma items_belong_to_owner_witness : exists w',
  delete_item 2 41 (world_of demo_items_db) = (Raise SampleItemNotFoundError, w')
  /\ w_committed w' = demo_items_db.
Proof.
  destruct (items_belong_to_owner 2 41 (ItemChanges None None None ∅) (world_of demo_items_db)
    (world_of_idle _) demo_items_db_ok) as (_ & H & _).
  destruct (delete_item 2 41 (world_of demo_items_db)) as [r w'] eqn:E.
  destruct (H r w' eq_refl) as [_ H2].
  assert (owned (w_committed (world_of demo_items_db)) 2 41 = None) as Ho by (vm_compute; reflexivity).
  rewrite Ho in H2. destruct H2 as [-> H2]. exists w'. split; [reflexivity|exact H2].
Defined.
