(* ===== verification/RedirectSpec.v ===== *)
(** * Where a login flow may redirect

    The redirect path of an OpenID Connect flow comes from the query string of the
    start request.  [normalize_redirect_path] is what keeps it inside the
    application; the theorems say what it guarantees, and the one place where it
    does not. *)

From S2P Require Import Prelude PyStr Errors Url OAuthOidcUsecase.

Section Spec.
Context (is_ipv6 : string -> bool).

(** A character the check refuses: a backslash or an ASCII control. *)
Definition refused_char (c : ascii) : bool :=
  Ascii.eqb c "\" || ((code c <=? 31) || (code c =? 127)).
Definition clean (l : list ascii) : bool := forallb (fun c => negb (refused_char c)) l.

Lemma clean_app l k : clean (l ++ k) = clean l && clean k.
Proof. apply forallb_app. Qed.

Lemma clean_checked v :
  contains_char "\" v || has_ascii_control v = false -> clean (chars v) = true.
Proof.
  unfold has_ascii_control, contains_char, clean. intros [H1 H2]%orb_false_iff.
  induction (chars v) as [|c l IH]; [done|]. cbn [existsb forallb] in *.
  apply orb_false_iff in H1 as [A1 B1], H2 as [A2 B2].
  rewrite (IH B1 B2). unfold refused_char. by rewrite Ascii.eqb_sym, A1, A2.
Qed.

Lemma clean_cons c l : clean (c :: l) = negb (refused_char c) && clean l.
Proof. done. Qed.

Lemma clean_part c l :
  clean l = true -> clean (partition_at c l).1 = true
  /\ clean (opt_chars (partition_at c l).2) = true.
Proof.
  intros Hl. pose proof (partition_at_spec c l) as H. destruct (partition_at c l) as [a [b|]];
    destruct H as [-> _]; rewrite clean_app in Hl; simpl in *; bool_to_prop; by split.
Qed.

Lemma clean_no_unsafe l : clean l = true -> List.filter (fun c => negb (unsafe_char c)) l = l.
Proof.
  induction l as [|c l IH]; [done|]. rewrite clean_cons. intros [Hc Hl]%andb_true_iff. simpl.
  assert (refused_char c || negb (unsafe_char c) = true) as H.
  { apply (all_chars_spec (fun c => refused_char c || negb (unsafe_char c))). vm_compute. reflexivity. }
  apply negb_true_iff in Hc. rewrite Hc in H. simpl in H. by rewrite H, IH.
Qed.

(** A part of a string keeps its first character. *)
Lemma part_head c l :
  (partition_at c l).1 = [] \/ exists x k k', (partition_at c l).1 = x :: k /\ l = x :: k'.
Proof.
  pose proof (partition_at_spec c l) as H. destruct (partition_at c l) as [[|x a] b]; [by left|].
  destruct H as [-> _]. right. simpl. eauto.
Qed.

(** What [urlparse] takes from a clean value that starts with a slash: an empty
    scheme, and a network location only after two slashes. *)
Lemma split_slash t :
  split_scheme ("/"%char :: t) = ([], "/"%char :: t).
Proof. unfold split_scheme. simpl. by destruct (partition_at ":" t) as [a [b|]]. Qed.

Lemma split_netloc_empty t l2 :
  split_netloc is_ipv6 ("/"%char :: t) = Ok ([], l2) ->
  l2 = "/"%char :: t /\ (forall k, t <> "/"%char :: k)
  \/ "/"%char :: t = "/"%char :: "/"%char :: l2
     /\ match l2 with [] => True | x :: _ => is_delimiter x = true end.
Proof.
  unfold split_netloc. destruct t as [|b rest]; [intros [= <-]; by left|]. simpl.
  destruct (Ascii.eqb_spec b "/") as [->|Hb].
  - pose proof (span_not_spec is_delimiter rest) as H.
    destruct (span_not is_delimiter rest) as [n rest']. destruct H as (-> & _ & H).
    destruct (check_netloc is_ipv6 n); [|done]. intros [= -> ->]. by right.
  - intros [= <-]. left. split; [done|]. by intros k [= ->].
Qed.

Lemma parse_clean v t parsed :
  clean (chars v) = true -> chars v = "/"%char :: t -> urlparse is_ipv6 v = Ok parsed ->
  netloc parsed = "" ->
  scheme parsed = "" /\ exists l2,
    (l2 = "/"%char :: t /\ (forall k, t <> "/"%char :: k)
     \/ "/"%char :: t = "/"%char :: "/"%char :: l2
        /\ match l2 with [] => True | x :: _ => is_delimiter x = true end)
    /\ let (l3, frag) := partition_at "#" l2 in
       let (l4, q) := partition_at "?" l3 in
       path parsed = of_chars (split_params l4).1 /\ query parsed = of_chars (opt_chars q)
       /\ fragment parsed = of_chars (opt_chars frag).
Proof.
  intros Hc Hv. unfold urlparse. rewrite Hv. rewrite Hv in Hc.
  change (drop_while c0_or_space ("/"%char :: t)) with ("/"%char :: t).
  rewrite clean_no_unsafe by done. rewrite split_slash.
  destruct (split_netloc is_ipv6 _) as [[n l2]|] eqn:En; [|done].
  destruct (partition_at "#" l2) as [l3 frag] eqn:E3. destruct (partition_at "?" l3) as [l4 q] eqn:E4.
  change (uses_params (of_chars [])) with true. cbv iota.
  destruct (split_params l4) as [p ps] eqn:E5. intros [= <-]. simpl. intros Hn.
  split; [done|]. exists l2. destruct n; [|done].
  split; [by apply split_netloc_empty|]. by rewrite E3, E4, E5.
Qed.

(** The path starts with a slash or is empty. *)
Lemma path_head l2 x k :
  (split_params (partition_at "?" (partition_at "#" l2).1).1).1 = x :: k ->
  (exists k', l2 = x :: k ++ k') /\ x <> "?"%char /\ x <> "#"%char.
Proof.
  intros H. pose proof (partition_at_spec "#" l2) as H3. destruct (partition_at "#" l2) as [l3 f].
  destruct H3 as (-> & M3 & _). simpl in H. pose proof (partition_at_spec "?" l3) as H4.
  destruct (partition_at "?" l3) as [l4 q]. destruct H4 as (-> & M4 & _). simpl in H.
  destruct (split_params_app l4) as [r Hr]. rewrite H in Hr. rewrite Hr in *.
  cbn [app mem_char existsb] in M3, M4.
  apply orb_false_iff in M3 as [M3%Ascii.eqb_neq _], M4 as [M4%Ascii.eqb_neq _].
  split_and!; [|congruence..]. simpl. rewrite <- !app_assoc. eauto.
Qed.

Lemma clean_path l : clean l = true -> clean (split_params l).1 = true.
Proof.
  destruct (split_params_app l) as [r Hr]. rewrite Hr at 1. rewrite clean_app.
  by intros [? _]%andb_true_iff.
Qed.

Lemma clean_mark c s :
  negb (refused_char c) = true -> clean (chars s) = true ->
  clean (chars (with_mark (String c "") s)) = true.
Proof.
  intros Hm Hs. unfold with_mark. destruct (truthy s); [|done].
  change (chars (String c "" ++ s)%string) with (c :: chars s). by rewrite clean_cons, Hm, Hs.
Qed.

(** The parts of a clean value that starts with a slash and names no host. *)
Lemma parsed_parts v t parsed :
  chars v = "/"%char :: t -> clean (chars v) = true -> urlparse is_ipv6 v = Ok parsed ->
  netloc parsed = "" ->
  clean (chars (path parsed)) = true /\ clean (chars (query parsed)) = true
  /\ clean (chars (fragment parsed)) = true
  /\ (path parsed = "" \/ exists k, chars (path parsed) = "/"%char :: k
        /\ forall k2, k = "/"%char :: k2 -> startswith v "////" = true).
Proof.
  intros Ht Ec Ep Hn0. destruct (parse_clean v t parsed Ec Ht Ep Hn0) as (_ & l2 & Hl2 & Hparts).
  assert (clean l2 = true) as Hcl.
  { rewrite Ht in Ec. destruct Hl2 as [[-> _]|[E _]]; [done|]. rewrite E, !clean_cons in Ec.
    by apply andb_true_iff in Ec as [_ [_ Ec]%andb_true_iff]. }
  pose proof (path_head l2) as Hhead. pose proof (clean_part "#" l2 Hcl) as [C3 C3'].
  destruct (partition_at "#" l2) as [l3 frag]. simpl in C3, C3', Hhead.
  pose proof (clean_part "?" l3 C3) as [C4 C4']. destruct (partition_at "?" l3) as [l4 q].
  simpl in C4, C4', Hhead. destruct Hparts as (P1 & P2 & P3).
  assert (chars (path parsed) = (split_params l4).1) as P1' by (by rewrite P1, chars_of_chars).
  rewrite P2, P3, !chars_of_chars. split_and!; [by rewrite P1'; apply clean_path|done|done|].
  destruct (chars (path parsed)) as [|y k] eqn:Ek; [left; by apply chars_nil in Ek|right].
  rewrite <- P1' in Hhead. destruct (Hhead y k eq_refl) as ([k' Hk'] & Hq & Hf).
  destruct Hl2 as [[-> Hno]|[E Hd]].
  - injection Hk' as <- Hk'. exists k. split; [done|]. intros k2 ->.
    destruct (Hno k2). simpl in Hk'. congruence.
  - rewrite Hk' in Hd. assert (y = "/"%char) as ->.
    { unfold is_delimiter in Hd. apply orb_true_iff in Hd as [[Hd|Hd]%orb_true_iff|Hd];
        by apply Ascii.eqb_eq in Hd. }
    exists k. split; [done|]. intros k2 ->. apply startswith_app. rewrite Ht, E, Hk'. simpl. eauto.
Qed.

(** The query and the fragment, as they are appended, do not start with a slash. *)
Lemma tail_of_marks q f :
  clean (chars q) = true -> clean (chars f) = true ->
  let tail := (with_mark "?" q ++ with_mark "#" f)%string in
  clean (chars tail) = true /\ forall k, chars tail <> "/"%char :: k.
Proof.
  intros Hq Hf tail. unfold tail. split.
  - rewrite chars_app, clean_app. by rewrite !clean_mark.
  - unfold with_mark. intros k. destruct (truthy q); [done|]. by destruct (truthy f).
Qed.

(** C34. A redirect path that is accepted stays a path: it starts with a slash, has no
    backslash and no control character, and has at most 2048 characters.  It starts
    with two slashes, which a browser would follow to another host, only when the
    requested value starts with four. *)
Theorem redirect_path_shape value p :
  normalize_redirect_path is_ipv6 value = Ok p ->
  startswith p "/" = true /\ clean (chars p) = true /\ str_len p <= 2048
  /\ (startswith p "//" = true -> exists v, value = Some v /\ startswith v "////" = true).
Proof.
  assert (Ok DEFAULT_REDIRECT_PATH = Ok p ->
    startswith p "/" = true /\ clean (chars p) = true /\ str_len p <= 2048
    /\ (startswith p "//" = true -> exists v, value = Some v /\ startswith v "////" = true)) as Hdef.
  { intros [= <-]. split_and!; vm_compute; done. }
  unfold normalize_redirect_path. destruct value as [v|]; [|exact Hdef].
  destruct (negb (truthy v)); [exact Hdef|]. destruct (2048 <? str_len v); [exact Hdef|].
  destruct (startswith v "/") eqn:Es; cbn [negb]; [|exact Hdef].
  destruct (_ || _) eqn:Ec; [exact Hdef|]. apply clean_checked in Ec.
  destruct (urlparse is_ipv6 v) as [parsed|e] eqn:Ep; [|done].
  change (Ok (normalize_parsed parsed) = Ok p -> startswith p "/" = true /\ clean (chars p) = true
    /\ str_len p <= 2048
    /\ (startswith p "//" = true -> exists v0, Some v = Some v0 /\ startswith v0 "////" = true)).
  unfold normalize_parsed. destruct (truthy (scheme parsed) || truthy (netloc parsed)) eqn:En;
    [exact Hdef|].
  destruct (existsb _ _); [exact Hdef|]. destruct (2048 <? str_len _) eqn:El; [exact Hdef|].
  apply Z.ltb_ge in El. intros [= <-]. apply startswith_app in Es as [t Ht]. simpl in Ht.
  apply orb_false_iff in En as [_ Hn%negb_false_iff%String.eqb_eq].
  destruct (parsed_parts v t parsed Ht Ec Ep Hn) as (Cp & Cq & Cf & Hpath).
  destruct (tail_of_marks (query parsed) (fragment parsed) Cq Cf) as [Ctail Htail].
  set (tail := (with_mark "?" (query parsed) ++ with_mark "#" (fragment parsed))%string) in *.
  clearbody tail. destruct Hpath as [Hp0|(k & Ek & Hk)].
  - rewrite Hp0 in *. split_and!; [| |done|].
    + apply startswith_app. by exists (chars tail).
    + rewrite chars_app, clean_app, Ctail. done.
    + intros [k2 H2]%startswith_app. simpl in H2. injection H2 as H2. by apply Htail in H2.
  - assert (truthy (path parsed) = true) as Et by (apply truthy_spec; intros E; by rewrite E in Ek).
    rewrite Et in *. split_and!; [| |done|].
    + apply startswith_app. exists (k ++ chars tail). by rewrite chars_app, Ek.
    + by rewrite chars_app, clean_app, Ctail, Cp.
    + intros [k2 H2]%startswith_app. exists v. split; [done|]. rewrite chars_app, Ek in H2.
      simpl in H2. injection H2 as H2. destruct k as [|z k]; simpl in H2; [by apply Htail in H2|].
      injection H2 as -> H2. by eapply Hk.
Qed.

(** The exception is real: a value with four slashes passes every check and is
    returned with two, which a browser takes for a reference to another host. *)
Theorem redirect_path_protocol_relative :
  normalize_redirect_path is_ipv6 (Some "////evil.example/login"%string)
  = Ok "//evil.example/login"%string.
Proof. reflexivity. Qed.
End Spec.

(** ** Instance *)

Lemma redirect_path_shape_witness :
  startswith "/items?page=2#top" "/" = true /\ str_len "/items?page=2#top" <= 2048.
Proof.
  destruct (redirect_path_shape (fun _ => false) (Some "/items?page=2#top"%string) "/items?page=2#top")
    as (H1 & _ & H3 & _); [vm_compute; reflexivity|]. split; [exact H1|exact H3].
Defined.
