(* ===== verification/OidcSpec.v ===== *)
(** * What the OpenID Connect flow does

    Consumption of an authorization state, linking and provisioning policy,
    re-authentication, and that a failed callback changes nothing. *)

From S2P Require Import Prelude PyStr Errors Time Url Tables Effects UnitOfWork Preserve.
From S2P Require Import Settings Authorization Interfaces AuthRepository.
From S2P Require Import AuthorizationRepository SampleItemRepository Runs Integrity Lookups.
From S2P Require Import AuthUsecase AuthUsecaseSpec OAuthOidcUsecase Closure Demo.

Section Spec.
Context `{E : Env} {L : Type} `{R : LoginRateLimiter L} `{P : OidcProviderClient L}.
Context (auth_settings : AuthSettings) (oidc_settings : OidcSettings).
Implicit Types (x : World L) (b : bool) (c d : DB).

(** ** Authorization states *)

Lemma consume_state_ok sh bh t b c d x :
  db_ok d ->
  consume_oidc_authorization_state sh bh t (at_db b c d x)
  = (Ok (consumption (state_of d sh) bh t d).1, at_db b c (consumption (state_of d sh) bh t d).2 x).
Proof.
  intros Hd. apply consume_state_at; [by apply find_state_one| |].
  - intros o Ho. by apply state_of_Some in Ho as [? _].
  - intros o Ho. apply state_of_Some in Ho as [Ho _]; [|done]. by eapply state_row_ok_update.
Qed.

(** The state may be consumed at a time by the browser that started the flow. *)
Definition consumable (o : AuthOidcState) (cookie : string) (now : Z) : Prop :=
  o_consumed_at o = None /\ now < o_expires_at o /\ o_browser_binding_hash o = hash_token cookie.

Definition state_consumed_at (o : AuthOidcState) (now : Z) d : DB :=
  with_oidc_states <[o_id o := set_consumed (stored now) o]> d.

Lemma consumption_cases sh cookie now d :
  db_ok d ->
  let r := consumption (state_of d sh) (hash_token cookie) now d in
  (exists o, state_of d sh = Some o /\ consumable o cookie now
     /\ r = (ConsumeResult consumed (Some (set_consumed (stored now) o)), state_consumed_at o now d))
  \/ ((forall o, state_of d sh = Some o -> ~ consumable o cookie now)
      /\ cr_status r.1 <> consumed /\ r.2 = d).
Proof.
  intros Hd r. unfold r, consumption, consumable. clear r.
  destruct (state_of d sh) as [o|]; [|right; split_and!; done].
  destruct (o_consumed_at o) eqn:Ec; simpl.
  { right. split_and!; try done. intros o' [= <-] (H & _). congruence. }
  destruct (Z.leb_spec (o_expires_at o) now).
  { right. split_and!; try done. intros o' [= <-] (_ & H' & _). lia. }
  destruct (String.eqb_spec (o_browser_binding_hash o) (hash_token cookie)); simpl.
  - left. by exists o.
  - right. split_and!; try done. intros o' [= <-] (_ & _ & H'). by destruct n.
Qed.

(** The errors of a state that is not accepted. *)
Definition state_error (e : exn) : Prop :=
  e = OidcError OidcStateMismatchError \/ e = OidcError OidcBrowserBindingMismatchError.

Lemma consume_callback_state_cases provider state cookie c d x :
  db_ok d ->
  let sh := hash_token state in
  let now := env_now (w_clock x) in
  exists x', (w_token x' = w_token x /\ w_ext x' = w_ext x) /\
  ((exists ck o, cookie = Some ck /\ state_of d sh = Some o /\ consumable o ck now
     /\ o_provider_id o = provider_id provider
     /\ consume_callback_state provider state cookie (at_db false c d x)
        = (Ok (set_consumed (stored now) o), at_db false c (state_consumed_at o now d) x'))
   \/ (exists ck o, cookie = Some ck /\ state_of d sh = Some o /\ consumable o ck now
     /\ o_provider_id o <> provider_id provider
     /\ consume_callback_state provider state cookie (at_db false c d x)
        = (Raise (OidcError OidcStateMismatchError), at_db false c (state_consumed_at o now d) x'))
   \/ (~ (exists ck o, cookie = Some ck /\ state_of d sh = Some o /\ consumable o ck now)
     /\ exists e, state_error e
     /\ consume_callback_state provider state cookie (at_db false c d x)
        = (Raise e, at_db false c d x'))).
Proof.
  intros Hd sh now. unfold consume_callback_state. destruct cookie as [ck|].
  2: { exists x. split; [done|]. right; right. split; [naive_solver|].
       exists (OidcError OidcBrowserBindingMismatchError). split; [by right|done]. }
  exists (tick_clock x). split; [done|].
  rewrite bind_run, utcnow_at. cbv zeta. rewrite bind_run, transaction_at, consume_state_ok by done.
  fold sh. fold now. destruct (consumption_cases sh ck now d Hd) as [(o & Ho & Hc & Heq)|(Hno & Hst & Heq)].
  - rewrite Heq. cbn [fst snd]. rewrite w_tx_at, commit_at. cbn [cr_status cr_state].
    destruct (String.eqb_spec (o_provider_id (set_consumed (stored now) o)) (provider_id provider)).
    + left. exists ck, o. split_and!; try done; by destruct Hc.
    + right; left. exists ck, o. split_and!; try done; by destruct Hc.
  - rewrite Heq. set (r := consumption _ _ _ _) in *. clearbody r. cbv iota beta. rewrite w_tx_at, commit_at.
    right; right. split; [naive_solver|].
    destruct r as [[st ost] ?]. simpl in *.
    destruct st; try done; eexists; (split; [by (left + right)|reflexivity]).
Qed.

(** ** Who an identity logs in *)

(** The verified e-mail that a provider is trusted for. *)
Definition trusted_email (provider : OidcProviderSettings) (claims : OidcVerifiedClaims) (em : string) : Prop :=
  trust_verified_email provider = true /\ cl_email_verified claims = true
  /\ exists e, cl_email claims = Some e /\ em = normalize_email e /\ em <> "".

Lemma trusted_verified_email_inv provider claims em :
  trusted_verified_email provider claims = Ok em -> trusted_email provider claims em.
Proof.
  unfold trusted_verified_email, trusted_email. destruct (cl_email claims) as [e|]; [|done].
  destruct (trust_verified_email provider), (cl_email_verified claims); simpl; try done.
  destruct (truthy (normalize_email e)) eqn:Et; [|done]. simpl. intros [= <-].
  split_and!; [done..|]. exists e. split_and!; [done..|]. by apply truthy_spec.
Qed.

(** The three ways a verified identity opens an account: it is already linked to an
    account that may be used; the provider links automatically and its trusted
    e-mail belongs to an active account; or it may provision and no account has
    that e-mail. *)
Inductive resolves (provider : OidcProviderSettings) (claims : OidcVerifiedClaims) d
  : User -> AuthIdentity -> list AuthEventType -> DB -> Prop :=
| resolves_linked u i :
    identity_of d (provider_id provider) (cl_subject claims) = Some i ->
    users d !! i_user_id i = Some u -> u_deleted_at u = None -> u_is_active u = true ->
    resolves provider claims d u i [] d
| resolves_auto_link u i em :
    identity_of d (provider_id provider) (cl_subject claims) = None ->
    trusted_email provider claims em -> provider_link_mode provider = LinkAuto ->
    user_by_email d (normalize_email em) = Some u -> u_is_active u = true ->
    i_user_id i = u_id u -> i_provider_id i = provider_id provider ->
    i_provider_subject i = cl_subject claims -> identities d !! i_id i = None ->
    resolves provider claims d u i [OIDC_IDENTITY_LINKED] (with_identities <[i_id i := i]> d)
| resolves_provision u i em :
    identity_of d (provider_id provider) (cl_subject claims) = None ->
    trusted_email provider claims em -> allows_auto_provision provider = true ->
    user_by_email d (normalize_email em) = None -> users d !! u_id u = None ->
    u_email u = em -> u_password_hash u = None -> u_is_active u = true -> u_deleted_at u = None ->
    i_user_id i = u_id u -> i_provider_id i = provider_id provider ->
    i_provider_subject i = cl_subject claims -> identities d !! i_id i = None ->
    resolves provider claims d u i [OIDC_USER_PROVISIONED]
      (with_identities <[i_id i := i]> (with_users <[u_id u := u]> d)).

Lemma create_identity_for_claims_inv provider claims uid b c d x i w' :
  create_identity_for_claims provider claims uid (at_db b c d x) = (Ok i, w') ->
  i_user_id i = uid /\ i_provider_id i = provider_id provider
  /\ i_provider_subject i = cl_subject claims /\ identities d !! i_id i = None
  /\ (db_ok d -> db_ok (with_identities <[i_id i := i]> d))
  /\ exists x', w' = at_db b c (with_identities <[i_id i := i]> d) x' /\ w_token x' = w_token x.
Proof.
  unfold create_identity_for_claims. rewrite bind_run, uuid4_at, bind_run, utcnow_at.
  rewrite create_identity_at. destruct (is_none _ && _) eqn:Eo; [|done].
  apply andb_true_iff in Eo as [Hn%is_none_true Hr]. intros [= <- <-]. split_and!; try done.
  - intros Hd. by apply db_ok_identities_insert.
  - by eexists.
Qed.

Lemma resolve_inv provider claims lang c d x u i ev w' :
  db_ok d ->
  resolve_login_user_and_identity provider claims lang (at_db true c d x) = (Ok (u, i, ev), w') ->
  exists d' x', w' = at_db true c d' x' /\ w_token x' = w_token x /\ resolves provider claims d u i ev d'
    /\ db_ok d' /\ users d' !! u_id u = Some u /\ u_deleted_at u = None.
Proof.
  intros Hd. unfold resolve_login_user_and_identity.
  rewrite bind_run, find_identity_at, find_identity_one by done.
  destruct (identity_of d _ _) as [i0|] eqn:Ei.
  - rewrite bind_run, find_user_by_id_ok by done. destruct (users d !! i_user_id i0) as [u0|] eqn:Eu; [|done].
    destruct (is_some (u_deleted_at u0) || negb (u_is_active u0)) eqn:Eb; [done|]. bool_to_prop.
    rewrite ret_run. intros [= <- <- <- <-].
    assert (u_deleted_at u0 = None) as Hdel by (by destruct (u_deleted_at u0)).
    exists d, x. split_and!; try done; [by apply resolves_linked|].
    by rewrite (ok_users_keyed _ Hd _ _ Eu).
  - rewrite bind_run, lift_run. destruct (trusted_verified_email _ _) as [em|] eqn:Et; [|done].
    apply trusted_verified_email_inv in Et.
    rewrite bind_run, find_link_user_at, find_link_one by done.
    destruct (head _) as [lu|] eqn:El.
    + apply head_select in El as [[Hem Hact]%andb_true_iff [k Hk]].
      pose proof (ok_users_keyed _ Hd _ _ Hk) as Hid.
      destruct (provider_link_mode provider) eqn:Em; try done.
      intros [(e & _ & ?)|(i1 & w1 & Hc & Hr)]%bind_inv; [done|].
      apply create_identity_for_claims_inv in Hc as (H1 & H2 & H3 & H4 & H5 & x' & -> & Ht).
      rewrite ret_run in Hr. injection Hr as <- <- <- <-.
      eexists _, x'. split_and!; [reflexivity|done| |by apply H5| |].
      * eapply resolves_auto_link; try done.
        unfold user_by_email. erewrite select_unique; [|exact Hk|exact Hem|]; [done|].
        intros k' r' Hk' Hr'. by eapply active_email_unique.
      * simpl. by rewrite Hid.
      * unfold active_email in Hem. apply andb_true_iff in Hem as [_ Hn]. by destruct (u_deleted_at lu).
    + rewrite bind_run, find_collision_user_at, find_user_one by done.
      destruct (user_by_email d _) as [cu|] eqn:Ec; [done|].
      unfold provision_user. destruct (allows_auto_provision provider) eqn:Ep; cbn [negb]; [|done].
      rewrite bind_run. unfold try_except. rewrite create_user_at. cbv zeta.
      destruct (is_none _ && _) eqn:Eo; [|done].
      apply andb_true_iff in Eo as [Hn%is_none_true Hr].
      intros [(e & _ & ?)|(i1 & w1 & Hc & Hr')]%bind_inv; [done|].
      apply create_identity_for_claims_inv in Hc as (H1 & H2 & H3 & H4 & H5 & x' & -> & Ht).
      rewrite ret_run in Hr'. injection Hr' as <- <- <- <-.
      eexists _, x'. split_and!; [reflexivity|done| |apply H5| |done].
      * match goal with |- resolves _ _ _ ?v _ _ _ =>
          refine (resolves_provision provider claims d v i1 em _ _ _ _ _ _ _ _ _ _ _ _ _); done end.
      * by apply db_ok_users_insert.
      * simpl. by rewrite lookup_insert_eq.
Qed.

(** The session that a login callback issues: new, for the account the identity
    resolves to, and stored with the provider's authentication time. *)
Record callback_session (provider : OidcProviderSettings) (claims : OidcVerifiedClaims)
    (tok csrf : string) (ip ua : option string) d d' (u u' : User) (s : AuthSession) : Prop := {
  cs_resolves : exists i ev d1, resolves provider claims d u i ev d1;
  cs_user : exists t, u' = set_last_login (stored t) u;
  cs_user_row : users d' !! u_id u = Some u';
  cs_fresh : exists issued, fresh_session auth_settings (u_id u) tok csrf ip ua issued s;
  cs_row : sessions d' !! s_id s = Some (match cl_auth_time claims with
                                          | Some a => set_oidc_authenticated (stored a) s
                                          | None => s
                                          end);
}.

Lemma complete_login_callback_inv provider o claims t ip ua c d x r w' :
  db_ok d ->
  complete_login_callback auth_settings provider o claims t ip ua (at_db false c d x) = (Ok r, w') ->
  exists u u' s d' x',
    let tok := env_token (w_token x) in
    let csrf := env_token (S (w_token x)) in
    callback_session provider claims tok csrf ip ua d d' u u' s
    /\ r = CallbackResult (o_redirect_path o)
            (Some (Issued u' s tok csrf (ua_roles (authorization_of d' (u_id u)))
                     (ua_permissions (authorization_of d' (u_id u))))) None
    /\ w' = at_db false c d' x'.
Proof.
  intros Hd. unfold complete_login_callback. cbv zeta.
  intros [(e & _ & ?)|([u1 [[s tok] csrf]] & w1 & Ht & Hr)]%bind_inv; [done|].
  unfold login_callback_transaction in Ht. apply transaction_ok_inv in Ht as (w2 & Hb & Hw).
  apply bind_inv in Hb as [(e & _ & ?)|([[u i] ev] & w3 & Hres & Hb)]; [done|].
  apply resolve_inv in Hres as (d1 & x1 & -> & Ht1 & Hres & Hd1 & Hu & Hdel); [|done].
  rewrite bind_run, utcnow_at, bind_run in Hb.
  destruct (record_user_login_ok (u_id u) u (env_now (w_clock x1)) true d d1 (tick_clock x1) Hd1 Hu Hdel)
    as [Hl Hd2]. rewrite Hl in Hb. clear Hl. set (u' := set_last_login _ u) in *.
  apply bind_inv in Hb as [(e & _ & ?)|([[s' tok'] csrf'] & w4 & Hi & Hb)]; [done|].
  apply replace_auth_session_inv in Hi as (s0 & x2 & Hrr & -> & _ & Hf & Hfree & _ & _ & Hd3 & Eu & Ea);
    [|done]. simplify_eq.
  change (u_id u') with (u_id u) in *.
  change (w_token (tick_clock x1)) with (w_token x1) in *. rewrite Ht1 in *.
  cbn [fst snd] in Hb. apply bind_inv in Hb as [(e & _ & ?)|([] & w5 & Ho & Hb)]; [done|].
  apply record_oidc_login_inv in Ho as (u2 & s2 & Hu2 & _ & Hs2 & ->).
  assert (u2 = u') as ->.
  { rewrite Eu in Hu2. simpl in Hu2. rewrite lookup_insert_eq in Hu2. by simplify_eq. }
  assert (s2 = s0) as ->.
  { simpl in Hs2. rewrite lookup_insert_eq in Hs2. by simplify_eq. }
  apply bind_inv in Hb as [(e & _ & ?)|([] & w6 & Hau & Hb)]; [done|].
  apply audits_inv in Hau as (logs & x3 & -> & Ht3).
  apply bind_inv in Hb as [(e & _ & ?)|([] & w7 & Hc & Hb)]; [done|].
  apply create_audit_log_inv in Hc as (x4 & _ & Ht4 & _ & [(_ & a & _ & _ & ->)|(e & ? & _)]); [|done].
  rewrite ret_run in Hb. simplify_eq. specialize (Hw _ _ eq_refl). subst w1.
  set (d9 := with_audit_logs _ _) in Hr.
  rewrite bind_run, authorization_at, ret_run in Hr. injection Hr as <- <-.
  exists u, (set_last_login (stored (env_now (w_clock x1))) u), s, d9, x4. cbv zeta.
  split; [|split; reflexivity].
  split; try by eauto.
  - simpl. rewrite lookup_insert_eq. done.
  - simpl. destruct (cl_auth_time claims); simpl; rewrite lookup_insert_eq; done.
Qed.

(** What a re-authentication callback that returns has checked and done. *)
Lemma complete_reauth_callback_inv provider o claims cur ip ua c d x r w' :
  db_ok d ->
  complete_reauth_callback oidc_settings provider o claims cur ip ua (at_db false c d x) = (Ok r, w') ->
  exists ctx i t s a x',
    cur = Some ctx /\ r = CallbackResult (o_redirect_path o) None (Some ctx)
    /\ o_expected_user_id o = Some (u_id (ctx_user ctx))
    /\ o_expected_session_id o = Some (s_id (ctx_session ctx))
    /\ identity_of d (provider_id provider) (cl_subject claims) = Some i
    /\ i_user_id i = u_id (ctx_user ctx)
    /\ cl_auth_time claims = Some t
    /\ env_now (w_clock x) - t <= timedelta_seconds (AUTH_OIDC_REAUTH_FRESHNESS_SECONDS oidc_settings)
    /\ sessions d !! s_id (ctx_session ctx) = Some s
    /\ w' = at_db false c (with_audit_logs <[a_id a := a]>
         (with_sessions <[s_id s := set_oidc_authenticated (stored t) s]> d)) x'.
Proof.
  intros Hd. unfold complete_reauth_callback. destruct cur as [ctx|]; [|done]. cbv zeta.
  destruct (negb _ || negb _) eqn:Eb; [done|]. bool_to_prop.
  rewrite bind_run, find_identity_at, find_identity_one by done.
  destruct (identity_of d _ _) as [i|] eqn:Ei; [|done].
  destruct (i_user_id i =? u_id (ctx_user ctx)) eqn:Eu; cbn [negb]; [|done]. apply Z.eqb_eq in Eu.
  destruct (cl_auth_time claims) as [t|] eqn:Et; [|done].
  rewrite bind_run, utcnow_at. destruct (_ <? _) eqn:El; [done|]. apply Z.ltb_ge in El.
  rewrite bind_run, utcnow_at.
  intros [(e & _ & ?)|([] & w1 & Ht & Hr)]%bind_inv; [done|].
  rewrite ret_run in Hr. simplify_eq.
  apply transaction_ok_inv in Ht as (w2 & Hb & Hw).
  rewrite bind_run, record_oidc_reauth_at in Hb.
  destruct (sessions d !! s_id (ctx_session ctx)) as [s|] eqn:Es; [|done]. cbv zeta in Hb.
  destruct (session_row_ok d _); [|done]. cbv beta iota in Hb.
  apply create_audit_log_inv in Hb as (x4 & _ & _ & _ & [(_ & a & _ & _ & ->)|(e & ? & _)]); [|done].
  exists ctx, i, t, s, a, x4. rewrite (ok_sessions_keyed _ Hd _ _ Es). split_and!; try done. by apply Hw.
Qed.

(** ** The whole callback *)

Lemma configured_provider_run pid (w : World L) :
  configured_provider oidc_settings pid w
  = (match get_provider oidc_settings pid with
     | Ok p => Ok p
     | Raise (KeyError _) => Raise (OidcError OidcProviderNotConfiguredError)
     | Raise e => Raise e
     end, w).
Proof.
  unfold configured_provider, try_except. rewrite lift_run.
  by destruct (get_provider oidc_settings pid) as [p|[]].
Qed.

Lemma get_provider_error pid e : get_provider oidc_settings pid = Raise e -> e = KeyError pid.
Proof.
  unfold get_provider. induction (providers oidc_settings) as [|p l IH]; simpl; [by intros [= <-]|].
  by destruct (provider_id p =? pid)%string.
Qed.

Lemma get_provider_ok pid p : get_provider oidc_settings pid = Ok p -> provider_id p = pid.
Proof.
  unfold get_provider. induction (providers oidc_settings) as [|q l IH]; simpl; [done|].
  destruct (String.eqb_spec (provider_id q) pid); [by intros [= <-]|done].
Qed.

(** The exchange of the code and the verification of the identity token. *)
Definition verified (provider : OidcProviderSettings) (o : AuthOidcState) (code : string)
    (claims : OidcVerifiedClaims) (w : World L) : Prop :=
  exists id_token,
    let exchanged := oc_exchange_code (provider_id provider) code (o_pkce_verifier o) (w_ext w) in
    exchanged.1 = Ok id_token
    /\ (oc_validate_id_token (provider_id provider) id_token (o_nonce_hash o)
          (is_reauth (o_purpose o)) exchanged.2).1 = Ok claims.

Lemma call_ext_raising_at {A} (f : L -> result A * L) b c d x :
  call_ext_raising f (at_db b c d x)
  = ((f (w_ext x)).1, at_db b c d (set_ext (f (w_ext x)).2 x)).
Proof. unfold call_ext_raising. simpl. by destruct (f (w_ext x)). Qed.

(** The callback that continues a consumed state with verified claims. *)
Definition finish_callback (provider : OidcProviderSettings) (o : AuthOidcState)
    (claims : OidcVerifiedClaims) (cur : option AuthenticatedSessionContext)
    (t ip ua : option string) : M L OidcCallbackResult :=
  if is_reauth (o_purpose o) then complete_reauth_callback oidc_settings provider o claims cur ip ua
  else complete_login_callback auth_settings provider o claims t ip ua.

Lemma run_callback_ok provider o code cur t ip ua c d x r w' :
  run_callback auth_settings oidc_settings provider o code cur t ip ua (at_db false c d x) = (Ok r, w') ->
  exists claims x', verified provider o code claims x /\ w_token x' = w_token x
    /\ w_clock x' = w_clock x
    /\ finish_callback provider o claims cur t ip ua (at_db false c d x') = (Ok r, w').
Proof.
  unfold run_callback, try_except, exchange_code, validate_id_token.
  rewrite bind_run, call_ext_raising_at.
  destruct (oc_exchange_code _ _ _ _) as [[id_token|e] l1] eqn:E1; cbn [fst snd].
  2: { rewrite bind_run. by destruct (audit_callback_failure _ _ _ _ _ _ _) as [[]]. }
  rewrite bind_run, call_ext_raising_at. change (w_ext (set_ext l1 x)) with l1.
  destruct (oc_validate_id_token _ _ _ _ _) as [[claims|e] l2] eqn:E2; cbn [fst snd].
  2: { rewrite bind_run. by destruct (audit_callback_failure _ _ _ _ _ _ _) as [[]]. }
  set (x' := set_ext l2 (set_ext l1 x)).
  change (match finish_callback provider o claims cur t ip ua (at_db false c d x') with
          | (Ok a, w'0) => (Ok a, w'0)
          | (Raise e, w'0) => (audit_callback_failure (provider_id provider) o e cur ip ua ;;
              raise (OidcCallbackFlowError e (o_purpose o) (o_redirect_path o))) w'0
          end = (Ok r, w') -> exists claims x', verified provider o code claims x
    /\ w_token x' = w_token x /\ w_clock x' = w_clock x
    /\ finish_callback provider o claims cur t ip ua (at_db false c d x') = (Ok r, w')).
  destruct (finish_callback _ _ _ _ _ _ _ _) as [[a|e] w1] eqn:Ef.
  - intros [= -> ->]. exists claims, x'. split_and!; try done.
    exists id_token. cbv zeta. rewrite E1. cbn [fst snd]. by rewrite E2.
  - rewrite bind_run. by destruct (audit_callback_failure _ _ _ _ _ _ _) as [[]].
Qed.

(** What a callback that returns has checked: the state was issued for this provider and browser,
    unexpired and unconsumed, and the provider vouched for the claims. *)
Record callback_accepted (pid state code : string) (cookie : option string)
    (provider : OidcProviderSettings) (o : AuthOidcState) (claims : OidcVerifiedClaims)
    (w : World L) : Prop := {
  ca_provider : get_provider oidc_settings pid = Ok provider;
  ca_state : state_of (w_committed w) (hash_token state) = Some o;
  ca_consumable : exists ck, cookie = Some ck /\ consumable o ck (env_now (w_clock w));
  ca_same_provider : o_provider_id o = pid;
  ca_verified : verified provider o code claims w;
}.

Lemma complete_callback_inv pid state code cookie cur t ip ua c d x r w' :
  db_ok d ->
  complete_callback auth_settings oidc_settings pid state code cookie cur t ip ua (at_db false c d x)
  = (Ok r, w') ->
  exists provider o claims x',
    let now := env_now (w_clock x) in
    callback_accepted pid state code cookie provider o claims (at_db false c d x)
    /\ w_token x' = w_token x /\ db_ok (state_consumed_at o now d)
    /\ finish_callback provider (set_consumed (stored now) o) claims cur t ip ua
         (at_db false c (state_consumed_at o now d) x') = (Ok r, w').
Proof.
  intros Hd. unfold complete_callback. rewrite bind_run, configured_provider_run.
  destruct (get_provider oidc_settings pid) as [provider|e] eqn:Ep.
  2: { apply get_provider_error in Ep as ->. done. }
  rewrite bind_run.
  destruct (consume_callback_state_cases provider state cookie c d x Hd)
    as (x1 & [Ht Hx] & [(ck & o & Hck & Ho & Hc & Hpid & ->)|[(ck & o & _ & _ & _ & _ & ->)|(_ & e & _ & ->)]]);
    [|done|done].
  assert (db_ok (state_consumed_at o (env_now (w_clock x)) d)) as Hd1.
  { destruct (state_of_Some _ _ _ Hd Ho) as [Hk _].
    apply db_ok_states_insert; [done..|by eapply state_row_ok_update]. }
  intros (claims & x2 & Hv & Ht2 & _ & Hf)%run_callback_ok.
  exists provider, o, claims, x2. cbv zeta. split_and!; [|congruence|done|done].
  split; [done|done|eauto|by rewrite Hpid; apply get_provider_ok|].
  destruct Hv as (id_token & Hv). exists id_token. cbv zeta in Hv |- *. by rewrite Hx in Hv.
Qed.

(** C29. The authorization state of a callback is accepted exactly when the request
    comes with the cookie of the browser that started the flow, and the state exists,
    has not been used, has not expired and belongs to the provider; accepting it
    marks it used.  A state used with another provider is spent as well; in every
    other case nothing changes and the request fails. *)
Theorem consume_callback_state_spec provider state cookie (w : World L) :
  idle w -> db_ok (w_committed w) ->
  let d := w_committed w in
  let now := env_now (w_clock w) in
  let usable o := exists ck, cookie = Some ck /\ consumable o ck now in
  exists w', idle w' /\
  match state_of d (hash_token state) with
  | Some o =>
      (usable o -> o_provider_id o = provider_id provider ->
         consume_callback_state provider state cookie w = (Ok (set_consumed (stored now) o), w')
         /\ w_committed w' = state_consumed_at o now d)
      /\ (usable o -> o_provider_id o <> provider_id provider ->
         consume_callback_state provider state cookie w
         = (Raise (OidcError OidcStateMismatchError), w')
         /\ w_committed w' = state_consumed_at o now d)
      /\ (~ usable o -> exists e, state_error e
         /\ consume_callback_state provider state cookie w = (Raise e, w') /\ w_committed w' = d)
  | None => exists e, state_error e
         /\ consume_callback_state provider state cookie w = (Raise e, w') /\ w_committed w' = d
  end.
Proof.
  intros Hidle Hd. rewrite (idle_at w Hidle). set (d := w_committed w) in *. clearbody d.
  intros d' now us. subst d'. change (w_committed (at_db false d d w)) with d.
  change (w_clock (at_db false d d w)) with (w_clock w) in now.
  destruct (consume_callback_state_cases provider state cookie d d w Hd)
    as (x1 & _ & [(ck & o & Hck & Ho & Hc & Hpid & Heq)|[(ck & o & Hck & Ho & Hc & Hpid & Heq)|(Hno & e & He & Heq)]]).
  - rewrite Ho. assert (us o) by (by exists ck). eexists. split; [by apply idle_at_db|].
    by split_and!.
  - rewrite Ho. assert (us o) by (by exists ck). eexists. split; [by apply idle_at_db|].
    by split_and!.
  - exists (at_db false d d x1). split; [done|].
    destruct (state_of d (hash_token state)) as [o|] eqn:Ho; [|by exists e].
    assert (~ us o) by (intros (ck & ? & ?); apply Hno; by exists ck, o).
    split_and!; try done. intros _. by exists e.
Qed.

(** C12. An OpenID Connect login that returns a session was authorized: the state was
    acceptable, the provider's token verified against the nonce and code verifier
    of that state, and the claims resolve to an account that may be used (linked,
    linked now by a trusted verified e-mail of a provider that links automatically,
    or provisioned for an unused trusted e-mail).  The session is new, belongs to
    that account, is stored with the provider's authentication time, and the state
    is used up. *)
Theorem oidc_login_ok pid state code cookie cur t ip ua (w w' : World L) r iss :
  idle w -> db_ok (w_committed w) ->
  complete_callback auth_settings oidc_settings pid state code cookie cur t ip ua w = (Ok r, w') ->
  cb_issued_session r = Some iss ->
  exists provider o claims u,
    callback_accepted pid state code cookie provider o claims w
    /\ o_purpose o = PurposeLogin /\ cb_redirect_path r = o_redirect_path o
    /\ callback_session provider claims (is_session_token iss) (is_csrf_token iss) ip ua
         (state_consumed_at o (env_now (w_clock w)) (w_committed w)) (w_committed w')
         u (is_user iss) (is_session iss)
    /\ is_session_token iss = env_token (w_token w) /\ is_csrf_token iss = env_token (S (w_token w))
    /\ is_roles iss = ua_roles (authorization_of (w_committed w') (u_id u))
    /\ idle w'.
Proof.
  intros Hidle Hd. rewrite (idle_at w Hidle). set (d := w_committed w) in *. clearbody d.
  change (w_committed (at_db false d d w)) with d in *.
  intros (provider & o & claims & x' & Ha & Ht & Hd1 & Hf)%complete_callback_inv Hiss; [|done].
  unfold finish_callback in Hf. destruct (is_reauth _) eqn:Er.
  { apply complete_reauth_callback_inv in Hf as (?&?&?&?&?&?&?& -> &?); done. }
  apply complete_login_callback_inv in Hf as (u & u' & s & d' & x2 & Hcs & -> & ->); [|done].
  simpl in Hiss. simplify_eq. simpl. rewrite Ht in *.
  exists provider, o, claims, u. split_and!; try done.
  unfold is_reauth in Er. simpl in Er. by destruct (o_purpose o).
Qed.

(** C13. A re-authentication that returns proves the same account again: the state was
    issued to this session of this account, the provider's verified identity is
    linked to this account, and its authentication is fresh; the effect is that
    the session records the authentication time, and the state is used up. *)
Theorem oidc_reauth_ok pid state code cookie cur t ip ua (w w' : World L) r ctx :
  idle w -> db_ok (w_committed w) ->
  complete_callback auth_settings oidc_settings pid state code cookie cur t ip ua w = (Ok r, w') ->
  cb_reauthenticated_context r = Some ctx ->
  exists provider o claims i auth_time s a clock',
    callback_accepted pid state code cookie provider o claims w
    /\ o_purpose o = PurposeAccountDeletionReauth
    /\ cur = Some ctx /\ cb_issued_session r = None
    /\ o_expected_user_id o = Some (u_id (ctx_user ctx))
    /\ o_expected_session_id o = Some (s_id (ctx_session ctx))
    /\ identity_of (w_committed w) pid (cl_subject claims) = Some i
    /\ i_user_id i = u_id (ctx_user ctx)
    /\ cl_auth_time claims = Some auth_time
    /\ env_now clock' - auth_time
         <= timedelta_seconds (AUTH_OIDC_REAUTH_FRESHNESS_SECONDS oidc_settings)
    /\ sessions (w_committed w) !! s_id (ctx_session ctx) = Some s
    /\ w_committed w' = with_audit_logs <[a_id a := a]>
         (with_sessions <[s_id s := set_oidc_authenticated (stored auth_time) s]>
           (state_consumed_at o (env_now (w_clock w)) (w_committed w)))
    /\ idle w'.
Proof.
  intros Hidle Hd. rewrite (idle_at w Hidle). set (d := w_committed w) in *. clearbody d.
  change (w_committed (at_db false d d w)) with d in *.
  intros (provider & o & claims & x' & Ha & Ht & Hd1 & Hf)%complete_callback_inv Hctx; [|done].
  unfold finish_callback in Hf. destruct (is_reauth _) eqn:Er.
  2: { apply complete_login_callback_inv in Hf as (?&?&?&?&?&?& -> &?); done. }
  apply complete_reauth_callback_inv in Hf as (ctx' & i & tm & s & a & x2 & -> & -> & H1 & H2 & H3 & H4 & H5 & H6 & H7 & ->);
    [|done]. simpl in Hctx. simplify_eq. simpl.
  pose proof (get_provider_ok _ _ (ca_provider _ _ _ _ _ _ _ _ Ha)) as Hpid. rewrite Hpid in H3.
  exists provider, o, claims, i, tm, s, a, (w_clock x'). split_and!; try done.
  unfold is_reauth in Er. simpl in Er. by destruct (o_purpose o).
Qed.

(** ** Failures *)

(** What changed is at most the audit log and the authorization states. *)
Definition same_accounts d d' : Prop :=
  d' = with_oidc_states (fun _ => oidc_states d') (with_audit_logs (fun _ => audit_logs d') d).

Lemma quiet_audit e : quiet (create_audit_log e : M L unit).
Proof. apply preserves_quiet. intros d0. apply pres_audit_only. Qed.

Lemma quiet_callback_audit pid o e cur ip ua : quiet (audit_callback_failure pid o e cur ip ua : M L unit).
Proof. unfold audit_callback_failure. cbv zeta. destruct (is_reauth _); apply quiet_audit. Qed.

Lemma atomic_raise {A} e : atomic (raise e : M L A).
Proof. intros w e' Hw _. by split. Qed.

Lemma total_ret {A} (a : A) : total (mret a : M L A).
Proof. intros w _. by exists a. Qed.

Lemma total_authorization uid : total (authorization_for_existing_user uid : M L _).
Proof. intros w Hw. rewrite (idle_at w Hw), authorization_at. eauto. Qed.

Lemma atomic_reauth provider o claims cur ip ua :
  atomic (complete_reauth_callback oidc_settings provider o claims cur ip ua : M L _).
Proof.
  unfold complete_reauth_callback. destruct cur as [ctx|]; [|apply atomic_raise]. cbv zeta.
  destruct (_ || _); [apply atomic_raise|].
  apply atomic_bind; [apply preserves_quiet; intros d0; unfold find_identity_by_provider_subject; preserve|].
  intros [i|]; [|apply atomic_raise]. destruct (negb _); [apply atomic_raise|].
  destruct (cl_auth_time claims); [|apply atomic_raise].
  apply atomic_bind; [apply preserves_quiet; intros d0; preserve|]. intros now.
  destruct (_ <? _); [apply atomic_raise|].
  apply atomic_bind; [apply preserves_quiet; intros d0; preserve|]. intros now'.
  apply atomic_bind_total; [apply preserves_idle|apply atomic_transaction|intros _; apply total_ret];
    closed.
Qed.

Lemma atomic_login_callback provider o claims t ip ua :
  atomic (complete_login_callback auth_settings provider o claims t ip ua : M L _).
Proof.
  unfold complete_login_callback, login_callback_transaction. cbv zeta.
  apply atomic_bind_total; [apply preserves_idle|apply atomic_transaction|]; [closed..|].
  intros [user [[s tok] csrf]] w Hw. rewrite bind_run.
  destruct (total_authorization (u_id user) w Hw) as [a Ha].
  destruct (authorization_for_existing_user _ _) as [[?|?] ?]; simplify_eq/=. by eexists.
Qed.

Lemma atomic_run_callback provider o code cur t ip ua :
  atomic (run_callback auth_settings oidc_settings provider o code cur t ip ua : M L _).
Proof.
  unfold run_callback. cbv zeta. apply atomic_try.
  - unfold exchange_code, validate_id_token.
    apply atomic_bind; [apply preserves_quiet; intros d0; preserve|]. intros id_token.
    apply atomic_bind; [apply preserves_quiet; intros d0; preserve|]. intros claims.
    destruct (is_reauth _); [apply atomic_reauth|apply atomic_login_callback].
  - intros e m' [= <-]. apply atomic_bind; [apply quiet_callback_audit|]. intros _. apply atomic_raise.
Qed.

(** C28. A callback that fails leaves every account alone: no user, session, identity, role
    or item is changed or left behind, whatever the reason; at most the state is
    marked used and an audit row is added. *)
Theorem oidc_callback_failure pid state code cookie cur t ip ua (w w' : World L) e :
  idle w -> db_ok (w_committed w) ->
  complete_callback auth_settings oidc_settings pid state code cookie cur t ip ua w = (Raise e, w') ->
  same_accounts (w_committed w) (w_committed w') /\ idle w'.
Proof.
  intros Hidle Hd. rewrite (idle_at w Hidle). set (d := w_committed w) in *. clearbody d.
  change (w_committed (at_db false d d w)) with d in *.
  assert (same_accounts d d) as Hrefl by (by destruct d).
  unfold complete_callback. rewrite bind_run, configured_provider_run.
  destruct (get_provider oidc_settings pid) as [provider|e'] eqn:Ep.
  2: { apply get_provider_error in Ep as ->. intros [= <- <-]. done. }
  rewrite bind_run.
  destruct (consume_callback_state_cases provider state cookie d d w Hd)
    as (x1 & _ & [(ck & o & _ & _ & _ & _ & ->)|[(ck & o & _ & _ & _ & _ & ->)|(_ & e' & _ & ->)]]);
    [|by intros [= <- <-]..].
  set (w1 := at_db _ _ _ _). intros H.
  destruct (atomic_run_callback provider (set_consumed (stored (env_now (w_clock w))) o) code cur t ip ua w1 e)
    as [H1 H2]; [done|by rewrite H|]. rewrite H in H1, H2. split; [|done].
  change (w_committed w1) with (state_consumed_at o (env_now (w_clock w)) d) in H2.
  cbn [snd] in H2. unfold same_but_audit in H2. unfold same_accounts.
  destruct (w_committed w'). destruct d. cbv [state_consumed_at with_audit_logs with_oidc_states Tables.users Tables.sessions Tables.identities Tables.oidc_states Tables.audit_logs Tables.user_roles Tables.sample_items] in *. congruence.
Qed.
End Spec.

(** ** Instances *)

Lemma consume_callback_state_spec_witness : exists w',
  consume_callback_state demo_provider "st" (Some "bind"%string) (world_of demo_states_db)
  = (Ok (set_consumed (stored (env_now 0)) (store_oidc_state login_state)), w') /\ idle w'.
Proof.
  destruct (consume_callback_state_spec demo_provider "st" (Some "bind"%string)
    (world_of demo_states_db) (world_of_idle _) demo_states_db_ok) as (w' & Hi & H).
  assert (state_of (w_committed (world_of demo_states_db)) (hash_token "st")
          = Some (store_oidc_state login_state)) as Hs by (vm_compute; reflexivity).
  rewrite Hs in H. destruct H as [H _]. exists w'. split; [|exact Hi].
  apply H; [|reflexivity]. exists "bind"%string. split; [reflexivity|].
  split; [reflexivity|split; [vm_compute; reflexivity|reflexivity]].
Defined.

Lemma oidc_login_ok_witness : exists r w' iss,
  complete_callback default_auth_settings demo_oidc_settings "acme" "st" "code"
    (Some "bind"%string) None None None None (world_of demo_states_db) = (Ok r, w')
  /\ cb_issued_session r = Some iss /\ is_session_token iss = "token0"%string.
Proof.
  eexists _, _, _.
  assert (complete_callback default_auth_settings demo_oidc_settings "acme" "st" "code"
    (Some "bind"%string) None None None None (world_of demo_states_db) = (Ok _, _)) as H
    by (apply run_eq; vm_compute; reflexivity).
  split; [exact H|]. split; [reflexivity|].
  destruct (oidc_login_ok default_auth_settings demo_oidc_settings "acme" "st" "code" _ _ _ _ _ _ _ _ _
    (world_of_idle _) demo_states_db_ok H eq_refl) as (?&?&?&?&_&_&_&_&Ht&_). rewrite Ht. reflexivity.
Defined.

Lemma oidc_reauth_ok_witness : exists r w',
  complete_callback default_auth_settings demo_oidc_settings "acme" "re" "code"
    (Some "bind"%string) (Some ann_context) None None None (world_of demo_identity_db) = (Ok r, w')
  /\ cb_reauthenticated_context r = Some ann_context /\ cb_issued_session r = None.
Proof.
  eexists _, _.
  assert (complete_callback default_auth_settings demo_oidc_settings "acme" "re" "code"
    (Some "bind"%string) (Some ann_context) None None None (world_of demo_identity_db) = (Ok _, _)) as H
    by (apply run_eq; vm_compute; reflexivity).
  split; [exact H|]. split; [reflexivity|].
  destruct (oidc_reauth_ok default_auth_settings demo_oidc_settings "acme" "re" "code" _ _ _ _ _ _ _ _
    ann_context (world_of_idle _) demo_identity_db_ok H eq_refl)
    as (?&?&?&?&?&?&?&?&_&_&_&Hn&_). exact Hn.
Defined.

Lemma oidc_callback_failure_witness : exists e w',
  complete_callback default_auth_settings demo_oidc_settings "acme" "re" "code"
    (Some "bind"%string) (Some ann_context) None None None (world_of demo_states_db) = (Raise e, w')
  /\ same_accounts demo_states_db (w_committed w').
Proof.
  eexists _, _.
  assert (complete_callback default_auth_settings demo_oidc_settings "acme" "re" "code"
    (Some "bind"%string) (Some ann_context) None None None (world_of demo_states_db) = (Raise _, _)) as H
    by (apply run_raise; vm_compute; reflexivity).
  split; [exact H|].
  exact (proj1 (oidc_callback_failure default_auth_settings demo_oidc_settings "acme" "re" "code"
    _ _ _ _ _ _ _ _ (world_of_idle _) demo_states_db_ok H)).
Defined.
