(* ===== verification/OidcProviderClientSpec.v ===== *)
(** * What the provider client vouches for

    The claims of a validated ID token, the provenance of the documents they were
    checked with, and the caches: when a document is fetched, how long it is used and
    how long a failure is remembered. *)

From S2P Require Import Prelude PyStr Errors Time Settings Tables Effects.
From S2P Require Import RateLimiter Interfaces OidcProviderClient Demo.
Import ProviderClient.

Section Spec.
Context `{E : Env} {H : Type} `{T : OidcTransport H}.
Context (oidc_settings : OidcSettings) (now : nat -> Z).
Context (metadata_validate : dict -> result unit).
Context (jwt_decode : string -> dict -> list string -> result dict).
Context (b64_json : string -> result json).
Implicit Types (c : client H) (provider : OidcProviderSettings).

Lemma method_bind_inv {A B} (m : method A) (f : A -> method B) c b c' :
  method_bind _ _ f m c = (Ok b, c') -> exists a c1, m c = (Ok a, c1) /\ f a c1 = (Ok b, c').
Proof. unfold method_bind. destruct (m c) as [[a|e] c1]; [|done]. eauto. Qed.

Lemma pure_inv {A} (r : result A) c a c' : pure r c = (Ok a, c') -> r = Ok a /\ c' = c.
Proof. by intros [= -> ->]. Qed.

(** ** The caches *)

(** A document is held for a key until a time. *)
Definition held (n : cache_name) (k : string) (value : dict) (now : Z) c : Prop :=
  exists e, (caches n c).1 !! k = Some e /\ ce_value e = value /\ now < ce_expires_at e.

(** A failure is remembered for a key until a time. *)
Definition failing (n : cache_name) (k : string) (now : Z) c : Prop :=
  exists e, (caches n c).2 !! k = Some e /\ now < ne_expires_at e.

Definition ticked c : client H :=
  Client (transport c) (discovery_cache c) (discovery_negative_cache c) (jwks_cache c)
    (jwks_negative_cache c) (jwks_refresh_at c) (S (now_reads c)).

Lemma caches_ticked n c : caches n (ticked c) = caches n c.
Proof. by destruct n. Qed.

Lemma caches_set n m p c : caches n (set_caches n m p c) = (m, p).
Proof. by destruct n. Qed.

Lemma fresh_Some {A} (expires : A -> Z) t o e :
  fresh expires t o = Some e <-> o = Some e /\ t < expires e.
Proof.
  destruct o as [x|]; simpl; [|naive_solver]. destruct (Z.ltb_spec t (expires x)); naive_solver lia.
Qed.

Lemma fresh_None {A} (expires : A -> Z) t o :
  fresh expires t o = None -> forall e, o = Some e -> expires e <= t.
Proof. intros Hf e ->. simpl in Hf. destruct (Z.ltb_spec t (expires e)); [done|lia]. Qed.

Lemma cached_json_hit k n loader ttl value c :
  held n k value (now (now_reads c)) c -> cached_json now k n loader ttl c = (Ok value, ticked c).
Proof.
  intros (e & Hk & <- & Hlt). unfold cached_json, mbind, method_bind, read_now.
  change (Client _ _ _ _ _ _ _) with (ticked c). rewrite caches_ticked.
  by rewrite (proj2 (fresh_Some ce_expires_at _ _ e) (conj Hk Hlt)).
Qed.

Lemma cached_json_failing k n loader ttl c :
  (forall value, ~ held n k value (now (now_reads c)) c) -> failing n k (now (now_reads c)) c ->
  cached_json now k n loader ttl c = (Raise (OidcError OidcProviderUnavailableError), ticked c).
Proof.
  intros Hno (e & Hk & Hlt). unfold cached_json, mbind, method_bind, read_now.
  change (Client _ _ _ _ _ _ _) with (ticked c). rewrite caches_ticked.
  destruct (fresh ce_expires_at _ _) as [e'|] eqn:Ef.
  { apply fresh_Some in Ef as [He' Hlt']. destruct (Hno (ce_value e')). by exists e'. }
  by rewrite (proj2 (fresh_Some ne_expires_at _ _ e) (conj Hk Hlt)).
Qed.

Lemma cached_json_miss k n loader ttl c :
  (forall value, ~ held n k value (now (now_reads c)) c) -> ~ failing n k (now (now_reads c)) c ->
  cached_json now k n loader ttl c
  = match loader (ticked c) with
    | (Ok value, c1) =>
        (Ok value,
         set_caches n (<[k := CacheEntry value (now (now_reads c) + timedelta_seconds ttl)]> (caches n c1).1)
           (delete k (caches n c1).2) c1)
    | (Raise exc, c1) =>
        (Raise (OidcError OidcProviderUnavailableError),
         set_caches n (caches n c1).1
           (<[k := NegativeEntry exc (now (now_reads c) + timedelta_seconds NEGATIVE_CACHE_TTL_SECONDS)]>
              (caches n c1).2) c1)
    end.
Proof.
  intros Hno Hnf. unfold cached_json, mbind, method_bind, read_now.
  change (Client _ _ _ _ _ _ _) with (ticked c). rewrite caches_ticked.
  destruct (fresh ce_expires_at _ _) as [e|] eqn:Ef.
  { apply fresh_Some in Ef as [He Hlt]. destruct (Hno (ce_value e)). by exists e. }
  destruct (fresh ne_expires_at _ _) as [e|] eqn:En.
  { apply fresh_Some in En as [He Hlt]. destruct Hnf. by exists e. }
  by destruct (loader (ticked c)) as [[v|exc] c1].
Qed.

Lemma cached_json_ok k n loader ttl value c c' :
  0 < ttl -> cached_json now k n loader ttl c = (Ok value, c') ->
  held n k value (now (now_reads c)) c'
  /\ (held n k value (now (now_reads c)) c /\ c' = ticked c
      \/ exists c1, loader (ticked c) = (Ok value, c1)
           /\ c' = set_caches n (<[k := CacheEntry value (now (now_reads c) + timedelta_seconds ttl)]> (caches n c1).1)
                     (delete k (caches n c1).2) c1).
Proof.
  intros Httl. unfold cached_json, mbind, method_bind, read_now.
  change (Client _ _ _ _ _ _ _) with (ticked c). rewrite caches_ticked.
  destruct (fresh ce_expires_at _ _) as [e|] eqn:Ef.
  { intros [= <- <-]. apply fresh_Some in Ef as [He Hlt].
    split; [|left; split; [|done]]; exists e; [by rewrite caches_ticked|done]. }
  destruct (fresh ne_expires_at _ _); [done|].
  destruct (loader (ticked c)) as [[v|e] c1] eqn:El; [|done]. intros [= <- <-]. split; [|eauto].
  eexists. rewrite caches_set. cbn [fst]. rewrite lookup_insert_eq. split_and!; [done..|].
  simpl. unfold timedelta_seconds. lia.
Qed.

Lemma cached_json_raise k n loader ttl e c c' :
  cached_json now k n loader ttl c = (Raise e, c') ->
  e = OidcError OidcProviderUnavailableError
  /\ (failing n k (now (now_reads c)) c /\ c' = ticked c
      \/ exists exc c1, loader (ticked c) = (Raise exc, c1)
           /\ c' = set_caches n (caches n c1).1
               (<[k := NegativeEntry exc (now (now_reads c) + timedelta_seconds NEGATIVE_CACHE_TTL_SECONDS)]>
                  (caches n c1).2) c1).
Proof.
  unfold cached_json, mbind, method_bind, read_now.
  change (Client _ _ _ _ _ _ _) with (ticked c). rewrite caches_ticked.
  destruct (fresh ce_expires_at _ _); [done|]. destruct (fresh ne_expires_at _ _) as [x|] eqn:En.
  { intros [= <- <-]. apply fresh_Some in En as [Hx Hlt]. split; [done|]. left. split; [|done]. by exists x. }
  destruct (loader (ticked c)) as [[v|exc] c1] eqn:El; [done|]. intros [= <- <-]. split; [done|]. right. eauto.
Qed.

Definition set_transport (h : H) c : client H :=
  Client h (discovery_cache c) (discovery_negative_cache c) (jwks_cache c)
    (jwks_negative_cache c) (jwks_refresh_at c) (now_reads c).

Lemma get_json_run url c : exists h, (get_json url c).2 = set_transport h c.
Proof.
  unfold get_json, mbind, method_bind, call_transport. destruct (http_get url (transport c)) as [[v|e] h].
  - exists h. by destruct v.
  - by exists h.
Qed.

(** ** Documents *)

(** What a method of the keys leaves alone. *)
Definition keeps_discovery c c' : Prop :=
  discovery_cache c' = discovery_cache c /\ (now_reads c <= now_reads c')%nat.

Lemma keeps_discovery_trans c1 c2 c3 :
  keeps_discovery c1 c2 -> keeps_discovery c2 c3 -> keeps_discovery c1 c3.
Proof. intros [H1 L1] [H2 L2]. split; [congruence|lia]. Qed.

Lemma jwks_ok provider metadata force keys c c' :
  jwks now provider metadata force c = (Ok keys, c') ->
  keeps_discovery c c' /\ exists i, (i < now_reads c')%nat /\ held Jwks (provider_id provider) keys (now i) c'.
Proof.
  unfold jwks. intros (uri & c1 & [_ ->]%pure_inv & H1)%method_bind_inv.
  apply method_bind_inv in H1 as ([] & c2 & Hf & H1).
  assert (keeps_discovery c c2) as Hk2.
  { destruct force; [|injection Hf as <-; split; [done|lia]].
    injection Hf as <-. split; [done|simpl; lia]. }
  apply cached_json_ok in H1 as [Hheld Hcase]; [|done].
  assert (keeps_discovery c2 c' /\ (now_reads c2 < now_reads c')%nat) as [Hk Hlt].
  { destruct Hcase as [[_ ->]|(c3 & Hl & ->)]; [split; [split|]; simpl; (done || lia)|].
    destruct (get_json_run uri (ticked c2)) as [h Hh]. rewrite Hl in Hh. simpl in Hh. subst c3.
    split; [split|]; simpl; (done || lia). }
  split; [by eapply keeps_discovery_trans|]. by exists (now_reads c2).
Qed.

Lemma should_refresh_keeps pid tok keys c b c' :
  should_refresh_jwks now b64_json pid tok keys c = (Ok b, c') -> keeps_discovery c c'.
Proof.
  unfold should_refresh_jwks. intros (kid & c1 & [_ ->]%pure_inv & H1)%method_bind_inv.
  destruct kid as [kid|]; [|injection H1 as _ <-; split; [done|lia]].
  destruct (jwks_has_kid keys kid); [injection H1 as _ <-; split; [done|lia]|].
  apply method_bind_inv in H1 as (r & c2 & Hr & H1). injection Hr as <- <-.
  destruct (jwks_refresh_at c !! pid); injection H1 as _ <-; (split; [done|simpl; lia]).
Qed.

Lemma decode_ok tok keys metadata claims :
  decode_id_token jwt_decode tok keys metadata = Ok claims ->
  exists algs, id_token_algorithms metadata = Ok algs /\ jwt_decode tok keys algs = Ok claims.
Proof. unfold decode_id_token. intros (algs & Ha & Hd)%result_bind_inv. by exists algs. Qed.

Lemma verified_token_ok provider tok metadata claims c c' :
  verified_token now jwt_decode b64_json provider tok metadata c = (Ok claims, c') ->
  exists keys algs i, id_token_algorithms metadata = Ok algs /\ jwt_decode tok keys algs = Ok claims
    /\ (i < now_reads c')%nat /\ held Jwks (provider_id provider) keys (now i) c'
    /\ keeps_discovery c c'.
Proof.
  unfold verified_token. intros (keys & c1 & Hj & H1)%method_bind_inv.
  apply jwks_ok in Hj as (Hk1 & i & Hi & Hheld).
  destruct (decode_id_token _ _ keys _) as [cl|e] eqn:Ed.
  { injection H1 as -> ->. apply decode_ok in Ed as (algs & ? & ?). by exists keys, algs, i. }
  apply method_bind_inv in H1 as (refresh & c2 & Hr & H1). apply should_refresh_keeps in Hr.
  destruct refresh; [|done]. simpl in H1. apply method_bind_inv in H1 as (keys2 & c3 & Hj & H1).
  apply jwks_ok in Hj as (Hk3 & i2 & Hi2 & Hheld2).
  destruct (decode_id_token _ _ keys2 _) as [cl|e2] eqn:Ed2; [|done].
  injection H1 as -> ->. apply decode_ok in Ed2 as (algs & ? & ?). exists keys2, algs, i2.
  split_and!; try assumption.
  by apply (keeps_discovery_trans c c1); [|apply (keeps_discovery_trans c1 c2)].
Qed.

Lemma safe_algorithms_safe l a : a ∈ safe_algorithms l -> a ∈ SAFE_ID_TOKEN_ALGORITHMS.
Proof.
  unfold safe_algorithms. rewrite list_elem_of_omap. intros (j & _ & Hj). destruct j; try done.
  destruct (existsb _ _) eqn:Ee; [|done]. injection Hj as <-.
  apply existsb_exists in Ee as (x & Hx & ->%String.eqb_eq). by apply list_elem_of_In.
Qed.

Lemma id_token_algorithms_safe metadata algs :
  id_token_algorithms metadata = Ok algs -> algs <> [] /\ Forall (.∈ SAFE_ID_TOKEN_ALGORITHMS) algs.
Proof.
  unfold id_token_algorithms. destruct (get _ _); try done.
  destruct (safe_algorithms l) as [|a k] eqn:Es; [done|]. intros [= <-]. split; [done|].
  apply Forall_forall. intros x Hx. apply (safe_algorithms_safe l). by rewrite Es.
Qed.

(** A discovery document that may be used for a provider. *)
Definition valid_metadata provider (metadata : dict) : Prop :=
  metadata_validate metadata = Ok tt /\ get metadata "issuer" = JStr (issuer provider).

Lemma is_json_str_true s j : is_json_str s j = true <-> j = JStr s.
Proof. destruct j; simpl; try done. rewrite String.eqb_eq. naive_solver. Qed.

Lemma discovery_ok provider metadata c c' :
  discovery now metadata_validate provider c = (Ok metadata, c') ->
  valid_metadata provider metadata
  /\ exists i, (i < now_reads c')%nat /\ held Discovery (provider_id provider) metadata (now i) c'.
Proof.
  unfold discovery. cbv zeta. intros (m & c1 & Hc & H1)%method_bind_inv.
  apply method_bind_inv in H1 as ([] & c2 & [Hv ->]%pure_inv & [= -> ->]).
  apply cached_json_ok in Hc as [Hheld Hcase]; [|done]. split.
  - unfold validate_discovery_metadata in Hv. destruct (metadata_validate metadata) as [[]|] eqn:Em; [|done].
    destruct (is_json_str _ _) eqn:Ei; [|done]. split; [done|by apply is_json_str_true].
  - exists (now_reads c). split; [|done]. destruct Hcase as [[_ ->]|(c3 & Hl & ->)]; [simpl; lia|].
    match type of Hl with get_json ?u ?x = _ => destruct (get_json_run u x) as [h Hh] end.
    rewrite Hl in Hh. simpl in Hh. subst c3. simpl. lia.
Qed.

(** ** The claims *)

Lemma required_str_ok m k v : required_str m k = Ok v -> get m k = JStr v.
Proof. unfold required_str. destruct (get m k); try done. destruct (truthy s); [by intros [= ->]|done]. Qed.

Lemma fromtimestamp_ok v t : fromtimestamp v = Ok t -> t = v * 1000000.
Proof. unfold fromtimestamp. cbv zeta. destruct (_ && _); [by intros [= <-]|done]. Qed.

Lemma datetime_claim_ok m k t :
  datetime_claim m k = Ok t -> exists v, get m k = JInt v /\ t = v * 1000000.
Proof.
  unfold datetime_claim. destruct (get m k) as [| |v| | |]; try done.
  intros ->%fromtimestamp_ok. by exists v.
Qed.

Lemma optional_datetime_claim_some m k t :
  optional_datetime_claim m k = Ok (Some t) -> exists v, get m k = JInt v /\ t = v * 1000000.
Proof.
  unfold optional_datetime_claim. destruct (get m k) as [| |v| | |]; try done.
  intros (u & Hu & [= ->])%result_bind_inv. apply fromtimestamp_ok in Hu as ->. by exists v.
Qed.

Lemma guard_ok e ok : guard ok e = Ok tt -> ok = true.
Proof. by destruct ok. Qed.

(** What claims must say to be accepted for a provider at a time. *)
Record acceptable provider (claims : dict) (nonce_hash : string) (require_auth_time : bool) (t : Z)
    (vc : OidcVerifiedClaims) : Prop := {
  acc_issuer : get claims "iss" = JStr (issuer provider) /\ cl_issuer vc = issuer provider;
  acc_audience : audience_contains (get claims "aud") (client_id provider) = true
    /\ cl_audience vc = client_id provider;
  acc_subject : exists s, get claims "sub" = JStr s /\ cl_subject vc = strip s /\ cl_subject vc <> ""%string;
  acc_nonce : exists n, get claims "nonce" = JStr n /\ hash_token n = nonce_hash;
  acc_expires : exists v, get claims "exp" = JInt v /\ cl_expires_at vc = v * 1000000
    /\ t < cl_expires_at vc;
  acc_issued : exists v, get claims "iat" = JInt v /\ cl_issued_at vc = v * 1000000
    /\ cl_issued_at vc <= t + timedelta_seconds (AUTH_OIDC_AUTH_TIME_FUTURE_LEEWAY_SECONDS oidc_settings);
  acc_auth_time : require_auth_time = true -> exists v, get claims "auth_time" = JInt v
    /\ cl_auth_time vc = Some (v * 1000000)
    /\ v * 1000000 <= t + timedelta_seconds (AUTH_OIDC_AUTH_TIME_FUTURE_LEEWAY_SECONDS oidc_settings);
  acc_email : cl_email vc = optional_normalized_email (get claims "email")
    /\ (cl_email_verified vc = true <-> get claims "email_verified" = JBool true);
}.

Lemma check_auth_time_ok t leeway auth_time req :
  (if req : bool then
     match auth_time with
     | None => Raise (OidcError OidcReauthAuthTimeRequiredError)
     | Some at_ => guard (negb (t + leeway <? at_)) OidcReauthStaleError
     end
   else Ok tt) = Ok tt ->
  req = true -> exists at_, auth_time = Some at_ /\ at_ <= t + leeway.
Proof.
  intros Hg ->. destruct auth_time as [u|]; [|done]. exists u. split; [done|].
  apply guard_ok in Hg. bool_to_prop. lia.
Qed.

Lemma check_claims_ok provider claims nonce_hash req t vc :
  check_claims oidc_settings provider claims None (Some nonce_hash) req t = Ok vc ->
  cl_provider_id vc = provider_id provider /\ acceptable provider claims nonce_hash req t vc.
Proof.
  unfold check_claims. cbv zeta.
  intros (iss & Hiss%required_str_ok & Hr)%result_bind_inv.
  apply result_bind_inv in Hr as ([] & Hie%guard_ok%String.eqb_eq & Hr). subst iss.
  apply result_bind_inv in Hr as ([] & Haud%guard_ok & Hr).
  apply result_bind_inv in Hr as (sub & Hsub%required_str_ok & Hr).
  apply result_bind_inv in Hr as ([] & Hsne%guard_ok & Hr).
  apply result_bind_inv in Hr as (nonce & Hnonce%required_str_ok & Hr).
  apply result_bind_inv in Hr as ([] & _ & Hr).
  apply result_bind_inv in Hr as ([] & Hh%guard_ok%String.eqb_eq & Hr).
  apply result_bind_inv in Hr as (ex & (v & Hv & ->)%datetime_claim_ok & Hr).
  apply result_bind_inv in Hr as ([] & Hex%guard_ok & Hr).
  apply result_bind_inv in Hr as (ia & (w & Hw & ->)%datetime_claim_ok & Hr).
  apply result_bind_inv in Hr as ([] & Hia%guard_ok & Hr).
  apply result_bind_inv in Hr as (au & Hau & Hr).
  apply result_bind_inv in Hr as ([] & Hreq & [= <-]). bool_to_prop.
  split; [done|]. split; simpl; try done.
  - exists sub. split_and!; [done..|]. intros Hs. by rewrite Hs in Hsne.
  - by exists nonce.
  - exists v. split_and!; [done..|]. lia.
  - exists w. split_and!; [done..|]. lia.
  - intros Hrt. destruct (check_auth_time_ok _ _ _ _ Hreq Hrt) as (u & -> & Hu).
    apply optional_datetime_claim_some in Hau as (x & Hx & ->). by exists x.
  - split; [done|]. destruct (get claims "email_verified") as [|[]| | | |]; naive_solver.
Qed.

(** C21. Claims the client returns for an ID token were read from that token, whose
    signature verified under keys the client holds for the configured provider with
    algorithms from the safe list only; the discovery document it holds for the
    provider passed validation and names the configured issuer; and the claims name
    that issuer, the client as audience, a subject, a nonce with the expected hash,
    an expiry in the future and an issuance not in it, with [auth_time] when a
    re-authentication requires it. *)
Theorem validated_claims_sound pid tok nonce_hash req c vc c' :
  validate_id_token oidc_settings now metadata_validate jwt_decode b64_json
    pid tok None (Some nonce_hash) req c = (Ok vc, c') ->
  exists provider metadata keys algs claims i j k,
    get_provider oidc_settings pid = Ok provider
    /\ valid_metadata provider metadata
    /\ held Discovery (provider_id provider) metadata (now i) c'
    /\ held Jwks (provider_id provider) keys (now j) c'
    /\ (algs <> [] /\ Forall (.∈ SAFE_ID_TOKEN_ALGORITHMS) algs)
    /\ jwt_decode tok keys algs = Ok claims
    /\ (i < k)%nat /\ (j < k)%nat /\ now_reads c' = S k
    /\ cl_provider_id vc = provider_id provider
    /\ acceptable provider claims nonce_hash req (now k) vc.
Proof.
  unfold validate_id_token. cbn [is_none andb]. intros (provider & c1 & Hp & Hr)%method_bind_inv.
  assert (get_provider oidc_settings pid = Ok provider /\ c1 = c) as [Hget ->].
  { unfold provider_ in Hp. destruct (get_provider _ _); [|done]. by injection Hp as -> <-. }
  apply method_bind_inv in Hr as (metadata & c2 & (Hv & i & Hi & Hd)%discovery_ok & Hr).
  apply method_bind_inv in Hr as (claims & c3 & Ht & Hr).
  apply verified_token_ok in Ht as (keys & algs & j & Ha & Hdec & Hj & Hk & Hkeep & Hreads).
  apply method_bind_inv in Hr as (t & c4 & Hnow & Hr). injection Hnow as <- <-.
  apply pure_inv in Hr as [[Hpid Hacc]%check_claims_ok ->].
  exists provider, metadata, keys, algs, claims, i, j, (now_reads c3).
  apply id_token_algorithms_safe in Ha as [Hne Hsafe].
  split_and!; try done; try lia.
  destruct Hd as (e & Hd & Hde). exists e. split; [|done]. simpl in *. by rewrite Hkeep.
Qed.

(** ** Refreshing the keys *)

Lemma cached_json_refresh k n url ttl c :
  jwks_refresh_at (cached_json now k n (get_json url) ttl c).2 = jwks_refresh_at c
  /\ (now_reads c < now_reads (cached_json now k n (get_json url) ttl c).2)%nat.
Proof.
  unfold cached_json, mbind, method_bind, read_now. change (Client _ _ _ _ _ _ _) with (ticked c).
  destruct (fresh ce_expires_at _ _); [split; simpl; (done || lia)|].
  destruct (fresh ne_expires_at _ _); [split; simpl; (done || lia)|].
  destruct (get_json_run url (ticked c)) as [h Hh].
  destruct (get_json url (ticked c)) as [[v|e] c1]; simpl in Hh; subst c1; destruct n;
    (split; simpl; (done || lia)).
Qed.

Lemma jwks_refresh provider metadata force c c' r :
  jwks now provider metadata force c = (r, c') ->
  (force = false /\ jwks_refresh_at c' = jwks_refresh_at c)
  \/ (r = Raise (OidcError OidcProviderMetadataError) /\ c' = c)
  \/ (force = true
      /\ jwks_refresh_at c' = <[provider_id provider := now (now_reads c)]> (jwks_refresh_at c)).
Proof.
  unfold jwks, mbind, method_bind, pure.
  destruct (required_metadata_str _ _) as [uri|e] eqn:Eu.
  - intros Hr. destruct force; [right; right|left]; (split; [done|]).
    + change c' with (r, c').2. rewrite <- Hr. unfold forget_jwks, mbind, method_bind. cbn -[cached_json].
      by rewrite (proj1 (cached_json_refresh _ _ _ _ _)).
    + change c' with (r, c').2. rewrite <- Hr. cbn -[cached_json].
      by rewrite (proj1 (cached_json_refresh _ _ _ _ _)).
  - intros [= <- <-]. right; left. split; [|done]. unfold required_metadata_str in Eu.
    destruct (get _ _); try (by injection Eu as <-). destruct (truthy s); [done|by injection Eu as <-].
Qed.

Lemma jwks_refresh_false provider metadata c c' r :
  jwks now provider metadata false c = (r, c') -> jwks_refresh_at c' = jwks_refresh_at c.
Proof. by intros [[_ ?]|[[_ ->]|[? _]]]%jwks_refresh. Qed.

Lemma should_refresh_run pid tok keys c r c' :
  should_refresh_jwks now b64_json pid tok keys c = (r, c') ->
  jwks_refresh_at c' = jwks_refresh_at c
  /\ (r = Ok true ->
      (exists kid, jwt_kid b64_json tok = Ok (Some kid) /\ jwks_has_kid keys kid = false)
      /\ forall t, jwks_refresh_at c !! pid = Some t ->
           t + timedelta_seconds JWKS_REFRESH_COOLDOWN_SECONDS <= now (now_reads c)).
Proof.
  unfold should_refresh_jwks, mbind, method_bind, pure, get_state.
  destruct (jwt_kid b64_json tok) as [[kid|]|e]; [|by intros [= <- <-]..].
  destruct (jwks_has_kid keys kid) eqn:Ek; [by intros [= <- <-]|].
  destruct (jwks_refresh_at c !! pid) as [u|] eqn:Er; intros [= <- <-].
  - split; [done|]. intros [= Hle]. bool_to_prop. split; [by exists kid|]. intros t [= ->]. lia.
  - split; [done|]. intros _. split; [by exists kid|done].
Qed.

(** Checking a token forces the keys of a provider to be fetched again only when
    its signature does not verify under the held keys, its header names a key that is
    not among them, and the last forced refresh of the provider is at least the
    cooldown of 60 seconds ago; it notes the time of the new refresh.  A stream of
    forged tokens causes one refresh a minute. *)
Theorem key_refresh_limited provider tok metadata c r c' :
  verified_token now jwt_decode b64_json provider tok metadata c = (r, c') ->
  jwks_refresh_at c' = jwks_refresh_at c
  \/ exists keys e kid i j,
       decode_id_token jwt_decode tok keys metadata = Raise e
       /\ jwt_kid b64_json tok = Ok (Some kid) /\ jwks_has_kid keys kid = false
       /\ (forall t, jwks_refresh_at c !! provider_id provider = Some t -> t + 60000000 <= now i)
       /\ jwks_refresh_at c' = <[provider_id provider := now j]> (jwks_refresh_at c).
Proof.
  unfold verified_token, mbind at 1, method_bind at 1.
  destruct (jwks now provider metadata false c) as [[keys|e] c1] eqn:Ej;
    apply jwks_refresh_false in Ej; [|by intros [= _ <-]; left].
  destruct (decode_id_token _ tok keys _) as [claims|e] eqn:Ed; [by intros [= _ <-]; left|].
  unfold mbind at 1, method_bind at 1.
  destruct (should_refresh_jwks _ _ _ _ _ c1) as [[[]|e'] c2] eqn:Es;
    apply should_refresh_run in Es as [Hs Hyes]; [|by intros [= _ <-]; left; congruence..].
  destruct (Hyes eq_refl) as [(kid & Hkid & Hno) Hcool]. cbn [negb].
  unfold mbind at 1, method_bind at 1.
  destruct (jwks now provider metadata true c2) as [r3 c3] eqn:Ej3.
  apply jwks_refresh in Ej3 as [[? _]|[[-> ->]|[_ H3]]]; [done|by intros [= _ <-]; left; congruence|].
  intros Hr. right. exists keys, e, kid, (now_reads c1), (now_reads c2).
  assert (c' = c3) as -> by (destruct r3 as [k2|]; [destruct (decode_id_token _ tok k2 _)|]; by inversion Hr).
  split_and!; try done; [|by rewrite H3, Hs, Ej].
  intros t Ht. rewrite <- Ej in Ht. apply Hcool in Ht. exact Ht.
Qed.

(** ** Fetching a document *)

Lemma discovery_run provider c :
  discovery now metadata_validate provider c
  = match cached_json now (provider_id provider) Discovery
            (get_json (rstrip_char "/" (issuer provider) ++ "/.well-known/openid-configuration"))
            DISCOVERY_CACHE_TTL_SECONDS c with
    | (Ok metadata, c') =>
        (_ ← validate_discovery_metadata metadata_validate provider metadata; Ok metadata, c')
    | (Raise e, c') => (Raise e, c')
    end.
Proof.
  unfold discovery, mbind, method_bind, pure. cbv zeta.
  destruct (cached_json _ _ _ _ _ c) as [[m|e] c1]; [|done].
  by destruct (validate_discovery_metadata _ _ m).
Qed.

(** A discovery document that was asked for is not asked for again while it
    lasts: for an hour after a reading at which neither a document nor a failure was
    held for the provider, every other reading of the same caches gives the fetched
    document, and its validation, without the transport; when the fetch failed, it
    fails as unavailable for a minute without the transport. *)
Theorem discovery_fetched_once provider c :
  let key := provider_id provider in
  let t := now (now_reads c) in
  (forall m, ~ held Discovery key m t c) -> ~ failing Discovery key t c ->
  let c' := (discovery now metadata_validate provider c).2 in
  match (get_json (rstrip_char "/" (issuer provider) ++ "/.well-known/openid-configuration")
           (ticked c)).1 with
  | Ok m => forall c2, caches Discovery c2 = caches Discovery c' ->
      now (now_reads c2) < t + 3600000000 ->
      discovery now metadata_validate provider c2
      = (_ ← validate_discovery_metadata metadata_validate provider m; Ok m, ticked c2)
  | Raise _ => forall c2, caches Discovery c2 = caches Discovery c' ->
      t <= now (now_reads c2) < t + 60000000 ->
      discovery now metadata_validate provider c2
      = (Raise (OidcError OidcProviderUnavailableError), ticked c2)
  end.
Proof.
  cbv zeta. intros Hno Hnf. rewrite discovery_run. set (url := (_ ++ "/.well-known/openid-configuration")%string).
  rewrite cached_json_miss by done. destruct (get_json_run url (ticked c)) as [h Hh].
  destruct (get_json url (ticked c)) as [[m|e] c1]; simpl in Hh; subst c1; cbn [fst snd];
    intros c2 Hc2 Hlt; rewrite discovery_run; fold url.
  - rewrite (cached_json_hit _ _ _ _ m c2); [done|]. eexists. rewrite Hc2, caches_set. cbn [fst].
    rewrite lookup_insert_eq. split_and!; [done..|]. exact Hlt.
  - rewrite cached_json_failing; [done| |].
    + intros v (x & Hx & <- & Hxt). rewrite Hc2, caches_set in Hx. cbn [fst] in Hx.
      change (discovery_cache c !! provider_id provider = Some x) in Hx.
      apply (Hno (ce_value x)). exists x. split_and!; [done..|lia].
    + eexists. rewrite Hc2, caches_set. cbn [snd]. rewrite lookup_insert_eq. split; [done|]. apply Hlt.
Qed.
End Spec.

(** ** A provider that rotates its keys *)

(** The transport counts its requests; the first key document it serves is stale. *)
Definition demo_metadata : dict :=
  [("issuer", JStr "https://id.example"); ("jwks_uri", JStr "https://id.example/jwks");
   ("id_token_signing_alg_values_supported", JArr [JStr "none"; JStr "RS256"])]%string.
Definition demo_keys (kid : string) : json :=
  JObj [("keys", JArr [JObj [("kid", JStr kid)]])]%string.
#[local] Instance demo_transport : OidcTransport nat := {|
  http_get url n :=
    (Ok (if (url =? "https://id.example/.well-known/openid-configuration")%string then JObj demo_metadata
         else demo_keys (if (n <=? 1)%nat then "stale" else "k1")), S n);
  create_authorization_url _ endpoint _ _ n := (Ok endpoint, S n);
  fetch_token _ _ _ _ n := (Ok [("id_token"%string, JStr "a.b.c")], S n);
  oauth_aclose _ n := (Ok tt, n);
|}.
Definition demo_token_claims : dict :=
  [("iss", JStr "https://id.example"); ("aud", JArr [JStr "client"]); ("sub", JStr "subject-1");
   ("nonce", JStr "n"); ("exp", JInt 1786000600); ("iat", JInt 1786000000)]%string.
Definition demo_decode (tok : string) (keys : dict) (algs : list string) : result dict :=
  if jwks_has_kid keys "k1" then Ok demo_token_claims else Raise (ValueError "bad signature").
Definition demo_header (_ : string) : result json := Ok (JObj [("kid"%string, JStr "k1")]).
Definition demo_now (n : nat) : Z := 1786000000000000 + 1000000 * Z.of_nat n.

Lemma validated_claims_sound_witness :
  exists vc c' provider,
    validate_id_token demo_oidc_settings demo_now (fun _ => Ok tt) demo_decode demo_header
      "acme" "a.b.c" None (Some (hash_token "n")) false (new_client 0%nat) = (Ok vc, c')
    /\ get_provider demo_oidc_settings "acme" = Ok provider /\ cl_subject vc = "subject-1"%string.
Proof.
  assert (exists vc c', validate_id_token demo_oidc_settings demo_now (fun _ => Ok tt) demo_decode
    demo_header "acme" "a.b.c" None (Some (hash_token "n")) false (new_client 0%nat) = (Ok vc, c')
    /\ cl_subject vc = "subject-1"%string) as (vc & c' & Hrun & Hsub).
  { eexists _, _. split; [vm_compute; reflexivity|reflexivity]. }
  destruct (validated_claims_sound _ _ _ _ _ _ _ _ _ _ _ _ Hrun) as (p & m & ks & al & cl & i & j & k & Hp & _).
  exists vc, c', p. exact (conj Hrun (conj Hp Hsub)).
Defined.

Lemma key_refresh_limited_witness :
  exists r c',
    verified_token demo_now demo_decode demo_header demo_provider "a.b.c" demo_metadata
      (new_client 1%nat) = (r, c')
    /\ exists j, jwks_refresh_at c'
         = <[provider_id demo_provider := demo_now j]> (jwks_refresh_at (new_client 1%nat)).
Proof.
  eexists _, _. split; [vm_compute; reflexivity|].
  match goal with |- exists t, jwks_refresh_at ?c' = _ =>
    destruct (key_refresh_limited demo_now demo_decode demo_header demo_provider "a.b.c" demo_metadata
      (new_client 1%nat) (Ok demo_token_claims) c') as [H|(? & ? & ? & ? & j & _ & _ & _ & _ & H)]
  end; [vm_compute; reflexivity|exfalso; revert H; vm_compute; discriminate|].
  exists j. exact H.
Defined.

Lemma discovery_fetched_once_witness :
  let c' := (discovery demo_now (fun _ => Ok tt) demo_provider (new_client 0%nat)).2 in
  discovery demo_now (fun _ => Ok tt) demo_provider c' = (Ok demo_metadata, ticked c').
Proof.
  cbv zeta.
  refine (discovery_fetched_once demo_now (fun _ => Ok tt) demo_provider (new_client 0%nat) _ _ _ eq_refl _).
  - intros m (e & He & _). discriminate He.
  - intros (e & He & _). discriminate He.
  - vm_compute. reflexivity.
Defined.
