(* ===== verification/WebSpec.v ===== *)
(** * What the web layer adds

    The CSRF middleware, the gates in front of the handlers and the errors handlers
    answer with, stated of the endpoints and proved from the theorems on the use
    cases. *)

From S2P Require Import Prelude PyStr Errors Time Url UrlQuery Settings Authorization Tables Effects.
From S2P Require Import UnitOfWork AuthorizationRepository Runs Integrity Lookups RateLimiter Interfaces Http ErrorHandlers ClientIp.
From S2P Require Import AuthUsecase AuthUsecaseSpec SessionSpec Guards OAuthOidcUsecase.
From S2P Require Import SampleItemUsecase AuthController AdminControllers Application Demo.

(** ** Inversion of handlers *)

Section Inversion.
Context {L : Type}.

(** Every HTTP error a computation raises satisfies [P]. *)
Definition raises_only {A} (P : HTTPException -> Prop) (m : Web L A) : Prop :=
  forall w e w', m w = (Failed (HttpError e), w') -> P e.

Implicit Types P : HTTPException -> Prop.

Lemma raises_ret {A} P (a : A) : raises_only P (mret a : Web L A).
Proof. by intros w e w' [=]. Qed.
Lemma raises_bind {A B} P (m : Web L A) (f : A -> Web L B) :
  raises_only P m -> (forall a, raises_only P (f a)) -> raises_only P (m ≫= f).
Proof.
  intros Hm Hf w e w' [(x & Hx & [= <-])|(a & w1 & _ & Hr)]%web_bind_inv; [by eapply Hm|by eapply Hf].
Qed.
Lemma raises_calling {A} P (call : M L A) to_http :
  (forall e h, to_http e = Some h -> P h) -> raises_only P (calling call to_http).
Proof.
  intros HP w e w'. unfold calling. destruct (call w) as [[a|x] w1]; [done|].
  destruct (to_http x) eqn:Et; [|done]. intros [= -> _]. eauto.
Qed.
Lemma raises_awaiting {A} P (call : M L A) : raises_only P (awaiting call).
Proof. by apply raises_calling. Qed.
Lemma raises_pure {A} P (r : result A) : raises_only P (pure_web r : Web L A).
Proof. intros w e w'. unfold pure_web. by destruct r. Qed.
Lemma raises_error {A} P e : P e -> raises_only P (web_raise e : Web L A).
Proof. by intros HP w x w' [= -> _]. Qed.
Lemma raises_catching {A} P (call : M L A) handler continue :
  (forall a, raises_only P (continue a)) -> raises_only P (catching call handler continue).
Proof.
  intros Hc w e w'. unfold catching. destruct (call w) as [[a|x] w1]; [apply Hc|].
  apply raises_pure.
Qed.
End Inversion.

#[export] Hint Resolve raises_ret raises_bind raises_calling raises_awaiting raises_pure raises_error
  raises_catching : backend.

(** ** Errors that are registered *)

(** An error a handler raises itself: its code is a registered problem type of its
    status. *)
Definition registered (e : HTTPException) : Prop :=
  exists d code problem, he_detail e = DetailDict d /\ json_get "code" d = Some (JStr code)
    /\ PROBLEM_TYPES !! code = Some problem /\ pt_status problem = he_status_code e.

Ltac registered_error := eexists _, _, _; split_and!; reflexivity.

Section Spec.
Context `{E : Env} {L : Type} `{R : LoginRateLimiter L} `{P : OidcProviderClient L} {C : CursorCodec} {V : Pydantic}.
Context (auth_settings : AuthSettings) (oidc_settings : OidcSettings).
Context (is_ipv6 : string -> bool) (utf8_decode : list ascii -> list ascii).

Lemma require_current_session_registered request :
  raises_only registered (require_current_session (L := L) auth_settings request).
Proof.
  apply raises_bind; [apply raises_awaiting|]. intros [c|]; [apply raises_ret|].
  apply raises_error. registered_error.
Qed.

Lemma require_admin_registered request :
  raises_only registered (require_admin_access (L := L) auth_settings request).
Proof.
  apply raises_bind; [apply require_current_session_registered|]. intros c.
  destruct (decide _); [apply raises_ret|]. apply raises_error. registered_error.
Qed.

Ltac handler_registered :=
  repeat first
    [ apply require_admin_registered | apply require_current_session_registered
    | apply raises_ret | apply raises_awaiting | apply raises_pure
    | apply raises_bind; [|intros ?] | apply raises_catching; intros ?
    | apply raises_calling; intros ?e ?h Hh; destruct e; try discriminate Hh; injection Hh as <-;
      registered_error ].

Lemma admin_registered c request :
  raises_only registered (admin_endpoint (L := L) auth_settings c request).
Proof. destruct c; handler_registered. Qed.

Lemma sample_registered c request :
  raises_only registered (sample_endpoint (L := L) auth_settings c request).
Proof. destruct c; handler_registered. Qed.

Lemma callback_with_code_registered pid state code request name :
  raises_only registered (callback_with_code (L := L) auth_settings oidc_settings is_ipv6 utf8_decode
    pid state code request name).
Proof.
  unfold callback_with_code. destruct state as [st|], code as [cd|]; try apply raises_pure.
  apply raises_catching. intros [path [issued|] ctx]; handler_registered.
Qed.

Lemma complete_oidc_callback_registered pid state code error request :
  raises_only registered (complete_oidc_callback (L := L) auth_settings oidc_settings is_ipv6 utf8_decode
    pid state code error request).
Proof.
  unfold complete_oidc_callback. destruct error as [er|], state as [st|];
    try apply callback_with_code_registered; [|apply raises_pure].
  apply raises_catching. intros _. apply callback_with_code_registered.
Qed.

Lemma auth_registered c request :
  raises_only registered (auth_endpoint (L := L) auth_settings oidc_settings is_ipv6 utf8_decode c request).
Proof.
  destruct c as [|pid rd lc|pid rd|pid st code er| | | | | | |]; simpl; try apply complete_oidc_callback_registered;
    unfold start_oidc_login, start_oidc_reauth, start_redirect, get_csrf, issue_csrf; handler_registered.
  - destruct a as [c|]; handler_registered.
  - destruct (truthy_opt _); [|handler_registered]. destruct (negb _); [handler_registered|].
    handler_registered. destruct a; handler_registered.
Qed.

(** Every HTTP error an endpoint raises itself carries a code that is registered as
    a problem type, and the status it answers with is the registered one, so the
    problem document names the type it means. *)
Theorem endpoint_errors_registered c request (w w' : World L) e :
  api_endpoint auth_settings oidc_settings is_ipv6 utf8_decode c request w = (Failed (HttpError e), w') ->
  exists code problem,
    PROBLEM_TYPES !! code = Some problem /\ pt_status problem = he_status_code e
    /\ rs_status (http_exception_handler request e) = pt_status problem
    /\ exists body, rs_body (http_exception_handler request e) = JObj body
         /\ json_get "type" body = Some (JStr (pt_type problem))
         /\ json_get "code" body = Some (JStr (pt_code problem)).
Proof.
  intros H. assert (registered e) as (d & code & problem & Hd & Hc & Hp & Hs).
  { destruct c as [c|c|c|]; [by eapply auth_registered|by eapply admin_registered|
      by eapply sample_registered|done]. }
  exists code, problem. destruct e as [status detail headers]. simpl in Hd, Hs. subst detail.
  unfold http_exception_handler, error_parts. cbn [he_detail he_status_code he_headers]. cbv zeta.
  rewrite Hc. change (default JNull (Some (JStr code))) with (JStr code).
  destruct (problem_types_keys _ _ Hp) as (_ & Hne & _).
  assert (json_truthy (JStr code) = true) as -> by by apply truthy_spec. cbn [py_str].
  match goal with |- context [rs_body (problem_response status code ?t ?errs ?ext ?path headers)] =>
    destruct (problem_members status code t errs ext path headers)
      as (body & Hb & Ht & _ & _ & _ & Hcode & _)
  end.
  rewrite (problem_type_for_registered _ _ _ Hp) in Ht, Hcode.
  split_and!; [done..|]. by exists body.
Qed.

(** ** Authentication in front of a handler *)

Implicit Types (w : World L) (request : Request).

(** The dependency's call of the use case. *)
Definition authenticated request : M L (option AuthenticatedSessionContext) :=
  with_client auth_settings request
    (authenticate_session auth_settings (session_cookie auth_settings request)).

Definition unauthorized : HTTPException := api_error 401 "unauthorized" "Unauthorized".

Lemma require_current_session_run request w :
  require_current_session auth_settings request w
  = match authenticated request w with
    | (Ok (Some c), w1) => (Done c, w1)
    | (Ok None, w1) => (Failed (HttpError unauthorized), w1)
    | (Raise e, w1) => (Failed (Uncaught e), w1)
    end.
Proof.
  unfold require_current_session, awaiting, calling, mbind, web_bind, authenticated.
  by destruct (with_client _ _ _ w) as [[[c|]|e] w1].
Qed.

(** What the gate of the administration endpoints answers. *)
Definition admin_gate_result request w : outcome AuthenticatedSessionContext * World L :=
  match authenticated request w with
  | (Ok (Some c), w1) =>
      if decide ("admin:access"%string ∈ ctx_permissions c) then (Done c, w1)
      else (Failed (HttpError permission_denied), w1)
  | (Ok None, w1) => (Failed (HttpError unauthorized), w1)
  | (Raise e, w1) => (Failed (Uncaught e), w1)
  end.

Lemma require_admin_run request w :
  require_admin_access auth_settings request w = admin_gate_result request w.
Proof.
  unfold require_admin_access, require_permission, admin_gate_result. unfold mbind at 1, web_bind.
  rewrite require_current_session_run. destruct (authenticated request w) as [[[c|]|e] w1]; [|done..].
  by destruct (decide _).
Qed.

Lemma authenticated_opens request w c w1 :
  idle w -> db_ok (w_committed w) -> authenticated request w = (Ok (Some c), w1) ->
  exists tok s u, session_cookie auth_settings request = Some tok
    /\ opens (w_committed w) tok (env_now (w_clock w)) s u
    /\ c = context_of auth_settings (w_committed w) s u (env_now (S (w_clock w))).
Proof.
  intros Hidle Hd. unfold authenticated, with_client. rewrite (idle_at w Hidle).
  set (d := w_committed w) in *. clearbody d. rewrite bind_run, lift_run.
  destruct (get_client_ip auth_settings request) as [ip|e]; [|done]. intros H.
  destruct (authenticate_inv _ _ _ _ _ _ _ _ _ Hd H) as (tok & s & u & Ht & Ho).
  exists tok, s, u. split_and!; try done. rewrite Ht in H.
  rewrite (authenticate_opens _ _ _ _ _ _ _ _ _ Hd Ho) in H. by injection H as <- _.
Qed.

(** An account that may administer holds the administrator's role. *)
Lemma admin_access_role d uid :
  "admin:access"%string ∈ ua_permissions (authorization_of d uid) ->
  exists k row, user_roles d !! k = Some row /\ r_user_id row = uid /\ r_role_code row = "admin"%string.
Proof.
  unfold authorization_of. set (codes := sorted _).
  destruct (resolution_grants_only_catalog_permissions uid codes) as (_ & Hr & Hp). intros Ha.
  apply Hp in Ha as (c & r & [Hc _]%Hr & Hl & Hin).
  assert (c = "admin"%string) as ->.
  { unfold role_catalog_by_code, dict_by in Hl. simpl in Hl.
    apply lookup_insert_Some in Hl as [[<- _]|[_ Hl]]; [done|]. by rewrite lookup_empty in Hl. }
  unfold codes in Hc. rewrite elem_of_sorted in Hc. apply list_elem_of_fmap in Hc as (row & Hrow & Hsel).
  apply elem_of_select in Hsel as [Hu [k Hk]]. exists k, row. split_and!; [done| |done]. by apply Z.eqb_eq.
Qed.

(** C17. The administration endpoints are for administrators.  One that answers was
    called with the token of a live session of a usable account that holds the role
    [admin]; any other call runs nothing beyond the authentication of the request,
    and is refused with 401 without a session and 403 without the permission. *)
Theorem admin_gate c request w :
  idle w -> db_ok (w_committed w) ->
  (forall r w', admin_endpoint auth_settings c request w = (Done r, w') ->
     exists tok s u k row, session_cookie auth_settings request = Some tok
       /\ opens (w_committed w) tok (env_now (w_clock w)) s u
       /\ user_roles (w_committed w) !! k = Some row
       /\ r_user_id row = u_id u /\ r_role_code row = "admin"%string)
  /\ (forall e w', admin_gate_result request w = (Failed e, w') ->
       admin_endpoint auth_settings c request w = (Failed e, w') /\ w' = (authenticated request w).2).
Proof.
  intros Hidle Hd.
  assert (exists f, forall w, admin_endpoint (L := L) auth_settings c request w
    = (require_admin_access auth_settings request ≫= f) w) as [f Hf] by (destruct c; by eexists).
  rewrite Hf. unfold mbind, web_bind. rewrite require_admin_run.
  unfold admin_gate_result. destruct (authenticated request w) as [[[ctx|]|e] w1] eqn:Ea.
  2,3: split; [done|]; by intros e' w' [= <- <-].
  destruct (decide _) as [Hin|Hin]; split; try done; [|by intros e' w' [= <- <-]].
  intros r w' _. destruct (authenticated_opens _ _ _ _ Hidle Hd Ea) as (tok & s & u & Ht & Ho & ->).
  destruct (admin_access_role _ _ Hin) as (k & row & Hk & Hu & Hrole). by exists tok, s, u, k, row.
Qed.

(** ** CSRF *)

Lemma validate_csrf_let_through request w w1 :
  idle w -> db_ok (w_committed w) -> validate_csrf auth_settings request w = (Ok None, w1) ->
  exists token, rq_cookies request !! csrf_cookie_name = Some token
    /\ headers_get "X-CSRF-Token" (rq_headers request) = Some token /\ token <> ""%string
    /\ forall tok s, session_cookie auth_settings request = Some tok -> tok <> ""%string ->
         active_session_of (w_committed w) (hash_token tok) (env_now (w_clock w)) = Some s ->
         s_csrf_token_hash s = hash_token token.
Proof.
  intros Hidle Hd. unfold validate_csrf. cbv zeta. fold (session_cookie auth_settings request).
  destruct (rq_cookies request !! csrf_cookie_name) as [token|]; [|by intros [=]].
  destruct (truthy_opt (Some token)) eqn:Et; [|by intros [=]]. cbn [negb orb].
  destruct (truthy_opt (headers_get _ _)); [|by intros [=]]. cbn [negb].
  destruct (bool_decide _) eqn:Eb; [|by intros [=]]. apply bool_decide_eq_true in Eb as <-. cbn [negb].
  intros H. exists token. split_and!; [done..|by apply truthy_spec|].
  intros tok s Htok Hne Hs. rewrite Htok in H.
  assert (truthy_opt (Some tok) = true) as Htt by by apply truthy_spec. rewrite Htt in H. cbn [negb] in H.
  rewrite bind_run, lift_run in H. destruct (resolve_client_ip _ _) as [ip|e]; [|done].
  apply bind_inv in H as [(e & _ & ?)|(st & w2 & Hv & H)]; [done|].
  destruct (csrf_valid_iff _ _ _ _ _ _ _ Hidle Hd Hv) as (Hvalid & Hno & _).
  change (default "" (Some tok)) with tok in Hvalid, Hno. destruct st; [|done|].
  - rewrite (proj1 Hno eq_refl) in Hs. done.
  - destruct (proj1 Hvalid eq_refl) as (s' & Hs' & Hh).
    rewrite Hs in Hs'. by injection Hs' as <-.
Qed.

Lemma validate_csrf_refused request w r w1 :
  idle w -> db_ok (w_committed w) -> validate_csrf auth_settings request w = (Ok (Some r), w1) ->
  r = csrf_error_response (rq_url_path request) /\ w_committed w1 = w_committed w.
Proof.
  intros Hidle Hd. unfold validate_csrf. cbv zeta.
  destruct (_ || _); [by intros [= <- <-]|]. destruct (negb (bool_decide _)); [by intros [= <- <-]|].
  destruct (negb (truthy_opt (rq_cookies request !! session_cookie_name auth_settings))); [done|].
  rewrite bind_run, lift_run. destruct (resolve_client_ip _ _) as [ip|e]; [|done].
  intros [(e & _ & ?)|(st & w2 & Hv & H)]%bind_inv; [done|].
  destruct (csrf_valid_iff _ _ _ _ _ _ _ Hidle Hd Hv) as (_ & _ & Hsame).
  destruct st; [done| |done]. injection H as <- <-. split; [done|by apply Hsame].
Qed.

(** An unsafe request to the API reaches the application only with a CSRF token:
    the cookie and the header carry the same non-empty token and, when the session
    cookie opens a live session, that session holds the token's hash.  Any other
    such request is answered with 403 and changes nothing (or with 500 when the check
    itself fails), whatever the application is. *)
Theorem csrf_protects (app : App L) request w :
  idle w -> db_ok (w_committed w) -> requires_csrf auth_settings request = true ->
  (exists token w1, CSRFMiddleware auth_settings app request w = app request w1
     /\ rq_cookies request !! csrf_cookie_name = Some token
     /\ headers_get "X-CSRF-Token" (rq_headers request) = Some token /\ token <> ""%string
     /\ forall tok s, session_cookie auth_settings request = Some tok -> tok <> ""%string ->
          active_session_of (w_committed w) (hash_token tok) (env_now (w_clock w)) = Some s ->
          s_csrf_token_hash s = hash_token token)
  \/ exists r w1, (forall app', CSRFMiddleware auth_settings app' request w = (r, w1))
       /\ (rs_status r = 403 /\ w_committed w1 = w_committed w \/ rs_status r = 500).
Proof.
  intros Hidle Hd Hreq. unfold CSRFMiddleware. rewrite Hreq. cbn [negb].
  destruct (validate_csrf auth_settings request w) as [[[r|]|e] w1] eqn:Ev.
  - destruct (validate_csrf_refused _ _ _ _ Hidle Hd Ev) as [-> Hsame]. right.
    eexists _, w1. split; [done|]. left. by split.
  - destruct (validate_csrf_let_through _ _ _ Hidle Hd Ev) as (token & H). left. by exists token, w1.
  - right. eexists _, w1. split; [done|]. by right.
Qed.
End Spec.

(** ** Instances *)

Definition demo_cookies : gmap string string :=
  <["csrf_token"%string := "ann-csrf"%string]> {["session_token"%string := "ann-token"%string]}.
Definition demo_request (headers : list (string * string)) : Request :=
  mkRequest "POST" "/api/admin/roles" "" "/api/admin/roles" (Some "10.0.0.1"%string) demo_cookies headers.

Lemma endpoint_errors_registered_witness :
  exists e w' code problem,
    api_endpoint default_auth_settings demo_oidc_settings (fun _ => false) latin1_decode
      (AuthCall (Login "ann@example.com" "wrong password")) (demo_request []) demo_world
    = (Failed (HttpError e), w') /\ PROBLEM_TYPES !! code = Some problem /\ pt_status problem = he_status_code e.
Proof.
  set (run := api_endpoint default_auth_settings demo_oidc_settings (fun _ => false) latin1_decode
    (AuthCall (Login "ann@example.com" "wrong password")) (demo_request []) demo_world).
  assert (exists e, run.1 = Failed (HttpError e)) as [e He] by (eexists; vm_compute; reflexivity).
  assert (run = (Failed (HttpError e), run.2)) as Hrun by (rewrite <- He; apply surjective_pairing).
  destruct (endpoint_errors_registered _ _ _ _ _ _ _ _ _ Hrun) as (code & problem & Hp & Hs & _).
  exists e, run.2, code, problem. exact (conj Hrun (conj Hp Hs)).
Defined.

(** Ann is no administrator. *)
Lemma admin_gate_witness :
  exists w', admin_endpoint default_auth_settings ListRoles (demo_request []) demo_world
             = (Failed (HttpError permission_denied), w').
Proof.
  destruct (admin_gate default_auth_settings ListRoles (demo_request []) demo_world (world_of_idle _)
    demo_db_ok) as [_ H].
  eexists. apply H. vm_compute. reflexivity.
Defined.

(** A demonstration application that always answers. *)
Definition demo_app : App (InMemory.limiter * nat) := fun _ w => (empty_response, w).

Lemma csrf_protects_witness :
  exists w1, CSRFMiddleware default_auth_settings demo_app (demo_request [("x-csrf-token", "ann-csrf")]%string) demo_world
             = demo_app (demo_request [("x-csrf-token", "ann-csrf")]%string) w1.
Proof.
  destruct (csrf_protects default_auth_settings demo_app (demo_request [("x-csrf-token", "ann-csrf")]%string)
    demo_world (world_of_idle _) demo_db_ok) as [(token & w1 & H & _)|(r & w1 & H & Hr)].
  - vm_compute. reflexivity.
  - exists w1. exact H.
  - exfalso. specialize (H demo_app).
    assert (rs_status (CSRFMiddleware default_auth_settings demo_app
      (demo_request [("x-csrf-token", "ann-csrf")]%string) demo_world).1 = 200) as H200
      by (vm_compute; reflexivity).
    rewrite H in H200. cbn [fst] in H200. destruct Hr as [[Hr _]|Hr]; rewrite Hr in H200; discriminate H200.
Defined.
