(* ===== verification/RouteAnswers.v ===== *)
(** * What the application answers

    Of any request, whatever its query and body: what it is answered with, status and
    body, is what its route documents (but for a body that cannot be read), and the
    routes that write are behind the CSRF token. *)

From S2P Require Import Prelude PyStr Errors Time Url UrlQuery Tables Settings Effects UnitOfWork Runs.
From S2P Require Import Integrity Lookups RateLimiter Interfaces Http ErrorHandlers AdminUserRepository AuthUsecase.
From S2P Require Import SampleItemUsecase Guards OAuthOidcUsecase AuthController.
From S2P Require Import AdminControllers Application Schemas Routes RoutesSpec ResponseSchemas SessionSpec WebSpec Demo.

(** ** What handlers return *)

Section Returns.
Context {L : Type}.

(** Every value a computation returns satisfies [Q]. *)
Definition gives {A} (Q : A -> Prop) (m : Web L A) : Prop := forall w a w', m w = (Done a, w') -> Q a.

Lemma gives_any {A} (m : Web L A) : gives (fun _ => True) m.
Proof. done. Qed.
Lemma gives_ret {A} (Q : A -> Prop) a : Q a -> gives Q (mret a : Web L A).
Proof. by intros H w ? w' [= <- _]. Qed.
Lemma gives_bind {A B} (R : A -> Prop) (Q : B -> Prop) (m : Web L A) (f : A -> Web L B) :
  gives R m -> (forall a, R a -> gives Q (f a)) -> gives Q (m ≫= f).
Proof. intros Hm Hf w b w' (a & w1 & Ha & Hb)%web_bind_done. by eapply Hf; [eapply Hm|]. Qed.
Lemma gives_pure {A} (Q : A -> Prop) (r : result A) : (forall a, r = Ok a -> Q a) -> gives Q (pure_web r : Web L A).
Proof. intros H w a w' [Ha _]%pure_web_done. auto. Qed.
Lemma gives_catching (Q : Response -> Prop) {A} (call : M L A) handler continue :
  (forall e r, handler e = Ok r -> Q r) -> (forall a, gives Q (continue a)) ->
  gives Q (catching call handler continue).
Proof.
  intros Hh Hc w r w'. unfold catching. destruct (call w) as [[a|e] w1]; [apply Hc|].
  intros [H _]%pure_web_done. eauto.
Qed.
End Returns.

(** *** The helpers of the controllers keep the status and the body *)

(** The status and the [response_model], [None] for no body. *)
Definition answers {V : Pydantic} (n : Z) (m : option shape) (r : Response) : Prop :=
  rs_status r = n /\ match m with Some s => conforms s (rs_body r) | None => rs_body r = JNull end.

Lemma set_cookie_status {V : Pydantic} k v h s m r r' n b :
  set_auth_cookie k v h s m r = Ok r' -> answers n b r -> answers n b r'.
Proof. unfold set_auth_cookie. destruct (cookie_host_prefix k s); [|done]. by intros [= <-]. Qed.
Lemma clear_cookie_status {V : Pydantic} k h s r r' n b :
  clear_auth_cookie k h s r = Ok r' -> answers n b r -> answers n b r'.
Proof. unfold clear_auth_cookie. destruct (cookie_host_prefix k s); [|done]. by intros [= <-]. Qed.

Lemma result_bind_ok {A B} (m : result A) (f : A -> result B) b :
  (m ≫= f) = Ok b -> exists a, m = Ok a /\ f a = Ok b.
Proof. destruct m as [a|e]; [|done]. intros H. by exists a. Qed.

Section Answers.
Context `{E : Env} {L : Type} `{R : LoginRateLimiter L} `{PC : OidcProviderClient L} {C : CursorCodec}.
Context {P : Pydantic}.
Context (auth_settings : AuthSettings) (oidc_settings : OidcSettings).
Context (is_ipv6 : string -> bool) (utf8_decode : list ascii -> list ascii).
Notation secure := (is_secure_request auth_settings).

Lemma session_cookies_status st ct r r' n b :
  set_session_cookies auth_settings st ct r = Ok r' -> answers n b r -> answers n b r'.
Proof. intros (r1 & H1 & H2)%result_bind_ok Hr. by eapply set_cookie_status, set_cookie_status. Qed.
Lemma clear_cookies_status r r' n b :
  clear_session_cookies auth_settings r = Ok r' -> answers n b r -> answers n b r'.
Proof. intros (r1 & H1 & H2)%result_bind_ok Hr. by eapply clear_cookie_status, clear_cookie_status. Qed.

Lemma start_failure_status path e r :
  oidc_start_failure_redirect is_ipv6 utf8_decode path e = Ok r -> answers 303 None r.
Proof. by intros (t & _ & [= <-])%result_bind_ok. Qed.
Lemma callback_failure_status e name s r :
  oidc_callback_failure_redirect is_ipv6 utf8_decode e name s = Ok r -> answers 303 None r.
Proof.
  unfold oidc_callback_failure_redirect. destruct (match e with OidcCallbackFlowError _ _ _ => _ | _ => _ end).
  intros (t & _ & H)%result_bind_ok. destruct name as [nm|]; [|by injection H as <-].
  by eapply clear_cookie_status.
Qed.

Lemma start_redirect_status result : gives (answers 303 None) (start_redirect (L := L) auth_settings result).
Proof. apply gives_pure. intros r H. by eapply set_cookie_status. Qed.

Lemma callback_success_status state request result :
  gives (answers 303 None) (callback_success (L := L) auth_settings is_ipv6 utf8_decode state request result).
Proof.
  unfold callback_success. apply (gives_bind (answers 303 None)).
  - destruct (cb_issued_session result).
    + eapply gives_bind; [apply gives_any|]. intros t _. apply gives_pure. intros r H.
      by eapply session_cookies_status.
    + eapply gives_bind; [apply gives_any|]. intros t _. eapply gives_bind; [apply gives_any|]. intros u _.
      apply gives_pure. intros r H. by eapply set_cookie_status.
  - intros r Hr. apply gives_pure. intros r' H. by eapply clear_cookie_status.
Qed.

Lemma callback_with_code_status pid state code request name :
  gives (answers 303 None)
    (callback_with_code (L := L) auth_settings oidc_settings is_ipv6 utf8_decode pid state code request name).
Proof.
  unfold callback_with_code. destruct state as [st|], code as [cd|];
    try (apply gives_pure; intros r; apply callback_failure_status).
  apply gives_catching; [intros e r; apply callback_failure_status|]. intros a. apply callback_success_status.
Qed.

Lemma callback_status pid state code error request :
  gives (answers 303 None)
    (complete_oidc_callback (L := L) auth_settings oidc_settings is_ipv6 utf8_decode pid state code error request).
Proof.
  unfold complete_oidc_callback. destruct error as [er|], state as [st|];
    try apply callback_with_code_status; [|apply gives_pure; intros r; apply callback_failure_status].
  apply gives_catching; [intros e r; apply callback_failure_status|]. intros a. apply callback_with_code_status.
Qed.

Lemma issue_csrf_status request : gives (answers 200 (Some csrf_token_schema)) (issue_csrf (L := L) auth_settings request).
Proof.
  eapply gives_bind; [apply gives_any|]. intros t _. apply gives_pure. intros r H.
  by eapply set_cookie_status.
Qed.

Lemma with_body_answers n b s body r :
  answers n b r -> conforms s body -> answers n (Some s) (with_body body r).
Proof. by intros [Hr _]. Qed.

(** The body of a user's response is made before it is sent. *)
Lemma user_body_answers n (made : result json) r :
  (forall body, made = Ok body -> conforms auth_user_schema body) -> answers n None r ->
  gives (answers n (Some auth_user_schema)) ((body ← pure_web made; mret (with_body body r)) : Web L Response).
Proof.
  intros Hb Hr. eapply gives_bind; [apply gives_pure, Hb|]. intros body Hbody. apply gives_ret.
  by eapply with_body_answers.
Qed.
Lemma context_conforms c body : context_response c = Ok body -> conforms auth_user_schema body.
Proof. apply auth_user_conforms. Qed.
Lemma issued_conforms i body : issued_response i = Ok body -> conforms auth_user_schema body.
Proof. apply auth_user_conforms. Qed.

(** Handlers whose last step fixes the answer. *)
Ltac status := match goal with
  | |- gives _ (mret _) => apply gives_ret; split; [reflexivity|first [reflexivity | by auto with conforms |
      repeat apply conforms_model_cons; by auto with conforms]]
  | |- gives _ (mbind _ (pure_web (context_response _))) =>
      apply user_body_answers; [apply context_conforms|by split]
  | |- gives _ (mbind _ (pure_web (issued_response _))) =>
      apply user_body_answers; [apply issued_conforms|eassumption]
  | |- gives _ (mbind _ (pure_web (set_session_cookies _ _ _ _))) =>
      eapply gives_bind; [apply gives_pure; intros ? H; eapply (session_cookies_status _ _ _ _ _ None); [exact H|by split]
                         |intros ? ?; status]
  | |- gives _ (mbind _ (pure_web (clear_session_cookies _ _))) =>
      eapply gives_bind; [apply gives_pure; intros ? H; eapply (clear_cookies_status _ _ _ None); [exact H|by split]
                         |intros ? [_ ?]; by apply gives_ret]
  | |- gives _ (mbind _ _) => eapply gives_bind; [apply gives_any|intros ? _; status]
  end.

(** The status an endpoint answers with when it returns. *)
Definition success_status (c : api_call) : Z :=
  match c with
  | AuthCall (StartOidcLogin _ _ _ | StartOidcReauth _ _ | CompleteOidcCallback _ _ _ _) => 303
  | AuthCall (Register _ _ _) | AdminCall (CreateAdminUser _ _ _ _) | SampleCall (CreateSampleItem _ _) => 201
  | AuthCall (DeleteMe _ _ | Logout) | AdminCall (DeleteAdminUser _) | SampleCall (DeleteSampleItem _) => 204
  | _ => 200
  end.

Lemma endpoint_status c request :
  gives (answers (success_status c) (response_model c))
    (api_endpoint (L := L) auth_settings oidc_settings is_ipv6 utf8_decode c request).
Proof.
  destruct c as [[|pid rd lc|pid rd|pid st code er| | |ch|e p|e p l|e p|]|[]|[]|];
    cbn [api_endpoint auth_endpoint admin_endpoint sample_endpoint success_status response_model];
    unfold list_roles_endpoint, get_user_roles_endpoint, replace_user_roles_endpoint,
      list_admin_users_endpoint, create_admin_user_endpoint, get_admin_user_endpoint,
      update_admin_user_endpoint, delete_admin_user_endpoint, list_sample_items, create_sample_item,
      get_sample_item, update_sample_item, delete_sample_item, get_me, update_me, delete_me,
      register_endpoint, login_endpoint, logout_endpoint; try status.
  - apply gives_ret. split; [reflexivity|]. apply conforms_model_cons; [|done]. apply conforms_list.
    intros provider. by repeat apply conforms_model_cons.
  - apply gives_catching; [intros e r; apply start_failure_status|]. intros a. apply start_redirect_status.
  - eapply gives_bind; [apply gives_any|]. intros [c|] _.
    + apply gives_catching; [intros e r; apply start_failure_status|]. intros a. apply start_redirect_status.
    + apply gives_pure. intros r. apply start_failure_status.
  - apply callback_status.
  - unfold get_csrf. destruct (truthy_opt _); [|apply issue_csrf_status]. cbv zeta.
    destruct (negb _); [by apply gives_ret|]. eapply gives_bind; [apply gives_any|].
    intros [] _; [by apply gives_ret|apply issue_csrf_status|by apply gives_ret].
Qed.

(** *** The errors endpoints raise *)

Ltac member := first [apply list_elem_of_here | apply list_elem_of_further; member].

Definition among (statuses : list Z) (e : HTTPException) : Prop := he_status_code e ∈ statuses.

Lemma session_among statuses request :
  401 ∈ statuses -> raises_only (among statuses) (require_current_session (L := L) auth_settings request).
Proof.
  intros H. apply raises_bind; [apply raises_awaiting|]. intros [c|]; [apply raises_ret|].
  by apply raises_error.
Qed.
Lemma admin_among statuses request :
  401 ∈ statuses -> 403 ∈ statuses ->
  raises_only (among statuses) (require_admin_access (L := L) auth_settings request).
Proof.
  intros H1 H2. apply raises_bind; [by apply session_among|]. intros c.
  destruct (decide _); [apply raises_ret|]. by apply raises_error.
Qed.

Ltac handler_documented :=
  repeat first
    [ apply admin_among; [member|member] | apply session_among; member
    | apply raises_ret | apply raises_awaiting | apply raises_pure
    | apply raises_bind; [|intros ?] | apply raises_catching; intros ?
    | apply raises_calling; intros ?e ?h Hh; destruct e; try discriminate Hh; injection Hh as <-; member ].

Lemma callback_with_code_among statuses pid state code request name :
  raises_only (among statuses) (callback_with_code (L := L) auth_settings oidc_settings is_ipv6 utf8_decode
    pid state code request name).
Proof.
  unfold callback_with_code. destruct state as [st|], code as [cd|]; try apply raises_pure.
  apply raises_catching. intros [path [issued|] ctx]; handler_documented.
Qed.
Lemma callback_among statuses pid state code error request :
  raises_only (among statuses) (complete_oidc_callback (L := L) auth_settings oidc_settings is_ipv6 utf8_decode
    pid state code error request).
Proof.
  unfold complete_oidc_callback. destruct error as [er|], state as [st|];
    try apply callback_with_code_among; [|apply raises_pure].
  apply raises_catching. intros _. apply callback_with_code_among.
Qed.
Lemma get_csrf_among statuses request :
  raises_only (among statuses) (get_csrf (L := L) auth_settings request).
Proof.
  unfold get_csrf, issue_csrf. destruct (truthy_opt _); [|handler_documented].
  destruct (negb _); [handler_documented|]. handler_documented. destruct a; handler_documented.
Qed.

(** ** Routes *)

(** What a route's documentation says of the call it makes, of its parameters and of
    what runs before its handler. *)
Definition route_documented (r : route) : Prop := forall captures query body,
  match rt_call r captures query body with
  | inr c => success_status c ∈ rt_statuses r /\ forall request,
      raises_only (among (rt_errors r))
        (api_endpoint (L := L) auth_settings oidc_settings is_ipv6 utf8_decode c request)
  | inl _ => 422 ∈ rt_errors r
      /\ forall request, raises_only (among (rt_errors r)) (dependency (L := L) auth_settings (rt_access r) request)
  end.
Definition route_guarded (r : route) : Prop :=
  existsb (String.eqb (upper (rt_method r))) UNSAFE_METHODS = true -> 403 ∈ rt_errors r.
Definition body_documented (r : route) : Prop := rt_takes_body r = true -> 422 ∈ rt_errors r.

Lemma behind_all (Q : route -> Prop) prefix routes :
  (forall r, Q r -> Q (mkRoute (rt_method r) (prefix ++ rt_path r) (rt_statuses r) (rt_errors r)
                         (rt_access r) (rt_takes_body r) (rt_call r))) ->
  Forall Q routes -> Forall Q (behind prefix routes).
Proof. intros HQ H. apply Forall_map. eapply Forall_impl; [exact H|exact HQ]. Qed.

Ltac all_routes :=
  unfold app_routes, api_routes, admin_user_router, authorization_router, auth_router, sample_router;
  repeat first [apply Forall_app_2 | apply behind_all; [done|] | apply Forall_nil_2 | apply Forall_cons_2].

Lemma routes_guarded : Forall route_guarded app_routes.
Proof.
  all_routes; intros H; first [discriminate H | member].
Qed.
Lemma bodies_documented : Forall body_documented app_routes.
Proof. all_routes; intros H; try done; member. Qed.

(** One route: its parameters, and the call they make. *)
Ltac call_documented :=
  split; [member|intros request; cbn [api_endpoint auth_endpoint admin_endpoint sample_endpoint]].
Ltac documented := match goal with
  | |- match ?x with _ => _ end =>
      destruct x as [errors|c] eqn:H;
      [ first [discriminate H | split; [member|intros request; unfold dependency; handler_documented]]
      | accepted; call_documented ]
  | |- _ /\ _ => call_documented
  end.

Lemma routes_documented : Forall route_documented app_routes.
Proof.
  all_routes;
    match goal with |- route_documented ?r => let r' := eval hnf in r in change r with r' end;
    intros captures query body; cbn [rt_call rt_errors rt_statuses rt_access];
    unfold constant, with_user_id, with_item_id; documented; try solve [handler_documented].
  - unfold start_oidc_reauth. handler_documented. destruct a as [c|]; unfold start_redirect; handler_documented.
  - apply callback_among.
  - apply get_csrf_among.
Qed.

(** ** The path of a route *)

Lemma split_chars_cons c l p q ps :
  split_chars c l = p :: q :: ps -> exists l', l = p ++ c :: l' /\ split_chars c l' = q :: ps.
Proof.
  revert p. induction l as [|x l IH]; intros p; simpl; [done|].
  destruct (Ascii.eqb c x) eqn:Ec.
  - apply Ascii.eqb_eq in Ec as <-. intros [= <- H]. by exists l.
  - destruct (split_chars c l) as [|p' ps'] eqn:Es; [done|]. intros [= <- ->].
    destruct (IH p' eq_refl) as (l' & -> & Hl'). by exists l'.
Qed.

Lemma segments_start path s s' segments :
  path_segments path = s :: s' :: segments -> s <> ""%string -> startswith path ("/" ++ s ++ "/") = true.
Proof.
  unfold path_segments, split. destruct (split_chars "/" (chars path)) as [|x l] eqn:Es; [done|].
  cbn [map]. destruct (truthy (of_chars x)) eqn:Ex; [by intros [= <- _]|]. intros Hm Hne.
  destruct l as [|a [|b l]]; try done. simpl in Hm. injection Hm as Ha Hb Hl.
  apply split_chars_cons in Es as (l1 & Hp & Es). apply split_chars_cons in Es as (l2 & -> & _).
  apply startswith_app. exists l2. rewrite Hp, !chars_app.
  assert (x = []) as -> by (by destruct x). rewrite <- Ha, chars_of_chars. change (chars "/") with ["/"%char].
  cbn [app]. by rewrite <- app_assoc.
Qed.

Definition api_path (r : route) : Prop :=
  rt_method r = "GET"%string
  \/ match rt_path r with Lit s :: _ :: _ => s = "api"%string | _ => False end.
Lemma writing_routes_below_api : Forall api_path app_routes.
Proof. repeat apply Forall_cons_2; [..|apply Forall_nil_2]; first [by left | by right]. Qed.

(** A route that writes is one the middleware asks a token for, unless the path is
    exempt by configuration. *)
Lemma writing_route_needs_csrf request r captures :
  find_route app_routes (rq_method request) (path_segments (route_path request)) = Some (r, captures) ->
  rt_method r ∈ UNSAFE_METHODS ->
  route_path request ∉ csrf_exempt_paths (AUTH_CSRF_EXEMPT_PATHS auth_settings) ->
  requires_csrf auth_settings request = true.
Proof.
  intros (Hin & Hmethod & Hm)%find_route_found Hunsafe Hex. unfold requires_csrf. cbv zeta.
  apply andb_true_iff. split; [apply andb_true_iff; split|].
  - rewrite <- Hmethod. unfold UNSAFE_METHODS in Hunsafe.
    repeat (apply elem_of_cons in Hunsafe as [->|Hunsafe]; [done|]). by apply not_elem_of_nil in Hunsafe.
  - apply orb_true_iff. right.
    destruct (proj1 (Forall_forall _ _) writing_routes_below_api r Hin) as [Hget|Hpath].
    { rewrite Hget in Hunsafe. exfalso. revert Hunsafe. apply (bool_decide_unpack _). vm_compute. exact I. }
    destruct (rt_path r) as [|[s|n] [|seg t]]; try done. subst s.
    destruct (path_segments (route_path request)) as [|x [|y l]] eqn:Es; cbn [match_path] in Hm; try done.
    + destruct (String.eqb "api" x); [by destruct seg|done].
    + destruct (String.eqb "api" x) eqn:Ex; [|done]. apply String.eqb_eq in Ex. subst x.
      by apply (segments_start _ _ _ _ Es).
  - apply negb_true_iff, not_true_is_false. intros (x & Hx & Heq%String.eqb_eq)%existsb_exists.
    apply Hex. rewrite Heq. by apply list_elem_of_In.
Qed.

(** ** What is answered *)

Context (no_route : App L).
Notation application := (application auth_settings oidc_settings is_ipv6 utf8_decode no_route).
Notation run_route := (run_route auth_settings oidc_settings is_ipv6 utf8_decode).
Implicit Types (w : World L) (request : Request).

Lemma http_exception_status request e : rs_status (http_exception_handler request e) = he_status_code e.
Proof. unfold http_exception_handler. by destruct (error_parts _ _) as [[[code detail] errors] extensions]. Qed.

(** A route whose parameters make a call answers with the status and the body it declares
    for that, or with the problem
    document of an error it documents or of an unexpected one. *)
Definition documents (r : route) (called : Validated api_call) (resp : Response) : Prop :=
  (exists c, called = inr c
     /\ success_status c ∈ rt_statuses r /\ answers (success_status c) (response_model c) resp)
  \/ ((rs_status resp ∈ rt_errors r \/ rs_status resp = 500)
      /\ problem_details (rs_status resp) (rs_body resp)).

Lemma documents_problem r called resp status code detail errors extensions path headers :
  resp = problem_response status code detail errors extensions path headers ->
  status ∈ rt_errors r \/ status = 500 -> documents r called resp.
Proof. intros -> Hs. right. split; [done|]. apply problem_response_details. Qed.

Lemma documents_http_exception r called request e :
  he_status_code e ∈ rt_errors r -> documents r called (http_exception_handler request e).
Proof.
  intros He. unfold http_exception_handler.
  destruct (error_parts _ _) as [[[code detail] errors] extensions].
  eapply documents_problem; [reflexivity|by left].
Qed.

Lemma documents_unhandled r called request : documents r called (unhandled_exception_handler request).
Proof. eapply documents_problem; [reflexivity|by right]. Qed.

Lemma refused_documents r called errors request w :
  422 ∈ rt_errors r ->
  raises_only (among (rt_errors r)) (dependency (L := L) auth_settings (rt_access r) request) ->
  documents r called (refused auth_settings (rt_access r) errors request w).1.
Proof.
  intros H422 Hd. unfold refused.
  destruct (dependency auth_settings (rt_access r) request w) as [[[]|[e|e]] w1] eqn:E1; simpl.
  - eapply documents_problem; [reflexivity|by left].
  - apply documents_http_exception. by eapply Hd.
  - apply documents_unhandled.
Qed.

Lemma call_documents r c request w :
  success_status c ∈ rt_statuses r ->
  raises_only (among (rt_errors r))
    (api_endpoint (L := L) auth_settings oidc_settings is_ipv6 utf8_decode c request) ->
  documents r (inr c) (handled (api_endpoint auth_settings oidc_settings is_ipv6 utf8_decode c) request w).1.
Proof.
  intros Hs Hr. unfold handled.
  destruct (api_endpoint _ _ _ _ c request w) as [[a|[e|e]] w1] eqn:E1; simpl.
  - left. exists c. split_and!; [done|done|by eapply endpoint_status].
  - apply documents_http_exception. by eapply Hr.
  - apply documents_unhandled.
Qed.

(** A body that cannot be read, sent to a route that takes one: the only answer a route
    need not document. *)
Definition unparsable (r : route) (body : http_body) : bool :=
  match body with UnparsableBody => rt_takes_body r | _ => false end.
Definition unparsable_answer request : Response :=
  problem_response 400 "bad_request" "There was an error parsing the body" [] []
    (Some (rq_url_path request)) [].

Lemma run_route_documents r captures query body request w :
  r ∈ app_routes ->
  let resp := (run_route r captures query body request w).1 in
  if unparsable r body then resp = unparsable_answer request
  else documents r (rt_call r captures query body) resp.
Proof.
  intros Hin. pose proof (proj1 (Forall_forall _ _) routes_documented r Hin captures query body) as Hd.
  assert (documents r (rt_call r captures query body) (match rt_call r captures query body with
    | inl errors => refused auth_settings (rt_access r) errors request w
    | inr call => handled (api_endpoint auth_settings oidc_settings is_ipv6 utf8_decode call) request w
    end).1) as Hrest.
  { destruct (rt_call r captures query body) as [errors|c] eqn:Ec.
    - destruct Hd as [H422 Hd]. by apply refused_documents.
    - destruct Hd as [Hs Hd]. by apply call_documents. }
  unfold Routes.run_route, unparsable. destruct body as [|position| | |v]; try exact Hrest;
    (destruct (rt_takes_body r) eqn:Et; [|exact Hrest]).
  - eapply documents_problem; [reflexivity|]. left.
    by apply (proj1 (Forall_forall _ _) bodies_documented r Hin).
  - reflexivity.
Qed.

Lemma csrf_refusal request w resp w1 :
  validate_csrf auth_settings request w = (Ok (Some resp), w1) -> resp = csrf_error_response (rq_url_path request).
Proof.
  unfold validate_csrf. cbv zeta.
  destruct (_ || _); [by intros [= <- _]|]. destruct (negb (bool_decide _)); [by intros [= <- _]|].
  destruct (negb (truthy_opt _)); [done|].
  intros [(e & _ & ?)|(ip & w2 & _ & H)]%bind_inv; [done|].
  apply bind_inv in H as [(e & _ & ?)|(st & w3 & _ & H)]; [done|].
  destruct st; [done|by injection H as <- _|done].
Qed.

(** C15. Every response is documented, with one exception.  A request to a route is
    answered with a status the route declares for success and then with a body that
    conforms to the route's [response_model] (none for a redirect and for 204), or with
    the problem document of one of the errors listed in its [responses], or of 500 for
    an unexpected error: also when the CSRF middleware answers, when the session or the
    permission is missing, and when parameters or the body are refused.  The exception
    is a body that cannot be read at all (not even as text), sent to a route that takes
    one: once the middleware lets it through, the answer is always the problem document
    of status 400, whether the route lists 400 or not. *)
Theorem responses_documented query body request w r captures :
  find_route app_routes (rq_method request) (path_segments (route_path request)) = Some (r, captures) ->
  let resp := (application query body request w).1 in
  documents r (rt_call r captures query body) resp
  \/ unparsable r body = true /\ resp = unparsable_answer request.
Proof.
  intros Hf. pose proof (find_route_found _ _ _ _ _ Hf) as (Hin & Hmethod & _).
  assert (forall w1, let resp := (run_route r captures query body request w1).1 in
    documents r (rt_call r captures query body) resp
    \/ unparsable r body = true /\ resp = unparsable_answer request) as Hrun.
  { intros w1. pose proof (run_route_documents r captures query body request w1 Hin) as H.
    cbv zeta in H |- *. destruct (unparsable r body); [by right|by left]. }
  unfold Routes.application, CSRFMiddleware. destruct (requires_csrf auth_settings request) eqn:Hc; cbn [negb].
  - destruct (validate_csrf auth_settings request w) as [[[resp|]|e] w1] eqn:Ev.
    + left. cbn [fst]. apply csrf_refusal in Ev as ->. eapply documents_problem; [reflexivity|]. left.
      apply (proj1 (Forall_forall _ _) routes_guarded r Hin). rewrite Hmethod.
      unfold requires_csrf in Hc. cbv zeta in Hc. by apply andb_true_iff in Hc as [[Hu _]%andb_true_iff _].
    + rewrite Hf. apply Hrun.
    + left. eapply documents_problem; [reflexivity|by right].
  - rewrite Hf. apply Hrun.
Qed.

(** C14. What writes needs the token.  A request with an unsafe method whose path
    belongs to a route, and is not exempt by configuration, reaches that route only
    when the cookie and the header carry the same non-empty CSRF token and, when the
    session cookie opens a live session, that session holds the token's hash.  Any
    other such request is answered with 403 and changes nothing (or with 500 when the
    check itself fails), whatever its query and body. *)
Theorem writes_need_token query body request w r captures :
  find_route app_routes (rq_method request) (path_segments (route_path request)) = Some (r, captures) ->
  rt_method r ∈ UNSAFE_METHODS ->
  route_path request ∉ csrf_exempt_paths (AUTH_CSRF_EXEMPT_PATHS auth_settings) ->
  idle w -> db_ok (w_committed w) ->
  (exists token w1, application query body request w = run_route r captures query body request w1
     /\ rq_cookies request !! csrf_cookie_name = Some token
     /\ headers_get "X-CSRF-Token" (rq_headers request) = Some token /\ token <> ""%string
     /\ forall tok s, session_cookie auth_settings request = Some tok -> tok <> ""%string ->
          active_session_of (w_committed w) (hash_token tok) (env_now (w_clock w)) = Some s ->
          s_csrf_token_hash s = hash_token token)
  \/ exists resp w1, application query body request w = (resp, w1)
       /\ (rs_status resp = 403 /\ w_committed w1 = w_committed w \/ rs_status resp = 500).
Proof.
  intros Hf Hunsafe Hex Hidle Hd. pose proof (writing_route_needs_csrf _ _ _ Hf Hunsafe Hex) as Hc.
  unfold Routes.application, CSRFMiddleware. rewrite Hc, Hf. cbn [negb].
  destruct (validate_csrf auth_settings request w) as [[[resp|]|e] w1] eqn:Ev.
  - destruct (validate_csrf_refused _ _ _ _ _ Hidle Hd Ev) as [-> Hsame].
    right. eexists _, w1. split; [reflexivity|]. by left.
  - destruct (validate_csrf_let_through _ _ _ _ Hidle Hd Ev) as (token & H). left. by exists token, w1.
  - right. eexists _, w1. split; [reflexivity|]. by right.
Qed.
End Answers.

(** ** Instances *)

Definition no_page : App (InMemory.limiter * nat) := fun _ w => (empty_response, w).
Definition demo_application := application (P := demo_pydantic) default_auth_settings demo_oidc_settings
  (fun _ => false) latin1_decode no_page.

(** A login with Ann's session and the token of that session. *)
Definition post_login : Request :=
  mkRequest "POST" "/api/auth/login" "" "/api/auth/login" (Some "10.0.0.1"%string) demo_cookies
    [("x-csrf-token", "ann-csrf")]%string.
Definition found_for (request : Request) :=
  find_route (app_routes (P := demo_pydantic)) (rq_method request) (path_segments (route_path request)).

(** Without a body it is answered as the route documents. *)
Lemma responses_documented_witness :
  exists r captures, found_for post_login = Some (r, captures) /\ rt_errors r = LOGIN_ERROR_RESPONSES
    /\ documents r (rt_call r captures [] NoBody) (demo_application [] NoBody post_login demo_world).1.
Proof.
  eexists _, _. split; [vm_compute; reflexivity|]. split; [reflexivity|].
  match goal with |- documents ?r (rt_call ?r ?captures _ _) _ =>
    destruct (responses_documented (P := demo_pydantic) default_auth_settings demo_oidc_settings
      (fun _ => false) latin1_decode no_page [] NoBody post_login demo_world r captures
      ltac:(vm_compute; reflexivity)) as [H|[H _]] end; [exact H|discriminate H].
Defined.

(** The login does not document the answer to a body that cannot be read. *)
Lemma unparsable_body_undocumented :
  let resp := (demo_application [] UnparsableBody post_login demo_world).1 in
  rs_status resp = 400 /\ 400 ∉ LOGIN_ERROR_RESPONSES.
Proof. split; [vm_compute; reflexivity|]. apply (bool_decide_unpack _). vm_compute. exact I. Qed.

(** It reaches its route. *)
Lemma writes_need_token_witness :
  exists r captures w1, found_for post_login = Some (r, captures)
    /\ demo_application [] NoBody post_login demo_world
       = run_route (P := demo_pydantic) default_auth_settings demo_oidc_settings (fun _ => false) latin1_decode
           r captures [] NoBody post_login w1.
Proof.
  destruct (found_for post_login) as [[r c]|] eqn:Hf; [|vm_compute in Hf; discriminate Hf].
  assert (rt_method r = "POST"%string) as Hm by (vm_compute in Hf; injection Hf as <- _; reflexivity).
  destruct (writes_need_token (P := demo_pydantic) default_auth_settings demo_oidc_settings
    (fun _ => false) latin1_decode no_page [] NoBody post_login demo_world r c Hf)
    as [(token & w1 & H & _)|(resp & w1 & H & Hr)].
  - rewrite Hm. apply (bool_decide_unpack _). vm_compute. exact I.
  - apply (bool_decide_unpack _). vm_compute. exact I.
  - apply world_of_idle.
  - exact demo_db_ok.
  - exists r, c, w1. exact (conj eq_refl H).
  - exfalso. assert (rs_status (demo_application [] NoBody post_login demo_world).1 = 422) as H422
      by (vm_compute; reflexivity).
    unfold demo_application in H422. rewrite H in H422. cbn [fst] in H422.
    destruct Hr as [[Hr _]|Hr]; rewrite Hr in H422; discriminate H422.
Defined.
