(* ===== verification/Lifecycle.v ===== *)
(** * Starting and ending the application

    Models src/backend/app/bootstrap/create_app.py, cli.py and dependencies.py, the
    mounting of the single-page application in route.py, and the methods that release
    resources (the limiters' [aclose], the executor's [shutdown]).  The injector is
    the class [Injector]; what Redis, SQLAlchemy and the thread pool do when they are
    released is the class [Resources], over a state [X] apart from the injector's; the
    files of the static directory and FastAPI's documentation pages are parameters.
    Log messages are left out. *)

From S2P Require Import Prelude PyStr Errors Authorization Settings Tables Effects Interfaces Http.
From S2P Require Import ErrorHandlers Process DatabaseConfig Container SampleItemUsecase Guards AuthController.
From S2P Require Import Application Schemas Routes.
Local Open Scope Z_scope.

(** ** Logging *)

(** [logging.getLevelNamesMapping()] *)
Definition level_names : list (string * Z) :=
  [("CRITICAL", 50); ("FATAL", 50); ("ERROR", 40); ("WARN", 30); ("WARNING", 30); ("INFO", 20);
   ("DEBUG", 10); ("NOTSET", 0)]%string.
Definition level_of_name (name : string) : option Z :=
  snd <$> List.find (fun p => (p.1 =? name)%string) level_names.

(** The level the root logger and the logger [app] get. *)
(* src: backend/app/bootstrap/create_app.py:75-88 _setup_logging *)
Definition setup_logging (config : Config) : Z :=
  default 20 (level_of_name (upper (LOG_LEVEL config))).

(** ** The application object *)

Record fastapi (I : Type) := FastAPI {
  docs_url : option string;
  redoc_url : option string;
  openapi_url : option string;
  app_mount : option string;          (* the directory mounted at / *)
  app_log_level : Z;
  app_injector : I;                   (* [app.state.injector] *)
}.
#[global] Arguments FastAPI {I}.
#[global] Arguments docs_url {I}.
#[global] Arguments redoc_url {I}.
#[global] Arguments openapi_url {I}.
#[global] Arguments app_mount {I}.
#[global] Arguments app_log_level {I}.
#[global] Arguments app_injector {I}.

(** Starlette leaves the routes as they are: [app_routes] of Routes.v. *)
(* src: backend/app/bootstrap/route.py:63-79 setup_routes *)
Definition setup_routes {I} (index_exists : string -> bool) (directory : string) (app : fastapi I) : fastapi I :=
  if negb (index_exists directory) then app
  else FastAPI (docs_url app) (redoc_url app) (openapi_url app) (Some directory) (app_log_level app)
         (app_injector app).

(* src: backend/app/bootstrap/create_app.py:58-58 create_app *)
Definition docs_enabled (config : Config) : bool :=
  existsb (String.eqb (lower (ENVIRONMENT config))) ["local"; "development"; "test"]%string.

Section Startup.
Context {I : Type} `{J : Injector I}.
(** [Injector(modules)] on the resources [DatabaseModule()] made. *)
Context (new_injector : engine_options * session_factory -> I).
Context (env : environment) (index_exists : string -> bool) (STATIC_DIRECTORY : string).

(* src: backend/app/bootstrap/container.py:7-14 build_container *)
Definition build_container : ending I := ending_map new_injector (database_resources env).

(** [injector.get(Config)] *)
Definition get_config : Proc I Config := fun i =>
  match inj_get IConfig i with
  | (Returned o, i') =>
      (match inj_object i' o with
       | Some (AConfig config) => Returned config
       | _ => Raised (AnException (TypeError "Config"))
       end, i')
  | (Raised e, i') => (Raised e, i')
  end.

(** After the container was built. *)
(* src: backend/app/bootstrap/create_app.py:55-64 create_app *)
Definition configure : Proc I (fastapi unit) :=
  config ← get_config;
  inj_get IAuthSettings ;;
  let when_enabled url := if docs_enabled config then Some url else None in
  mret (FastAPI (when_enabled "/docs"%string) (when_enabled "/redoc"%string)
          (when_enabled "/openapi.json"%string) None (setup_logging config) tt).

Notation config_errors :=
  (authorization_config_errors DEFAULT_AUTHORIZATION_PERMISSIONS DEFAULT_AUTHORIZATION_DEFINITIONS).

(* src: backend/app/bootstrap/create_app.py:50-72 create_app *)
Definition create_app : ending (fastapi I) :=
  match config_errors with
  | _ :: _ =>
      Raised (AnException (RuntimeError ("Authorization config is invalid: " ++ join "; " config_errors)))
  | [] =>
      match build_container with
      | Raised e => Raised e
      | Returned injector =>
          match configure injector with
          | (Raised e, _) => Raised e
          | (Returned app, injector') =>
              Returned (setup_routes index_exists STATIC_DIRECTORY
                (FastAPI (docs_url app) (redoc_url app) (openapi_url app) None (app_log_level app)
                   injector'))
          end
      end
  end.
End Startup.

(** ** Releasing resources *)

(** The limiter, the engine and the pool are those of the object's number. *)
Class Resources (X : Type) := {
  redis_has_aclose : bool;                       (* [getattr(self._redis, "aclose", None)] *)
  redis_aclose : nat -> Proc X unit;
  engine_dispose : nat -> Proc X unit;
  thread_pool_shutdown : nat -> bool -> bool -> Proc X unit;   (* wait, cancel_futures *)
}.

Section Shutdown.
Context {I X : Type} `{J : Injector I} `{RS : Resources X}.
Notation State := (I * X)%type.

(** [injector.get], and a library's call. *)
Definition get_object (k : interface) : Proc State nat := fun s =>
  let (r, i) := inj_get k s.1 in (r, (i, s.2)).
Definition outside {A} (p : Proc X A) : Proc State A := fun s =>
  let (r, x) := p s.2 in (r, (s.1, x)).
Definition no_attribute {A} (name : string) : Proc State A := proc_raise (AnException (AttributeError name)).

(* src: backend/app/libraries/redis_login_rate_limiter.py:158-161 RedisLoginRateLimiter.aclose *)
Definition redis_limiter_aclose (o : nat) : Proc State unit :=
  if redis_has_aclose then outside (redis_aclose o) else mret tt.
(* src: backend/app/libraries/auth_rate_limiter.py:158-159 InMemoryLoginRateLimiter.aclose *)
Definition in_memory_limiter_aclose (o : nat) : Proc State unit := mret tt.
(* src: backend/app/interfaces/libraries/rate_limiter_interface.py:47-49 LoginRateLimiterInterface.aclose *)
Definition limiter_aclose (o : nat) : Proc State unit := fun s =>
  match inj_object s.1 o with
  | Some (ARateLimiter (RedisBacked _ _ _)) => redis_limiter_aclose o s
  | Some (ARateLimiter (InMemoryBacked _)) => in_memory_limiter_aclose o s
  | _ => no_attribute "aclose" s
  end.

(* src: backend/app/libraries/password_hasher.py:46-47 PasswordHashExecutor.shutdown *)
Definition executor_shutdown (o : nat) : Proc State unit := outside (thread_pool_shutdown o false true).

(* src: backend/app/bootstrap/create_app.py:31-32 lifespan *)
Definition close_limiter : Proc State unit := get_object ILoginRateLimiter ≫= limiter_aclose.
(* src: backend/app/bootstrap/create_app.py:36-37 lifespan *)
Definition dispose_engine : Proc State unit :=
  o ← get_object IAsyncEngine; outside (engine_dispose o).
(* src: backend/app/bootstrap/create_app.py:41-42 lifespan *)
Definition shutdown_executor : Proc State unit := get_object IPasswordHashExecutor ≫= executor_shutdown.

(** [try: step except Exception as error: cleanup_error = cleanup_error or error] *)
Definition attempt (cleanup_error : option base_exception) (step : Proc State unit)
  : Proc State (option base_exception) :=
  except_exception (step ;; mret cleanup_error) (fun error => mret (Some (default error cleanup_error))).

(* src: backend/app/bootstrap/create_app.py:29-47 lifespan *)
Definition release (app_error : option base_exception) : Proc State unit :=
  cleanup_error ← attempt None close_limiter;
  cleanup_error ← attempt cleanup_error dispose_engine;
  cleanup_error ← attempt cleanup_error shutdown_executor;
  match app_error, cleanup_error with
  | None, Some e => proc_raise e
  | _, _ => mret tt
  end.

(** [serve] is what happens while the context is open. *)
(* src: backend/app/bootstrap/create_app.py:21-47 lifespan *)
Definition lifespan (serve : Proc State unit) : Proc State unit := fun s =>
  let (r, s1) := serve s in
  finally (from_ending r) (release (match r with Raised e => Some e | Returned _ => None end)) s1.

(** [try: step except Exception: logger.exception(...)] *)
Definition quietly (step : Proc State unit) : Proc State unit :=
  except_exception step (fun _ => mret tt).

(* src: backend/app/bootstrap/cli.py:15-27 run_with_container *)
Definition run_with_container {A} (container : ending I) (operation : Proc State A) : Proc X A := fun x =>
  match container with
  | Raised e => (Raised e, x)
  | Returned i =>
      let (r, s) := finally operation (quietly close_limiter ;; quietly dispose_engine) (i, x) in
      (r, s.2)
  end.
End Shutdown.

(** ** What an application answers *)

Section Serving.
Context `{E : Env} {L : Type} `{R : LoginRateLimiter L} `{PC : OidcProviderClient L} {C : CursorCodec}.
Context {P : Pydantic}.
Context (auth_settings : AuthSettings) (oidc_settings : OidcSettings).
Context (is_ipv6 : string -> bool) (utf8_decode : list ascii -> list ascii).
(** FastAPI's page of a documentation URL; [StaticFiles.get_response] of Starlette on a
    directory, and the path it is given for a request; what Starlette answers where no
    route and no mount fits. *)
Context (documentation_page : string -> App L).
Context (static_file : string -> Request -> string -> outcome Response) (static_path : Request -> string).
Context (not_found : App L).
Context {I : Type}.
Implicit Type (app : fastapi I).

(** The documentation's routes; none without [openapi_url]. *)
Definition documentation_urls app : list string :=
  match openapi_url app with
  | None => []
  | Some url => url :: omap id [docs_url app; redoc_url app]
  end.

Definition is_documentation app (request : Request) : bool :=
  existsb (String.eqb (rq_method request)) ["GET"; "HEAD"]%string
  && existsb (String.eqb (route_path request)) (documentation_urls app).

(** [SPAStaticFiles(directory, html=True)], whose errors are HTTP errors. *)
(* src: backend/app/bootstrap/route.py:78-78 setup_routes *)
Definition spa (directory : string) : App L :=
  handled (fun request w => (get_response (static_file directory request) (static_path request) request, w)).

(** Where none of [app_routes] fits. *)
Definition unmatched app : App L := fun request w =>
  if is_documentation app request then documentation_page (route_path request) request w
  else match app_mount app with
       | Some directory => spa directory request w
       | None => not_found request w
       end.

Definition served app (query : list (string * string)) (body : http_body) : App L :=
  application auth_settings oidc_settings is_ipv6 utf8_decode (unmatched app) query body.
End Serving.
