(* ===== verification/LifecycleSpec.v ===== *)
(** * What starting and ending guarantee

    Which configurations start, what the application they start shows, and that its
    end releases the objects its components used.  The injector is any that keeps the
    documented rules. *)

From S2P Require Import Prelude PyStr Errors Authorization Settings Tables Effects Interfaces Http.
From S2P Require Import RateLimiter ErrorHandlers Process DatabaseConfig Container ContainerSpec SampleItemUsecase Guards.
From S2P Require Import UrlQuery OAuthOidcUsecase AuthController Application Schemas Routes RoutesSpec RouteAnswers Lifecycle Demo.
Local Open Scope Z_scope.

(** ** Starting *)

Section Start.
Context {I : Type} `{J : Injector I}.
Context (new_injector : engine_options * session_factory -> I).
Context (network_prefixlen : string -> option Z) (is_ipv6 : string -> bool).
Context (env : environment) (index_exists : string -> bool) (STATIC_DIRECTORY : string).
Notation make := (provide network_prefixlen is_ipv6 env).
Context (Hlaws : forall resources,
  injector_laws container_bindings (make resources) (new_injector resources)).
Notation later := (rtc asks).
Notation create_app := (create_app new_injector env index_exists STATIC_DIRECTORY).

(** A provider without parameters. *)
Lemma provided_alone resources k p i :
  later (new_injector resources) i -> target_of k container_bindings = Some (Provided p) ->
  provider_parameters p = [] ->
  match inj_get k i with
  | (Returned o, i') => exists x, inj_object i' o = Some x /\ make resources p [] = Returned x
  | (Raised e, _) => make resources p [] = Raised e
  end.
Proof.
  intros Hi Hb Hp. destruct (inj_get k i) as [[o|e] i'] eqn:Hg.
  - destruct (made_by_provider _ _ _ (Hlaws resources) k p i o i' Hi Hg Hb) as (args & objs & x & Hx & Ha & Ho & Hm).
    rewrite Hp in Ha. apply Forall2_nil_inv_l in Ha as ->. apply Forall2_nil_inv_l in Ho as ->. by exists x.
  - by apply (raised_by_provider _ _ _ (Hlaws resources) k p i e i').
Qed.

Lemma asked_later i k r i' : inj_get k i = (r, i') -> asks i i'.
Proof. intros H. by exists k, r. Qed.

(** The application [create_app] returns, for the configuration it read. *)
Definition started (config : Config) (db : DatabaseSettings) (app : fastapi I) : Prop :=
  let when_enabled url := if docs_enabled config then Some url else None in
  docs_url app = when_enabled "/docs"%string /\ redoc_url app = when_enabled "/redoc"%string
  /\ openapi_url app = when_enabled "/openapi.json"%string
  /\ app_mount app = (if index_exists STATIC_DIRECTORY then Some STATIC_DIRECTORY else None)
  /\ app_log_level app = setup_logging config
  /\ later (new_injector (build_engine_and_session_factory db None)) (app_injector app)
  /\ exists o, inj_get IAuthSettings (app_injector app) = (Returned o, app_injector app)
       /\ inj_object (app_injector app) o = Some (SomeAuthSettings (read_auth_settings env)).

Lemma configured resources :
  match configure (new_injector resources) with
  | (Returned app, i) =>
      exists config, read_config env = Returned config
        /\ validate_auth_settings network_prefixlen (read_auth_settings env) = Ok tt
        /\ (let when_enabled url := if docs_enabled config then Some url else None in
            app = FastAPI (when_enabled "/docs"%string) (when_enabled "/redoc"%string)
                    (when_enabled "/openapi.json"%string) None (setup_logging config) tt)
        /\ later (new_injector resources) i
        /\ exists o, inj_get IAuthSettings i = (Returned o, i)
             /\ inj_object i o = Some (SomeAuthSettings (read_auth_settings env))
  | (Raised e, _) =>
      read_config env = Raised e
      \/ is_Some (match read_config env with Returned c => Some c | Raised _ => None end)
         /\ exists e', validate_auth_settings network_prefixlen (read_auth_settings env) = Raise e'
                       /\ e = AnException e'
  end.
Proof.
  set (start := new_injector resources).
  pose proof (provided_alone resources IConfig provide_config start (rtc_refl _ _) eq_refl eq_refl) as Hc.
  unfold configure, mbind, proc_bind, get_config.
  destruct (inj_get IConfig start) as [[o|e] i] eqn:E1.
  - destruct Hc as (x & Hx & Hm). rewrite Hx. simpl in Hm. destruct (read_config env) as [c|] eqn:Ec; [|done].
    injection Hm as <-. assert (later start i) as Hi by (by eapply rtc_once, asked_later).
    pose proof (provided_alone resources IAuthSettings provide_auth_settings i Hi eq_refl eq_refl) as Ha.
    destruct (inj_get IAuthSettings i) as [[o'|e] i'] eqn:E2.
    + destruct Ha as (y & Hy & Hm). unfold provide, get_auth_settings, ending_of in Hm.
      destruct (validate_auth_settings _ _) as [[]|e] eqn:Ev; [|done]. injection Hm as <-. simpl.
      exists c. split_and!; [done..| |].
      * eapply rtc_r; [exact Hi|by eapply asked_later].
      * exists o'. split; [|done].
        by apply (singleton_scope _ _ _ (Hlaws resources) IAuthSettings i o' i' i').
    + unfold provide, get_auth_settings, ending_of in Ha.
      destruct (validate_auth_settings _ _) as [[]|e'] eqn:Ev; [done|]. injection Ha as <-. right.
      split; [by eexists|]. by exists e'.
  - simpl in Hc. destruct (read_config env) as [c|e'] eqn:Ec; simpl in Hc; [done|].
    injection Hc as ->. by left.
Qed.

(** The policy of the source is valid. *)
Lemma policy_accepted :
  authorization_config_errors DEFAULT_AUTHORIZATION_PERMISSIONS DEFAULT_AUTHORIZATION_DEFINITIONS = [].
Proof. vm_compute. reflexivity. Qed.

Lemma create_app_cases :
  match create_app with
  | Returned app => exists config db, read_config env = Returned config
      /\ read_database_settings env = Returned db
      /\ validate_auth_settings network_prefixlen (read_auth_settings env) = Ok tt
      /\ started config db app
  | Raised e =>
      read_database_settings env = Raised e
      \/ read_config env = Raised e
      \/ exists e', validate_auth_settings network_prefixlen (read_auth_settings env) = Raise e'
                    /\ e = AnException e'
  end.
Proof.
  unfold Lifecycle.create_app, build_container, database_resources. rewrite policy_accepted.
  destruct (read_database_settings env) as [db|e] eqn:Ed; simpl; [|by left].
  pose proof (configured (build_engine_and_session_factory db None)) as H.
  destruct (configure _) as [[app|e] i].
  - destruct H as (config & Hc & Hv & -> & Hl & o & Ho & Hx). exists config, db. split_and!; [done..|].
    unfold setup_routes. destruct (index_exists STATIC_DIRECTORY) eqn:Ei; cbn [negb];
      unfold started; cbn [docs_url redoc_url openapi_url app_mount app_log_level app_injector];
      rewrite Ei; split_and!; eauto.
  - destruct H as [H|[_ H]]; auto.
Qed.

(** The application starts exactly with an acceptable configuration: the policy of
    roles has no errors, the database settings and the configuration can be read and
    the authentication settings pass their validators; otherwise what could not be read
    is raised.  The application it starts has the documentation's URLs only where they
    are enabled, serves the static directory only when that has a page, logs at the
    configured level, and its injector answers with the authentication settings that
    were validated. *)
Theorem starts_iff_configured :
  ((exists app, create_app = Returned app) <->
     authorization_config_errors DEFAULT_AUTHORIZATION_PERMISSIONS DEFAULT_AUTHORIZATION_DEFINITIONS = []
     /\ (exists config, read_config env = Returned config)
     /\ (exists db, read_database_settings env = Returned db)
     /\ validate_auth_settings network_prefixlen (read_auth_settings env) = Ok tt)
  /\ (forall app, create_app = Returned app -> exists config db,
        read_config env = Returned config /\ read_database_settings env = Returned db
        /\ started config db app)
  /\ (forall e, create_app = Raised e ->
        read_database_settings env = Raised e \/ read_config env = Raised e
        \/ exists e', validate_auth_settings network_prefixlen (read_auth_settings env) = Raise e'
                      /\ e = AnException e').
Proof.
  pose proof create_app_cases as H. split_and!.
  - split; [intros [app Hr]; rewrite Hr in H|intros (_ & [c Hc] & [db Hd] & Hv)].
    + destruct H as (config & db & ? & ? & ? & _). split_and!; eauto using policy_accepted.
    + destruct create_app as [app|e]; [by exists app|]. exfalso.
      destruct H as [H|[H|(e' & H & _)]]; congruence.
  - intros app Hr. rewrite Hr in H. destruct H as (config & db & ? & ? & ? & ?). by exists config, db.
  - intros e Hr. by rewrite Hr in H.
Qed.
End Start.

(** ** The documentation *)

(** No route of the application is the documentation's. *)
Lemma documentation_apart {P : Pydantic} method path :
  path ∈ ["/docs"; "/redoc"; "/openapi.json"]%string -> find_route app_routes method (path_segments path) = None.
Proof.
  intros Hp. destruct (find_route _ _ _) as [[r c]|] eqn:Hf; [|done].
  apply find_route_found in Hf as (Hin & _ & Hm). exfalso.
  assert (Forall (fun r => Forall (fun path => match_path (rt_path r) (path_segments path) = None)
    ["/docs"; "/redoc"; "/openapi.json"]%string) app_routes) as Hall.
  { repeat apply Forall_cons_2; try apply Forall_nil_2; reflexivity. }
  pose proof (proj1 (Forall_forall _ _) (proj1 (Forall_forall _ _) Hall r Hin) path Hp). congruence.
Qed.

Section Documentation.
Context `{E : Env} {L : Type} `{R : LoginRateLimiter L} `{PC : OidcProviderClient L} {C : CursorCodec}.
Context {P : Pydantic}.
Context (auth_settings : AuthSettings) (oidc_settings : OidcSettings).
Context (is_ipv6' : string -> bool) (utf8_decode : list ascii -> list ascii).
Context (static_file : string -> Request -> string -> outcome Response) (static_path : Request -> string).
Context (not_found : App L).
Context {I : Type} `{J : Injector I}.
Context (new_injector : engine_options * session_factory -> I).
Context (network_prefixlen : string -> option Z) (is_ipv6 : string -> bool).
Context (env : environment) (index_exists : string -> bool) (STATIC_DIRECTORY : string).
Context (Hlaws : forall resources,
  injector_laws container_bindings (provide network_prefixlen is_ipv6 env resources) (new_injector resources)).
Notation create_app := (create_app new_injector env index_exists STATIC_DIRECTORY).
Notation served page := (served auth_settings oidc_settings is_ipv6' utf8_decode page static_file static_path not_found).

Lemma get_response_reserved file path request :
  is_api_path path || is_reserved_backend_path path = true ->
  get_response file path request = Failed (HttpError (HttpException 404 (DetailText "Not Found") [])).
Proof. unfold get_response. by intros ->. Qed.

Lemma unmatched_hidden (app : fastapi I) config page request w :
  create_app = Returned app -> read_config env = Returned config -> docs_enabled config = false ->
  unmatched page static_file static_path not_found app request w
  = match app_mount app with
    | Some directory => spa static_file static_path directory request w
    | None => not_found request w
    end.
Proof.
  intros Hr Hc He. pose proof (create_app_cases new_injector network_prefixlen is_ipv6 env index_exists
    STATIC_DIRECTORY Hlaws) as H. rewrite Hr in H. destruct H as (c & db & Hc' & _ & _ & Hs).
  rewrite Hc in Hc'. injection Hc' as <-. destruct Hs as (_ & _ & Hurl & _).
  unfold unmatched, is_documentation, documentation_urls. rewrite Hurl, He. cbn [existsb].
  by rewrite andb_false_r.
Qed.

(** C19. Outside local, development and test environments the documentation is hidden.
    Whatever page FastAPI would show is never shown: no answer depends on it.  With a
    static directory mounted, a request for one of the documentation's paths is
    answered with 404, whatever files the directory has. *)
Theorem documentation_hidden (app : fastapi I) config :
  create_app = Returned app -> read_config env = Returned config ->
  lower (ENVIRONMENT config) ∉ ["local"; "development"; "test"]%string ->
  (forall page page' query body request w,
     served page app query body request w = served page' app query body request w)
  /\ (forall page query body request w directory,
        app_mount app = Some directory -> requires_csrf auth_settings request = false ->
        route_path request ∈ ["/docs"; "/redoc"; "/openapi.json"]%string ->
        static_path request = strip_char "/" (route_path request) ->
        rs_status (served page app query body request w).1 = 404).
Proof.
  intros Hr Hc Henv. assert (docs_enabled config = false) as He.
  { apply not_true_is_false. intros (x & Hx & Heq%String.eqb_eq)%existsb_exists.
    apply Henv. rewrite Heq. by apply list_elem_of_In. }
  split.
  - intros page page' query body request w. unfold Lifecycle.served, application, CSRFMiddleware.
    destruct (negb _).
    + destruct (find_route _ _ _) as [[r c]|]; [done|]. by rewrite !(unmatched_hidden app config).
    + destruct (validate_csrf auth_settings request w) as [[[resp|]|e] w1]; [done| |done].
      destruct (find_route _ _ _) as [[r c]|]; [done|]. by rewrite !(unmatched_hidden app config).
  - intros page query body request w directory Hm Hcsrf Hp Hpath.
    unfold Lifecycle.served, application, CSRFMiddleware. rewrite Hcsrf. cbn [negb].
    rewrite documentation_apart by done. rewrite (unmatched_hidden app config) by done. rewrite Hm.
    unfold spa, handled. rewrite get_response_reserved.
    + apply http_exception_status.
    + rewrite Hpath. apply orb_true_iff. right.
      repeat (apply elem_of_cons in Hp as [->|Hp]; [reflexivity|]). by apply not_elem_of_nil in Hp.
Qed.
End Documentation.

(** ** Ending *)

Definition only_exceptions {A} (r : ending A) : Prop :=
  match r with Raised e => is_exception e = true | Returned _ => True end.

Section Ending.
Context {I X : Type} `{J : Injector I} `{RS : Resources X}.
Notation State := (I * X)%type.
Implicit Types (s : State).


Lemma quietly_spec (step : Proc State unit) s r s' :
  step s = (r, s') -> only_exceptions r -> quietly step s = (Returned tt, s').
Proof.
  intros Hs Hr. unfold quietly, except_exception. rewrite Hs. destruct r as [[]|e]; [done|].
  simpl in Hr. by rewrite Hr.
Qed.


(** *** The objects that are released *)

Context (network_prefixlen : string -> option Z) (is_ipv6 : string -> bool) (env : environment).
Context (resources : engine_options * session_factory) (start : I).
Context (Hlaws : injector_laws container_bindings (provide network_prefixlen is_ipv6 env resources) start).
Notation later := (rtc asks).




(** A command's result is its own: no failure of the release replaces it. *)
Theorem command_releases {A} (operation : Proc State A) i x r s1 r1 s2 r2 s3 :
  operation (i, x) = (r, s1) -> close_limiter s1 = (r1, s2) -> dispose_engine s2 = (r2, s3) ->
  only_exceptions r1 -> only_exceptions r2 ->
  run_with_container (Returned i) operation x = (r, s3.2).
Proof.
  intros Ho H1 H2 E1 E2. unfold run_with_container, finally. rewrite Ho.
  rewrite (proc_bind_returned _ _ _ _ _ (quietly_spec _ _ _ _ H1 E1)).
  by rewrite (quietly_spec _ _ _ _ H2 E2).
Qed.

(** The in-memory limiter has nothing to release. *)
Lemma in_memory_close s u c :
  inj_object s.1 u = Some (ARateLimiter (InMemoryBacked c)) -> limiter_aclose u s = (Returned tt, s).
Proof. unfold limiter_aclose. by intros ->. Qed.
End Ending.

(** ** Instances *)

Notation demo_make := (provide (fun _ => None) (fun _ => false) demo_environment).
Definition carried : Type := (engine_options * session_factory) * registry.
#[local] Instance demo_carrying : Injector carried := carrying_injector container_bindings demo_make 4.
Definition demo_new (resources : engine_options * session_factory) : carried := (resources, Registry [] []).

Lemma demo_laws resources :
  injector_laws container_bindings (demo_make resources) (demo_new resources).
Proof. exact (carrying_injector_laws container_bindings demo_make 4 resources (Nat.lt_0_succ 3)). Qed.

(** The default configuration starts. *)
Lemma starts_iff_configured_witness :
  exists app, create_app demo_new demo_environment (fun _ => true) "static" = Returned app.
Proof.
  apply (proj1 (starts_iff_configured demo_new (fun _ => None) (fun _ => false) demo_environment
    (fun _ => true) "static" demo_laws)).
  split; [vm_compute; reflexivity|]. split; [eexists; reflexivity|]. split; [eexists; reflexivity|].
  vm_compute. reflexivity.
Defined.

Definition get_docs : Request := mkRequest "GET" "/docs" "" "/docs" (Some "10.0.0.1"%string) ∅ [].
(** Starlette's answer without a mount, and a directory that has every file. *)
Definition nothing_here : App (InMemory.limiter * nat) := fun _ w => (empty_response, w).
Definition every_file : string -> Request -> string -> outcome Response := fun _ _ _ => Done empty_response.
Definition docs_answer (page : App (InMemory.limiter * nat)) (app : fastapi carried) : Z :=
  rs_status (served (P := demo_pydantic) default_auth_settings demo_oidc_settings (fun _ => false) latin1_decode
    (fun _ => page) every_file (fun request => strip_char "/" (route_path request)) nothing_here app
    [] NoBody get_docs demo_world).1.

(** It is a production environment, whose documentation is hidden. *)
Lemma documentation_hidden_witness :
  exists app, create_app demo_new demo_environment (fun _ => true) "static" = Returned app
    /\ docs_answer nothing_here app = 404.
Proof.
  eexists. split; [vm_compute; reflexivity|].
  eapply (proj2 (documentation_hidden (P := demo_pydantic) default_auth_settings demo_oidc_settings
    (fun _ => false) latin1_decode every_file (fun request => strip_char "/" (route_path request)) nothing_here
    demo_new (fun _ => None) (fun _ => false) demo_environment (fun _ => true) "static" demo_laws _ default_config
    ltac:(vm_compute; reflexivity) eq_refl ltac:(apply (bool_decide_unpack _); vm_compute; exact I))).
  - reflexivity.
  - vm_compute. reflexivity.
  - apply (bool_decide_unpack _). vm_compute. exact I.
  - vm_compute. reflexivity.
Defined.

(** The engine and the pool write down what they are asked; the engine then fails. *)
#[local] Instance demo_release : Resources (list string) := {|
  redis_has_aclose := true;
  redis_aclose o log := (Returned tt, log ++ ["closed"%string]);
  engine_dispose o log := (Raised (LibraryException "OSError" "connection lost"), log ++ ["disposed"%string]);
  thread_pool_shutdown o wait cancel log := (Returned tt, log ++ ["shut down"%string]);
|}.


