(* ===== verification/AuthControllerSpec.v ===== *)
(** * Cookies and redirects of the authentication endpoints

    What a login puts into cookies, that no OpenID Connect redirect sets a session
    cookie without a completed flow, and what [merge_redirect_query] makes of a stored
    redirect path. *)

From S2P Require Import Prelude PyStr Errors Time Url UrlQuery Settings Tables Effects UnitOfWork.
From S2P Require Import AuthRepository Runs Integrity Lookups RateLimiter Interfaces Http ErrorHandlers.
From S2P Require Import AuthUsecase AuthUsecaseSpec Guards OAuthOidcUsecase AuthController Demo.

(** ** Dicts of texts *)

Fixpoint dict_get (k : string) (d : text_dict) : option string :=
  match d with
  | [] => None
  | (k', v) :: d' => if decide (k' = k) then Some v else dict_get k d'
  end.

Lemma dict_get_set k k' v d :
  dict_get k (dict_set k' v d) = if decide (k' = k) then Some v else dict_get k d.
Proof.
  induction d as [|[j w] d IH]; simpl; [done|].
  destruct (decide (j = k')) as [->|]; simpl; [by destruct (decide (k' = k))|].
  rewrite IH. destruct (decide (j = k)) as [->|]; [|done].
  by destruct (decide (k' = k)) as [->|].
Qed.

Lemma dict_get_pop k k' d : dict_get k (dict_pop k' d) = if decide (k' = k) then None else dict_get k d.
Proof.
  unfold dict_pop. induction d as [|[j w] d IH]; [by destruct (decide _)|]. rewrite filter_cons. simpl.
  destruct (decide (j <> k')) as [Hj|Hj].
  - simpl. rewrite IH. destruct (decide (j = k)) as [->|]; [|done]. by rewrite decide_False.
  - apply dec_stable in Hj as ->. rewrite IH. by destruct (decide (k' = k)).
Qed.

(** The value a key has after the updates. *)
Fixpoint updated (k : string) (updates : list (string * option string)) (old : option string)
  : option string :=
  match updates with
  | [] => old
  | (k', v) :: updates' => updated k updates' (if decide (k' = k) then v else old)
  end.

Lemma dict_get_update k updates d :
  dict_get k (update_query d updates) = updated k updates (dict_get k d).
Proof.
  unfold update_query. revert d. induction updates as [|[k' [v|]] updates IH]; intros d; [done|..];
    cbn [fold_left fst snd]; rewrite IH; cbn [updated]; f_equal.
  - apply dict_get_set.
  - apply dict_get_pop.
Qed.

(** ** Merging a query *)

Section Redirects.
Context (is_ipv6 : string -> bool) (utf8_decode : list ascii -> list ascii).

(** The redirect that ends a flow keeps the path and fragment of the stored
    redirect path, and drops everything in front of the path; its query, read back by
    any server, is the stored query with the updates made: set where a value is
    given, absent where it is not, and otherwise as it was. *)
Theorem merge_redirect_query_ok redirect_path updates target :
  (forall l, utf8_decode (utf8_encode l) = l) ->
  merge_redirect_query is_ipv6 utf8_decode redirect_path updates = Ok target ->
  exists parsed q, urlparse is_ipv6 redirect_path = Ok parsed
    /\ target = urlunparse_local (if truthy (path parsed) then path parsed else "/") q (fragment parsed)
    /\ forall k, dict_get k (parse_qsl utf8_decode q)
         = updated k updates (dict_get k (dict_of (parse_qsl utf8_decode (query parsed)))).
Proof.
  intros Hutf8. unfold merge_redirect_query. destruct (urlparse is_ipv6 redirect_path) as [parsed|]; [|done].
  intros [= <-]. exists parsed, (urlencode (update_query
    (dict_of (parse_qsl utf8_decode (query parsed))) updates)). split_and!; [done..|].
  intros k. by rewrite query_round_trip, dict_get_update.
Qed.

(** A flow can end at another host.  A redirect value that begins with four
    slashes has no network location for [urlparse], so it passes the check and is
    stored with two; what follows these is then dropped as a network location, and
    the rest of the path, which begins with two slashes again, is sent to the browser
    behind two more.  Browsers take the result for a reference to the host. *)
Theorem callback_redirect_escapes :
  normalize_redirect_path is_ipv6 (Some "////x//evil.example/login"%string)
  = Ok "//x//evil.example/login"%string
  /\ merge_redirect_query is_ipv6 utf8_decode "//x//evil.example/login"
       [("oidc_error", None); ("oidc_reauth", None)]%string = Ok "////evil.example/login"%string.
Proof. split; reflexivity. Qed.
End Redirects.

(** ** Handlers *)

Section Spec.
Context `{E : Env} {L : Type} `{R : LoginRateLimiter L} `{P : OidcProviderClient L} {V : Pydantic}.
Context (auth_settings : AuthSettings) (oidc_settings : OidcSettings).
Context (is_ipv6 : string -> bool) (utf8_decode : list ascii -> list ascii).
Implicit Types (w : World L) (request : Request).

Notation secure := (is_secure_request auth_settings).
Notation max_age := (AUTH_SESSION_ABSOLUTE_TTL_SECONDS auth_settings).

Definition session_cookie_of (token : string) : Cookie :=
  mkCookie (session_cookie_name auth_settings) token true "lax" secure "/" max_age.
Definition csrf_cookie_of (token : string) : Cookie :=
  mkCookie csrf_cookie_name token false "lax" secure "/" max_age.

Lemma set_auth_cookie_ok key value httponly sec age r r' :
  set_auth_cookie key value httponly sec age r = Ok r' ->
  r' = set_cookie (mkCookie key value httponly "lax" sec "/" age) r
  /\ (startswith key "__Host-" = true -> sec = true).
Proof.
  unfold set_auth_cookie, cookie_host_prefix. destruct (startswith key "__Host-"), sec; simpl; by intros [= <-].
Qed.

Lemma set_session_cookies_ok token csrf r r' :
  set_session_cookies auth_settings token csrf r = Ok r' ->
  r' = set_cookie (csrf_cookie_of csrf) (set_cookie (session_cookie_of token) r).
Proof.
  unfold set_session_cookies, set_session_cookie, set_csrf_cookie.
  destruct (set_auth_cookie _ _ _ _ _ r) as [r1|] eqn:E1; [|done]. apply set_auth_cookie_ok in E1 as [-> _].
  simpl. intros [-> _]%set_auth_cookie_ok. done.
Qed.

Lemma with_client_ok {A} request (call : option string -> option string -> M L A) w a w' :
  with_client auth_settings request call w = (Ok a, w') ->
  exists ip, get_client_ip auth_settings request = Ok ip /\ call ip (ClientIp.get_user_agent request) w = (Ok a, w').
Proof.
  unfold with_client. rewrite bind_run, lift_run.
  destruct (get_client_ip auth_settings request) as [ip|]; [|done]. eauto.
Qed.

(** The response to a login carries exactly two cookies, for the path of the whole
    site, same-site, secure unless the settings say otherwise, and as long-lived as a
    session: the session token, which scripts cannot read, and the CSRF token.  They
    are the tokens of the session that was created for the account of the e-mail,
    which the database knows by their hashes only. *)
Theorem login_cookies email password request w r w' :
  idle w -> db_ok (w_committed w) ->
  login_endpoint auth_settings email password request w = (Done r, w') ->
  exists token csrf u k s,
    rs_cookies r = [session_cookie_of token; csrf_cookie_of csrf]
    /\ user_by_email (w_committed w) (normalize_email email) = Some u
    /\ sessions (w_committed w) !! k = None /\ sessions (w_committed w') !! k = Some s
    /\ s_user_id s = u_id u
    /\ s_session_token_hash s = hash_token token /\ s_csrf_token_hash s = hash_token csrf.
Proof.
  intros Hidle Hd. rewrite (idle_at w Hidle). set (d := w_committed w) in *. clearbody d.
  change (w_committed (at_db false d d w)) with d. unfold login_endpoint.
  intros (issued & w1 & Hcall & H)%web_bind_done. apply calling_done, with_client_ok in Hcall as (ip & _ & Hl).
  apply web_bind_done in H as (r1 & w2 & [Hc ->]%pure_web_done & (b & w3 & [_ ->]%pure_web_done & [= <- <-])%web_bind_done).
  apply set_session_cookies_ok in Hc as ->.
  apply login_inv in Hl as (u & h & s & d' & x' & -> & Heff); [|done].
  destruct (le_login _ _ _ _ _ _ _ _ _ _ _ _ _ _ Heff) as (Hsi & _).
  destruct Hsi as [(a & -> & _ & _ & Hfree) Hf].
  exists (is_session_token issued), (is_csrf_token issued), u, (s_id s), s.
  pose proof (le_user _ _ _ _ _ _ _ _ _ _ _ _ _ _ Heff). split_and!; try done; try apply Hf.
  - destruct (revoke_presented_sessions (session_cookie auth_settings request) (S (w_clock w)) d (s_id s))
      as [Hk|(s2 & _ & _ & Hk)]; congruence.
  - simpl. by rewrite lookup_insert_eq.
Qed.

(** A user whose stored e-mail is no [EmailStr] cannot be shown: the session is accepted,
    and the response model then refuses the user, an unexpected error. *)
Theorem me_needs_email_str c request w w1 :
  require_current_session auth_settings request w = (Done c, w1) ->
  email_of_text (u_email (ctx_user c)) = None ->
  get_me auth_settings request w
  = (Failed (Uncaught (ValueError "validation error for AuthUserResponse")), w1).
Proof.
  intros Hs He. unfold get_me, mbind, web_bind. rewrite Hs. unfold pure_web, context_response,
    auth_user_response, AuthUserResponse. by rewrite He.
Qed.

(** ** The callback *)

(** The redirect of a failed flow: one cookie at most, which it clears. *)
Definition clears_only (name : option string) (r : Response) : Prop :=
  rs_status r = 303 /\ rs_cookies r =
    match name with Some n => [mkCookie n "" true "lax" secure "/" 0] | None => [] end.

Lemma callback_failure_clears e name r :
  oidc_callback_failure_redirect is_ipv6 utf8_decode e name secure = Ok r -> clears_only name r.
Proof.
  unfold oidc_callback_failure_redirect.
  destruct (match e with OidcCallbackFlowError _ p path => (p, path) | _ => (PurposeLogin, "/app"%string) end)
    as [purpose path].
  destruct (merge_redirect_query _ _ _ _) as [target|]; [|done]. simpl. destruct name as [n|].
  - unfold clear_oidc_binding_cookie, clear_auth_cookie. destruct (cookie_host_prefix n _) as [[]|]; [|done].
    by intros [= <-].
  - by intros [= <-].
Qed.

Lemma error_callback_raises pid state request w r w' :
  error_callback auth_settings oidc_settings pid state request w = (r, w') -> exists e, r = Raise e.
Proof.
  unfold error_callback, with_client at 2, complete_error_callback.
  intros [(e & _ & ->)|(ctx & w1 & _ & H)]%bind_inv; [by exists e|].
  apply bind_inv in H as [(e & _ & ->)|(ip & w2 & _ & H)]; [by exists e|].
  apply bind_inv in H as [(e & _ & ->)|(p & w3 & _ & H)]; [by exists e|].
  apply bind_inv in H as [(e & _ & ->)|(st & w4 & _ & H)]; [by exists e|].
  apply bind_inv in H as [(e & _ & ->)|([] & w5 & _ & H)]; [by exists e|].
  rewrite raise_run in H. injection H as <- _. by eexists.
Qed.

Lemma callback_success_cookies state request result w r w' :
  callback_success auth_settings is_ipv6 utf8_decode state request result w = (Done r, w') ->
  rs_status r = 303 /\ exists csrf, rs_cookies r
    = match cb_issued_session result with
      | Some issued => [session_cookie_of (is_session_token issued)]
      | None => []
      end ++ [csrf_cookie_of csrf;
              mkCookie (oidc_binding_cookie_name_for_state state) "" true "lax" secure "/" 0].
Proof.
  unfold callback_success. intros (r1 & w1 & H1 & [H2 ->]%pure_web_done)%web_bind_done.
  assert (r = set_cookie (mkCookie (oidc_binding_cookie_name_for_state state) "" true "lax" secure "/" 0) r1) as ->.
  { unfold clear_oidc_binding_cookie, clear_auth_cookie in H2.
    destruct (cookie_host_prefix _ _) as [[]|]; [|done]. by injection H2 as <-. }
  destruct (cb_issued_session result) as [issued|].
  - apply web_bind_done in H1 as (target & w2 & _ & [H1 ->]%pure_web_done).
    apply set_session_cookies_ok in H1 as ->. split; [done|]. by exists (is_csrf_token issued).
  - apply web_bind_done in H1 as (csrf & w2 & _ & H1).
    apply web_bind_done in H1 as (target & w3 & _ & [H1 ->]%pure_web_done).
    apply set_auth_cookie_ok in H1 as [-> _]. split; [done|]. by exists csrf.
Qed.

Lemma callback_with_code_done pid state code request name w r w' :
  callback_with_code auth_settings oidc_settings is_ipv6 utf8_decode pid state code request name w
  = (Done r, w') ->
  (exists name', clears_only name' r /\ (name' = name \/ exists st, state = Some st
       /\ name' = Some (oidc_binding_cookie_name_for_state st)))
  \/ exists st cd result w1, state = Some st /\ code = Some cd
       /\ code_callback auth_settings oidc_settings pid st cd request w = (Ok result, w1)
       /\ rs_status r = 303 /\ exists csrf, rs_cookies r
           = match cb_issued_session result with
             | Some issued => [session_cookie_of (is_session_token issued)]
             | None => []
             end ++ [csrf_cookie_of csrf;
                     mkCookie (oidc_binding_cookie_name_for_state st) "" true "lax" secure "/" 0].
Proof.
  unfold callback_with_code. destruct state as [st|], code as [cd|];
    try (intros [Hr _]%pure_web_done; left; exists name; split; [by eapply callback_failure_clears|by left]).
  unfold catching. destruct (code_callback _ _ _ _ _ _ w) as [[result|e] w1] eqn:Ec.
  - intros [Hs Hck]%callback_success_cookies. right. exists st, cd, result, w1. by split_and!.
  - intros [Hr _]%pure_web_done. left. eexists. split; [by eapply callback_failure_clears|]. right. eauto.
Qed.

(** C31. No session cookie comes out of the OpenID Connect callback without a completed
    flow.  Whatever the provider or the browser sent, an answer is a redirect with
    status 303; its cookies are either at most the cleared binding cookie of the flow,
    or those of a callback the use case completed: the tokens of the session it
    issued, if it issued one, a CSRF token and the cleared binding cookie. *)
Theorem callback_cookies pid state code error request w r w' :
  complete_oidc_callback auth_settings oidc_settings is_ipv6 utf8_decode pid state code error request w
  = (Done r, w') ->
  rs_status r = 303
  /\ ((exists n, rs_cookies r = [] \/ rs_cookies r = [mkCookie n "" true "lax" secure "/" 0])
      \/ exists st cd result w1, error = None /\ state = Some st /\ code = Some cd
           /\ code_callback auth_settings oidc_settings pid st cd request w = (Ok result, w1)
           /\ exists csrf, rs_cookies r
               = match cb_issued_session result with
                 | Some issued => [session_cookie_of (is_session_token issued)]
                 | None => []
                 end ++ [csrf_cookie_of csrf;
                         mkCookie (oidc_binding_cookie_name_for_state st) "" true "lax" secure "/" 0]).
Proof.
  assert (forall name r, clears_only name r -> rs_status r = 303 /\
    exists n, rs_cookies r = [] \/ rs_cookies r = [mkCookie n "" true "lax" secure "/" 0]) as Hclear.
  { intros [n|] r0 [Hs Hck]; (split; [done|]); [exists n; by right|exists ""%string; by left]. }
  unfold complete_oidc_callback. destruct error as [er|].
  - destruct state as [st|].
    + unfold catching. destruct (error_callback _ _ _ _ _ w) as [res w1] eqn:Ee.
      destruct (error_callback_raises _ _ _ _ _ _ Ee) as [e ->].
      intros [Hr _]%pure_web_done. apply callback_failure_clears, Hclear in Hr as [Hs Hck].
      split; [done|by left].
    + intros [Hr _]%pure_web_done. apply callback_failure_clears, Hclear in Hr as [Hs Hck].
      split; [done|by left].
  - intros [(name & Hc & _)|(st & cd & result & w1 & -> & -> & Hc & Hs & Hck)]%callback_with_code_done.
    + apply Hclear in Hc as [Hs Hck]. split; [done|by left].
    + split; [done|]. right. exists st, cd, result, w1. by split_and!.
Qed.
End Spec.

(** The e-mail a provider vouches for is not checked to be one. *)
Lemma any_verified_email_trusted provider claims email :
  trust_verified_email provider = true -> cl_email_verified claims = true -> cl_email claims = Some email ->
  normalize_email email <> ""%string -> trusted_verified_email provider claims = Ok (normalize_email email).
Proof.
  intros Ht Hv He Hne. unfold trusted_verified_email. rewrite He, Ht, Hv. cbn [negb orb].
  by rewrite (proj2 (truthy_spec _) Hne).
Qed.

(** ** Instances *)

Definition demo_cookies : gmap string string :=
  {["session_token"%string := "ann-token"%string]}.
Definition demo_request (cookies : gmap string string) (headers : list (string * string)) : Request :=
  mkRequest "POST" "/api" "" "/api" (Some "10.0.0.1"%string) cookies headers.

Lemma merge_redirect_query_ok_witness :
  exists q, dict_get "oidc_error" (parse_qsl latin1_decode q) = Some "OIDC_STATE_MISMATCH"%string
    /\ dict_get "page" (parse_qsl latin1_decode q) = Some "a&b"%string.
Proof.
  destruct (merge_redirect_query_ok (fun _ => false) latin1_decode "/items?page=a%26b&oidc_reauth=success#top"
    (failure_updates (OidcError OidcStateMismatchError))
    "/items?page=a%26b&oidc_error=OIDC_STATE_MISMATCH#top" latin1_round_trip) as (parsed & q & Hp & _ & Hq);
    [vm_compute; reflexivity|].
  exists q. rewrite !Hq. vm_compute in Hp. injection Hp as <-. split; vm_compute; reflexivity.
Defined.

Lemma login_cookies_witness :
  exists r w' token csrf,
    login_endpoint default_auth_settings "Ann@example.com" "correct horse battery" (demo_request ∅ []) demo_world
    = (Done r, w') /\ rs_cookies r = [session_cookie_of default_auth_settings token;
                                      csrf_cookie_of default_auth_settings csrf].
Proof.
  set (run := login_endpoint default_auth_settings "Ann@example.com" "correct horse battery"
    (demo_request ∅ []) demo_world).
  assert (exists r, run.1 = Done r) as [r Hr] by (eexists; vm_compute; reflexivity).
  assert (run = (Done r, run.2)) as Hrun by (rewrite <- Hr; apply surjective_pairing).
  destruct (login_cookies default_auth_settings "Ann@example.com" "correct horse battery" (demo_request ∅ [])
    demo_world r run.2 (world_of_idle _) demo_db_ok Hrun) as (token & csrf & u & k & s & Hck & _).
  exists r, run.2, token, csrf. split; [exact Hrun|exact Hck].
Defined.

(** A browser that completes the login flow of [login_state]. *)
Definition flow_request : Request :=
  demo_request {["oidc_binding_sha256:st"%string := "bind"%string]} [].

Lemma callback_cookies_witness :
  exists r w', complete_oidc_callback default_auth_settings demo_oidc_settings (fun _ => false) latin1_decode
    "acme" (Some "st"%string) (Some "c"%string) None flow_request (world_of demo_identity_db) = (Done r, w')
    /\ rs_status r = 303 /\ length (rs_cookies r) = 3%nat.
Proof.
  set (run := complete_oidc_callback default_auth_settings demo_oidc_settings (fun _ => false) latin1_decode
    "acme" (Some "st"%string) (Some "c"%string) None flow_request (world_of demo_identity_db)).
  assert (exists r, run.1 = Done r /\ length (rs_cookies r) = 3%nat) as (r & Hr & Hlen)
    by (eexists; split; vm_compute; reflexivity).
  assert (run = (Done r, run.2)) as Hrun by (rewrite <- Hr; apply surjective_pairing).
  destruct (callback_cookies _ _ _ _ _ _ _ _ _ _ _ _ Hrun) as [Hs _].
  exists r, run.2. split; [exact Hrun|split; [exact Hs|exact Hlen]].
Defined.
