(* ===== verification/OidcStartSpec.v ===== *)
(** * What the start of an OpenID Connect flow does

    The effect of [start_authorization], and that the state it stores is the one
    the callback of the same browser finds and accepts. *)

From S2P Require Import Prelude PyStr Errors Time Url Tables Effects UnitOfWork Preserve.
From S2P Require Import Settings Authorization Interfaces AuthRepository.
From S2P Require Import AuthorizationRepository SampleItemRepository Runs Integrity Lookups.
From S2P Require Import AuthUsecase AuthUsecaseSpec OAuthOidcUsecase OidcSpec Demo.

Section Spec.
Context `{E : Env} {L : Type} `{R : LoginRateLimiter L} `{P : OidcProviderClient L}.
Context (oidc_settings : OidcSettings) (is_ipv6 : string -> bool).
Implicit Types (x : World L) (b : bool) (c d : DB).

Lemma configured_provider_inv pid w w' (provider : OidcProviderSettings) :
  (configured_provider oidc_settings pid : M L _) w = (Ok provider, w') ->
  get_provider oidc_settings pid = Ok provider /\ w' = w.
Proof.
  unfold configured_provider, try_except. rewrite lift_run.
  destruct (get_provider oidc_settings pid) as [p|e]; [by intros [= -> ->]|].
  by destruct e.
Qed.

Lemma state_of_lookup d k o :
  db_ok d -> oidc_states d !! k = Some o -> state_of d (o_state_hash o) = Some o.
Proof.
  intros Hd Hk. unfold state_of. rewrite (select_unique _ _ k o); [done|done|by apply String.eqb_eq|].
  intros k' o' Hk' He%String.eqb_eq. by eapply state_unique.
Qed.

(** The state a flow starts with: random values of the token source, stored as
    hashes, bound to the purpose, the account and the session that asked. *)
Record started (provider : OidcProviderSettings) (purpose : oidc_purpose)
    (current : option AuthenticatedSessionContext) (lang : option string)
    (path : string) (n : nat) (now : Z) (o : AuthOidcState) : Prop := {
  st_hashes : o_state_hash o = hash_token (env_token n)
    /\ o_browser_binding_hash o = hash_token (env_token (S n))
    /\ o_nonce_hash o = hash_token (env_token (S (S n)))
    /\ o_pkce_verifier o = env_token (S (S (S n)));
  st_provider : o_provider_id o = provider_id provider;
  st_purpose : o_purpose o = purpose;
  st_expected : o_expected_user_id o = (fun ctx => u_id (ctx_user ctx)) <$> current
    /\ o_expected_session_id o = (fun ctx => s_id (ctx_session ctx)) <$> current;
  st_path : o_redirect_path o = path;
  st_language : o_language_code o = if is_login purpose then lang else None;
  st_life : o_consumed_at o = None
    /\ o_expires_at o = stored (now + timedelta_seconds (AUTH_OIDC_STATE_TTL_SECONDS oidc_settings));
}.

(** What the provider is asked for: the state and nonce themselves, and the digest of
    the verifier. *)
Definition asked (provider : OidcProviderSettings) (purpose : oidc_purpose) (n : nat)
    (rq : OidcAuthorizationRequest) : Prop :=
  rq_provider_id rq = provider_id provider /\ rq_state rq = env_token n
  /\ rq_nonce rq = env_token (S (S n))
  /\ rq_code_challenge rq = s256_code_challenge (env_token (S (S (S n))))
  /\ (is_reauth purpose = true -> rq_prompt rq = Some "login"%string /\ rq_max_age rq = Some 0).

Lemma start_authorization_inv pid redirect purpose current ip lang d w r w1 :
  start_authorization oidc_settings is_ipv6 pid redirect purpose current ip lang (at_db false d d w)
  = (Ok r, w1) ->
  exists provider path o rq l1 x1,
    get_provider oidc_settings pid = Ok provider
    /\ normalize_redirect_path is_ipv6 redirect = Ok path
    /\ (is_reauth purpose = true -> is_some current = true)
    /\ (lim_is_oidc_authorization_allowed (or_else ip "unknown") (w_ext w)).1 = true
    /\ started provider purpose current lang path (w_token w) (env_now (w_clock w)) o
    /\ asked provider purpose (w_token w) rq
    /\ (oc_build_authorization_url rq l1).1 = Ok (sr_authorization_url r)
    /\ sr_browser_binding_cookie_value r = env_token (S (w_token w))
    /\ is_none (oidc_states d !! o_id o) && oidc_state_row_ok d o = true
    /\ w1 = at_db false d (with_oidc_states <[o_id o := o]> d) x1.
Proof.
  unfold start_authorization. cbv zeta.
  intros [(e & _ & ?)|(provider & w2 & [Hp ->]%configured_provider_inv & H)]%bind_inv; [done|].
  destruct (is_reauth purpose && is_none current) eqn:Er; [done|].
  unfold is_oidc_authorization_allowed in H. rewrite bind_run, call_ext_at in H.
  destruct (lim_is_oidc_authorization_allowed _ _) as [[|] l0] eqn:El; cbn [fst snd negb] in H; [|done].
  do 4 rewrite bind_run, generate_token_at in H. rewrite bind_run, utcnow_at in H. cbv zeta in H.
  unfold build_authorization_url in H. rewrite bind_run, call_ext_raising_at in H.
  match type of H with context [oc_build_authorization_url ?q ?l] =>
    destruct (oc_build_authorization_url q l) as [[url|e] l1] eqn:Eu; set (rq := q) in Eu end;
    cbn [fst snd] in H; [|done].
  apply bind_inv in H as [(e & _ & ?)|([] & w2 & (w3 & H & Hw)%transaction_ok_inv & H2)]; [done|].
  rewrite bind_run, uuid4_at in H.
  rewrite bind_run, lift_run in H. destruct (normalize_redirect_path _ _) as [path|e] eqn:En; [|done].
  rewrite bind_run, create_state_at in H.
  match type of H with context [store_oidc_state ?s] => set (o := s) in H end.
  destruct (is_none _ && _) eqn:Eo; [|done].
  unfold record_oidc_authorization in H. rewrite call_ext_at in H. injection H as _ <-.
  rewrite ret_run in H2. injection H2 as <- <-.
  match type of Eu with oc_build_authorization_url _ ?l = _ =>
    exists provider, path, (store_oidc_state o), rq, l end. eexists.
  split_and!; [done|done| |done|by split| |by rewrite Eu|done|done|by apply Hw].
  - intros Hr. rewrite Hr in Er. by destruct current.
  - unfold asked, rq. split_and!; [done..|]. intros Hr. simpl. by rewrite Hr.
Qed.

(** Starting an OpenID Connect flow stores exactly one new state, made of fresh
    random values kept as hashes, and sends the provider the state, the nonce and
    the challenge of the same flow; and the loop closes: until the state expires, a
    callback with that state and the cookie that was set is accepted, and carries
    the purpose, the account, the session and the path the flow was started with. *)
Theorem start_then_callback pid redirect purpose current ip lang (w w1 : World L) r :
  idle w -> db_ok (w_committed w) ->
  start_authorization oidc_settings is_ipv6 pid redirect purpose current ip lang w = (Ok r, w1) ->
  exists provider path o rq l1,
    let n := w_token w in
    get_provider oidc_settings pid = Ok provider
    /\ normalize_redirect_path is_ipv6 redirect = Ok path
    /\ (is_reauth purpose = true -> is_some current = true)
    /\ started provider purpose current lang path n (env_now (w_clock w)) o
    /\ asked provider purpose n rq
    /\ (oc_build_authorization_url rq l1).1 = Ok (sr_authorization_url r)
    /\ oidc_states (w_committed w) !! o_id o = None
    /\ w_committed w1 = with_oidc_states <[o_id o := o]> (w_committed w)
    /\ idle w1
    /\ forall w2 : World L, idle w2 -> w_committed w2 = w_committed w1 ->
         env_now (w_clock w2) < o_expires_at o ->
         exists w3, consume_callback_state provider (env_token n)
                      (Some (sr_browser_binding_cookie_value r)) w2
                    = (Ok (set_consumed (stored (env_now (w_clock w2))) o), w3).
Proof.
  intros Hidle Hd. rewrite (idle_at w Hidle). set (d := w_committed w) in *. clearbody d.
  change (w_committed (at_db false d d w)) with d.
  intros (provider & path & o & rq & l1 & x1 & Hp & Hn & Hr & _ & Hs & Ha & Hu & Hb & Ho & ->)%start_authorization_inv.
  apply andb_true_iff in Ho as [Hk%is_none_true Hrow].
  exists provider, path, o, rq, l1. cbv zeta. split_and!; try done.
  intros w2 Hi2 Hc Hlive. rewrite (idle_at w2 Hi2), Hc.
  set (d1 := w_committed _). assert (db_ok d1) as Hd1 by (by apply db_ok_states_insert).
  destruct (consume_callback_state_cases provider (env_token (w_token w))
    (Some (sr_browser_binding_cookie_value r)) d1 d1 w2 Hd1)
    as (x' & _ & Hcases).
  destruct Hs as [(Eh & Eb & _) Epid _ _ _ _ [Ec _]].
  assert (state_of d1 (hash_token (env_token (w_token w))) = Some o) as Hst.
  { rewrite <- Eh. apply (state_of_lookup _ (o_id o)); [done|]. simpl. by rewrite lookup_insert_eq. }
  assert (consumable o (sr_browser_binding_cookie_value r) (env_now (w_clock w2))) as Hcons.
  { split_and!; [done..|]. by rewrite Eb, Hb. }
  destruct Hcases as [(ck & o' & _ & Ho' & _ & _ & Heq)|[(ck & o' & _ & Ho' & _ & Hne & _)|[Hno _]]].
  - rewrite Hst in Ho'. injection Ho' as <-. eexists. exact Heq.
  - rewrite Hst in Ho'. injection Ho' as <-. done.
  - exfalso. apply Hno. eauto.
Qed.
End Spec.

(** ** Instance *)

Lemma start_then_callback_witness : exists r w1,
  start_authorization demo_oidc_settings (fun _ => false) "acme" (Some "/app/notes"%string) PurposeLogin
    None None (Some "ja"%string) (world_of demo_db) = (Ok r, w1) /\ idle w1.
Proof.
  eexists _, _.
  assert ((start_authorization demo_oidc_settings (fun _ => false) "acme" (Some "/app/notes"%string)
    PurposeLogin None None (Some "ja"%string) (world_of demo_db)).1 = Ok _) as H
    by (vm_compute; reflexivity).
  apply run_eq in H. split; [exact H|].
  destruct (start_then_callback _ _ _ _ _ _ _ _ _ _ _ (world_of_idle _) demo_db_ok H)
    as (provider & path & o & rq & l1 & _ & _ & _ & _ & _ & _ & _ & _ & Hi & _). exact Hi.
Defined.
