(* ===== verification/Histories.v ===== *)
(** * What holds along every history

    The theorems on sequences of requests: the integrity of the database, that
    a session that was revoked, an account that was deleted and an authorization
    state that was used stay so, whatever requests follow, and how long sessions
    live.  First the requests themselves and the step from one to the next. *)

From S2P Require Import Prelude PyStr Errors Time Tables Effects UnitOfWork Preserve Url.
From S2P Require Import Settings Authorization RateLimiter Interfaces AuthRepository.
From S2P Require Import AuthorizationRepository AdminUserRepository SampleItemRepository Runs.
From S2P Require Import Integrity Lookups AuthUsecase AccountDeletionUsecase.
From S2P Require Import AuthorizationUsecase AdminUserUsecase SampleItemUsecase.
From S2P Require Import OAuthOidcUsecase AuthUsecaseSpec Closure SessionSpec AccountSpec.
From S2P Require Import OidcSpec Demo DatabaseConfig Manage.

(** ** Sequences of requests

    A request is one call of a use case, a maintenance method of a repository or a
    command, from the world between two requests; [step] runs one, with any arguments,
    and histories are [rtc step].  Invariants that the statements keep hold along every
    history ([history_preserves]); the instances here are the integrity of the
    database, and that what ended (a session, an account, an authorization state)
    stays ended. *)

Inductive request :=
| ReqIssueCsrf (token : option string)
| ReqValidateCsrf (token csrf : string) (ip ua : option string)
| ReqRegister (email password language : string) (token ip ua : option string)
| ReqUpdateMe (ctx : AuthenticatedSessionContext) (changes : AuthUserUpdateChanges)
| ReqLogin (email password : string) (token ip ua : option string)
| ReqAuthenticate (token ip ua : option string)
| ReqLogout (token ip ua : option string)
| ReqDeleteAccount (ctx : AuthenticatedSessionContext) (email : string) (password ip ua : option string)
| ReqReplaceRoles (ctx : AuthenticatedSessionContext) (uid : Z) (roles : list string) (ip ua : option string)
| ReqAdminCreate (ctx : AuthenticatedSessionContext) (email password : string) (active : bool)
    (roles : list string) (ip ua : option string)
| ReqAdminUpdate (ctx : AuthenticatedSessionContext) (uid : Z) (changes : AdminUserUpdateChanges)
    (ip ua : option string)
| ReqAdminDelete (ctx : AuthenticatedSessionContext) (uid : Z) (ip ua : option string)
| ReqCreateItem (uid : Z) (title : string) (description : option string)
| ReqUpdateItem (uid item : Z) (changes : SampleItemUpdateChanges)
| ReqDeleteItem (uid item : Z)
| ReqStartOidc (pid : string) (redirect : option string) (purpose : oidc_purpose)
    (ctx : option AuthenticatedSessionContext) (ip language : option string)
| ReqOidcCallback (pid state code : string) (binding : option string)
    (ctx : option AuthenticatedSessionContext) (token ip ua : option string)
| ReqOidcError (pid state : string) (binding : option string) (error : exn)
    (ctx : option AuthenticatedSessionContext) (ip ua : option string)
| ReqPruneSessions (before : Z)
| ReqPruneAuditLogs (before : Z)
| ReqPruneOidcStates (before : Z)
| ReqPruneUnknownRoles (known : gset string)
| ReqListItems (C : CursorCodec) (uid limit : Z) (cursor : option string)
| ReqGetItem (uid item : Z)
| ReqUserAuthorization (uid : Z)
| ReqListUsers (query : AdminUserListQuery) (offset limit : Z)
| ReqGetUser (uid : Z)
| ReqGrantRole (cli : cli_settings) (make_url : string -> option URL)
    (set_drivername : string -> URL -> URL) (email role : string)
| ReqSeedAdmin (cli : cli_settings) (make_url : string -> option URL)
    (set_drivername : string -> URL -> URL)
| ReqPruneAssignments (cli : cli_settings) (make_url : string -> option URL)
    (set_drivername : string -> URL -> URL) (yes : bool).

Section System.
Context `{E : Env} {L : Type} `{R : LoginRateLimiter L} `{P : OidcProviderClient L}.
Context (auth_settings : AuthSettings) (oidc_settings : OidcSettings) (is_ipv6 : string -> bool).

Definition ignore {A} (m : M L A) : M L unit := m ;; mret tt.

Definition handle (r : request) : M L unit :=
  match r with
  | ReqIssueCsrf t => ignore (issue_csrf_token t)
  | ReqValidateCsrf t c ip ua => ignore (validate_session_csrf t c ip ua)
  | ReqRegister e p l t ip ua => ignore (register auth_settings e p l t ip ua)
  | ReqUpdateMe c ch => ignore (update_current_user c ch)
  | ReqLogin e p t ip ua => ignore (login auth_settings e p t ip ua)
  | ReqAuthenticate t ip ua => ignore (authenticate_session auth_settings t ip ua)
  | ReqLogout t ip ua => logout t ip ua
  | ReqDeleteAccount c e p ip ua => delete_account auth_settings oidc_settings c e p ip ua
  | ReqReplaceRoles c u l ip ua => ignore (replace_roles c u l ip ua)
  | ReqAdminCreate c e p a l ip ua => ignore (create_admin_user c e p a l ip ua)
  | ReqAdminUpdate c u ch ip ua => ignore (update_admin_user c u ch ip ua)
  | ReqAdminDelete c u ip ua => delete_admin_user c u ip ua
  | ReqCreateItem u t d => ignore (create_item u t d)
  | ReqUpdateItem u i ch => ignore (update_item u i ch)
  | ReqDeleteItem u i => delete_item u i
  | ReqStartOidc p r pu c ip l =>
      ignore (start_authorization oidc_settings is_ipv6 p r pu c ip l)
  | ReqOidcCallback p s co b c t ip ua =>
      ignore (complete_callback auth_settings oidc_settings p s co b c t ip ua)
  | ReqOidcError p s b e c ip ua => complete_error_callback oidc_settings p s b e c ip ua
  | ReqPruneSessions t => ignore (delete_sessions_expired_before t)
  | ReqPruneAuditLogs t => ignore (delete_audit_logs_occurred_before t)
  | ReqPruneOidcStates t => ignore (delete_oidc_states_expired_before t)
  | ReqPruneUnknownRoles k => ignore (delete_unknown_role_assignments k)
  | ReqListItems _ u l c => ignore (list_items u l c)
  | ReqGetItem u i => ignore (get_item u i)
  | ReqUserAuthorization u => ignore (get_user_authorization u)
  | ReqListUsers q o l => ignore (list_admin_users q o l)
  | ReqGetUser u => ignore (get_admin_user u)
  | ReqGrantRole s mu wd e r => ignore (authz_grant_role s mu wd e r)
  | ReqSeedAdmin s mu wd => ignore (seed_admin s mu wd)
  | ReqPruneAssignments s mu wd y => ignore (authz_prune_unknown_role_assignments s mu wd y)
  end.

Inductive step (w : World L) : World L -> Prop :=
| step_request (r : request) : step w (handle r w).2.

Notation history := (rtc step).

Section Commands.
Context n0 I `{!Steady n0 I}.

Lemma pres_list_items {C : CursorCodec} uid limit cursor :
  preserves n0 I (list_items uid limit cursor : M L _).
Proof. unfold list_items, list_by_owner. closed. Qed.
Lemma pres_get_item uid item : preserves n0 I (get_item uid item : M L _).
Proof. unfold get_item, get_by_id_for_owner. closed. Qed.
Lemma pres_get_user_authorization uid : preserves n0 I (get_user_authorization uid : M L _).
Proof. unfold get_user_authorization, get_user_role_codes, role_codes_for_user. closed. Qed.
Lemma pres_list_admin_users q o l : preserves n0 I (list_admin_users q o l : M L _).
Proof. unfold list_admin_users, list_users. closed. Qed.
Lemma pres_explicit_database s mu wd : preserves n0 I (get_explicit_database_settings s mu wd : M L _).
Proof. unfold get_explicit_database_settings, cli_exit. closed. Qed.
Lemma pres_add_role_to_user source u role : preserves n0 I (add_role source u role : M L _).
Proof. unfold add_role. closed. Qed.
#[local] Hint Resolve pres_explicit_database pres_add_role_to_user : preserve.

Lemma pres_grant_role s mu wd e r : preserves n0 I (authz_grant_role s mu wd e r : M L _).
Proof. unfold authz_grant_role, cli_exit. closed. Qed.
Lemma pres_seed_admin s mu wd : preserves n0 I (seed_admin s mu wd : M L _).
Proof. unfold seed_admin, seed_user, cli_exit. closed. Qed.
Lemma pres_prune_assignments s mu wd y :
  preserves n0 I (authz_prune_unknown_role_assignments s mu wd y : M L _).
Proof.
  unfold authz_prune_unknown_role_assignments, prune_transaction, valid_config_or_exit, cli_exit,
    list_unknown_role_assignments. closed.
Qed.
End Commands.

#[local] Hint Resolve pres_list_items pres_get_item pres_get_user_authorization pres_list_admin_users
  pres_grant_role pres_seed_admin pres_prune_assignments : preserve.

Lemma pres_handle n0 I `{!Closed n0 I} r : preserves n0 I (handle r).
Proof. destruct r; unfold handle, ignore; eauto with preserve; closed. Qed.

Lemma history_preserves I w w' :
  Closed (w_token w) I -> history w w' -> idle w -> I (w_committed w) ->
  I (w_committed w') /\ idle w' /\ (w_token w <= w_token w')%nat.
Proof.
  intros HC Hh [Hl Ht] HI. set (n0 := w_token w) in *.
  assert (world_inv n0 I w' /\ shape w' = shape w) as [[? ? ? ?] Hs].
  - refine (rtc_ind_r (fun w' => world_inv n0 I w' /\ shape w' = shape w) w _ _ _ Hh).
    + split; [|done]. split; [done|by rewrite Ht|by rewrite Hl|done].
    + intros w2 w3 _ [r] [IH1 IH2]. destruct (pres_handle n0 I r w2 IH1) as [H1 H2].
      split; [done|congruence].
  - unfold shape in Hs. rewrite Hl, Ht in Hs. injection Hs as Hs1 Hs2 _.
    split_and!; [done|split|lia].
    + by destruct (w_local w').
    + by destruct (w_tx w').
Qed.
End System.

(** ** What ends stays ended *)

(** The account is deleted. *)
Definition account_deleted (uid : Z) (d : DB) : Prop :=
  exists u, users d !! uid = Some u /\ u_id u = uid /\ is_some (u_deleted_at u) = true.

(** No session of the token can be used: each is revoked. *)
Definition token_revoked (h : string) (d : DB) : Prop :=
  forall k s, sessions d !! k = Some s -> s_session_token_hash s = h ->
    is_some (s_revoked_at s) = true.

(** Every authorization state of the hash is consumed. *)
Definition state_consumed (h : string) (d : DB) : Prop :=
  forall k o, oidc_states d !! k = Some o -> o_state_hash o = h ->
    is_some (o_consumed_at o) = true.

#[export] Instance account_deleted_closed `{Env} n0 uid : Closed n0 (account_deleted uid).
Proof.
  split; [split|..]; try done.
  - intros d u (u0 & Hu & Hid & Hdel) Hn _ _. exists u0. split_and!; [|done..]. simpl.
    rewrite lookup_insert_ne; [done|]. intros Heq. rewrite Heq in Hn. congruence.
  - intros d k u u' (u0 & Hu & Hid & Hdel) Hk (H1 & _ & H3) _.
    destruct (decide (k = uid)) as [->|Hne].
    + exists u'. simpl. rewrite lookup_insert_eq. split_and!; [done|congruence|].
      rewrite H3. congruence.
    + exists u0. simpl. by rewrite lookup_insert_ne.
  - intros d p t (u0 & Hu & Hid & Hdel). exists (if p u0 then set_user_modified t u0 else u0).
    simpl. split_and!; [by apply lookup_update_where_Some|by destruct (p u0)..].
  - intros d k t (u0 & Hu & Hid & Hdel). exists u0. split_and!; [|done..]. simpl.
    rewrite (lookup_update_where_Some _ _ _ _ _ Hu).
    assert (deletable k u0 = false) as ->; [|done].
    unfold deletable. unfold is_some in Hdel. apply negb_true_iff in Hdel. rewrite Hdel.
    apply andb_false_r.
Qed.

Lemma token_revoked_closed `{Env} n0 h :
  ~ generated n0 h -> Closed n0 (token_revoked h).
Proof.
  intros Hh. split; [split|..]; try done.
  - intros d k s s' Hd Hk (_ & _ & Ht & _ & _ & _ & Hr) _ j s1. simpl.
    intros [[<- <-]|[_ Hj]]%lookup_insert_Some; [|by eauto].
    intros Hs. apply Hr. eapply Hd; [done|congruence].
  - intros d p t Hd k s. simpl. rewrite lookup_update_where.
    destruct (sessions d !! k) as [s0|] eqn:Ek; [|done]. intros [= <-].
    destruct (p s0); [done|]. by eauto.
  - intros d p Hd k s. simpl. intros [Hk _]%lookup_delete_where. by eauto.
  - intros d s ip Hd _ _ Hg k s'. simpl. intros [[<- <-]|[_ Hk]]%lookup_insert_Some; [|by eauto].
    simpl. intros <-. done.
  - intros d k s a b Hd Hk _ j s1. simpl. intros [[<- <-]|[_ Hj]]%lookup_insert_Some; [|by eauto].
    simpl. by eauto.
Qed.

Lemma state_consumed_closed `{Env} n0 h :
  ~ generated n0 h -> Closed n0 (state_consumed h).
Proof.
  intros Hh. split; [split|..]; try done.
  - intros d o Hd _ _ Hg k o'. simpl. intros [[<- <-]|[_ Hk]]%lookup_insert_Some; [|by eauto].
    simpl. intros <-. done.
  - intros d k o o' Hd Hk (_ & Ht & _ & Hr) _ j o1. simpl.
    intros [[<- <-]|[_ Hj]]%lookup_insert_Some; [done|by eauto].
  - intros d p Hd k o. simpl. intros [Hk _]%lookup_delete_where. by eauto.
Qed.

Section Histories.
Context `{E : Env} {L : Type} `{R : LoginRateLimiter L} `{P : OidcProviderClient L}.
Context (auth_settings : AuthSettings) (oidc_settings : OidcSettings) (is_ipv6 : string -> bool).
Notation history := (rtc (step auth_settings oidc_settings is_ipv6)).
Implicit Types (w : World L) (d : DB).

(** C1. The integrity of the database (rows under their own keys, foreign keys, unique
    e-mails of undeleted accounts, unique token and state hashes, one role once per
    user) survives every sequence of requests, failed ones included, and no
    transaction or session stays open. *)
Theorem integrity_invariant w w' :
  history w w' -> idle w -> db_ok (w_committed w) -> db_ok (w_committed w') /\ idle w'.
Proof. intros Hh Hi Hd. by destruct (history_preserves _ _ _ db_ok w w' _ Hh Hi Hd) as (? & ? & _). Qed.

(** ** Sessions *)

Lemma token_revoked_authenticate tok ip ua c d x ctx w' :
  db_ok d -> token_revoked (hash_token tok) d ->
  authenticate_session auth_settings (Some tok) ip ua (at_db false c d x) = (Ok (Some ctx), w') -> False.
Proof.
  intros Hd Hr H. apply authenticate_inv in H as (tok' & s & u & [= <-] & _ & Hs & _); [|done].
  destruct (active_session_of_Some _ _ _ _ Hd Hs) as (Hk & Hh & Hn & _).
  specialize (Hr _ _ Hk Hh). by rewrite Hn in Hr.
Qed.

Lemma token_revoked_intro d s s' h :
  db_ok d -> sessions d !! s_id s = Some s -> s_session_token_hash s = h ->
  is_some (s_revoked_at s') = true ->
  token_revoked h (with_sessions <[s_id s := s']> d).
Proof.
  intros Hd Hk Hh Hr k s1. simpl. intros [[_ <-]|[Hne Hk1]]%lookup_insert_Some; [done|].
  intros Hh1. exfalso. apply Hne. by eapply token_unique.
Qed.

(** One request keeps what every history keeps. *)
Lemma request_preserves r w u w1 I :
  Closed (w_token w) I -> handle auth_settings oidc_settings is_ipv6 r w = (u, w1) -> idle w ->
  I (w_committed w) -> I (w_committed w1) /\ idle w1.
Proof.
  intros HC Hr Hi HI. destruct (history_preserves auth_settings oidc_settings is_ipv6 I w w1 HC)
    as (? & ? & _); [|done..].
  apply rtc_once. replace w1 with (handle auth_settings oidc_settings is_ipv6 r w).2 by (by rewrite Hr).
  apply step_request.
Qed.

(** What an end implies later: the invariant after the history. *)
Lemma after_history I w w' :
  Closed (w_token w) I -> history w w' -> idle w -> db_ok (w_committed w) -> I (w_committed w) ->
  w' = at_db false (w_committed w') (w_committed w') w' /\ db_ok (w_committed w') /\ I (w_committed w').
Proof.
  intros HC Hh Hi Hd HI.
  destruct (history_preserves _ _ _ db_ok w w' _ Hh Hi Hd) as (? & ? & _).
  destruct (history_preserves _ _ _ I w w' _ Hh Hi HI) as (? & _). split_and!; [|done..].
  by apply idle_at.
Qed.

(** After the logout of a live session its token is revoked, and stays so. *)
Lemma logout_revokes tok ip ua w w1 s :
  idle w -> db_ok (w_committed w) ->
  active_session_of (w_committed w) (hash_token tok) (env_now (w_clock w)) = Some s ->
  (forall n, (w_token w <= n)%nat -> hash_token (env_token n) <> hash_token tok) ->
  logout (Some tok) ip ua w = (Ok tt, w1) ->
  tok <> "" ->
  idle w1 /\ db_ok (w_committed w1) /\ token_revoked (hash_token tok) (w_committed w1)
  /\ Closed (w_token w1) (token_revoked (hash_token tok)).
Proof.
  intros Hidle Hd Hs Hfresh Hlo Htok.
  destruct (request_preserves (ReqLogout (Some tok) ip ua) w _ w1 db_ok _ Hlo Hidle Hd) as [Hd1 Hi1].
  rewrite (idle_at w Hidle) in Hlo.
  apply (logout_inv tok ip ua _ _ _ s) in Hlo as (a & x' & rev & Ht & Ew1); [|done..].
  destruct (active_session_of_Some _ _ _ _ Hd Hs) as (Hk & Hhash & _).
  split_and!; [done..| |].
  - rewrite Ew1. by apply (token_revoked_intro _ s (set_revoked rev s)).
  - apply token_revoked_closed. intros (n & Hn & Heq). apply (Hfresh n); [|done].
    rewrite Ew1 in Hn. change (w_token (at_db _ _ _ x')) with (w_token x') in Hn. lia.
Qed.

(** Logging out is final: after the logout of a live session, whatever requests
    follow, its token never authenticates a request again. *)
Theorem logout_is_final tok ip ua w w1 w2 s :
  idle w -> db_ok (w_committed w) -> tok <> "" ->
  active_session_of (w_committed w) (hash_token tok) (env_now (w_clock w)) = Some s ->
  (forall n, (w_token w <= n)%nat -> hash_token (env_token n) <> hash_token tok) ->
  logout (Some tok) ip ua w = (Ok tt, w1) ->
  history w1 w2 ->
  forall ip' ua' ctx, (authenticate_session auth_settings (Some tok) ip' ua' w2).1 <> Ok (Some ctx).
Proof.
  intros Hidle Hd Htok Hs Hfresh Hlo Hh ip' ua' ctx Ha.
  destruct (logout_revokes tok ip ua w w1 s) as (Hi1 & Hd1 & Hr1 & Hcl); [done..|].
  destruct (after_history (token_revoked (hash_token tok)) w1 w2) as (Ew & Hd2 & Hr2); [done..|].
  rewrite Ew in Ha. destruct (authenticate_session _ _ _ _ _) as [o w3] eqn:Ea. simpl in Ha. subst o.
  by eapply token_revoked_authenticate in Ea.
Qed.

(** ** Accounts *)

Lemma deleted_not_by_email uid em u d :
  db_ok d -> account_deleted uid d -> user_by_email d em = Some u -> u_id u <> uid.
Proof.
  intros Hd (u0 & Hu & _ & Hdel) (Hk & _ & Hn)%user_by_email_Some <-; [|done].
  simplify_eq. by rewrite Hn in Hdel.
Qed.

Lemma deleted_not_resolved provider claims d u i ev d1 uid :
  db_ok d -> account_deleted uid d -> resolves provider claims d u i ev d1 -> u_id u <> uid.
Proof.
  intros Hd Hdel Hr. destruct Hr as [u i _ Hu Hn _|u i em _ _ _ Hu _ _ _ _ _|u i em _ _ _ _ Hn _ _ _ _ _ _ _ _].
  - destruct Hdel as (u0 & Hu0 & _ & Hdel). intros <-.
    rewrite (ok_users_keyed _ Hd _ _ Hu) in Hu0. simplify_eq. by rewrite Hn in Hdel.
  - by eapply deleted_not_by_email.
  - destruct Hdel as (u0 & Hu0 & _). intros <-. congruence.
Qed.

(** C2. Deleting an account is final: after it, whatever requests follow, no request is
    authenticated as that account, and neither a password login nor an OpenID
    Connect login issues a session for it. *)
Theorem account_deletion_is_final ctx0 email pw ip ua w w1 w2 :
  idle w -> db_ok (w_committed w) ->
  delete_account auth_settings oidc_settings ctx0 email pw ip ua w = (Ok tt, w1) ->
  history w1 w2 ->
  let uid := u_id (ctx_user ctx0) in
  (forall t ip ua ctx w3,
     authenticate_session auth_settings t ip ua w2 = (Ok (Some ctx), w3) -> u_id (ctx_user ctx) <> uid)
  /\ (forall em p t ip ua r w3,
     login auth_settings em p t ip ua w2 = (Ok r, w3) -> u_id (is_user r) <> uid)
  /\ (forall pid st code ck cur t ip ua r iss w3,
     complete_callback auth_settings oidc_settings pid st code ck cur t ip ua w2 = (Ok r, w3) ->
     cb_issued_session r = Some iss -> u_id (is_user iss) <> uid).
Proof.
  intros Hidle Hd Hdel Hh uid.
  destruct (request_preserves (ReqDeleteAccount ctx0 email pw ip ua) w _ w1 db_ok _ Hdel Hidle Hd)
    as [Hd1 Hi1].
  rewrite (idle_at w Hidle) in Hdel.
  apply delete_account_inv in Hdel as (_ & (t0 & [(u0 & Hu0 & Hdel0) _]) & _); [|done].
  destruct (after_history (account_deleted uid) w1 w2) as (Ew & Hd2 & Hr2); [apply _|done..| |].
  { exists u0. split_and!; [done|by eapply ok_users_keyed|done]. }
  rewrite Ew. set (d2 := w_committed w2) in *. clearbody d2. split_and!.
  - intros t ip' ua' ctx w3 Ha. pose proof Ha as (tok & s & u & -> & Ho)%authenticate_inv; [|done].
    rewrite (authenticate_opens _ _ _ _ _ _ _ _ _ Hd2 Ho) in Ha. injection Ha as <- <-. simpl.
    destruct Ho as (_ & _ & Hu & Hok). destruct Hr2 as (u2 & Hu2 & _ & Hdel2). intros Heq.
    rewrite (ok_users_keyed _ Hd2 _ _ Hu) in Heq. rewrite Heq in Hu. simplify_eq.
    unfold usable in Hok. unfold is_some in Hdel2. apply negb_true_iff in Hdel2. by rewrite Hdel2 in Hok.
  - intros em p t ip' ua' r w3 Hl. apply login_inv in Hl as (u & h & s & d' & x' & -> & He); [|done].
    destruct (le_login _ _ _ _ _ _ _ _ _ _ _ _ _ _ He) as (_ & ->). simpl.
    eapply deleted_not_by_email; [done..|]. apply (le_user _ _ _ _ _ _ _ _ _ _ _ _ _ _ He).
  - intros pid st code ck cur t ip' ua' r iss w3 Hc Hiss.
    apply complete_callback_inv in Hc as (provider & o & claims & x' & _ & _ & Hd3 & Hf); [|done].
    unfold finish_callback in Hf. destruct (is_reauth _).
    { apply complete_reauth_callback_inv in Hf as (?&?&?&?&?&?&?& -> &?); done. }
    apply complete_login_callback_inv in Hf as (u & u' & s & d' & x2 & [(i & ev & d3 & Hres) [la ->] _ _ _] & -> & _); [|done].
    simpl in Hiss. simplify_eq. simpl. by eapply deleted_not_resolved in Hres.
Qed.

(** ** Authorization states *)

Lemma pres_finish_callback n0 I `{!Closed n0 I} provider o claims cur t ip ua :
  preserves n0 I (finish_callback auth_settings oidc_settings provider o claims cur t ip ua : M L _).
Proof.
  unfold finish_callback, complete_reauth_callback, complete_login_callback,
    login_callback_transaction. closed.
Qed.

Lemma state_consumed_intro d o h now :
  db_ok d -> oidc_states d !! o_id o = Some o -> o_state_hash o = h ->
  state_consumed h (state_consumed_at o now d).
Proof.
  intros Hd Hk Hh k o1. simpl. intros [[_ <-]|[Hne Hk1]]%lookup_insert_Some; [done|].
  intros Hh1. exfalso. apply Hne. by eapply state_unique.
Qed.

(** C4. An authorization state works once: after a callback with it succeeded, whatever
    requests follow, every callback with the same state fails and changes nothing. *)
Theorem oidc_state_single_use pid st code ck cur t ip ua w w1 w2 r :
  idle w -> db_ok (w_committed w) ->
  (forall n, (w_token w <= n)%nat -> hash_token (env_token n) <> hash_token st) ->
  complete_callback auth_settings oidc_settings pid st code ck cur t ip ua w = (Ok r, w1) ->
  history w1 w2 ->
  forall pid' code' ck' cur' t' ip' ua', exists e w3,
    complete_callback auth_settings oidc_settings pid' st code' ck' cur' t' ip' ua' w2 = (Raise e, w3)
    /\ w_committed w3 = w_committed w2.
Proof.
  intros Hidle Hd Hfresh Hc Hh pid' code' ck' cur' t' ip' ua'.
  destruct (request_preserves (ReqOidcCallback pid st code ck cur t ip ua) w (Ok tt) w1 db_ok _)
    as [Hd1 Hi1]; [|done..|].
  { simpl. unfold ignore. by rewrite bind_run, Hc. }
  rewrite (idle_at w Hidle) in Hc. set (d := w_committed w) in *.
  apply complete_callback_inv in Hc as (provider & o & claims & x' & Ha & Ht & Hd2 & Hf); [|done].
  assert (~ generated (w_token w) (hash_token st)) as Hg by (intros (n & Hn & Heq); by apply (Hfresh n)).
  destruct Ha as [_ Hst _ _ _]. change (state_of d (hash_token st) = Some o) in Hst.
  apply state_of_Some in Hst as [Hk Hhash]; [|done].
  pose proof (state_consumed_closed _ _ Hg) as Hcl.
  destruct (pres_finish_callback (w_token w) (state_consumed (hash_token st)) provider
    (set_consumed (stored (env_now (w_clock w))) o) claims cur t ip ua
    (at_db false d (state_consumed_at o (env_now (w_clock w)) d) x')) as [[Hr1 _ _ Hn1] _].
  { split; [|done..|simpl; by rewrite Ht]. simpl. by apply state_consumed_intro. }
  rewrite Hf in Hr1, Hn1. simpl in Hr1, Hn1.
  destruct (after_history (state_consumed (hash_token st)) w1 w2) as (Ew & Hd3 & Hr2); [|done..|].
  { apply state_consumed_closed. intros (n & Hn & Heq). apply (Hfresh n); [lia|done]. }
  rewrite Ew. set (d3 := w_committed w2) in *. clearbody d3. unfold complete_callback.
  rewrite bind_run, configured_provider_run.
  destruct (get_provider oidc_settings pid') as [p'|e] eqn:Ep.
  2: { apply get_provider_error in Ep as ->. eexists _, _. split; reflexivity. }
  rewrite bind_run.
  destruct (consume_callback_state_cases p' st ck' d3 d3 w2 Hd3)
    as (x1 & _ & [(c0 & o' & _ & Ho & [Hn _] & _)|[(c0 & o' & _ & Ho & [Hn _] & _)|(_ & e & _ & ->)]]).
  - exfalso. apply state_of_Some in Ho as [Ho1 Ho2]; [|done].
    specialize (Hr2 _ _ Ho1 Ho2). by rewrite Hn in Hr2.
  - exfalso. apply state_of_Some in Ho as [Ho1 Ho2]; [|done].
    specialize (Hr2 _ _ Ho1 Ho2). by rewrite Hn in Hr2.
  - eexists _, _. split; reflexivity.
Qed.
End Histories.

(** ** How long sessions live *)

Section Limits.
Context `{E : Env} {L : Type} `{R : LoginRateLimiter L} `{P : OidcProviderClient L}.
Context (auth_settings : AuthSettings) (oidc_settings : OidcSettings) (is_ipv6 : string -> bool).
Notation history := (rtc (step auth_settings oidc_settings is_ipv6)).
Notation timed := (sessions_timed auth_settings).
Notation absolute_ttl := (timedelta_seconds (AUTH_SESSION_ABSOLUTE_TTL_SECONDS auth_settings)).
Notation idle_ttl := (timedelta_seconds (AUTH_SESSION_IDLE_TTL_SECONDS auth_settings)).
Implicit Types (w : World L) (d : DB).

#[local] Instance timed_steady n0 : Steady n0 timed.
Proof.
  split; try done.
  - intros d k s s' Hd Hk (_ & _ & _ & Hi & Hs & He & _) _. apply map_Forall_insert_2; [|done].
    unfold session_timed. rewrite Hi, Hs, He. exact (Hd _ _ Hk).
  - intros d p t Hd k s. simpl. rewrite lookup_update_where.
    destruct (sessions d !! k) as [s0|] eqn:Ek; [|done]. intros [= <-].
    pose proof (Hd _ _ Ek). by destruct (p s0).
  - intros d p Hd k s. simpl. intros [Hk _]%lookup_delete_where. by eapply Hd.
Qed.

(** A session that is created at one reading of the clock. *)
Lemma timed_create_session n0 uid h c issued ip ua :
  preserves n0 timed (create_session uid h c issued issued
    (calculate_session_expiry auth_settings issued issued) ip ua : M L _).
Proof.
  unfold create_session. preserve. unfold insert_session. preserve. apply preserves_checked.
  intros d Hd _. apply map_Forall_insert_2; [|done].
  split; simpl; [apply stored_idem|]. by rewrite stored_expiry.
Qed.
#[local] Hint Resolve timed_create_session : preserve.

Lemma timed_replace n0 u t ip ua :
  preserves n0 timed (replace_auth_session auth_settings u t ip ua : M L _).
Proof. unfold replace_auth_session. closed. Qed.
#[local] Hint Resolve timed_replace : preserve.

Lemma timed_register n0 e p l t ip ua : preserves n0 timed (register auth_settings e p l t ip ua : M L _).
Proof. unfold register, register_checks, register_transaction. closed. Qed.
Lemma timed_login n0 e p t ip ua : preserves n0 timed (login auth_settings e p t ip ua : M L _).
Proof. unfold login, login_transaction. closed. Qed.
Lemma timed_complete_callback n0 p s co b c t ip ua :
  preserves n0 timed (complete_callback auth_settings oidc_settings p s co b c t ip ua : M L _).
Proof.
  unfold complete_callback, run_callback, complete_reauth_callback, complete_login_callback,
    login_callback_transaction. closed.
Qed.
#[local] Hint Resolve timed_register timed_login timed_complete_callback pres_list_items pres_get_item
  pres_get_user_authorization pres_list_admin_users pres_grant_role pres_seed_admin
  pres_prune_assignments : preserve.

Definition is_authenticate (r : request) : bool :=
  match r with ReqAuthenticate _ _ _ => true | _ => false end.

Lemma timed_handle n0 r :
  is_authenticate r = false -> preserves n0 timed (handle auth_settings oidc_settings is_ipv6 r : M L unit).
Proof. destruct r; try done; intros _; unfold handle, ignore; eauto with preserve; closed. Qed.

(** A transaction whose body keeps a property commits a database that has it. *)
Lemma transaction_keeps {A} (I : DB -> Prop) (m : M L A) d x :
  preserves 0 I m -> I d -> I (w_committed (transaction unit_of_work m (at_db false d d x)).2).
Proof.
  intros Hm Hd. rewrite transaction_at. destruct (m _) as [r w1] eqn:Em.
  destruct (run_in_tx I m d d x r w1 Hm Hd Hd Em) as (d1 & x1 & -> & Hd1). by destruct r.
Qed.
Lemma timed_authenticate tok ip ua d x :
  db_ok d -> timed d ->
  timed (w_committed (authenticate_session auth_settings tok ip ua (at_db false d d x) : result _ * World L).2).
Proof.
  intros Hd Ht. unfold authenticate_session. destruct (truthy_opt tok); cbn [negb]; [|done].
  cbv zeta. rewrite transaction_at, bind_run, find_active_session_ok by done.
  set (x1 := tick_clock x).
  assert (forall (m : M L (option AuthenticatedSessionContext)), preserves 0 timed m ->
    timed (w_committed (match m (at_db true d d x1) with
      | (Ok a, w1) => (Ok a, match w_tx w1 with
                             | Some (_, d1) => set_tx None (set_committed d1 w1)
                             | None => set_tx None w1
                             end)
      | (Raise e, w1) => (Raise e, set_tx None w1)
      end).2)) as Hkeeps.
  { intros m Hm. pose proof (transaction_keeps timed m d x1 Hm Ht) as H. by rewrite transaction_at in H. }
  destruct (active_session_of _ _ _) as [s|] eqn:Es; [|apply Hkeeps; closed].
  destruct (active_session_of_Some _ _ _ _ Hd Es) as (Hk & _).
  rewrite bind_run, find_user_by_id_ok by done.
  destruct (users d !! s_user_id s) as [u|]; [|apply Hkeeps; unfold reject_session; closed].
  destruct (is_some (u_deleted_at u)); [apply Hkeeps; unfold reject_user_sessions; closed|].
  destruct (negb (u_is_active u)); [apply Hkeeps; unfold reject_user_sessions; closed|].
  rewrite bind_run, refresh_session_ok by done. rewrite bind_run, authorization_at, ret_run.
  rewrite w_tx_at, commit_at. by apply refreshed_db_timed.
Qed.

Lemma timed_history w w' :
  history w w' -> idle w -> db_ok (w_committed w) -> timed (w_committed w) -> timed (w_committed w').
Proof.
  intros Hh Hi Hd Ht.
  refine (rtc_ind_r (fun w' => timed (w_committed w')) w Ht _ _ Hh).
  intros w2 w3 H2 [r] IH.
  destruct (history_preserves _ _ _ db_ok w w2 _ H2 Hi Hd) as (Hd2 & Hi2 & _).
  destruct (is_authenticate r) eqn:Er.
  - destruct r; try done. unfold handle, ignore. rewrite bind_run, (idle_at w2 Hi2).
    pose proof (timed_authenticate token ip ua (w_committed w2) w2 Hd2 IH) as H.
    by destruct (authenticate_session _ _ _ _ _) as [[?|?] ?].
  - destruct Hi2 as [Hl Htx]. destruct (timed_handle 0 r Er w2) as [[Hc _ _ _] _]; [|done].
    split; [done|by rewrite Htx|by rewrite Hl|lia].
Qed.

(** The sessions of a token were created at [issued]. *)
Definition issued_at (h : string) (issued : Z) d : Prop :=
  forall k s, sessions d !! k = Some s -> s_session_token_hash s = h -> s_issued_at s = issued.

Lemma issued_at_closed n0 h issued : ~ generated n0 h -> Closed n0 (issued_at h issued).
Proof.
  intros Hh. split; [split|..]; try done.
  - intros d k s s' Hd Hk (_ & _ & Ht & Hi & _) _ j s1. simpl.
    intros [[<- <-]|[_ Hj]]%lookup_insert_Some; [|by eauto].
    intros Hs. rewrite Hi. eapply Hd; [done|congruence].
  - intros d p t Hd k s. simpl. rewrite lookup_update_where.
    destruct (sessions d !! k) as [s0|] eqn:Ek; [|done]. intros [= <-].
    destruct (p s0); simpl; by eauto.
  - intros d p Hd k s. simpl. intros [Hk _]%lookup_delete_where. by eauto.
  - intros d s ip Hd _ _ Hg k s'. simpl. intros [[<- <-]|[_ Hk]]%lookup_insert_Some; [|by eauto].
    simpl. intros <-. done.
  - intros d k s a b Hd Hk _ j s1. simpl. intros [[<- <-]|[_ Hj]]%lookup_insert_Some; [|by eauto].
    simpl. by eauto.
Qed.

(** C33. A session never outlives its limits, whatever requests follow one another.  Along
    every history each stored session expires exactly at the earlier of the absolute
    limit after its creation and the idle limit after its last use, whichever requests
    created it, used it and refreshed it.  No request moves the creation of a session,
    so a session that exists now authenticates nobody any more once the absolute period
    since its creation is over. *)
Theorem session_expiry_bounded w w' :
  history w w' -> idle w -> db_ok (w_committed w) -> timed (w_committed w) ->
  (forall k s, sessions (w_committed w') !! k = Some s ->
     s_expires_at s = Z.min (s_issued_at s + absolute_ttl) (s_last_seen_at s + idle_ttl))
  /\ (forall k s tok ip ua ctx w'',
     sessions (w_committed w) !! k = Some s -> s_session_token_hash s = hash_token tok ->
     (forall n, (w_token w <= n)%nat -> hash_token (env_token n) <> hash_token tok) ->
     authenticate_session auth_settings (Some tok) ip ua w' = (Ok (Some ctx), w'') ->
     stored (env_now (w_clock w')) < s_issued_at s + absolute_ttl).
Proof.
  intros Hh Hi Hd Ht. pose proof (timed_history w w' Hh Hi Hd Ht) as Ht'.
  split; [intros k s Hk; exact (proj2 (Ht' _ _ Hk))|].
  intros k s tok ip ua ctx w'' Hk Hs Hfresh Ha.
  destruct (after_history auth_settings oidc_settings is_ipv6 (issued_at (hash_token tok) (s_issued_at s)) w w')
    as (Ew & Hd' & Hissued); [|done..| |].
  { apply issued_at_closed. intros (n & Hn & Heq). by apply (Hfresh n). }
  { intros k0 s0 Hk0 Hs0. rewrite <- Hs in Hs0. assert (k0 = k) as -> by (by eapply token_unique). by simplify_eq. }
  rewrite Ew in Ha. change (w_clock w') with (w_clock (at_db false (w_committed w') (w_committed w') w')).
  apply authenticate_inv in Ha as (tok' & s' & u & [= <-] & _ & Hs' & _); [|done].
  destruct (active_session_of_Some _ _ _ _ Hd' Hs') as (Hk' & Hh' & _ & Hexp).
  rewrite <- (Hissued _ _ Hk' Hh'). pose proof (proj2 (Ht' _ _ Hk')). simpl in *. lia.
Qed.
End Limits.

(** ** Instances *)

Notation demo_step := (step default_auth_settings demo_oidc_settings (fun _ => false)).

(** A history of the demonstration: somebody logs in, then the sessions are pruned. *)
Definition demo_requests : list request :=
  [ReqLogin "root@example.com" "root password 123" None None None; ReqPruneSessions 0;
   ReqIssueCsrf None].
Definition run_requests (l : list request) w :=
  foldl (fun w r => (handle default_auth_settings demo_oidc_settings (fun _ => false) r w).2) w l.

Lemma run_requests_history l w : rtc demo_step w (run_requests l w).
Proof.
  revert w. induction l as [|r l IH]; intros w; [apply rtc_refl|].
  eapply rtc_l; [apply step_request|apply IH].
Qed.

Lemma integrity_invariant_witness :
  db_ok (w_committed (run_requests demo_requests demo_world)).
Proof.
  apply (integrity_invariant default_auth_settings demo_oidc_settings (fun _ => false) demo_world);
    [apply run_requests_history|apply world_of_idle|apply demo_db_ok].
Defined.

(** Ann's session is used in a history, and still has her account's limits. *)
Definition session_requests : list request :=
  ReqAuthenticate (Some "ann-token"%string) None None :: demo_requests.
Lemma demo_db_timed : sessions_timed default_auth_settings demo_db.
Proof.
  apply map_Forall_insert_2; [split; vm_compute; reflexivity|]. intros k s Hk.
  change ((∅ : gmap Z AuthSession) !! k = Some s) in Hk. by apply lookup_empty_Some in Hk.
Qed.

Lemma session_expiry_bounded_witness :
  (forall k s, sessions (w_committed (run_requests session_requests demo_world)) !! k = Some s ->
     s_expires_at s = Z.min (s_issued_at s + timedelta_seconds 604800) (s_last_seen_at s + timedelta_seconds 86400))
  /\ stored (env_now (w_clock (run_requests session_requests demo_world)))
     < s_issued_at ann_session + timedelta_seconds 604800.
Proof.
  destruct (session_expiry_bounded default_auth_settings demo_oidc_settings (fun _ => false) demo_world
    (run_requests session_requests demo_world) (run_requests_history _ _) (world_of_idle _) demo_db_ok
    demo_db_timed) as [H1 H2].
  split; [exact H1|].
  assert ((authenticate_session default_auth_settings (Some "ann-token"%string) None None
    (run_requests session_requests demo_world)).1 = Ok (Some _)) as Ha by (vm_compute; reflexivity).
  apply run_eq in Ha.
  refine (H2 10 (store_session (Some "10.0.0.1"%string) ann_session) "ann-token"%string None None _ _ _ _ _ Ha);
    [vm_compute; reflexivity|reflexivity|].
  intros n _. unfold hash_token. simpl. intros Heq. discriminate Heq.
Defined.

Definition out_session : AuthSession :=
  mkSession 11 2 "sha256:root-token" "sha256:c" 1785999000000000 1785999000000000
    1786085400000000 None None None None.
Definition out_db : DB := with_sessions <[11 := store_session None out_session]> demo_db.
Lemma out_db_ok : db_ok out_db.
Proof. apply db_ok_sessions_insert; [apply demo_db_ok|done|vm_compute; done]. Qed.

Lemma logout_is_final_witness :
  (authenticate_session default_auth_settings (Some "root-token"%string) None None
     (run_requests demo_requests (logout (Some "root-token"%string) None None (world_of out_db)).2)).1
  <> Ok (Some (AuthContext (store_user root) (store_session None out_session) ∅ ∅)).
Proof.
  apply (logout_is_final default_auth_settings demo_oidc_settings (fun _ => false) "root-token" None None
    (world_of out_db) (logout (Some "root-token"%string) None None (world_of out_db)).2 _
    (store_session None out_session) (world_of_idle _) out_db_ok).
  - discriminate.
  - vm_compute. reflexivity.
  - intros n _. unfold hash_token. simpl. intros Heq. discriminate Heq.
  - apply run_eq. vm_compute. reflexivity.
  - apply run_requests_history.
Defined.

Definition deleted_world : World (InMemory.limiter * nat) :=
  (delete_account default_auth_settings demo_oidc_settings ann_context "ann@example.com"
     (Some "correct horse battery"%string) None None demo_world).2.

Lemma account_deletion_is_final_witness :
  ~ exists r w3, login default_auth_settings "ann@example.com" "correct horse battery" None None None
      (run_requests demo_requests deleted_world) = (Ok r, w3) /\ u_id (is_user r) = 1.
Proof.
  assert ((delete_account default_auth_settings demo_oidc_settings ann_context "ann@example.com"
     (Some "correct horse battery"%string) None None demo_world).1 = Ok tt) as H by (vm_compute; reflexivity).
  apply run_eq in H.
  destruct (account_deletion_is_final default_auth_settings demo_oidc_settings
    (fun _ => false) ann_context "ann@example.com" (Some "correct horse battery"%string) None None
    demo_world deleted_world (run_requests demo_requests deleted_world) (world_of_idle _) demo_db_ok H
    (run_requests_history demo_requests deleted_world)) as (_ & Hl & _).
  intros (r & w3 & Hr & Hid). exact (Hl _ _ _ _ _ _ _ Hr Hid).
Defined.

Definition used_world :=
  (complete_callback default_auth_settings demo_oidc_settings "acme" "st" "code"
     (Some "bind"%string) None None None None (world_of demo_states_db)).2.

Lemma oidc_state_single_use_witness : exists e w3,
  complete_callback default_auth_settings demo_oidc_settings "acme" "st" "code"
    (Some "bind"%string) None None None None (run_requests demo_requests used_world) = (Raise e, w3)
  /\ w_committed w3 = w_committed (run_requests demo_requests used_world).
Proof.
  assert ((complete_callback default_auth_settings demo_oidc_settings "acme" "st" "code"
     (Some "bind"%string) None None None None (world_of demo_states_db)).1 = Ok _) as H
    by (vm_compute; reflexivity).
  apply run_eq in H. fold used_world in H.
  assert (forall n, (w_token (world_of demo_states_db) <= n)%nat ->
    hash_token (env_token n) <> hash_token "st") as Hf
    by (intros n _; unfold hash_token; simpl; intros Heq; discriminate Heq).
  apply (oidc_state_single_use default_auth_settings demo_oidc_settings (fun _ => false)
    "acme" "st" "code" _ _ _ _ _ _ used_world (run_requests demo_requests used_world) _
    (world_of_idle _) demo_states_db_ok Hf H (run_requests_history demo_requests used_world)).
Defined.
