(* ===== verification/WebHistories.v ===== *)
(** * The web layer over time

    Every API request is a history of calls of the use cases, so what holds along
    every history holds along every sequence of API requests and maintenance
    commands; and what it says at the level of responses. *)

From S2P Require Import Prelude PyStr Errors Time Tables Effects UnitOfWork Preserve Url UrlQuery.
From S2P Require Import Settings Authorization RateLimiter Interfaces AuthRepository.
From S2P Require Import AuthorizationRepository AdminUserRepository SampleItemRepository Runs.
From S2P Require Import Integrity Lookups AuthUsecase AccountDeletionUsecase.
From S2P Require Import AuthorizationUsecase AdminUserUsecase SampleItemUsecase OAuthOidcUsecase.
From S2P Require Import AuthUsecaseSpec Closure SessionSpec Histories Http ErrorHandlers.
From S2P Require Import Guards AuthController AdminControllers Application WebSpec AuthControllerSpec Demo.

Section WebHistories.
Context `{E : Env} {L : Type} `{R : LoginRateLimiter L} `{P : OidcProviderClient L} {C : CursorCodec} {V : Pydantic}.
Context (auth_settings : AuthSettings) (oidc_settings : OidcSettings).
Context (is_ipv6 : string -> bool) (utf8_decode : list ascii -> list ascii).
Notation step := (step auth_settings oidc_settings is_ipv6).
Notation history := (rtc step).
Notation handle := (handle auth_settings oidc_settings is_ipv6).
Notation backend := (backend auth_settings oidc_settings is_ipv6 utf8_decode).
Implicit Types (w : World L) (d : DB) (request : Request).

(** ** Computations that are histories *)

Definition call_follows {A} (m : M L A) : Prop := forall w, history w (m w).2.
Definition web_follows {A} (m : Web L A) : Prop := forall w, history w (m w).2.

Lemma follows_request {A} (m : M L A) r : handle r = ignore m -> call_follows m.
Proof.
  intros Hr w. apply rtc_once. replace (m w).2 with (handle r w).2; [apply step_request|].
  rewrite Hr. unfold ignore. rewrite bind_run. by destruct (m w) as [[a|e] w1].
Qed.
Lemma follows_unit_request (m : M L unit) r : handle r = m -> call_follows m.
Proof. intros Hr w. apply rtc_once. rewrite <- Hr. apply step_request. Qed.

Lemma follows_lift {A} (r : result A) : call_follows (lift r).
Proof. intros w. rewrite lift_run. apply rtc_refl. Qed.
Lemma follows_bind {A B} (m : M L A) (f : A -> M L B) :
  call_follows m -> (forall a, call_follows (f a)) -> call_follows (m ≫= f).
Proof.
  intros Hm Hf w. rewrite bind_run. specialize (Hm w). destruct (m w) as [[a|e] w1]; [|done].
  etrans; [exact Hm|apply Hf].
Qed.
Lemma follows_with_client {A} request (call : option string -> option string -> M L A) :
  (forall ip ua, call_follows (call ip ua)) -> call_follows (with_client auth_settings request call).
Proof. intros Hc. apply follows_bind; [apply follows_lift|]. intros ip. apply Hc. Qed.

Lemma web_follows_ret {A} (a : A) : web_follows (mret a).
Proof. intros w. apply rtc_refl. Qed.
Lemma web_follows_pure {A} (r : result A) : web_follows (pure_web r).
Proof. intros w. apply rtc_refl. Qed.
Lemma web_follows_raise {A} e : web_follows (web_raise e : Web L A).
Proof. intros w. apply rtc_refl. Qed.
Lemma web_follows_bind {A B} (m : Web L A) (f : A -> Web L B) :
  web_follows m -> (forall a, web_follows (f a)) -> web_follows (m ≫= f).
Proof.
  intros Hm Hf w. specialize (Hm w). unfold mbind, web_bind. destruct (m w) as [[a|e] w1]; [|done].
  etrans; [exact Hm|apply Hf].
Qed.
Lemma web_follows_calling {A} (m : M L A) to_http : call_follows m -> web_follows (calling m to_http).
Proof. intros Hm w. specialize (Hm w). unfold calling. by destruct (m w) as [[a|e] w1]. Qed.
Lemma web_follows_catching {A} (m : M L A) handler continue :
  call_follows m -> (forall a, web_follows (continue a)) -> web_follows (catching m handler continue).
Proof.
  intros Hm Hc w. specialize (Hm w). unfold catching. destruct (m w) as [[a|e] w1]; [|done].
  etrans; [exact Hm|apply Hc].
Qed.

(** Finds the request a call is. *)
Ltac follows_call :=
  first
    [ eapply (follows_request _ (ReqIssueCsrf _)); reflexivity
    | eapply (follows_request _ (ReqValidateCsrf _ _ _ _)); reflexivity
    | eapply (follows_request _ (ReqRegister _ _ _ _ _ _)); reflexivity
    | eapply (follows_request _ (ReqUpdateMe _ _)); reflexivity
    | eapply (follows_request _ (ReqLogin _ _ _ _ _)); reflexivity
    | eapply (follows_request _ (ReqAuthenticate _ _ _)); reflexivity
    | eapply (follows_unit_request _ (ReqLogout _ _ _)); reflexivity
    | eapply (follows_unit_request _ (ReqDeleteAccount _ _ _ _ _)); reflexivity
    | eapply (follows_request _ (ReqReplaceRoles _ _ _ _ _)); reflexivity
    | eapply (follows_request _ (ReqAdminCreate _ _ _ _ _ _ _)); reflexivity
    | eapply (follows_request _ (ReqAdminUpdate _ _ _ _ _)); reflexivity
    | eapply (follows_unit_request _ (ReqAdminDelete _ _ _ _)); reflexivity
    | eapply (follows_request _ (ReqCreateItem _ _ _)); reflexivity
    | eapply (follows_request _ (ReqUpdateItem _ _ _)); reflexivity
    | eapply (follows_unit_request _ (ReqDeleteItem _ _)); reflexivity
    | eapply (follows_request _ (ReqStartOidc _ _ _ _ _ _)); reflexivity
    | eapply (follows_request _ (ReqOidcCallback _ _ _ _ _ _ _ _)); reflexivity
    | eapply (follows_unit_request _ (ReqOidcError _ _ _ _ _ _ _)); reflexivity
    | eapply (follows_request _ (ReqListItems _ _ _ _)); reflexivity
    | eapply (follows_request _ (ReqGetItem _ _)); reflexivity
    | eapply (follows_request _ (ReqUserAuthorization _)); reflexivity
    | eapply (follows_request _ (ReqListUsers _ _ _)); reflexivity
    | eapply (follows_request _ (ReqGetUser _)); reflexivity ].

Ltac follows :=
  repeat first
    [ apply web_follows_ret | apply web_follows_pure | apply web_follows_raise | apply follows_lift
    | apply web_follows_bind; [|intros ?] | apply web_follows_catching; [|intros ?]
    | apply web_follows_calling | apply follows_with_client; intros ? ?
    | follows_call | apply follows_bind; [|intros ?] ].

Lemma require_current_session_follows request :
  web_follows (require_current_session auth_settings request).
Proof. unfold require_current_session. follows. by destruct a; follows. Qed.

Lemma require_admin_follows request : web_follows (require_admin_access auth_settings request).
Proof.
  apply web_follows_bind; [apply require_current_session_follows|]. intros c. destruct (decide _); follows.
Qed.

Lemma admin_follows c request : web_follows (admin_endpoint auth_settings c request).
Proof.
  destruct c; apply web_follows_bind; try apply require_admin_follows; intros ctx; follows.
Qed.

Lemma sample_follows c request : web_follows (sample_endpoint auth_settings c request).
Proof.
  destruct c; apply web_follows_bind; try apply require_current_session_follows; intros ctx; follows.
Qed.

Lemma callback_with_code_follows pid state code request name :
  web_follows (callback_with_code auth_settings oidc_settings is_ipv6 utf8_decode pid state code request name).
Proof.
  unfold callback_with_code, code_callback, callback_success.
  destruct state, code; follows. destruct (cb_issued_session _); follows.
Qed.

Lemma auth_follows c request :
  web_follows (auth_endpoint auth_settings oidc_settings is_ipv6 utf8_decode c request).
Proof.
  destruct c; unfold auth_endpoint, update_me, get_me, delete_me;
    try (apply web_follows_bind; [apply require_current_session_follows|intros ctx]);
    unfold start_oidc_login, start_oidc_reauth, start_redirect, complete_oidc_callback, error_callback,
      get_csrf, issue_csrf, register_endpoint, login_endpoint, logout_endpoint; follows.
  all: repeat first [apply callback_with_code_follows | case_match; follows].
Qed.

Lemma validate_csrf_follows request : call_follows (validate_csrf auth_settings request).
Proof.
  unfold validate_csrf. cbv zeta. repeat case_match; try (intros w; apply rtc_refl).
  apply follows_bind; [apply follows_lift|intros ip]. apply follows_bind; [follows_call|intros st].
  destruct st; intros w; apply rtc_refl.
Qed.

(** Every API request is a history, whatever it is answered. *)
Lemma backend_follows c request w : history w (backend c request w).2.
Proof.
  assert (forall w0, history w0 (handled (api_endpoint auth_settings oidc_settings is_ipv6 utf8_decode c)
                                   request w0).2) as Happ.
  { intros w0. assert (web_follows (api_endpoint auth_settings oidc_settings is_ipv6 utf8_decode c request))
      as Hf by (destruct c; [apply auth_follows|apply admin_follows|apply sample_follows|follows]).
    specialize (Hf w0). unfold handled. by destruct (api_endpoint _ _ _ _ c request w0) as [[r|[e|e]] w1]. }
  unfold Application.backend, CSRFMiddleware. destruct (negb _); [apply Happ|].
  pose proof (validate_csrf_follows request w) as Hv.
  destruct (validate_csrf _ request w) as [[[r|]|e] w1]; [done| |done]. etrans; [exact Hv|apply Happ].
Qed.

(** ** Servers *)

(** A server answers API requests; beside it, use cases and maintenance commands run. *)
Inductive server_step w : World L -> Prop :=
| server_request c request : server_step w (backend c request w).2
| server_command r : server_step w (handle r w).2.

Lemma server_history w w' : rtc server_step w w' -> history w w'.
Proof.
  induction 1 as [|w w1 w2 [c request|r] _ IH]; [done|..]; (etrans; [|exact IH]).
  - apply backend_follows.
  - apply rtc_once, step_request.
Qed.

(** The endpoints that answer nobody without a session. *)
Definition needs_session (c : api_call) : bool :=
  match c with
  | AuthCall c => match c with GetMe | UpdateMe _ | DeleteMe _ _ => true | _ => false end
  | AdminCall _ | SampleCall _ => true
  | Healthz => false
  end.

Lemma needs_session_gate c request :
  needs_session c = true -> exists f, forall w,
    api_endpoint auth_settings oidc_settings is_ipv6 utf8_decode c request w
    = (require_current_session auth_settings request ≫= f) w.
Proof.
  destruct c as [c|c|c|]; [|intros _|intros _|done].
  - destruct c; try done; intros _; by eexists.
  - assert (exists g, forall w, admin_endpoint (L := L) auth_settings c request w
      = (require_admin_access auth_settings request ≫= g) w) as [g Hg] by (destruct c; by eexists).
    eexists (fun ctx => (if decide ("admin:access"%string ∈ ctx_permissions ctx) then mret ctx
                         else web_raise permission_denied) ≫= g).
    intros w. simpl. rewrite Hg. unfold require_admin_access, require_permission.
    unfold mbind, web_bind. by destruct (require_current_session _ request w) as [[ctx|e] w1].
  - destruct c; by eexists.
Qed.

(** A request whose token is revoked passes no such endpoint. *)
Lemma revoked_session_refused request tok w c w' :
  idle w -> db_ok (w_committed w) -> token_revoked (hash_token tok) (w_committed w) ->
  session_cookie auth_settings request = Some tok ->
  authenticated auth_settings request w <> (Ok (Some c), w').
Proof.
  intros Hidle Hd Hr Htok Ha.
  destruct (authenticated_opens auth_settings request w c w') as (tok' & s & u & Ht & Ho & _); [done..|].
  rewrite Htok in Ht. injection Ht as <-. destruct Ho as (_ & Hs & _).
  destruct (active_session_of_Some _ _ _ _ Hd Hs) as (Hk & Hh & Hn & _).
  specialize (Hr _ _ Hk Hh). by rewrite Hn in Hr.
Qed.

Lemma revoked_refused c request tok w :
  idle w -> db_ok (w_committed w) -> token_revoked (hash_token tok) (w_committed w) ->
  session_cookie auth_settings request = Some tok -> needs_session c = true ->
  rs_status (handled (api_endpoint auth_settings oidc_settings is_ipv6 utf8_decode c) request w).1
    ∈ [401; 500].
Proof.
  intros Hidle Hd Hr Htok Hc. destruct (needs_session_gate c request Hc) as [f Hf].
  unfold handled. rewrite Hf. unfold mbind, web_bind. rewrite require_current_session_run.
  destruct (authenticated _ request w) as [[[ctx|]|e] w1] eqn:Ea.
  - exfalso. by eapply revoked_session_refused.
  - left.
  - right. left.
Qed.

(** C3. Logging out is final, for the server as a whole: once a logout was answered for a
    live session, whatever API requests and maintenance commands follow, no request
    with that session's cookie gets past an endpoint that asks for a session: it is
    answered 401, or 403 by the CSRF check, or 500 where the check itself fails. *)
Theorem logout_over_http request tok s w w1 w2 r :
  idle w -> db_ok (w_committed w) ->
  session_cookie auth_settings request = Some tok -> tok <> "" ->
  active_session_of (w_committed w) (hash_token tok) (env_now (w_clock w)) = Some s ->
  (forall n, (w_token w <= n)%nat -> hash_token (env_token n) <> hash_token tok) ->
  logout_endpoint auth_settings request w = (Done r, w1) ->
  rtc server_step w1 w2 ->
  rs_status r = 204
  /\ forall c request', needs_session c = true -> session_cookie auth_settings request' = Some tok ->
       rs_status (backend c request' w2).1 ∈ [401; 403; 500].
Proof.
  intros Hidle Hd Hcookie Htok Hs Hfresh Hlo Hh%server_history.
  unfold logout_endpoint in Hlo. apply web_bind_done in Hlo as (u & wa & Hlo & H).
  apply web_bind_done in H as (r0 & wb & Hpure & H). injection Hpure as _ <-. injection H as <- <-.
  split; [done|].
  apply calling_done, with_client_ok in Hlo as (ip & _ & Hlo). rewrite Hcookie in Hlo. destruct u.
  destruct (logout_revokes auth_settings oidc_settings is_ipv6 tok ip (ClientIp.get_user_agent request)
    w wa s) as (Hi1 & Hd1 & Hr1 & Hcl); [done..|].
  assert (forall w3, history wa w3 -> idle w3 /\ db_ok (w_committed w3)
    /\ token_revoked (hash_token tok) (w_committed w3)) as Hafter.
  { intros w3 H3. destruct (history_preserves _ _ _ db_ok wa w3 _ H3 Hi1 Hd1) as (? & ? & _).
    by destruct (history_preserves _ _ _ (token_revoked (hash_token tok)) wa w3 Hcl H3 Hi1 Hr1). }
  intros c request' Hc Hcookie'. unfold Application.backend, CSRFMiddleware.
  assert (forall w3, history wa w3 ->
    rs_status (handled (api_endpoint auth_settings oidc_settings is_ipv6 utf8_decode c) request' w3).1
      ∈ [401; 403; 500]) as Happ.
  { intros w3 (Hi3 & Hd3 & Hr3)%Hafter.
    pose proof (revoked_refused c request' tok w3 Hi3 Hd3 Hr3 Hcookie' Hc) as H.
    set (st := rs_status _) in *. clearbody st. set_solver. }
  destruct (negb _); [by apply Happ|].
  pose proof (validate_csrf_follows request' w2) as Hv.
  destruct (Hafter _ Hh) as (Hi2 & Hd2 & _).
  destruct (validate_csrf _ request' w2) as [[[r2|]|e] w3] eqn:Ev.
  - destruct (validate_csrf_refused _ _ _ _ _ Hi2 Hd2 Ev) as [-> _]. right. left.
  - apply Happ. by etrans.
  - right. right. left.
Qed.
End WebHistories.

(** ** Instance *)

Definition logout_request : Request :=
  mkRequest "POST" "/api/auth/logout" "" "/api/auth/logout" (Some "10.0.0.1"%string)
    {["session_token"%string := "root-token"%string]} [].
Definition me_request : Request :=
  mkRequest "GET" "/api/auth/me" "" "/api/auth/me" (Some "10.0.0.1"%string)
    {["session_token"%string := "root-token"%string]} [].

Notation demo_backend := (backend default_auth_settings demo_oidc_settings (fun _ => false) latin1_decode).

Definition logged_out_world := (logout_endpoint default_auth_settings logout_request (world_of out_db)).2.
Definition login_request : Request :=
  mkRequest "GET" "/api/auth/csrf" "" "/api/auth/csrf" (Some "10.0.0.1"%string) ∅ [].
Definition later_world := (demo_backend (AuthCall GetCsrf) login_request logged_out_world).2.

(** Root's cookie opens a session before the logout and none after it, although requests
    came between. *)
Lemma logout_over_http_witness :
  rs_status (demo_backend (AuthCall GetMe) me_request (world_of out_db)).1 = 200
  /\ rs_status (demo_backend (AuthCall GetMe) me_request later_world).1 ∈ [401; 403; 500].
Proof.
  split; [vm_compute; reflexivity|].
  assert (exists r, (logout_endpoint default_auth_settings logout_request (world_of out_db)).1 = Done r)
    as [r Hr] by (eexists; vm_compute; reflexivity).
  apply (logout_over_http default_auth_settings demo_oidc_settings (fun _ => false) latin1_decode
    logout_request "root-token" (store_session None out_session) (world_of out_db) logged_out_world
    later_world r (world_of_idle _) out_db_ok).
  - vm_compute. reflexivity.
  - discriminate.
  - vm_compute. reflexivity.
  - intros n _. unfold hash_token. simpl. intros Heq. discriminate Heq.
  - unfold logged_out_world. rewrite <- Hr. apply surjective_pairing.
  - apply rtc_once. apply server_request.
  - reflexivity.
  - vm_compute. reflexivity.
Defined.
